(* ===== verification/_CoqProject ===== *)
-Q . S2P
Prelude.v
Radix.v
PyStr.v
PyInt.v
Base64.v
Multibase.v
Identifiers.v
Jcs.v
Dicts.v
Sha256.v
PyJson.v
PyRepr.v
JsonBytes.v
Http.v
Crypto.v
Provider.v
Pydantic.v
Credential.v
Status.v
Trust.v
Envelope.v
A2A.v
Retry.v
AgentCard.v
Coroutine.v
Receiver.v
Replay.v
Stores.v
Deployment.v
AsyncReceiver.v
AsyncReplay.v
Csr.v
Url.v
Addressing.v
Tls.v
Onboarding.v
Payment.v
Paywall.v
PaywallProps.v
PaywallHandshake.v
Mcp.v
McpClient.v
Inbox.v
Monitor.v
HermesText.v
Hermes.v
HermesLifecycle.v
HermesConfig.v
HermesHooks.v
Proxy.v
Bridge.v
Intents.v
Decimal.v
Avm.v
HermesPay.v
FileSystem.v
HermesSkills.v
HermesCli.v
HermesPlugin.v
ConfConfig.v
ConfReport.v
ConfFixtures.v
ConfEmit.v
ConfRegen.v
SyncSkills.v
Introduction.v
ShadowPayDemo.v
