(* ===== verification/Prelude.v ===== *)
(** * Shadownet: a verification library

    Shadownet lets personal agents ("Shadows") exchange signed messages.  A
    subject is named by a Shadowname ([ann@acme.example], resolved through DNS
    and a provider's AgentCard) or directly by an Ed25519 key; a sender wraps
    an A2A message in a short-lived signed envelope; the receiver authenticates
    it, refuses replays, looks at the credentials the sender presents and
    routes the message.  [shadownet-x402] puts a paywall in front of a resource
    that is gated by the same credentials.  Agents reach their own sidecar
    through MCP tools, and the plugins of two agent runtimes poll it for
    messages.  A conformance package reads its targets, regenerates signed
    fixtures and reports which requirements of the RFCs the tests covered.  This
    library models the Python SDK ([src/python-sdk/src/shadownet/]), the paywall
    ([src/shadownet-x402/src/shadownet_x402/]), the plugins
    ([src/integrations/plugins/]), the conformance package
    ([src/conformance/src/shadownet_conformance/]), the skill script and two of
    the demos function by function and proves what makes them correct.

    ** How the code is modelled

    - A [str] is the list of its code points, a [bytes] a list of values below
      256, an [int] an integer; dictionaries that keep order are association
      lists ([Jcs]), dictionaries used as maps are [gmap]s.
    - Code that may raise is in the error monad [result] with one constructor
      of [exn] per exception class; [rethrow] is [except C: raise D].  Code
      that changes stores or reads the clock is in the state-and-error monad
      [M W] over a world [W]; changes made before an exception stay.  Coroutines
      ([async def]) are [co W A] (file [Coroutine]): a task runs to its next
      suspension, and other tasks run in between.
    - Protocol classes of the source (stores, resolvers, facilitators) are type
      classes; the clients are proved against their laws ([ReplayCacheLaws],
      [EnvKeeps], [PaywallEnvLaws], ...), and the in-memory implementations are
      proved to satisfy them.
    - Packages outside the repository are interfaces with the documented laws
      the code relies on: [Ed25519], [PyJWT] with [PyJWTLaws] and
      [PyJWTDecodeLaws] ([Crypto]), [Pydantic], [Gzip] ([Status]), [Yaml]
      ([HermesConfig]), [Toml] ([ConfFixtures]), the chain packages [AlgoSdk] and
      [X402Sdk] ([Avm]), the context managers of the [mcp] package [McpSdk] with
      [McpLaws] ([HermesLifecycle]), the sidecar's event log [InboxFeed]
      ([Inbox]), the DNS resolver, [httpx] clients, the MCP session, the agent
      runtime and the facilitator as arguments.  [toy_jwt],
      [toy_ed25519], [strict_pydantic], [toy_gzip] are concrete instances that
      satisfy these laws; the examples run on them.  The Unicode tables are the
      class [PyUnicode].  The standard library is modelled: base64, JSON
      printing and scanning, [int], [repr], [decimal], SHA-256,
      [urllib.parse], [ipaddress], [pathlib] and [shutil].

    ** Files

    Shared: [Prelude] (exceptions, the monads, preservation of relations,
    tactics [res_inv], [M_inv], [bool_prop], [keep]), [Radix], [PyStr],
    [PyInt], [Base64], [PyJson], [PyRepr], [JsonBytes], [Http], [Pydantic],
    [Dicts], [Sha256], [Url], [Decimal], [FileSystem].

    - [Multibase], [Identifiers]: [crypto/multibase.py], [identifiers.py].
    - [Jcs]: [jcs.py].  [Crypto]: [crypto/ed25519.py], [crypto/jwt.py].
    - [Provider]: [provider.py].  [Credential]: [credential.py].
      [Status]: [status.py].  [Trust]: [trust.py].  [Csr]: [csr.py].
    - [Envelope]: [envelope.py].  [A2A], [Retry]: [a2a.py].
      [AgentCard]: [agentcard.py].
    - [Receiver] ([ReceiverPipeline]), [Stores] (the in-memory stores and the
      default callbacks), [AsyncReceiver] and [AsyncReplay]
      ([AsyncReceiverPipeline] and its stores): [receiver.py].  [Replay] and
      [Deployment] hold the properties of the synchronous pipeline, over the
      store laws and over the in-memory stores.
    - [Addressing]: [addressing.py].  [Tls]: [tls.py].
      [Onboarding]: [onboarding.py].
    - [Payment]: [config.py], [requirements.py], [settlement.py],
      [facilitator.py], [pop.py]; [Paywall]: [server.py], [gate.py],
      [nonce.py], [budget.py], [asgi.py], [client.py] of [shadownet_x402];
      [PaywallProps] and [PaywallHandshake] hold their properties.  [Avm]:
      [avm.py].
    - [Mcp]: [mcp/tools.py], [mcp/notifications.py]; a model is an instance of
      [ToolModel], and that it reads back what it writes is [ToolModelLaws].
      [Intents]: [mcp/intents.py].  [McpClient]: [mcp/client.py].
    - [Inbox]: the long-poll loop the plugins share.  [Monitor]:
      [claude-code/monitors/inbound.py].  [Proxy] (where the proxy gets its
      endpoint from) and [Bridge] (the two streams it relays):
      [claude-code/bin/mcp-shadownet-proxy.py].
    - [HermesText], [Hermes], [HermesLifecycle] (connecting, with
      [ShadownetMCPClient.connect]): [shadownet_hermes_plugin/_adapter.py].
      [HermesConfig]: [_env.py], [_mcp_config.py].  [HermesHooks]: [_hooks.py].
      [HermesPay]: [_avm.py], [_shadowpay.py].  [HermesSkills]: [_skills.py].
      [HermesCli]: [_cli.py].  [HermesPlugin]: [__init__.py], [_commands.py].
    - [ConfConfig]: [config.py], [cli.py]; [ConfReport]: [reporters/],
      [_markers.py]; [ConfFixtures]: [fixtures.py], [regen/manifest.py];
      [ConfEmit]: [regen/py_emit/__main__.py]; [ConfRegen]: [regen/cli.py].
    - [SyncSkills]: [integrations/scripts/sync_skills.py].  [Introduction]:
      [examples/birthday-credential-py/birthday_credential.py].
      [ShadowPayDemo]: [shadownet-x402/demo.py].

    ** What is proved

    - Receiving: an accepted message is authentic ([receive_authentic]), its
      route has a reason ([receive_route_justified]), and its envelope is never
      accepted again ([no_replay]), also by concurrent tasks as long as the
      replay cache does not suspend ([no_concurrent_replay]; with one that
      does, [async_replay_race] shows two acceptances).  The asynchronous
      pipeline refines the synchronous one ([async_receive_uninterrupted]).
      Contacts and the credential cache change only as they should
      ([contacts_gained_by_auto_add], [cached_credentials_vetted]); what a
      sender builds is delivered once ([delivered_once]), and a stranger who
      presents a credential of a trusted issuer is put up for review, from the
      signed card to the decision ([birthday_stranger_review]).
    - Envelopes, credentials, cards, CSRs: soundness of verification
      ([verify_envelope_sound], [verify_credential_sound],
      [verify_agent_card_sound], [verify_csr_sound]), what is signed or hashed
      binds ([msg_hash_binding], [card_payload_binds]), what is minted verifies
      ([built_message_verifies], [minted_credential_verifies],
      [signed_card_verifies], [mint_verify_csr]), the authority rules and the
      policy exactly ([authorization_ok], [keyed_issuer_self_attests],
      [satisfies_policy_spec]), status lists as sets ([status_list_is_set]) and
      a revocation check that fails closed, down to the answer of the host
      ([check_revocation_fails_closed]).
    - Canonical forms and names: [canonicalize_iff_equal],
      [canonicalize_total], [encode_public_key_roundtrip],
      [public_key_form_unique], [direct_address_roundtrip],
      [parse_provider_txt_sound], [lookup_provider_record_unique],
      [connect_uri_sound], [problem_roundtrip].
    - Transport: pins ([tofu_one_certificate], [pinned_address_authenticates]),
      retries ([send_with_retries_terminates], [backoff_bounds]).
    - Paywall: [settled_request_sound], [nonce_single_use],
      [budget_never_exceeded], [handshake_settles]; the payment demo, with the
      kill switch and the swapped payee ([payment_demo_holds]); the payment
      command hands the facilitator at most one request, the right one
      ([shadowpay_settles_once], over the trace [SettlementLog]).
    - MCP and plugins: the client refines the sidecar's typed interface
      ([client_refines_sidecar]); the monitor shows every message once
      ([monitor_shows_messages_once]); cooldown and de-duplication hold in every
      run of the adapter ([send_cooldown_respected],
      [notifications_deduplicated]), and it accounts for the sessions it opens
      ([sessions_accounted]); the proxy relays in order and ends when both
      directions have ([bridge_relays_in_order]); the configuration entry
      ([mcp_server_entry_roundtrip]), disconnecting ([logout_disconnects]), the
      skill files ([skills_materialized], [synced_trees_check]) and loading on
      a host that rejects optional arguments ([plugin_loads]).
    - Conformance: regenerating fixtures and checking them agree
      ([regen_check_agree]), emitted status lists decode
      ([emitted_status_decodes]), and the report adds up ([report_adds_up]).

    A statement "or a SHA-256 collision" names the colliding inputs: the hashed
    bytes of the two messages at hand ([hash_collision], [requests_collide]), or
    the two certificates; one message delivered twice is no exception
    ([redelivery_refused]).

    ** Bounds and fuel

    Loops over lists are structural.  Big-integer digits take one step per bit
    plus one ([digits_fuel_enough]); the JSON scanner takes twice the length of
    the text ([need_dumps]); the retry loop takes one unit per attempt, and
    [send_with_retries_terminates] gives the number that is enough (3841 with
    the defaults of the code).  The inbox loops never end; they are cut after a
    number of rounds, and [monitor_shows_messages_once] says how many are enough
    for the events at hand.  The registration of the plugin drops one argument
    per attempt, and one attempt per argument plus one is enough
    ([compat_fuel_enough]).  The clock of a run is a first value and a list of
    non-negative steps: it does not go back, which [time.time()] may do when the
    system clock is set.

    ** Not modelled

    Log output and what scripts print for people; the texts of exceptions that
    nobody inspects; the floats of the retry loop and of the adapter's clock
    (seconds are rationals) and of JSON (kept as literals); HTTP connections, the
    TLS handshake and the SSL context; the calendar texts of [_format_when]; the
    argument parsers; dates in TOML; [..] and links in paths, and what a failing
    [rmtree] had removed before it failed.

    Of the files, [shadownet-x402/demo_telegram.py] (the payment demo with its
    results posted to a chat), the mock sidecar of the OpenClaw harness (canned
    answers of protocol version 0.1), and the conformance tests themselves
    (assertions over HTTP against deployed targets) are left out: they decide
    nothing of their own. *)

From Stdlib Require Export ZArith Lia.
From stdpp Require Export base tactics decidable list gmap sets numbers sorting.
From stdpp Require Import strings.
From Stdlib Require String.
Export String.StringSyntax.

#[global] Open Scope Z_scope.

(** The hint database of the development. *)
Create HintDb shadownet.

(** ** Python strings and bytes

    A [str] is the sequence of its code points, a [bytes] the sequence of its
    values in [0, 255]; both are lists of integers, as [ord] and indexing
    show them. *)

Abbreviation pystr := (list Z).
Abbreviation pybytes := (list Z).

(** [str "..."] writes an ASCII literal as its code points. *)
Definition str (s : String.string) : pystr :=
  map (λ a, Z.of_N (Ascii.N_of_ascii a)) (String.list_ascii_of_string s).
Arguments str s%_string_scope.

Definition py_len {A} (l : list A) : Z := Z.of_nat (length l).

(** ** Exceptions

    The wire errors of the SDK (RFC 7807 codes) and every other exception
    class the modelled code raises, lets through or tests for.  An exception
    carries its message only where the code inspects or forwards it. *)

Inductive wire_class : Type :=
  | ParseError | SignatureError | CredsRequiredError | CredsRejectedError
  | PolicyError | ReplayError | UnknownRecipientError | RateLimitedError.

Inductive exn : Type :=
  (* the language and its standard library *)
  | ValueError | UnicodeEncodeError | UnicodeDecodeError | BinasciiError | JSONDecodeError
  | OSError | EOFError | ZlibError | TypeError | AttributeError | KeyError | IndexError | OverflowError
  | RuntimeError | CancelledError | InvalidOperation | DecimalOverflow | CalledProcessError | TOMLDecodeError
  | OtherException (name : pystr)
  (* third-party packages *)
  | HTTPError | DNSException | InvalidSignature
  | PyJWTError (msg : pystr) | ValidationError (msg : pystr)
  (* shadownet *)
  | MultibaseDecodeError | InvalidIdentifierError
  | EdSignatureError (msg : pystr) | JWTError (msg : pystr)
  | JcsError | EnvelopeError (msg : pystr) | CredentialError | StatusListError
  | ProviderResolutionError | AgentCardError | AgentCardSignatureError
  | TLSPinMismatchError | TransportError | TransportRetryExhausted
  | Wire (c : wire_class)
  | CsrError | CeremonyPendingError (next_url : pystr) | CeremonyFailedError | CsrRateLimitedError
  | ShadowAddressError | ConnectURIError
  | HandoffError | HandoffUnknownError | HandoffExpiredError | HandoffRateLimitedError
  | RefreshError | RefreshInvalidError | RefreshRateLimitedError
  | ToolError (msg : pystr)
  (* shadownet_x402 *)
  | GateError | PoPError | NonceReplayError | BudgetError
  | AmountMismatchError | SettlementError
  (* shadownet_hermes_plugin._avm *)
  | AvmSettlementError (msg : pystr)
  (* shadownet_conformance *)
  | ConformanceError | ConfigError | ManifestError | FixtureMissing.

#[global] Instance wire_class_eq_dec : EqDecision wire_class.
Proof. solve_decision. Defined.
#[global] Instance exn_eq_dec : EqDecision exn.
Proof. solve_decision. Defined.

(** [except C] catches the class [C] and its subclasses. *)
Definition is_ValueError (e : exn) : bool :=
  match e with
  | ValueError | UnicodeEncodeError | UnicodeDecodeError | BinasciiError | JSONDecodeError
  | JcsError | ValidationError _ | TOMLDecodeError => true
  | _ => false
  end.

(** [except Exception]: a cancelled task is not caught. *)
Definition is_Exception (e : exn) : bool := match e with CancelledError => false | _ => true end.

Definition is_AgentCardError (e : exn) : bool :=
  match e with AgentCardError | AgentCardSignatureError => true | _ => false end.

(** [JWTError] is a subclass of [shadownet.crypto.ed25519.SignatureError]. *)
Definition is_EdSignatureError (e : exn) : bool :=
  match e with EdSignatureError _ | JWTError _ => true | _ => false end.

(** [PoPError] is a subclass of [GateError]. *)
Definition is_GateError (e : exn) : bool :=
  match e with GateError | PoPError => true | _ => false end.

(** [str(exc)] for the exceptions whose text is looked at. *)
Definition exn_text (e : exn) : pystr :=
  match e with
  | PyJWTError m | ValidationError m | EdSignatureError m | JWTError m | EnvelopeError m => m
  | _ => []
  end.

(** ** The error monad *)

Inductive result (A : Type) : Type :=
  | Ok (a : A)
  | Raise (e : exn).
Arguments Ok {A} a.
Arguments Raise {A} e.

#[global] Instance result_eq_dec `{EqDecision A} : EqDecision (result A).
Proof. solve_decision. Defined.

#[global] Instance result_ret : MRet result := @Ok.
#[global] Instance result_bind : MBind result := λ A B k m,
  match m with Ok a => k a | Raise e => Raise e end.
#[global] Instance result_fmap : FMap result := λ A B f m,
  match m with Ok a => Ok (f a) | Raise e => Raise e end.

Lemma Ok_inj {A} (a b : A) : Ok a = Ok b → a = b.
Proof. by intros [=]. Qed.
Lemma Raise_inj {A} e e' : @Raise A e = Raise e' → e = e'.
Proof. by intros [=]. Qed.

Definition is_ok {A} (r : result A) : bool :=
  match r with Ok _ => true | Raise _ => false end.

(** [if cond: raise e] *)
Definition raise_if (b : bool) (e : exn) : result unit := if b then Raise e else Ok tt.

(** [try: m except C as exc: raise f(exc)] *)
Definition rethrow {A} (catches : exn → bool) (f : exn → exn) (m : result A) : result A :=
  match m with
  | Ok a => Ok a
  | Raise e => if catches e then Raise (f e) else Raise e
  end.

(** [d[k]] and the like, where absence raises [e]. *)
Definition of_option {A} (e : exn) (o : option A) : result A :=
  match o with Some a => Ok a | None => Raise e end.

(** A comprehension whose element expression may raise. *)
Definition mapM {A B} (f : A → result B) : list A → result (list B) :=
  fix mapM l :=
    match l with
    | [] => Ok []
    | a :: l => b ← f a; bs ← mapM l; Ok (b :: bs)
    end.

Lemma bind_ok {A B} (m : result A) (k : A → result B) b :
  m ≫= k = Ok b ↔ ∃ a, m = Ok a ∧ k a = Ok b.
Proof. destruct m; simpl; naive_solver. Qed.

Lemma bind_raise {A B} (m : result A) (k : A → result B) e :
  m ≫= k = Raise e ↔ m = Raise e ∨ ∃ a, m = Ok a ∧ k a = Raise e.
Proof. destruct m; simpl; naive_solver. Qed.

Lemma raise_if_ok b e u : raise_if b e = Ok u ↔ b = false.
Proof. destruct b, u; naive_solver. Qed.

Lemma rethrow_ok {A} catches f (m : result A) a :
  rethrow catches f m = Ok a ↔ m = Ok a.
Proof. destruct m as [|e]; simpl; [naive_solver|]. destruct (catches e); naive_solver. Qed.

Lemma of_option_ok {A} e (o : option A) a : of_option e o = Ok a ↔ o = Some a.
Proof. destruct o; simpl; naive_solver. Qed.

Lemma mapM_ok {A B} (f : A → result B) l bs :
  mapM f l = Ok bs ↔ Forall2 (λ a b, f a = Ok b) l bs.
Proof.
  revert bs. induction l as [|a l IH]; intros bs; simpl.
  - split; [intros [= <-]; constructor | by inversion 1].
  - rewrite bind_ok. setoid_rewrite bind_ok. split.
    + intros (b & Hb & bs' & Hbs & [= <-]). constructor; [done|]. by apply IH.
    + inversion 1; subst. eexists; split; [done|]. eexists; split; [by apply IH|done].
Qed.

Lemma mapM_ok_map {A B} (f : A → result B) (g : A → B) l :
  Forall (λ a, f a = Ok (g a)) l → mapM f l = Ok (map g l).
Proof. induction 1 as [|a l Ha _ IH]; simpl; [done|]. by rewrite Ha, IH. Qed.

Lemma forallb_Forall {A} (f : A → bool) l : forallb f l = true ↔ Forall (λ a, f a = true) l.
Proof. rewrite forallb_forall, Forall_forall. setoid_rewrite list_elem_of_In. done. Qed.

(** Splits successful runs of a sequence of fallible steps into the successes
    of its steps. *)
Ltac res_inv :=
  repeat match goal with
  | H : Ok _ = Ok _ |- _ => apply Ok_inj in H; try subst
  | H : Raise _ = Raise _ |- _ => apply Raise_inj in H; try subst
  | H : Ok _ = Raise _ |- _ => discriminate H
  | H : Raise _ = Ok _ |- _ => discriminate H
  | H : mret _ = Ok _ |- _ => unfold mret, result_ret in H
  | H : mbind _ _ = Ok _ |- _ => apply bind_ok in H as (?&?&?)
  | H : raise_if _ _ = Ok _ |- _ => apply raise_if_ok in H
  | H : rethrow _ _ _ = Ok _ |- _ => apply rethrow_ok in H
  | H : of_option _ _ = Ok _ |- _ => apply of_option_ok in H
  end.

(** Turns the boolean tests of the code into propositions. *)
Ltac bool_prop :=
  repeat match goal with
  | H : (_ && _)%bool = true |- _ => apply andb_true_iff in H as [? ?]
  | H : (_ || _)%bool = false |- _ => apply orb_false_iff in H as [? ?]
  | H : negb _ = true |- _ => apply negb_true_iff in H
  | H : negb _ = false |- _ => apply negb_false_iff in H
  | H : bool_decide _ = true |- _ => apply bool_decide_eq_true in H
  | H : bool_decide _ = false |- _ => apply bool_decide_eq_false in H
  | H : (_ <? _) = true |- _ => apply Z.ltb_lt in H
  | H : (_ <? _) = false |- _ => apply Z.ltb_ge in H
  | H : (_ <=? _) = true |- _ => apply Z.leb_le in H
  | H : (_ <=? _) = false |- _ => apply Z.leb_gt in H
  | H : (_ =? _) = true |- _ => apply Z.eqb_eq in H
  | H : (_ =? _) = false |- _ => apply Z.eqb_neq in H
  end.

(** ** The state-and-error monad

    Code that mutates stores threads a world [W]; the mutations made before an
    exception stay, as in Python. *)

Definition M (W A : Type) : Type := W → W * result A.

#[global] Instance M_ret W : MRet (M W) := λ A a w, (w, Ok a).
#[global] Instance M_bind W : MBind (M W) := λ A B k m w,
  match m w with
  | (w', Ok a) => k a w'
  | (w', Raise e) => (w', Raise e)
  end.

Definition lift {W A} (r : result A) : M W A := λ w, (w, r).
Definition rethrowM {W A} (catches : exn → bool) (f : exn → exn) (m : M W A) : M W A :=
  λ w, let '(w', r) := m w in (w', rethrow catches f r).

Section M_lemmas.
Context {W A B : Type}.

Lemma M_bind_ok (m : M W A) (k : A → M W B) w w' b :
  (m ≫= k) w = (w', Ok b) ↔ ∃ a w1, m w = (w1, Ok a) ∧ k a w1 = (w', Ok b).
Proof.
  unfold mbind, M_bind. destruct (m w) as [w1 [a|e]]; naive_solver.
Qed.

Lemma M_bind_run (m : M W A) (k : A → M W B) w w1 a : m w = (w1, Ok a) → (m ≫= k) w = k a w1.
Proof. unfold mbind, M_bind. by intros ->. Qed.

Lemma M_bind_lift (r : result A) (k : A → M W B) (w : W) a : r = Ok a → (lift r ≫= k) w = k a w.
Proof. by intros ->. Qed.

Lemma lift_ok (r : result A) (w w' : W) a : lift r w = (w', Ok a) ↔ w' = w ∧ r = Ok a.
Proof. unfold lift. naive_solver. Qed.

Lemma rethrowM_ok catches f (m : M W A) (w w' : W) a :
  rethrowM catches f m w = (w', Ok a) ↔ m w = (w', Ok a).
Proof.
  unfold rethrowM. destruct (m w) as [w1 [x|e]]; simpl; [naive_solver|].
  destruct (catches e); naive_solver.
Qed.

Lemma M_ret_ok (a b : A) (w w' : W) :
  (mret a : M W A) w = (w', Ok b) ↔ w' = w ∧ b = a.
Proof. unfold mret, M_ret. naive_solver. Qed.
End M_lemmas.

Ltac M_inv :=
  repeat match goal with
  | H : mbind _ _ _ = (_, Ok _) |- _ => apply M_bind_ok in H as (?&?&?&?)
  | H : lift _ _ = (_, Ok _) |- _ => apply lift_ok in H as [? ?]; subst
  | H : rethrowM _ _ _ _ = (_, Ok _) |- _ => apply rethrowM_ok in H
  | H : mret _ _ = (_, Ok _) |- _ => apply M_ret_ok in H as [? ?]; subst
  | H : (_, Ok _) = (_, Ok _) |- _ => injection H as ? ?; subst
  | H : (_, Raise _) = (_, Ok _) |- _ => discriminate H
  end.

(** ** Steps that respect a preorder on worlds

    [keeps R m]: however [m] ends, the world it leaves is related to the one
    it found. *)

Section keeps.
Context {W : Type} (R : relation W) `{!PreOrder R}.

Definition keeps {A} (m : M W A) : Prop := ∀ w w' r, m w = (w', r) → R w w'.

Lemma keeps_ret {A} (a : A) : keeps (mret a).
Proof. intros w w' r [= <- _]. reflexivity. Qed.

Lemma keeps_lift {A} (x : result A) : keeps (lift x).
Proof. intros w w' r [= <- _]. reflexivity. Qed.

(** The same from one world, where the results of the steps before are known. *)
Definition keeps_at {A} (w : W) (m : M W A) : Prop := ∀ w' r, m w = (w', r) → R w w'.

Lemma keeps_keeps_at {A} w (m : M W A) : keeps m → keeps_at w m.
Proof. intros Hm. exact (Hm w). Qed.

Lemma keeps_at_bind {A B} w (m : M W A) (k : A → M W B) :
  keeps m → (∀ a w1, m w = (w1, Ok a) → keeps_at w1 (k a)) → keeps_at w (m ≫= k).
Proof.
  intros Hm Hk w' r. unfold mbind, M_bind. destruct (m w) as [w1 [a|e]] eqn:E; intros Hb.
  - transitivity w1; [by eapply Hm|by eapply Hk].
  - injection Hb as <- _. by eapply Hm.
Qed.

Lemma keeps_bind {A B} (m : M W A) (k : A → M W B) : keeps m → (∀ a, keeps (k a)) → keeps (m ≫= k).
Proof. intros Hm Hk w. apply keeps_at_bind; [done|]. intros a w1 _. exact (Hk a w1). Qed.

Lemma keeps_rethrow {A} catches f (m : M W A) : keeps m → keeps (rethrowM catches f m).
Proof.
  intros Hm w w' r. unfold rethrowM. destruct (m w) as [w1 x] eqn:E. intros [= <- _]. by eapply Hm.
Qed.

(** [ends T m]: every run of [m] satisfies [T]; a computation that first only
    keeps [R] can be skipped when [T] absorbs [R]. *)
Definition ends {A} (T : W → W → result A → Prop) (m : M W A) : Prop := ∀ w w' r, m w = (w', r) → T w w' r.

Lemma ends_bind {A B} (T : W → W → result B → Prop) (m : M W A) (k : A → M W B) :
  (∀ w w' e, R w w' → T w w' (Raise e)) → (∀ w w1 w' r, R w w1 → T w1 w' r → T w w' r) →
  keeps m → (∀ a, ends T (k a)) → ends T (m ≫= k).
Proof.
  intros Hraise Habs Hm Hk w w' r. unfold mbind, M_bind. destruct (m w) as [w1 [a|e]] eqn:E; intros Hb.
  - eapply Habs; [by eapply Hm|by eapply Hk].
  - injection Hb as <- <-. eapply Hraise, Hm, E.
Qed.
End keeps.

#[export] Hint Resolve keeps_ret keeps_lift keeps_rethrow : shadownet.

(** Walks through a computation, step by step. *)
Ltac keep :=
  repeat first
    [ match goal with |- keeps _ (_ ≫= _) => apply keeps_bind; [apply _| |intros ?] end
    | match goal with |- keeps _ (match ?x with _ => _ end) => destruct x end
    | match goal with |- keeps _ (if ?x then _ else _) => destruct x end
    | progress cbv zeta ];
  eauto with shadownet typeclass_instances.
