(* ===== verification/Radix.v ===== *)
(** * Positional numbers

    Big-endian digits of a non-negative integer in a base [b], without leading
    zeros, and their value.  [int.from_bytes], [int.to_bytes], [str] of an
    integer and base58 are instances; the two round trips proved here carry
    theirs. *)

From S2P Require Import Prelude.

Definition of_digits (b : Z) (ds : list Z) : Z := foldl (λ n d, n * b + d) 0 ds.

Fixpoint digits_loop (fuel : nat) (b n : Z) (acc : list Z) : list Z :=
  match fuel with
  | O => acc
  | S fuel => if 0 <? n then digits_loop fuel b (n / b) (n mod b :: acc) else acc
  end.

(** One iteration more than the number has bits is enough for every base. *)
Definition digits_fuel (n : Z) : nat := S (Z.to_nat (Z.log2 n)).
Definition to_digits (b n : Z) : list Z := digits_loop (digits_fuel n) b n [].

(** Exactly [len] digits, as [int.to_bytes] writes them. *)
Fixpoint fixed_digits (len : nat) (b n : Z) : list Z :=
  match len with
  | O => []
  | S len => fixed_digits len b (n / b) ++ [n mod b]
  end.

Abbreviation is_digits b ds := (Forall (λ d : Z, 0 ≤ d < b) ds).

(** No leading zero digit. *)
Definition no_lead (ds : list Z) : Prop := match ds with 0 :: _ => False | _ => True end.

Section radix.
Context (b : Z) (Hb : 2 ≤ b).

Lemma of_digits_snoc ds d : of_digits b (ds ++ [d]) = of_digits b ds * b + d.
Proof. unfold of_digits. by rewrite foldl_app. Qed.

Lemma of_digits_app xs ys :
  of_digits b (xs ++ ys) = of_digits b xs * b ^ py_len ys + of_digits b ys.
Proof.
  unfold py_len. induction ys as [|y ys IH] using rev_ind.
  - rewrite app_nil_r. simpl. unfold of_digits at 3. simpl. lia.
  - rewrite app_assoc, !of_digits_snoc, IH, length_app, Nat2Z.inj_add. simpl length.
    rewrite Z.pow_add_r by lia. lia.
Qed.

Lemma of_digits_cons d ds : of_digits b (d :: ds) = d * b ^ py_len ds + of_digits b ds.
Proof. change (d :: ds) with ([d] ++ ds). rewrite of_digits_app. unfold of_digits at 1. simpl. lia. Qed.

Lemma of_digits_nonneg ds : is_digits b ds → 0 ≤ of_digits b ds.
Proof.
  induction ds as [|d ds IH] using rev_ind; [done|].
  rewrite Forall_app, Forall_singleton, of_digits_snoc. intros [? ?]. specialize (IH H). nia.
Qed.

Lemma of_digits_bound ds : is_digits b ds → of_digits b ds < b ^ py_len ds.
Proof.
  unfold py_len. induction ds as [|d ds IH] using rev_ind; [done|].
  rewrite Forall_app, Forall_singleton, of_digits_snoc, length_app, Nat2Z.inj_add.
  simpl length. rewrite Z.pow_add_r, Z.pow_1_r by lia. intros [H ?]. specialize (IH H). nia.
Qed.

(** The loop's accumulator holds the digits already produced. *)
Lemma digits_loop_acc fuel n acc :
  digits_loop fuel b n acc = digits_loop fuel b n [] ++ acc.
Proof.
  revert n acc. induction fuel as [|fuel IH]; intros n acc; simpl; [done|].
  destruct (0 <? n); [|done].
  rewrite (IH _ (_ :: acc)), (IH _ [_]), <-app_assoc. done.
Qed.

Lemma digits_loop_step fuel n :
  0 < n → digits_loop (S fuel) b n [] = digits_loop fuel b (n / b) [] ++ [n mod b].
Proof. intros Hn. simpl. rewrite (proj2 (Z.ltb_lt 0 n)) by done. apply digits_loop_acc. Qed.

Lemma digits_loop_value fuel n :
  0 ≤ n < 2 ^ Z.of_nat fuel → of_digits b (digits_loop fuel b n []) = n.
Proof.
  revert n. induction fuel as [|fuel IH]; intros n Hn.
  - simpl in *. change (of_digits b []) with 0. lia.
  - destruct (decide (n = 0)) as [->|]; [done|].
    rewrite digits_loop_step, of_digits_snoc, IH by
      (rewrite Nat2Z.inj_succ, Z.pow_succ_r in Hn by lia;
       first [split; [apply Z.div_pos; lia | apply Z.div_lt_upper_bound; nia] | lia]).
    pose proof (Z.div_mod n b). lia.
Qed.

Lemma digits_fuel_enough n : 0 ≤ n → n < 2 ^ Z.of_nat (digits_fuel n).
Proof.
  intros Hn. unfold digits_fuel. rewrite Nat2Z.inj_succ, Z2Nat.id by apply Z.log2_nonneg.
  destruct (decide (n = 0)) as [->|]; [done|]. apply Z.log2_spec. lia.
Qed.

(** Value of the digits: the loop terminates with the right number. *)
Lemma of_to_digits n : 0 ≤ n → of_digits b (to_digits b n) = n.
Proof. intros. apply digits_loop_value. split; [done|]. by apply digits_fuel_enough. Qed.

Lemma to_digits_digits n : is_digits b (to_digits b n).
Proof.
  unfold to_digits. generalize (digits_fuel n) as fuel. intros fuel. revert n.
  induction fuel as [|fuel IH]; intros n; [constructor|].
  destruct (decide (0 < n)).
  - rewrite digits_loop_step by done. rewrite Forall_app, Forall_singleton.
    split; [done|]. apply Z.mod_pos_bound. lia.
  - simpl. rewrite (proj2 (Z.ltb_ge 0 n)) by lia. constructor.
Qed.

Lemma no_lead_bound ds : ds ≠ [] → is_digits b ds → no_lead ds →
  b ^ (py_len ds - 1) ≤ of_digits b ds.
Proof.
  destruct ds as [|d ds]; [done|]. intros _ Hd Hl.
  assert (0 ≤ of_digits b ds) by (apply of_digits_nonneg; by inversion Hd).
  inversion Hd as [|?? [??]]; subst.
  assert (1 ≤ d) by (destruct d; [done|lia|lia]).
  rewrite of_digits_cons. unfold py_len in *. simpl length.
  replace (Z.of_nat (S (length ds)) - 1) with (Z.of_nat (length ds)) by lia. nia.
Qed.

Lemma of_digits_pos ds : ds ≠ [] → is_digits b ds → no_lead ds → 0 < of_digits b ds.
Proof.
  intros H1 H2 H3. pose proof (no_lead_bound ds H1 H2 H3).
  assert (0 < b ^ (py_len ds - 1)); [|lia]. apply Z.pow_pos_nonneg; [lia|].
  unfold py_len. destruct ds; simpl; [done|lia].
Qed.

Lemma digits_loop_unique ds fuel :
  is_digits b ds → no_lead ds → of_digits b ds < 2 ^ Z.of_nat fuel →
  digits_loop fuel b (of_digits b ds) [] = ds.
Proof.
  revert fuel. induction ds as [|d ds IH] using rev_ind; intros fuel Hd Hl Hf.
  - destruct fuel; done.
  - pose proof Hd as Hd'. rewrite Forall_app, Forall_singleton in Hd'. destruct Hd' as [Hds Hdd].
    assert (Hpos : 0 < of_digits b (ds ++ [d])) by (apply of_digits_pos; [by destruct ds|done..]).
    destruct fuel as [|fuel]; [simpl in Hf; lia|].
    rewrite digits_loop_step by done. rewrite of_digits_snoc in Hpos, Hf |- *.
    rewrite Z.add_comm, Z.div_add, Z.mod_add, Z.div_small, Z.mod_small by lia.
    assert (Hl' : no_lead ds) by (destruct ds as [|[]]; done).
    rewrite Z.add_0_l, IH; [done..|].
    rewrite Nat2Z.inj_succ, Z.pow_succ_r in Hf by lia.
    pose proof (of_digits_nonneg ds Hds). nia.
Qed.

(** Digits without a leading zero are determined by their value. *)
Lemma to_of_digits ds : is_digits b ds → no_lead ds → to_digits b (of_digits b ds) = ds.
Proof.
  intros Hd Hl. apply digits_loop_unique; [done..|].
  apply digits_fuel_enough. by apply of_digits_nonneg.
Qed.

Lemma to_digits_no_lead n : 0 ≤ n → no_lead (to_digits b n).
Proof.
  intros Hn. unfold to_digits. pose proof (digits_fuel_enough n Hn) as Hf. revert Hf.
  generalize (digits_fuel n) as fuel. intros fuel. revert n Hn.
  induction fuel as [|fuel IH]; intros n Hn Hf; [done|].
  destruct (decide (n = 0)) as [->|Hz]; [done|].
  rewrite digits_loop_step by lia. rewrite Nat2Z.inj_succ, Z.pow_succ_r in Hf by lia.
  assert (n / b < 2 ^ Z.of_nat fuel) by (apply Z.div_lt_upper_bound; nia).
  assert (0 ≤ n / b) by (apply Z.div_pos; lia).
  specialize (IH (n / b) ltac:(done) ltac:(done)).
  destruct (digits_loop fuel b (n / b) []) as [|[] l] eqn:E; try done.
  simpl. assert (Hq : n / b = 0).
  { rewrite <-(digits_loop_value fuel (n / b)), E by lia. done. }
  pose proof (Z.div_mod n b). destruct (n mod b) eqn:?; [lia|done..].
Qed.

Lemma length_fixed_digits len n : length (fixed_digits len b n) = len.
Proof. revert n. induction len as [|len IH]; intros n; simpl; [done|]. rewrite length_app, IH. simpl. lia. Qed.

Lemma fixed_digits_digits len n : is_digits b (fixed_digits len b n).
Proof.
  revert n. induction len as [|len IH]; intros n; simpl; [constructor|].
  rewrite Forall_app, Forall_singleton. split; [done|]. apply Z.mod_pos_bound. lia.
Qed.

Lemma fixed_of_digits ds : is_digits b ds → fixed_digits (length ds) b (of_digits b ds) = ds.
Proof.
  induction ds as [|d ds IH] using rev_ind; [done|].
  rewrite Forall_app, Forall_singleton. intros [Hds Hd].
  rewrite length_app, Nat.add_1_r. simpl. rewrite of_digits_snoc.
  rewrite Z.add_comm, Z.div_add, Z.mod_add, Z.div_small, Z.mod_small by lia.
  by rewrite Z.add_0_l, IH.
Qed.

Lemma of_fixed_digits len n :
  0 ≤ n < b ^ Z.of_nat len → of_digits b (fixed_digits len b n) = n.
Proof.
  revert n. induction len as [|len IH]; intros n Hn.
  - simpl in *. change (of_digits b []) with 0. lia.
  - simpl. rewrite of_digits_snoc, IH.
    + pose proof (Z.div_mod n b). lia.
    + rewrite Nat2Z.inj_succ, Z.pow_succ_r in Hn by lia.
      split; [apply Z.div_pos; lia | apply Z.div_lt_upper_bound; nia].
Qed.

Lemma of_digits_inj ds1 ds2 :
  is_digits b ds1 → is_digits b ds2 → length ds1 = length ds2 →
  of_digits b ds1 = of_digits b ds2 → ds1 = ds2.
Proof.
  intros H1 H2 Hl Hv. rewrite <-(fixed_of_digits ds1), <-(fixed_of_digits ds2) by done.
  by rewrite Hl, Hv.
Qed.
End radix.

#[export] Hint Resolve to_digits_digits to_digits_no_lead fixed_digits_digits : shadownet.
