(* ===== verification/PyStr.v ===== *)
(** * Python [str] and [bytes] operations

    The methods of [str] and [bytes] the sources use, on code points: strip,
    split, partition, prefix and suffix tests, [in], the anchored regular
    expressions of the identifier grammars, and the UTF-8 and UTF-16 codecs. *)

From S2P Require Import Prelude.

(** ** Character classes *)

Definition is_lower (c : Z) : bool := (97 <=? c) && (c <=? 122).
Definition is_upper (c : Z) : bool := (65 <=? c) && (c <=? 90).
Definition is_num (c : Z) : bool := (48 <=? c) && (c <=? 57).
Definition is_alnum (c : Z) : bool := is_upper c || is_lower c || is_num c.
Definition is_ascii (c : Z) : bool := (0 <=? c) && (c <? 128).
Definition is_surrogate (c : Z) : bool := (0xD800 <=? c) && (c <=? 0xDFFF).

(** [str.isspace]: the characters [str.strip()] removes. *)
Definition is_space (c : Z) : bool :=
  ((9 <=? c) && (c <=? 13)) || ((28 <=? c) && (c <=? 32)) || (c =? 0x85) || (c =? 0xA0)
  || (c =? 0x1680) || ((0x2000 <=? c) && (c <=? 0x200A)) || (c =? 0x2028) || (c =? 0x2029)
  || (c =? 0x202F) || (c =? 0x205F) || (c =? 0x3000).

Definition ascii_lower (c : Z) : Z := if is_upper c then c + 32 else c.

(** [str.lower] of non-ASCII text follows the Unicode tables of the
    interpreter, which are data outside the repository; on ASCII text it is
    the shift of the upper-case letters. *)
Class PyUnicode : Type := {
  py_lower : pystr → pystr;
  py_lower_ascii : ∀ s, Forall (λ c, is_ascii c = true) s → py_lower s = map ascii_lower s;
  (** No upper-case letter is left. *)
  py_lower_no_upper : ∀ s, Forall (λ c, is_upper c = false) (py_lower s);
  (** [str.isprintable] of a non-ASCII character, which decides how [repr]
      shows it. *)
  py_printable : Z → bool;
  (** The value of a non-ASCII decimal digit. *)
  py_decimal : Z → option Z;
}.

Lemma ascii_lower_no_upper s : Forall (λ c, is_upper c = false) (map ascii_lower s).
Proof.
  apply Forall_map, Forall_forall. intros c _. unfold ascii_lower.
  destruct (is_upper c) eqn:E; [|done]. unfold is_upper in *. lia.
Qed.

(** A table in which only ASCII letters have a case, for evaluation. *)
Definition ascii_unicode : PyUnicode := {|
  py_lower := map ascii_lower;
  py_lower_ascii _ _ := eq_refl;
  py_lower_no_upper := ascii_lower_no_upper;
  py_printable _ := false;
  py_decimal _ := None |}.

(** ** Strip, prefixes, membership *)

Fixpoint lstrip_by (p : Z → bool) (s : list Z) : list Z :=
  match s with
  | c :: s' => if p c then lstrip_by p s' else s
  | [] => []
  end.
Definition rstrip_by (p : Z → bool) (s : list Z) : list Z := rev (lstrip_by p (rev s)).
Definition strip (s : pystr) : pystr := rstrip_by is_space (lstrip_by is_space s).
Definition rstrip_char (c : Z) (s : list Z) : list Z := rstrip_by (Z.eqb c) s.

Fixpoint startswith (p s : list Z) : bool :=
  match p, s with
  | [], _ => true
  | a :: p, c :: s => (a =? c) && startswith p s
  | _ :: _, [] => false
  end.
Definition endswith (p s : list Z) : bool := startswith (rev p) (rev s).

(** [p in s] *)
Fixpoint contains (p s : list Z) : bool :=
  startswith p s || match s with [] => false | _ :: s => contains p s end.

Definition has_char (c : Z) (s : list Z) : bool := existsb (Z.eqb c) s.
Definition count_char (c : Z) (s : list Z) : Z := py_len (List.filter (Z.eqb c) s).

(** ** Split, partition, join *)

(** [s.split(sep)] for a one-character separator. *)
Fixpoint split_on (sep : Z) (s : list Z) : list (list Z) :=
  match s with
  | [] => [[]]
  | c :: s =>
      if c =? sep then [] :: split_on sep s
      else match split_on sep s with
           | w :: ws => (c :: w) :: ws
           | [] => [[c]]
           end
  end.

Fixpoint join_with (sep : list Z) (ws : list (list Z)) : list Z :=
  match ws with
  | [] => []
  | [w] => w
  | w :: ws => w ++ sep ++ join_with sep ws
  end.

(** [s.partition(sep)]: the texts before and after the first [sep]; when there
    is none, the whole text and the empty text. *)
Fixpoint partition_char (sep : Z) (s : list Z) : list Z * list Z :=
  match s with
  | [] => ([], [])
  | c :: s => if c =? sep then ([], s)
              else let '(a, b) := partition_char sep s in (c :: a, b)
  end.

(** ** Anchored regular expressions

    [re.compile("^X$").match(s)] with a class of strings [X] that excludes the
    newline: [$] matches at the end and also before a final newline. *)

Definition dollar_match (full : pystr → bool) (s : pystr) : bool :=
  full s || match rev s with
            | 10 :: r => full (rev r)
            | _ => false
            end.

(** ** Codecs *)

(** [s.encode("ascii")] *)
Definition encode_ascii (s : pystr) : result pybytes :=
  if forallb is_ascii s then Ok s else Raise UnicodeEncodeError.

Definition utf8_char (c : Z) : list Z :=
  if c <? 0x80 then [c]
  else if c <? 0x800 then [0xC0 + c / 64; 0x80 + c mod 64]
  else if c <? 0x10000 then [0xE0 + c / 4096; 0x80 + c / 64 mod 64; 0x80 + c mod 64]
  else [0xF0 + c / 262144; 0x80 + c / 4096 mod 64; 0x80 + c / 64 mod 64; 0x80 + c mod 64].

(** [s.encode("utf-8")] *)
Definition encode_utf8 (s : pystr) : result pybytes :=
  if existsb is_surrogate s then Raise UnicodeEncodeError else Ok (concat (map utf8_char s)).

Definition is_cont (b : Z) : bool := (0x80 <=? b) && (b <=? 0xBF).

(** [bs.decode("utf-8")]: shortest forms only, no surrogates. *)
Fixpoint utf8_loop (bs : pybytes) : option pystr :=
  match bs with
  | [] => Some []
  | a :: s1 =>
      if a <? 0x80 then cons a <$> utf8_loop s1
      else match s1 with
      | [] => None
      | b :: s2 =>
          if (0xC2 <=? a) && (a <=? 0xDF) && is_cont b
          then cons ((a - 0xC0) * 64 + (b - 0x80)) <$> utf8_loop s2
          else match s2 with
          | [] => None
          | c :: s3 =>
              let v := ((a - 0xE0) * 64 + (b - 0x80)) * 64 + (c - 0x80) in
              if (0xE0 <=? a) && (a <=? 0xEF) && is_cont b && is_cont c && (0x800 <=? v) && negb (is_surrogate v)
              then cons v <$> utf8_loop s3
              else match s3 with
              | [] => None
              | d :: s4 =>
                  let v := (((a - 0xF0) * 64 + (b - 0x80)) * 64 + (c - 0x80)) * 64 + (d - 0x80) in
                  if (0xF0 <=? a) && (a <=? 0xF4) && is_cont b && is_cont c && is_cont d
                     && (0x10000 <=? v) && (v <? 0x110000)
                  then cons v <$> utf8_loop s4 else None
              end
          end
      end
  end.
Definition decode_utf8 (bs : pybytes) : result pystr := of_option UnicodeDecodeError (utf8_loop bs).

Definition utf16_char (c : Z) : list Z :=
  if c <? 0x10000 then [c / 256; c mod 256]
  else let v := c - 0x10000 in
       let hi := 0xD800 + v / 1024 in
       let lo := 0xDC00 + v mod 1024 in
       [hi / 256; hi mod 256; lo / 256; lo mod 256].

(** [s.encode("utf-16-be")] *)
Definition encode_utf16_be (s : pystr) : result pybytes :=
  if existsb is_surrogate s then Raise UnicodeEncodeError else Ok (concat (map utf16_char s)).

(** Code points of a [str]. *)
Definition is_codepoint (c : Z) : Prop := 0 ≤ c < 0x110000.

(** ** Lemmas *)

Lemma startswith_app p s : startswith p (p ++ s) = true.
Proof. induction p as [|a p IH]; simpl; [done|]. by rewrite Z.eqb_refl. Qed.

Lemma startswith_spec p s : startswith p s = true ↔ ∃ t, s = p ++ t.
Proof.
  split; [|intros [t ->]; apply startswith_app].
  revert s. induction p as [|a p IH]; intros s; simpl; [by exists s|].
  destruct s as [|c s]; [done|]. intros H. bool_prop. subst.
  destruct (IH s) as [t ->]; [done|]. by exists t.
Qed.

Lemma endswith_spec p s : endswith p s = true ↔ ∃ t, s = t ++ p.
Proof.
  unfold endswith. rewrite startswith_spec. split; intros [t Ht].
  - exists (rev t). rewrite <-(rev_involutive s), Ht, rev_app_distr, rev_involutive. done.
  - exists (rev t). by rewrite Ht, rev_app_distr.
Qed.

Lemma has_char_spec c s : has_char c s = true ↔ c ∈ s.
Proof.
  unfold has_char. rewrite existsb_exists. setoid_rewrite <-list_elem_of_In. split.
  - intros (x & ? & ?). bool_prop. by subst.
  - intros. exists c. by rewrite Z.eqb_refl.
Qed.

Lemma has_char_false c s : has_char c s = false ↔ c ∉ s.
Proof. rewrite <-has_char_spec. by destruct (has_char c s). Qed.

Lemma contains_app p a b : contains p (a ++ p ++ b) = true.
Proof.
  induction a as [|x a IH]; simpl.
  - destruct (p ++ b) eqn:E; simpl; rewrite <-E, startswith_app; done.
  - rewrite IH. apply orb_true_r.
Qed.

Lemma split_on_ne sep s : split_on sep s ≠ [].
Proof. destruct s as [|c s]; simpl; [done|]. destruct (c =? sep); [done|]. by destruct (split_on sep s). Qed.

Lemma join_cons sep w ws : ws ≠ [] → join_with sep (w :: ws) = w ++ sep ++ join_with sep ws.
Proof. by destruct ws. Qed.

(** Splitting loses nothing. *)
Lemma join_split sep s : join_with [sep] (split_on sep s) = s.
Proof.
  induction s as [|c s IH]; simpl; [done|].
  pose proof (split_on_ne sep s). destruct (c =? sep) eqn:E.
  - rewrite join_cons, IH by done. bool_prop. by subst.
  - destruct (split_on sep s) as [|w ws]; [done|]. destruct ws; simpl in *; by rewrite IH.
Qed.

Lemma split_on_free sep s : sep ∉ s → split_on sep s = [s].
Proof.
  induction s as [|c s IH]; simpl; [done|]. rewrite not_elem_of_cons. intros [? ?].
  rewrite (proj2 (Z.eqb_neq c sep)), IH by done. done.
Qed.

Lemma split_on_app sep a s : sep ∉ a → split_on sep (a ++ sep :: s) = a :: split_on sep s.
Proof.
  induction a as [|c a IH]; simpl.
  - by rewrite Z.eqb_refl.
  - rewrite not_elem_of_cons. intros [? ?]. rewrite (proj2 (Z.eqb_neq c sep)), IH by done. done.
Qed.

Lemma split_on_app_split sep x s : split_on sep (x ++ sep :: s) = split_on sep x ++ split_on sep s.
Proof.
  induction x as [|c x IH]; simpl.
  - by rewrite Z.eqb_refl.
  - rewrite IH. destruct (c =? sep); [done|].
    pose proof (split_on_ne sep x). by destruct (split_on sep x).
Qed.

(** No word of a split contains the separator. *)
Lemma split_on_words sep s : Forall (λ w, sep ∉ w) (split_on sep s).
Proof.
  induction s as [|c s IH]; simpl; [repeat constructor; set_solver|].
  destruct (c =? sep) eqn:E; [constructor; [set_solver|done]|].
  pose proof (split_on_ne sep s). destruct (split_on sep s); [done|].
  inversion IH; subst. constructor; [|done]. bool_prop. set_solver.
Qed.

Lemma join_app sep xs ys :
  xs ≠ [] → ys ≠ [] → join_with sep (xs ++ ys) = join_with sep xs ++ sep ++ join_with sep ys.
Proof.
  induction xs as [|x xs IH]; [done|]. intros _ Hy. destruct xs as [|x' xs].
  - change ([x] ++ ys) with (x :: ys). by rewrite join_cons.
  - change ((x :: x' :: xs) ++ ys) with (x :: ((x' :: xs) ++ ys)).
    rewrite (join_cons _ x ((x' :: xs) ++ ys)), (join_cons _ x (x' :: xs)), IH by done.
    by rewrite <-!app_assoc.
Qed.

Lemma elem_of_join sep ws c :
  c ∈ join_with sep ws → c ∈ sep ∨ ∃ w, w ∈ ws ∧ c ∈ w.
Proof.
  induction ws as [|w ws IH]; simpl; [set_solver|].
  destruct ws as [|w' ws]; [set_solver|]. rewrite !elem_of_app.
  intros [?|[?|?]]; [right; set_solver|by left|]. destruct IH as [?|(?&?&?)]; set_solver.
Qed.

Lemma partition_free sep a b : sep ∉ a → partition_char sep (a ++ sep :: b) = (a, b).
Proof.
  induction a as [|c a IH]; simpl.
  - by rewrite Z.eqb_refl.
  - rewrite not_elem_of_cons. intros [? ?]. by rewrite (proj2 (Z.eqb_neq c sep)), IH by done.
Qed.

Lemma partition_spec sep s a b :
  sep ∈ s → partition_char sep s = (a, b) → s = a ++ sep :: b ∧ sep ∉ a.
Proof.
  revert a b. induction s as [|c s IH]; intros a b; [set_solver|]. simpl.
  destruct (c =? sep) eqn:E; bool_prop.
  - subst. intros _ [= <- <-]. set_solver.
  - destruct (partition_char sep s) as [a' b'] eqn:Ep. rewrite elem_of_cons.
    intros [?|Hin] [= <- <-]; [congruence|]. destruct (IH _ _ Hin eq_refl) as [-> ?]. set_solver.
Qed.

Lemma lstrip_by_id p s : (∀ c s', s = c :: s' → p c = false) → lstrip_by p s = s.
Proof. destruct s; simpl; [done|]. intros H. by rewrite (H _ _ eq_refl). Qed.

Lemma lstrip_by_suffix p s : ∃ t, s = t ++ lstrip_by p s ∧ Forall (λ c, p c = true) t.
Proof.
  induction s as [|c s (t & Hs & Ht)]; simpl; [by exists []|].
  destruct (p c) eqn:E; [|by exists []].
  exists (c :: t). split; [|by constructor]. simpl. by rewrite <-Hs.
Qed.

Lemma lstrip_by_head p s c s' : lstrip_by p s = c :: s' → p c = false.
Proof.
  induction s as [|x s IH]; simpl; [done|]. destruct (p x) eqn:E; [done|]. by intros [= -> _].
Qed.

Lemma rstrip_by_prefix p s : ∃ t, s = rstrip_by p s ++ t ∧ Forall (λ c, p c = true) t.
Proof.
  destruct (lstrip_by_suffix p (rev s)) as (t & Ht & Hp). exists (rev t). unfold rstrip_by.
  split; [|by apply Forall_rev]. rewrite <-rev_app_distr, <-Ht. by rewrite rev_involutive.
Qed.

Lemma rstrip_by_last p s c s' : rstrip_by p s = s' ++ [c] → p c = false.
Proof.
  unfold rstrip_by. intros H. apply (f_equal (@rev Z)) in H.
  rewrite rev_involutive, rev_app_distr in H. simpl in H. by eapply lstrip_by_head.
Qed.

Lemma rstrip_by_id p s : (∀ c s', s = s' ++ [c] → p c = false) → rstrip_by p s = s.
Proof.
  intros H. unfold rstrip_by. rewrite lstrip_by_id, rev_involutive; [done|].
  intros c s' Hs. apply (H c (rev s')). rewrite <-(rev_involutive s), Hs. done.
Qed.

(** Text that neither begins nor ends with white space is left alone. *)
Lemma strip_id s :
  (∀ c s', s = c :: s' → is_space c = false) →
  (∀ c s', s = s' ++ [c] → is_space c = false) → strip s = s.
Proof. intros H1 H2. unfold strip. by rewrite lstrip_by_id, rstrip_by_id. Qed.

Lemma strip_incl s : strip s ⊆ s.
Proof.
  unfold strip. destruct (lstrip_by_suffix is_space s) as (t & Hs & _).
  destruct (rstrip_by_prefix is_space (lstrip_by is_space s)) as (u & Hu & _).
  rewrite Hs at 2. rewrite Hu at 2. set_solver.
Qed.

Lemma dollar_match_spec full s :
  dollar_match full s = true ↔ full s = true ∨ ∃ t, s = t ++ [10] ∧ full t = true.
Proof.
  unfold dollar_match. rewrite orb_true_iff. split.
  - intros [?|H]; [by left|right]. destruct (rev s) as [|c r] eqn:E; [done|].
    assert (s = rev r ++ [c]) as -> by (rewrite <-(rev_involutive s), E; done).
    destruct (decide (c = 10)) as [->|Hc]; [by exists (rev r)|].
    exfalso. repeat (destruct c as [|c|c] || destruct c; try done).
  - intros [?|(t & -> & ?)]; [by left|right]. rewrite rev_app_distr. simpl.
    by rewrite rev_involutive.
Qed.

Lemma map_ascii_lower_id s : Forall (λ c, is_upper c = false) s → map ascii_lower s = s.
Proof. induction 1 as [|c s Hc _ IH]; simpl; [done|]. unfold ascii_lower at 1. by rewrite Hc, IH. Qed.

(** Lower-case ASCII text is unchanged by [str.lower]. *)
Lemma py_lower_id `{PyUnicode} s :
  Forall (λ c, is_ascii c = true) s → Forall (λ c, is_upper c = false) s → py_lower s = s.
Proof. intros. by rewrite py_lower_ascii, map_ascii_lower_id. Qed.

Lemma ascii_lower_lower c : ascii_lower (ascii_lower c) = ascii_lower c.
Proof. unfold ascii_lower, is_upper. repeat case_match; bool_prop; lia. Qed.

Lemma ascii_lower_ascii c : is_ascii c = true → is_ascii (ascii_lower c) = true.
Proof. unfold ascii_lower, is_upper, is_ascii. intros. bool_prop. case_match; bool_prop; lia. Qed.

(** *** The Unicode codecs are injective *)

Lemma list_cons_eq {A} (a b : A) l k : a :: l = b :: k → a = b ∧ l = k.
Proof. by intros [= -> ->]. Qed.

Ltac split_cons :=
  repeat match goal with
  | H : _ :: _ = _ :: _ |- _ => apply list_cons_eq in H as [? H]
  end.

Lemma utf8_char_inj c d x y :
  is_codepoint c → is_codepoint d → utf8_char c ++ x = utf8_char d ++ y → c = d ∧ x = y.
Proof.
  unfold is_codepoint, utf8_char. intros Hc Hd.
  repeat case_match; bool_prop; simpl; intros Heq; split_cons;
    first [split; [Z.to_euclidean_division_equations; lia | done]
          | exfalso; Z.to_euclidean_division_equations; lia].
Qed.

Lemma utf16_char_inj c d x y :
  is_codepoint c → is_codepoint d → is_surrogate c = false → is_surrogate d = false →
  utf16_char c ++ x = utf16_char d ++ y → c = d ∧ x = y.
Proof.
  unfold is_codepoint, utf16_char, is_surrogate. intros Hc Hd Sc Sd.
  apply andb_false_iff in Sc, Sd.
  repeat case_match; bool_prop; cbn -[Z.div Z.modulo]; intros Heq; split_cons;
    destruct Sc, Sd; bool_prop;
    first [split; [Z.to_euclidean_division_equations; lia | done]
          | exfalso; Z.to_euclidean_division_equations; lia].
Qed.

Lemma concat_map_inj (f : Z → list Z) (P : Z → Prop) s1 s2 :
  (∀ c, P c → f c ≠ []) →
  (∀ c d x y, P c → P d → f c ++ x = f d ++ y → c = d ∧ x = y) →
  Forall P s1 → Forall P s2 → concat (map f s1) = concat (map f s2) → s1 = s2.
Proof.
  intros Hne Hinj H1. revert s2. induction H1 as [|c s1 Hc _ IH]; intros s2 H2 Heq.
  - destruct H2 as [|d s2 Hd _]; [done|]. simpl in Heq. symmetry in Heq.
    apply app_eq_nil in Heq as [? _]. by destruct (Hne d Hd).
  - destruct H2 as [|d s2 Hd H2]; simpl in Heq.
    + apply app_eq_nil in Heq as [? _]. by destruct (Hne c Hc).
    + apply Hinj in Heq as [-> Heq]; [|done..]. by rewrite (IH s2).
Qed.

Lemma encode_utf8_inj s1 s2 bs :
  Forall is_codepoint s1 → Forall is_codepoint s2 →
  encode_utf8 s1 = Ok bs → encode_utf8 s2 = Ok bs → s1 = s2.
Proof.
  unfold encode_utf8. intros H1 H2. do 2 (destruct (existsb _ _); [done|]). intros [= <-] [= E].
  symmetry. eapply (concat_map_inj utf8_char is_codepoint); [|apply utf8_char_inj|done..].
  intros c _. unfold utf8_char. by repeat case_match.
Qed.

Lemma existsb_false_Forall {A} (f : A → bool) l :
  existsb f l = false ↔ Forall (λ a, f a = false) l.
Proof.
  induction l as [|a l IH]; simpl; [by split|]. rewrite orb_false_iff, Forall_cons, IH. done.
Qed.

Lemma encode_utf16_inj s1 s2 bs :
  Forall is_codepoint s1 → Forall is_codepoint s2 →
  encode_utf16_be s1 = Ok bs → encode_utf16_be s2 = Ok bs → s1 = s2.
Proof.
  unfold encode_utf16_be. intros H1 H2.
  destruct (existsb _ s1) eqn:E1; [done|]. destruct (existsb _ s2) eqn:E2; [done|].
  intros [= <-] [= E]. symmetry. apply existsb_false_Forall in E1, E2.
  eapply (concat_map_inj utf16_char (λ c, is_codepoint c ∧ is_surrogate c = false));
    [| |by apply Forall_and|by apply Forall_and|done].
  - intros c _. unfold utf16_char. by case_match.
  - intros c d x y [? ?] [? ?]. by apply utf16_char_inj.
Qed.

Lemma utf8_loop_ascii s : Forall (λ c, is_ascii c = true) s → utf8_loop s = Some s.
Proof.
  induction 1 as [|c s Hc _ IH]; simpl; [done|]. unfold is_ascii in Hc. bool_prop.
  rewrite (proj2 (Z.ltb_lt c _)) by lia. by rewrite IH.
Qed.

Lemma decode_utf8_ascii s : Forall (λ c, is_ascii c = true) s → decode_utf8 s = Ok s.
Proof. intros Hs. unfold decode_utf8. by rewrite utf8_loop_ascii. Qed.
