(* ===== verification/PyInt.v ===== *)
(** * [int(s)]

    Parsing of a decimal integer: surrounding white space, a sign, digits with
    single underscores between them; at most 4300 digits. *)

From S2P Require Import Prelude Radix PyStr.

Section py_int.
Context `{PyUnicode}.

Definition int_space (c : Z) : bool :=
  ((9 <=? c) && (c <=? 13)) || (c =? 32) || ((127 <=? c) && is_space c).

Definition digit_value (c : Z) : option Z :=
  if is_num c then Some (c - 48) else if c <? 128 then None else py_decimal c.

(** Digits, each after at most one underscore; [after] tells that a digit
    was just read, so that an underscore may follow. *)
Fixpoint int_digits (s : pystr) (after : bool) (acc : list Z) : option (list Z) :=
  match s with
  | [] => if after then Some (rev acc) else None
  | c :: s =>
      if c =? 95 then if after then int_digits s false acc else None
      else match digit_value c with
      | Some d => int_digits s true (d :: acc)
      | None => None
      end
  end.

Definition py_int (s : pystr) : result Z :=
  let t := rstrip_by int_space (lstrip_by int_space s) in
  let '(neg, body) := match t with
                      | 43 :: b => (false, b)
                      | 45 :: b => (true, b)
                      | _ => (false, t)
                      end in
  match int_digits body false [] with
  | None => Raise ValueError
  | Some ds =>
      if 4300 <? py_len ds then Raise ValueError
      else Ok (if neg : bool then - of_digits 10 ds else of_digits 10 ds)
  end.
End py_int.

Lemma py_int_examples :
  let _ := ascii_unicode in
  py_int (str " 300 ") = Ok 300 ∧ py_int (str "-1_000") = Ok (-1000) ∧ py_int (str "3__0") = Raise ValueError
  ∧ py_int (str "") = Raise ValueError ∧ py_int (str "1.5") = Raise ValueError.
Proof. by vm_compute. Qed.
