(* ===== verification/Base64.v ===== *)
(** * URL-safe base64

    [base64.urlsafe_b64encode] and [base64.urlsafe_b64decode] (the non-strict
    [binascii.a2b_base64] state machine: characters outside the alphabet are
    skipped, padding ends the input), and the unpadded forms [_b64u] and
    [_b64u_decode] every module of the SDK builds on them. *)

From S2P Require Import Prelude PyStr.

Definition b64_char (v : Z) : Z :=
  if v <? 26 then 65 + v else if v <? 52 then 71 + v else if v <? 62 then v - 4
  else if v =? 62 then 45 else 95.

(** The value of a character after [translate(-_, +/)]: both spellings of 62
    and 63 are read. *)
Definition b64_val (c : Z) : option Z :=
  if is_upper c then Some (c - 65) else if is_lower c then Some (c - 71)
  else if is_num c then Some (c + 4)
  else if (c =? 45) || (c =? 43) then Some 62
  else if (c =? 95) || (c =? 47) then Some 63 else None.

Fixpoint urlsafe_b64encode (data : pybytes) : pybytes :=
  match data with
  | a :: b :: c :: rest =>
      b64_char (a / 4) :: b64_char (a mod 4 * 16 + b / 16)
      :: b64_char (b mod 16 * 4 + c / 64) :: b64_char (c mod 64) :: urlsafe_b64encode rest
  | [a; b] => [b64_char (a / 4); b64_char (a mod 4 * 16 + b / 16); b64_char (b mod 16 * 4); 61]
  | [a] => [b64_char (a / 4); b64_char (a mod 4 * 16); 61; 61]
  | [] => []
  end.

(** [binascii.a2b_base64(data, strict_mode=False)]: position in the quad, bits
    left over, pads seen since the last data character. *)
Fixpoint a2b_loop (s : pybytes) (quad left pads : Z) (acc : pybytes) : result pybytes :=
  match s with
  | [] => if quad =? 0 then Ok (rev acc) else Raise BinasciiError
  | c :: s =>
      if c =? 61 then
        if 2 <=? quad then
          if 4 <=? quad + (pads + 1) then Ok (rev acc) else a2b_loop s quad left (pads + 1) acc
        else a2b_loop s quad left pads acc
      else match b64_val c with
      | None => a2b_loop s quad left pads acc
      | Some v =>
          if quad =? 0 then a2b_loop s 1 v 0 acc
          else if quad =? 1 then a2b_loop s 2 (v mod 16) 0 (left * 4 + v / 16 :: acc)
          else if quad =? 2 then a2b_loop s 3 (v mod 4) 0 (left * 16 + v / 4 :: acc)
          else a2b_loop s 0 0 0 (left * 64 + v :: acc)
      end
  end.

Definition urlsafe_b64decode (s : pystr) : result pybytes :=
  if forallb is_ascii s then a2b_loop s 0 0 0 [] else Raise ValueError.

(** [base64.urlsafe_b64encode(data).rstrip(b"=").decode("ascii")] *)
Definition _b64u (data : pybytes) : pystr := rstrip_char 61 (urlsafe_b64encode data).

(** ["=" * (-len(s) % 4)] *)
Definition b64_pad (s : pystr) : pystr := repeat 61 (Z.to_nat (- py_len s mod 4)).

Definition _b64u_decode (s : pystr) : result pybytes := urlsafe_b64decode (s ++ b64_pad s).

(** ** Lemmas *)

Abbreviation is_bytes bs := (Forall (λ x : Z, 0 ≤ x < 256) bs).

(** The characters of an encoding, without its padding. *)
Fixpoint b64_body (data : pybytes) : pybytes :=
  match data with
  | a :: b :: c :: rest =>
      b64_char (a / 4) :: b64_char (a mod 4 * 16 + b / 16)
      :: b64_char (b mod 16 * 4 + c / 64) :: b64_char (c mod 64) :: b64_body rest
  | [a; b] => [b64_char (a / 4); b64_char (a mod 4 * 16 + b / 16); b64_char (b mod 16 * 4)]
  | [a] => [b64_char (a / 4); b64_char (a mod 4 * 16)]
  | [] => []
  end.

Lemma list_ind3 {A} (P : list A → Prop) :
  P [] → (∀ a, P [a]) → (∀ a b, P [a; b]) → (∀ a b c l, P l → P (a :: b :: c :: l)) → ∀ l, P l.
Proof.
  intros H0 H1 H2 H3 l. induction l as [l IH] using (induction_ltof1 _ (@length A)).
  unfold ltof in IH. destruct l as [|a [|b [|c l]]]; [done..|]. apply H3, IH. simpl. lia.
Qed.

Definition url_char (c : Z) : bool := is_alnum c || (c =? 45) || (c =? 95).

Lemma b64_char_val v : 0 ≤ v < 64 → b64_val (b64_char v) = Some v.
Proof.
  intros Hv. unfold b64_val, b64_char, is_upper, is_lower, is_num.
  repeat (case_match; bool_prop; try lia); try (f_equal; lia);
  repeat match goal with H : (_ && _)%bool = false |- _ => apply andb_false_iff in H as [?|?]
    | H : (_ || _)%bool = true |- _ => apply orb_true_iff in H as [?|?] end; bool_prop; try lia; f_equal; lia.
Qed.

Lemma b64_char_url v : 0 ≤ v < 64 → url_char (b64_char v) = true.
Proof.
  intros Hv. unfold url_char, b64_char, is_alnum, is_upper, is_lower, is_num.
  repeat (case_match; bool_prop); lia.
Qed.

Lemma url_char_ascii c : url_char c = true → is_ascii c = true.
Proof. unfold url_char, is_alnum, is_upper, is_lower, is_num, is_ascii. lia. Qed.

Lemma url_char_not_pad c : url_char c = true → c ≠ 61 ∧ c ≠ 46.
Proof. unfold url_char, is_alnum, is_upper, is_lower, is_num. lia. Qed.

Ltac byte_range := Z.to_euclidean_division_equations; lia.

Lemma b64_body_url data : is_bytes data → Forall (λ c, url_char c = true) (b64_body data).
Proof.
  induction data as [|a|a b|a b c l IH] using list_ind3; simpl; rewrite ?Forall_cons; intros;
    destruct_and?; repeat split; try constructor; auto; apply b64_char_url; byte_range.
Qed.

Lemma b64encode_body data : ∃ n, urlsafe_b64encode data = b64_body data ++ repeat 61 n.
Proof.
  induction data as [|a|a b|a b c l [n IH]] using list_ind3; simpl.
  - by exists 0%nat.
  - by exists 2%nat.
  - by exists 1%nat.
  - exists n. by rewrite IH.
Qed.

Lemma rstrip_repeat c s n :
  c ∉ s → rstrip_char c (s ++ repeat c n) = s.
Proof.
  intros Hs. unfold rstrip_char, rstrip_by. rewrite rev_app_distr, rev_repeat.
  induction n as [|n IH]; simpl; [|by rewrite Z.eqb_refl].
  rewrite lstrip_by_id, rev_involutive; [done|]. intros d s' Hd. apply Z.eqb_neq. intros <-.
  apply Hs. rewrite <-(rev_involutive s), Hd. simpl. set_solver.
Qed.

Lemma _b64u_body data : is_bytes data → _b64u data = b64_body data.
Proof.
  intros Hd. unfold _b64u. destruct (b64encode_body data) as [n ->]. apply rstrip_repeat.
  intros Hin. apply b64_body_url in Hd. rewrite Forall_forall in Hd.
  by apply Hd, url_char_not_pad in Hin as [? _].
Qed.

(** Only characters of the URL-safe alphabet appear. *)
Lemma _b64u_url data : is_bytes data → Forall (λ c, url_char c = true) (_b64u data).
Proof. intros. rewrite _b64u_body by done. by apply b64_body_url. Qed.

Lemma _b64u_ascii data : is_bytes data → Forall (λ c, is_ascii c = true) (_b64u data).
Proof. intros H. apply _b64u_url in H. eapply Forall_impl; [done|]. apply url_char_ascii. Qed.

Lemma _b64u_no_dot data : is_bytes data → 46 ∉ _b64u data.
Proof.
  intros H Hin. apply _b64u_url in H. rewrite Forall_forall in H. by apply H, url_char_not_pad in Hin as [_ ?].
Qed.

Lemma a2b_loop_char v s quad left pads acc :
  0 ≤ v < 64 →
  a2b_loop (b64_char v :: s) quad left pads acc =
    if quad =? 0 then a2b_loop s 1 v 0 acc
    else if quad =? 1 then a2b_loop s 2 (v mod 16) 0 (left * 4 + v / 16 :: acc)
    else if quad =? 2 then a2b_loop s 3 (v mod 4) 0 (left * 16 + v / 4 :: acc)
    else a2b_loop s 0 0 0 (left * 64 + v :: acc).
Proof.
  intros Hv. cbn [a2b_loop]. rewrite b64_char_val by done.
  destruct (url_char_not_pad _ (b64_char_url v Hv)) as [H _]. by rewrite (proj2 (Z.eqb_neq _ _) H).
Qed.

(** A full quad gives its three bytes back. *)
Lemma a2b_quad a b c s acc :
  0 ≤ a < 256 → 0 ≤ b < 256 → 0 ≤ c < 256 →
  a2b_loop (b64_char (a / 4) :: b64_char (a mod 4 * 16 + b / 16)
            :: b64_char (b mod 16 * 4 + c / 64) :: b64_char (c mod 64) :: s) 0 0 0 acc
  = a2b_loop s 0 0 0 (c :: b :: a :: acc).
Proof.
  intros. rewrite !a2b_loop_char by byte_range. cbn [Z.eqb Pos.eqb].
  do 2 f_equal; [byte_range|]. f_equal; [byte_range|]. f_equal. byte_range.
Qed.

Lemma a2b_body data acc :
  is_bytes data →
  a2b_loop (b64_body data ++ b64_pad (b64_body data)) 0 0 0 acc = Ok (rev acc ++ data).
Proof.
  revert acc. induction data as [|a|a b|a b c l IH] using list_ind3; intros acc;
    rewrite ?Forall_cons; intros Hd; destruct_and?.
  - simpl. by rewrite app_nil_r.
  - cbn [b64_body app]. change (b64_pad _) with [61; 61].
    rewrite !a2b_loop_char by byte_range. cbn. do 3 f_equal. byte_range.
  - cbn [b64_body app]. change (b64_pad _) with [61].
    rewrite !a2b_loop_char by byte_range. cbn [Z.eqb Pos.eqb a2b_loop].
    cbn. rewrite <-!app_assoc. simpl. f_equal. f_equal. f_equal; [byte_range|]. f_equal. byte_range.
  - cbn [b64_body app].
    replace (b64_pad _) with (b64_pad (b64_body l)).
    + rewrite a2b_quad, IH by done. simpl. by rewrite <-!app_assoc.
    + unfold b64_pad, py_len. cbn [length]. do 2 f_equal.
      replace (- Z.of_nat (S (S (S (S (length (b64_body l)))))))
        with (- Z.of_nat (length (b64_body l)) + (-1) * 4) by lia.
      by rewrite Z.mod_add.
Qed.

(** Decoding what was encoded gives the bytes back. *)
Lemma _b64u_roundtrip data : is_bytes data → _b64u_decode (_b64u data) = Ok data.
Proof.
  intros Hd. rewrite _b64u_body by done. unfold _b64u_decode, urlsafe_b64decode.
  rewrite a2b_body by done. simpl. rewrite (proj2 (forallb_forall is_ascii _)); [done|].
  intros c. rewrite <-list_elem_of_In, elem_of_app. intros [Hc|Hc].
  - apply b64_body_url in Hd. rewrite Forall_forall in Hd. by apply url_char_ascii, Hd.
  - unfold b64_pad in Hc. apply list_elem_of_In, repeat_spec in Hc as ->. done.
Qed.

Lemma _b64u_inj d1 d2 : is_bytes d1 → is_bytes d2 → _b64u d1 = _b64u d2 → d1 = d2.
Proof.
  intros H1 H2 E. pose proof (_b64u_roundtrip d1 H1) as R1.
  rewrite E, _b64u_roundtrip in R1 by done. by injection R1.
Qed.

#[export] Hint Resolve _b64u_url _b64u_ascii _b64u_no_dot : shadownet.
