(* ===== verification/Multibase.v ===== *)
(** * Multibase base58btc keys — [shadownet/crypto/multibase.py]

    [_b58encode] and [_b58decode] as written (big-integer loops), the [z]
    multibase wrapper and the Ed25519 multicodec prefix.  The two functions are
    inverse to each other in both directions, so a key has exactly one textual
    form. *)

From S2P Require Import Prelude Radix PyStr Base64.

Definition ED25519_PUB_MULTICODEC : pybytes := [0xed; 0x01].

Definition _BASE58_ALPHABET : pystr :=
  str "123456789ABCDEFGHJKLMNPQRSTUVWXYZabcdefghijkmnopqrstuvwxyz".

Fixpoint index_of (c : Z) (s : pystr) (i : Z) : option Z :=
  match s with
  | [] => None
  | d :: s => if c =? d then Some i else index_of c s (i + 1)
  end.

(** [_BASE58_INDEX = {c: i for i, c in enumerate(_BASE58_ALPHABET)}] *)
Definition _BASE58_INDEX (c : Z) : option Z := index_of c _BASE58_ALPHABET 0.

(** [_BASE58_ALPHABET[i]] *)
Definition b58_char (i : Z) : Z := nth (Z.to_nat i) _BASE58_ALPHABET 0.

(** [while n > 0: n, rem = divmod(n, 58); encoded = ALPHABET[rem] + encoded] *)
Fixpoint b58_encode_loop (fuel : nat) (n : Z) (encoded : pystr) : pystr :=
  match fuel with
  | O => encoded
  | S fuel =>
      if 0 <? n then b58_encode_loop fuel (n / 58) (b58_char (n mod 58) :: encoded)
      else encoded
  end.

Definition _b58encode (data : pybytes) : pystr :=
  match data with
  | [] => []
  | _ =>
      let n := of_digits 256 data in
      let encoded := b58_encode_loop (digits_fuel n) n [] in
      let leading := py_len data - py_len (lstrip_by (Z.eqb 0) data) in
      repeat (b58_char 0) (Z.to_nat leading) ++ encoded
  end.

Fixpoint b58_decode_loop (s : pystr) (n : Z) : result Z :=
  match s with
  | [] => Ok n
  | ch :: s =>
      match _BASE58_INDEX ch with
      | None => Raise ValueError
      | Some i => b58_decode_loop s (n * 58 + i)
      end
  end.

Definition bit_length (n : Z) : Z := if n =? 0 then 0 else Z.log2 n + 1.

(** [n.to_bytes(len, "big")] *)
Definition to_bytes (n len : Z) : pybytes := fixed_digits (Z.to_nat len) 256 n.

Definition _b58decode (value : pystr) : result pybytes :=
  match value with
  | [] => Ok []
  | _ =>
      n ← b58_decode_loop value 0;
      let full := if n =? 0 then [] else to_bytes n ((bit_length n + 7) / 8) in
      let leading := py_len value - py_len (lstrip_by (Z.eqb (b58_char 0)) value) in
      Ok (repeat 0 (Z.to_nat leading) ++ full)
  end.

Definition encode_multibase_z (data : pybytes) : pystr := str "z" ++ _b58encode data.

Arguments encode_multibase_z : simpl never.

Definition decode_multibase_z (value : pystr) : result pybytes :=
  if negb (startswith (str "z") value) then Raise MultibaseDecodeError
  else rethrow is_ValueError (λ _, MultibaseDecodeError) (_b58decode (tail value)).

Definition with_multicodec (prefix payload : pybytes) : pybytes := prefix ++ payload.

Arguments with_multicodec : simpl never.

Definition strip_multicodec (prefix value : pybytes) : result pybytes :=
  if negb (startswith prefix value) then Raise MultibaseDecodeError
  else Ok (drop (length prefix) value).
Arguments strip_multicodec : simpl never.

(** ** The alphabet *)

Lemma alphabet_table :
  Forall (λ i, _BASE58_INDEX (b58_char i) = Some i) (seqZ 0 58).
Proof. vm_compute. repeat constructor. Qed.

Lemma b58_index_char i : 0 ≤ i < 58 → _BASE58_INDEX (b58_char i) = Some i.
Proof.
  intros Hi. pose proof alphabet_table as H. rewrite Forall_forall in H.
  apply H, elem_of_seqZ. lia.
Qed.

Lemma index_of_spec c s i j :
  index_of c s i = Some j → i ≤ j < i + py_len s ∧ nth (Z.to_nat (j - i)) s 0 = c.
Proof.
  unfold py_len. revert i. induction s as [|d s IH]; intros i; simpl; [done|].
  destruct (c =? d) eqn:E; bool_prop.
  - intros [= <-]. subst. rewrite Z.sub_diag. simpl. lia.
  - intros [? Hn]%IH. split; [lia|].
    replace (Z.to_nat (j - i)) with (S (Z.to_nat (j - (i + 1)))) by lia. done.
Qed.

Lemma b58_char_index c i : _BASE58_INDEX c = Some i → 0 ≤ i < 58 ∧ b58_char i = c.
Proof.
  intros H. apply index_of_spec in H as [H1 H2].
  rewrite Z.sub_0_r in H2. split; [|done]. unfold py_len in H1.
  change (length _BASE58_ALPHABET) with 58%nat in H1. lia.
Qed.

Lemma b58_char_inj i j : 0 ≤ i < 58 → 0 ≤ j < 58 → b58_char i = b58_char j → i = j.
Proof.
  intros Hi Hj E. apply b58_index_char in Hi, Hj. rewrite E in Hi. congruence.
Qed.

(** ** Leading zeros *)

(** A digit string is its leading zeros followed by a string without any. *)
Lemma lead_split (z : Z) (s : list Z) :
  ∃ k t, s = repeat z k ++ t ∧ lstrip_by (Z.eqb z) s = t ∧ (∀ x u, t = x :: u → x ≠ z).
Proof.
  induction s as [|c s (k & t & -> & Ht & Hx)]; [by exists 0%nat, []|]. simpl.
  destruct (z =? c) eqn:E; bool_prop.
  - subst c. exists (S k), t. done.
  - exists 0%nat, (c :: repeat z k ++ t). split_and!; [done..|]. intros x u [= -> _]. done.
Qed.

Lemma lead_strip z k t :
  (∀ x u, t = x :: u → x ≠ z) → lstrip_by (Z.eqb z) (repeat z k ++ t) = t.
Proof.
  intros Hx. induction k as [|k IH]; simpl; [|by rewrite Z.eqb_refl].
  apply lstrip_by_id. intros c s' ->. apply Z.eqb_neq. intros <-. by eapply Hx.
Qed.

Lemma lead_count z k t :
  (∀ x u, t = x :: u → x ≠ z) →
  Z.to_nat (py_len (repeat z k ++ t) - py_len (lstrip_by (Z.eqb z) (repeat z k ++ t))) = k.
Proof.
  intros Hx. rewrite lead_strip by done. unfold py_len. rewrite length_app, repeat_length. lia.
Qed.

Lemma of_digits_zeros b k t : of_digits b (repeat 0 k ++ t) = of_digits b t.
Proof. induction k as [|k IH]; [done|]. unfold of_digits in *. simpl. by rewrite Z.mul_0_l. Qed.

Lemma no_lead_iff t : (∀ x u, t = x :: u → x ≠ 0) ↔ no_lead t.
Proof.
  destruct t as [|x u]; simpl; [naive_solver|]. split.
  - intros H. specialize (H x u eq_refl). by destruct x.
  - intros H y v [= <- <-]. by destruct x.
Qed.

(** ** The loops compute digits *)

Lemma b58_encode_loop_digits fuel n acc :
  b58_encode_loop fuel n (map b58_char acc) = map b58_char (digits_loop fuel 58 n acc).
Proof.
  revert n acc. induction fuel as [|fuel IH]; intros n acc; simpl; [done|].
  destruct (0 <? n); [|done]. apply (IH _ (n mod 58 :: acc)).
Qed.

Lemma b58encode_shape k t :
  no_lead t →
  _b58encode (repeat 0 k ++ t) = repeat (b58_char 0) k ++ map b58_char (to_digits 58 (of_digits 256 t)).
Proof.
  intros Ht. pose proof (proj2 (no_lead_iff t) Ht) as Hx.
  assert (Hgen : ∀ d, d = repeat 0 k ++ t → _b58encode d =
    repeat (b58_char 0) k ++ map b58_char (to_digits 58 (of_digits 256 t))); [|by apply Hgen].
  intros d Hd. unfold _b58encode. destruct d as [|x d].
  - symmetry in Hd. apply app_eq_nil in Hd as [Hk ->]. by destruct k.
  - rewrite Hd, lead_count, of_digits_zeros by done. f_equal.
    by rewrite (b58_encode_loop_digits _ _ []).
Qed.

Lemma b58_decode_loop_map ds n :
  is_digits 58 ds → b58_decode_loop (map b58_char ds) n = Ok (foldl (λ n d, n * 58 + d) n ds).
Proof.
  intros Hd. revert n. induction Hd as [|d ds Hd _ IH]; intros n; simpl; [done|].
  by rewrite b58_index_char by done.
Qed.

Lemma b58_decode_loop_ok s n m :
  b58_decode_loop s n = Ok m →
  ∃ ds, s = map b58_char ds ∧ is_digits 58 ds.
Proof.
  revert n. induction s as [|c s IH]; intros n; simpl; [by exists []|].
  destruct (_BASE58_INDEX c) as [i|] eqn:Ei; [|done].
  apply b58_char_index in Ei as [? <-]. intros (ds & -> & ?)%IH.
  exists (i :: ds). split; [done|]. by constructor.
Qed.

(** The minimal big-endian byte string of a positive number. *)
Lemma to_bytes_minimal n :
  0 ≤ n → (if n =? 0 then [] else to_bytes n ((bit_length n + 7) / 8)) = to_digits 256 n.
Proof.
  intros Hn. destruct (n =? 0) eqn:E; bool_prop; [by subst|].
  unfold to_bytes, bit_length. rewrite (proj2 (Z.eqb_neq n 0)) by done.
  set (ds := to_digits 256 n).
  assert (Hv : of_digits 256 ds = n) by (apply of_to_digits; lia).
  assert (Hd : is_digits 256 ds) by (apply to_digits_digits; lia).
  assert (Hl : no_lead ds) by (apply to_digits_no_lead; lia).
  assert (Hne : ds ≠ []) by (intros Hds; rewrite Hds in Hv; change (of_digits 256 []) with 0 in Hv; lia).
  assert (H1 : 256 ^ (py_len ds - 1) ≤ n) by (rewrite <-Hv; apply no_lead_bound; [lia|done..]).
  assert (H2 : n < 256 ^ py_len ds) by (rewrite <-Hv; apply of_digits_bound; [lia|done]).
  assert (Hp : 1 ≤ py_len ds) by (unfold py_len; destruct ds; [done|simpl; lia]).
  change 256 with (2 ^ 8) in H1, H2. rewrite <-Z.pow_mul_r in H1, H2 by lia.
  assert (8 * (py_len ds - 1) ≤ Z.log2 n) by (apply Z.log2_le_pow2; lia).
  assert (Z.log2 n < 8 * py_len ds) by (apply Z.log2_lt_pow2; lia).
  replace ((Z.log2 n + 1 + 7) / 8) with (py_len ds).
  - unfold py_len. rewrite Nat2Z.id. rewrite <-Hv at 1. apply fixed_of_digits; [lia|done].
  - Z.to_euclidean_division_equations. lia.
Qed.

Lemma b58decode_shape k ds :
  is_digits 58 ds → no_lead ds →
  _b58decode (repeat (b58_char 0) k ++ map b58_char ds)
  = Ok (repeat 0 k ++ to_digits 256 (of_digits 58 ds)).
Proof.
  intros Hd Hl.
  assert (Hx : ∀ x u, map b58_char ds = x :: u → x ≠ b58_char 0).
  { intros x u E ->. destruct ds as [|d ds]; [done|]. injection E as E _.
    inversion Hd; subst. apply b58_char_inj in E; [|lia..]. by subst. }
  assert (Hgen : ∀ v, v = repeat (b58_char 0) k ++ map b58_char ds → _b58decode v =
    Ok (repeat 0 k ++ to_digits 256 (of_digits 58 ds))); [|by apply Hgen].
  intros v Hv. unfold _b58decode. destruct v as [|c v].
  - symmetry in Hv. apply app_eq_nil in Hv as [Hk Hm].
    destruct k; [|done]. by destruct ds.
  - rewrite Hv. rewrite <-map_repeat, <-map_app, b58_decode_loop_map.
    + change (foldl _ 0 (repeat 0 k ++ ds)) with (of_digits 58 (repeat 0 k ++ ds)).
      rewrite of_digits_zeros. simpl. rewrite map_app, map_repeat, lead_count by done.
      rewrite to_bytes_minimal by (apply of_digits_nonneg; [lia|done]). done.
    + apply Forall_app. split; [|done]. apply Forall_forall. intros x Hin.
      apply list_elem_of_In, repeat_spec in Hin. subst. lia.
Qed.

(** ** Round trips *)

Lemma b58_roundtrip data : is_bytes data → _b58decode (_b58encode data) = Ok data.
Proof.
  intros Hb. destruct (lead_split 0 data) as (k & t & -> & _ & Hx). apply no_lead_iff in Hx.
  apply Forall_app in Hb as [_ Ht].
  assert (0 ≤ of_digits 256 t) by (apply of_digits_nonneg; [lia|done]).
  rewrite b58encode_shape, b58decode_shape by
    first [done | apply to_digits_digits; lia | apply to_digits_no_lead; lia].
  by rewrite of_to_digits, to_of_digits by (lia || done).
Qed.

Lemma b58_canonical s data :
  _b58decode s = Ok data → _b58encode data = s ∧ is_bytes data.
Proof.
  intros H.
  assert (∃ ds, s = map b58_char ds ∧ is_digits 58 ds) as (ds & -> & Hd).
  { unfold _b58decode in H. destruct s as [|c s]; [by exists []|]. res_inv.
    by eapply b58_decode_loop_ok. }
  destruct (lead_split 0 ds) as (k & t & -> & _ & Hx). apply no_lead_iff in Hx.
  apply Forall_app in Hd as [_ Ht].
  rewrite map_app, map_repeat, b58decode_shape in H by done. res_inv. split.
  - assert (0 ≤ of_digits 58 t) by (apply of_digits_nonneg; [lia|done]).
    rewrite b58encode_shape by (apply to_digits_no_lead; lia).
    by rewrite of_to_digits, to_of_digits, map_app, map_repeat by (lia || done).
  - apply Forall_app. split; [|apply to_digits_digits; lia].
    apply Forall_forall. intros x Hin. apply list_elem_of_In, repeat_spec in Hin. subst. lia.
Qed.

Lemma multibase_roundtrip data :
  is_bytes data → decode_multibase_z (encode_multibase_z data) = Ok data.
Proof.
  intros. unfold decode_multibase_z, encode_multibase_z. rewrite startswith_app. cbn [negb].
  change (tail _) with (_b58encode data). by rewrite b58_roundtrip.
Qed.

Lemma multibase_canonical v data :
  decode_multibase_z v = Ok data → encode_multibase_z data = v ∧ is_bytes data.
Proof.
  unfold decode_multibase_z. destruct (startswith (str "z") v) eqn:Ez; [|done]. simpl.
  intros H. res_inv. apply startswith_spec in Ez as [t ->]. apply b58_canonical in H as [H ?].
  split; [|done]. unfold encode_multibase_z. by rewrite H.
Qed.

Lemma strip_with_multicodec prefix payload :
  strip_multicodec prefix (with_multicodec prefix payload) = Ok payload.
Proof.
  unfold strip_multicodec, with_multicodec. rewrite startswith_app. simpl.
  by rewrite drop_app_length.
Qed.

Lemma multicodec_bytes raw :
  is_bytes raw → is_bytes (with_multicodec ED25519_PUB_MULTICODEC raw).
Proof. intros. apply Forall_app. split; [repeat constructor; lia|done]. Qed.

Lemma strip_multicodec_ok prefix value payload :
  strip_multicodec prefix value = Ok payload → value = with_multicodec prefix payload.
Proof.
  unfold strip_multicodec. destruct (startswith prefix value) eqn:E; [|done]. simpl. intros H. res_inv.
  apply startswith_spec in E as [t ->]. by rewrite drop_app_length.
Qed.

(** The leading digits of a number whose high part is known. *)
Lemma to_digits_high b h k l :
  2 ≤ b → 0 < h → 0 ≤ l < b ^ Z.of_nat k →
  to_digits b (h * b ^ Z.of_nat k + l) = to_digits b h ++ fixed_digits k b l.
Proof.
  intros Hb Hh Hl.
  assert (E : of_digits b (to_digits b h ++ fixed_digits k b l) = h * b ^ Z.of_nat k + l).
  { rewrite of_digits_app by done. unfold py_len. rewrite length_fixed_digits.
    by rewrite of_to_digits, of_fixed_digits by lia. }
  rewrite <-E. apply to_of_digits; [done| |].
  - apply Forall_app. split; [by apply to_digits_digits|by apply fixed_digits_digits].
  - pose proof (to_digits_no_lead b Hb h ltac:(lia)) as Hn.
    destruct (to_digits b h) eqn:Ed; [|done].
    pose proof (of_to_digits b Hb h ltac:(lia)) as Hv. rewrite Ed in Hv.
    change (of_digits b []) with 0 in Hv. lia.
Qed.

(** Every 32-byte Ed25519 key has a form that begins with [z6Mk]. *)
Lemma key_prefix raw :
  is_bytes raw → length raw = 32%nat →
  startswith (str "z6Mk") (encode_multibase_z (with_multicodec ED25519_PUB_MULTICODEC raw)) = true.
Proof.
  intros Hb Hlen. set (n := of_digits 256 (with_multicodec ED25519_PUB_MULTICODEC raw)).
  assert (Hn : 0xed01 * 256 ^ 32 ≤ n < 0xed02 * 256 ^ 32).
  { unfold n, with_multicodec. rewrite of_digits_app by lia. unfold py_len. rewrite Hlen.
    change (of_digits 256 ED25519_PUB_MULTICODEC) with 0xed01.
    pose proof (of_digits_nonneg 256 ltac:(lia) raw Hb).
    pose proof (of_digits_bound 256 ltac:(lia) raw Hb) as H2.
    unfold py_len in H2. rewrite Hlen in H2. lia. }
  assert (Hh : n / 58 ^ Z.of_nat 44 = 18023).
  { assert (Hlo : 0xed01 * 256 ^ 32 / 58 ^ Z.of_nat 44 = 18023) by (vm_compute; done).
    assert (Hhi : (0xed02 * 256 ^ 32 - 1) / 58 ^ Z.of_nat 44 = 18023) by (vm_compute; done).
    assert (H58 : 0 < 58 ^ Z.of_nat 44) by (apply Z.pow_pos_nonneg; lia).
    pose proof (Z.div_le_mono (0xed01 * 256 ^ 32) n _ H58 ltac:(lia)) as Hm1.
    pose proof (Z.div_le_mono n (0xed02 * 256 ^ 32 - 1) _ H58 ltac:(lia)) as Hm2.
    rewrite Hlo in Hm1. rewrite Hhi in Hm2. lia. }
  assert (Hd : to_digits 58 n = [5; 20; 43] ++ fixed_digits 44 58 (n mod 58 ^ Z.of_nat 44)).
  { assert (H58 : 0 < 58 ^ Z.of_nat 44) by (apply Z.pow_pos_nonneg; lia).
    rewrite (Z.div_mod n (58 ^ Z.of_nat 44)) at 1 by lia. rewrite Hh, Z.mul_comm.
    rewrite to_digits_high by (lia || apply Z.mod_pos_bound; lia). done. }
  assert (E : _b58encode (with_multicodec ED25519_PUB_MULTICODEC raw) = map b58_char (to_digits 58 n)).
  { apply (b58encode_shape 0). done. }
  unfold encode_multibase_z. rewrite E, Hd. done.
Qed.
