(* ===== verification/Identifiers.v ===== *)
(** * Identifiers — [shadownet/identifiers.py]

    The grammar of Shadownames, domains and multibase keys (RFC 0001 §3, §5.1,
    §6.6): validators, canonical forms, discriminators, the sub-domain test. *)

From S2P Require Import Prelude Radix PyStr Base64 Multibase.

Section identifiers.
Context `{PyUnicode}.

Definition _DOMAIN_MAX_LEN : Z := 253.

(** [[A-Za-z0-9_.-]{1,63}] *)
Definition local_char (c : Z) : bool := is_alnum c || (c =? 95) || (c =? 46) || (c =? 45).
Definition local_full (s : pystr) : bool :=
  (1 <=? py_len s) && (py_len s <=? 63) && forallb local_char s.
Definition _SHADOWNAME_LOCAL_RE (s : pystr) : bool := dollar_match local_full s.

(** [[A-Za-z0-9]([A-Za-z0-9-]{0,61}[A-Za-z0-9])?] *)
Definition label_char (c : Z) : bool := is_alnum c || (c =? 45).
Definition label_full (s : pystr) : bool :=
  match s, rev s with
  | a :: _, z :: _ => is_alnum a && is_alnum z && (py_len s <=? 63) && forallb label_char s
  | _, _ => false
  end.
Definition _DOMAIN_LABEL_RE (s : pystr) : bool := dollar_match label_full s.

Definition _validate_domain (value : pystr) : result pystr :=
  let s := py_lower (rstrip_char 46 (strip value)) in
  _ ← raise_if (bool_decide (s = []) || (_DOMAIN_MAX_LEN <? py_len s)) InvalidIdentifierError;
  _ ← raise_if (negb (forallb _DOMAIN_LABEL_RE (split_on 46 s))) InvalidIdentifierError;
  Ok s.

Definition _validate_shadowname (value : pystr) : result pystr :=
  _ ← raise_if (negb (has_char 64 value)) InvalidIdentifierError;
  let '(local, provider) := partition_char 64 value in
  _ ← raise_if (negb (_SHADOWNAME_LOCAL_RE local)) InvalidIdentifierError;
  domain ← _validate_domain provider;
  Ok (py_lower local ++ str "@" ++ domain).

Definition _validate_multibase_pk (value : pystr) : result pystr :=
  _ ← raise_if (negb (startswith (str "z6Mk") value)) InvalidIdentifierError;
  raw ← rethrow (λ e, bool_decide (e = MultibaseDecodeError)) (λ _, InvalidIdentifierError)
          (decoded ← decode_multibase_z value;
           strip_multicodec ED25519_PUB_MULTICODEC decoded);
  _ ← raise_if (negb (py_len raw =? 32)) InvalidIdentifierError;
  Ok value.

Definition parse_shadowname (value : pystr) : result pystr := _validate_shadowname value.

Definition split_shadowname (value : pystr) : result (pystr * pystr) :=
  canonical ← _validate_shadowname value;
  Ok (partition_char 64 canonical).

Definition encode_public_key (public_bytes : pybytes) : result pystr :=
  _ ← raise_if (negb (py_len public_bytes =? 32)) InvalidIdentifierError;
  Ok (encode_multibase_z (with_multicodec ED25519_PUB_MULTICODEC public_bytes)).

Definition parse_public_key (value : pystr) : result pybytes :=
  _ ← _validate_multibase_pk value;
  decoded ← decode_multibase_z value;
  strip_multicodec ED25519_PUB_MULTICODEC decoded.

Definition is_subdomain_of (candidate parent : pystr) : result bool :=
  c ← _validate_domain candidate;
  p ← _validate_domain parent;
  Ok (bool_decide (c = p) || endswith (str "." ++ p) c).

Definition is_shadowname (value : pystr) : bool := has_char 64 value.

Definition is_public_key_identifier (value : pystr) : bool :=
  startswith (str "z6Mk") value && negb (has_char 64 value).

Definition canonicalize_identifier (value : pystr) : result pystr :=
  if is_shadowname value then _validate_shadowname value
  else if is_public_key_identifier value then _validate_multibase_pk value
  else Raise InvalidIdentifierError.

Definition canonicalize_subject_identifier (value : pystr) : result pystr :=
  canonicalize_identifier value.

Definition canonicalize_issuer_or_org_identifier (value : pystr) : result pystr :=
  if is_public_key_identifier value then _validate_multibase_pk value
  else _validate_domain value.

(** ** Character facts *)

Lemma alnum_facts c :
  is_alnum c = true → is_ascii c = true ∧ is_space c = false ∧ c ≠ 46 ∧ c ≠ 64 ∧ c ≠ 10.
Proof. unfold is_alnum, is_ascii, is_space, is_upper, is_lower, is_num. lia. Qed.

Lemma label_char_facts c : label_char c = true → is_ascii c = true ∧ c ≠ 64 ∧ c ≠ 46.
Proof. unfold label_char, is_alnum, is_ascii, is_upper, is_lower, is_num. lia. Qed.

Lemma local_char_facts c : local_char c = true → is_ascii c = true ∧ c ≠ 64.
Proof. unfold local_char, is_alnum, is_ascii, is_upper, is_lower, is_num. lia. Qed.

(** What a label matched by the regular expression looks like. *)
Record label_wf (w : pystr) : Prop := {
  lw_ascii : Forall (λ c, is_ascii c = true) w;
  lw_chars : (64 ∉ w) ∧ (46 ∉ w);
  lw_head : ∃ c w', w = c :: w' ∧ is_alnum c = true;
  lw_last : ∃ c w', w = w' ++ [c] ∧ (is_alnum c = true ∨ c = 10);
}.

Lemma label_full_wf w : label_full w = true → label_wf w.
Proof.
  unfold label_full. destruct w as [|a w'] eqn:Ew; [done|]. rewrite <-Ew.
  destruct (rev w) as [|z r] eqn:Er; [done|]. intros Hm. bool_prop.
  assert (Hw : w = rev r ++ [z]) by (by rewrite <-(rev_involutive w), Er).
  match goal with Hf : forallb _ _ = true |- _ => apply forallb_Forall in Hf; rename Hf into HF end.
  split.
  - eapply Forall_impl; [done|]. intros c Hc. by apply label_char_facts.
  - rewrite Forall_forall in HF. split; intros Hin%HF%label_char_facts; naive_solver.
  - by exists a, w'.
  - exists z, (rev r). auto.
Qed.

Lemma label_re_wf w : _DOMAIN_LABEL_RE w = true → label_wf w.
Proof.
  intros [Hf|(t & -> & Hf)]%dollar_match_spec; [by apply label_full_wf|].
  apply label_full_wf in Hf as [Ha [H1 H2] (c & w' & -> & Hc) _]. split.
  - apply Forall_app. split; [done|]. by repeat constructor.
  - set_solver.
  - by exists c, (w' ++ [10]).
  - exists 10, (c :: w'). auto.
Qed.

Lemma local_re_facts w :
  _SHADOWNAME_LOCAL_RE w = true → Forall (λ c, is_ascii c = true) w ∧ (64 ∉ w) ∧ w ≠ [].
Proof.
  assert (Hfull : ∀ t, local_full t = true →
    Forall (λ c, is_ascii c = true) t ∧ (64 ∉ t) ∧ t ≠ []).
  { intros t Ht. unfold local_full in Ht. bool_prop.
    match goal with Hf : forallb _ _ = true |- _ => apply forallb_Forall in Hf; rename Hf into HF end.
    split_and!.
    - eapply Forall_impl; [done|]. intros c Hc. by apply local_char_facts.
    - rewrite Forall_forall in HF. intros Hin%HF%local_char_facts. naive_solver.
    - intros ->. by unfold py_len in *. }
  intros [Hf|(t & -> & Hf)]%dollar_match_spec; [by apply Hfull|].
  apply Hfull in Hf as (Ha & Hat & _). split_and!; [|set_solver|by destruct t].
  apply Forall_app. split; [done|]. by repeat constructor.
Qed.

(** What a validated domain looks like. *)
Record domain_wf (s : pystr) : Prop := {
  dw_ne : s ≠ [];
  dw_labels : Forall label_wf (split_on 46 s);
  dw_low : Forall (λ c, is_upper c = false) s;
  dw_ascii : Forall (λ c, is_ascii c = true) s;
  dw_at : 64 ∉ s;
  dw_head : ∀ c s', s = c :: s' → is_alnum c = true;
  dw_last : ∀ c s', s = s' ++ [c] → is_alnum c = true ∨ c = 10;
}.

Lemma join_head w ws c w' : w = c :: w' → ∃ r, join_with [46] (w :: ws) = c :: r.
Proof. intros ->. destruct ws; simpl; eauto. Qed.

Lemma join_last ws w c w' :
  w = w' ++ [c] → ∃ r, join_with [46] (ws ++ [w]) = r ++ [c].
Proof.
  intros ->. destruct ws as [|x ws]; [by exists w'|].
  rewrite join_app by done. simpl. eexists. rewrite app_comm_cons, !app_assoc. done.
Qed.

Lemma domain_labels_wf s :
  s ≠ [] → Forall label_wf (split_on 46 s) → Forall (λ c, is_upper c = false) s → domain_wf s.
Proof.
  intros Hne Hl Hu. pose proof (join_split 46 s) as Hj. pose proof (split_on_ne 46 s) as Hs.
  assert (Hin : ∀ c, c ∈ s → c = 46 ∨ ∃ w, w ∈ split_on 46 s ∧ c ∈ w).
  { intros c. rewrite <-Hj at 1. intros [?|?]%elem_of_join; [left; set_solver|by right]. }
  split; [done|done|done| | | |].
  - apply Forall_forall. intros c [->|(w & Hw & Hc)]%Hin; [done|].
    rewrite Forall_forall in Hl. apply Hl in Hw as [Ha _ _ _]. rewrite Forall_forall in Ha. by apply Ha.
  - intros [?|(w & Hw & Hc)]%Hin; [done|].
    rewrite Forall_forall in Hl. by apply Hl in Hw as [_ [? _] _ _].
  - intros c s' ->. destruct (split_on 46 (c :: s')) as [|w ws] eqn:E; [done|].
    inversion Hl as [|?? [_ _ (d & w' & -> & Hd) _]]; subst.
    destruct (join_head (d :: w') ws d w' eq_refl) as [r Hr]. congruence.
  - intros c s' ->. destruct (exists_last Hs) as (ws & w & E). rewrite E in Hl, Hj.
    apply Forall_app in Hl as [_ Hw]. inversion Hw as [|?? [_ _ _ (d & w' & -> & Hd)]]; subst.
    destruct (join_last ws (w' ++ [d]) d w' eq_refl) as [r Hr]. rewrite Hj in Hr.
    apply app_inj_tail in Hr as [_ ->]. done.
Qed.

Lemma validate_domain_wf v s : _validate_domain v = Ok s → domain_wf s.
Proof.
  unfold _validate_domain. intros Hv. res_inv. bool_prop.
  match goal with Hf : forallb _ _ = true |- _ => apply forallb_Forall in Hf; rename Hf into HF end.
  apply domain_labels_wf; [done| |apply py_lower_no_upper].
  eapply Forall_impl; [done|]. apply label_re_wf.
Qed.

Lemma validate_domain_checks v s :
  _validate_domain v = Ok s →
  s ≠ [] ∧ py_len s ≤ _DOMAIN_MAX_LEN ∧ forallb _DOMAIN_LABEL_RE (split_on 46 s) = true.
Proof. unfold _validate_domain. intros Hv. res_inv. bool_prop. done. Qed.

(** A canonical domain is its own canonical form, unless it ends in the
    newline that [$] lets through. *)
Lemma validate_domain_idem v s :
  _validate_domain v = Ok s → 10 ∉ s → _validate_domain s = Ok s.
Proof.
  intros Hv Hnl. pose proof (validate_domain_wf v s Hv) as Hw.
  apply validate_domain_checks in Hv as (? & ? & Hl). unfold _validate_domain.
  assert (Hlast : ∀ c s', s = s' ++ [c] → is_alnum c = true).
  { intros c s' E. destruct (dw_last _ Hw c s' E) as [?| ->]; [done|]. set_solver. }
  rewrite strip_id; cycle 1.
  { intros c s' E. by apply alnum_facts, (dw_head _ Hw c s'). }
  { intros c s' E. by apply alnum_facts, (Hlast c s'). }
  unfold rstrip_char. rewrite rstrip_by_id; cycle 1.
  { intros c s' E. apply Z.eqb_neq. intros <-. by apply Hlast in E. }
  rewrite py_lower_id by apply Hw.
  rewrite bool_decide_eq_false_2, (proj2 (Z.ltb_ge _ _)), Hl by done. done.
Qed.

Lemma validate_shadowname_inv v s :
  _validate_shadowname v = Ok s →
  ∃ l p d, v = l ++ 64 :: p ∧ (64 ∉ l) ∧ _SHADOWNAME_LOCAL_RE l = true ∧
    _validate_domain p = Ok d ∧ s = map ascii_lower l ++ 64 :: d.
Proof.
  unfold _validate_shadowname. intros Hv. res_inv. bool_prop.
  destruct (partition_char 64 v) as [l p] eqn:Ep.
  match goal with Hc : has_char _ _ = true |- _ => apply has_char_spec in Hc; rename Hc into Hat end.
  apply partition_spec in Ep as [-> Hl]; [|done]. res_inv. bool_prop.
  match goal with Hd : _validate_domain _ = Ok ?d |- _ => exists l, p, d; rename Hd into HD end.
  match goal with Hr : _SHADOWNAME_LOCAL_RE _ = true |- _ => rename Hr into HR end.
  split_and!; [done..|]. by rewrite py_lower_ascii by apply (local_re_facts _ HR).
Qed.

Lemma ascii_lower_at l : 64 ∉ l → 64 ∉ map ascii_lower l.
Proof.
  intros Hl. rewrite list_elem_of_fmap. intros (c & Hc & Hin). apply Hl.
  unfold ascii_lower, is_upper in Hc. case_match; bool_prop; [lia|by subst].
Qed.

Lemma ascii_lower_local c : local_char c = true → local_char (ascii_lower c) = true.
Proof. unfold local_char, is_alnum, ascii_lower, is_upper, is_lower, is_num. intros. case_match; lia. Qed.

Lemma local_re_lower l :
  _SHADOWNAME_LOCAL_RE l = true → _SHADOWNAME_LOCAL_RE (map ascii_lower l) = true.
Proof.
  assert (Hfull : ∀ t, local_full t = true → local_full (map ascii_lower t) = true).
  { intros t. unfold local_full, py_len. rewrite length_map. intros. bool_prop.
    rewrite !andb_true_iff, !Z.leb_le. split; [done|]. apply forallb_Forall, Forall_map.
    apply forallb_Forall in H1. eapply Forall_impl; [done|]. apply ascii_lower_local. }
  intros Hm. apply dollar_match_spec. apply dollar_match_spec in Hm as [?|(t & -> & ?)].
  - left. by apply Hfull.
  - right. exists (map ascii_lower t). rewrite map_app. auto.
Qed.

Lemma validate_shadowname_idem v s :
  _validate_shadowname v = Ok s → 10 ∉ s → _validate_shadowname s = Ok s.
Proof.
  intros (l & p & d & -> & Hl & Hre & Hd & ->)%validate_shadowname_inv Hnl.
  unfold _validate_shadowname.
  assert (Hc : has_char 64 (map ascii_lower l ++ 64 :: d) = true) by (apply has_char_spec; set_solver).
  rewrite Hc, partition_free by (by apply ascii_lower_at). simpl.
  rewrite local_re_lower by done. simpl. rewrite (validate_domain_idem p) by (done || set_solver). simpl.
  rewrite py_lower_ascii, map_map by (apply Forall_map; eapply Forall_impl;
    [by apply (local_re_facts l)|apply ascii_lower_ascii]).
  do 2 f_equal. apply map_ext. intros. apply ascii_lower_lower.
Qed.

Lemma validate_multibase_ok v s :
  _validate_multibase_pk v = Ok s →
  s = v ∧ startswith (str "z6Mk") v = true ∧
  ∃ raw, v = encode_multibase_z (with_multicodec ED25519_PUB_MULTICODEC raw) ∧
    is_bytes raw ∧ length raw = 32%nat.
Proof.
  unfold _validate_multibase_pk. intros Hv. res_inv. bool_prop. split_and!; [done..|].
  match goal with Hs : strip_multicodec _ _ = Ok ?r, Hd : decode_multibase_z _ = Ok _ |- _ =>
    apply strip_multicodec_ok in Hs; apply multibase_canonical in Hd as [Hd Hb];
    exists r; subst end.
  unfold with_multicodec in Hb. apply Forall_app in Hb as [_ Hb].
  split_and!; [done..|]. unfold py_len in *. lia.
Qed.

Lemma validate_multibase_encode raw :
  is_bytes raw → length raw = 32%nat →
  let v := encode_multibase_z (with_multicodec ED25519_PUB_MULTICODEC raw) in
  _validate_multibase_pk v = Ok v.
Proof.
  intros Hb Hlen v. unfold _validate_multibase_pk, v. rewrite key_prefix by done.
  rewrite multibase_roundtrip by (by apply multicodec_bytes).
  cbn [mbind result_bind negb raise_if]. rewrite strip_with_multicodec. simpl. unfold py_len. rewrite Hlen. done.
Qed.

Lemma parse_public_key_ok v raw :
  parse_public_key v = Ok raw ↔
  v = encode_multibase_z (with_multicodec ED25519_PUB_MULTICODEC raw) ∧
  is_bytes raw ∧ length raw = 32%nat.
Proof.
  unfold parse_public_key. split.
  - intros Hp. res_inv.
    match goal with Hv : _validate_multibase_pk _ = Ok _ |- _ =>
      apply validate_multibase_ok in Hv as (_ & _ & raw' & -> & Hb & Hlen) end.
    match goal with Hd : decode_multibase_z _ = Ok _ |- _ =>
      rewrite multibase_roundtrip in Hd by (by apply multicodec_bytes) end.
    res_inv.
    match goal with Hs : strip_multicodec _ _ = Ok _ |- _ => rewrite strip_with_multicodec in Hs end.
    by res_inv.
  - intros (-> & Hb & Hlen). rewrite validate_multibase_encode by done. simpl.
    rewrite multibase_roundtrip by (by apply multicodec_bytes). simpl.
    apply strip_with_multicodec.
Qed.

Lemma b58_char_not_at i : 0 ≤ i < 58 → b58_char i ≠ 64.
Proof. intros Hi E%(f_equal _BASE58_INDEX). rewrite b58_index_char in E by done. done. Qed.

Lemma multibase_no_at raw :
  is_bytes raw → 64 ∉ encode_multibase_z raw.
Proof.
  intros Hb. destruct (lead_split 0 raw) as (k & t & -> & _ & Hx). apply no_lead_iff in Hx.
  unfold encode_multibase_z. rewrite b58encode_shape by done.
  rewrite !elem_of_app, list_elem_of_fmap. intros [Hin|[Hin|(i & Hi & Hin)]].
  - apply list_elem_of_In in Hin. vm_compute in Hin. naive_solver.
  - by apply list_elem_of_In, repeat_spec in Hin.
  - symmetry in Hi. revert Hi. apply b58_char_not_at.
    pose proof (to_digits_digits 58 ltac:(lia) (of_digits 256 t)) as HF.
    rewrite Forall_forall in HF. by apply HF.
Qed.

Lemma key_is_key_identifier raw :
  is_bytes raw → length raw = 32%nat →
  is_public_key_identifier (encode_multibase_z (with_multicodec ED25519_PUB_MULTICODEC raw)) = true.
Proof.
  intros Hb Hlen. unfold is_public_key_identifier. rewrite key_prefix by done. cbn [andb].
  apply negb_true_iff, has_char_false, multibase_no_at.
  by apply multicodec_bytes.
Qed.

Lemma key_canonical raw :
  is_bytes raw → length raw = 32%nat →
  let v := encode_multibase_z (with_multicodec ED25519_PUB_MULTICODEC raw) in
  canonicalize_identifier v = Ok v ∧ canonicalize_issuer_or_org_identifier v = Ok v.
Proof.
  intros Hb Hlen v. pose proof (key_is_key_identifier raw Hb Hlen) as Hk.
  unfold canonicalize_identifier, canonicalize_issuer_or_org_identifier, is_shadowname.
  fold v in Hk |- *. rewrite Hk.
  destruct (has_char 64 v) eqn:E; [unfold is_public_key_identifier in Hk; rewrite E, andb_false_r in Hk; done|].
  pose proof (validate_multibase_encode raw Hb Hlen) as Hv. cbv zeta in Hv. fold v in Hv.
  by rewrite Hv.
Qed.

Lemma split_shadowname_ok v l d :
  split_shadowname v = Ok (l, d) →
  _validate_shadowname v = Ok (l ++ 64 :: d) ∧ (64 ∉ l) ∧ domain_wf d.
Proof.
  unfold split_shadowname. intros Hs. res_inv.
  match goal with Hv : _validate_shadowname _ = Ok _ |- _ => rename Hv into HV end.
  pose proof HV as (l' & p & d' & -> & Hl & _ & Hd & ->)%validate_shadowname_inv.
  match goal with Hs : partition_char _ _ = _ |- _ =>
    rewrite partition_free in Hs by (by apply ascii_lower_at); injection Hs as <- <- end.
  split_and!; [done|by apply ascii_lower_at|by eapply validate_domain_wf].
Qed.

(** ** Properties *)

(** An Ed25519 public key of 32 bytes encodes to a [z6Mk...] identifier that
    is accepted as a public key identifier, is its own canonical form, and
    parses back to the same bytes. *)
Lemma encode_public_key_roundtrip (pk : pybytes) :
  is_bytes pk → length pk = 32%nat →
  ∃ v, encode_public_key pk = Ok v ∧ parse_public_key v = Ok pk ∧
    is_public_key_identifier v = true ∧ is_shadowname v = false ∧
    canonicalize_identifier v = Ok v ∧ canonicalize_issuer_or_org_identifier v = Ok v.
Proof.
  intros Hb Hlen. eexists. unfold encode_public_key, py_len. rewrite Hlen. split; [done|].
  destruct (key_canonical pk Hb Hlen). pose proof (key_is_key_identifier pk Hb Hlen) as Hk.
  split_and!; [by apply parse_public_key_ok|done| |done..].
  unfold is_public_key_identifier in Hk. apply andb_true_iff in Hk as [_ Hk]. by apply negb_true_iff.
Qed.

(** C18: a public key has one textual form only: two accepted identifiers that
    parse to the same key are the same string, so comparing identifiers
    compares keys. *)
Theorem public_key_form_unique (a b : pystr) (k : pybytes) :
  parse_public_key a = Ok k → parse_public_key b = Ok k → a = b ∧ length k = 32%nat.
Proof. intros (-> & _ & ?)%parse_public_key_ok (-> & _ & _)%parse_public_key_ok. done. Qed.

(** Canonicalization is idempotent: the canonical form of a Shadowname or
    public key is its own canonical form, whenever it holds no newline. *)
Lemma canonicalize_identifier_idem (v s : pystr) :
  canonicalize_identifier v = Ok s → 10 ∉ s → canonicalize_identifier s = Ok s.
Proof.
  unfold canonicalize_identifier. destruct (is_shadowname v) eqn:Es.
  - intros Hv Hnl. pose proof Hv as (l & p & d & -> & _ & _ & _ & ->)%validate_shadowname_inv.
    unfold is_shadowname. rewrite (proj2 (has_char_spec _ _)) by set_solver.
    by eapply validate_shadowname_idem.
  - destruct (is_public_key_identifier v) eqn:Ek; [|done]. intros Hv _.
    pose proof Hv as (-> & _ & _)%validate_multibase_ok. by rewrite Es, Ek.
Qed.

(** A canonical identifier is exactly one of the two kinds; the kind is kept
    by canonicalization and both discriminators agree on it. *)
Lemma canonicalize_identifier_kind (v s : pystr) :
  canonicalize_identifier v = Ok s →
  is_shadowname s = is_shadowname v ∧ is_public_key_identifier s = negb (is_shadowname v).
Proof.
  unfold canonicalize_identifier. destruct (is_shadowname v) eqn:Es.
  - intros (l & p & d & -> & _ & _ & _ & ->)%validate_shadowname_inv.
    unfold is_public_key_identifier, is_shadowname.
    rewrite (proj2 (has_char_spec 64 (map ascii_lower l ++ _))) by set_solver.
    by rewrite andb_false_r.
  - destruct (is_public_key_identifier v) eqn:Ek; [|done].
    intros (-> & _ & _)%validate_multibase_ok. done.
Qed.

(** The sub-domain test compares whole labels: it holds exactly when the
    labels of the (canonical) parent end the labels of the (canonical)
    candidate, so a suffix that cuts a label never matches. *)
Lemma is_subdomain_of_labels (candidate parent c p : pystr) :
  _validate_domain candidate = Ok c → _validate_domain parent = Ok p →
  ∃ b, is_subdomain_of candidate parent = Ok b ∧
    (b = true ↔ ∃ pre, split_on 46 c = pre ++ split_on 46 p).
Proof.
  intros Hc Hp. unfold is_subdomain_of. rewrite Hc, Hp. simpl. eexists; split; [done|].
  rewrite orb_true_iff, bool_decide_eq_true, endswith_spec. split.
  - intros [->|[t ->]]; [by exists []|]. exists (split_on 46 t).
    change (str "." ++ p) with (46 :: p). apply split_on_app_split.
  - intros [pre E]. pose proof (split_on_ne 46 p) as Hne. destruct pre as [|w pre].
    + left. simpl in E. by rewrite <-(join_split 46 c), E, join_split.
    + right. exists (join_with [46] (w :: pre)).
      rewrite <-(join_split 46 c), E, join_app, join_split by done. done.
Qed.

(** Splitting a Shadowname gives the parts of its canonical form: the local
    part holds no [@], the provider part is a canonical domain without [@]. *)
Lemma split_shadowname_parts (v l d : pystr) :
  split_shadowname v = Ok (l, d) →
  parse_shadowname v = Ok (l ++ str "@" ++ d) ∧ (64 ∉ l) ∧ (64 ∉ d) ∧ d ≠ [].
Proof. intros (? & ? & Hd)%split_shadowname_ok. destruct Hd. done. Qed.

End identifiers.

(** ** Witnesses and concrete behaviour *)

#[local] Existing Instance ascii_unicode.

Definition demo_key : pybytes := repeat 7 32.

Lemma demo_key_bytes : is_bytes demo_key.
Proof. apply Forall_forall. intros x Hx%list_elem_of_In%repeat_spec. subst. lia. Qed.

Lemma encode_public_key_roundtrip_example :
  ∃ v, encode_public_key demo_key = Ok v ∧ parse_public_key v = Ok demo_key ∧
    is_public_key_identifier v = true ∧ is_shadowname v = false ∧
    canonicalize_identifier v = Ok v ∧ canonicalize_issuer_or_org_identifier v = Ok v.
Proof. apply (encode_public_key_roundtrip demo_key); [apply demo_key_bytes | reflexivity]. Qed.

Lemma public_key_form_unique_witness :
  let v := encode_multibase_z (with_multicodec ED25519_PUB_MULTICODEC demo_key) in
  v = v ∧ length demo_key = 32%nat.
Proof. apply (public_key_form_unique _ _ demo_key); vm_compute; reflexivity. Defined.

Lemma canonicalize_identifier_idem_example :
  canonicalize_identifier (str "alice@sh4dow.org") = Ok (str "alice@sh4dow.org").
Proof.
  apply (canonicalize_identifier_idem (str "Alice@SH4DOW.org.")); [vm_compute; reflexivity|].
  apply has_char_false. vm_compute. reflexivity.
Qed.

Lemma is_subdomain_of_labels_example :
  ∃ b, is_subdomain_of (str "HR.acme.example") (str "Acme.Example") = Ok b ∧
    (b = true ↔ ∃ pre, split_on 46 (str "hr.acme.example") = pre ++ split_on 46 (str "acme.example")).
Proof. apply is_subdomain_of_labels; vm_compute; reflexivity. Qed.

(** The anchored expressions let one final newline through: a local part or a
    label may end in it, and a domain so accepted is not its own canonical
    form. *)
Lemma newline_local_accepted :
  parse_shadowname (str "alice" ++ [10] ++ str "@sh4dow.org")
  = Ok (str "alice" ++ [10] ++ str "@sh4dow.org").
Proof. vm_compute. reflexivity. Qed.

Lemma newline_domain_not_idempotent :
  _validate_domain (str "sh4dow" ++ [10] ++ str ".") = Ok (str "sh4dow" ++ [10]) ∧
  _validate_domain (str "sh4dow" ++ [10]) = Ok (str "sh4dow").
Proof. vm_compute. done. Qed.

Lemma sub_domain_examples :
  is_subdomain_of (str "hr.acme.example") (str "acme.example") = Ok true ∧
  is_subdomain_of (str "fakeacme.example") (str "acme.example") = Ok false.
Proof. vm_compute. done. Qed.
