(* ===== verification/Jcs.v ===== *)
(** * JSON values and their canonical form — [shadownet/jcs.py]

    The JSON values the SDK handles, Python dictionaries as insertion-ordered
    association lists, and RFC 8785 canonicalization.  The encoder is proved
    total on exactly the values without floats and lone surrogates, independent
    of dictionary order, and injective up to that order. *)

From S2P Require Import Prelude Radix PyStr Base64.

(** A float, seen through what the SDK observes of it: its truth value and its
    text. *)
Record pyfloat := { float_truthy : bool; float_repr : pystr }.

Inductive json : Type :=
  | JNull
  | JBool (b : bool)
  | JInt (z : Z)
  | JFloat (f : pyfloat)
  | JStr (s : pystr)
  | JList (l : list json)
  | JDict (d : list (pystr * json)).

Abbreviation pydict := (list (pystr * json)).

(** [d.get(k)] *)
Fixpoint dict_get (k : pystr) (d : pydict) : option json :=
  match d with
  | [] => None
  | (k', v) :: d => if bool_decide (k = k') then Some v else dict_get k d
  end.

(** [d[k] = v]: in place for a present key, else at the end. *)
Fixpoint dict_set (k : pystr) (v : json) (d : pydict) : pydict :=
  match d with
  | [] => [(k, v)]
  | (k', v') :: d => if bool_decide (k = k') then (k', v) :: d else (k', v') :: dict_set k v d
  end.

(** [{k: v for k, v in d.items() if p(k)}] *)
Definition dict_filter (p : pystr → bool) (d : pydict) : pydict := List.filter (λ kv, p kv.1) d.

(** [d.update(e)] *)
Definition dict_update (d e : pydict) : pydict := foldl (λ d kv, dict_set kv.1 kv.2 d) d e.

Definition keys (d : pydict) : list pystr := map fst d.

(** [bool(v)] *)
Definition truthy (v : json) : bool :=
  match v with
  | JNull => false
  | JBool b => b
  | JInt z => negb (z =? 0)
  | JFloat f => float_truthy f
  | JStr s => negb (bool_decide (s = []))
  | JList l => match l with [] => false | _ => true end
  | JDict d => match d with [] => false | _ => true end
  end.

(** [v == s] for a string [s]. *)
Definition json_is_str (s : pystr) (v : json) : bool :=
  match v with JStr t => bool_decide (t = s) | _ => false end.

(** [d.get(k) == s] *)
Definition get_is_str (k s : pystr) (d : pydict) : bool :=
  match dict_get k d with Some v => json_is_str s v | None => false end.

(** [d.get(k)] when it is a [str]. *)
Definition get_str (k : pystr) (d : pydict) : option pystr :=
  match dict_get k d with Some (JStr s) => Some s | _ => None end.

(** [d.get(k)] when it is a [dict] / a [list]. *)
Definition get_dict (k : pystr) (d : pydict) : option pydict :=
  match dict_get k d with Some (JDict s) => Some s | _ => None end.
Definition get_list (k : pystr) (d : pydict) : option (list json) :=
  match dict_get k d with Some (JList s) => Some s | _ => None end.

(** ** [str(int)] *)

Definition dec_digits (n : Z) : pystr := if n =? 0 then [48] else map (Z.add 48) (to_digits 10 n).
Definition dec (z : Z) : pystr := if z <? 0 then 45 :: dec_digits (- z) else dec_digits z.

(** CPython refuses to print an integer of more than 4300 digits. *)
Definition int_digits_ok (z : Z) : bool := py_len (to_digits 10 (Z.abs z)) <=? 4300.
Definition int_str (z : Z) : result pystr :=
  if int_digits_ok z then Ok (dec z) else Raise ValueError.

(** ** The encoder *)

Definition hex_digit (d : Z) : Z := if d <? 10 then 48 + d else 87 + d.

Definition _SHORT_ESCAPES (cp : Z) : option pystr :=
  if cp =? 0x08 then Some [92; 98] else if cp =? 0x09 then Some [92; 116]
  else if cp =? 0x0A then Some [92; 110] else if cp =? 0x0C then Some [92; 102]
  else if cp =? 0x0D then Some [92; 114] else None.

(** The text appended for one character. *)
Definition escape_char (cp : Z) : pystr :=
  if cp =? 34 then [92; 34]
  else if cp =? 92 then [92; 92]
  else match _SHORT_ESCAPES cp with
  | Some e => e
  | None =>
      if cp <? 0x20 then [92; 117; 48; 48; hex_digit (cp / 16); hex_digit (cp mod 16)] else [cp]
  end.

Definition _encode_string (s : pystr) : result pystr :=
  body ← mapM (λ cp, if is_surrogate cp then Raise JcsError else Ok (escape_char cp)) s;
  Ok ([34] ++ concat body ++ [34]).

Definition _utf16_codeunits (s : pystr) : result (list Z) := encode_utf16_be s.

(** Tuple comparison of Python, used by [sorted]. *)
Fixpoint lex_leb (x y : list Z) : bool :=
  match x, y with
  | [], _ => true
  | _ :: _, [] => false
  | a :: x, b :: y => (a <? b) || ((a =? b) && lex_leb x y)
  end.
Definition key_le {A} (p q : list Z * A) : Prop := lex_leb p.1 q.1 = true.

(** [sorted(items, key=...)] on items already paired with their key: the stable
    sort. *)
Fixpoint insert_keyed {A} (p : list Z * A) (l : list (list Z * A)) : list (list Z * A) :=
  match l with
  | [] => [p]
  | q :: l => if lex_leb p.1 q.1 then p :: q :: l else q :: insert_keyed p l
  end.
Definition sort_keyed {A} (l : list (list Z * A)) : list (list Z * A) := foldr insert_keyed [] l.

Definition comma_join (ws : list pystr) : pystr := join_with [44] ws.

(** The body of [_encode_object]; the encoding of each value is computed when
    its turn in key order comes. *)
Definition _encode_object (obj : list (pystr * result pystr)) : result pystr :=
  keyed ← mapM (λ kv, u ← _utf16_codeunits kv.1; Ok (u, kv)) obj;
  parts ← mapM (λ ukv : list Z * (pystr * result pystr),
                  let '(k, r) := ukv.2 in
                  ks ← _encode_string k; vs ← r; Ok (ks ++ [58] ++ vs)) (sort_keyed keyed);
  Ok ([123] ++ comma_join parts ++ [125]).

Fixpoint _encode (value : json) : result pystr :=
  match value with
  | JNull => Ok (str "null")
  | JBool true => Ok (str "true")
  | JBool false => Ok (str "false")
  | JStr s => _encode_string s
  | JInt z => int_str z
  | JFloat _ => Raise JcsError
  | JDict d => _encode_object (map (λ kv, (kv.1, _encode kv.2)) d)
  | JList l =>
      items ← mapM _encode l;
      Ok ([91] ++ comma_join items ++ [93])
  end.

Definition canonicalize (value : json) : result pybytes :=
  s ← _encode value; encode_utf8 s.

(** ** Reference definitions

    [encodable]: what the encoder accepts.  [norm]: the value with every
    dictionary in key order.  [enc]: the text of a value, dictionaries as they
    come. *)

Fixpoint encodable (v : json) : bool :=
  match v with
  | JNull | JBool _ => true
  | JInt z => int_digits_ok z
  | JFloat _ => false
  | JStr s => negb (existsb is_surrogate s)
  | JList l => forallb encodable l
  | JDict d => forallb (λ kv, negb (existsb is_surrogate kv.1) && encodable kv.2) d
  end.

Definition utf16_key (k : pystr) : list Z := concat (map utf16_char k).

Fixpoint norm (v : json) : json :=
  match v with
  | JList l => JList (map norm l)
  | JDict d => JDict (map snd (sort_keyed (map (λ kv, (utf16_key kv.1, (kv.1, norm kv.2))) d)))
  | _ => v
  end.

Definition enc_string (s : pystr) : pystr := [34] ++ concat (map escape_char s) ++ [34].

Fixpoint enc (v : json) : pystr :=
  match v with
  | JNull => str "null"
  | JBool true => str "true"
  | JBool false => str "false"
  | JStr s => enc_string s
  | JInt z => dec z
  | JFloat f => float_repr f
  | JList l => [91] ++ comma_join (map enc l) ++ [93]
  | JDict d => [123] ++ comma_join (map (λ kv, enc_string kv.1 ++ [58] ++ enc kv.2) d) ++ [125]
  end.

Definition codepointb (c : Z) : bool := (0 <=? c) && (c <? 0x110000).

(** Strings are made of code points and the keys of a dictionary are distinct. *)
Fixpoint wf_json (v : json) : bool :=
  match v with
  | JStr s => forallb codepointb s
  | JList l => forallb wf_json l
  | JDict d => forallb (λ kv, forallb codepointb kv.1 && wf_json kv.2) d
               && bool_decide (NoDup (map fst d))
  | _ => true
  end.

Lemma json_ind' (P : json → Prop) :
  P JNull → (∀ b, P (JBool b)) → (∀ z, P (JInt z)) → (∀ f, P (JFloat f)) → (∀ s, P (JStr s)) →
  (∀ l, Forall P l → P (JList l)) → (∀ d, Forall (λ kv, P kv.2) d → P (JDict d)) → ∀ v, P v.
Proof.
  intros H0 H1 H2 H3 H4 H5 H6. fix IH 1. intros [| | | | |l|d]; [done|auto..| |].
  - apply H5. induction l as [|v l IHl]; constructor; auto.
  - apply H6. induction d as [|[k v] d IHd]; constructor; auto.
Qed.

(** ** Sorting *)

Lemma lex_leb_refl x : lex_leb x x = true.
Proof. induction x as [|a x IH]; simpl; [done|]. by rewrite Z.eqb_refl, IH, orb_true_r. Qed.

Lemma lex_leb_total x y : lex_leb x y = true ∨ lex_leb y x = true.
Proof.
  revert y. induction x as [|a x IH]; intros [|b y]; simpl; auto.
  destruct (IH y) as [E|E]; rewrite E; lia.
Qed.

Lemma lex_leb_trans x y z : lex_leb x y = true → lex_leb y z = true → lex_leb x z = true.
Proof.
  revert y z. induction x as [|a x IH]; intros [|b y] [|c z]; simpl; try done.
  rewrite !orb_true_iff, !andb_true_iff, !Z.ltb_lt, !Z.eqb_eq.
  intros [?|[? ?]] [?|[? ?]]; try (left; lia). right. split; [lia|eauto].
Qed.

Lemma lex_leb_antisym x y : lex_leb x y = true → lex_leb y x = true → x = y.
Proof.
  revert y. induction x as [|a x IH]; intros [|b y]; simpl; try done.
  rewrite !orb_true_iff, !andb_true_iff, !Z.ltb_lt, !Z.eqb_eq.
  intros [?|[? ?]] [?|[? ?]]; try lia. f_equal; auto.
Qed.

#[global] Instance key_le_trans {A} : Transitive (@key_le A).
Proof. intros p q r. apply lex_leb_trans. Qed.

Lemma insert_keyed_perm {A} (p : list Z * A) l : insert_keyed p l ≡ₚ p :: l.
Proof.
  induction l as [|q l IH]; simpl; [done|]. destruct (lex_leb p.1 q.1); [done|].
  rewrite IH. constructor.
Qed.

Lemma sort_keyed_perm {A} (l : list (list Z * A)) : sort_keyed l ≡ₚ l.
Proof. induction l as [|p l IH]; simpl; [done|]. by rewrite insert_keyed_perm, IH. Qed.

Lemma insert_keyed_sorted {A} (p : list Z * A) l :
  Sorted key_le l → Sorted key_le (insert_keyed p l).
Proof.
  induction 1 as [|q l Hs IH Hh]; simpl; [repeat constructor|].
  destruct (lex_leb p.1 q.1) eqn:E.
  - constructor; [by constructor|]. by constructor.
  - constructor; [done|]. assert (key_le q p) by (destruct (lex_leb_total p.1 q.1); congruence).
    destruct l as [|r l]; simpl; [by constructor|]. inversion Hh; subst.
    destruct (lex_leb p.1 r.1); by constructor.
Qed.

Lemma sort_keyed_sorted {A} (l : list (list Z * A)) : Sorted key_le (sort_keyed l).
Proof. induction l as [|p l IH]; simpl; [constructor|]. by apply insert_keyed_sorted. Qed.

Lemma sort_keyed_map {A B} (f : A → B) (l : list (list Z * A)) :
  sort_keyed (map (λ p, (p.1, f p.2)) l) = map (λ p, (p.1, f p.2)) (sort_keyed l).
Proof.
  induction l as [|p l IH]; simpl; [done|]. rewrite IH. generalize (sort_keyed l) as k.
  induction k as [|q k IHk]; simpl; [done|]. destruct (lex_leb p.1 q.1); [done|]. by rewrite IHk.
Qed.

(** Distinct keys have one sorted order. *)
Lemma sort_keyed_unique {A} (l1 l2 : list (list Z * A)) :
  l1 ≡ₚ l2 → NoDup (map fst l1) → sort_keyed l1 = sort_keyed l2.
Proof.
  intros Hp Hd. apply (Sorted_unique_strong key_le).
  - intros x1 x2 H1 H2 L1 L2. rewrite sort_keyed_perm in H1, H2. rewrite <-Hp in H2.
    assert (E : x1.1 = x2.1) by (by apply lex_leb_antisym).
    apply list_elem_of_lookup in H1 as [i Hi], H2 as [j Hj].
    assert (i = j); [|congruence].
    eapply NoDup_lookup; [exact Hd| |]; rewrite list_lookup_fmap.
    + by rewrite Hi.
    + by rewrite Hj, E.
  - apply sort_keyed_sorted.
  - apply sort_keyed_sorted.
  - by rewrite !sort_keyed_perm.
Qed.

(** ** The encoder computes the reference text *)

Lemma encode_string_spec s :
  _encode_string s = if existsb is_surrogate s then Raise JcsError else Ok (enc_string s).
Proof.
  unfold _encode_string, enc_string.
  assert (E : mapM (λ cp, if is_surrogate cp then Raise JcsError else Ok (escape_char cp)) s
    = if existsb is_surrogate s then Raise JcsError else Ok (map escape_char s)).
  { induction s as [|c s IH]; [done|]. simpl. destruct (is_surrogate c); [done|]. simpl.
    rewrite IH. by destruct (existsb _ s). }
  rewrite E. by destruct (existsb _ s).
Qed.

Lemma codeunits_spec k :
  _utf16_codeunits k = if existsb is_surrogate k then Raise UnicodeEncodeError else Ok (utf16_key k).
Proof. done. Qed.

Lemma mapM_map {A B C} (f : B → result C) (g : A → B) l :
  mapM f (map g l) = mapM (λ a, f (g a)) l.
Proof. induction l as [|a l IH]; simpl; [done|]. by rewrite IH. Qed.

Lemma mapM_ext {A B} (f g : A → result B) l :
  (∀ a, a ∈ l → f a = g a) → mapM f l = mapM g l.
Proof.
  intros Hfg. induction l as [|a l IH]; simpl; [done|].
  rewrite Hfg, IH by set_solver. done.
Qed.

Lemma mapM_ext_ok {A B} (f : A → result B) (g : A → B) l :
  (∀ a, a ∈ l → f a = Ok (g a)) → mapM f l = Ok (map g l).
Proof. intros Hf. apply mapM_ok_map, Forall_forall. auto. Qed.

(** The items of an object, in key order. *)
Definition object_items {A} (f : json → A) (d : pydict) : list (pystr * A) :=
  map snd (sort_keyed (map (λ kv, (utf16_key kv.1, (kv.1, f kv.2))) d)).

Lemma object_items_map {A B} (f : json → A) (g : A → B) d :
  object_items (λ v, g (f v)) d = map (λ kv, (kv.1, g kv.2)) (object_items f d).
Proof.
  unfold object_items. set (h := λ kv : pystr * A, (kv.1, g kv.2)).
  pose proof (sort_keyed_map h (map (λ kv, (utf16_key kv.1, (kv.1, f kv.2))) d)) as E.
  rewrite map_map in E. simpl in E. unfold h in E at 1. simpl in E. rewrite E, !map_map. done.
Qed.

Lemma object_items_in {A} (f : json → A) d kv :
  kv ∈ object_items f d ↔ ∃ p, p ∈ d ∧ kv = (p.1, f p.2).
Proof.
  unfold object_items. rewrite list_elem_of_fmap. split.
  - intros (q & -> & Hq). rewrite sort_keyed_perm, list_elem_of_fmap in Hq.
    destruct Hq as (p & -> & Hp). by exists p.
  - intros (p & Hp & ->). exists (utf16_key p.1, (p.1, f p.2)). split; [done|].
    rewrite sort_keyed_perm, list_elem_of_fmap. by exists p.
Qed.

Lemma encode_object_spec d :
  Forall (λ kv, existsb is_surrogate kv.1 = false) d →
  _encode_object (map (λ kv, (kv.1, _encode kv.2)) d)
  = (parts ← mapM (λ kr : pystr * result pystr, vs ← kr.2; Ok (enc_string kr.1 ++ [58] ++ vs))
               (object_items _encode d);
     Ok ([123] ++ comma_join parts ++ [125])).
Proof.
  intros Hk. unfold _encode_object.
  rewrite (mapM_ext_ok _ (λ kv, (utf16_key kv.1, kv))).
  2:{ intros a (kv & -> & Hin)%list_elem_of_fmap. rewrite codeunits_spec. simpl.
      rewrite Forall_forall in Hk. by rewrite Hk. }
  cbn [mbind result_bind]. rewrite map_map. cbn [fst].
  assert (Hks : ∀ q, q ∈ sort_keyed (map (λ kv, (utf16_key kv.1, (kv.1, _encode kv.2))) d) →
    existsb is_surrogate q.2.1 = false).
  { intros q Hq. rewrite sort_keyed_perm, list_elem_of_fmap in Hq. destruct Hq as (kv & -> & Hin).
    rewrite Forall_forall in Hk. by apply Hk. }
  unfold object_items. revert Hks.
  generalize (sort_keyed (map (λ kv, (utf16_key kv.1, (kv.1, _encode kv.2))) d)) as l. intros l Hks.
  rewrite mapM_map.
  erewrite mapM_ext; [done|]. intros [u [k r]] Hin. simpl.
  rewrite encode_string_spec, (Hks _ Hin : existsb is_surrogate k = false). done.
Qed.

Lemma object_items_ext {A} (f g : json → A) d :
  Forall (λ kv, f kv.2 = g kv.2) d → object_items f d = object_items g d.
Proof.
  intros Hfg. unfold object_items. do 2 f_equal. apply map_ext_in.
  intros kv Hin%list_elem_of_In. rewrite Forall_forall in Hfg. by rewrite Hfg.
Qed.

Lemma encode_spec v : encodable v = true → _encode v = Ok (enc (norm v)).
Proof.
  induction v as [|b|z|f|s|l IH|d IH] using json_ind'; simpl; intros Hv; try done.
  - by destruct b.
  - unfold int_str. by rewrite Hv.
  - rewrite encode_string_spec. by destruct (existsb _ s).
  - rewrite (mapM_ext_ok _ (λ v, enc (norm v))).
    + simpl. by rewrite map_map.
    + intros a Ha. rewrite Forall_forall in IH. rewrite forallb_forall in Hv.
      apply IH, Hv; [done|]. by apply list_elem_of_In.
  - rewrite forallb_forall in Hv. setoid_rewrite <-list_elem_of_In in Hv.
    rewrite encode_object_spec.
    2:{ apply Forall_forall. intros kv Hin. apply Hv in Hin. by bool_prop. }
    rewrite (object_items_ext _ (λ v, Ok (enc (norm v)))).
    2:{ apply Forall_forall. intros kv Hin. rewrite Forall_forall in IH. apply IH; [done|].
        apply Hv in Hin. by bool_prop. }
    rewrite (object_items_map norm (λ v, Ok (enc v))), mapM_map.
    by rewrite (mapM_ext_ok _ (λ kv, enc_string kv.1 ++ [58] ++ enc kv.2)).
Qed.

Lemma encode_object_keys obj s :
  _encode_object obj = Ok s → Forall (λ kr, existsb is_surrogate kr.1 = false ∧ is_ok kr.2 = true) obj.
Proof.
  unfold _encode_object. intros He. res_inv.
  match goal with Hk : mapM _ obj = Ok ?ks, Hp : mapM _ (sort_keyed ?ks) = Ok _ |- _ =>
    apply mapM_ok in Hk; apply mapM_ok in Hp; rename Hk into HK; rename Hp into HP;
    rename ks into keyed end.
  apply Forall_forall. intros kr Hin.
  assert (∃ q, q ∈ keyed ∧ q.2 = kr ∧ existsb is_surrogate kr.1 = false) as (q & Hq & <- & Hs).
  { apply list_elem_of_lookup in Hin as [i Hi].
    destruct (Forall2_lookup_l _ _ _ _ _ HK Hi) as (q & Hqi & Hu). res_inv.
    rewrite codeunits_spec in *. destruct (existsb is_surrogate kr.1) eqn:E; [done|].
    eexists. split; [by eapply list_elem_of_lookup_2|]. done. }
  split; [done|]. rewrite <-sort_keyed_perm in Hq. apply list_elem_of_lookup in Hq as [j Hj].
  destruct (Forall2_lookup_l _ _ _ _ _ HP Hj) as (p & _ & Hp). destruct q.2 as [k [vs|e]]; [done|].
  res_inv.
Qed.

Lemma encode_ok_encodable v s : _encode v = Ok s → encodable v = true.
Proof.
  revert s. induction v as [|b|z|f|t|l IH|d IH] using json_ind'; simpl; intros s He; try done.
  - unfold int_str in He. by destruct (int_digits_ok z).
  - rewrite encode_string_spec in He. by destruct (existsb _ t).
  - res_inv. apply forallb_forall. intros a Ha%list_elem_of_In.
    match goal with Hm : mapM _ _ = Ok _ |- _ => apply mapM_ok in Hm; rename Hm into HM end.
    rewrite Forall_forall in IH. pose proof Ha as [i Hi]%list_elem_of_lookup.
    destruct (Forall2_lookup_l _ _ _ _ _ HM Hi) as (b & _ & Hb). by eapply IH.
  - apply encode_object_keys in He. apply forallb_forall. intros kv Hin%list_elem_of_In.
    rewrite Forall_map, Forall_forall in He. destruct (He kv Hin) as [Hs Hk]. simpl in Hs, Hk |- *.
    rewrite Hs. simpl.
    destruct (_encode kv.2) eqn:E; [|done]. rewrite Forall_forall in IH. by eapply IH.
Qed.

(** ** The text of a value determines the value *)

(** What may follow a value inside a text: nothing, or a character that does
    not extend a number. *)
Definition stops (x : pystr) : bool := match x with c :: _ => negb (is_num c) | [] => true end.

Lemma digits_prefix ds1 ds2 x y :
  Forall (λ c, is_num c = true) ds1 → Forall (λ c, is_num c = true) ds2 →
  stops x = true → stops y = true → ds1 ++ x = ds2 ++ y → ds1 = ds2 ∧ x = y.
Proof.
  intros H1. revert ds2. induction H1 as [|c ds1 Hc _ IH]; intros ds2 H2 Hx Hy E.
  - destruct H2 as [|d ds2 Hd _]; [done|]. simpl in E. subst x. simpl in Hx. by rewrite Hd in Hx.
  - destruct H2 as [|d ds2 Hd H2]; simpl in E.
    + subst y. simpl in Hy. by rewrite Hc in Hy.
    + injection E as -> E. destruct (IH ds2 H2 Hx Hy E) as [-> ->]. done.
Qed.

Lemma dec_digits_num n : Forall (λ c, is_num c = true) (dec_digits n).
Proof.
  unfold dec_digits. case_match; [by repeat constructor|]. apply Forall_map.
  eapply Forall_impl; [apply (to_digits_digits 10); lia|]. intros d Hd.
  change (is_num (48 + d) = true). unfold is_num.
  apply andb_true_iff. rewrite !Z.leb_le. simpl in Hd. lia.
Qed.

Lemma dec_digits_ne n : 0 ≤ n → dec_digits n ≠ [].
Proof.
  unfold dec_digits. intros Hn. destruct (n =? 0) eqn:E; [done|]. bool_prop.
  intros Hm%map_eq_nil. pose proof (of_to_digits 10 ltac:(lia) n Hn) as Hv.
  rewrite Hm in Hv. change (of_digits 10 []) with 0 in Hv. lia.
Qed.

Lemma dec_digits_value n : 0 ≤ n → of_digits 10 (map (λ c, c - 48) (dec_digits n)) = n.
Proof.
  intros Hn. unfold dec_digits. destruct (n =? 0) eqn:E; bool_prop; [by subst|].
  rewrite map_map. rewrite <-(of_to_digits 10 ltac:(lia) n Hn) at 2. f_equal.
  rewrite <-map_id. apply map_ext. intros. lia.
Qed.

Lemma dec_unique z1 z2 x y :
  stops x = true → stops y = true → dec z1 ++ x = dec z2 ++ y → z1 = z2 ∧ x = y.
Proof.
  assert (Hnat : ∀ a b, 0 ≤ a → 0 ≤ b → stops x = true → stops y = true →
    dec_digits a ++ x = dec_digits b ++ y → a = b ∧ x = y).
  { intros a b Ha Hb Hx Hy E. apply digits_prefix in E as [E ->]; auto using dec_digits_num.
    split; [|done]. by rewrite <-(dec_digits_value a), E, dec_digits_value. }
  assert (Hneg : ∀ a, 0 ≤ a → ∀ u v, 45 :: u ≠ dec_digits a ++ v).
  { intros a Ha u v E. pose proof (dec_digits_ne a Ha). pose proof (dec_digits_num a) as HF.
    destruct (dec_digits a) as [|c t]; [done|]. injection E as <- _. by inversion HF. }
  intros Hx Hy. unfold dec. destruct (z1 <? 0) eqn:E1, (z2 <? 0) eqn:E2; bool_prop; simpl; intros E.
  - injection E as E. apply Hnat in E as [? ->]; [split; [lia|done]|lia..|done|done].
  - by apply Hneg in E; [|lia].
  - symmetry in E. by apply Hneg in E; [|lia].
  - apply Hnat in E; [done..|].  done.
Qed.

Lemma hex_digit_inj a b : 0 ≤ a < 16 → 0 ≤ b < 16 → hex_digit a = hex_digit b → a = b.
Proof. unfold hex_digit. intros. repeat case_match; bool_prop; lia. Qed.

Lemma escape_char_ne c : escape_char c ≠ [].
Proof. unfold escape_char, _SHORT_ESCAPES. by repeat case_match; simplify_eq. Qed.

Lemma escape_char_inj c d x y :
  is_codepoint c → is_codepoint d → escape_char c ++ x = escape_char d ++ y → c = d ∧ x = y.
Proof.
  unfold is_codepoint, escape_char, _SHORT_ESCAPES, hex_digit. intros Hc Hd.
  repeat (case_match; simplify_eq); bool_prop; cbn [app]; intros E; split_cons;
    first [split; [Z.to_euclidean_division_equations; lia | done]
          | exfalso; Z.to_euclidean_division_equations; lia].
Qed.

(** No escape begins with the closing quote. *)
Lemma escape_char_quote c x y : escape_char c ++ x ≠ 34 :: y.
Proof.
  unfold escape_char, _SHORT_ESCAPES.
  repeat (case_match; simplify_eq); bool_prop; cbn [app]; intros E; split_cons; lia.
Qed.

Lemma escaped_body_unique s1 s2 x y :
  Forall is_codepoint s1 → Forall is_codepoint s2 →
  concat (map escape_char s1) ++ 34 :: x = concat (map escape_char s2) ++ 34 :: y → s1 = s2 ∧ x = y.
Proof.
  intros H1. revert s2. induction H1 as [|c s1 Hc _ IH]; intros s2 H2 E.
  - destruct H2 as [|d s2 Hd _]; simpl in E; [by injection E|].
    rewrite <-app_assoc in E. symmetry in E. by apply escape_char_quote in E.
  - destruct H2 as [|d s2 Hd H2]; simpl in E; rewrite <-app_assoc in E.
    + by apply escape_char_quote in E.
    + rewrite <-app_assoc in E. apply escape_char_inj in E as [-> E]; [|done..].
      by destruct (IH s2 H2 E) as [-> ->].
Qed.

Lemma enc_string_unique s1 s2 x y :
  Forall is_codepoint s1 → Forall is_codepoint s2 →
  enc_string s1 ++ x = enc_string s2 ++ y → s1 = s2 ∧ x = y.
Proof.
  intros H1 H2. unfold enc_string. rewrite <-!app_assoc. simpl. intros E.
  injection E as E. by apply escaped_body_unique.
Qed.

(** A comma-separated sequence closed by [close] is read back in one way, when
    each of its items is. *)
Lemma comma_join_unique {A} (e : A → pystr) (close : Z) (P : A → Prop) (l1 l2 : list A) x y :
  is_num close = false → close ≠ 44 →
  (∀ a, P a → ∃ c t, e a = c :: t ∧ c ≠ close) →
  Forall (λ a, ∀ b u v, P b → stops u = true → stops v = true →
                 e a ++ u = e b ++ v → a = b ∧ u = v) l1 →
  Forall P l1 → Forall P l2 →
  comma_join (map e l1) ++ close :: x = comma_join (map e l2) ++ close :: y → l1 = l2 ∧ x = y.
Proof.
  intros Hnum Hcomma Hhead HU. revert l2.
  assert (Hstop : ∀ (l : list A) z,
    stops (match l with [] => close :: z | _ => 44 :: comma_join (map e l) ++ close :: z end) = true).
  { intros [|a l] z; simpl; [by rewrite Hnum|done]. }
  assert (Hcons : ∀ a (l : list A) z, comma_join (map e (a :: l)) ++ close :: z =
    e a ++ match l with [] => close :: z | _ => 44 :: comma_join (map e l) ++ close :: z end).
  { intros a [|b l] z; [done|]. unfold comma_join. rewrite (map_cons e a), join_cons by done.
    by rewrite <-!app_assoc. }
  induction HU as [|a l1 Ha HU IH]; intros l2 H1 H2 E.
  - destruct H2 as [|b l2 Hb _]; [by injection E|]. rewrite Hcons in E.
    destruct (Hhead b Hb) as (c & t & Hc & Hne). rewrite Hc in E. injection E as ? _. congruence.
  - inversion H1 as [|?? HPa H1']; subst. destruct H2 as [|b l2 Hb H2]; rewrite Hcons in E.
    + destruct (Hhead a HPa) as (c & t & Hc & Hne). rewrite Hc in E. injection E as ? _. congruence.
    + rewrite Hcons in E. apply Ha in E as [-> E]; [|done|apply Hstop..].
      destruct l1 as [|a' l1], l2 as [|b' l2]; [by injection E as ->|injection E as ? _; congruence..|].
      injection E as E. destruct (IH (b' :: l2) H1' H2 E) as [-> ->]. done.
Qed.

Lemma enc_head v : encodable v = true →
  ∃ c t, enc v = c :: t ∧
    match v with
    | JNull => c = 110 | JBool true => c = 116 | JBool false => c = 102
    | JInt _ => c = 45 ∨ 48 ≤ c ≤ 57 | JFloat _ => False | JStr _ => c = 34
    | JList _ => c = 91 | JDict _ => c = 123
    end.
Proof.
  destruct v as [|[]|z|f|s|l|d]; simpl; intros Hv; try done; try (by eexists _, _).
  unfold dec. destruct (z <? 0) eqn:Ez; [eexists _, _; split; [done|by left]|]. bool_prop.
  pose proof (dec_digits_ne z ltac:(lia)). pose proof (dec_digits_num z) as HF.
  destruct (dec_digits z) as [|c t]; [done|]. exists c, t. split; [done|]. right.
  inversion HF as [|?? Hc]; subst. unfold is_num in Hc. by bool_prop.
Qed.

Lemma codepointb_Forall s : forallb codepointb s = true ↔ Forall is_codepoint s.
Proof.
  rewrite forallb_forall, Forall_forall. setoid_rewrite list_elem_of_In.
  unfold codepointb, is_codepoint. split; intros Hs c Hc; apply Hs in Hc; lia.
Qed.

Definition well_formed (v : json) : Prop := wf_json v = true ∧ encodable v = true.

Lemma well_formed_list l : well_formed (JList l) ↔ Forall well_formed l.
Proof.
  unfold well_formed. simpl. rewrite !forallb_forall, Forall_forall.
  setoid_rewrite list_elem_of_In. naive_solver.
Qed.

Lemma well_formed_dict d :
  well_formed (JDict d) ↔
  Forall (λ kv, Forall is_codepoint kv.1 ∧ existsb is_surrogate kv.1 = false ∧ well_formed kv.2) d
  ∧ NoDup (keys d).
Proof.
  unfold well_formed. simpl. rewrite !andb_true_iff, !forallb_forall, Forall_forall, bool_decide_eq_true.
  setoid_rewrite list_elem_of_In. setoid_rewrite andb_true_iff.
  setoid_rewrite negb_true_iff. setoid_rewrite codepointb_Forall. naive_solver.
Qed.

Lemma enc_unique a : ∀ b x y,
  well_formed a → well_formed b → stops x = true → stops y = true →
  enc a ++ x = enc b ++ y → a = b ∧ x = y.
Proof.
  induction a as [|b1|z1|f1|s1|l1 IH|d1 IH] using json_ind'; intros b x y Ha Hb Hx Hy E;
    destruct (enc_head _ (proj2 Ha)) as (c1 & t1 & E1 & K1);
    destruct (enc_head _ (proj2 Hb)) as (c2 & t2 & E2 & K2);
    pose proof E as Eh; rewrite E1, E2 in Eh; simpl in Eh; injection Eh as Eh _; subst c2;
    destruct b as [|b2|z2|f2|s2|l2|d2]; try (by destruct K2);
    try (exfalso; repeat match goal with b : bool |- _ => destruct b end; simpl in K1, K2; lia).
  - by injection E.
  - destruct b1, b2; try (simpl in K1, K2; lia); simpl in E; injection E as ->; done.
  - by apply dec_unique in E as [-> ->].
  - apply enc_string_unique in E as [-> ->]; [done|..];
      apply codepointb_Forall; [apply Ha|apply Hb].
  - apply well_formed_list in Ha, Hb. simpl in E. rewrite <-!app_assoc in E. injection E as E.
    apply (comma_join_unique enc 93 well_formed) in E as [-> ->]; [done..| | |done|done].
    + intros v Hv. destruct (enc_head v (proj2 Hv)) as (c & t & -> & K). exists c, t. split; [done|].
      destruct v as [|[]| | | | |]; simpl in K; lia.
    + rewrite Forall_forall in IH, Ha |- *. intros v Hv w u u' Hw Hu Hu' Eq.
      apply (IH v Hv); auto.
  - apply well_formed_dict in Ha as [Ha Na], Hb as [Hb Nb]. simpl in E. rewrite <-!app_assoc in E.
    injection E as E.
    apply (comma_join_unique (λ kv, enc_string kv.1 ++ [58] ++ enc kv.2) 125
      (λ kv, Forall is_codepoint kv.1 ∧ existsb is_surrogate kv.1 = false ∧ well_formed kv.2))
      in E as [-> ->]; [done..| | |done|done].
    + intros [k v] _. eexists 34, _. split; [reflexivity|done].
    + rewrite Forall_forall in IH, Ha |- *. intros [k v] Hkv [k' v'] u u' (Hk' & _ & Hv') Hu Hu' Eq.
      cbn [fst snd] in *. rewrite <-!app_assoc in Eq. destruct (Ha _ Hkv) as (Hk & _ & Hv).
      apply enc_string_unique in Eq as [-> Eq]; [|done..]. injection Eq as Eq.
      apply (IH _ Hkv) in Eq as [Ev ->]; [|done..]. simpl in Ev. by subst.
Qed.

(** ** Normal forms *)

Lemma object_items_keys {A} (f : json → A) d : map fst (object_items f d) ≡ₚ keys d.
Proof.
  unfold object_items, keys. rewrite sort_keyed_perm, !map_map. simpl. done.
Qed.

Lemma norm_dict d : norm (JDict d) = JDict (object_items norm d).
Proof. done. Qed.

Lemma norm_wf v : well_formed v → well_formed (norm v).
Proof.
  induction v as [| | | | |l IH|d IH] using json_ind'; try done.
  - rewrite well_formed_list. intros Hl. apply well_formed_list, Forall_map.
    rewrite Forall_forall in IH, Hl |- *. auto.
  - rewrite norm_dict, !well_formed_dict. intros [Hd Hn]. split.
    + apply Forall_forall. intros kv (p & Hp & ->)%object_items_in. simpl.
      rewrite Forall_forall in IH, Hd. destruct (Hd p Hp) as (? & ? & ?). auto.
    + unfold keys at 1. by rewrite object_items_keys.
Qed.

Lemma encodable_norm v : encodable (norm v) = encodable v.
Proof.
  induction v as [| | | | |l IH|d IH] using json_ind'; try done.
  - simpl. induction IH as [|v l Hv _ IH]; simpl; [done|]. by rewrite Hv, IH.
  - rewrite norm_dict. apply Bool.eq_iff_eq_true. simpl. rewrite !forallb_forall.
    setoid_rewrite <-list_elem_of_In. rewrite Forall_forall in IH. split.
    + intros Hd kv Hin. rewrite <-IH by done.
      apply (Hd (kv.1, norm kv.2)), object_items_in. eauto.
    + intros Hd kv (p & Hp & ->)%object_items_in. simpl. rewrite IH by done. by apply Hd.
Qed.

Lemma utf16_key_inj k1 k2 :
  Forall is_codepoint k1 → existsb is_surrogate k1 = false →
  Forall is_codepoint k2 → existsb is_surrogate k2 = false →
  utf16_key k1 = utf16_key k2 → k1 = k2.
Proof.
  intros H1 S1 H2 S2 E. apply (encode_utf16_inj k1 k2 (utf16_key k1)); [done..| |].
  - change (encode_utf16_be k1) with (_utf16_codeunits k1). by rewrite codeunits_spec, S1.
  - change (encode_utf16_be k2) with (_utf16_codeunits k2). by rewrite codeunits_spec, S2, E.
Qed.

Lemma NoDup_map_inj {A B} (f : A → B) (l : list A) :
  (∀ x y, x ∈ l → y ∈ l → f x = f y → x = y) → NoDup l → NoDup (map f l).
Proof.
  intros Hf Hl. induction Hl as [|x l Hx _ IH]; simpl; [constructor|]. constructor.
  - rewrite list_elem_of_fmap. intros (y & E & Hy). apply Hf in E; [|set_solver..]. by subst.
  - apply IH. intros. apply Hf; set_solver.
Qed.

(** The order in which a dictionary was filled does not matter. *)
Lemma norm_perm d1 d2 :
  well_formed (JDict d1) → d1 ≡ₚ d2 → norm (JDict d1) = norm (JDict d2).
Proof.
  intros [Hd Hn]%well_formed_dict Hp. rewrite !norm_dict. unfold object_items. do 2 f_equal.
  apply sort_keyed_unique; [by rewrite Hp|]. rewrite map_map. simpl.
  assert (E : map (λ kv : pystr * json, utf16_key kv.1) d1 = map utf16_key (keys d1))
    by (unfold keys; by rewrite map_map).
  rewrite E. apply NoDup_map_inj; [|done].
  assert (Hk : ∀ k, k ∈ keys d1 → Forall is_codepoint k ∧ existsb is_surrogate k = false).
  { intros k (kv & -> & Hin)%list_elem_of_fmap. rewrite Forall_forall in Hd.
    by destruct (Hd kv Hin) as (? & ? & _). }
  intros x y [? ?]%Hk [? ?]%Hk. by apply utf16_key_inj.
Qed.

(** Reading a field of a dictionary from its normal form. *)
Lemma dict_get_in k d v : NoDup (keys d) → dict_get k d = Some v ↔ (k, v) ∈ d.
Proof.
  induction d as [|[k' v'] d IH]; simpl; intros Hn; [set_solver|].
  apply NoDup_cons in Hn as [Hk Hn]. rewrite elem_of_cons. case_bool_decide as E.
  - subst k'. split; [intros [= ->]; by left|]. intros [[= ->]|Hin]; [done|].
    exfalso. apply Hk, list_elem_of_fmap. by exists (k, v).
  - rewrite IH by done. naive_solver.
Qed.

Lemma norm_dict_get k d1 d2 :
  well_formed (JDict d1) → well_formed (JDict d2) → norm (JDict d1) = norm (JDict d2) →
  norm <$> dict_get k d1 = norm <$> dict_get k d2.
Proof.
  intros W1 W2 E. apply well_formed_dict in W1 as [_ N1], W2 as [_ N2].
  rewrite !norm_dict in E. injection E as E.
  assert (Hg : ∀ da db, NoDup (keys da) → NoDup (keys db) → object_items norm da = object_items norm db →
    ∀ v, dict_get k da = Some v → ∃ w, dict_get k db = Some w ∧ norm v = norm w).
  { intros da db Na Nb Eab v Hv%dict_get_in; [|done].
    assert (Hin : (k, norm v) ∈ object_items norm db).
    { rewrite <-Eab. apply object_items_in. by exists (k, v). }
    apply object_items_in in Hin as ([k' w] & Hw & [= -> ->]).
    exists w. split; [|done]. by apply dict_get_in. }
  destruct (dict_get k d1) as [v|] eqn:E1.
  - destruct (Hg d1 d2 N1 N2 E v E1) as (w & -> & Ew). simpl. by rewrite Ew.
  - destruct (dict_get k d2) as [w|] eqn:E2; [|done].
    destruct (Hg d2 d1 N2 N1 (eq_sym E) w E2) as (? & ? & _). congruence.
Qed.

Lemma norm_str s v : norm v = JStr s → v = JStr s.
Proof. by destruct v; intros [=]; subst. Qed.

(** ** The bytes *)

(** A character UTF-8 can encode. *)
Definition scalar (c : Z) : Prop := is_codepoint c ∧ is_surrogate c = false.

Lemma scalar_ascii c : 0 ≤ c < 128 → scalar c.
Proof. unfold scalar, is_codepoint, is_surrogate. lia. Qed.

Lemma escape_char_scalar c : scalar c → Forall scalar (escape_char c).
Proof.
  intros Hc. unfold escape_char, _SHORT_ESCAPES, hex_digit.
  repeat (case_match; simplify_eq); bool_prop; repeat apply Forall_cons_2; try apply Forall_nil_2; try done;
    apply scalar_ascii; destruct Hc as [Hc _]; unfold is_codepoint in Hc;
    Z.to_euclidean_division_equations; lia.
Qed.

Lemma enc_string_scalar s : Forall scalar s → Forall scalar (enc_string s).
Proof.
  intros Hs. unfold enc_string. rewrite !Forall_app, Forall_singleton.
  split_and!; [by apply scalar_ascii| |by apply scalar_ascii].
  induction Hs as [|c s Hc _ IH]; simpl; [constructor|].
  apply Forall_app. split; [by apply escape_char_scalar|done].
Qed.

Lemma comma_join_scalar ws : Forall (Forall scalar) ws → Forall scalar (comma_join ws).
Proof.
  intros Hw. apply Forall_forall. intros c [Hc|(w & Hin & Hc)]%elem_of_join.
  - apply list_elem_of_singleton in Hc as ->. by apply scalar_ascii.
  - rewrite Forall_forall in Hw. apply Hw in Hin. rewrite Forall_forall in Hin. by apply Hin.
Qed.

Lemma string_scalar s :
  Forall is_codepoint s → existsb is_surrogate s = false → Forall scalar s.
Proof. intros H1 H2%existsb_false_Forall. by apply Forall_and. Qed.

Lemma enc_scalar v : well_formed v → Forall scalar (enc v).
Proof.
  assert (Hnum : ∀ n, Forall scalar (dec_digits n)).
  { intros n. eapply Forall_impl; [apply dec_digits_num|].
    intros c Hc. apply scalar_ascii. unfold is_num in Hc. lia. }
  assert (Hlit : ∀ s, forallb is_ascii s = true → Forall scalar s).
  { intros s Hs. apply Forall_forall. intros c Hc. rewrite forallb_forall in Hs.
    apply list_elem_of_In, Hs in Hc. apply scalar_ascii. unfold is_ascii in Hc. lia. }
  induction v as [|b|z|f|s|l IH|d IH] using json_ind'; intros Hv; cbn [enc].
  - by apply Hlit.
  - destruct b; by apply Hlit.
  - unfold dec. case_match; [constructor; [by apply scalar_ascii|]|]; apply Hnum.
  - by destruct Hv.
  - destruct Hv as [Hw He]. simpl in Hw, He. apply enc_string_scalar, string_scalar.
    + by apply codepointb_Forall.
    + by apply negb_true_iff.
  - apply well_formed_list in Hv. rewrite !Forall_app.
    split_and!; [by apply Hlit| |by apply Hlit]. apply comma_join_scalar, Forall_map.
    rewrite Forall_forall in IH, Hv |- *. intros v Hin. apply IH; auto.
  - apply well_formed_dict in Hv as [Hv _]. rewrite !Forall_app.
    split_and!; [by apply Hlit| |by apply Hlit]. apply comma_join_scalar, Forall_map.
    rewrite Forall_forall in IH, Hv |- *. intros kv Hin. destruct (Hv kv Hin) as (? & ? & ?).
    rewrite !Forall_app. split_and!; [by apply enc_string_scalar, string_scalar|by apply Hlit|by apply IH].
Qed.

Lemma canonicalize_spec v :
  well_formed v → encode_utf8 (enc (norm v)) = canonicalize v ∧ is_ok (canonicalize v) = true.
Proof.
  intros Hv. unfold canonicalize. rewrite encode_spec by apply Hv. simpl. split; [done|].
  unfold encode_utf8. apply norm_wf, enc_scalar in Hv.
  assert (existsb is_surrogate (enc (norm v)) = false) as ->; [|done].
  apply existsb_false_Forall. eapply Forall_impl; [done|]. by intros c [_ ?].
Qed.

Lemma canonicalize_encodable v bs : canonicalize v = Ok bs → encodable v = true.
Proof. unfold canonicalize. intros Hc. res_inv. by eapply encode_ok_encodable. Qed.

Lemma canonicalize_eq (a b : json) (bs : pybytes) :
  wf_json a = true → wf_json b = true → canonicalize a = Ok bs →
  canonicalize b = Ok bs ↔ norm a = norm b.
Proof.
  intros Wa Wb Ca. pose proof (canonicalize_encodable _ _ Ca) as Ea.
  destruct (canonicalize_spec a) as [Sa _]; [done|]. split.
  - intros Cb. pose proof (canonicalize_encodable _ _ Cb) as Eb.
    destruct (canonicalize_spec b) as [Sb _]; [done|]. rewrite Ca in Sa. rewrite Cb in Sb.
    assert (Hna : well_formed (norm a)) by (by apply norm_wf).
    assert (Hnb : well_formed (norm b)) by (by apply norm_wf).
    assert (E : enc (norm a) = enc (norm b)).
    { eapply encode_utf8_inj; [| |done|done];
        (eapply Forall_impl; [by apply enc_scalar|by intros c [? _]]). }
    destruct (enc_unique (norm a) (norm b) [] []) as [? _]; [done..|by rewrite E|done].
  - intros E. assert (Eb : encodable b = true) by (by rewrite <-encodable_norm, <-E, encodable_norm).
    destruct (canonicalize_spec b) as [Sb _]; [done|]. by rewrite <-Sb, <-E, Sa.
Qed.

(** ** Properties *)

(** Canonicalization accepts exactly the values without a float, a lone
    surrogate or an integer too long to print: on those it returns bytes, on
    every other value it raises. *)
Lemma canonicalize_total (v : json) :
  wf_json v = true → is_ok (canonicalize v) = encodable v.
Proof.
  intros Hw. destruct (encodable v) eqn:He; [by apply canonicalize_spec|].
  destruct (canonicalize v) as [bs|] eqn:E; [|done].
  apply canonicalize_encodable in E. congruence.
Qed.

(** C17: canonical bytes identify the value: two values have the same canonical
    form exactly when they are equal up to the order of dictionary keys, at
    every depth. *)
Theorem canonicalize_iff_equal (a b : json) (bs : pybytes) :
  wf_json a = true → wf_json b = true → canonicalize a = Ok bs →
  canonicalize b = Ok bs ↔ norm a = norm b.
Proof. apply canonicalize_eq. Qed.

(** The order in which a dictionary was filled does not change its
    canonical form. *)
Lemma canonicalize_dict_order (d1 d2 : pydict) :
  wf_json (JDict d1) = true → encodable (JDict d1) = true → d1 ≡ₚ d2 →
  canonicalize (JDict d1) = canonicalize (JDict d2).
Proof.
  intros Hw He Hp. pose proof (norm_perm d1 d2 ltac:(done) Hp) as E.
  assert (W2 : well_formed (JDict d2)).
  { apply well_formed_dict. destruct (proj1 (well_formed_dict d1) (conj Hw He)) as [HF HN].
    split; [by rewrite <-Hp|]. unfold keys in *. by rewrite <-Hp. }
  destruct (canonicalize_spec (JDict d1)) as [<- _]; [done|].
  destruct (canonicalize_spec (JDict d2)) as [<- _]; [done|]. by rewrite E.
Qed.

(** ** Witnesses and concrete behaviour *)

Definition demo_doc : pydict :=
  [(str "b", JList [JInt 10; JNull; JBool true]); (str "a", JStr [0x20AC; 34; 9; 0x1F])].

Lemma canonicalize_total_example : is_ok (canonicalize (JDict demo_doc)) = encodable (JDict demo_doc).
Proof. apply (canonicalize_total (JDict demo_doc)). vm_compute. reflexivity. Qed.

Lemma canonicalize_iff_equal_witness :
  canonicalize (JDict [(str "x", JNull); (str "a", JInt 1)]) = Ok ([123; 34; 97; 34] ++ str ":1," ++ [34; 120; 34] ++ str ":null}")
  ↔ norm (JDict [(str "a", JInt 1); (str "x", JNull)]) = norm (JDict [(str "x", JNull); (str "a", JInt 1)]).
Proof. apply canonicalize_iff_equal; vm_compute; reflexivity. Defined.
