(* ===== verification/Dicts.v ===== *)
(** * Dictionaries

    What lookups see of updates, filters and well-formed values: the facts
    about insertion-ordered dictionaries the components share. *)

From S2P Require Import Prelude PyStr Jcs.

Lemma dict_get_set k k' v d :
  dict_get k (dict_set k' v d) = if bool_decide (k = k') then Some v else dict_get k d.
Proof.
  induction d as [|[k1 v1] d IH]; simpl; [by destruct (bool_decide (k = k'))|].
  destruct (decide (k' = k1)) as [->|Hne].
  - rewrite bool_decide_eq_true_2 by done. simpl. by destruct (bool_decide (k = k1)).
  - rewrite (bool_decide_eq_false_2 (k' = k1)) by done. simpl. rewrite IH.
    case_bool_decide; [subst|done]. by rewrite bool_decide_eq_false_2.
Qed.

Lemma dict_get_update k d e :
  NoDup (keys e) →
  dict_get k (dict_update d e) = match dict_get k e with Some v => Some v | None => dict_get k d end.
Proof.
  unfold dict_update. revert d. induction e as [|[k' v'] e IH]; intros d Hn; simpl; [done|].
  apply NoDup_cons in Hn as [Hk Hn]. rewrite IH, dict_get_set by done.
  destruct (decide (k = k')) as [->|Hne].
  - rewrite bool_decide_eq_true_2 by done.
    assert (dict_get k' e = None) as ->; [|done].
    destruct (dict_get k' e) as [v|] eqn:E; [|done]. apply dict_get_in in E; [|done].
    destruct Hk. by apply (list_elem_of_fmap_2' fst _ (k', v)).
  - by rewrite bool_decide_eq_false_2.
Qed.

Lemma dict_get_filter k p d :
  dict_get k (dict_filter p d) = if p k then dict_get k d else None.
Proof.
  unfold dict_filter. induction d as [|[k' v] d IH]; simpl; [by destruct (p k)|].
  destruct (decide (k = k')) as [->|Hne].
  - rewrite (bool_decide_eq_true_2 (k' = k')) by done.
    destruct (p k') eqn:E; [simpl; by rewrite bool_decide_eq_true_2|]. by rewrite IH.
  - rewrite (bool_decide_eq_false_2 (k = k')) by done.
    destruct (p k') eqn:E; simpl; [by rewrite bool_decide_eq_false_2|]. done.
Qed.

Lemma dict_filter_set q k v d : q k = false → dict_filter q (dict_set k v d) = dict_filter q d.
Proof.
  intros Hq. unfold dict_filter. induction d as [|[k' v'] d IH]; simpl; [by rewrite Hq|].
  case_bool_decide; subst; simpl; [by rewrite Hq|]. by rewrite IH.
Qed.

Lemma dict_get_app k d e :
  dict_get k (d ++ e) = match dict_get k d with Some v => Some v | None => dict_get k e end.
Proof. induction d as [|[k' v] d IH]; simpl; [done|]. by case_bool_decide. Qed.

Lemma dict_get_none k d : dict_get k d = None ↔ k ∉ keys d.
Proof.
  induction d as [|[k' v] d IH]; simpl; [split; [intros _; apply not_elem_of_nil|intros _; reflexivity]|].
  rewrite not_elem_of_cons. case_bool_decide; naive_solver.
Qed.

Lemma keys_set k v d : keys (dict_set k v d) = if bool_decide (k ∈ keys d) then keys d else keys d ++ [k].
Proof.
  induction d as [|[k' v'] d IH]; simpl; [done|].
  destruct (decide (k = k')) as [->|Hne].
  - rewrite !bool_decide_eq_true_2 by set_solver. done.
  - rewrite bool_decide_eq_false_2 by done. simpl. rewrite IH.
    destruct (decide (k ∈ keys d)); [rewrite !bool_decide_eq_true_2 by set_solver|
      rewrite !bool_decide_eq_false_2 by set_solver]; done.
Qed.

Lemma keys_set_NoDup k v d : NoDup (keys d) → NoDup (keys (dict_set k v d)).
Proof.
  intros Hd. rewrite keys_set. case_bool_decide; [done|]. apply NoDup_app. split_and!; [done| |].
  - intros x Hx ->%list_elem_of_singleton. done.
  - apply NoDup_singleton.
Qed.

Lemma keys_filter p d : keys (dict_filter p d) = List.filter p (keys d).
Proof.
  unfold dict_filter. induction d as [|[k v] d IH]; simpl; [done|].
  destruct (p k); simpl; by rewrite IH.
Qed.

Lemma NoDup_filter_list {A} (p : A → bool) l : NoDup l → NoDup (List.filter p l).
Proof.
  induction 1 as [|a l Ha _ IH]; simpl; [constructor|]. destruct (p a); [|done].
  constructor; [|done]. rewrite list_elem_of_In, filter_In, <-list_elem_of_In. naive_solver.
Qed.

(** ** Well-formed values *)

Definition wf_str (s : pystr) : Prop := Forall is_codepoint s ∧ existsb is_surrogate s = false.

Lemma well_formed_str s : well_formed (JStr s) ↔ wf_str s.
Proof.
  unfold well_formed, wf_str. simpl. rewrite codepointb_Forall, negb_true_iff. done.
Qed.

Lemma wf_str_ascii s : Forall (λ c, is_ascii c = true) s → wf_str s.
Proof.
  intros Hs. split.
  - eapply Forall_impl; [exact Hs|]. unfold is_ascii, is_codepoint. intros c Hc. bool_prop. lia.
  - apply existsb_false_Forall. eapply Forall_impl; [exact Hs|]. unfold is_ascii, is_surrogate. intros c Hc.
    bool_prop. apply andb_false_iff. rewrite !Z.leb_gt. lia.
Qed.

Lemma well_formed_entries d :
  well_formed (JDict d) ↔ Forall (λ kv, wf_str kv.1 ∧ well_formed kv.2) d ∧ NoDup (keys d).
Proof.
  rewrite well_formed_dict. unfold wf_str. split; intros [Hd Hn]; split; try done;
    (eapply Forall_impl; [exact Hd|]; simpl; tauto).
Qed.

(** The same for [wf_json] alone: what any Python value satisfies. *)
Lemma wf_json_entries d :
  wf_json (JDict d) = true ↔ Forall (λ kv, Forall is_codepoint kv.1 ∧ wf_json kv.2 = true) d ∧ NoDup (keys d).
Proof.
  simpl. rewrite andb_true_iff, forallb_Forall, bool_decide_eq_true.
  assert (Forall (λ kv : pystr * json, forallb codepointb kv.1 && wf_json kv.2 = true) d
    ↔ Forall (λ kv, Forall is_codepoint kv.1 ∧ wf_json kv.2 = true) d) as ->; [|done].
  apply Forall_iff. intros [k v]. simpl. by rewrite andb_true_iff, codepointb_Forall.
Qed.

Lemma wf_json_set k v d :
  wf_json (JDict d) = true → Forall is_codepoint k → wf_json v = true → wf_json (JDict (dict_set k v d)) = true.
Proof.
  rewrite !wf_json_entries. intros [Hd Hn] Hk Hv. split; [|by apply keys_set_NoDup].
  clear Hn. induction Hd as [|[k' v'] d Hkv Hd IH]; simpl; [constructor; [done|constructor]|].
  case_bool_decide; constructor; [|done|done|done]. by destruct Hkv.
Qed.

Lemma wf_json_get k d v : wf_json (JDict d) = true → dict_get k d = Some v → wf_json v = true.
Proof.
  rewrite wf_json_entries. intros [Hd Hn] Hv%dict_get_in; [|done].
  rewrite Forall_forall in Hd. by destruct (Hd _ Hv).
Qed.

Lemma wf_json_filter q d : wf_json (JDict d) = true → wf_json (JDict (dict_filter q d)) = true.
Proof.
  rewrite !wf_json_entries, keys_filter. intros [Hd Hn]. split; [|by apply NoDup_filter_list].
  rewrite Forall_forall in *. intros kv Hin. apply Hd. unfold dict_filter in Hin.
  rewrite list_elem_of_In, filter_In, <-list_elem_of_In in Hin. by destruct Hin.
Qed.

Lemma well_formed_set k v d :
  well_formed (JDict d) → wf_str k → well_formed v → well_formed (JDict (dict_set k v d)).
Proof.
  rewrite !well_formed_entries. intros [Hd Hn] Hk Hv. split; [|by apply keys_set_NoDup].
  clear Hn. induction Hd as [|[k' v'] d Hkv Hd IH]; simpl; [constructor; [done|constructor]|].
  case_bool_decide; constructor; [|done|done|done]. by destruct Hkv.
Qed.

Lemma well_formed_get k d v : well_formed (JDict d) → dict_get k d = Some v → well_formed v.
Proof.
  intros [Hd Hn]%well_formed_entries Hv%dict_get_in; [|done].
  rewrite Forall_forall in Hd. by destruct (Hd _ Hv).
Qed.

Lemma well_formed_filter q d : well_formed (JDict d) → well_formed (JDict (dict_filter q d)).
Proof.
  rewrite !well_formed_entries, keys_filter. intros [Hd Hn]. split; [|by apply NoDup_filter_list].
  rewrite Forall_forall in *. intros kv Hin. apply Hd. unfold dict_filter in Hin.
  rewrite list_elem_of_In, filter_In, <-list_elem_of_In in Hin. by destruct Hin.
Qed.

(** Literal keys and values are well formed. *)
Ltac wf_lit := apply wf_str_ascii, forallb_Forall; vm_compute; reflexivity.

(** Splits the well-formedness of a dictionary written out entry by entry;
    distinctness of literal keys is computed. *)
Ltac wf_dict :=
  apply well_formed_entries; split;
  [repeat (apply Forall_cons_2; [split; cbn [fst snd];
     [first [wf_lit | idtac] | first [apply well_formed_str; first [wf_lit | assumption] | done | idtac]]|]);
   try apply Forall_nil_2
  |try (apply (bool_decide_unpack _); vm_compute; exact I)].
