(* ===== verification/Sha256.v ===== *)
(** * SHA-256

    [hashlib.sha256(data).digest()] (FIPS 180-4), on 32-bit words as integers
    with the wrap-around written out.  It hashes canonical messages
    ([shadownet/envelope.py]) and certificates ([shadownet/tls.py]). *)

From S2P Require Import Prelude Radix PyStr Base64.

Definition w32 (x : Z) : Z := x mod 2 ^ 32.
Definition rotr (n x : Z) : Z := Z.lor (Z.shiftr x n) (w32 (Z.shiftl x (32 - n))).

(** The constants of the standard are fractions of roots of the first primes. *)
Definition is_prime (n : Z) : bool :=
  forallb (λ d, negb (n mod Z.of_nat d =? 0)) (seq 2 (Z.to_nat n - 2)).
Definition primes : list Z := List.filter is_prime (map Z.of_nat (seq 2 310)).

(** The largest [r] with [r ^ k <= n], bit by bit. *)
Fixpoint root_bits (bits : nat) (k n r : Z) : Z :=
  match bits with
  | O => r
  | S bits => let r' := r + 2 ^ Z.of_nat bits in root_bits bits k n (if r' ^ k <=? n then r' else r)
  end.

(** The first 32 bits after the point of the [k]-th root of [p]. *)
Definition root_fraction (k p : Z) : Z := w32 (root_bits 40 k (p * 2 ^ (32 * k)) 0).

Definition K256 : list Z := Eval vm_compute in map (root_fraction 3) primes.

(** The eight working variables. *)
Record sha_state := Sha { sa : Z; sb : Z; sc : Z; sd : Z; se : Z; sf : Z; sg : Z; sh : Z }.

Definition sha_init : sha_state := Eval vm_compute in
  match map (root_fraction 2) primes with
  | a :: b :: c :: d :: e :: f :: g :: h :: _ => Sha a b c d e f g h
  | _ => Sha 0 0 0 0 0 0 0 0
  end.

Definition sha_round (s : sha_state) (k w : Z) : sha_state :=
  let '(Sha a b c d e f g h) := s in
  let s1 := Z.lxor (Z.lxor (rotr 6 e) (rotr 11 e)) (rotr 25 e) in
  let ch := Z.lxor (Z.land e f) (Z.land (2 ^ 32 - 1 - e) g) in
  let t1 := w32 (h + s1 + ch + k + w) in
  let s0 := Z.lxor (Z.lxor (rotr 2 a) (rotr 13 a)) (rotr 22 a) in
  let maj := Z.lxor (Z.lxor (Z.land a b) (Z.land a c)) (Z.land b c) in
  let t2 := w32 (s0 + maj) in
  Sha (w32 (t1 + t2)) a b c (w32 (d + t1)) e f g.

(** The message schedule as a sliding window of sixteen words. *)
Definition sha_next (win : list Z) : Z :=
  let w i := nth i win 0 in
  let s0 := Z.lxor (Z.lxor (rotr 7 (w 1%nat)) (rotr 18 (w 1%nat))) (Z.shiftr (w 1%nat) 3) in
  let s1 := Z.lxor (Z.lxor (rotr 17 (w 14%nat)) (rotr 19 (w 14%nat))) (Z.shiftr (w 14%nat) 10) in
  w32 (w 0%nat + s0 + w 9%nat + s1).

Fixpoint sha_rounds (ks : list Z) (win : list Z) (s : sha_state) : sha_state :=
  match ks with
  | [] => s
  | k :: ks => sha_rounds ks (tail win ++ [sha_next win]) (sha_round s k (hd 0 win))
  end.

Definition sha_add (s t : sha_state) : sha_state :=
  Sha (w32 (sa s + sa t)) (w32 (sb s + sb t)) (w32 (sc s + sc t)) (w32 (sd s + sd t))
      (w32 (se s + se t)) (w32 (sf s + sf t)) (w32 (sg s + sg t)) (w32 (sh s + sh t)).

Fixpoint words_of (fuel : nat) (bs : pybytes) : list Z :=
  match fuel with
  | O => []
  | S fuel => of_digits 256 (take 4 bs) :: words_of fuel (drop 4 bs)
  end.

(** One 64-byte block after another. *)
Fixpoint sha_blocks (n : nat) (bs : pybytes) (s : sha_state) : sha_state :=
  match n with
  | O => s
  | S n => sha_blocks n (drop 64 bs) (sha_add s (sha_rounds K256 (words_of 16 bs) s))
  end.

Definition sha_pad (data : pybytes) : pybytes :=
  data ++ [128] ++ repeat 0 (Z.to_nat ((55 - py_len data) mod 64))
  ++ fixed_digits 8 256 (8 * py_len data).

Definition sha_digest (s : sha_state) : pybytes :=
  concat (map (fixed_digits 4 256) [sa s; sb s; sc s; sd s; se s; sf s; sg s; sh s]).

Definition sha256 (data : pybytes) : pybytes :=
  let padded := sha_pad data in
  sha_digest (sha_blocks (Z.to_nat (py_len padded / 64)) padded sha_init).

(** A digest has 32 bytes. *)
Lemma sha256_length data : length (sha256 data) = 32%nat.
Proof. reflexivity. Qed.

Lemma sha256_bytes data : is_bytes (sha256 data).
Proof.
  unfold sha256, sha_digest. cbn [map concat]. rewrite !Forall_app.
  repeat split; try apply fixed_digits_digits; try lia. constructor.
Qed.

Lemma sha256_empty : sha256 [] = fixed_digits 32 256
  0xe3b0c44298fc1c149afbf4c8996fb92427ae41e4649b934ca495991b7852b855.
Proof. vm_compute. reflexivity. Qed.

Lemma sha256_abc : sha256 (str "abc") = fixed_digits 32 256
  0xba7816bf8f01cfea414140de5dae2223b00361a396177a9cb410ff61f20015ad.
Proof. vm_compute. reflexivity. Qed.

Lemma sha256_two_blocks :
  sha256 (str "abcdbcdecdefdefgefghfghighijhijkijkljklmklmnlmnomnopnopq") = fixed_digits 32 256
  0x248d6a61d20638b8e5c026930c3e6039a33ce45964ff2167f6ecedd419db06c1.
Proof. vm_compute. reflexivity. Qed.

#[export] Hint Resolve sha256_length sha256_bytes : shadownet.
