(* ===== verification/PyJson.v ===== *)
(** * [json.dumps] and [json.loads]

    The standard library's JSON printer ([ensure_ascii=True], separators as
    given) and scanner, on the values of [Jcs].  Reading back a printed value
    gives the value, for every value without floats. *)

From S2P Require Import Prelude Radix PyStr Base64 Jcs.

(** ** Printing *)

Definition hex4 (c : Z) : pystr :=
  [hex_digit (c / 4096 mod 16); hex_digit (c / 256 mod 16); hex_digit (c / 16 mod 16); hex_digit (c mod 16)].

(** [py_encode_basestring_ascii]: printable ASCII as it is, two-character
    escapes, [\uXXXX] and surrogate pairs for the rest. *)
Definition ascii_escape (c : Z) : pystr :=
  if c =? 34 then [92; 34] else if c =? 92 then [92; 92]
  else if c =? 8 then [92; 98] else if c =? 9 then [92; 116] else if c =? 10 then [92; 110]
  else if c =? 12 then [92; 102] else if c =? 13 then [92; 114]
  else if (32 <=? c) && (c <=? 126) then [c]
  else if c <? 0x10000 then [92; 117] ++ hex4 c
  else let v := c - 0x10000 in
       [92; 117] ++ hex4 (0xD800 + v / 1024) ++ [92; 117] ++ hex4 (0xDC00 + v mod 1024).

Definition dumps_string (s : pystr) : pystr := [34] ++ concat (map ascii_escape s) ++ [34].

(** [json.encoder]'s [floatstr] *)
Definition dumps_float (f : pyfloat) : pystr :=
  if bool_decide (float_repr f = str "nan") then str "NaN"
  else if bool_decide (float_repr f = str "inf") then str "Infinity"
  else if bool_decide (float_repr f = str "-inf") then str "-Infinity"
  else float_repr f.

Section dumps.
Context (item_sep key_sep : pystr).

Fixpoint dumps (v : json) : pystr :=
  match v with
  | JNull => str "null"
  | JBool true => str "true"
  | JBool false => str "false"
  | JInt z => dec z
  | JFloat f => dumps_float f
  | JStr s => dumps_string s
  | JList l => [91] ++ join_with item_sep (map dumps l) ++ [93]
  | JDict d =>
      [123] ++ join_with item_sep (map (λ kv, dumps_string kv.1 ++ key_sep ++ dumps kv.2) d) ++ [125]
  end.
End dumps.

(** [json.dumps(v)] and [json.dumps(v, separators=(",", ":"))] *)
Definition json_dumps : json → pystr := dumps (str ", ") (str ": ").
Definition json_dumps_compact : json → pystr := dumps (str ",") (str ":").

(** [ensure_ascii=False]: only quotes, backslashes and control characters are
    escaped. *)
Definition plain_escape (c : Z) : pystr := if (c <? 32) || (c =? 34) || (c =? 92) then ascii_escape c else [c].
Definition plain_string (s : pystr) : pystr := [34] ++ concat (map plain_escape s) ++ [34].

Fixpoint json_dumps_plain (v : json) : pystr :=
  match v with
  | JNull => str "null"
  | JBool true => str "true"
  | JBool false => str "false"
  | JInt z => dec z
  | JFloat f => dumps_float f
  | JStr s => plain_string s
  | JList l => [91] ++ join_with (str ", ") (map json_dumps_plain l) ++ [93]
  | JDict d =>
      [123] ++ join_with (str ", ") (map (λ kv, plain_string kv.1 ++ str ": " ++ json_dumps_plain kv.2) d) ++ [125]
  end.

(** ** Scanning *)

Definition is_ws (c : Z) : bool := (c =? 32) || (c =? 9) || (c =? 10) || (c =? 13).
Definition skip_ws (s : pystr) : pystr := lstrip_by is_ws s.

Definition hex_val (c : Z) : option Z :=
  if is_num c then Some (c - 48)
  else if (97 <=? c) && (c <=? 102) then Some (c - 87)
  else if (65 <=? c) && (c <=? 70) then Some (c - 55) else None.

(** Four hexadecimal digits. *)
Definition scan_hex4 (s : pystr) : option (Z * pystr) :=
  match s with
  | a :: b :: c :: d :: s =>
      match hex_val a, hex_val b, hex_val c, hex_val d with
      | Some a, Some b, Some c, Some d => Some (((a * 16 + b) * 16 + c) * 16 + d, s)
      | _, _, _, _ => None
      end
  | _ => None
  end.

Definition simple_escape (c : Z) : option Z :=
  if c =? 34 then Some 34 else if c =? 92 then Some 92 else if c =? 47 then Some 47
  else if c =? 98 then Some 8 else if c =? 102 then Some 12 else if c =? 110 then Some 10
  else if c =? 114 then Some 13 else if c =? 116 then Some 9 else None.

(** One escape, after its backslash: the character and the rest; a high
    surrogate takes a low one that follows it. *)
Definition scan_escape (s : pystr) : option (Z * pystr) :=
  match s with
  | [] => None
  | c :: s =>
      if c =? 117 then
        match scan_hex4 s with
        | None => None
        | Some (u, s1) =>
            if (0xD800 <=? u) && (u <=? 0xDBFF) then
              match s1 with
              | 92 :: 117 :: s2 =>
                  match scan_hex4 s2 with
                  | None => None
                  | Some (u2, s3) =>
                      if (0xDC00 <=? u2) && (u2 <=? 0xDFFF)
                      then Some (0x10000 + ((u - 0xD800) * 1024 + (u2 - 0xDC00)), s3)
                      else Some (u, s1)
                  end
              | _ => Some (u, s1)
              end
            else Some (u, s1)
        end
      else match simple_escape c with Some e => Some (e, s) | None => None end
  end.

(** [scanstring(s, end, strict=True)], after the opening quote. *)
Fixpoint scan_string (fuel : nat) (s : pystr) (acc : pystr) : result (pystr * pystr) :=
  match fuel with
  | O => Raise JSONDecodeError
  | S fuel =>
      match s with
      | [] => Raise JSONDecodeError
      | c :: s =>
          if c =? 34 then Ok (rev acc, s)
          else if c =? 92 then
            match scan_escape s with
            | None => Raise JSONDecodeError
            | Some (e, s) => scan_string fuel s (e :: acc)
            end
          else if c <? 32 then Raise JSONDecodeError
          else scan_string fuel s (c :: acc)
      end
  end.

Fixpoint take_digits (s : pystr) : pystr * pystr :=
  match s with
  | c :: s' => if is_num c then let '(a, b) := take_digits s' in (c :: a, b) else ([], s)
  | [] => ([], [])
  end.

(** Fraction and exponent of [NUMBER_RE]; each is taken only when complete. *)
Definition take_frac (s : pystr) : pystr * pystr :=
  match s with
  | 46 :: s' => match take_digits s' with ([], _) => ([], s) | (ds, r) => (46 :: ds, r) end
  | _ => ([], s)
  end.

Definition take_exp (s : pystr) : pystr * pystr :=
  match s with
  | e :: s' =>
      if (e =? 101) || (e =? 69) then
        let '(sign, s'') := match s' with
                            | c :: t => if (c =? 43) || (c =? 45) then ([c], t) else ([], s')
                            | [] => ([], [])
                            end in
        match take_digits s'' with ([], _) => ([], s) | (ds, r) => (e :: sign ++ ds, r) end
      else ([], s)
  | [] => ([], [])
  end.

(** A float literal is true unless all digits of its mantissa are zero; its
    text stands for its value. *)
Definition float_of (text : pystr) (mantissa : pystr) : pyfloat :=
  {| float_truthy := existsb (λ c, is_num c && negb (c =? 48)) mantissa; float_repr := text |}.

(** The digits [0|[1-9][0-9]*]. *)
Definition int_part (s : pystr) : pystr * pystr :=
  match s with 48 :: t => ([48], t) | _ => take_digits s end.

Definition scan_number (s : pystr) : result (json * pystr) :=
  let '(neg, s1) := match s with 45 :: t => (true, t) | _ => (false, s) end in
  let '(ds, s2) := int_part s1 in
  match ds with
  | [] => Raise JSONDecodeError
  | _ =>
      let '(frac, s3) := take_frac s2 in
      let '(ex, s4) := take_exp s3 in
      match frac, ex with
      | [], [] =>
          let n := of_digits 10 (map (λ c, c - 48) ds) in
          if 4300 <? py_len ds then Raise ValueError
          else Ok (JInt (if neg then - n else n), s4)
      | _, _ => Ok (JFloat (float_of ((if neg then [45] else []) ++ ds ++ frac ++ ex) (ds ++ frac)), s4)
      end
  end.

Definition expect (word : pystr) (v : json) (s : pystr) : result (json * pystr) :=
  if startswith word s then Ok (v, drop (length word) s) else Raise JSONDecodeError.

(** [scan_once], [JSONArray] and [JSONObject]; a repeated key keeps its last
    value. *)
Fixpoint scan_once (fuel : nat) (s : pystr) : result (json * pystr) :=
  match fuel with
  | O => Raise JSONDecodeError
  | S fuel =>
      match s with
      | [] => Raise JSONDecodeError
      | c :: r =>
          if c =? 34 then '(t, r) ← scan_string fuel r []; Ok (JStr t, r)
          else if c =? 123 then
            match skip_ws r with
            | 125 :: r => Ok (JDict [], r)
            | r => scan_object fuel r []
            end
          else if c =? 91 then
            match skip_ws r with
            | 93 :: r => Ok (JList [], r)
            | r => scan_array fuel r []
            end
          else if c =? 110 then expect (str "null") JNull s
          else if c =? 116 then expect (str "true") (JBool true) s
          else if c =? 102 then expect (str "false") (JBool false) s
          else if c =? 78 then expect (str "NaN") (JFloat {| float_truthy := true; float_repr := str "nan" |}) s
          else if c =? 73 then expect (str "Infinity") (JFloat {| float_truthy := true; float_repr := str "inf" |}) s
          else if startswith (str "-Infinity") s
          then Ok (JFloat {| float_truthy := true; float_repr := str "-inf" |}, drop 9 s)
          else scan_number s
      end
  end
with scan_array (fuel : nat) (s : pystr) (acc : list json) : result (json * pystr) :=
  match fuel with
  | O => Raise JSONDecodeError
  | S fuel =>
      '(v, r) ← scan_once fuel s;
      match skip_ws r with
      | 93 :: r => Ok (JList (rev (v :: acc)), r)
      | 44 :: r => scan_array fuel (skip_ws r) (v :: acc)
      | _ => Raise JSONDecodeError
      end
  end
with scan_object (fuel : nat) (s : pystr) (acc : pydict) : result (json * pystr) :=
  match fuel with
  | O => Raise JSONDecodeError
  | S fuel =>
      match s with
      | 34 :: s =>
          '(k, r) ← scan_string fuel s [];
          match skip_ws r with
          | 58 :: r =>
              '(v, r) ← scan_once fuel (skip_ws r);
              match skip_ws r with
              | 125 :: r => Ok (JDict (dict_set k v acc), r)
              | 44 :: r => scan_object fuel (skip_ws r) (dict_set k v acc)
              | _ => Raise JSONDecodeError
              end
          | _ => Raise JSONDecodeError
          end
      | _ => Raise JSONDecodeError
      end
  end.

(** [json.loads(s)] on text: each recursive call consumes a character, so twice
    the length of the text is fuel enough. *)
Definition json_loads (s : pystr) : result json :=
  if startswith [0xFEFF] s then Raise JSONDecodeError
  else
    '(v, r) ← scan_once (2 * length s + 2) (skip_ws s);
    match skip_ws r with [] => Ok v | _ => Raise JSONDecodeError end.

(** ** Strings are read back *)

Lemma hex_val_digit d : 0 ≤ d < 16 → hex_val (hex_digit d) = Some d.
Proof.
  intros Hd. unfold hex_val, hex_digit, is_num. destruct (d <? 10) eqn:E; bool_prop.
  - rewrite (proj2 (andb_true_iff _ _)) by (rewrite !Z.leb_le; lia). f_equal. lia.
  - rewrite (proj2 (andb_false_iff _ _)) by (rewrite !Z.leb_gt; lia).
    rewrite (proj2 (andb_true_iff _ _)) by (rewrite !Z.leb_le; lia). f_equal. lia.
Qed.

Lemma scan_hex4_hex4 u s : 0 ≤ u < 65536 → scan_hex4 (hex4 u ++ s) = Some (u, s).
Proof.
  intros Hu. unfold hex4. cbn [app scan_hex4].
  rewrite !hex_val_digit by (apply Z.mod_pos_bound; lia).
  do 2 f_equal. Z.to_euclidean_division_equations. lia.
Qed.

Lemma scan_string_char fuel c t acc :
  scalar c → scan_string (S fuel) (ascii_escape c ++ t) acc = scan_string fuel t (c :: acc).
Proof.
  intros [Hc Hs]. unfold is_codepoint in Hc. unfold is_surrogate in Hs.
  apply andb_false_iff in Hs. unfold ascii_escape.
  repeat (case_match; bool_prop; [subst; reflexivity|]).
  destruct ((32 <=? c) && (c <=? 126))%bool eqn:Ep; bool_prop.
  { cbn [app scan_string]. rewrite !(proj2 (Z.eqb_neq _ _)), (proj2 (Z.ltb_ge _ _)) by lia. done. }
  destruct (c <? 0x10000) eqn:Eb; bool_prop.
  - rewrite <-app_assoc. cbn [app scan_string Z.eqb Pos.eqb scan_escape].
    rewrite scan_hex4_hex4 by lia.
    rewrite (proj2 (andb_false_iff _ _)); [done|]. rewrite !Z.leb_gt.
    destruct Hs as [Hs|Hs]; bool_prop; lia.
  - cbv zeta. rewrite <-!app_assoc. cbn [app scan_string Z.eqb Pos.eqb scan_escape].
    rewrite scan_hex4_hex4 by (Z.to_euclidean_division_equations; lia).
    rewrite (proj2 (andb_true_iff _ _)) by (rewrite !Z.leb_le; Z.to_euclidean_division_equations; lia).
    rewrite scan_hex4_hex4 by (Z.to_euclidean_division_equations; lia).
    rewrite (proj2 (andb_true_iff _ _)) by (rewrite !Z.leb_le; Z.to_euclidean_division_equations; lia).
    do 2 f_equal. Z.to_euclidean_division_equations. lia.
Qed.

Lemma scan_string_dumps s fuel rest acc :
  Forall scalar s → (length s < fuel)%nat →
  scan_string fuel (concat (map ascii_escape s) ++ 34 :: rest) acc = Ok (rev acc ++ s, rest).
Proof.
  intros Hs. revert fuel acc. induction Hs as [|c s Hc _ IH]; intros fuel acc Hf; simpl.
  - destruct fuel; [simpl in Hf; lia|]. cbn. by rewrite app_nil_r.
  - destruct fuel as [|fuel]; [simpl in Hf; lia|]. rewrite <-app_assoc, scan_string_char by done.
    rewrite IH by (simpl in Hf; lia). simpl. by rewrite <-app_assoc.
Qed.

(** ** Numbers are read back *)

(** What may follow a number. *)
Definition num_stop (x : pystr) : bool :=
  match x with c :: _ => negb (is_num c || (c =? 46) || (c =? 101) || (c =? 69)) | [] => true end.

Lemma take_digits_app ds x :
  Forall (λ c, is_num c = true) ds → num_stop x = true → take_digits (ds ++ x) = (ds, x).
Proof.
  intros Hd Hx. induction Hd as [|c ds Hc _ IH]; simpl; [|by rewrite Hc, IH].
  destruct x as [|c x]; [done|]. simpl in *. by destruct (is_num c).
Qed.

Lemma take_frac_stop x : num_stop x = true → take_frac x = ([], x).
Proof.
  destruct x as [|c x]; [done|]. simpl. intros Hc. bool_prop.
  repeat (destruct c as [|c|c] || destruct c; try done).
Qed.

Lemma take_exp_stop x : num_stop x = true → take_exp x = ([], x).
Proof. destruct x as [|c x]; [done|]. simpl. intros Hc. bool_prop. by repeat match goal with H : _ = false |- _ => rewrite H; clear H | _ => case_match; bool_prop; try lia end. Qed.

(** The scanner's integer part, on digits printed by [dec]. *)
Lemma int_part_dec n x :
  0 ≤ n → num_stop x = true →
  int_part (dec_digits n ++ x) = (dec_digits n, x).
Proof.
  intros Hn Hx. unfold int_part, dec_digits. destruct (n =? 0) eqn:E; bool_prop; [done|].
  pose proof (to_digits_no_lead 10 ltac:(lia) n Hn) as Hl.
  pose proof (dec_digits_num n) as HF. unfold dec_digits in HF.
  rewrite (proj2 (Z.eqb_neq n 0)) in HF by done.
  pose proof (of_to_digits 10 ltac:(lia) n Hn) as Hv.
  destruct (to_digits 10 n) as [|d ds]; [change (of_digits 10 []) with 0 in Hv; lia|].
  rewrite <-(take_digits_app (map (Z.add 48) (d :: ds)) x HF Hx).
  inversion HF as [|?? Hd]; subst. unfold is_num in Hd. bool_prop.
  cbn [map app]. assert (48 + d ≠ 48) by (destruct d; [done|lia|lia]).
  generalize dependent (48 + d). intros c ? ? ?.
  repeat (destruct c as [|c|c] || destruct c; try done).
Qed.

Lemma dec_digits_len n : 0 ≤ n → int_digits_ok n = true → py_len (dec_digits n) ≤ 4300.
Proof.
  intros Hn. unfold int_digits_ok, dec_digits, py_len. rewrite Z.abs_eq, Z.leb_le by done. intros H.
  case_match; [simpl; lia|]. by rewrite length_map.
Qed.

Lemma scan_number_nat n x :
  0 ≤ n → int_digits_ok n = true → num_stop x = true →
  scan_number (dec_digits n ++ x) = Ok (JInt n, x) ∧
  scan_number (45 :: dec_digits n ++ x) = Ok (JInt (- n), x).
Proof.
  intros Hn Hok Hx.
  assert (Hsplit : match dec_digits n ++ x with 45 :: t => (true, t) | _ => (false, dec_digits n ++ x) end
    = (false, dec_digits n ++ x)).
  { pose proof (dec_digits_ne n Hn). pose proof (dec_digits_num n) as HF.
    destruct (dec_digits n) as [|c ds]; [done|]. cbn [app]. inversion HF as [|?? Hc]; subst.
    unfold is_num in Hc. bool_prop. repeat (destruct c as [|c|c] || destruct c; try done). }
  pose proof (dec_digits_len n Hn Hok) as Hlen.
  unfold scan_number. rewrite Hsplit, int_part_dec by done.
  rewrite take_frac_stop, take_exp_stop, dec_digits_value by done.
  pose proof (dec_digits_ne n Hn). destruct (dec_digits n); [done|].
  by rewrite (proj2 (Z.ltb_ge _ _)) by done.
Qed.

Lemma scan_number_dec z x :
  int_digits_ok z = true → num_stop x = true → scan_number (dec z ++ x) = Ok (JInt z, x).
Proof.
  intros Hok Hx. unfold dec. destruct (z <? 0) eqn:E; bool_prop.
  - destruct (scan_number_nat (- z) x) as [_ H2]; [lia| |done|].
    + unfold int_digits_ok in *. by rewrite Z.abs_opp.
    + cbn [app]. rewrite H2. do 3 f_equal. lia.
  - by apply scan_number_nat.
Qed.

(** ** Values are read back *)

(** The recursion depth a value needs. *)
Fixpoint need (v : json) : nat :=
  match v with
  | JStr s => length s + 2
  | JList l => 1 + list_sum (map (λ v, 1 + need v) l)
  | JDict d => 1 + list_sum (map (λ kv, 2 + length kv.1 + need kv.2) d)
  | _ => 1
  end%nat.

Lemma dict_set_fresh k v d : k ∉ keys d → dict_set k v d = d ++ [(k, v)].
Proof.
  induction d as [|[k' v'] d IH]; simpl; [done|]. rewrite not_elem_of_cons. intros [Hk Hd].
  rewrite bool_decide_eq_false_2 by done. by rewrite IH.
Qed.

Lemma skip_ws_app w x : Forall (λ c, is_ws c = true) w → skip_ws (w ++ x) = skip_ws x.
Proof. induction 1 as [|c w Hc _ IH]; simpl; [done|]. unfold skip_ws in *. simpl. by rewrite Hc. Qed.

Lemma skip_ws_cons c x : is_ws c = false → skip_ws (c :: x) = c :: x.
Proof. intros Hc. unfold skip_ws. simpl. by rewrite Hc. Qed.

Lemma escape_length s : (length s ≤ length (concat (map ascii_escape s)))%nat.
Proof.
  induction s as [|c s IH]; simpl; [lia|]. rewrite length_app.
  assert (1 ≤ length (ascii_escape c))%nat; [|lia].
  unfold ascii_escape. repeat case_match; simpl; lia.
Qed.

Lemma dumps_string_length s : (length s + 2 ≤ length (dumps_string s))%nat.
Proof.
  unfold dumps_string. rewrite !length_app. pose proof (escape_length s). simpl. lia.
Qed.

Section readback.
Context (ws1 ws2 : pystr).
Context (Hws1 : Forall (λ c, is_ws c = true) ws1) (Hws2 : Forall (λ c, is_ws c = true) ws2).

Local Abbreviation dump := (dumps (44 :: ws1) (58 :: ws2)).
Local Abbreviation item := (λ kv : pystr * json, dumps_string kv.1 ++ (58 :: ws2) ++ dump kv.2).

Lemma join_length (ls : list pystr) :
  (list_sum (map length ls) + length ls ≤ length (join_with (44%Z :: ws1) ls) + 1)%nat.
Proof.
  induction ls as [|w [|w' ls] IH]; [simpl; lia|simpl; lia|].
  rewrite join_cons, !length_app by done. cbn [map length list_sum fold_right] in *. lia.
Qed.

Lemma sum_le {A} (f g : A → nat) l :
  Forall (λ a, f a ≤ g a)%nat l → (list_sum (map f l) ≤ list_sum (map g l))%nat.
Proof. induction 1; simpl; lia. Qed.

Lemma sum_double {A} (g : A → nat) l :
  (list_sum (map (λ a, 1 + 2 * g a) l) = length l + 2 * list_sum (map g l))%nat.
Proof.
  induction l as [|a l IH]; [done|].
  change (1 + 2 * g a + list_sum (map (λ a, 1 + 2 * g a) l) = S (length l) + 2 * (g a + list_sum (map g l)))%nat.
  rewrite IH. lia.
Qed.

Lemma join_need {A} (n : A → nat) (f : A → pystr) l :
  Forall (λ a, n a ≤ 1 + 2 * length (f a))%nat l →
  (list_sum (map n l) + length l ≤ 2 * length (join_with (44%Z :: ws1) (map f l)) + 2)%nat.
Proof.
  intros Hl%sum_le. pose proof (join_length (map f l)) as Hj.
  rewrite length_map, map_map in Hj. rewrite sum_double in Hl. lia.
Qed.

Lemma need_dumps v : encodable v = true → (need v ≤ 2 * length (dump v))%nat.
Proof.
  induction v as [ |b|z|f|s|l IH|d IH] using json_ind'; cbn [need dumps encodable]; intros He; try done.
  - simpl; lia.
  - destruct b; simpl; lia.
  - unfold dec. destruct (z <? 0) eqn:E; [simpl; lia|]. bool_prop.
    pose proof (dec_digits_ne z E). destruct (dec_digits z); [done|simpl; lia].
  - pose proof (dumps_string_length s). lia.
  - rewrite !length_app.
    pose proof (join_need (λ v, 1 + need v)%nat dump l) as Hj. cbn [length]. ospecialize (Hj _); [|lia].
    apply forallb_Forall in He. eapply Forall_impl; [exact (proj2 (Forall_and _ _) (conj IH He))|].
    intros v [Hv ?]. specialize (Hv ltac:(done)). lia.
  - rewrite !length_app.
    pose proof (join_need (λ kv : pystr * json, 2 + length kv.1 + need kv.2)%nat item d) as Hj.
    cbn [length]. ospecialize (Hj _); [|lia].
    apply forallb_Forall in He. eapply Forall_impl; [exact (proj2 (Forall_and _ _) (conj IH He))|].
    intros [k v] [Hv [? ?]%andb_true_iff]. specialize (Hv ltac:(done)). cbn [fst snd] in *.
    rewrite !length_app. pose proof (dumps_string_length k). cbn [length]. lia.
Qed.

(** The first character of a printed value. *)
Definition starts (c : Z) : Prop :=
  c = 110 ∨ c = 116 ∨ c = 102 ∨ c = 45 ∨ 48 ≤ c ≤ 57 ∨ c = 34 ∨ c = 91 ∨ c = 123.

Lemma dump_head v : encodable v = true → ∃ c t, dump v = c :: t ∧ starts c.
Proof.
  unfold starts. destruct v as [|[]|z|f|s|l|d]; simpl; intros Hv; try done;
    try (eexists _, _; split; [reflexivity|repeat first [reflexivity | left; reflexivity | right]]).
  unfold dec. destruct (z <? 0) eqn:Ez; [eexists _, _; split; [done|lia]|]. bool_prop.
  pose proof (dec_digits_ne z ltac:(lia)). pose proof (dec_digits_num z) as HF.
  destruct (dec_digits z) as [|c t]; [done|]. exists c, t. split; [done|].
  inversion HF as [|?? Hc]; subst. unfold is_num in Hc. bool_prop. lia.
Qed.

Lemma starts_not_ws c : starts c → is_ws c = false.
Proof. unfold starts, is_ws. intros Hc. rewrite !orb_false_iff, !Z.eqb_neq. lia. Qed.

Lemma skip_ws_dump w v x :
  Forall (λ c, is_ws c = true) w → encodable v = true → skip_ws (w ++ dump v ++ x) = dump v ++ x.
Proof.
  intros Hw Hv. rewrite skip_ws_app by done. destruct (dump_head v Hv) as (c & t & -> & Hc).
  by apply skip_ws_cons, starts_not_ws.
Qed.

Definition reads (v : json) : Prop := ∀ fuel x,
  (need v ≤ fuel)%nat → num_stop x = true → scan_once fuel (dump v ++ x) = Ok (v, x).

(** What follows an element: a separator or the closing bracket. *)
Lemma num_stop_sep c x : c = 44 ∨ c = 93 ∨ c = 125 → num_stop (c :: x) = true.
Proof. intros [-> | [-> | ->]]; done. Qed.

Lemma scan_array_dump l v fuel acc x :
  Forall (λ v, encodable v = true ∧ reads v) (v :: l) →
  (list_sum (map (λ v, 1 + need v) (v :: l)) ≤ fuel)%nat →
  scan_array fuel (join_with (44 :: ws1) (map dump (v :: l)) ++ 93 :: x) acc
  = Ok (JList (rev acc ++ v :: l), x).
Proof.
  revert v fuel acc. induction l as [|v' l IH]; intros v fuel acc Hl Hf;
    apply Forall_cons in Hl as [[He Hv] Hl]; cbn [map list_sum fold_right] in Hf;
    destruct fuel as [|fuel]; [lia| |lia|].
  - cbn [map join_with scan_array]. rewrite Hv by first [lia | by apply num_stop_sep; auto].
    cbn [mbind result_bind]. rewrite skip_ws_cons by done. done.
  - cbn [map]. rewrite join_cons by done. rewrite <-!app_assoc. cbn [scan_array].
    rewrite Hv by first [lia | by apply num_stop_sep; auto]. cbn [mbind result_bind app].
    rewrite skip_ws_cons by done. cbn [app].
    apply Forall_cons in Hl as Hl'. destruct Hl' as [[He' _] _].
    assert (skip_ws (ws1 ++ join_with (44 :: ws1) (map dump (v' :: l)) ++ 93 :: x)
      = join_with (44 :: ws1) (map dump (v' :: l)) ++ 93 :: x) as Hsk.
    { destruct l as [|v'' l]; [by apply skip_ws_dump|].
      cbn [map]. rewrite join_cons, <-!app_assoc by done. by apply skip_ws_dump. }
    cbn [map] in Hsk. rewrite Hsk. change (dump v' :: map dump l) with (map dump (v' :: l)).
    rewrite IH by first [done | cbn [map list_sum fold_right]; lia].
    simpl. by rewrite <-app_assoc.
Qed.

Lemma scan_object_dump d k v fuel acc x :
  Forall (λ kv, Forall scalar kv.1 ∧ encodable kv.2 = true ∧ reads kv.2) ((k, v) :: d) →
  NoDup (keys (acc ++ (k, v) :: d)) →
  (list_sum (map (λ kv : pystr * json, 2 + length kv.1 + need kv.2) ((k, v) :: d)) ≤ fuel)%nat →
  scan_object fuel (join_with (44 :: ws1) (map item ((k, v) :: d)) ++ 125 :: x) acc
  = Ok (JDict (acc ++ (k, v) :: d), x).
Proof.
  revert k v fuel acc. induction d as [|[k' v'] d IH]; intros k v fuel acc Hl Hn Hf;
    apply Forall_cons in Hl as [(Hk & He & Hv) Hl]; cbn [map list_sum fold_right fst snd] in Hf, Hk, He, Hv;
    (destruct fuel as [|fuel]; [lia|]);
    (assert (k ∉ keys acc) by
      (unfold keys in Hn; rewrite map_app, NoDup_app in Hn; destruct Hn as (_ & Hn & _);
       intros Hin; apply (Hn k Hin); left)).
  - cbn [map join_with fst snd]. unfold dumps_string. rewrite <-!app_assoc. cbn [app scan_object].
    rewrite scan_string_dumps by first [done|lia]. cbn [mbind result_bind rev app].
    rewrite skip_ws_cons by done. cbv iota. rewrite skip_ws_dump by done.
    rewrite Hv by first [lia | by apply num_stop_sep; auto]. cbn [mbind result_bind].
    rewrite skip_ws_cons by done. cbv iota. by rewrite dict_set_fresh.
  - cbn [map]. rewrite join_cons by done. unfold dumps_string at 1. cbn [fst snd].
    rewrite <-!app_assoc. cbn [app scan_object].
    rewrite scan_string_dumps by first [done|lia]. cbn [mbind result_bind rev app].
    rewrite skip_ws_cons by done. cbv iota. rewrite skip_ws_dump by done.
    rewrite Hv by first [lia | by apply num_stop_sep; auto]. cbn [mbind result_bind].
    rewrite skip_ws_cons by done. cbv iota. rewrite dict_set_fresh by done.
    assert (∀ y, skip_ws (ws1 ++ join_with (44 :: ws1) (map item ((k', v') :: d)) ++ y)
      = join_with (44 :: ws1) (map item ((k', v') :: d)) ++ y) as Hsk.
    { intros y. rewrite skip_ws_app by done. destruct d as [|kv d]; [by apply skip_ws_cons|].
      cbn [map]. rewrite join_cons by done. by apply skip_ws_cons. }
    cbn [map fst snd] in Hsk. rewrite Hsk. cbn [map fst snd] in IH.
    rewrite IH; [by rewrite <-app_assoc|done|by rewrite <-app_assoc|].
    cbn [map list_sum fold_right fst snd]. lia.
Qed.

Lemma scan_open_array fuel c t x :
  starts c → scan_once (S fuel) (91 :: c :: t ++ x) = scan_array fuel (c :: t ++ x) [].
Proof.
  intros Hc. cbn [scan_once Z.eqb Pos.eqb]. rewrite skip_ws_cons by (by apply starts_not_ws).
  unfold starts in Hc. assert (c ≠ 93) by lia. clear Hc.
  repeat (destruct c as [|c|c] || destruct c; try done).
Qed.

Lemma scan_open_object fuel t : scan_once (S fuel) (123 :: 34 :: t) = scan_object fuel (34 :: t) [].
Proof. cbn [scan_once Z.eqb Pos.eqb]. by rewrite skip_ws_cons. Qed.

Lemma scan_int z : int_digits_ok z = true → reads (JInt z).
Proof.
  intros Hz [|fuel] x Hf Hx; [cbn [need] in Hf; lia|]. cbn [dumps].
  rewrite <-(scan_number_dec z x) by done. unfold dec.
  assert (∀ n, ∃ c t, dec_digits (Z.abs n) = c :: t ∧ 48 ≤ c ≤ 57) as Hd.
  { intros n. pose proof (dec_digits_ne (Z.abs n) ltac:(lia)). pose proof (dec_digits_num (Z.abs n)) as HF.
    destruct (dec_digits (Z.abs n)) as [|c t]; [done|]. exists c, t. split; [done|].
    inversion HF as [|?? Hc]; subst. unfold is_num in Hc. by bool_prop. }
  assert (str "-Infinity" = 45 :: 73 :: str "nfinity") as Hinf by done.
  destruct (Hd z) as (c & t & E & Hc). destruct (z <? 0) eqn:Ez; bool_prop.
  - rewrite Z.abs_neq in E by lia. rewrite E. cbn [app scan_once Z.eqb Pos.eqb].
    destruct (startswith (str "-Infinity") (45 :: c :: t ++ x)) eqn:Es; [|done].
    exfalso. rewrite Hinf in Es. cbn [startswith] in Es. bool_prop. lia.
  - rewrite Z.abs_eq in E by lia. rewrite E. cbn [app scan_once].
    rewrite !(proj2 (Z.eqb_neq c _)) by lia.
    destruct (startswith (str "-Infinity") (c :: t ++ x)) eqn:Es; [|done].
    exfalso. rewrite Hinf in Es. cbn [startswith] in Es. bool_prop. lia.
Qed.

Lemma scan_dump v : well_formed v → reads v.
Proof.
  induction v as [ |b|z|f|s|l IH|d IH] using json_ind'; intros Hw;
    [|destruct b|by apply scan_int, Hw|by destruct Hw|..];
    intros fuel x Hf Hx; (destruct fuel as [|fuel]; [cbn [need] in Hf; lia|]).
  - done.
  - done.
  - done.
  - destruct Hw as [Hc Hs]. cbn [dumps need] in *. unfold dumps_string. rewrite <-!app_assoc.
    cbn [app scan_once Z.eqb Pos.eqb]. rewrite scan_string_dumps; [done| |lia].
    apply string_scalar; [by apply codepointb_Forall|]. by apply negb_true_iff.
  - apply well_formed_list in Hw. cbn [dumps need] in *. destruct l as [|v l]; [done|].
    rewrite <-!app_assoc. cbn [app].
    assert (Forall (λ v, encodable v = true ∧ reads v) (v :: l)) as Hl.
    { eapply Forall_impl; [exact (proj2 (Forall_and _ _) (conj IH Hw))|]. intros w [Hr [? ?]]. split; [done|].
      by apply Hr. }
    assert (∃ c t, join_with (44 :: ws1) (map dump (v :: l)) = c :: t ∧ starts c) as (c & t & Hj & Hc).
    { apply Forall_cons in Hl as [[He _] _]. destruct (dump_head v He) as (c & t & E & Hc).
      destruct l as [|v' l]; cbn [map]; [exists c, t; done|]. rewrite join_cons, E by done. by eexists _, _. }
    rewrite Hj. cbn [app]. rewrite scan_open_array by done.
    change (c :: t ++ 93 :: x) with ((c :: t) ++ 93 :: x). rewrite <-Hj.
    rewrite scan_array_dump; [done|done|lia].
  - apply well_formed_dict in Hw as [Hw Hn]. cbn [dumps need] in *. destruct d as [|[k v] d]; [done|].
    rewrite <-!app_assoc. cbn [app].
    assert (Forall (λ kv, Forall scalar kv.1 ∧ encodable kv.2 = true ∧ reads kv.2) ((k, v) :: d)) as Hl.
    { eapply Forall_impl; [exact (proj2 (Forall_and _ _) (conj IH Hw))|].
      intros [k' w] [Hr (? & ? & Hv)]. cbn [fst snd] in *. split; [by apply string_scalar|].
      split; [apply Hv|by apply Hr]. }
    pose proof (scan_object_dump d k v fuel [] x Hl Hn ltac:(lia)) as Hs. cbn [app] in Hs.
    destruct (join_with (44 :: ws1) (map item ((k, v) :: d))) as [|c t] eqn:Ej;
      [destruct d; by rewrite ?join_cons in Ej|].
    assert (c = 34) as -> by (destruct d; cbn [map] in Ej; rewrite ?join_cons in Ej by done; by injection Ej).
    cbn [app] in *. rewrite Ej in Hs |- *. cbn [app] in *. by rewrite scan_open_object.
Qed.

Lemma json_loads_dumps v : well_formed v → json_loads (dump v) = Ok v.
Proof.
  intros Hw. unfold json_loads. destruct (dump_head v (proj2 Hw)) as (c & t & E & Hc).
  rewrite E. rewrite <-E. pose proof (need_dumps v (proj2 Hw)).
  assert (startswith [0xFEFF] (dump v) = false) as ->.
  { rewrite E. unfold starts in Hc. cbn [startswith]. by rewrite (proj2 (Z.eqb_neq _ _)) by lia. }
  rewrite <-(app_nil_r (dump v)) at 2. rewrite <-(app_nil_l (dump v ++ [])).
  rewrite skip_ws_dump by (first [done | apply Hw]).
  rewrite scan_dump by first [done|lia]. done.
Qed.
End readback.

(** [json.loads(json.dumps(v))] is [v], with the default separators and with
    the compact ones, for every value without floats and lone surrogates. *)
Lemma json_dumps_loads (v : json) :
  wf_json v = true → encodable v = true →
  json_loads (json_dumps v) = Ok v ∧ json_loads (json_dumps_compact v) = Ok v.
Proof.
  intros Hw He. split.
  - apply (json_loads_dumps [32] [32]); [by repeat constructor..|done].
  - by apply (json_loads_dumps [] []).
Qed.
