(* ===== verification/PyRepr.v ===== *)
(** * [repr]

    The text [f"{v!r}"] puts into a message, for strings and for the values of
    a decoded JSON document.  Error messages are modelled where a caller looks
    into them, and they quote such values. *)

From S2P Require Import Prelude Radix PyStr Jcs PyJson.

Section repr.
Context `{PyUnicode}.

Definition hex2 (c : Z) : pystr := [hex_digit (c / 16 mod 16); hex_digit (c mod 16)].

(** One character between quotes [q]. *)
Definition repr_char (q c : Z) : pystr :=
  if (c =? q) || (c =? 92) then [92; c]
  else if c =? 9 then [92; 116] else if c =? 10 then [92; 110] else if c =? 13 then [92; 114]
  else if (c <? 32) || (c =? 127) then [92; 120] ++ hex2 c
  else if c <? 127 then [c]
  else if py_printable c then [c]
  else if c <? 0x100 then [92; 120] ++ hex2 c
  else if c <? 0x10000 then [92; 117] ++ hex4 c
  else [92; 85] ++ hex4 (c / 65536) ++ hex4 (c mod 65536).

(** Single quotes, unless the text has single quotes and no double ones. *)
Definition repr_quote (s : pystr) : Z := if has_char 39 s && negb (has_char 34 s) then 34 else 39.

Definition repr_str (s : pystr) : pystr :=
  let q := repr_quote s in [q] ++ concat (map (repr_char q) s) ++ [q].

Fixpoint repr (v : json) : pystr :=
  match v with
  | JNull => str "None"
  | JBool true => str "True"
  | JBool false => str "False"
  | JInt z => dec z
  | JFloat f => float_repr f
  | JStr s => repr_str s
  | JList l => [91] ++ join_with (str ", ") (map repr l) ++ [93]
  | JDict d => [123] ++ join_with (str ", ") (map (λ kv, repr_str kv.1 ++ str ": " ++ repr kv.2) d) ++ [125]
  end.

(** [f"{d.get(k)!r}"] *)
Definition repr_get (k : pystr) (d : pydict) : pystr := repr (default JNull (dict_get k d)).
End repr.

Lemma repr_examples :
  let _ := ascii_unicode in
  repr_str (str "it's") = [34] ++ str "it's" ++ [34]
  ∧ repr (JList [JNull; JInt (-3); JStr [10; 233]]) = str "[None, -3, '\n\xe9']".
Proof. by vm_compute. Qed.
