(* ===== verification/JsonBytes.v ===== *)
(** * [json.loads] of bytes

    The encoding is detected from the first bytes and decoded with
    [errors="surrogatepass"]; the text is then scanned as by [PyJson]. *)

From S2P Require Import Prelude PyStr Base64 Jcs PyJson.

Inductive encoding := UTF8 | UTF8_SIG | UTF16 | UTF16_BE | UTF16_LE | UTF32 | UTF32_BE | UTF32_LE.

(** [json.detect_encoding] *)
Definition detect_encoding (b : pybytes) : encoding :=
  if startswith [0; 0; 0xFE; 0xFF] b || startswith [0xFF; 0xFE; 0; 0] b then UTF32
  else if startswith [0xFE; 0xFF] b || startswith [0xFF; 0xFE] b then UTF16
  else if startswith [0xEF; 0xBB; 0xBF] b then UTF8_SIG
  else match b with
  | b0 :: b1 :: b2 :: b3 :: _ =>
      if b0 =? 0 then (if b1 =? 0 then UTF32_BE else UTF16_BE)
      else if b1 =? 0 then (if (b2 =? 0) && (b3 =? 0) then UTF32_LE else UTF16_LE)
      else UTF8
  | [b0; b1] => if b0 =? 0 then UTF16_BE else if b1 =? 0 then UTF16_LE else UTF8
  | _ => UTF8
  end.

(** UTF-8, surrogates let through. *)
Fixpoint utf8_pass (bs : pybytes) : option pystr :=
  match bs with
  | [] => Some []
  | a :: s1 =>
      if a <? 0x80 then cons a <$> utf8_pass s1
      else match s1 with
      | [] => None
      | b :: s2 =>
          if (0xC2 <=? a) && (a <=? 0xDF) && is_cont b
          then cons ((a - 0xC0) * 64 + (b - 0x80)) <$> utf8_pass s2
          else match s2 with
          | [] => None
          | c :: s3 =>
              let v := ((a - 0xE0) * 64 + (b - 0x80)) * 64 + (c - 0x80) in
              if (0xE0 <=? a) && (a <=? 0xEF) && is_cont b && is_cont c && (0x800 <=? v)
              then cons v <$> utf8_pass s3
              else match s3 with
              | [] => None
              | d :: s4 =>
                  let v := (((a - 0xF0) * 64 + (b - 0x80)) * 64 + (c - 0x80)) * 64 + (d - 0x80) in
                  if (0xF0 <=? a) && (a <=? 0xF4) && is_cont b && is_cont c && is_cont d
                     && (0x10000 <=? v) && (v <? 0x110000)
                  then cons v <$> utf8_pass s4 else None
              end
          end
      end
  end.

(** Code units of two and four bytes. *)
Fixpoint units16 (be : bool) (bs : pybytes) : option (list Z) :=
  match bs with
  | [] => Some []
  | [_] => None
  | a :: b :: bs => cons (if be then a * 256 + b else b * 256 + a) <$> units16 be bs
  end.

Fixpoint units32 (be : bool) (bs : pybytes) : option (list Z) :=
  match bs with
  | [] => Some []
  | a :: b :: c :: d :: bs =>
      let v := if be then ((a * 256 + b) * 256 + c) * 256 + d else ((d * 256 + c) * 256 + b) * 256 + a in
      if v <? 0x110000 then cons v <$> units32 be bs else None
  | _ => None
  end.

(** Surrogate pairs are joined, lone surrogates stay. *)
Fixpoint join_surrogates (us : list Z) : pystr :=
  match us with
  | h :: (l :: us') as t =>
      if (0xD800 <=? h) && (h <=? 0xDBFF) && (0xDC00 <=? l) && (l <=? 0xDFFF)
      then 0x10000 + ((h - 0xD800) * 1024 + (l - 0xDC00)) :: join_surrogates us'
      else h :: join_surrogates t
  | _ => us
  end.

(** A byte-order mark chooses the order; without one it is little-endian. *)
Definition decode_with (e : encoding) (b : pybytes) : option pystr :=
  match e with
  | UTF8 => utf8_pass b
  | UTF8_SIG => utf8_pass (drop 3 b)
  | UTF16_BE => join_surrogates <$> units16 true b
  | UTF16_LE => join_surrogates <$> units16 false b
  | UTF16 => if startswith [0xFE; 0xFF] b then join_surrogates <$> units16 true (drop 2 b)
             else if startswith [0xFF; 0xFE] b then join_surrogates <$> units16 false (drop 2 b)
             else join_surrogates <$> units16 false b
  | UTF32_BE => units32 true b
  | UTF32_LE => units32 false b
  | UTF32 => if startswith [0; 0; 0xFE; 0xFF] b then units32 true (drop 4 b)
             else if startswith [0xFF; 0xFE; 0; 0] b then units32 false (drop 4 b)
             else units32 false b
  end.

Definition json_loads_bytes (b : pybytes) : result json :=
  s ← of_option UnicodeDecodeError (decode_with (detect_encoding b) b);
  json_loads s.

(** ** ASCII text *)

Lemma utf8_pass_ascii s : Forall (λ c, 0 < c < 128) s → utf8_pass s = Some s.
Proof.
  induction 1 as [|c s Hc _ IH]; simpl; [done|].
  rewrite (proj2 (Z.ltb_lt c _)) by lia. by rewrite IH.
Qed.

Lemma startswith_ascii p0 p s : 128 ≤ p0 ∨ p0 = 0 → Forall (λ c, 0 < c < 128) s → startswith (p0 :: p) s = false.
Proof.
  intros Hp Hs. destruct Hs as [|c s Hc _]; [done|]. cbn [startswith].
  by rewrite (proj2 (Z.eqb_neq p0 c)) by lia.
Qed.

Lemma detect_ascii s : Forall (λ c, 0 < c < 128) s → detect_encoding s = UTF8.
Proof.
  intros Hs. unfold detect_encoding. rewrite !startswith_ascii by first [lia | done]. cbn [orb].
  destruct Hs as [|b0 ? H0 Hs]; [done|]. destruct Hs as [|b1 ? H1 Hs]; [done|].
  rewrite (proj2 (Z.eqb_neq b0 0)), (proj2 (Z.eqb_neq b1 0)) by lia.
  destruct Hs as [|b2 ? H2 Hs]; [done|]. by destruct Hs.
Qed.

Lemma json_loads_bytes_ascii s : Forall (λ c, 0 < c < 128) s → json_loads_bytes s = json_loads s.
Proof.
  intros Hs. unfold json_loads_bytes. rewrite detect_ascii by done. cbn [decode_with].
  by rewrite utf8_pass_ascii.
Qed.

Lemma json_loads_bytes_examples :
  json_loads_bytes [0xEF; 0xBB; 0xBF; 49] = Ok (JInt 1) ∧ json_loads_bytes [0; 49; 0; 50] = Ok (JInt 12)
  ∧ json_loads_bytes [0xFF] = Raise UnicodeDecodeError.
Proof. by vm_compute. Qed.
