(* ===== verification/Http.v ===== *)
(** * HTTP responses

    What the SDK reads of an [httpx.Response].  The client itself is a
    parameter wherever a request is made. *)

From S2P Require Import Prelude PyStr Jcs.

Record Response := {
  status_code : Z;
  (** [headers.get(name)], names compared without case by [httpx]. *)
  header_get : pystr → option pystr;
  (** [response.text], decoded by [httpx]. *)
  text : pystr;
  content : pybytes;
  (** [response.json()] *)
  json_body : result json;
}.

Definition is_HTTPError (e : exn) : bool := bool_decide (e = HTTPError).
