(* ===== verification/Crypto.v ===== *)
(** * Keys, signatures and tokens — [shadownet/crypto/ed25519.py], [shadownet/crypto/jwt.py]

    The Ed25519 implementation ([cryptography]) and the JOSE layer ([PyJWT])
    are packages outside the repository: they are the interfaces [Ed25519] and
    [PyJWT], each with the laws their documentation gives.  [toy_ed25519] and
    [toy_jwt] are instances that satisfy the laws, so that statements about
    tokens can be evaluated. *)

From S2P Require Import Prelude Radix PyStr Base64 Jcs Dicts Sha256 PyJson.

(** ** The interface of [cryptography] *)

Class Ed25519 : Type := {
  ed_secret : Type;
  ed_from_seed : pybytes → ed_secret;
  ed_seed : ed_secret → pybytes;
  ed_public : ed_secret → pybytes;
  (** [Ed25519PublicKey.from_public_bytes] *)
  ed_load_public : pybytes → result unit;
  ed_sign : ed_secret → pybytes → pybytes;
  (** [public_key.verify(signature, message)]; [false] is [InvalidSignature]. *)
  ed_verify : pybytes → pybytes → pybytes → bool;
  ed_seed_from_seed s : length s = 32%nat → is_bytes s → ed_seed (ed_from_seed s) = s;
  ed_public_from_seed sk : ed_public (ed_from_seed (ed_seed sk)) = ed_public sk;
  ed_seed_bytes sk : length (ed_seed sk) = 32%nat ∧ is_bytes (ed_seed sk);
  ed_public_bytes sk : length (ed_public sk) = 32%nat ∧ is_bytes (ed_public sk);
  ed_load_ok sk : ed_load_public (ed_public sk) = Ok tt;
  ed_sign_bytes sk m : is_bytes (ed_sign sk m);
  ed_sign_verify sk m : ed_verify (ed_public sk) (ed_sign sk m) m = true;
}.

Section ed25519.
Context `{Ed25519}.

Record Ed25519KeyPair := { public_bytes : pybytes; _private : option ed_secret }.

(** [generate]: [sk] is the key drawn by the operating system. *)
Definition generate (sk : ed_secret) : Ed25519KeyPair :=
  {| public_bytes := ed_public sk; _private := Some sk |}.

Definition from_seed (seed : pybytes) : result Ed25519KeyPair :=
  _ ← raise_if (negb (py_len seed =? 32)) (EdSignatureError (str "Ed25519 seed must be exactly 32 bytes"));
  let sk := ed_from_seed seed in
  Ok {| public_bytes := ed_public sk; _private := Some sk |}.

Definition from_public_bytes (pk : pybytes) : result Ed25519KeyPair :=
  _ ← raise_if (negb (py_len pk =? 32)) (EdSignatureError (str "Ed25519 public key must be exactly 32 bytes"));
  _ ← ed_load_public pk;
  Ok {| public_bytes := pk; _private := None |}.

Definition from_jwk (jwk : pydict) : result Ed25519KeyPair :=
  _ ← raise_if (negb (get_is_str (str "kty") (str "OKP") jwk)
                || negb (get_is_str (str "crv") (str "Ed25519") jwk))
        (EdSignatureError (str "JWK is not an Ed25519 OKP key"));
  x ← of_option (EdSignatureError (str "JWK missing 'x'")) (get_str (str "x") jwk);
  public ← _b64u_decode x;
  match dict_get (str "d") jwk with
  | None | Some JNull => from_public_bytes public
  | Some (JStr d) => seed ← _b64u_decode d; from_seed seed
  | Some _ => Raise (EdSignatureError (str "JWK 'd' must be a string"))
  end.

Definition has_private (k : Ed25519KeyPair) : bool :=
  match _private k with Some _ => true | None => false end.

(** The key object [public_key] builds is determined by the bytes. *)
Definition public_key (k : Ed25519KeyPair) : result pybytes :=
  _ ← ed_load_public (public_bytes k); Ok (public_bytes k).

Definition private_key (k : Ed25519KeyPair) : result ed_secret :=
  of_option (EdSignatureError (str "private key not available on this keypair")) (_private k).

Definition public_jwk (k : Ed25519KeyPair) : pydict :=
  [(str "kty", JStr (str "OKP")); (str "crv", JStr (str "Ed25519")); (str "x", JStr (_b64u (public_bytes k)))].

Definition private_jwk (k : Ed25519KeyPair) : result pydict :=
  match _private k with
  | None => Raise (EdSignatureError (str "private key not available on this keypair"))
  | Some sk => Ok (dict_set (str "d") (JStr (_b64u (ed_seed sk))) (public_jwk k))
  end.

Definition sign (k : Ed25519KeyPair) (message : pybytes) : result pybytes :=
  match _private k with
  | None => Raise (EdSignatureError (str "cannot sign with a public-only keypair"))
  | Some sk => Ok (ed_sign sk message)
  end.

Definition is_InvalidSignature (e : exn) : bool := bool_decide (e = InvalidSignature).

Definition verify (k : Ed25519KeyPair) (signature message : pybytes) : result unit :=
  rethrow is_InvalidSignature (λ _, EdSignatureError (str "signature verification failed"))
    (pk ← public_key k; raise_if (negb (ed_verify pk signature message)) InvalidSignature).

(** The check [credential.py], [envelope.py] and [csr.py] share: a compact JWS
    against a key. *)
Definition _verify_jws_signature (token : pystr) (key : Ed25519KeyPair) : result unit :=
  match split_on 46 token with
  | [p0; p1; p2] =>
      signing_input ← encode_ascii (p0 ++ [46] ++ p1);
      sig ← _b64u_decode p2;
      verify key sig signing_input
  | _ => Raise (JWTError (str "malformed JWS compact serialization"))
  end.
End ed25519.

(** ** The interface of [PyJWT] *)

(** [jwt.decode]'s keyword arguments. *)
Record jwt_options := {
  jo_audience : option (list pystr);
  jo_issuer : option pystr;
  jo_leeway : Z;
  jo_require : list pystr;
  jo_verify_exp : bool;
}.

Class PyJWT `{Ed25519} : Type := {
  (** [jwt.encode(claims, key, algorithm="EdDSA", headers=headers)] *)
  pyjwt_encode : pydict → ed_secret → pydict → result pystr;
  (** [jwt.get_unverified_header(token)] *)
  pyjwt_header : pystr → result pydict;
  (** [jwt.decode(token, options={"verify_signature": False})] *)
  pyjwt_claims : pystr → result pydict;
  (** [jwt.decode(token, key, algorithms=["EdDSA"], ...)] at a given time *)
  pyjwt_decode : Z → pystr → pybytes → jwt_options → result pydict;
}.

(** What a header given to [encode] must be for the token to be produced. *)
Definition encodable_header (h : pydict) : Prop :=
  well_formed (JDict h)
  ∧ get_is_str (str "alg") (str "EdDSA") h = true
  ∧ (∃ typ, get_str (str "typ") h = Some typ ∧ typ ≠ [])
  ∧ (dict_get (str "kid") h = None ∨ ∃ kid, get_str (str "kid") h = Some kid).

Definition encodable_claims (c : pydict) : Prop :=
  well_formed (JDict c) ∧ (dict_get (str "iss") c = None ∨ ∃ iss, get_str (str "iss") c = Some iss).

Definition jws_token `{Ed25519} (h p : pybytes) (sk : ed_secret) : pystr :=
  let input := _b64u h ++ [46] ++ _b64u p in input ++ [46] ++ _b64u (ed_sign sk input).

(** [token] is a compact JWS that verifies under the public key [pk]. *)
Definition jws_signed_by `{Ed25519} (pk : pybytes) (token : pystr) : Prop :=
  ∃ p0 p1 p2 sig, split_on 46 token = [p0; p1; p2]
    ∧ Forall (λ c, is_ascii c = true) (p0 ++ [46] ++ p1)
    ∧ _b64u_decode p2 = Ok sig ∧ ed_verify pk sig (p0 ++ [46] ++ p1) = true.

(** [aud]: a string, or a list of strings, with a common element. *)
Definition audience_matches (auds : list pystr) (c : pydict) : bool :=
  match dict_get (str "aud") c with
  | Some (JStr a) => bool_decide (a ∈ auds)
  | Some (JList l) => existsb (λ a, existsb (json_is_str a) l) auds
  | _ => false
  end.

(** A claim that [require] asks for: present and not [None]. *)
Definition claim_present (c : pydict) (k : pystr) : bool :=
  match dict_get k c with None | Some JNull => false | Some _ => true end.

(** RFC 7515: the token is the compact serialization of header, claims and the
    signature of the first two, and is read back. *)
Class PyJWTLaws `{PyJWT} : Prop := {
  pyjwt_encode_spec claims sk headers :
    encodable_claims claims → encodable_header headers →
    ∃ h p token hd, is_bytes h ∧ is_bytes p ∧ token = jws_token h p sk
      ∧ pyjwt_encode claims sk headers = Ok token
      ∧ pyjwt_header token = Ok hd ∧ pyjwt_claims token = Ok claims
      ∧ ∀ k v, dict_get k headers = Some v → dict_get k hd = Some v;
}.

(** [jwt.decode] with verification: what it has checked when it returns, and
    claims it does return (integer times in the window, the audience a
    string). *)
Class PyJWTDecodeLaws `{PyJWT} : Prop := {
  pyjwt_decode_sound now token pk o c :
    pyjwt_decode now token pk o = Ok c →
    jws_signed_by pk token ∧ pyjwt_claims token = Ok c
    ∧ Forall (λ k, claim_present c k = true) (jo_require o)
    ∧ (∀ auds, jo_audience o = Some auds → audience_matches auds c = true)
    ∧ (jo_verify_exp o = true → ∀ e, dict_get (str "exp") c = Some (JInt e) → now - jo_leeway o < e);
  pyjwt_decode_complete now claims sk headers token o aud iat exp :
    encodable_claims claims → encodable_header headers → pyjwt_encode claims sk headers = Ok token →
    jo_issuer o = None → jo_audience o = Some [aud] → get_str (str "aud") claims = Some aud →
    Forall (λ k, claim_present claims k = true) (jo_require o) →
    (∀ sub, dict_get (str "sub") claims = Some sub → ∃ s, sub = JStr s) →
    dict_get (str "nbf") claims = None → dict_get (str "jti") claims = None →
    dict_get (str "iat") claims = Some (JInt iat) → iat ≤ now + jo_leeway o →
    dict_get (str "exp") claims = Some (JInt exp) → now - jo_leeway o < exp →
    pyjwt_decode now token (ed_public sk) o = Ok claims;
}.

Section jwt.
Context `{PyJWT}.

Definition _DEFAULT_HEADER : pydict :=
  [(str "alg", JStr (str "EdDSA")); (str "typ", JStr (str "JWT"))].

Definition sign_jwt (claims : pydict) (key : Ed25519KeyPair) (header_extras : option pydict) : result pystr :=
  let headers := dict_update _DEFAULT_HEADER (default [] header_extras) in
  sk ← private_key key;
  pyjwt_encode claims sk headers.

Definition is_PyJWTError (e : exn) : bool := match e with PyJWTError _ => true | _ => false end.

Definition verify_jwt (now : Z) (token : pystr) (key : Ed25519KeyPair) (o : jwt_options) : result pydict :=
  rethrow is_PyJWTError (λ e, JWTError (exn_text e))
    (pk ← public_key key; pyjwt_decode now token pk o).

Definition decode_header (token : pystr) : result pydict :=
  rethrow is_PyJWTError (λ e, JWTError (exn_text e)) (pyjwt_header token).

Definition decode_unverified_claims (token : pystr) : result pydict :=
  rethrow is_PyJWTError (λ e, JWTError (exn_text e)) (pyjwt_claims token).
End jwt.

(** ** Lemmas *)

Section ed25519_lemmas.
Context `{Ed25519}.

Lemma verify_ok k sig m u :
  verify k sig m = Ok u →
  ed_load_public (public_bytes k) = Ok tt ∧ ed_verify (public_bytes k) sig m = true.
Proof.
  unfold verify, public_key. intros Hv. res_inv. subst. destruct x0.
  match goal with H : negb _ = false |- _ => by apply negb_false_iff in H end.
Qed.

Lemma verify_jws_ok token key u :
  _verify_jws_signature token key = Ok u → jws_signed_by (public_bytes key) token.
Proof.
  unfold _verify_jws_signature, jws_signed_by. intros Hv.
  destruct (split_on 46 token) as [|p0 [|p1 [|p2 [|]]]]; try discriminate Hv.
  res_inv. match goal with H : verify _ _ _ = _ |- _ => apply verify_ok in H as [_ Hv] end.
  unfold encode_ascii in *. case_match; [|done]. res_inv.
  exists p0, p1, p2. eexists. split_and!; [done|by apply forallb_Forall|done|done].
Qed.

Lemma b64u_dot_ascii h p : is_bytes h → is_bytes p →
  Forall (λ c, is_ascii c = true) (_b64u h ++ [46] ++ _b64u p).
Proof.
  intros Hh Hp. rewrite !Forall_app. split_and!; [by apply _b64u_ascii|by repeat constructor|by apply _b64u_ascii].
Qed.

Lemma jws_token_split h p sk : is_bytes h → is_bytes p →
  split_on 46 (jws_token h p sk)
  = [_b64u h; _b64u p; _b64u (ed_sign sk (_b64u h ++ [46] ++ _b64u p))].
Proof.
  intros Hh Hp. unfold jws_token. rewrite <-!app_assoc. cbn [app].
  rewrite !split_on_app by (by apply _b64u_no_dot).
  by rewrite split_on_free by (apply _b64u_no_dot, ed_sign_bytes).
Qed.

Lemma jws_token_verifies h p sk key : is_bytes h → is_bytes p → public_bytes key = ed_public sk →
  _verify_jws_signature (jws_token h p sk) key = Ok tt.
Proof.
  intros Hh Hp Hk. unfold _verify_jws_signature. rewrite jws_token_split by done.
  unfold encode_ascii. rewrite (proj2 (forallb_Forall _ _)) by (by apply b64u_dot_ascii).
  cbn [mbind result_bind]. rewrite _b64u_roundtrip by apply ed_sign_bytes. cbn [mbind result_bind].
  unfold verify, public_key. rewrite Hk, ed_load_ok. cbn [mbind result_bind].
  by rewrite ed_sign_verify.
Qed.

Lemma from_public_bytes_ok pk key :
  from_public_bytes pk = Ok key → public_bytes key = pk ∧ length pk = 32%nat.
Proof.
  unfold from_public_bytes, py_len. intros Hk. res_inv. subst. bool_prop. simpl. split; [done|lia].
Qed.

Lemma from_public_bytes_public sk :
  from_public_bytes (ed_public sk) = Ok {| public_bytes := ed_public sk; _private := None |}.
Proof.
  unfold from_public_bytes, py_len. destruct (ed_public_bytes sk) as [-> _]. cbn [mbind result_bind raise_if negb].
  by rewrite ed_load_ok.
Qed.
End ed25519_lemmas.

Section jwt_lemmas.
Context `{PyJWTLaws}.

Lemma decode_header_ok token hd : decode_header token = Ok hd ↔ pyjwt_header token = Ok hd.
Proof. apply rethrow_ok. Qed.
Lemma decode_unverified_claims_ok token c : decode_unverified_claims token = Ok c ↔ pyjwt_claims token = Ok c.
Proof. apply rethrow_ok. Qed.

(** The headers [sign_jwt] hands to [PyJWT]. *)
Lemma jwt_headers_ok typ extras (hds := dict_update _DEFAULT_HEADER ((str "typ", JStr typ) :: extras)) :
  typ ≠ [] → wf_str typ → well_formed (JDict ((str "typ", JStr typ) :: extras)) →
  extras = [] ∨ (∃ kid, extras = [(str "kid", JStr kid)]) →
  encodable_header hds ∧ dict_get (str "typ") hds = Some (JStr typ)
  ∧ dict_get (str "alg") hds = Some (JStr (str "EdDSA"))
  ∧ ∀ kid, extras = [(str "kid", JStr kid)] → dict_get (str "kid") hds = Some (JStr kid).
Proof.
  intros Ht Hwt Hwe Hex. subst hds. destruct Hex as [->|[kid ->]].
  - change (dict_update _ _) with [(str "alg", JStr (str "EdDSA")); (str "typ", JStr typ)].
    split_and!; [|done..]. unfold encodable_header. split_and!; [|done|by exists typ|by left].
    wf_dict.
  - change (dict_update _ _) with [(str "alg", JStr (str "EdDSA")); (str "typ", JStr typ); (str "kid", JStr kid)].
    split_and!; [|done..|by intros ? [= ->]]. unfold encodable_header. split_and!; [|done|by exists typ|right; by exists kid].
    apply well_formed_entries in Hwe as [Hwe _]. apply Forall_cons in Hwe as [_ Hwe].
    apply Forall_cons in Hwe as [[_ Hwe%well_formed_str] _]. cbn [snd] in Hwe. wf_dict.
Qed.

(** A token signed by [sign_jwt] is read back and verifies. *)
Lemma sign_jwt_spec claims key sk typ extras :
  _private key = Some sk → public_bytes key = ed_public sk →
  encodable_claims claims → typ ≠ [] → wf_str typ →
  well_formed (JDict ((str "typ", JStr typ) :: extras)) →
  extras = [] ∨ (∃ kid, extras = [(str "kid", JStr kid)]) →
  ∃ token hd, sign_jwt claims key (Some ((str "typ", JStr typ) :: extras)) = Ok token
    ∧ decode_header token = Ok hd ∧ decode_unverified_claims token = Ok claims
    ∧ (∀ k, public_bytes k = ed_public sk → _verify_jws_signature token k = Ok tt)
    ∧ get_str (str "typ") hd = Some typ ∧ get_str (str "alg") hd = Some (str "EdDSA")
    ∧ (∀ kid, extras = [(str "kid", JStr kid)] → get_str (str "kid") hd = Some kid).
Proof.
  intros Hk Hpk Hc Ht Hwt Hwe Hex. unfold sign_jwt, private_key. rewrite Hk. cbn [of_option mbind result_bind default].
  set (hds := dict_update _DEFAULT_HEADER _).
  pose proof (jwt_headers_ok typ extras Ht Hwt Hwe Hex) as Hh. fold hds in Hh.
  destruct Hh as (Hh & Htyp & Halg & Hkid).
  destruct (pyjwt_encode_spec claims sk hds Hc Hh) as (h & p & token & hd & Hbh & Hbp & -> & He & Hhd & Hcl & Hget).
  exists (jws_token h p sk), hd. split_and!; [done|by apply decode_header_ok|by apply decode_unverified_claims_ok|..].
  - intros k Hkp. by apply jws_token_verifies.
  - unfold get_str. by rewrite (Hget _ _ Htyp).
  - unfold get_str. by rewrite (Hget _ _ Halg).
  - intros kid Hx. unfold get_str. by rewrite (Hget _ _ (Hkid kid Hx)).
Qed.
End jwt_lemmas.

(** ** Instances for evaluation *)

Lemma fixed_digits_bytes n z : is_bytes (fixed_digits n 256 z).
Proof. apply fixed_digits_digits. lia. Qed.

(** A signature scheme with the interface and laws of Ed25519, and none of its
    security: the public key is the seed, a signature the hash of key and
    message. *)
#[local] Obligation Tactic := idtac.
#[program] Definition toy_ed25519 : Ed25519 := {|
  ed_secret := Z;
  ed_from_seed s := of_digits 256 s;
  ed_seed z := fixed_digits 32 256 z;
  ed_public z := fixed_digits 32 256 z;
  ed_load_public pk := raise_if (negb (py_len pk =? 32)) ValueError;
  ed_sign z m := sha256 (fixed_digits 32 256 z ++ m);
  ed_verify pk sig m := bool_decide (sig = sha256 (pk ++ m));
|}.
Next Obligation. intros s Hl Hs. rewrite <-Hl. by apply fixed_of_digits. Qed.
Next Obligation.
  intros sk. cbn [ed_public ed_from_seed ed_seed].
  pose proof (fixed_of_digits 256 ltac:(lia) (fixed_digits 32 256 sk) (fixed_digits_bytes 32 sk)) as E.
  by rewrite length_fixed_digits in E.
Qed.
Next Obligation. intros sk. split; [apply length_fixed_digits|apply fixed_digits_bytes]. Qed.
Next Obligation. intros sk. split; [apply length_fixed_digits|apply fixed_digits_bytes]. Qed.
Next Obligation. intros sk. unfold py_len. by rewrite length_fixed_digits. Qed.
Next Obligation. intros sk m. apply sha256_bytes. Qed.
Next Obligation. intros sk m. by apply bool_decide_eq_true. Qed.

#[local] Existing Instance toy_ed25519.

(** A JOSE layer with the laws of PyJWT's: JSON text, base64url, dots. *)
Definition toy_segment (n : nat) (token : pystr) : result pydict :=
  match split_on 46 token with
  | [p0; p1; p2] =>
      raw ← _b64u_decode (nth n [p0; p1; p2] []);
      v ← json_loads raw;
      match v with JDict d => Ok d | _ => Raise (PyJWTError (str "must be a json object")) end
  | _ => Raise (PyJWTError (str "Not enough segments"))
  end.

Definition toy_jwt : PyJWT := {|
  pyjwt_encode claims sk headers :=
    Ok (jws_token (json_dumps_compact (JDict headers)) (json_dumps_compact (JDict claims)) sk);
  pyjwt_header := toy_segment 0;
  pyjwt_claims := toy_segment 1;
  pyjwt_decode now token pk o :=
    _ ← rethrow (λ _, true) (λ _, PyJWTError (str "Signature verification failed"))
          (_verify_jws_signature token {| public_bytes := pk; _private := None |});
    c ← toy_segment 1 token;
    _ ← raise_if (negb (forallb (claim_present c) (jo_require o))) (PyJWTError (str "Token is missing a claim"));
    _ ← raise_if (match dict_get (str "exp") c with
                  | Some (JInt exp) => jo_verify_exp o && (exp <=? now - jo_leeway o)
                  | _ => false
                  end) (PyJWTError (str "Signature has expired"));
    _ ← raise_if (match jo_audience o with Some auds => negb (audience_matches auds c) | None => false end)
          (PyJWTError (str "Audience does not match"));
    Ok c;
|}.

Lemma hex_digit_ascii d : 0 ≤ d < 16 → 0 < hex_digit d < 128.
Proof. unfold hex_digit. case_match; lia. Qed.

Lemma hex4_ascii c : Forall (λ x, 0 < x < 128) (hex4 c).
Proof. unfold hex4. repeat apply Forall_cons_2; try apply hex_digit_ascii, Z.mod_pos_bound; try lia. apply Forall_nil_2. Qed.

Lemma ascii_escape_ascii c : Forall (λ x, 0 < x < 128) (ascii_escape c).
Proof.
  assert (∀ a b, 0 < a < 128 → 0 < b < 128 → Forall (λ x, 0 < x < 128) [a; b]) as Hp.
  { intros a b Ha Hb. do 2 (apply Forall_cons_2; [done|]). apply Forall_nil_2. }
  unfold ascii_escape. repeat (case_match; bool_prop; [apply Hp; lia|]).
  case_match; bool_prop; [apply Forall_cons_2; [lia|apply Forall_nil_2]|].
  case_match; cbv zeta; rewrite !Forall_app; split_and!; try apply hex4_ascii; apply Hp; lia.
Qed.

Lemma dumps_string_ascii s : Forall (λ x, 0 < x < 128) (dumps_string s).
Proof.
  unfold dumps_string. rewrite !Forall_app. split_and!; [by repeat constructor| |by repeat constructor].
  induction s as [|c s IH]; simpl; [constructor|]. apply Forall_app. split; [apply ascii_escape_ascii|done].
Qed.

Lemma join_with_Forall (P : Z → Prop) sep ws :
  Forall P sep → Forall (Forall P) ws → Forall P (join_with sep ws).
Proof.
  intros Hs. induction 1 as [|w ws Hw Hws IH]; [constructor|].
  destruct ws as [|w' ws]; [done|]. rewrite join_cons, !Forall_app by done. done.
Qed.

Lemma dumps_ascii sep colon v :
  Forall (λ x, 0 < x < 128) sep → Forall (λ x, 0 < x < 128) colon → encodable v = true →
  Forall (λ x, 0 < x < 128) (dumps sep colon v).
Proof.
  intros Hsep Hcolon.
  induction v as [ |b|z|f|s|l IH|d IH] using json_ind'; cbn [dumps encodable]; intros He; try done.
  - by repeat constructor.
  - destruct b; by repeat constructor.
  - assert (∀ n, Forall (λ x, 0 < x < 128) (dec_digits n)) as Hd.
    { intros n. eapply Forall_impl; [apply dec_digits_num|]. unfold is_num. intros c Hc. bool_prop. lia. }
    unfold dec. case_match; [constructor; [lia|done]|done].
  - apply dumps_string_ascii.
  - rewrite !Forall_app. split_and!; [by repeat constructor| |by repeat constructor].
    apply join_with_Forall; [done|]. apply Forall_map.
    apply forallb_Forall in He. eapply Forall_impl; [exact (proj2 (Forall_and _ _) (conj IH He))|].
    intros v [Hv ?]. by apply Hv.
  - rewrite !Forall_app. split_and!; [by repeat constructor| |by repeat constructor].
    apply join_with_Forall; [done|]. apply Forall_map.
    apply forallb_Forall in He. eapply Forall_impl; [exact (proj2 (Forall_and _ _) (conj IH He))|].
    intros [k v] [Hv [? ?]%andb_true_iff]. cbn [fst snd] in *. rewrite !Forall_app.
    split_and!; [apply dumps_string_ascii|done|by apply Hv].
Qed.

Lemma dumps_compact_ascii v : encodable v = true → Forall (λ x, 0 < x < 128) (json_dumps_compact v).
Proof. apply dumps_ascii; by repeat constructor. Qed.

Lemma dumps_compact_bytes d : well_formed (JDict d) → is_bytes (json_dumps_compact (JDict d)).
Proof.
  intros [_ He]. eapply Forall_impl; [by apply dumps_compact_ascii|]. simpl. lia.
Qed.

Lemma toy_segment_token n h p sk d : (n < 2)%nat →
  is_bytes h → is_bytes p → nth n [h; p] [] = json_dumps_compact (JDict d) → well_formed (JDict d) →
  toy_segment n (jws_token h p sk) = Ok d.
Proof.
  intros Hn Hh Hp Hd Hw. unfold toy_segment. rewrite jws_token_split by done.
  assert (_b64u_decode (nth n [_b64u h; _b64u p; _b64u (ed_sign sk (_b64u h ++ [46] ++ _b64u p))] [])
    = Ok (json_dumps_compact (JDict d))) as ->.
  { destruct n as [|[|]]; [..|lia]; simpl in Hd |- *; subst; by apply _b64u_roundtrip. }
  cbn [mbind result_bind]. by rewrite (proj2 (json_dumps_loads _ (proj1 Hw) (proj2 Hw))).
Qed.

Lemma toy_jwt_laws : @PyJWTLaws toy_ed25519 toy_jwt.
Proof.
  split. intros claims sk headers [Hc _] [Hh _].
  exists (json_dumps_compact (JDict headers)), (json_dumps_compact (JDict claims)).
  eexists _, headers. split_and!; [by apply dumps_compact_bytes..|reflexivity|reflexivity| | |done].
  - by apply toy_segment_token; try apply dumps_compact_bytes; try lia.
  - by apply toy_segment_token; try apply dumps_compact_bytes; try lia.
Qed.

Lemma toy_decode_laws : @PyJWTDecodeLaws toy_ed25519 toy_jwt.
Proof.
  split.
  - intros now token pk o c Hd. cbn [pyjwt_decode toy_jwt] in Hd. res_inv. subst.
    match goal with Hs : _verify_jws_signature _ _ = Ok _ |- _ => apply verify_jws_ok in Hs end.
    bool_prop. split_and!; [done|done|by apply forallb_Forall| |].
    + intros auds Ha. rewrite Ha in *. by bool_prop.
    + intros Hv e He. rewrite He, Hv in *. cbn [andb] in *. bool_prop. lia.
  - intros now claims sk headers token o aud iat exp Hc Hh Henc _ Haud Hga Hreq _ _ _ _ _ Hexp Hlt.
    cbn [pyjwt_encode toy_jwt] in Henc. injection Henc as <-. cbn [pyjwt_decode toy_jwt].
    destruct Hc as [Hwc _], Hh as [Hwh _].
    assert (is_bytes (json_dumps_compact (JDict headers)) ∧ is_bytes (json_dumps_compact (JDict claims))) as [Bh Bp]
      by (split; by apply dumps_compact_bytes).
    rewrite jws_token_verifies by done. cbn [rethrow mbind result_bind].
    rewrite (toy_segment_token 1 _ _ _ claims) by (done || lia). cbn [mbind result_bind].
    rewrite (proj2 (forallb_Forall _ _) Hreq), Hexp, Haud. cbn [negb raise_if mbind result_bind].
    rewrite (proj2 (Z.leb_gt _ _) Hlt), andb_false_r. cbn [raise_if mbind result_bind].
    unfold audience_matches. unfold get_str in Hga. destruct (dict_get (str "aud") claims) as [[]|]; try done.
    injection Hga as ->. by rewrite bool_decide_eq_true_2 by (by left).
Qed.

(** ** Properties *)

Section crypto_properties.
Context `{Ed25519}.

(** A key written as a JWK is read back: from the private form with its
    secret (same seed, same public bytes), from the public form as a
    verifier of the same public bytes. *)
Lemma jwk_roundtrip (seed : pybytes) (k : Ed25519KeyPair) :
  from_seed seed = Ok k → is_bytes seed →
  (private_jwk k ≫= from_jwk) = Ok k
  ∧ from_jwk (public_jwk k) = Ok {| public_bytes := public_bytes k; _private := None |}.
Proof.
  unfold from_seed. intros Hk Hs. res_inv. bool_prop. unfold py_len in *.
  assert (Hl : length seed = 32%nat) by lia.
  pose proof (ed_public_bytes (ed_from_seed seed)) as [Hpl Hpb].
  pose proof (ed_seed_from_seed seed Hl Hs) as Hsd.
  set (sk := ed_from_seed seed) in *. split.
  - unfold private_jwk. cbn [_private public_bytes]. rewrite Hsd.
    cbn [mbind result_bind]. unfold from_jwk.
    set (jwk := dict_set _ _ _).
    assert (dict_get (str "d") jwk = Some (JStr (_b64u seed))) as -> by done.
    assert (get_is_str (str "kty") (str "OKP") jwk = true) as -> by done.
    assert (get_is_str (str "crv") (str "Ed25519") jwk = true) as -> by done.
    assert (get_str (str "x") jwk = Some (_b64u (ed_public sk))) as -> by done.
    cbn [mbind result_bind raise_if of_option orb negb].
    rewrite !_b64u_roundtrip by done. cbn [mbind result_bind].
    unfold from_seed, py_len. by rewrite Hl.
  - unfold from_jwk. set (jwk := public_jwk _).
    assert (dict_get (str "d") jwk = None) as -> by done.
    assert (get_is_str (str "kty") (str "OKP") jwk = true) as -> by done.
    assert (get_is_str (str "crv") (str "Ed25519") jwk = true) as -> by done.
    assert (get_str (str "x") jwk = Some (_b64u (ed_public sk))) as -> by done.
    cbn [mbind result_bind raise_if of_option orb negb].
    rewrite _b64u_roundtrip by done. apply from_public_bytes_public.
Qed.
End crypto_properties.

(** A key pair for examples. *)
Definition demo_pair (n : Z) : Ed25519KeyPair := generate (n : @ed_secret toy_ed25519).

Lemma jwk_roundtrip_example :
  from_seed (repeat 9 32) = Ok (demo_pair (of_digits 256 (repeat 9 32)))
  ∧ (private_jwk (demo_pair (of_digits 256 (repeat 9 32))) ≫= from_jwk) = Ok (demo_pair (of_digits 256 (repeat 9 32))).
Proof.
  split; [reflexivity|].
  refine (proj1 (jwk_roundtrip (repeat 9 32) (demo_pair (of_digits 256 (repeat 9 32))) _ _)).
  - reflexivity.
  - apply (bool_decide_unpack _). vm_compute. exact I.
Qed.
