(* ===== verification/Provider.v ===== *)
(** * Provider records — [shadownet/provider.py]

    Parsing of the [_shadownet.<domain>] TXT record and its lookup.  The DNS
    library is a parameter: [dns_resolve name] is the answer of
    [Resolver.resolve(name, rdtype="TXT")], one entry per record, [None] for a
    record that is not a TXT record. *)

From S2P Require Import Prelude PyStr Base64 Multibase Identifiers.

Definition SHADOWNET_TXT_PREFIX : pystr := str "_shadownet.".
Definition SUPPORTED_VERSION : pystr := str "0.2".

Record ProviderRecord := {
  pr_domain : pystr;
  pr_version : pystr;
  pr_endpoint : pystr;
  pr_provider_keys : list pystr;
  pr_is_issuer : bool;
  pr_delegates : list pystr;
}.

#[global] Instance ProviderRecord_eq_dec : EqDecision ProviderRecord.
Proof. solve_decision. Defined.

(** [dict[str, list[str]]], in insertion order. *)
Abbreviation fields := (list (pystr * list pystr)).

Fixpoint fields_get (k : pystr) (f : fields) : list pystr :=
  match f with
  | [] => []
  | (k', vs) :: f => if bool_decide (k = k') then vs else fields_get k f
  end.

(** [out.setdefault(k, []).append(v)] *)
Fixpoint fields_append (k v : pystr) (f : fields) : fields :=
  match f with
  | [] => [(k, [v])]
  | (k', vs) :: f => if bool_decide (k = k') then (k', vs ++ [v]) :: f else (k', vs) :: fields_append k v f
  end.

Section provider.
Context `{PyUnicode}.

(** One iteration of the loop of [_parse_kv]. *)
Definition parse_kv_part (out : fields) (raw : pystr) : result fields :=
  let part := strip raw in
  if bool_decide (part = []) then Ok out
  else if negb (has_char 61 part) then Raise ProviderResolutionError
  else let '(key, val) := partition_char 61 part in
       Ok (fields_append (py_lower (strip key)) (strip val) out).

Fixpoint parse_kv_loop (raws : list pystr) (out : fields) : result fields :=
  match raws with
  | [] => Ok out
  | raw :: raws => out ← parse_kv_part out raw; parse_kv_loop raws out
  end.

Definition _parse_kv (value : pystr) : result fields := parse_kv_loop (split_on 59 value) [].

Definition _single (f : fields) (key : pystr) : result pystr :=
  match fields_get key f with
  | [] => Raise ProviderResolutionError
  | [v] => Ok v
  | _ => Raise ProviderResolutionError
  end.

Definition _flag (f : fields) (key : pystr) : bool :=
  match fields_get key f with
  | [] => false
  | v :: _ => bool_decide (py_lower v = str "true")
  end.

Definition endpoint_ok (endpoint : pystr) : bool :=
  startswith (str "https://") endpoint || startswith (str "http://localhost") endpoint
  || startswith (str "http://127.0.0.1") endpoint || startswith (str "http://[::1]") endpoint.

Definition is_InvalidIdentifierError (e : exn) : bool := bool_decide (e = InvalidIdentifierError).

Definition parse_provider_txt (domain value : pystr) : result ProviderRecord :=
  f ← _parse_kv value;
  version ← _single f (str "v");
  _ ← raise_if (negb (bool_decide (version = SUPPORTED_VERSION))) ProviderResolutionError;
  endpoint ← _single f (str "ep");
  _ ← raise_if (negb (endpoint_ok endpoint)) ProviderResolutionError;
  let pk_values := fields_get (str "pk") f in
  _ ← raise_if (bool_decide (pk_values = [])) ProviderResolutionError;
  _ ← rethrow is_InvalidIdentifierError (λ _, ProviderResolutionError) (mapM parse_public_key pk_values);
  Ok {| pr_domain := domain; pr_version := version; pr_endpoint := endpoint;
        pr_provider_keys := pk_values; pr_is_issuer := _flag f (str "iss");
        pr_delegates := fields_get (str "delegate") f |}.

(** The records of an answer that parse; text that is not UTF-8 ends the loop
    with its exception. *)
Fixpoint answer_records (domain : pystr) (answer : list (option (list pybytes))) : result (list ProviderRecord) :=
  match answer with
  | [] => Ok []
  | None :: answer => answer_records domain answer
  | Some strings :: answer =>
      joined ← decode_utf8 (concat strings);
      match parse_provider_txt domain joined with
      | Ok r => rs ← answer_records domain answer; Ok (r :: rs)
      | Raise ProviderResolutionError => answer_records domain answer
      | Raise e => Raise e
      end
  end.

Definition _records_from_answer (domain : pystr) (answer : list (option (list pybytes))) : result ProviderRecord :=
  records ← answer_records domain answer;
  match records with
  | [] => Raise ProviderResolutionError
  | [r] => Ok r
  | _ => Raise ProviderResolutionError
  end.

Definition is_DNSException (e : exn) : bool := bool_decide (e = DNSException).

Definition lookup_provider_record (dns_resolve : pystr → result (list (option (list pybytes))))
    (domain : pystr) : result ProviderRecord :=
  let name := SHADOWNET_TXT_PREFIX ++ rstrip_char 46 domain in
  answer ← rethrow is_DNSException (λ _, ProviderResolutionError) (dns_resolve name);
  _records_from_answer domain answer.

(** The asynchronous sibling, over the asynchronous resolver. *)
Definition alookup_provider_record (adns_resolve : pystr → result (list (option (list pybytes))))
    (domain : pystr) : result ProviderRecord :=
  let name := SHADOWNET_TXT_PREFIX ++ rstrip_char 46 domain in
  answer ← rethrow is_DNSException (λ _, ProviderResolutionError) (adns_resolve name);
  _records_from_answer domain answer.
End provider.

(** ** Lemmas *)

Lemma fields_get_append k k' v f :
  fields_get k (fields_append k' v f) = fields_get k f ++ (if bool_decide (k = k') then [v] else []).
Proof.
  induction f as [|[k1 vs] f IH]; simpl; [by case_bool_decide|].
  destruct (decide (k' = k1)) as [->|Hne].
  - rewrite bool_decide_eq_true_2 by done. simpl. destruct (decide (k = k1)) as [->|];
      [by rewrite !bool_decide_eq_true_2|rewrite !bool_decide_eq_false_2 by done; by rewrite app_nil_r].
  - rewrite (bool_decide_eq_false_2 (k' = k1)) by done. simpl. rewrite IH.
    destruct (decide (k = k1)) as [->|]; [|by rewrite (bool_decide_eq_false_2 (k = k1))].
    by rewrite bool_decide_eq_true_2, (bool_decide_eq_false_2 (k1 = k')), app_nil_r.
Qed.

Section provider_lemmas.
Context `{PyUnicode}.

(** The values given to a key, in order. *)
Definition values_of (k : pystr) (kvs : list (pystr * pystr)) : list pystr :=
  map snd (List.filter (λ kv, bool_decide (k = kv.1)) kvs).

(** A key or value that survives splitting and stripping. *)
Definition clean (s : pystr) : Prop := (59 ∉ s) ∧ strip s = s ∧ s ≠ [].
Definition clean_pair (kv : pystr * pystr) : Prop :=
  clean kv.1 ∧ (61 ∉ kv.1) ∧ py_lower kv.1 = kv.1 ∧ clean kv.2.

Lemma strip_head s : strip s = s → s ≠ [] → ∃ c t, s = c :: t ∧ is_space c = false.
Proof.
  intros Hs Hne. destruct (lstrip_by is_space s) as [|c t] eqn:E.
  - unfold strip in Hs. rewrite E in Hs. by subst.
  - pose proof (lstrip_by_head _ _ _ _ E) as Hc. destruct (rstrip_by_prefix is_space (c :: t)) as (u & Hu & _).
    unfold strip in Hs. rewrite E in Hs. rewrite Hs in Hu. destruct s as [|c' s]; [done|].
    injection Hu as -> _. by exists c', s.
Qed.

Lemma strip_last s : strip s = s → s ≠ [] → ∃ c t, s = t ++ [c] ∧ is_space c = false.
Proof.
  intros Hs Hne. destruct s as [|c t _] using rev_ind; [done|]. exists c, t. split; [done|].
  unfold strip in Hs. by apply rstrip_by_last in Hs.
Qed.

Lemma strip_pair k v : clean k → clean v → strip (k ++ 61 :: v) = k ++ 61 :: v.
Proof.
  intros (_ & Hk & Hnk) (_ & Hv & Hnv). apply strip_id.
  - intros c s' E. destruct (strip_head k Hk Hnk) as (c' & t & -> & Hc). by injection E as <- _.
  - intros c s' E. destruct (strip_last v Hv Hnv) as (c' & t & -> & Hc).
    rewrite app_comm_cons, app_assoc in E. apply app_inj_tail in E as [_ <-]. done.
Qed.

Lemma strip_space s : strip (32 :: s) = strip s.
Proof. done. Qed.

Lemma parse_kv_part_pair out raw k v :
  clean_pair (k, v) → strip raw = k ++ 61 :: v →
  parse_kv_part out raw = Ok (fields_append k v out).
Proof.
  intros (Hk & Hek & Hlk & Hv) Hr. unfold parse_kv_part. rewrite Hr. cbn [fst snd] in *.
  rewrite bool_decide_eq_false_2 by (by destruct k).
  assert (has_char 61 (k ++ 61 :: v) = true) as -> by (apply has_char_spec; set_solver).
  simpl. rewrite partition_free by done. destruct Hk as (_ & -> & _), Hv as (_ & -> & _). by rewrite Hlk.
Qed.

Lemma parse_kv_loop_pairs kvs raws out :
  Forall2 (λ raw kv, clean_pair kv ∧ strip raw = kv.1 ++ 61 :: kv.2) raws kvs →
  ∃ f, parse_kv_loop raws out = Ok f ∧ ∀ k, fields_get k f = fields_get k out ++ values_of k kvs.
Proof.
  intros Hr. revert out. induction Hr as [|raw [k v] raws kvs [Hc Hs] _ IH]; intros out; simpl.
  - exists out. split; [done|]. intros k. by rewrite app_nil_r.
  - rewrite (parse_kv_part_pair out raw k v) by done. cbn [mbind result_bind].
    destruct (IH (fields_append k v out)) as (f & Hf & Hg). exists f. split; [done|].
    intros k'. rewrite Hg, fields_get_append. unfold values_of. simpl.
    case_bool_decide; simpl; by rewrite <-app_assoc.
Qed.

(** Text of a record: [k=v] pairs joined by ["; "]. *)
Definition render_pairs (kvs : list (pystr * pystr)) : pystr :=
  join_with (str "; ") (map (λ kv, kv.1 ++ 61 :: kv.2) kvs).

Lemma pair_no_semicolon kv : clean_pair kv → 59 ∉ kv.1 ++ 61 :: kv.2.
Proof. intros ((? & _) & _ & _ & (? & _)). set_solver. Qed.

Lemma split_render kv kvs : Forall clean_pair (kv :: kvs) →
  split_on 59 (render_pairs (kv :: kvs))
  = (kv.1 ++ 61 :: kv.2) :: map (λ kv, 32 :: kv.1 ++ 61 :: kv.2) kvs.
Proof.
  unfold render_pairs. revert kv. induction kvs as [|kv' kvs IH]; intros kv Hc;
    apply Forall_cons in Hc as [Hkv Hc].
  - simpl. by apply split_on_free, pair_no_semicolon.
  - cbn [map]. rewrite join_cons by done.
    change (str "; " ++ ?x) with (59 :: 32 :: x). rewrite split_on_app by (by apply pair_no_semicolon).
    f_equal. specialize (IH kv' Hc). cbn [map] in IH. cbn [split_on Z.eqb Pos.eqb]. by rewrite IH.
Qed.

Lemma parse_kv_render kvs : Forall clean_pair kvs → kvs ≠ [] →
  ∃ f, _parse_kv (render_pairs kvs) = Ok f ∧ ∀ k, fields_get k f = values_of k kvs.
Proof.
  intros Hc Hne. destruct kvs as [|kv kvs]; [done|]. unfold _parse_kv. rewrite split_render by done.
  apply (parse_kv_loop_pairs (kv :: kvs)). apply Forall_cons in Hc as [Hkv Hc]. constructor.
  - split; [done|]. apply strip_pair; [apply Hkv|]. by destruct Hkv as (_ & _ & _ & ?).
  - clear Hne. induction Hc as [|kv' kvs Hkv' _ IH]; simpl; constructor; [|done].
    split; [done|]. rewrite strip_space. apply strip_pair; [apply Hkv'|]. by destruct Hkv' as (_ & _ & _ & ?).
Qed.

(** Errors of the key decoder. *)
Lemma b58_decode_loop_error s n e : b58_decode_loop s n = Raise e → e = ValueError.
Proof. revert n. induction s as [|c s IH]; intros n; simpl; [done|]. case_match; [apply IH|by intros [=]]. Qed.

Lemma decode_multibase_z_error v e : decode_multibase_z v = Raise e → e = MultibaseDecodeError.
Proof.
  unfold decode_multibase_z. case_match; [by intros [=]|]. unfold _b58decode.
  destruct (tail v) as [|c t]; [done|]. destruct (b58_decode_loop (c :: t) 0) as [n|e'] eqn:E; [done|].
  apply b58_decode_loop_error in E as ->. by intros [=].
Qed.

Lemma strip_multicodec_error p v e : strip_multicodec p v = Raise e → e = MultibaseDecodeError.
Proof. unfold strip_multicodec. case_match; by intros [=]. Qed.

Lemma parse_public_key_error v e : parse_public_key v = Raise e → e = InvalidIdentifierError.
Proof.
  destruct (parse_public_key v) as [raw|e'] eqn:E; [done|]. intros [= <-].
  unfold parse_public_key in E. apply bind_raise in E as [E|(s & E & E2)].
  - unfold _validate_multibase_pk in E. apply bind_raise in E as [E|(s & _ & E)];
      [unfold raise_if in E; case_match; by res_inv|].
    apply bind_raise in E as [E|(s' & _ & E)];
      [|unfold raise_if in E; case_match; by cbn in E; res_inv].
    unfold rethrow in E. case_match; [done|]. res_inv.
    match goal with H : mbind _ _ = Raise ?x |- _ => assert (x = MultibaseDecodeError) as -> end.
    { match goal with H : mbind _ _ = Raise _ |- _ => apply bind_raise in H as [H|(d & _ & H)] end.
      - by eapply decode_multibase_z_error.
      - by eapply strip_multicodec_error. }
    by injection E as <-.
  - exfalso. apply validate_multibase_ok in E as (_ & _ & raw' & -> & Hb & Hlen).
    rewrite multibase_roundtrip in E2 by (by apply multicodec_bytes). cbn [mbind result_bind] in E2.
    by rewrite strip_with_multicodec in E2.
Qed.

Lemma mapM_error_in {A B} (g : A → result B) l e : mapM g l = Raise e → ∃ a, a ∈ l ∧ g a = Raise e.
Proof.
  induction l as [|a l IH]; simpl; [done|]. intros [E|(b & _ & E)]%bind_raise; [exists a; set_solver|].
  apply bind_raise in E as [E|(? & _ & [=])]. destruct (IH E) as (a' & ? & ?). exists a'. set_solver.
Qed.

Lemma parse_kv_error raws out e : parse_kv_loop raws out = Raise e → e = ProviderResolutionError.
Proof.
  revert out. induction raws as [|raw raws IH]; intros out; simpl; [done|].
  intros [E|(o & _ & E)]%bind_raise; [|by apply (IH o)].
  unfold parse_kv_part in E. repeat case_match; by res_inv.
Qed.

Lemma parse_provider_txt_error domain value e :
  parse_provider_txt domain value = Raise e → e = ProviderResolutionError.
Proof.
  unfold parse_provider_txt. intros E.
  assert (Hs : ∀ f k e, _single f k = Raise e → e = ProviderResolutionError).
  { unfold _single. intros f k e' Hs. repeat case_match; by res_inv. }
  assert (Hr : ∀ b e, raise_if b ProviderResolutionError = Raise e → e = ProviderResolutionError).
  { intros [] e'; [by intros [= <-]|done]. }
  apply bind_raise in E as [E|(f & _ & E)]; [by eapply parse_kv_error|].
  do 5 (apply bind_raise in E as [E|(? & _ & E)]; [by eauto|]).
  apply bind_raise in E as [E|(? & _ & E)]; [|done].
  unfold rethrow in E. destruct (mapM _ _) as [|e'] eqn:Em; [done|].
  apply mapM_error_in in Em as (pk & _ & Hpk). apply parse_public_key_error in Hpk as ->. by injection E as <-.
Qed.
End provider_lemmas.

(** ** Properties *)

Section provider_properties.
Context `{PyUnicode}.

(** A provider record that parses has the supported version, an [https] or
    loopback endpoint, and at least one provider key, each a decodable
    32-byte Ed25519 key. *)
Lemma parse_provider_txt_sound (domain value : pystr) (r : ProviderRecord) :
  parse_provider_txt domain value = Ok r →
  pr_domain r = domain ∧ pr_version r = str "0.2" ∧ endpoint_ok (pr_endpoint r) = true
  ∧ pr_provider_keys r ≠ []
  ∧ Forall (λ pk, ∃ raw, parse_public_key pk = Ok raw ∧ length raw = 32%nat) (pr_provider_keys r).
Proof.
  unfold parse_provider_txt. intros Hp. res_inv. bool_prop. subst. simpl. split_and!; try done.
  match goal with Hm : mapM _ _ = Ok _ |- _ => apply mapM_ok in Hm as HF end.
  apply Forall_forall. intros pk Hpk. apply list_elem_of_lookup in Hpk as [i Hi].
  destruct (Forall2_lookup_l _ _ _ _ _ HF Hi) as (raw & _ & Hraw). exists raw.
  split; [done|]. by apply parse_public_key_ok in Hraw as (_ & _ & ?).
Qed.

Definition record_pairs (r : ProviderRecord) : list (pystr * pystr) :=
  [(str "v", pr_version r); (str "ep", pr_endpoint r)]
  ++ map (λ pk, (str "pk", pk)) (pr_provider_keys r)
  ++ (if pr_is_issuer r then [(str "iss", str "true")] else [])
  ++ map (λ d, (str "delegate", d)) (pr_delegates r).

Lemma values_of_app k l1 l2 : values_of k (l1 ++ l2) = values_of k l1 ++ values_of k l2.
Proof. unfold values_of. by rewrite List.filter_app, map_app. Qed.

Lemma values_of_const k k' (l : list pystr) :
  values_of k (map (λ x, (k', x)) l) = if bool_decide (k = k') then l else [].
Proof.
  unfold values_of. induction l as [|x l IH]; simpl; [by case_bool_decide|].
  case_bool_decide; simpl; by rewrite IH.
Qed.

Lemma values_of_record r :
  let kvs := record_pairs r in
  values_of (str "v") kvs = [pr_version r] ∧ values_of (str "ep") kvs = [pr_endpoint r]
  ∧ values_of (str "pk") kvs = pr_provider_keys r
  ∧ values_of (str "iss") kvs = (if pr_is_issuer r then [str "true"] else [])
  ∧ values_of (str "delegate") kvs = pr_delegates r.
Proof.
  unfold record_pairs. rewrite !values_of_app, !values_of_const.
  destruct (pr_is_issuer r); split_and!; cbn; by rewrite ?app_nil_r.
Qed.

(** Writing a record as [k=v] pairs and parsing it gives the record back,
    keys and delegates in order. *)
Lemma parse_provider_txt_render (r : ProviderRecord) :
  pr_version r = str "0.2" → endpoint_ok (pr_endpoint r) = true → pr_provider_keys r ≠ [] →
  Forall (λ pk, is_ok (parse_public_key pk) = true) (pr_provider_keys r) →
  Forall clean_pair (record_pairs r) →
  parse_provider_txt (pr_domain r) (render_pairs (record_pairs r)) = Ok r.
Proof.
  intros Hv Hep Hne Hpk Hc. destruct (parse_kv_render _ Hc) as (f & Hf & Hg); [done|].
  unfold parse_provider_txt. rewrite Hf. cbn [mbind result_bind]. unfold _single, _flag. rewrite !Hg.
  destruct (values_of_record r) as (-> & -> & -> & -> & ->). cbn [mbind result_bind].
  rewrite (bool_decide_eq_true_2 (pr_version r = _)) by (by rewrite Hv). cbn [mbind result_bind negb raise_if]. rewrite Hep.
  rewrite bool_decide_eq_false_2 by done. cbn [mbind result_bind negb raise_if].
  destruct (mapM parse_public_key (pr_provider_keys r)) as [raws|e] eqn:Em.
  2: { exfalso. apply mapM_error_in in Em as (pk & Hin & Hpk'). rewrite Forall_forall in Hpk.
       specialize (Hpk pk Hin). by rewrite Hpk' in Hpk. }
  simpl. destruct r as [dom ver ep ks iss dl]. simpl in *. destruct iss; [|done].
  rewrite (py_lower_id (str "true")); [done|by apply forallb_Forall|]. by repeat constructor.
Qed.

Definition to_option {A} (r : result A) : option A := match r with Ok a => Some a | Raise _ => None end.

Lemma answer_records_spec domain answer rs :
  answer_records domain answer = Ok rs ↔
  ∃ texts, mapM (λ ss, decode_utf8 (concat ss)) (omap id answer) = Ok texts
    ∧ omap (λ t, to_option (parse_provider_txt domain t)) texts = rs.
Proof.
  revert rs. induction answer as [|[ss|] answer IH]; intros rs; [|cbn [answer_records omap list_omap id]..|by rewrite IH].
  - simpl. split; [intros [= <-]; by exists []|]. by intros (? & [= <-] & <-).
  - cbn [mapM]. destruct (decode_utf8 (concat ss)) as [t|e]; cbn [mbind result_bind];
      [|split; [done|by intros (? & ? & _)]].
    assert (Htexts : ∀ P : list pystr → Prop, (∃ texts,
      (bs ← mapM (λ ss, decode_utf8 (concat ss)) (omap id answer); Ok (t :: bs)) = Ok texts ∧ P texts)
      ↔ ∃ texts, mapM (λ ss, decode_utf8 (concat ss)) (omap id answer) = Ok texts ∧ P (t :: texts)).
    { intros P. split.
      - intros (texts & E & HP). res_inv. eauto.
      - intros (texts & -> & HP). by eexists. }
    rewrite (Htexts (λ texts, omap (λ t, to_option (parse_provider_txt domain t)) texts = rs)).
    cbn [omap list_omap]. destruct (parse_provider_txt domain t) as [r|e] eqn:Ep; cbn [to_option].
    + rewrite bind_ok. setoid_rewrite IH. split.
      * intros (rs' & (texts & ? & <-) & [= <-]). by exists texts.
      * intros (texts & ? & <-). eexists. split; [by exists texts|done].
    + apply parse_provider_txt_error in Ep as ->. by rewrite IH.
Qed.

(** A lookup succeeds exactly when the answer is UTF-8 text in which one
    record, and only one, parses; that record is the result.  Records that
    do not parse are skipped, two that parse make the lookup fail. *)
Lemma lookup_provider_record_unique dns_resolve (domain : pystr) (r : ProviderRecord) :
  lookup_provider_record dns_resolve domain = Ok r ↔
  ∃ answer texts,
    dns_resolve (str "_shadownet." ++ rstrip_char 46 domain) = Ok answer
    ∧ mapM (λ ss, decode_utf8 (concat ss)) (omap id answer) = Ok texts
    ∧ omap (λ t, to_option (parse_provider_txt domain t)) texts = [r].
Proof.
  unfold lookup_provider_record, _records_from_answer. split.
  - intros Hl. res_inv. match goal with Ha : answer_records _ _ = Ok _ |- _ =>
      apply answer_records_spec in Ha as (texts & Ht & Hr) end.
    exists x, texts. split_and!; [done|done|]. rewrite Hr. by repeat case_match; simplify_eq.
  - intros (answer & texts & Hd & Ht & Hr). unfold SHADOWNET_TXT_PREFIX. rewrite Hd.
    cbn [rethrow mbind result_bind]. by rewrite (proj2 (answer_records_spec domain answer [r])) by (by exists texts).
Qed.
End provider_properties.

(** ** Examples *)

#[local] Existing Instance ascii_unicode.

Definition demo_pk : pystr := encode_multibase_z (with_multicodec ED25519_PUB_MULTICODEC demo_key).

Definition demo_record : ProviderRecord := {|
  pr_domain := str "acme.example"; pr_version := str "0.2"; pr_endpoint := str "https://sn.acme.example";
  pr_provider_keys := [demo_pk]; pr_is_issuer := true; pr_delegates := [str "hub.example"; str "b.example"] |}.

Definition demo_txt : pystr := render_pairs (record_pairs demo_record).

Lemma clean_pair_dec kv :
  (negb (has_char 59 kv.1) && bool_decide (strip kv.1 = kv.1) && negb (bool_decide (kv.1 = []))
   && negb (has_char 61 kv.1) && bool_decide (py_lower kv.1 = kv.1)
   && negb (has_char 59 kv.2) && bool_decide (strip kv.2 = kv.2) && negb (bool_decide (kv.2 = [])))%bool = true →
  clean_pair kv.
Proof. intros Hc. bool_prop. unfold clean_pair, clean. rewrite <-!has_char_false. done. Qed.

Lemma parse_provider_txt_sound_example :
  parse_provider_txt (str "acme.example") demo_txt = Ok demo_record ∧ endpoint_ok (pr_endpoint demo_record) = true.
Proof.
  split; [vm_compute; reflexivity|].
  apply (parse_provider_txt_sound (str "acme.example") demo_txt demo_record). vm_compute. reflexivity.
Qed.

Lemma parse_provider_txt_render_example :
  parse_provider_txt (pr_domain demo_record) demo_txt = Ok demo_record.
Proof.
  apply parse_provider_txt_render; [reflexivity|reflexivity|done| |].
  - apply forallb_Forall. vm_compute. reflexivity.
  - eapply Forall_impl; [|exact clean_pair_dec]. apply forallb_Forall. vm_compute. reflexivity.
Qed.

(** Two records that parse: refused; one malformed beside it: skipped. *)
Lemma lookup_examples :
  let two := λ _ : pystr, Ok [Some [demo_txt]; Some [demo_txt]] in
  let one := λ _ : pystr, Ok [None; Some [str "v=spf1"]; Some [take 5 demo_txt; drop 5 demo_txt]] in
  lookup_provider_record two (str "acme.example") = Raise ProviderResolutionError
  ∧ lookup_provider_record one (str "acme.example") = Ok demo_record.
Proof. by vm_compute. Qed.

(** An answer with a TXT record that is not UTF-8 escapes the error mapping,
    whatever the other records are. *)
Lemma non_utf8_record_escapes :
  lookup_provider_record (λ _, Ok [Some [[0xFF]]; Some [demo_txt]]) (str "acme.example")
  = Raise UnicodeDecodeError.
Proof. by vm_compute. Qed.
