(* ===== verification/Pydantic.v ===== *)
(** * Model validation

    The parts of Pydantic's [model_validate] the SDK's models use, on decoded
    JSON: required and defaulted fields, [str], [int] and nested models,
    [pattern] and bound constraints, [AfterValidator], aliases, extra keys.
    Errors of all fields are collected into one [ValidationError]; an exception
    of a validator that is not a [ValueError] leaves [model_validate] at once.

    What lies outside the repository is the class [Pydantic]: the lax
    conversion to [int] and the text of a [ValidationError]. *)

From S2P Require Import Prelude PyStr Jcs Dicts.

Class Pydantic : Type := {
  pyd_int : json → option Z;
  (** An integer is itself. *)
  pyd_int_int z : pyd_int (JInt z) = Some z;
  (** [str(exc)], for a model and its input. *)
  pyd_message : pystr → pydict → pystr;
}.

(** Only integers, no text: an instance for evaluation. *)
Definition strict_pydantic : Pydantic := {|
  pyd_int v := match v with JInt z => Some z | _ => None end;
  pyd_int_int _ := eq_refl;
  pyd_message model _ := str "validation error for " ++ model;
|}.

Definition is_ValidationError (e : exn) : bool := match e with ValidationError _ => true | _ => false end.

(** A field that does not validate; the text is that of the whole model. *)
Definition invalid {A} : result A := Raise (ValidationError []).

(** Field by field: collected errors yield to an exception that leaves. *)
Definition field {A B} (mf : result (A → B)) (mx : result A) : result B :=
  match mf, mx with
  | Ok f, Ok x => Ok (f x)
  | Raise e, Ok _ => Raise e
  | Ok _, Raise e => Raise e
  | Raise e, Raise e' => if is_ValidationError e then Raise e' else Raise e
  end.
Infix "<*>" := field (at level 61, left associativity).

Section validators.
Context `{Pydantic}.

(** [str] *)
Definition v_str (v : option json) : result pystr :=
  match v with Some (JStr s) => Ok s | _ => invalid end.

(** [Annotated[str, AfterValidator(f)]] *)
Definition v_after (f : pystr → result pystr) (v : option json) : result pystr :=
  s ← v_str v; rethrow is_ValueError (λ _, ValidationError []) (f s).

(** [Annotated[str, Field(pattern=p)]] *)
Definition v_pattern (p : pystr → bool) (v : option json) : result pystr :=
  s ← v_str v; if p s then Ok s else invalid.

(** [int = Field(ge=0)] *)
Definition v_nat (v : option json) : result Z :=
  match v with
  | Some v => match pyd_int v with Some z => if 0 <=? z then Ok z else invalid | None => invalid end
  | None => invalid
  end.

(** [X | None = None] *)
Definition v_optional {A} (f : option json → result A) (v : option json) : result (option A) :=
  match v with
  | None | Some JNull => Ok None
  | Some v => x ← f (Some v); Ok (Some x)
  end.

(** [dict[str, Any]] *)
Definition v_dict (v : option json) : result pydict :=
  match v with Some (JDict d) => Ok d | _ => invalid end.

(** [tuple[str, ...] = ()] *)
Definition v_strs (v : option json) : result (list pystr) :=
  match v with
  | None => Ok []
  | Some (JList l) => mapM (λ v, v_str (Some v)) l
  | Some _ => invalid
  end.

(** [populate_by_name]: the alias, else the name. *)
Definition get_alias (alias name : pystr) (d : pydict) : option json :=
  match dict_get alias d with Some v => Some v | None => dict_get name d end.

(** [model_validate(d)]: the fields' result, with the model's message. *)
Definition model_validate {A} (model : pystr) (d : pydict) (r : result A) : result A :=
  rethrow is_ValidationError (λ _, ValidationError (pyd_message model d)) r.
End validators.

(** Keys no field took: the model's extra values. *)
Definition extras (names : list pystr) (d : pydict) : pydict :=
  dict_filter (λ k, negb (bool_decide (k ∈ names))) d.

(** ** Lemmas *)

Lemma field_ok {A B} (mf : result (A → B)) (mx : result A) b :
  (mf <*> mx) = Ok b ↔ ∃ f x, mf = Ok f ∧ mx = Ok x ∧ b = f x.
Proof.
  unfold field. destruct mf as [f|e], mx as [x|e']; try (case_match); naive_solver.
Qed.

Lemma v_str_ok v s : v_str v = Ok s ↔ v = Some (JStr s).
Proof. destruct v as [[]|]; simpl; naive_solver. Qed.

Lemma v_after_ok f v s : v_after f v = Ok s ↔ ∃ t, v = Some (JStr t) ∧ f t = Ok s.
Proof.
  unfold v_after. rewrite bind_ok. setoid_rewrite v_str_ok. setoid_rewrite rethrow_ok. naive_solver.
Qed.

Lemma v_pattern_ok p v s : v_pattern p v = Ok s ↔ v = Some (JStr s) ∧ p s = true.
Proof.
  unfold v_pattern. rewrite bind_ok. setoid_rewrite v_str_ok. split.
  - intros (t & -> & E). destruct (p t) eqn:Ep; [|done]. by res_inv.
  - intros [-> Hp]. exists s. by rewrite Hp.
Qed.

Lemma v_nat_ok `{Pydantic} v z : v_nat v = Ok z → 0 ≤ z.
Proof. unfold v_nat. repeat case_match; intros ?; res_inv; bool_prop; done. Qed.

Lemma v_nat_int `{Pydantic} z : 0 ≤ z → v_nat (Some (JInt z)) = Ok z.
Proof. intros Hz. unfold v_nat. rewrite pyd_int_int. by rewrite (proj2 (Z.leb_le 0 z)). Qed.

Lemma v_strs_map l : v_strs (Some (JList (map JStr l))) = Ok l.
Proof. simpl. induction l as [|s l IH]; simpl; [done|]. by rewrite IH. Qed.

(** Validation that fails only with a [ValidationError]. *)
Definition only_invalid {A} (r : result A) : Prop := ∀ e, r = Raise e → is_ValidationError e = true.

Section only_invalid.
Context {A B : Type}.

Lemma only_invalid_ok (a : A) : only_invalid (Ok a).
Proof. done. Qed.

Lemma only_invalid_invalid : only_invalid (@invalid A).
Proof. by intros e [= <-]. Qed.

Lemma only_invalid_bind (m : result A) (k : A → result B) :
  only_invalid m → (∀ a, only_invalid (k a)) → only_invalid (m ≫= k).
Proof. intros Hm Hk e [Hr|(a & _ & Hr)]%bind_raise; [by apply Hm|by apply (Hk a)]. Qed.

Lemma only_invalid_field (mf : result (A → B)) (mx : result A) :
  only_invalid mf → only_invalid mx → only_invalid (mf <*> mx).
Proof.
  unfold field. destruct mf as [f|e], mx as [x|e']; intros Hf Hx; [done| | |].
  - intros ? [= <-]. by apply Hx.
  - intros ? [= <-]. by apply Hf.
  - rewrite (Hf e eq_refl). intros ? [= <-]. by apply Hx.
Qed.

End only_invalid.

Section only_invalid_more.
Context {A B : Type}.

Lemma only_invalid_optional (f : option json → result A) v :
  (∀ v, only_invalid (f v)) → only_invalid (v_optional f v).
Proof.
  intros Hf. unfold v_optional. destruct v as [[]|]; try done; apply only_invalid_bind; done.
Qed.

Lemma only_invalid_mapM (f : A → result B) l : (∀ a, only_invalid (f a)) → only_invalid (mapM f l).
Proof.
  intros Hf. induction l as [|a l IH]; simpl; [done|].
  apply only_invalid_bind; [done|]. intros b. by apply only_invalid_bind.
Qed.

Lemma only_invalid_model `{Pydantic} name d (r : result A) : only_invalid r → only_invalid (model_validate name d r).
Proof.
  intros Hr. unfold model_validate. destruct r as [|e]; [done|]. cbn [rethrow]. rewrite (Hr e eq_refl). by intros ? [= <-].
Qed.
End only_invalid_more.

Lemma only_invalid_str v : only_invalid (v_str v).
Proof. destruct v as [[]|]; try apply only_invalid_invalid; done. Qed.

Lemma only_invalid_dict v : only_invalid (v_dict v).
Proof. destruct v as [[]|]; try apply only_invalid_invalid; done. Qed.

Lemma only_invalid_strs v : only_invalid (v_strs v).
Proof.
  destruct v as [[]|]; try apply only_invalid_invalid; [|done].
  apply only_invalid_mapM. intros ?. apply only_invalid_str.
Qed.

#[export] Hint Resolve only_invalid_ok only_invalid_invalid only_invalid_bind only_invalid_field only_invalid_optional
  only_invalid_mapM only_invalid_model only_invalid_str only_invalid_dict only_invalid_strs : shadownet.

(** Splits a successful model validation into its fields. *)
Ltac field_inv :=
  repeat match goal with
  | H : model_validate _ _ _ = Ok _ |- _ => apply rethrow_ok in H
  | H : (_ <*> _) = Ok _ |- _ => apply field_ok in H as (?&?&H&?&->)
  | H : Ok _ = Ok _ |- _ => apply Ok_inj in H; subst
  end.
