(* ===== verification/Credential.v ===== *)
(** * Credentials — [shadownet/credential.py]

    The payload model, minting, and verification: header, claims, lifetime,
    issuer key, signature and the issuer's authority over the organization
    (RFC 0001 section 6.6).  Callbacks run in the state monad, so that the same
    definitions serve injected resolvers, caches and DNS. *)

From S2P Require Import Prelude Radix PyStr Base64 Multibase Identifiers Jcs Dicts Crypto Provider Pydantic.

Definition CREDENTIAL_TYP : pystr := str "shadownet-cred+jwt".
Definition ORG_AFFILIATION : pystr := str "org_affiliation".
Definition CRED_MAX_LIFETIME_SECONDS : Z := 30 * 24 * 60 * 60.

(** ** The payload model *)

Record RevocationPointer := { epoch : pystr; idx : Z }.

Record CredentialPayload := {
  cp_iss : pystr;
  cp_sub : pystr;
  cp_kind : pystr;
  cp_org : pystr;
  cp_iat : Z;
  cp_exp : Z;
  cp_rev : RevocationPointer;
  cp_extra : pydict;
}.

Record VerifiedCredential := { vc_payload : CredentialPayload; vc_issuer_key : pystr; vc_raw_jws : pystr }.

Section payload.
Context `{PyUnicode} `{Pydantic}.

(** [extra="forbid"]: no key beside the two fields. *)
Definition validate_rev (v : option json) : result RevocationPointer :=
  match v with
  | Some (JDict d) =>
      Ok (λ e i _, {| epoch := e; idx := i |})
      <*> v_pattern (λ s, negb (bool_decide (s = []))) (dict_get (str "epoch") d)
      <*> v_nat (dict_get (str "idx") d)
      <*> (match extras [str "epoch"; str "idx"] d with [] => Ok tt | _ => invalid end)
  | _ => invalid
  end.

(** [^[a-z_]+$] in the dialect of pydantic-core, whose [$] is the end. *)
Definition kind_pattern (s : pystr) : bool :=
  negb (bool_decide (s = [])) && forallb (λ c, is_lower c || (c =? 95)) s.

Definition cred_fields : list pystr :=
  [str "iss"; str "sub"; str "kind"; str "org"; str "iat"; str "exp"; str "rev"].

Definition CredentialPayload_validate (d : pydict) : result CredentialPayload :=
  model_validate (str "CredentialPayload") d
    (Ok (λ iss sub kind org iat exp rev,
           {| cp_iss := iss; cp_sub := sub; cp_kind := kind; cp_org := org; cp_iat := iat; cp_exp := exp;
              cp_rev := rev; cp_extra := extras cred_fields d |})
     <*> v_after canonicalize_issuer_or_org_identifier (dict_get (str "iss") d)
     <*> v_after canonicalize_identifier (dict_get (str "sub") d)
     <*> v_pattern kind_pattern (dict_get (str "kind") d)
     <*> v_after canonicalize_issuer_or_org_identifier (dict_get (str "org") d)
     <*> v_nat (dict_get (str "iat") d)
     <*> v_nat (dict_get (str "exp") d)
     <*> validate_rev (dict_get (str "rev") d)).

(** [payload.model_dump()] *)
Definition CredentialPayload_dump (p : CredentialPayload) : pydict :=
  [(str "iss", JStr (cp_iss p)); (str "sub", JStr (cp_sub p)); (str "kind", JStr (cp_kind p));
   (str "org", JStr (cp_org p)); (str "iat", JInt (cp_iat p)); (str "exp", JInt (cp_exp p));
   (str "rev", JDict [(str "epoch", JStr (epoch (cp_rev p))); (str "idx", JInt (idx (cp_rev p)))])]
  ++ cp_extra p.
End payload.

(** ** Minting and verification *)

Section credential.
Context `{PyUnicode} `{Pydantic} `{PyJWT} {W : Type}.

Definition mint_credential (payload : CredentialPayload) (issuer_key : Ed25519KeyPair) : result pystr :=
  _ ← raise_if (CRED_MAX_LIFETIME_SECONDS <? cp_exp payload - cp_iat payload) CredentialError;
  _ ← raise_if (negb (bool_decide (cp_kind payload = ORG_AFFILIATION))) CredentialError;
  sign_jwt (CredentialPayload_dump payload) issuer_key (Some [(str "typ", JStr CREDENTIAL_TYP)]).

Definition is_JWTError (e : exn) : bool := match e with JWTError _ => true | _ => false end.

(** Everything before the issuer's key is needed: header, claims, kind,
    lifetime and time window. *)
Definition credential_claims (now leeway : Z) (token : pystr) : result CredentialPayload :=
  header ← rethrow is_JWTError (λ _, CredentialError) (decode_header token);
  _ ← raise_if (negb (get_is_str (str "typ") CREDENTIAL_TYP header)) CredentialError;
  _ ← raise_if (negb (get_is_str (str "alg") (str "EdDSA") header)) CredentialError;
  unverified ← rethrow is_JWTError (λ _, CredentialError) (decode_unverified_claims token);
  payload ← rethrow is_ValidationError (λ _, CredentialError) (CredentialPayload_validate unverified);
  _ ← raise_if (negb (bool_decide (cp_kind payload = ORG_AFFILIATION))) CredentialError;
  _ ← raise_if (CRED_MAX_LIFETIME_SECONDS <? cp_exp payload - cp_iat payload) CredentialError;
  _ ← raise_if (cp_exp payload <? now - leeway) CredentialError;
  _ ← raise_if (now + leeway <? cp_iat payload) CredentialError;
  Ok payload.

(** The signature under the key the resolver gave. *)
Definition credential_signature (token issuer_key_multibase : pystr) : result unit :=
  issuer_pk_bytes ← parse_public_key issuer_key_multibase;
  issuer_key ← from_public_bytes issuer_pk_bytes;
  rethrow is_EdSignatureError (λ _, CredentialError) (_verify_jws_signature token issuer_key).

Definition verify_credential (now leeway : Z) (resolver : pystr → M W pystr)
    (authorize : pystr → pystr → M W unit) (token : pystr) : M W VerifiedCredential :=
  payload ← lift (credential_claims now leeway token);
  issuer_key_multibase ← resolver (cp_iss payload);
  _ ← lift (credential_signature token issuer_key_multibase);
  _ ← authorize (cp_iss payload) (cp_org payload);
  mret {| vc_payload := payload; vc_issuer_key := issuer_key_multibase; vc_raw_jws := token |}.

Definition is_ProviderResolutionError (e : exn) : bool := bool_decide (e = ProviderResolutionError).

(** [provider_lookup] is [lookup_provider_record], or what the caller injects. *)
Definition default_issuer_key_resolver (provider_lookup : pystr → M W ProviderRecord) (issuer : pystr) : M W pystr :=
  if is_public_key_identifier issuer then mret issuer
  else
    record ← rethrowM is_ProviderResolutionError (λ _, CredentialError) (provider_lookup issuer);
    lift (of_option CredentialError (head (pr_provider_keys record))).

Definition default_issuer_authorization_check (provider_lookup : pystr → M W ProviderRecord)
    (issuer org : pystr) : M W unit :=
  if bool_decide (issuer = org) then mret tt
  else if is_public_key_identifier issuer || is_public_key_identifier org then lift (Raise CredentialError)
  else
    sub ← lift (is_subdomain_of issuer org);
    if (sub : bool) then mret tt
    else
      org_record ← rethrowM is_ProviderResolutionError (λ _, CredentialError) (provider_lookup org);
      if bool_decide (py_lower issuer ∈ map py_lower (pr_delegates org_record)) then mret tt
      else lift (Raise CredentialError).
End credential.

(** ** Lemmas *)

Lemma extras_app names d e : extras names (d ++ e) = extras names d ++ extras names e.
Proof. apply List.filter_app. Qed.

Lemma extras_all names d : Forall (λ k, k ∈ names) (keys d) → extras names d = [].
Proof.
  unfold extras, dict_filter, keys. rewrite Forall_map. induction 1 as [|[k v] d' Hin _ IH]; simpl; [done|].
  by rewrite bool_decide_eq_true_2.
Qed.

Lemma extras_none names d : Forall (λ k, k ∉ names) (keys d) → extras names d = d.
Proof.
  unfold extras, dict_filter, keys. rewrite Forall_map. induction 1 as [|[k v] d' Hin _ IH]; simpl; [done|].
  rewrite bool_decide_eq_false_2 by done. simpl. by rewrite IH.
Qed.

(** A dump of known fields followed by extra keys gives the extra keys back. *)
Lemma extras_dump d e : NoDup (keys (d ++ e)) → extras (keys d) (d ++ e) = e.
Proof.
  unfold keys at 1. rewrite map_app, NoDup_app. intros (_ & Hd & _).
  rewrite extras_app, extras_all, extras_none; [done| |].
  - apply Forall_forall. intros k Hk Hk'. by apply (Hd k).
  - by apply Forall_forall.
Qed.

Section credential_lemmas.
Context `{PyUnicode} `{Pydantic} `{PyJWT} {W : Type}.

Lemma credential_claims_ok now leeway token p :
  credential_claims now leeway token = Ok p →
  ∃ header claims,
    pyjwt_header token = Ok header ∧ get_is_str (str "typ") CREDENTIAL_TYP header = true
    ∧ get_is_str (str "alg") (str "EdDSA") header = true
    ∧ pyjwt_claims token = Ok claims ∧ CredentialPayload_validate claims = Ok p
    ∧ cp_kind p = ORG_AFFILIATION ∧ cp_exp p - cp_iat p ≤ CRED_MAX_LIFETIME_SECONDS
    ∧ cp_iat p - leeway ≤ now ≤ cp_exp p + leeway.
Proof.
  unfold credential_claims. intros Hc. res_inv. bool_prop. subst.
  rewrite decode_header_ok, decode_unverified_claims_ok in *.
  eexists _, _. split_and!; [done..|lia|lia].
Qed.

Lemma credential_signature_ok token k u :
  credential_signature token k = Ok u → ∃ pk, parse_public_key k = Ok pk ∧ jws_signed_by pk token.
Proof.
  unfold credential_signature. intros Hs. res_inv.
  match goal with Hf : from_public_bytes _ = Ok _ |- _ => apply from_public_bytes_ok in Hf as [Hpk _] end.
  match goal with Hv : _verify_jws_signature _ _ = Ok _ |- _ => apply verify_jws_ok in Hv end.
  rewrite Hpk in *. eauto.
Qed.

Lemma verify_credential_ok now leeway resolver authorize token (w w' : W) vc :
  verify_credential now leeway resolver authorize token w = (w', Ok vc) →
  let p := vc_payload vc in
  credential_claims now leeway token = Ok p ∧ vc_raw_jws vc = token
  ∧ ∃ pk w1, resolver (cp_iss p) w = (w1, Ok (vc_issuer_key vc))
    ∧ parse_public_key (vc_issuer_key vc) = Ok pk ∧ jws_signed_by pk token
    ∧ authorize (cp_iss p) (cp_org p) w1 = (w', Ok tt).
Proof.
  unfold verify_credential. intros Hv. M_inv. simpl.
  repeat match goal with u : () |- _ => destruct u end.
  match goal with Hs : credential_signature _ _ = Ok _ |- _ => apply credential_signature_ok in Hs as (pk & ? & ?) end.
  split_and!; [done|done|]. by eexists pk, _.
Qed.

Lemma resolver_keyed lookup issuer (w w' : W) k :
  is_public_key_identifier issuer = true →
  default_issuer_key_resolver lookup issuer w = (w', Ok k) → w' = w ∧ k = issuer.
Proof. unfold default_issuer_key_resolver. intros ->. intros Hr. by M_inv. Qed.

(** Section 6.6, rule by rule: an issuer may attest for an organization
    exactly when they are equal, or neither is a key and the issuer is the
    organization's domain or below it, or the organization's DNS record
    lists the issuer as a delegate (compared without case). *)
Lemma authorization_ok lookup issuer org (w w' : W) u :
  default_issuer_authorization_check lookup issuer org w = (w', Ok u) ↔
  (issuer = org ∧ w' = w)
  ∨ (issuer ≠ org ∧ is_public_key_identifier issuer = false ∧ is_public_key_identifier org = false
     ∧ ((is_subdomain_of issuer org = Ok true ∧ w' = w)
        ∨ (is_subdomain_of issuer org = Ok false
           ∧ ∃ r, lookup org w = (w', Ok r) ∧ py_lower issuer ∈ map py_lower (pr_delegates r)))).
Proof.
  unfold default_issuer_authorization_check. destruct u. case_bool_decide as He.
  - rewrite M_ret_ok. naive_solver.
  - destruct (is_public_key_identifier issuer), (is_public_key_identifier org); cbn [orb];
      try (split; [intros Hf; by M_inv|by intros [[? _]|(_ & ? & ? & _)]]).
    rewrite M_bind_ok. setoid_rewrite lift_ok. split.
    + intros (sub & w1 & [-> Hs] & Hr). right. split_and!; [done..|]. destruct sub; [M_inv; by left|].
      M_inv. case_bool_decide; M_inv; [|done]. right. split; [done|]. by eexists.
    + intros [[? _]|(_ & _ & _ & [[Hs ->]|(Hs & r & Hr & Hd)])]; [done|..].
      * exists true, w. split; [done|]. done.
      * exists false, w. split; [done|]. apply M_bind_ok. exists r, w'. rewrite rethrowM_ok.
        split; [done|]. by rewrite bool_decide_eq_true_2.
Qed.
End credential_lemmas.

(** ** Properties *)

Section credential_properties.
Context `{PyUnicode} `{Pydantic} `{PyJWT} {W : Type}.

(** C12: a credential that verifies carries the credential type and algorithm in
    its header, its payload is the validated claims, of kind
    [org_affiliation], at most 30 days long and current up to the leeway; it
    is signed by the key resolved for its issuer, and that issuer was
    authorized for its organization. *)
Theorem verify_credential_sound (now leeway : Z) (resolver : pystr → M W pystr)
    (authorize : pystr → pystr → M W unit) (token : pystr) (w w' : W) (vc : VerifiedCredential) :
  verify_credential now leeway resolver authorize token w = (w', Ok vc) →
  let p := vc_payload vc in
  (∃ header claims,
    pyjwt_header token = Ok header ∧ get_is_str (str "typ") (str "shadownet-cred+jwt") header = true
    ∧ get_is_str (str "alg") (str "EdDSA") header = true
    ∧ pyjwt_claims token = Ok claims ∧ CredentialPayload_validate claims = Ok p)
  ∧ cp_kind p = str "org_affiliation" ∧ cp_exp p - cp_iat p ≤ 2592000
  ∧ cp_iat p - leeway ≤ now ≤ cp_exp p + leeway
  ∧ ∃ pk w1, resolver (cp_iss p) w = (w1, Ok (vc_issuer_key vc))
    ∧ parse_public_key (vc_issuer_key vc) = Ok pk ∧ jws_signed_by pk token
    ∧ authorize (cp_iss p) (cp_org p) w1 = (w', Ok tt).
Proof.
  intros (Hc & _ & Hr)%verify_credential_ok.
  apply credential_claims_ok in Hc as (header & claims & ? & ? & ? & ? & ? & Hk & Hl & Ht).
  split; [|exact (conj Hk (conj Hl (conj Ht Hr)))].
  exists header, claims. split_and!; assumption.
Qed.

(** A keyed issuer attests only for itself, and its credentials are signed
    by the very key the issuer is named by; no DNS answer takes part. *)
Lemma keyed_issuer_self_attests (now leeway : Z) (lookup : pystr → M W ProviderRecord)
    (token : pystr) (w w' : W) (vc : VerifiedCredential) :
  verify_credential now leeway (default_issuer_key_resolver lookup)
    (default_issuer_authorization_check lookup) token w = (w', Ok vc) →
  is_public_key_identifier (cp_iss (vc_payload vc)) = true →
  cp_org (vc_payload vc) = cp_iss (vc_payload vc) ∧ w' = w
  ∧ ∃ pk, parse_public_key (cp_iss (vc_payload vc)) = Ok pk ∧ jws_signed_by pk token.
Proof.
  intros (_ & _ & pk & w1 & Hr & Hk & Hs & Ha)%verify_credential_ok Hkey.
  apply resolver_keyed in Hr as [-> Hr]; [|done]. rewrite Hr in Hk.
  apply authorization_ok in Ha as [[He ->]|(_ & Hf & _)]; [|congruence].
  split_and!; [done..|]. by exists pk.
Qed.

(** Payloads in canonical form. *)
Definition payload_canonical (p : CredentialPayload) : Prop :=
  canonicalize_issuer_or_org_identifier (cp_iss p) = Ok (cp_iss p)
  ∧ canonicalize_identifier (cp_sub p) = Ok (cp_sub p)
  ∧ canonicalize_issuer_or_org_identifier (cp_org p) = Ok (cp_org p)
  ∧ cp_kind p = ORG_AFFILIATION ∧ 0 ≤ cp_iat p ∧ 0 ≤ cp_exp p
  ∧ epoch (cp_rev p) ≠ [] ∧ 0 ≤ idx (cp_rev p)
  ∧ well_formed (JDict (CredentialPayload_dump p)).

Lemma validate_dump p : payload_canonical p → CredentialPayload_validate (CredentialPayload_dump p) = Ok p.
Proof.
  intros (Hi & Hs & Ho & Hk & Hia & Hex & Hep & Hidx & Hw). unfold CredentialPayload_validate, model_validate.
  apply rethrow_ok.
  assert (extras cred_fields (CredentialPayload_dump p) = cp_extra p) as ->.
  { apply (extras_dump (firstn 7 (CredentialPayload_dump p))). by apply well_formed_entries in Hw as [_ Hn]. }
  unfold CredentialPayload_dump. cbn [dict_get app]. unfold v_after, v_pattern.
  repeat (rewrite bool_decide_eq_false_2 by done) || rewrite bool_decide_eq_true_2 by done.
  cbn [v_str mbind result_bind]. rewrite Hi, Hs, Ho. cbn [rethrow field].
  rewrite !v_nat_int by done. unfold validate_rev. cbn [dict_get].
  rewrite (bool_decide_eq_true_2 (str "epoch" = str "epoch")) by done.
  rewrite (bool_decide_eq_false_2 (str "idx" = str "epoch")) by done.
  rewrite (bool_decide_eq_true_2 (str "idx" = str "idx")) by done.
  unfold v_pattern. cbn [v_str mbind result_bind]. rewrite bool_decide_eq_false_2 by done.
  rewrite v_nat_int by done. rewrite Hk. destruct p as [? ? ? ? ? ? [? ?] ?]. simpl in *. by subst.
Qed.
End credential_properties.

(** The text of a key is ASCII. *)
Lemma multibase_ascii raw : is_bytes raw → Forall (λ c, is_ascii c = true) (encode_multibase_z raw).
Proof.
  intros Hb. destruct (lead_split 0 raw) as (k & t & -> & _ & Hx). apply no_lead_iff in Hx.
  assert (Forall (λ i, is_ascii (b58_char i) = true) (seqZ 0 58)) as Hall by (by apply forallb_Forall; vm_compute).
  assert (∀ i, 0 ≤ i < 58 → is_ascii (b58_char i) = true) as Hc.
  { intros i Hi. rewrite Forall_forall in Hall. apply Hall, elem_of_seqZ. lia. }
  unfold encode_multibase_z. rewrite b58encode_shape by done. rewrite !Forall_app. split_and!.
  - by apply forallb_Forall; vm_compute.
  - apply Forall_forall. intros c Hin%list_elem_of_In%repeat_spec. subst. by apply Hc.
  - apply Forall_map. eapply Forall_impl; [apply (to_digits_digits 58); lia|]. intros i Hi. by apply Hc.
Qed.

Lemma key_wf_str pk k : is_bytes pk → encode_public_key pk = Ok k → wf_str k.
Proof.
  intros Hb Hk. apply wf_str_ascii. unfold encode_public_key in Hk. res_inv. apply multibase_ascii.
  apply Forall_app. split; [|done]. by repeat (constructor; [done|]).
Qed.

Section credential_roundtrip.
Context `{PyUnicode} `{Pydantic} `{PyJWTLaws} {W : Type}.

Lemma encode_public_key_ok sk :
  ∃ k, encode_public_key (ed_public sk) = Ok k ∧ parse_public_key k = Ok (ed_public sk).
Proof.
  destruct (ed_public_bytes sk) as [Hl Hb]. unfold encode_public_key, py_len. rewrite Hl. cbn [negb].
  eexists. split; [done|]. by apply parse_public_key_ok.
Qed.

Lemma raise_if_false b e : b = false → raise_if b e = Ok tt.
Proof. by intros ->. Qed.

(** What an issuer mints is verified by everyone who resolves the issuer to
    the minting key: the token comes back as the payload that was signed. *)
Lemma minted_credential_verifies (p : CredentialPayload) (sk : ed_secret) :
  payload_canonical p → cp_exp p - cp_iat p ≤ 2592000 →
  ∃ token k, mint_credential p (generate sk) = Ok token ∧ encode_public_key (ed_public sk) = Ok k
    ∧ ∀ now leeway (resolver : pystr → M W pystr) authorize w w1 w2,
        cp_iat p - leeway ≤ now ≤ cp_exp p + leeway →
        resolver (cp_iss p) w = (w1, Ok k) → authorize (cp_iss p) (cp_org p) w1 = (w2, Ok tt) →
        verify_credential now leeway resolver authorize token w
        = (w2, Ok {| vc_payload := p; vc_issuer_key := k; vc_raw_jws := token |}).
Proof.
  intros Hp Hlife. pose proof (validate_dump p Hp) as Hval.
  destruct Hp as (_ & _ & _ & Hk & _ & _ & _ & _ & Hw).
  destruct (encode_public_key_ok sk) as (k & Hek & Hpk).
  destruct (sign_jwt_spec (CredentialPayload_dump p) (generate sk) sk CREDENTIAL_TYP [])
    as (token & hd & Hsign & Hhd & Hcl & Hver & Htyp & Halg & _);
    try first [done | wf_lit | by left | by wf_dict].
  { split; [done|]. right. by exists (cp_iss p). }
  exists token, k. split_and!; [|done|].
  - unfold mint_credential. rewrite !raise_if_false; [exact Hsign| |].
    + apply Z.ltb_ge. exact Hlife.
    + by rewrite bool_decide_eq_true_2.
  - intros now leeway resolver authorize w w1 w2 Hnow Hr Ha.
    assert (Hc : credential_claims now leeway token = Ok p).
    { unfold credential_claims. rewrite Hhd. cbn [rethrow mbind result_bind].
      unfold get_is_str, get_str in *. repeat (case_match; try done). simplify_eq.
      unfold json_is_str. rewrite !bool_decide_eq_true_2 by done. cbn [raise_if negb mbind result_bind].
      rewrite Hcl. cbn [rethrow mbind result_bind]. rewrite Hval. cbn [rethrow mbind result_bind].
      rewrite !raise_if_false; [done|..];
        first [by rewrite bool_decide_eq_true_2 | apply Z.ltb_ge; first [exact Hlife | lia]]. }
    assert (Hs : credential_signature token k = Ok tt).
    { unfold credential_signature. rewrite Hpk. cbn [mbind result_bind]. rewrite from_public_bytes_public.
      cbn [mbind result_bind]. by rewrite Hver. }
    apply M_bind_ok. exists p, w. split; [by apply lift_ok|].
    apply M_bind_ok. exists k, w1. split; [done|].
    apply M_bind_ok. exists tt, w1. split; [by apply lift_ok|].
    apply M_bind_ok. by exists tt, w2.
Qed.

Lemma minted_token (p : CredentialPayload) (sk : ed_secret) token :
  payload_canonical p → mint_credential p (generate sk) = Ok token →
  ∃ h b, is_bytes h ∧ is_bytes b ∧ token = jws_token h b sk.
Proof.
  intros (_ & _ & _ & _ & _ & _ & _ & _ & Hw) Hm. unfold mint_credential in Hm. res_inv.
  unfold sign_jwt, private_key in *. cbn [generate _private of_option mbind result_bind default id] in *.
  destruct (jwt_headers_ok CREDENTIAL_TYP []) as [Hh _]; [done|wf_lit|wf_dict|by left|].
  destruct (pyjwt_encode_spec (CredentialPayload_dump p) sk _ (conj Hw (or_intror (ex_intro _ (cp_iss p) eq_refl))) Hh)
    as (h & b & token' & hd & Hbh & Hbp & -> & He & _).
  match goal with Hs : pyjwt_encode _ _ _ = Ok token |- _ => rewrite He in Hs; injection Hs as <- end. by exists h, b.
Qed.

(** A minted token is not empty, and is ASCII, so it can be an element of an
    envelope. *)
Lemma minted_nonempty (p : CredentialPayload) (sk : ed_secret) token :
  payload_canonical p → mint_credential p (generate sk) = Ok token → token ≠ [].
Proof.
  intros Hp (h & b & _ & _ & ->)%minted_token; [|done]. unfold jws_token. intros E%app_eq_nil. by destruct E.
Qed.

Lemma minted_ascii (p : CredentialPayload) (sk : ed_secret) token :
  payload_canonical p → mint_credential p (generate sk) = Ok token → Forall (λ c, is_ascii c = true) token.
Proof.
  intros Hp (h & b & Hh & Hb & ->)%minted_token; [|done]. unfold jws_token. rewrite !Forall_app.
  split_and!; try (by repeat constructor); apply _b64u_ascii; try done. apply ed_sign_bytes.
Qed.

End credential_roundtrip.

(** ** Examples *)

#[local] Existing Instance ascii_unicode.
#[local] Existing Instance strict_pydantic.
#[local] Existing Instance toy_ed25519.
#[local] Existing Instance toy_jwt.
#[local] Existing Instance toy_jwt_laws.

Definition demo_payload : CredentialPayload := {|
  cp_iss := str "hr.acme.example"; cp_sub := str "ann@acme.example"; cp_kind := str "org_affiliation";
  cp_org := str "acme.example"; cp_iat := 1000; cp_exp := 5000;
  cp_rev := {| epoch := str "2026-01"; idx := 7 |}; cp_extra := [] |}.

Lemma well_formed_dec v : wf_json v && encodable v = true → well_formed v.
Proof. by intros [? ?]%andb_true_iff. Qed.

Lemma demo_payload_canonical : payload_canonical demo_payload.
Proof.
  unfold payload_canonical. split_and!; try (vm_compute; reflexivity); try (vm_compute; congruence).
  apply well_formed_dec. vm_compute. reflexivity.
Qed.

(** The result without its world. *)
Definition demo_token : pystr :=
  match mint_credential demo_payload (demo_pair 77) with Ok t => t | Raise _ => [] end.
Definition demo_issuer_key : pystr :=
  match encode_public_key (public_bytes (demo_pair 77)) with Ok t => t | Raise _ => [] end.

Definition demo_record_of (k : pystr) (delegates : list pystr) : ProviderRecord := {|
  pr_domain := []; pr_version := str "0.2"; pr_endpoint := []; pr_provider_keys := [k];
  pr_is_issuer := true; pr_delegates := delegates |}.

(** A DNS in which every domain publishes the demo key. *)
Definition demo_lookup (_ : pystr) : M unit ProviderRecord := mret (demo_record_of demo_issuer_key []).

Definition demo_verified : VerifiedCredential :=
  {| vc_payload := demo_payload; vc_issuer_key := demo_issuer_key; vc_raw_jws := demo_token |}.

Lemma minted_credential_verifies_example :
  ∃ token k, mint_credential demo_payload (generate (77 : @ed_secret toy_ed25519)) = Ok token
    ∧ encode_public_key (ed_public (77 : @ed_secret toy_ed25519)) = Ok k
    ∧ verify_credential 1500 60 (λ _, mret k) (λ _ _, mret tt) token tt
      = (tt, Ok {| vc_payload := demo_payload; vc_issuer_key := k; vc_raw_jws := token |}).
Proof.
  destruct (minted_credential_verifies (W := unit) demo_payload (77 : @ed_secret toy_ed25519) demo_payload_canonical)
    as (token & k & Hm & Hk & Hv); [vm_compute; congruence|].
  exists token, k. split; [exact Hm|]. split; [exact Hk|].
  apply (Hv 1500 60 (λ _, mret k) (λ _ _, mret tt) tt tt tt); [vm_compute; split; congruence|reflexivity|reflexivity].
Qed.

Lemma verify_credential_sound_witness :
  verify_credential 1500 60 (default_issuer_key_resolver demo_lookup)
    (default_issuer_authorization_check demo_lookup) demo_token tt = (tt, Ok demo_verified)
  ∧ cp_kind (vc_payload demo_verified) = str "org_affiliation".
Proof.
  assert (Hv : verify_credential 1500 60 (default_issuer_key_resolver demo_lookup)
    (default_issuer_authorization_check demo_lookup) demo_token tt = (tt, Ok demo_verified))
    by (vm_compute; reflexivity).
  split; [exact Hv|]. apply (verify_credential_sound _ _ _ _ _ _ _ _ Hv).
Defined.

(** A credential a keyed hub issues for itself. *)
Definition demo_keyed_payload : CredentialPayload := {|
  cp_iss := demo_issuer_key; cp_sub := str "ann@acme.example"; cp_kind := str "org_affiliation";
  cp_org := demo_issuer_key; cp_iat := 1000; cp_exp := 5000;
  cp_rev := {| epoch := str "2026-01"; idx := 8 |}; cp_extra := [] |}.

Definition demo_keyed : VerifiedCredential :=
  {| vc_payload := demo_keyed_payload; vc_issuer_key := demo_issuer_key;
     vc_raw_jws := match mint_credential demo_keyed_payload (demo_pair 77) with Ok t => t | Raise _ => [] end |}.

Lemma keyed_issuer_self_attests_example :
  verify_credential 1500 60 (default_issuer_key_resolver demo_lookup)
    (default_issuer_authorization_check demo_lookup) (vc_raw_jws demo_keyed) tt = (tt, Ok demo_keyed)
  ∧ cp_org (vc_payload demo_keyed) = cp_iss (vc_payload demo_keyed).
Proof.
  assert (Hv : verify_credential 1500 60 (default_issuer_key_resolver demo_lookup)
    (default_issuer_authorization_check demo_lookup) (vc_raw_jws demo_keyed) tt = (tt, Ok demo_keyed))
    by (vm_compute; reflexivity).
  split; [exact Hv|]. apply (keyed_issuer_self_attests _ _ _ _ _ _ _ Hv). vm_compute. reflexivity.
Qed.

(** A [sub] that is not an identifier leaves the verifier as
    [InvalidIdentifierError], not as the [CredentialError] its callers catch. *)
Lemma bad_subject_escapes :
  let p := {| cp_iss := str "acme.example"; cp_sub := str "nobody"; cp_kind := str "org_affiliation";
              cp_org := str "acme.example"; cp_iat := 1000; cp_exp := 5000;
              cp_rev := {| epoch := str "e"; idx := 0 |}; cp_extra := [] |} in
  (t ← mint_credential p (demo_pair 77); credential_claims 1500 60 t) = Raise InvalidIdentifierError.
Proof. vm_compute. reflexivity. Qed.
