(* ===== verification/Status.v ===== *)
(** * Revocation status lists — [shadownet/status.py]

    The bitstring with its operations, its wire form, fetching and the check
    of a credential.  [gzip] is the interface [Gzip]; the HTTP client is a
    parameter. *)

From S2P Require Import Prelude PyStr PyInt Base64 Http Credential.

(** ** The interface of [gzip] *)

(** [buf[9] = 0xFF], the operating-system byte of the header (RFC 1952). *)
Definition set_os_byte (z : pybytes) : pybytes := <[9%nat := 0xFF]> z.

Class Gzip : Type := {
  gzip_compress : pybytes → pybytes;
  gzip_decompress : pybytes → result pybytes;
  gzip_bytes bs : is_bytes (gzip_compress bs);
  gzip_header bs : (9 < length (gzip_compress bs))%nat;
  (** The operating-system byte carries no data. *)
  gzip_roundtrip bs : is_bytes bs → gzip_decompress (set_os_byte (gzip_compress bs)) = Ok bs;
}.

Definition MAX_STATUS_BODY_BYTES : Z := 8 * 1024 * 1024.

Record StatusList := { bits : pybytes; size : Z }.

Definition empty (size : Z) : StatusList :=
  let size := if size <=? 0 then 8 else size in
  let byte_count := (size + 7) / 8 in
  {| bits := repeat 0 (Z.to_nat byte_count); size := byte_count * 8 |}.

Definition is_revoked (l : StatusList) (i : Z) : result bool :=
  _ ← raise_if ((i <? 0) || (size l <=? i)) StatusListError;
  byte ← of_option IndexError (bits l !! Z.to_nat (i / 8));
  Ok (Z.land (Z.shiftr byte (7 - i mod 8)) 1 =? 1).

Definition with_revoked (l : StatusList) (i : Z) : result StatusList :=
  _ ← raise_if ((i <? 0) || (size l <=? i)) StatusListError;
  byte ← of_option IndexError (bits l !! Z.to_nat (i / 8));
  Ok {| bits := <[Z.to_nat (i / 8) := Z.lor byte (Z.shiftl 1 (7 - i mod 8))]> (bits l); size := size l |}.

Section status.
Context `{PyUnicode} `{Gzip}.

Definition encode_status_list (l : StatusList) : pystr :=
  let compressed := gzip_compress (bits l) in
  _b64u (if 9 <? py_len compressed then set_os_byte compressed else compressed).

Definition is_OSError (e : exn) : bool := bool_decide (e = OSError).

Definition decode_status_list (body : pystr) : result StatusList :=
  let cleaned := strip body in
  _ ← raise_if (bool_decide (cleaned = [])) StatusListError;
  compressed ← rethrow is_ValueError (λ _, StatusListError) (_b64u_decode cleaned);
  raw ← rethrow is_OSError (λ _, StatusListError) (gzip_decompress compressed);
  _ ← raise_if (bool_decide (raw = [])) StatusListError;
  Ok {| bits := raw; size := py_len raw * 8 |}.

Definition build_status_list_url (issuer_domain epoch : pystr) : result pystr :=
  _ ← raise_if (bool_decide (issuer_domain = []) || bool_decide (epoch = [])) StatusListError;
  Ok (str "https://" ++ issuer_domain ++ str "/.well-known/shadownet/status/" ++ epoch).

(** The first [max-age=] directive of the header. *)
Fixpoint max_age_loop (parts : list pystr) : option Z :=
  match parts with
  | [] => None
  | part :: parts =>
      let token := py_lower (strip part) in
      if startswith (str "max-age=") token
      then match py_int (drop 8 token) with Ok n => Some n | Raise _ => None end
      else max_age_loop parts
  end.

Definition _parse_max_age (cache_control : option pystr) : option Z :=
  match cache_control with
  | None | Some [] => None
  | Some s => max_age_loop (split_on 44 s)
  end.

Definition _interpret_status_response (response : Response) : result (StatusList * option Z) :=
  _ ← raise_if (negb (status_code response =? 200)) StatusListError;
  _ ← raise_if (MAX_STATUS_BODY_BYTES <? py_len (List.filter is_ascii (text response))) StatusListError;
  status_list ← decode_status_list (text response);
  Ok (status_list, _parse_max_age (header_get response (str "Cache-Control"))).

(** [http_get] is the client's request, with [Accept: text/plain]. *)
Definition fetch_status_list (http_get : pystr → result Response) (issuer_domain epoch : pystr)
    : result (StatusList * option Z) :=
  url ← build_status_list_url issuer_domain epoch;
  response ← rethrow is_HTTPError (λ _, StatusListError) (http_get url);
  _interpret_status_response response.

Definition afetch_status_list (http_get : pystr → result Response) (issuer_domain epoch : pystr)
    : result (StatusList * option Z) :=
  url ← build_status_list_url issuer_domain epoch;
  response ← rethrow is_HTTPError (λ _, StatusListError) (http_get url);
  _interpret_status_response response.

Definition _raise_if_revoked (credential : VerifiedCredential) (l : StatusList) : result unit :=
  revoked ← is_revoked l (idx (cp_rev (vc_payload credential)));
  raise_if revoked StatusListError.

Definition check_revocation (fetch : pystr → pystr → result (StatusList * option Z))
    (credential : VerifiedCredential) : result unit :=
  let p := vc_payload credential in
  '(status_list, _) ← fetch (cp_iss p) (epoch (cp_rev p));
  _raise_if_revoked credential status_list.

Definition acheck_revocation (fetch : pystr → pystr → result (StatusList * option Z))
    (credential : VerifiedCredential) : result unit :=
  let p := vc_payload credential in
  '(status_list, _) ← fetch (cp_iss p) (epoch (cp_rev p));
  _raise_if_revoked credential status_list.
End status.

(** ** Bits *)

Lemma bit_test b k : 0 ≤ k → (Z.land (Z.shiftr b k) 1 =? 1) = Z.testbit b k.
Proof.
  intros Hk. rewrite Z.testbit_odd. change 1 with (Z.ones 1) at 1. rewrite Z.land_ones by lia.
  change (2 ^ 1) with 2. rewrite Zmod_odd. by destruct (Z.odd _).
Qed.

Lemma set_bit_range b k : 0 ≤ b < 256 → 0 ≤ k < 8 → 0 ≤ Z.lor b (Z.shiftl 1 k) < 256.
Proof.
  intros Hb Hk. split; [apply Z.lor_nonneg; split; [lia|apply Z.shiftl_nonneg; lia]|].
  assert (Z.lor b (Z.shiftl 1 k) = Z.lor b (Z.shiftl 1 k) mod 2 ^ 8) as ->; [|apply Z.mod_pos_bound; lia].
  apply Z.bits_inj'. intros n Hn. destruct (decide (n < 8)) as [Hlt|Hge].
  - by rewrite Z.mod_pow2_bits_low.
  - rewrite Z.mod_pow2_bits_high by lia. rewrite Z.lor_spec, Z.shiftl_spec by lia.
    assert (∀ x, 0 ≤ x < 2 ^ 8 → Z.testbit x n = false) as Hx.
    { intros x Hx. rewrite <-(Z.mod_small x (2 ^ 8)) by done. apply Z.mod_pow2_bits_high. lia. }
    rewrite (Hx b) by lia. destruct (decide (n - k = 0)); [lia|]. simpl.
    rewrite <-(Z.mod_small 1 (2 ^ 1)) by lia. apply Z.mod_pow2_bits_high. lia.
Qed.

Lemma testbit_set b j k : 0 ≤ j → 0 ≤ k →
  Z.testbit (Z.lor b (Z.shiftl 1 j)) k = (k =? j) || Z.testbit b k.
Proof.
  intros Hj Hk. rewrite Z.lor_spec, Z.shiftl_spec by lia. rewrite orb_comm. f_equal.
  destruct (k =? j) eqn:E; bool_prop.
  - subst. by rewrite Z.sub_diag.
  - destruct (decide (k < j)); [apply Z.testbit_neg_r; lia|].
    rewrite <-(Z.mod_small 1 (2 ^ 1)) by lia. apply Z.mod_pow2_bits_high. lia.
Qed.

(** ** The list as a set of revoked indices *)

Definition status_wf (l : StatusList) : Prop := is_bytes (bits l) ∧ size l = py_len (bits l) * 8.
Definition in_range (l : StatusList) (i : Z) : Prop := 0 ≤ i < size l.

Lemma byte_of l i : status_wf l → in_range l i →
  ∃ b, bits l !! Z.to_nat (i / 8) = Some b ∧ 0 ≤ b < 256.
Proof.
  intros [Hb Hs] Hi. unfold in_range in Hi. rewrite Hs in Hi. unfold py_len in Hi.
  destruct (lookup_lt_is_Some_2 (bits l) (Z.to_nat (i / 8))) as [b Hl].
  { apply Nat2Z.inj_lt. rewrite Z2Nat.id; [apply Z.div_lt_upper_bound; lia|apply Z.div_pos; lia]. }
  exists b. split; [done|]. exact (Forall_lookup_1 _ _ _ _ Hb Hl).
Qed.

Lemma is_revoked_spec l i : status_wf l → in_range l i →
  ∃ b, bits l !! Z.to_nat (i / 8) = Some b ∧ is_revoked l i = Ok (Z.testbit b (7 - i mod 8)).
Proof.
  intros Hw Hi. destruct (byte_of l i Hw Hi) as (b & Hl & _). exists b. split; [done|].
  unfold is_revoked, in_range in *. rewrite (proj2 (Z.ltb_ge i 0)), (proj2 (Z.leb_gt _ _)) by lia.
  rewrite Hl. cbn [orb raise_if mbind result_bind of_option].
  rewrite bit_test by (pose proof (Z.mod_pos_bound i 8 ltac:(lia)); lia). done.
Qed.

Lemma with_revoked_spec l i : status_wf l → in_range l i →
  ∃ l', with_revoked l i = Ok l' ∧ status_wf l' ∧ size l' = size l
    ∧ ∀ j, in_range l j → is_revoked l' j = (r ← is_revoked l j; Ok ((j =? i) || r)).
Proof.
  intros Hw Hi. destruct (byte_of l i Hw Hi) as (b & Hl & Hb).
  pose proof (Z.mod_pos_bound i 8 ltac:(lia)) as Hm.
  unfold with_revoked. unfold in_range in Hi. rewrite (proj2 (Z.ltb_ge i 0)), (proj2 (Z.leb_gt _ _)) by lia.
  rewrite Hl. cbn [orb raise_if mbind result_bind of_option].
  set (l' := {| bits := _; size := _ |}). exists l'.
  assert (Hw' : status_wf l').
  { destruct Hw as [Hbs Hs]. split; simpl; [|unfold py_len in *; by rewrite length_insert].
    apply Forall_insert; [done|]. apply set_bit_range; [done|lia]. }
  split_and!; [done|done|done|]. intros j Hj.
  destruct (is_revoked_spec l' j Hw' Hj) as (b' & Hl' & ->).
  destruct (is_revoked_spec l j Hw Hj) as (b1 & Hl1 & ->). cbn [mbind result_bind].
  pose proof (Z.mod_pos_bound j 8 ltac:(lia)). simpl in Hl'. unfold in_range in Hj.
  destruct (decide (Z.to_nat (j / 8) = Z.to_nat (i / 8))) as [Hq|Hq].
  - rewrite Hq in Hl', Hl1. assert (b1 = b) as -> by congruence.
    rewrite list_lookup_insert_eq in Hl' by (by eapply lookup_lt_Some). injection Hl' as <-.
    rewrite testbit_set by lia. do 2 f_equal.
    apply Z2Nat.inj in Hq; [|apply Z.div_pos; lia..].
    destruct (j =? i) eqn:E; bool_prop; [subst; by apply Z.eqb_eq|].
    apply Z.eqb_neq. intros Ht. apply E. rewrite (Z_div_mod_eq_full j 8), (Z_div_mod_eq_full i 8). lia.
  - rewrite list_lookup_insert_ne in Hl' by done. assert (b' = b1) as -> by congruence.
    rewrite (proj2 (Z.eqb_neq j i)); [done|]. congruence.
Qed.

(** [for i in idxs: l = l.with_revoked(i)] *)
Fixpoint revoke_all (l : StatusList) (idxs : list Z) : result StatusList :=
  match idxs with
  | [] => Ok l
  | i :: idxs => l ← with_revoked l i; revoke_all l idxs
  end.

Lemma revoke_all_spec l idxs : status_wf l → Forall (in_range l) idxs →
  ∃ l', revoke_all l idxs = Ok l' ∧ status_wf l' ∧ size l' = size l
    ∧ ∀ j, in_range l j → is_revoked l' j = (r ← is_revoked l j; Ok (bool_decide (j ∈ idxs) || r)).
Proof.
  revert l. induction idxs as [|i idxs IH]; intros l Hw Hi; simpl.
  - exists l. split_and!; [done..|]. intros j Hj. destruct (is_revoked_spec l j Hw Hj) as (b & _ & ->). done.
  - apply Forall_cons in Hi as [Hi His].
    destruct (with_revoked_spec l i Hw Hi) as (l1 & -> & Hw1 & Hs1 & H1). cbn [mbind result_bind].
    destruct (IH l1 Hw1) as (l2 & -> & Hw2 & Hs2 & H2).
    { unfold in_range in *. by rewrite Hs1. }
    exists l2. split_and!; [done|done|congruence|]. intros j Hj.
    rewrite H2 by (unfold in_range in *; by rewrite Hs1). rewrite H1 by done.
    destruct (is_revoked_spec l j Hw Hj) as (b & _ & ->). cbn [mbind result_bind]. f_equal.
    rewrite orb_assoc. f_equal. destruct (j =? i) eqn:E; bool_prop.
    + rewrite orb_true_r. symmetry. apply bool_decide_eq_true. subst. by left.
    + rewrite orb_false_r. apply bool_decide_ext. set_solver.
Qed.

Lemma empty_wf n : status_wf (empty n).
Proof.
  unfold status_wf, empty, py_len. cbn [bits size]. split; [|rewrite repeat_length].
  - apply Forall_forall. intros x Hx%list_elem_of_In%repeat_spec. lia.
  - rewrite Z2Nat.id; [done|]. apply Z.div_pos; [case_match; bool_prop; lia|lia].
Qed.

Lemma empty_range n i : in_range (empty n) i ↔ 0 ≤ i < size (empty n).
Proof. done. Qed.

Lemma empty_size n : 0 < n → n ≤ size (empty n) < n + 8.
Proof.
  intros Hn. unfold empty. cbn [size]. rewrite (proj2 (Z.leb_gt n 0)) by lia.
  Z.to_euclidean_division_equations. lia.
Qed.

Lemma empty_clear n j : in_range (empty n) j → is_revoked (empty n) j = Ok false.
Proof.
  intros Hj. destruct (is_revoked_spec (empty n) j (empty_wf n) Hj) as (b & Hl & ->).
  unfold empty in Hl. cbn [bits] in Hl. apply list_elem_of_lookup_2, list_elem_of_In, repeat_spec in Hl as ->.
  by rewrite Z.testbit_0_l.
Qed.

Lemma is_revoked_range l i b : is_revoked l i = Ok b → in_range l i.
Proof.
  unfold is_revoked, in_range. intros Hr. apply bind_ok in Hr as (? & Hc & _). apply raise_if_ok in Hc.
  bool_prop. lia.
Qed.

(** ** The wire form *)

Section wire.
Context `{PyUnicode} `{Gzip}.

Lemma url_char_not_space c : url_char c = true → is_space c = false.
Proof.
  unfold url_char, is_alnum, is_upper, is_lower, is_num, is_space.
  intros Hc. repeat rewrite orb_true_iff in Hc. rewrite !orb_false_iff, !andb_false_iff, !Z.leb_gt, !Z.eqb_neq.
  destruct Hc as [[[[Hc|Hc]|Hc]|Hc]|Hc]; bool_prop; lia.
Qed.

Lemma strip_b64u bs : is_bytes bs → strip (_b64u bs) = _b64u bs.
Proof.
  intros Hb. pose proof (_b64u_url bs Hb) as Hu. apply strip_id.
  - intros c s' E. rewrite E in Hu. apply Forall_cons in Hu as [Hc _]. by apply url_char_not_space.
  - intros c s' E. rewrite E, Forall_app in Hu. destruct Hu as [_ Hc].
    apply Forall_cons in Hc as [Hc _]. by apply url_char_not_space.
Qed.

Lemma b64u_ne bs : bs ≠ [] → is_bytes bs → _b64u bs ≠ [].
Proof.
  intros Hne Hb E. pose proof (_b64u_roundtrip bs Hb) as Hr. rewrite E in Hr. by injection Hr as <-.
Qed.

Lemma os_byte_bytes bs : is_bytes (set_os_byte (gzip_compress bs)).
Proof. apply Forall_insert; [apply gzip_bytes|lia]. Qed.

Lemma decode_encode_status (l : StatusList) :
  status_wf l → bits l ≠ [] → decode_status_list (encode_status_list l) = Ok l.
Proof.
  intros [Hb Hs] Hne. unfold encode_status_list, decode_status_list, py_len in *.
  pose proof (gzip_header (bits l)) as Hlen.
  rewrite (proj2 (Z.ltb_lt 9 _)) by lia. rewrite strip_b64u by apply os_byte_bytes.
  rewrite bool_decide_eq_false_2; cbn [raise_if mbind result_bind].
  - rewrite _b64u_roundtrip by apply os_byte_bytes. cbn [rethrow mbind result_bind].
    rewrite gzip_roundtrip by done. cbn [rethrow mbind result_bind].
    rewrite bool_decide_eq_false_2 by done. cbn [raise_if mbind result_bind].
    rewrite <-Hs. by destruct l.
  - apply b64u_ne; [|apply os_byte_bytes]. unfold set_os_byte.
    destruct (gzip_compress (bits l)) as [|? ?]; [simpl in Hlen; lia|done].
Qed.

(** Revoking and reading back, for the components that publish lists. *)
Lemma revoked_list_reads (n : Z) (idxs : list Z) :
  0 < n → Forall (λ i, 0 ≤ i < n) idxs →
  ∃ l, revoke_all (empty n) idxs = Ok l ∧ n ≤ size l
    ∧ ∃ l', decode_status_list (encode_status_list l) = Ok l'
    ∧ ∀ j, 0 ≤ j < n → is_revoked l' j = Ok (bool_decide (j ∈ idxs)).
Proof.
  intros Hn Hi. pose proof (empty_size n Hn) as Hsz.
  destruct (revoke_all_spec (empty n) idxs (empty_wf n)) as (l & Hr & Hw & Hs & Hrev).
  { eapply Forall_impl; [exact Hi|]. intros i Hri. unfold in_range. cbn beta in Hri. lia. }
  exists l. split_and!; [done|lia|]. exists l. split.
  - apply decode_encode_status; [done|]. intros E. destruct Hw as [_ Hw]. rewrite E in Hw.
    change (py_len []) with 0 in Hw. lia.
  - intros j Hj. rewrite Hrev, empty_clear by (unfold in_range; lia). cbn [mbind result_bind].
    by rewrite orb_false_r.
Qed.

(** C13: an issuer's list implements a set.  Starting from an empty list of [n]
    entries, revoking indices succeeds while they are in range, and a
    credential's index reads as revoked exactly when it was revoked; the
    published text answers the same. *)
Theorem status_list_is_set (n : Z) (idxs : list Z) :
  0 < n → Forall (λ i, 0 ≤ i < n) idxs →
  ∃ l, revoke_all (empty n) idxs = Ok l ∧ n ≤ size l
    ∧ ∃ l', decode_status_list (encode_status_list l) = Ok l'
    ∧ ∀ j, 0 ≤ j < n → is_revoked l' j = Ok (bool_decide (j ∈ idxs)).
Proof. apply revoked_list_reads. Qed.

(** The bit of an index, most significant bit first. *)
Definition bit_clear (raw : pybytes) (i : Z) : Prop :=
  0 ≤ i ∧ ∃ b, raw !! Z.to_nat (i / 8) = Some b ∧ Z.testbit b (7 - i mod 8) = false.

Lemma unrevoked_bit raw i :
  is_revoked {| bits := raw; size := py_len raw * 8 |} i = Ok false ↔ bit_clear raw i.
Proof.
  unfold is_revoked, bit_clear. cbn [bits size]. pose proof (Z.mod_pos_bound i 8 ltac:(lia)) as Hm. split.
  - intros Hr. apply bind_ok in Hr as (? & Hc & Hr). apply raise_if_ok in Hc. bool_prop.
    apply bind_ok in Hr as (b & Hl & Hr). destruct (raw !! Z.to_nat (i / 8)) as [b'|]; [|done]. injection Hl as ->.
    injection Hr as Hr. rewrite bit_test in Hr by lia. split; [lia|]. by exists b.
  - intros (Hi & b & Hl & Hb). pose proof (lookup_lt_Some _ _ _ Hl) as Hlt. apply Nat2Z.inj_lt in Hlt.
    rewrite Z2Nat.id in Hlt by (apply Z.div_pos; lia). fold (py_len raw) in Hlt.
    assert (i < py_len raw * 8) by (Z.to_euclidean_division_equations; lia).
    rewrite (proj2 (Z.ltb_ge i 0)), (proj2 (Z.leb_gt _ _)) by lia. rewrite Hl.
    cbn [orb raise_if mbind result_bind of_option]. by rewrite bit_test, Hb by lia.
Qed.

(** A list that was fetched, and the answer it came from. *)
Definition fetched_list (http_get : pystr → result Response) (issuer epoch : pystr) (raw : pybytes) : Prop :=
  ∃ resp compressed, issuer ≠ [] ∧ epoch ≠ []
    ∧ http_get (str "https://" ++ issuer ++ str "/.well-known/shadownet/status/" ++ epoch) = Ok resp
    ∧ status_code resp = 200 ∧ py_len (List.filter is_ascii (text resp)) ≤ 8388608
    ∧ strip (text resp) ≠ [] ∧ _b64u_decode (strip (text resp)) = Ok compressed
    ∧ gzip_decompress compressed = Ok raw ∧ raw ≠ [].

Lemma decode_status_ok body l :
  decode_status_list body = Ok l ↔
  ∃ compressed, strip body ≠ [] ∧ _b64u_decode (strip body) = Ok compressed ∧ gzip_decompress compressed = Ok (bits l)
    ∧ bits l ≠ [] ∧ size l = py_len (bits l) * 8.
Proof.
  unfold decode_status_list. split.
  - intros Hd. res_inv. bool_prop. subst. cbn [bits size]. eauto 10.
  - intros (c & Hs & Hc & Hg & Hne & Hsz). rewrite bool_decide_eq_false_2 by done. cbn [raise_if mbind result_bind].
    rewrite Hc. cbn [rethrow mbind result_bind]. rewrite Hg. cbn [rethrow mbind result_bind].
    rewrite bool_decide_eq_false_2 by done. cbn [raise_if mbind result_bind]. rewrite <-Hsz. by destruct l.
Qed.

Lemma fetch_status_ok http_get issuer epoch raw :
  (∃ max_age, fetch_status_list http_get issuer epoch = Ok ({| bits := raw; size := py_len raw * 8 |}, max_age))
  ↔ fetched_list http_get issuer epoch raw.
Proof.
  unfold fetch_status_list, build_status_list_url, _interpret_status_response, fetched_list, MAX_STATUS_BODY_BYTES. split.
  - intros [ma Hf]. res_inv. bool_prop.
    match goal with Hd : decode_status_list _ = Ok _ |- _ => rename Hd into HD end. simplify_eq.
    apply decode_status_ok in HD as (c & ? & ? & ? & ? & _). eexists _, c. split_and!; try done; lia.
  - intros (resp & c & Hi & He & Hg & Hs & Hlen & Ht & Hc & Hz & Hne).
    rewrite !bool_decide_eq_false_2 by done. cbn [orb raise_if mbind result_bind]. rewrite Hg. cbn [rethrow mbind result_bind].
    rewrite (proj2 (Z.eqb_eq _ _) Hs). rewrite (proj2 (Z.ltb_ge _ _)) by lia. cbn [negb raise_if mbind result_bind].
    rewrite (proj2 (decode_status_ok (text resp) {| bits := raw; size := py_len raw * 8 |})); [by eexists|]. eauto 10.
Qed.

Lemma fetched_list_shape http_get issuer epoch l ma :
  fetch_status_list http_get issuer epoch = Ok (l, ma) → l = {| bits := bits l; size := py_len (bits l) * 8 |}.
Proof.
  unfold fetch_status_list, _interpret_status_response. intros Hf. res_inv.
  match goal with Hd : decode_status_list _ = Ok _ |- _ => apply decode_status_ok in Hd as (c & _ & _ & _ & _ & Hs) end.
  simplify_eq. rewrite <-Hs. by destruct l.
Qed.

Lemma check_passes_iff http_get (vc : VerifiedCredential) :
  check_revocation (fetch_status_list http_get) vc = Ok tt ↔
  ∃ raw, fetched_list http_get (cp_iss (vc_payload vc)) (epoch (cp_rev (vc_payload vc))) raw
    ∧ bit_clear raw (idx (cp_rev (vc_payload vc))).
Proof.
  unfold check_revocation, _raise_if_revoked. split.
  - intros Hc. apply bind_ok in Hc as ([l ma] & Hf & Hc). apply bind_ok in Hc as (r & Hr & Hc).
    apply raise_if_ok in Hc as ->. pose proof (fetched_list_shape _ _ _ _ _ Hf) as Hl. rewrite Hl in Hf, Hr.
    exists (bits l). split; [apply fetch_status_ok; by exists ma|by apply unrevoked_bit].
  - intros (raw & Hf & Hb). apply fetch_status_ok in Hf as [ma ->]. cbn [mbind result_bind].
    by rewrite (proj2 (unrevoked_bit _ _) Hb).
Qed.

(** C14: the revocation check fails closed, down to the answer of the issuer's
    host: it passes exactly when the host answered [200] at the well-known
    URL of the issuer and epoch with a body of at most 8 MiB that decodes
    and decompresses to a bitstring which has the byte of the credential's
    index, and the bit of that index, most significant first, is clear in it.
    So, for a list of [n] entries in which the issuer revoked [idxs], a
    credential with an index of the list passes exactly when its index is not
    among them, and is refused with [StatusListError] otherwise. *)
Theorem check_revocation_fails_closed (http_get : pystr → result Response) (vc : VerifiedCredential) :
  let p := vc_payload vc in let i := idx (cp_rev p) in
  let check := check_revocation (fetch_status_list http_get) vc in
  (check = Ok tt ↔ ∃ raw, fetched_list http_get (cp_iss p) (epoch (cp_rev p)) raw ∧ bit_clear raw i)
  ∧ ∀ resp n idxs l, cp_iss p ≠ [] → epoch (cp_rev p) ≠ [] →
      http_get (str "https://" ++ cp_iss p ++ str "/.well-known/shadownet/status/" ++ epoch (cp_rev p)) = Ok resp →
      status_code resp = 200 → py_len (List.filter is_ascii (text resp)) ≤ 8388608 →
      Forall (λ j, 0 ≤ j < n) idxs → revoke_all (empty n) idxs = Ok l → text resp = encode_status_list l →
      0 ≤ i < n → check = if decide (i ∈ idxs) then Raise StatusListError else Ok tt.
Proof.
  intros p i check. split; [apply check_passes_iff|].
  intros resp n idxs l Hiss Hep Hget H200 Hlen Hidxs Hl Htext Hi.
  destruct (revoked_list_reads n idxs) as (l1 & Hl1 & _ & l' & Hdec & Hread); [lia|done|].
  assert (l1 = l) as -> by congruence. pose proof Hdec as (c & Hs & Hc & Hz & Hne & Hsz)%decode_status_ok.
  unfold check, check_revocation, _raise_if_revoked. fold p. fold i.
  destruct (proj2 (fetch_status_ok http_get (cp_iss p) (epoch (cp_rev p)) (bits l'))) as [ma ->].
  { exists resp, c. by rewrite Htext in *. }
  cbn [mbind result_bind]. rewrite <-Hsz. destruct l' as [bs sz]. cbn [bits size] in *.
  rewrite Hread by done. cbn [mbind result_bind]. case_decide.
  - by rewrite bool_decide_eq_true_2.
  - by rewrite bool_decide_eq_false_2.
Qed.
End wire.

(** ** Examples *)

#[local] Existing Instance ascii_unicode.

Definition gzip_magic : pybytes := [31; 139; 8; 0; 0; 0; 0; 0; 0; 3].

(** Stored, uncompressed data behind a header: the laws of [Gzip], without the
    compression. *)
#[local] Obligation Tactic := idtac.
#[program] Definition toy_gzip : Gzip := {|
  gzip_compress bs := gzip_magic ++ map (λ b, b mod 256) bs;
  gzip_decompress z :=
    if bool_decide (length z < 10)%nat then Raise EOFError
    else if bool_decide (take 3 z = take 3 gzip_magic) then Ok (drop 10 z) else Raise OSError;
|}.
Next Obligation.
  intros bs. apply Forall_app. split; [by apply (bool_decide_unpack _)|].
  apply Forall_map, Forall_forall. intros b _. by apply Z.mod_pos_bound.
Qed.
Next Obligation. intros bs. simpl. lia. Qed.
Next Obligation.
  intros bs Hb. simpl. rewrite drop_0. f_equal.
  induction Hb as [|b bs Hb _ IH]; simpl; [done|]. by rewrite Z.mod_small, IH.
Qed.

#[local] Existing Instance toy_gzip.

Lemma status_list_is_set_witness :
  ∃ l, revoke_all (empty 100) [7; 42; 7] = Ok l ∧ 100 ≤ size l
    ∧ ∃ l', decode_status_list (encode_status_list l) = Ok l'
    ∧ ∀ j, 0 ≤ j < 100 → is_revoked l' j = Ok (bool_decide (j ∈ [7; 42; 7])).
Proof. apply status_list_is_set; [lia|]. repeat constructor; lia. Defined.

(** A host that publishes a list of a hundred entries with 7 and 42 revoked, and
    two credentials. *)
Definition published_list : StatusList :=
  match revoke_all (empty 100) [7; 42] with Ok l => l | Raise _ => empty 100 end.
Definition published_answer : Response := {|
  status_code := 200; header_get := λ _, None; text := encode_status_list published_list; content := [];
  json_body := Raise JSONDecodeError |}.
Definition published (url : pystr) : result Response :=
  if bool_decide (url = str "https://acme.example/.well-known/shadownet/status/2026q2") then Ok published_answer
  else Raise HTTPError.
Definition holder (iss : pystr) (i : Z) : VerifiedCredential := {|
  vc_payload := {| cp_iss := iss; cp_sub := str "ann@acme.example"; cp_kind := str "org_affiliation"; cp_org := str "acme.example";
                   cp_iat := 1000; cp_exp := 2000; cp_rev := {| epoch := str "2026q2"; idx := i |}; cp_extra := [] |};
  vc_issuer_key := []; vc_raw_jws := [] |}.

Lemma check_revocation_fails_closed_witness :
  check_revocation (fetch_status_list published) (holder (str "acme.example") 41) = Ok tt
  ∧ check_revocation (fetch_status_list published) (holder (str "acme.example") 42) = Raise StatusListError
  ∧ ¬ bit_clear (repeat 255 13) 41.
Proof.
  assert (∀ i, 0 ≤ i < 100 → check_revocation (fetch_status_list published) (holder (str "acme.example") i)
    = if decide (i ∈ [7; 42]) then Raise StatusListError else Ok tt) as Hc.
  { intros i Hi. refine (proj2 (check_revocation_fails_closed published (holder (str "acme.example") i))
      published_answer 100 [7; 42] published_list _ _ _ eq_refl _ _ _ eq_refl Hi).
    - discriminate.
    - discriminate.
    - vm_compute. reflexivity.
    - vm_compute. discriminate.
    - repeat constructor; lia.
    - vm_compute. reflexivity. }
  split; [|split].
  - rewrite Hc by lia. vm_compute. reflexivity.
  - rewrite Hc by lia. vm_compute. reflexivity.
  - intros (_ & b & Hb & Ht). vm_compute in Hb. injection Hb as <-. discriminate Ht.
Defined.

(** A truncated list: [gzip] reports [EOFError], which is no [OSError], so the
    decoder lets it through. *)
Lemma truncated_list_escapes : decode_status_list (_b64u [31; 139; 8]) = Raise EOFError.
Proof. vm_compute. reflexivity. Qed.

Lemma max_age_examples :
  _parse_max_age (Some (str "public, Max-Age=300")) = Some 300
  ∧ _parse_max_age (Some (str "no-store")) = None ∧ _parse_max_age (Some (str "max-age=x, max-age=1")) = None.
Proof. by vm_compute. Qed.
