(* ===== verification/Trust.v ===== *)
(** * Trust store and acceptance policy — [shadownet/trust.py] *)

From S2P Require Import Prelude PyStr Identifiers Jcs Dicts Crypto Provider Pydantic Credential.

Definition DEFAULT_STRANGER_KINDS : list pystr := [str "org_affiliation"].

Record TrustEntry := { te_issuer : pystr; te_accept : list pystr }.
Record TrustStore := { ts_entries : list TrustEntry }.
Record AcceptancePolicy := { from_contact : list pystr; from_stranger : list pystr }.

(** [_normalize]: the loop over [value] with [seen]. *)
Fixpoint normalize_loop (value seen : list pystr) : list pystr :=
  match value with
  | [] => seen
  | kind :: value => normalize_loop value (if bool_decide (kind ∈ seen) then seen else seen ++ [kind])
  end.
Definition _normalize (value : list pystr) : list pystr := normalize_loop value [].

Definition all_strs (l : list json) : result (list pystr) := mapM (λ v, v_str (Some v)) l.

(** What the "before" validator makes of a decoded value: it iterates over
    lists, over the characters of a string, over the keys of a dictionary. *)
Definition v_accept (v : option json) : result (list pystr) :=
  match v with
  | None => invalid
  | Some v =>
      kinds ← match v with
              | JList l => all_strs l
              | JStr s => Ok (map (λ c, [c]) s)
              | JDict d => Ok (keys d)
              | _ => Raise TypeError
              end;
      match _normalize kinds with [] => invalid | ks => Ok ks end
  end.

Section trust.
Context `{PyUnicode} `{Pydantic}.

Definition no_extras (names : list pystr) (d : pydict) : result unit :=
  match extras names d with [] => Ok tt | _ => invalid end.

Definition TrustEntry_validate (d : pydict) : result TrustEntry :=
  model_validate (str "TrustEntry") d
    (Ok (λ i a _, {| te_issuer := i; te_accept := a |})
     <*> v_after canonicalize_issuer_or_org_identifier (dict_get (str "issuer") d)
     <*> v_accept (dict_get (str "accept") d)
     <*> no_extras [str "issuer"; str "accept"] d).

Definition TrustStore_validate (d : pydict) : result TrustStore :=
  model_validate (str "TrustStore") d
    (Ok (λ es _, {| ts_entries := es |})
     <*> (match dict_get (str "entries") d with
          | None => Ok []
          | Some (JList l) => mapM (λ v, match v with JDict e => TrustEntry_validate e | _ => invalid end) l
          | Some _ => invalid
          end)
     <*> no_extras [str "entries"] d).

Definition TrustStore_dump (s : TrustStore) : pydict :=
  [(str "entries", JList (map (λ e, JDict [(str "issuer", JStr (te_issuer e));
                                           (str "accept", JList (map JStr (te_accept e)))]) (ts_entries s)))].

Definition accepts (s : TrustStore) (issuer kind : pystr) : result bool :=
  match canonicalize_issuer_or_org_identifier issuer with
  | Ok target =>
      Ok (existsb (λ e, bool_decide (te_issuer e = target) && bool_decide (kind ∈ te_accept e)) (ts_entries s))
  | Raise InvalidIdentifierError => Ok false
  | Raise e => Raise e
  end.

Definition v_kinds (dflt : list pystr) (v : option json) : result (list pystr) :=
  match v with None => Ok dflt | Some _ => v_strs v end.

Definition policy_keys : list pystr :=
  [str "fromContact"; str "from_contact"; str "fromStranger"; str "from_stranger"].

(** With both spellings of a field present, the one that is not used is an
    extra key, which is forbidden. *)
Definition both_spellings (alias name : pystr) (d : pydict) : bool :=
  bool_decide (is_Some (dict_get alias d)) && bool_decide (is_Some (dict_get name d)).

Definition AcceptancePolicy_validate (d : pydict) : result AcceptancePolicy :=
  model_validate (str "AcceptancePolicy") d
    (Ok (λ c s _ _, {| from_contact := c; from_stranger := s |})
     <*> v_kinds [] (get_alias (str "fromContact") (str "from_contact") d)
     <*> v_kinds DEFAULT_STRANGER_KINDS (get_alias (str "fromStranger") (str "from_stranger") d)
     <*> no_extras policy_keys d
     <*> (if both_spellings (str "fromContact") (str "from_contact") d
             || both_spellings (str "fromStranger") (str "from_stranger") d
          then invalid else Ok tt)).

(** [model_dump(by_alias=True)] *)
Definition AcceptancePolicy_dump (p : AcceptancePolicy) : pydict :=
  [(str "fromContact", JList (map JStr (from_contact p)));
   (str "fromStranger", JList (map JStr (from_stranger p)))].

Definition required_kinds (p : AcceptancePolicy) (is_contact : bool) : list pystr :=
  if is_contact then from_contact p else from_stranger p.

Definition is_credential_trusted (c : VerifiedCredential) (s : TrustStore) : result bool :=
  accepts s (cp_iss (vc_payload c)) (cp_kind (vc_payload c)).

Fixpoint policy_loop (creds : list VerifiedCredential) (s : TrustStore) (required : list pystr) : result bool :=
  match creds with
  | [] => Ok false
  | c :: creds =>
      trusted ← is_credential_trusted c s;
      if (trusted : bool) && bool_decide (cp_kind (vc_payload c) ∈ required) then Ok true
      else policy_loop creds s required
  end.

Definition satisfies_policy (creds : list VerifiedCredential) (s : TrustStore) (required : list pystr) : result bool :=
  match required with [] => Ok true | _ => policy_loop creds s required end.
End trust.

(** ** Lemmas *)

Lemma normalize_loop_spec value seen :
  NoDup seen → NoDup (normalize_loop value seen)
    ∧ (∀ k, k ∈ normalize_loop value seen ↔ k ∈ seen ∨ k ∈ value).
Proof.
  revert seen. induction value as [|k value IH]; intros seen Hs; simpl; [set_solver|].
  case_bool_decide.
  - destruct (IH seen Hs) as [? Hk]. split; [done|]. intros k'. rewrite Hk. set_solver.
  - destruct (IH (seen ++ [k])) as [? Hk].
    { apply NoDup_app. split_and!; [done| |apply NoDup_singleton]. set_solver. }
    split; [done|]. intros k'. rewrite Hk. set_solver.
Qed.

Lemma normalize_loop_id value seen : NoDup (seen ++ value) → normalize_loop value seen = seen ++ value.
Proof.
  revert seen. induction value as [|k value IH]; intros seen Hn; simpl; [by rewrite app_nil_r|].
  assert (k ∉ seen).
  { apply NoDup_app in Hn as (_ & Hd & _). intros Hk. apply (Hd k Hk). by left. }
  rewrite bool_decide_eq_false_2 by done. rewrite IH; by rewrite <-app_assoc.
Qed.

Lemma v_accept_map l : NoDup l → l ≠ [] → v_accept (Some (JList (map JStr l))) = Ok l.
Proof.
  intros Hn Hne. unfold v_accept, all_strs. pose proof (v_strs_map l) as Hv. cbn [v_strs] in Hv. rewrite Hv.
  cbn [mbind result_bind]. unfold _normalize. rewrite normalize_loop_id by done. simpl. by destruct l.
Qed.

Section trust_lemmas.
Context `{PyUnicode} `{Pydantic}.

Lemma canonicalize_issuer_error v e :
  canonicalize_issuer_or_org_identifier v = Raise e → e = InvalidIdentifierError.
Proof.
  unfold canonicalize_issuer_or_org_identifier, raise_if. case_match.
  - intros E. assert (Hp : parse_public_key v = Raise e) by (unfold parse_public_key; by rewrite E).
    by apply Provider.parse_public_key_error in Hp.
  - unfold _validate_domain, raise_if. intros E.
    apply bind_raise in E as [E|(? & _ & E)]; [by case_match; simplify_eq|].
    apply bind_raise in E as [E|(? & _ & E)]; [by case_match; simplify_eq|done].
Qed.

Lemma accepts_spec s issuer kind :
  ∃ b, accepts s issuer kind = Ok b
    ∧ (b = true ↔ ∃ target e, canonicalize_issuer_or_org_identifier issuer = Ok target
        ∧ e ∈ ts_entries s ∧ te_issuer e = target ∧ kind ∈ te_accept e).
Proof.
  unfold accepts. destruct (canonicalize_issuer_or_org_identifier issuer) as [target|e] eqn:E.
  - eexists. split; [done|]. rewrite existsb_exists. setoid_rewrite <-list_elem_of_In.
    setoid_rewrite andb_true_iff. setoid_rewrite bool_decide_eq_true. naive_solver.
  - apply canonicalize_issuer_error in E as ->. exists false. split; [done|]. naive_solver.
Qed.

(** A credential the store trusts. *)
Definition trusted_by (s : TrustStore) (c : VerifiedCredential) : Prop :=
  ∃ target e, canonicalize_issuer_or_org_identifier (cp_iss (vc_payload c)) = Ok target
    ∧ e ∈ ts_entries s ∧ te_issuer e = target ∧ cp_kind (vc_payload c) ∈ te_accept e.

Lemma policy_loop_spec creds s required :
  ∃ b, policy_loop creds s required = Ok b
    ∧ (b = true ↔ ∃ c, c ∈ creds ∧ trusted_by s c ∧ cp_kind (vc_payload c) ∈ required).
Proof.
  induction creds as [|c creds (b & Hl & Hb)]; simpl.
  - exists false. split; [done|]. set_solver.
  - unfold is_credential_trusted.
    destruct (accepts_spec s (cp_iss (vc_payload c)) (cp_kind (vc_payload c))) as (t & -> & Ht).
    cbn [mbind result_bind]. fold (trusted_by s c) in Ht.
    destruct (t && bool_decide (cp_kind (vc_payload c) ∈ required)) eqn:E.
    + bool_prop. exists true. split; [done|]. split; [intros _; exists c|done]. split_and!; [by left| |done].
      by apply Ht.
    + exists b. split; [done|]. rewrite Hb. split.
      * intros (c' & ? & ? & ?). exists c'. split_and!; [by right|done..].
      * intros (c' & [->|Hin]%elem_of_cons & Htr & Hk); [|by exists c'].
        apply Ht in Htr as ->. by rewrite bool_decide_eq_true_2 in E.
Qed.

(** Section 7.3: a set of verified credentials satisfies a list of required
    kinds exactly when it is empty or one of them is of a required kind and an
    entry of the trust store names its issuer, in canonical form, and accepts
    its kind.  The evaluation never raises. *)
Lemma satisfies_policy_spec creds s required :
  ∃ b, satisfies_policy creds s required = Ok b
    ∧ (b = true ↔ required = [] ∨ ∃ c, c ∈ creds ∧ trusted_by s c ∧ cp_kind (vc_payload c) ∈ required).
Proof.
  unfold satisfies_policy. destruct required as [|k required].
  - exists true. split; [done|]. by split; [left|].
  - destruct (policy_loop_spec creds s (k :: required)) as (b & -> & Hb). exists b. split; [done|].
    rewrite Hb. naive_solver.
Qed.
End trust_lemmas.

(** ** Properties *)

Section trust_properties.
Context `{PyUnicode} `{Pydantic}.

(** The policy survives its wire form (camel-case keys), and so does a trust
    store whose entries are canonical and free of duplicates. *)
Lemma trust_config_roundtrip (p : AcceptancePolicy) (s : TrustStore) :
  Forall (λ e, canonicalize_issuer_or_org_identifier (te_issuer e) = Ok (te_issuer e)
               ∧ te_accept e ≠ [] ∧ NoDup (te_accept e)) (ts_entries s) →
  AcceptancePolicy_validate (AcceptancePolicy_dump p) = Ok p
  ∧ TrustStore_validate (TrustStore_dump s) = Ok s.
Proof.
  intros Hs. split.
  - unfold AcceptancePolicy_validate. apply rethrow_ok. set (d := AcceptancePolicy_dump p).
    assert (get_alias (str "fromContact") (str "from_contact") d = Some (JList (map JStr (from_contact p)))) as -> by done.
    assert (get_alias (str "fromStranger") (str "from_stranger") d = Some (JList (map JStr (from_stranger p)))) as -> by done.
    assert (no_extras policy_keys d = Ok tt) as -> by done.
    assert (both_spellings (str "fromContact") (str "from_contact") d
      || both_spellings (str "fromStranger") (str "from_stranger") d = false) as -> by done.
    unfold v_kinds. rewrite !v_strs_map. by destruct p.
  - unfold TrustStore_validate. apply rethrow_ok. set (d := TrustStore_dump s).
    assert (no_extras [str "entries"] d = Ok tt) as -> by done.
    assert (∀ es, Forall (λ e, canonicalize_issuer_or_org_identifier (te_issuer e) = Ok (te_issuer e)
      ∧ te_accept e ≠ [] ∧ NoDup (te_accept e)) es →
      mapM (λ v, match v with JDict e => TrustEntry_validate e | _ => invalid end)
        (map (λ e, JDict [(str "issuer", JStr (te_issuer e)); (str "accept", JList (map JStr (te_accept e)))]) es)
      = Ok es) as Hm.
    { induction 1 as [|e es (Hi & Hne & Hnd) _ IH]; [done|]. cbn [map mapM].
      assert (TrustEntry_validate [(str "issuer", JStr (te_issuer e));
        (str "accept", JList (map JStr (te_accept e)))] = Ok e) as ->.
      { unfold TrustEntry_validate. apply rethrow_ok.
        change (dict_get (str "issuer") _) with (Some (JStr (te_issuer e))).
        change (dict_get (str "accept") _) with (Some (JList (map JStr (te_accept e)))).
        change (no_extras _ _) with (Ok tt).
        rewrite v_accept_map by done. unfold v_after. cbn [v_str mbind result_bind]. rewrite Hi. simpl.
        by destruct e. }
      cbn [mbind result_bind]. by rewrite IH. }
    change (dict_get (str "entries") d) with (Some (JList (map (λ e, JDict [(str "issuer", JStr (te_issuer e));
      (str "accept", JList (map JStr (te_accept e)))]) (ts_entries s)))).
    cbv iota. rewrite Hm by done. by destruct s.
Qed.
End trust_properties.

#[local] Existing Instance ascii_unicode.
#[local] Existing Instance strict_pydantic.

Definition demo_store : TrustStore :=
  {| ts_entries := [{| te_issuer := str "hr.acme.example"; te_accept := [str "org_affiliation"] |}] |}.

Lemma satisfies_policy_example : satisfies_policy [demo_verified] demo_store DEFAULT_STRANGER_KINDS = Ok true.
Proof. vm_compute. reflexivity. Qed.

(** [accept] given as one string is taken apart into its characters. *)
Lemma accept_string_is_split :
  te_accept <$> TrustEntry_validate [(str "issuer", JStr (str "a.example")); (str "accept", JStr (str "aba"))]
  = Ok [str "a"; str "b"].
Proof. vm_compute. reflexivity. Qed.
