(* ===== verification/Envelope.v ===== *)
(** * Envelopes — [shadownet/envelope.py]

    The envelope model, the message hash that binds it to the carried A2A
    message, minting and verification.  [verify_envelope]'s error messages are
    kept, because the receiver decides by their text. *)

From S2P Require Import Prelude PyStr Base64 Multibase Identifiers Jcs Dicts Sha256 PyRepr Crypto.
From S2P Require Import Pydantic Credential.

Definition ENVELOPE_TYP : pystr := str "shadownet-env+jwt".
Definition ENVELOPE_EXTENSION_URI : pystr := str "urn:shadownet:0.2".
Definition ENV_MAX_LIFETIME_SECONDS : Z := 300.
Definition DEFAULT_LEEWAY_SECONDS : Z := 60.

(** ** The model *)

Record EnvelopeBody := {
  eb_text : option pystr;
  eb_intent : option pystr;
  eb_data : option pydict;
  eb_extra : pydict;
}.

Record EnvelopePayload := {
  ep_v : pystr;
  ep_sender : pystr;
  ep_recipient : pystr;
  ep_iat : Z;
  ep_exp : Z;
  ep_msg_hash : pystr;
  ep_body : EnvelopeBody;
  ep_creds : list pystr;
  ep_extra : pydict;
}.

Section payload.
Context `{PyUnicode} `{Pydantic}.

Definition body_fields : list pystr := [str "text"; str "intent"; str "data"].

Definition EnvelopeBody_validate (v : option json) : result EnvelopeBody :=
  match v with
  | Some (JDict d) =>
      Ok (λ t i x, {| eb_text := t; eb_intent := i; eb_data := x; eb_extra := extras body_fields d |})
      <*> v_optional v_str (dict_get (str "text") d)
      <*> v_optional v_str (dict_get (str "intent") d)
      <*> v_optional v_dict (dict_get (str "data") d)
  | _ => invalid
  end.

(** [^0\.2$] and [^sha256:[A-Za-z0-9_-]+$], with [$] the end of the text. *)
Definition v_pattern_02 (s : pystr) : bool := bool_decide (s = str "0.2").
Definition msg_hash_pattern (s : pystr) : bool :=
  startswith (str "sha256:") s && negb (bool_decide (drop 7 s = [])) && forallb url_char (drop 7 s).

(** The keys the fields of [d] were taken from: the alias where it is
    present, else the name. *)
Definition taken (alias name : pystr) (d : pydict) : pystr :=
  match dict_get alias d with Some _ => alias | None => name end.
Definition env_fields (d : pydict) : list pystr :=
  [str "v"; taken (str "from") (str "sender") d; taken (str "to") (str "recipient") d; str "iat"; str "exp";
   taken (str "msgHash") (str "msg_hash") d; str "body"; str "creds"].

Definition EnvelopePayload_validate (d : pydict) : result EnvelopePayload :=
  model_validate (str "EnvelopePayload") d
    (Ok (λ v sender recipient iat exp msg_hash body creds,
           {| ep_v := v; ep_sender := sender; ep_recipient := recipient; ep_iat := iat; ep_exp := exp;
              ep_msg_hash := msg_hash; ep_body := body; ep_creds := creds;
              ep_extra := extras (env_fields d) d |})
     <*> v_pattern v_pattern_02 (dict_get (str "v") d)
     <*> v_after canonicalize_identifier (get_alias (str "from") (str "sender") d)
     <*> v_after canonicalize_identifier (get_alias (str "to") (str "recipient") d)
     <*> v_nat (dict_get (str "iat") d)
     <*> v_nat (dict_get (str "exp") d)
     <*> v_pattern msg_hash_pattern (get_alias (str "msgHash") (str "msg_hash") d)
     <*> EnvelopeBody_validate (dict_get (str "body") d)
     <*> v_strs (dict_get (str "creds") d)).

(** [exclude_none]: fields and extra values that are [None] are left out. *)
Definition some_entry (k : pystr) (v : option json) : pydict :=
  match v with Some v => [(k, v)] | None => [] end.
Definition not_none (d : pydict) : pydict := List.filter (λ kv, match kv.2 with JNull => false | _ => true end) d.

Definition EnvelopeBody_dump (b : EnvelopeBody) : pydict :=
  some_entry (str "text") (JStr <$> eb_text b) ++ some_entry (str "intent") (JStr <$> eb_intent b)
  ++ some_entry (str "data") (JDict <$> eb_data b) ++ not_none (eb_extra b).

(** [payload.model_dump(by_alias=True, exclude_none=True)] *)
Definition EnvelopePayload_dump (p : EnvelopePayload) : pydict :=
  [(str "v", JStr (ep_v p)); (str "from", JStr (ep_sender p)); (str "to", JStr (ep_recipient p));
   (str "iat", JInt (ep_iat p)); (str "exp", JInt (ep_exp p)); (str "msgHash", JStr (ep_msg_hash p));
   (str "body", JDict (EnvelopeBody_dump (ep_body p))); (str "creds", JList (map JStr (ep_creds p)))]
  ++ not_none (ep_extra p).
End payload.

(** ** The message hash *)

Definition hashed_keys : list pystr :=
  [str "messageId"; str "role"; str "parts"; str "contextId"; str "taskId"].

(** The canonical input: five fields where present, then the metadata without
    the envelope.  [metadata.items()] needs a dictionary. *)
Definition canonical_input (message : pydict) : result pydict :=
  let picked := foldl (λ acc k, match dict_get k message with
                                | Some v => dict_set k v acc
                                | None => acc
                                end) [] hashed_keys in
  match dict_get (str "metadata") message with
  | None => Ok picked
  | Some (JDict metadata) =>
      Ok (dict_set (str "metadata")
            (JDict (dict_filter (λ k, negb (bool_decide (k = ENVELOPE_EXTENSION_URI))) metadata)) picked)
  | Some _ => Raise AttributeError
  end.

Definition compute_msg_hash (message : pydict) : result pystr :=
  input ← canonical_input message;
  bytes ← canonicalize (JDict input);
  Ok (str "sha256:" ++ _b64u (sha256 bytes)).

(** ** Minting and verification *)

Section envelope.
Context `{PyUnicode} `{Pydantic} `{PyJWT}.

Definition mint_envelope (payload : EnvelopePayload) (subject_key : Ed25519KeyPair) : result pystr :=
  _ ← raise_if (ENV_MAX_LIFETIME_SECONDS <? ep_exp payload - ep_iat payload)
        (EnvelopeError (str "envelope lifetime exceeds 300 seconds (exp - iat = "
                        ++ dec (ep_exp payload - ep_iat payload) ++ str "s)"));
  _ ← raise_if (ep_exp payload <=? ep_iat payload) (EnvelopeError (str "envelope exp must be greater than iat"));
  let claims := EnvelopePayload_dump payload in
  let claims := match ep_creds payload with
                | [] => dict_filter (λ k, negb (bool_decide (k = str "creds"))) claims
                | _ => claims
                end in
  sign_jwt claims subject_key (Some [(str "typ", JStr ENVELOPE_TYP); (str "kid", JStr (ep_sender payload))]).

(** [envelope.py]'s own copy of the compact-JWS check. *)
Definition env_verify_jws_signature (token : pystr) (key : Ed25519KeyPair) : result unit :=
  match split_on 46 token with
  | [p0; p1; p2] =>
      signing_input ← encode_ascii (p0 ++ [46] ++ p1);
      sig ← _b64u_decode p2;
      verify key sig signing_input
  | _ => Raise (JWTError (str "malformed JWS compact serialization"))
  end.

Definition verify_envelope (token : pystr) (sender_key : Ed25519KeyPair) (expected_recipient : pystr)
    (now leeway : Z) : result EnvelopePayload :=
  header ← rethrow is_JWTError (λ e, EnvelopeError (str "invalid JWS header: " ++ exn_text e))
             (decode_header token);
  _ ← raise_if (negb (get_is_str (str "typ") ENVELOPE_TYP header))
        (EnvelopeError (str "typ must be " ++ repr_str ENVELOPE_TYP ++ str ", got " ++ repr_get (str "typ") header));
  _ ← raise_if (negb (get_is_str (str "alg") (str "EdDSA") header))
        (EnvelopeError (str "alg must be EdDSA, got " ++ repr_get (str "alg") header));
  unverified ← rethrow is_JWTError (λ e, EnvelopeError (str "unable to decode envelope claims: " ++ exn_text e))
                 (decode_unverified_claims token);
  payload ← rethrow is_ValidationError (λ e, EnvelopeError (str "envelope payload invalid: " ++ exn_text e))
              (EnvelopePayload_validate unverified);
  _ ← raise_if (negb (get_is_str (str "kid") (ep_sender payload) header))
        (EnvelopeError (str "kid must equal from (" ++ repr_str (ep_sender payload) ++ str "), got "
                        ++ repr_get (str "kid") header));
  _ ← raise_if (negb (bool_decide (ep_recipient payload = expected_recipient)))
        (EnvelopeError (str "envelope to=" ++ repr_str (ep_recipient payload) ++ str " does not match this URL ("
                        ++ repr_str expected_recipient ++ str ")"));
  _ ← raise_if (ENV_MAX_LIFETIME_SECONDS <? ep_exp payload - ep_iat payload)
        (EnvelopeError (str "envelope lifetime exceeds 300 seconds"));
  _ ← raise_if (ep_exp payload <? now - leeway) (EnvelopeError (str "envelope expired"));
  _ ← raise_if (now + leeway <? ep_iat payload) (EnvelopeError (str "envelope iat in the future"));
  _ ← rethrow is_EdSignatureError (λ e, EnvelopeError (str "signature verification failed: " ++ exn_text e))
        (env_verify_jws_signature token sender_key);
  Ok payload.
End envelope.

(** ** Lemmas *)

Section envelope_lemmas.
Context `{PyUnicode} `{Pydantic} `{PyJWT}.

(** What a verified envelope guarantees. *)
Lemma verify_envelope_ok token key recipient now leeway p :
  verify_envelope token key recipient now leeway = Ok p →
  ∃ header claims,
    pyjwt_header token = Ok header ∧ get_is_str (str "typ") ENVELOPE_TYP header = true
    ∧ get_is_str (str "alg") (str "EdDSA") header = true ∧ get_is_str (str "kid") (ep_sender p) header = true
    ∧ pyjwt_claims token = Ok claims ∧ EnvelopePayload_validate claims = Ok p
    ∧ ep_recipient p = recipient ∧ ep_exp p - ep_iat p ≤ 300
    ∧ ep_iat p - leeway ≤ now ≤ ep_exp p + leeway
    ∧ jws_signed_by (public_bytes key) token.
Proof.
  unfold verify_envelope. intros Hv. res_inv. bool_prop.
  rewrite decode_header_ok, decode_unverified_claims_ok in *.
  match goal with Hs : env_verify_jws_signature _ _ = Ok _ |- _ => apply verify_jws_ok in Hs end.
  unfold ENV_MAX_LIFETIME_SECONDS in *. eexists _, _. split_and!; [done..|lia|lia|done].
Qed.

(** Whoever verifies a token, and whenever: the payload is the same. *)
Lemma verified_payload_unique token k1 k2 r1 r2 n1 n2 l1 l2 p1 p2 :
  verify_envelope token k1 r1 n1 l1 = Ok p1 → verify_envelope token k2 r2 n2 l2 = Ok p2 → p1 = p2.
Proof.
  intros (? & c1 & _ & _ & _ & _ & Hc1 & Hp1 & _)%verify_envelope_ok (? & c2 & _ & _ & _ & _ & Hc2 & Hp2 & _)%verify_envelope_ok.
  congruence.
Qed.

Lemma validate_fields d p :
  EnvelopePayload_validate d = Ok p →
  ep_v p = str "0.2" ∧ 0 ≤ ep_iat p ∧ 0 ≤ ep_exp p ∧ msg_hash_pattern (ep_msg_hash p) = true
  ∧ (∃ raw, get_alias (str "from") (str "sender") d = Some (JStr raw) ∧ canonicalize_identifier raw = Ok (ep_sender p))
  ∧ (∃ raw, get_alias (str "to") (str "recipient") d = Some (JStr raw)
      ∧ canonicalize_identifier raw = Ok (ep_recipient p)).
Proof.
  unfold EnvelopePayload_validate. intros Hv. field_inv. cbn [ep_v ep_iat ep_exp ep_msg_hash ep_sender ep_recipient].
  repeat match goal with
  | Hf : v_pattern _ _ = Ok _ |- _ => apply v_pattern_ok in Hf as [_ Hf]
  | Hf : v_after _ _ = Ok _ |- _ => apply v_after_ok in Hf
  | Hf : v_nat _ = Ok _ |- _ => apply v_nat_ok in Hf
  end.
  unfold v_pattern_02 in *. bool_prop. split_and!; done.
Qed.
End envelope_lemmas.

(** The fields the hash covers: lookups in the canonical input. *)
Lemma picked_get (ks : list pystr) k m (acc : pydict) :
  dict_get k (foldl (λ acc k, match dict_get k m with Some v => dict_set k v acc | None => acc end) acc ks)
  = if bool_decide (k ∈ ks) then match dict_get k m with Some v => Some v | None => dict_get k acc end
    else dict_get k acc.
Proof.
  revert acc. induction ks as [|k' ks IH]; intros acc; cbn [foldl]; [done|].
  rewrite IH. destruct (decide (k = k')) as [->|Hne].
  - rewrite (bool_decide_eq_true_2 (k' ∈ k' :: ks)) by (by left).
    destruct (dict_get k' m) as [v|]; [|by case_bool_decide].
    rewrite dict_get_set, (bool_decide_eq_true_2 (k' = k')) by done. by case_bool_decide.
  - rewrite (bool_decide_ext (k ∈ k' :: ks) (k ∈ ks)) by set_solver.
    destruct (dict_get k' m) as [v|]; [|done]. by rewrite dict_get_set, (bool_decide_eq_false_2 (k = k')).
Qed.

Lemma picked_keys (ks : list pystr) m (acc : pydict) :
  NoDup (keys acc) →
  NoDup (keys (foldl (λ acc k, match dict_get k m with Some v => dict_set k v acc | None => acc end) acc ks)).
Proof.
  revert acc. induction ks as [|k ks IH]; intros acc Hn; cbn [foldl]; [done|].
  apply IH. destruct (dict_get k m); [by apply keys_set_NoDup|done].
Qed.

Lemma picked_wf (ks : list pystr) m (acc : pydict) :
  wf_json (JDict m) = true → Forall wf_str ks → wf_json (JDict acc) = true →
  wf_json (JDict (foldl (λ acc k, match dict_get k m with Some v => dict_set k v acc | None => acc end) acc ks)) = true.
Proof.
  intros Hm Hks. revert acc. induction Hks as [|k ks Hk _ IH]; intros acc Ha; cbn [foldl]; [done|].
  apply IH. destruct (dict_get k m) eqn:E; [|done]. apply wf_json_set; [done|apply Hk|]. exact (wf_json_get k m _ Hm E).
Qed.

Lemma canonical_input_wf m input :
  canonical_input m = Ok input → wf_json (JDict m) = true → wf_json (JDict input) = true.
Proof.
  unfold canonical_input. intros Hi Hm.
  assert (Hp := picked_wf hashed_keys m [] Hm).
  ospecialize (Hp _ _). { repeat apply Forall_cons_2; try wf_lit. apply Forall_nil_2. } { done. }
  destruct (dict_get (str "metadata") m) as [[]|] eqn:E; try done; res_inv; try done.
  apply wf_json_set; [done| |].
  - apply wf_str_ascii, forallb_Forall. reflexivity.
  - apply wf_json_filter. exact (wf_json_get _ m _ Hm E).
Qed.

Lemma canonical_input_get m input k :
  canonical_input m = Ok input → k ∈ hashed_keys → dict_get k input = dict_get k m.
Proof.
  intros Hi Hk. unfold canonical_input in Hi.
  assert (Hp : dict_get k (foldl (λ acc k, match dict_get k m with Some v => dict_set k v acc | None => acc end) [] hashed_keys)
    = dict_get k m).
  { rewrite picked_get, bool_decide_eq_true_2 by done. by destruct (dict_get k m). }
  destruct (dict_get (str "metadata") m) as [[]|] eqn:E; try done; res_inv; try done.
  rewrite dict_get_set, bool_decide_eq_false_2; [done|]. intros ->.
  revert Hk. apply (bool_decide_unpack _). by vm_compute.
Qed.

(** The metadata the hash covers: without the envelope itself. *)
Definition hashed_metadata (m : pydict) : option json :=
  match dict_get (str "metadata") m with
  | Some (JDict d) => Some (JDict (dict_filter (λ k, negb (bool_decide (k = ENVELOPE_EXTENSION_URI))) d))
  | _ => None
  end.

Lemma canonical_input_metadata m input :
  canonical_input m = Ok input → dict_get (str "metadata") input = hashed_metadata m.
Proof.
  intros Hi. unfold canonical_input, hashed_metadata in *.
  destruct (dict_get (str "metadata") m) as [[]|] eqn:E; try done; res_inv.
  - by rewrite dict_get_set, bool_decide_eq_true_2.
  - rewrite picked_get, bool_decide_eq_false_2; [done|]. apply (bool_decide_unpack _). by vm_compute.
Qed.

Lemma msg_hash_bytes m h :
  compute_msg_hash m = Ok h →
  ∃ input bs, canonical_input m = Ok input ∧ canonicalize (JDict input) = Ok bs
    ∧ h = str "sha256:" ++ _b64u (sha256 bs).
Proof. unfold compute_msg_hash. intros Hm. res_inv. eauto. Qed.

(** What the hash of [m] is taken of, and two messages for which these byte strings
    are a SHA-256 collision. *)
Definition hashed_bytes (m : pydict) (bs : pybytes) : Prop :=
  ∃ input, canonical_input m = Ok input ∧ canonicalize (JDict input) = Ok bs.
Definition hash_collision (m1 m2 : pydict) : Prop :=
  ∃ bs1 bs2, hashed_bytes m1 bs1 ∧ hashed_bytes m2 bs2 ∧ bs1 ≠ bs2 ∧ sha256 bs1 = sha256 bs2.

Lemma no_self_collision m : ¬ hash_collision m m.
Proof. intros (bs1 & bs2 & (i1 & H1 & B1) & (i2 & H2 & B2) & Hne & _). congruence. Qed.

Lemma picked_ext (ks : list pystr) m m' (acc : pydict) :
  Forall (λ k, dict_get k m = dict_get k m') ks →
  foldl (λ acc k, match dict_get k m with Some v => dict_set k v acc | None => acc end) acc ks
  = foldl (λ acc k, match dict_get k m' with Some v => dict_set k v acc | None => acc end) acc ks.
Proof.
  intros Hk. revert acc. induction Hk as [|k ks Hk _ IH]; intros acc; cbn [foldl]; [done|]. by rewrite Hk, IH.
Qed.

Lemma canonical_input_attach m metadata jws :
  dict_get (str "metadata") m = Some (JDict metadata) →
  canonical_input (dict_set (str "metadata") (JDict (dict_set ENVELOPE_EXTENSION_URI (JStr jws) metadata)) m)
  = canonical_input m.
Proof.
  intros Hm. unfold canonical_input. rewrite Hm, dict_get_set, bool_decide_eq_true_2 by done.
  rewrite dict_filter_set by (by rewrite bool_decide_eq_true_2).
  do 2 f_equal. apply picked_ext. repeat apply Forall_cons_2; try apply Forall_nil_2;
    by rewrite dict_get_set, bool_decide_eq_false_2.
Qed.

Lemma msg_hash_binds (m1 m2 : pydict) (h : pystr) :
  wf_json (JDict m1) = true → wf_json (JDict m2) = true →
  compute_msg_hash m1 = Ok h → compute_msg_hash m2 = Ok h →
  hash_collision m1 m2
  ∨ ((∀ k, k ∈ [str "messageId"; str "role"; str "parts"; str "contextId"; str "taskId"] →
        norm <$> dict_get k m1 = norm <$> dict_get k m2)
     ∧ norm <$> hashed_metadata m1 = norm <$> hashed_metadata m2).
Proof.
  intros W1 W2 H1 H2.
  apply msg_hash_bytes in H1 as (i1 & b1 & Hi1 & Hb1 & ->), H2 as (i2 & b2 & Hi2 & Hb2 & Hh).
  apply app_inv_head, _b64u_inj in Hh; [|apply sha256_bytes..].
  destruct (decide (b1 = b2)) as [->|Hne]; [right|left; exists b1, b2; split_and!; [by exists i1|by exists i2|done..]].
  pose proof (canonical_input_wf _ _ Hi1 W1) as Wi1. pose proof (canonical_input_wf _ _ Hi2 W2) as Wi2.
  pose proof (proj1 (canonicalize_eq _ _ _ Wi1 Wi2 Hb1) Hb2) as Hn.
  assert (Hget : ∀ k, norm <$> dict_get k i1 = norm <$> dict_get k i2).
  { intros k. apply norm_dict_get; [split; [done|by eapply canonicalize_encodable]..|done]. }
  split.
  - intros k Hk. by rewrite <-(canonical_input_get _ _ k Hi1 Hk), <-(canonical_input_get _ _ k Hi2 Hk).
  - by rewrite <-(canonical_input_metadata _ _ Hi1), <-(canonical_input_metadata _ _ Hi2).
Qed.

(** ** Properties *)

(** C11: the hash binds the message: if two messages have the same [msgHash],
    either the canonical encodings of these two messages are a SHA-256 collision
    (different, with the same digest), or the messages agree
    (up to the order of dictionary keys) on every field the hash covers:
    [messageId], [role], [parts], [contextId], [taskId], and the metadata
    other than the envelope. *)
Theorem msg_hash_binding (m1 m2 : pydict) (h : pystr) :
  wf_json (JDict m1) = true → wf_json (JDict m2) = true →
  compute_msg_hash m1 = Ok h → compute_msg_hash m2 = Ok h →
  hash_collision m1 m2
  ∨ ((∀ k, k ∈ [str "messageId"; str "role"; str "parts"; str "contextId"; str "taskId"] →
        norm <$> dict_get k m1 = norm <$> dict_get k m2)
     ∧ norm <$> hashed_metadata m1 = norm <$> hashed_metadata m2).
Proof. apply msg_hash_binds. Qed.

(** The envelope can be attached after hashing: writing it into the metadata
    of a message that has metadata leaves the hash as it was. *)
Lemma msg_hash_ignores_envelope (m metadata : pydict) (jws : pystr) :
  dict_get (str "metadata") m = Some (JDict metadata) →
  compute_msg_hash (dict_set (str "metadata") (JDict (dict_set ENVELOPE_EXTENSION_URI (JStr jws) metadata)) m)
  = compute_msg_hash m.
Proof. intros Hm. unfold compute_msg_hash. by rewrite canonical_input_attach. Qed.

Section envelope_properties.
Context `{PyUnicode} `{Pydantic} `{PyJWT}.

(** C10: an envelope that verifies names its sender in the [kid] of a header of
    the envelope type, is addressed to this recipient, lives at most 300
    seconds, is current up to the leeway, and is signed by the key it was
    checked against; its payload is the validated claims, with a canonical
    sender and version 0.2. *)
Theorem verify_envelope_sound (token : pystr) (key : Ed25519KeyPair) (recipient : pystr) (now leeway : Z)
    (p : EnvelopePayload) :
  verify_envelope token key recipient now leeway = Ok p →
  (∃ header claims raw,
    pyjwt_header token = Ok header ∧ get_is_str (str "typ") (str "shadownet-env+jwt") header = true
    ∧ get_is_str (str "alg") (str "EdDSA") header = true ∧ get_is_str (str "kid") (ep_sender p) header = true
    ∧ pyjwt_claims token = Ok claims ∧ get_alias (str "from") (str "sender") claims = Some (JStr raw)
    ∧ canonicalize_identifier raw = Ok (ep_sender p))
  ∧ ep_v p = str "0.2" ∧ ep_recipient p = recipient
  ∧ ep_exp p - ep_iat p ≤ 300 ∧ ep_iat p - leeway ≤ now ≤ ep_exp p + leeway
  ∧ jws_signed_by (public_bytes key) token.
Proof.
  intros (header & claims & Hh & Ht & Ha & Hk & Hc & Hv & Hr & Hl & Hw & Hs)%verify_envelope_ok.
  apply validate_fields in Hv as (Hv & _ & _ & _ & (raw & Hraw & Hcan) & _).
  split; [|done]. exists header, claims, raw. split_and!; assumption.
Qed.
End envelope_properties.

Section envelope_roundtrip.
Context `{PyUnicode} `{Pydantic} `{PyJWTLaws}.

Definition body_canonical (b : EnvelopeBody) : Prop :=
  Forall (λ k, k ∉ body_fields) (keys (eb_extra b)) ∧ not_none (eb_extra b) = eb_extra b.

Definition envelope_canonical (p : EnvelopePayload) : Prop :=
  ep_v p = str "0.2" ∧ canonicalize_identifier (ep_sender p) = Ok (ep_sender p)
  ∧ canonicalize_identifier (ep_recipient p) = Ok (ep_recipient p)
  ∧ 0 ≤ ep_iat p ∧ ep_iat p < ep_exp p ≤ ep_iat p + 300
  ∧ msg_hash_pattern (ep_msg_hash p) = true
  ∧ body_canonical (ep_body p) ∧ not_none (ep_extra p) = ep_extra p
  ∧ (dict_get (str "iss") (ep_extra p) = None ∨ ∃ iss, get_str (str "iss") (ep_extra p) = Some iss)
  ∧ well_formed (JDict (EnvelopePayload_dump p)).

Lemma extras_get_none (ks : list pystr) k d : Forall (λ k, k ∉ ks) (keys d) → k ∈ ks → dict_get k d = None.
Proof.
  intros Hd Hk. apply dict_get_none. intros Hin. rewrite Forall_forall in Hd. by apply (Hd k).
Qed.

Lemma body_validate_dump b :
  body_canonical b → EnvelopeBody_validate (Some (JDict (EnvelopeBody_dump b))) = Ok b.
Proof.
  intros [He Hn]. unfold EnvelopeBody_dump. rewrite Hn. destruct b as [t i x e]. cbn [eb_text eb_intent eb_data eb_extra] in *.
  unfold EnvelopeBody_validate.
  assert (Hx : extras body_fields (some_entry (str "text") (JStr <$> t) ++ some_entry (str "intent") (JStr <$> i)
    ++ some_entry (str "data") (JDict <$> x) ++ e) = e).
  { rewrite !extras_app, (extras_none _ e) by done. destruct t, i, x; done. }
  assert (Hg : ∀ k, k ∈ body_fields → dict_get k e = None) by (intros k Hk; by eapply extras_get_none).
  rewrite Hx. assert (Ht := Hg (str "text") ltac:(by left)). assert (Hi := Hg (str "intent") ltac:(right; by left)).
  assert (Hd := Hg (str "data") ltac:(right; right; by left)). rewrite !dict_get_app.
  rewrite Ht, Hi, Hd. by destruct t, i, x.
Qed.

Lemma get_str_is k d s : get_str k d = Some s → get_is_str k s d = true.
Proof.
  unfold get_str, get_is_str, json_is_str. repeat case_match; try done. intros [= ->]. by apply bool_decide_eq_true.
Qed.

(** The claims [mint_envelope] signs. *)
Definition minted_claims (p : EnvelopePayload) : pydict :=
  match ep_creds p with
  | [] => dict_filter (λ k, negb (bool_decide (k = str "creds"))) (EnvelopePayload_dump p)
  | _ => EnvelopePayload_dump p
  end.

Lemma minted_claims_wf p : well_formed (JDict (EnvelopePayload_dump p)) → well_formed (JDict (minted_claims p)).
Proof.
  intros Hw. unfold minted_claims. destruct (ep_creds p); [|done]. destruct Hw as [Hw He]. split; [by apply wf_json_filter|].
  cbn [encodable] in *. apply forallb_forall. intros kv Hin. rewrite forallb_forall in He. apply He.
  unfold dict_filter in Hin. apply filter_In in Hin. by destruct Hin.
Qed.

Definition field_entries (p : EnvelopePayload) : pydict := take 7 (EnvelopePayload_dump p).

(** Without credentials the claims are the other seven fields and the extra
    ones; with them, the whole dump. *)
Lemma minted_claims_form p : well_formed (JDict (EnvelopePayload_dump p)) →
  minted_claims p = field_entries p
    ++ (match ep_creds p with [] => [] | cs => [(str "creds", JList (map JStr cs))] end) ++ not_none (ep_extra p)
  ∧ (str "creds" ∉ keys (not_none (ep_extra p))) ∧ Forall (λ k, k ∉ keys (take 8 (EnvelopePayload_dump p))) (keys (not_none (ep_extra p))).
Proof.
  intros [_ Hn]%well_formed_entries.
  assert (Hd : EnvelopePayload_dump p = take 8 (EnvelopePayload_dump p) ++ not_none (ep_extra p)) by done.
  rewrite Hd in Hn. unfold keys in Hn. rewrite map_app, NoDup_app in Hn. destruct Hn as (_ & Hn & _).
  assert (Hx : Forall (λ k, k ∉ keys (take 8 (EnvelopePayload_dump p))) (keys (not_none (ep_extra p)))).
  { apply Forall_forall. intros k Hk Hk'. by apply (Hn k). }
  assert (Hc : str "creds" ∉ keys (not_none (ep_extra p))).
  { intros Hin. rewrite Forall_forall in Hx. apply (Hx _ Hin). apply (bool_decide_unpack _). by vm_compute. }
  split_and!; [|done|done]. unfold minted_claims, field_entries. destruct (ep_creds p) as [|c cs] eqn:Ec.
  - unfold EnvelopePayload_dump at 1. unfold dict_filter. rewrite List.filter_app.
    assert (List.filter (λ kv : pystr * json, negb (bool_decide (kv.1 = str "creds"))) (not_none (ep_extra p))
      = not_none (ep_extra p)) as ->; [|done].
    clear -Hc. induction (not_none (ep_extra p)) as [|[k v] e IH]; simpl in *; [done|].
    rewrite not_elem_of_cons in Hc. rewrite bool_decide_eq_false_2 by naive_solver. simpl. f_equal. apply IH. naive_solver.
  - unfold EnvelopePayload_dump. by rewrite Ec.
Qed.

Lemma validate_minted p : envelope_canonical p → EnvelopePayload_validate (minted_claims p) = Ok p.
Proof.
  intros (Hv & Hs & Hr & Hi & He & Hh & Hb & Hx & _ & Hw).
  destruct (minted_claims_form p Hw) as (-> & Hc & Hf). rewrite Hx in *.
  unfold EnvelopePayload_validate. apply rethrow_ok.
  set (cr := match ep_creds p with [] => [] | _ => _ end). set (d := field_entries p ++ cr ++ ep_extra p).
  assert (Hex : extras (env_fields d) d = ep_extra p).
  { change (env_fields d) with (keys (take 8 (EnvelopePayload_dump p))). unfold d.
    rewrite !extras_app, (extras_none _ (ep_extra p)) by done.
    assert (extras (keys (take 8 (EnvelopePayload_dump p))) (field_entries p) = []) as -> by done.
    assert (extras (keys (take 8 (EnvelopePayload_dump p))) cr = []) as ->; [|done].
    unfold cr. by destruct (ep_creds p). }
  rewrite Hex.
  assert (dict_get (str "v") d = Some (JStr (ep_v p))) as -> by done.
  assert (get_alias (str "from") (str "sender") d = Some (JStr (ep_sender p))) as -> by done.
  assert (get_alias (str "to") (str "recipient") d = Some (JStr (ep_recipient p))) as -> by done.
  assert (dict_get (str "iat") d = Some (JInt (ep_iat p))) as -> by done.
  assert (dict_get (str "exp") d = Some (JInt (ep_exp p))) as -> by done.
  assert (get_alias (str "msgHash") (str "msg_hash") d = Some (JStr (ep_msg_hash p))) as -> by done.
  assert (dict_get (str "body") d = Some (JDict (EnvelopeBody_dump (ep_body p)))) as -> by done.
  assert (v_strs (dict_get (str "creds") d) = Ok (ep_creds p)) as ->.
  { unfold d. rewrite !dict_get_app. change (dict_get (str "creds") (field_entries p)) with (@None json).
    cbv iota. unfold cr. destruct (ep_creds p) as [|c cs]; cbn [dict_get].
    - by rewrite (proj2 (dict_get_none _ _) Hc).
    - rewrite bool_decide_eq_true_2 by done. apply v_strs_map. }
  rewrite body_validate_dump, !v_nat_int by first [done | lia].
  unfold v_pattern, v_after. cbn [v_str mbind result_bind]. rewrite Hs, Hr, Hh. rewrite Hv. simpl.
  destruct p. simpl in *. by subst.
Qed.

Lemma mint_envelope_verifies (p : EnvelopePayload) (sk : ed_secret) :
  envelope_canonical p →
  ∃ token, mint_envelope p (generate sk) = Ok token
    ∧ (∃ hd claims, decode_header token = Ok hd ∧ decode_unverified_claims token = Ok claims
        ∧ get_str (str "kid") hd = Some (ep_sender p) ∧ get_str (str "from") claims = Some (ep_sender p)
        ∧ get_str (str "to") claims = Some (ep_recipient p))
    ∧ ∀ key now leeway, public_bytes key = ed_public sk →
        ep_iat p - leeway ≤ now ≤ ep_exp p + leeway →
        env_verify_jws_signature token key = Ok tt ∧ verify_envelope token key (ep_recipient p) now leeway = Ok p.
Proof.
  intros Hp. pose proof (validate_minted p Hp) as Hval.
  destruct Hp as (_ & Hs & _ & Hi & He & _ & _ & Hx & Hiss & Hw).
  assert (Hws : wf_str (ep_sender p)).
  { apply well_formed_entries in Hw as [Hw _]. apply Forall_cons in Hw as [_ Hw].
    apply Forall_cons in Hw as [[_ Hw] _]. by apply well_formed_str. }
  destruct (sign_jwt_spec (minted_claims p) (generate sk) sk ENVELOPE_TYP [(str "kid", JStr (ep_sender p))])
    as (token & hd & Hsign & Hhd & Hcl & Hver & Htyp & Halg & Hkid);
    try first [done | wf_lit | by wf_dict].
  { split; [by apply minted_claims_wf|]. destruct (minted_claims_form p Hw) as (-> & _ & _). rewrite Hx.
    assert (dict_get (str "iss") (field_entries p ++ match ep_creds p with [] => [] | cs => [(str "creds", JList (map JStr cs))] end
      ++ ep_extra p) = dict_get (str "iss") (ep_extra p)) as Eg by (rewrite !dict_get_app; by destruct (ep_creds p)).
    unfold get_str in *. by rewrite Eg. }
  { right. by exists (ep_sender p). }
  specialize (Hkid _ eq_refl). exists token. split_and!.
  - unfold mint_envelope. rewrite !raise_if_false; [exact Hsign| |].
    + apply Z.ltb_ge. unfold ENV_MAX_LIFETIME_SECONDS. lia.
    + apply Z.leb_gt. lia.
  - exists hd, (minted_claims p). destruct (minted_claims_form p Hw) as (E & _ & _).
    split_and!; [done..|by rewrite E|by rewrite E].
  - intros key now leeway Hk Hnow. rewrite (Hver key Hk : env_verify_jws_signature token key = Ok tt).
    unfold verify_envelope. rewrite Hhd. cbn [rethrow mbind result_bind].
    rewrite !(get_str_is _ _ _ Htyp), !(get_str_is _ _ _ Halg). cbn [raise_if negb mbind result_bind].
    rewrite Hcl. cbn [rethrow mbind result_bind]. rewrite Hval. cbn [rethrow mbind result_bind].
    rewrite (get_str_is _ _ _ Hkid).
    rewrite (Hver key Hk : env_verify_jws_signature token key = Ok tt).
    split; [done|]. unfold ENV_MAX_LIFETIME_SECONDS. rewrite !raise_if_false; [done|..];
      first [by rewrite bool_decide_eq_true_2 | apply Z.ltb_ge; lia | done].
Qed.

(** What a sender mints verifies at the recipient it names, for the whole
    lifetime of the envelope, and comes back as the payload that was
    signed. *)
Lemma mint_verify_envelope (p : EnvelopePayload) (sk : ed_secret) :
  envelope_canonical p →
  ∃ token, mint_envelope p (generate sk) = Ok token
    ∧ ∀ key now leeway, public_bytes key = ed_public sk →
        ep_iat p - leeway ≤ now ≤ ep_exp p + leeway →
        verify_envelope token key (ep_recipient p) now leeway = Ok p.
Proof.
  intros (token & Hm & _ & Hv)%(mint_envelope_verifies _ sk). exists token. split; [done|].
  intros key now leeway Hk Hn. by destruct (Hv key now leeway Hk Hn).
Qed.
End envelope_roundtrip.

(** ** Examples *)

#[local] Existing Instance ascii_unicode.
#[local] Existing Instance strict_pydantic.
#[local] Existing Instance toy_ed25519.
#[local] Existing Instance toy_jwt.
#[local] Existing Instance toy_jwt_laws.

Definition demo_message : pydict :=
  [(str "messageId", JStr (str "M1")); (str "role", JStr (str "ROLE_USER"));
   (str "parts", JList [JDict [(str "text", JStr (str "hello"))]]);
   (str "extensions", JList [JStr ENVELOPE_EXTENSION_URI]); (str "metadata", JDict [(str "trace", JInt 7)])].

Definition demo_hash : pystr := match compute_msg_hash demo_message with Ok h => h | Raise _ => [] end.

(** A key on its own is an identifier, so the sender is in direct mode. *)
Definition demo_sender : pystr :=
  match encode_public_key (public_bytes (demo_pair 5)) with Ok k => k | Raise _ => [] end.

Definition demo_envelope : EnvelopePayload := {|
  ep_v := str "0.2"; ep_sender := demo_sender; ep_recipient := str "bob@acme.example";
  ep_iat := 2000; ep_exp := 2200; ep_msg_hash := demo_hash;
  ep_body := {| eb_text := Some (str "hello"); eb_intent := None; eb_data := None; eb_extra := [] |};
  ep_creds := [demo_token]; ep_extra := [] |}.

Definition demo_jws : pystr := match mint_envelope demo_envelope (demo_pair 5) with Ok t => t | Raise _ => [] end.

Definition demo_verifier : Ed25519KeyPair := {| public_bytes := public_bytes (demo_pair 5); _private := None |}.

Lemma demo_envelope_canonical : envelope_canonical demo_envelope.
Proof.
  unfold envelope_canonical, body_canonical. split_and!;
    first [vm_compute; reflexivity | vm_compute; congruence | apply Forall_nil_2 | left; reflexivity
          | apply well_formed_dec; vm_compute; reflexivity].
Qed.

Lemma verify_envelope_sound_witness :
  verify_envelope demo_jws demo_verifier (str "bob@acme.example") 2100 60 = Ok demo_envelope
  ∧ ep_exp demo_envelope - ep_iat demo_envelope ≤ 300.
Proof.
  assert (Hv : verify_envelope demo_jws demo_verifier (str "bob@acme.example") 2100 60 = Ok demo_envelope)
    by (vm_compute; reflexivity).
  split; [exact Hv|]. apply (verify_envelope_sound _ _ _ _ _ _ Hv).
Defined.

Lemma msg_hash_binding_witness :
  hash_collision demo_message (rev demo_message)
  ∨ ((∀ k, k ∈ [str "messageId"; str "role"; str "parts"; str "contextId"; str "taskId"] →
        norm <$> dict_get k demo_message = norm <$> dict_get k (rev demo_message))
     ∧ norm <$> hashed_metadata demo_message = norm <$> hashed_metadata (rev demo_message)).
Proof. apply (msg_hash_binding _ _ demo_hash); vm_compute; reflexivity. Defined.

(** A float anywhere in the hashed part makes the hash raise [JcsError]. *)
Lemma float_has_no_hash :
  compute_msg_hash [(str "parts", JList [JFloat {| float_truthy := true; float_repr := str "1.5" |}])] = Raise JcsError.
Proof. reflexivity. Qed.
