(* ===== verification/A2A.v ===== *)
(** * A2A binding — [shadownet/a2a.py]

    The wire errors and their problem documents, the A2A message model, the
    sender's message construction and request, the interpretation of a
    response, and the receiver's extraction of the envelope. *)

From S2P Require Import Prelude PyStr Base64 Multibase Identifiers Jcs Dicts Sha256 PyRepr Crypto.
From S2P Require Import Pydantic Credential Envelope Http.

Definition A2A_MEDIA_TYPE : pystr := str "application/a2a+json".
Definition A2A_VERSION : pystr := str "1.0".
Definition PROBLEM_JSON_MEDIA_TYPE : pystr := str "application/problem+json".

(** ** Wire errors *)

(** An error instance: its class and [str(self)]. *)
Record WireError := { we_class : wire_class; we_text : pystr }.

Definition code (c : wire_class) : pystr :=
  match c with
  | ParseError => str "parse_error" | SignatureError => str "signature"
  | CredsRequiredError => str "creds_required" | CredsRejectedError => str "creds_rejected"
  | PolicyError => str "policy" | ReplayError => str "replay"
  | UnknownRecipientError => str "unknown_recipient" | RateLimitedError => str "rate_limited"
  end.

Definition http_status (c : wire_class) : Z :=
  match c with
  | ParseError => 400 | SignatureError => 401 | CredsRequiredError => 401 | CredsRejectedError => 403
  | PolicyError => 403 | ReplayError => 409 | UnknownRecipientError => 404 | RateLimitedError => 429
  end.

(** The class's docstring. *)
Definition class_doc (c : wire_class) : pystr :=
  match c with
  | ParseError => str "A2A request, envelope JWS, payload, or msgHash invalid."
  | SignatureError => str "Envelope signature does not validate."
  | CredsRequiredError => str "No cached credentials for sender; sender SHOULD retry with creds."
  | CredsRejectedError => str "Credentials present but none satisfy receiver policy."
  | PolicyError => str "Receiver policy rejects this sender."
  | ReplayError => str "(from, messageId) already seen."
  | UnknownRecipientError => str "to is not served by this URL."
  | RateLimitedError => str "Rate limit hit."
  end.

Definition urn_prefix : pystr := str "urn:shadownet:error:".

Definition problem_body (e : WireError) (detail : option pystr) (include_detail : bool) : pydict :=
  let body := [(str "type", JStr (urn_prefix ++ code (we_class e)));
               (str "title", JStr (strip (class_doc (we_class e))));
               (str "status", JInt (http_status (we_class e)))] in
  match detail with
  | Some d => dict_set (str "detail") (JStr d) body
  | None =>
      if include_detail && negb (bool_decide (we_text e = []))
      then dict_set (str "detail") (JStr (we_text e)) body else body
  end.

Definition all_classes : list wire_class :=
  [ParseError; SignatureError; CredsRequiredError; CredsRejectedError; PolicyError; ReplayError;
   UnknownRecipientError; RateLimitedError].

(** [WIRE_ERROR_REGISTRY.get(code)] *)
Definition WIRE_ERROR_REGISTRY (c : pystr) : option wire_class :=
  find (λ cls, bool_decide (code cls = c)) all_classes.

Definition problem_response (e : WireError) (detail : option pystr) (include_detail : bool)
    : Z * pydict * list (pystr * pystr) :=
  (http_status (we_class e), problem_body e detail include_detail,
   [(str "Content-Type", PROBLEM_JSON_MEDIA_TYPE); (str "A2A-Extensions", ENVELOPE_EXTENSION_URI)]).

Section problem.
Context `{PyUnicode}.

Definition wire_error_from_problem (body : pydict) : WireError :=
  let raw := default (JStr []) (dict_get (str "type") body) in
  match raw with
  | JStr s =>
      if startswith urn_prefix s then
        let c := drop (length urn_prefix) s in
        match WIRE_ERROR_REGISTRY c with
        | None => {| we_class := ParseError; we_text := str "unknown error code: " ++ repr_str c |}
        | Some cls => {| we_class := cls; we_text := default (class_doc cls) (get_str (str "detail") body) |}
        end
      else {| we_class := ParseError; we_text := str "unrecognized error type: " ++ repr_str s |}
  | v => {| we_class := ParseError; we_text := str "unrecognized error type: " ++ repr v |}
  end.
End problem.

(** ** Messages *)

Record A2AMessage := {
  am_message_id : pystr;
  am_role : pystr;
  am_parts : list pydict;
  am_context_id : option pystr;
  am_task_id : option pystr;
  am_extensions : list pystr;
  am_metadata : pydict;
  am_extra : pydict;
}.

(** [model_dump(exclude_none=True, by_alias=True)] *)
Definition A2AMessage_dump (m : A2AMessage) : pydict :=
  [(str "messageId", JStr (am_message_id m)); (str "role", JStr (am_role m));
   (str "parts", JList (map JDict (am_parts m)))]
  ++ some_entry (str "contextId") (JStr <$> am_context_id m)
  ++ some_entry (str "taskId") (JStr <$> am_task_id m)
  ++ [(str "extensions", JList (map JStr (am_extensions m))); (str "metadata", JDict (am_metadata m))]
  ++ not_none (am_extra m).

(** [{k: v for k, v in out.items() if v != [] or k == "parts"}] *)
Definition to_wire (m : A2AMessage) : pydict :=
  List.filter (λ kv, match kv.2 with JList [] => bool_decide (kv.1 = str "parts") | _ => true end) (A2AMessage_dump m).

Definition v_list {A} (f : json → result A) (v : option json) : result (list A) :=
  match v with
  | None => Ok []
  | Some (JList l) => mapM f l
  | Some _ => invalid
  end.

Section message_model.
Context `{Pydantic}.

Definition a2a_fields (d : pydict) : list pystr :=
  [taken (str "messageId") (str "message_id") d; str "role"; str "parts";
   taken (str "contextId") (str "context_id") d; taken (str "taskId") (str "task_id") d;
   str "extensions"; str "metadata"].

Definition A2AMessage_validate (d : pydict) : result A2AMessage :=
  model_validate (str "A2AMessage") d
    (Ok (λ i r p c t e m, {| am_message_id := i; am_role := r; am_parts := p; am_context_id := c; am_task_id := t;
                             am_extensions := e; am_metadata := m; am_extra := extras (a2a_fields d) d |})
     <*> v_str (get_alias (str "messageId") (str "message_id") d)
     <*> v_str (dict_get (str "role") d)
     <*> v_list (λ v, v_dict (Some v)) (dict_get (str "parts") d)
     <*> v_optional v_str (get_alias (str "contextId") (str "context_id") d)
     <*> v_optional v_str (get_alias (str "taskId") (str "task_id") d)
     <*> v_list (λ v, v_str (Some v)) (dict_get (str "extensions") d)
     <*> (match dict_get (str "metadata") d with None => Ok [] | v => v_dict v end)).
End message_model.

(** [message_id or _new_id()]; [fresh] is the identifier [_new_id] would draw. *)
Definition or_new_id (message_id : option pystr) (fresh : pystr) : pystr :=
  match message_id with
  | Some (c :: s) => c :: s
  | _ => fresh
  end.

Definition build_outbound_message (fresh : pystr) (body_text context_id task_id : option pystr)
    (extra_metadata : option pydict) (message_id : option pystr) : A2AMessage := {|
  am_message_id := or_new_id message_id fresh;
  am_role := str "ROLE_USER";
  am_parts := match body_text with Some t => [[(str "text", JStr t)]] | None => [] end;
  am_context_id := context_id;
  am_task_id := task_id;
  am_extensions := [ENVELOPE_EXTENSION_URI];
  am_metadata := default [] extra_metadata;
  am_extra := [];
|}.

Record BuiltMessage := {
  bm_message : pydict;
  bm_envelope_jws : pystr;
  bm_envelope_payload : EnvelopePayload;
}.

(** [payload_template.model_copy(update={"msg_hash": h})] *)
Definition with_msg_hash (p : EnvelopePayload) (h : pystr) : EnvelopePayload := {|
  ep_v := ep_v p; ep_sender := ep_sender p; ep_recipient := ep_recipient p; ep_iat := ep_iat p; ep_exp := ep_exp p;
  ep_msg_hash := h; ep_body := ep_body p; ep_creds := ep_creds p; ep_extra := ep_extra p |}.

(** [x or {}] for a value used as a dictionary. *)
Definition or_dict (v : option json) : json :=
  match v with Some v => if truthy v then v else JDict [] | None => JDict [] end.

Section a2a.
Context `{PyUnicode} `{Pydantic} `{PyJWT}.

Definition build_and_sign_message (message : A2AMessage) (payload_template : EnvelopePayload)
    (sender_key : Ed25519KeyPair) : result BuiltMessage :=
  let raw := to_wire message in
  msg_hash ← compute_msg_hash raw;
  let final_payload := with_msg_hash payload_template msg_hash in
  envelope_jws ← mint_envelope final_payload sender_key;
  let metadata := match or_dict (dict_get (str "metadata") raw) with JDict d => d | _ => [] end in
  Ok {| bm_message := dict_set (str "metadata") (JDict (dict_set ENVELOPE_EXTENSION_URI (JStr envelope_jws) metadata)) raw;
        bm_envelope_jws := envelope_jws;
        bm_envelope_payload := final_payload |}.

Definition _send_envelope_request (built : BuiltMessage) (agent_url : pystr)
    : pystr * pydict * list (pystr * pystr) :=
  (rstrip_char 47 agent_url ++ str "/message:send",
   [(str "message", JDict (bm_message built))],
   [(str "Content-Type", A2A_MEDIA_TYPE); (str "Accept", A2A_MEDIA_TYPE); (str "A2A-Version", A2A_VERSION);
    (str "A2A-Extensions", ENVELOPE_EXTENSION_URI)]).

Definition is_JSONDecodeError (e : exn) : bool := bool_decide (e = JSONDecodeError).

Definition _interpret_response (response : Response) : result A2AMessage :=
  if status_code response =? 200 then
    body ← rethrow is_JSONDecodeError (λ _, Wire ParseError) (json_body response);
    message ← of_option (Wire ParseError) (match body with JDict b => get_dict (str "message") b | _ => None end);
    rethrow (λ _, true) (λ _, Wire ParseError) (A2AMessage_validate message)
  else if startswith PROBLEM_JSON_MEDIA_TYPE (default [] (header_get response (str "Content-Type"))) then
    body ← rethrow is_JSONDecodeError (λ _, Wire ParseError) (json_body response);
    Raise (Wire (we_class (wire_error_from_problem (match body with JDict b => b | _ => [] end))))
  else Raise (Wire ParseError).

(** [http_post url body headers] is the client's request. *)
Definition send_envelope (http_post : pystr → pydict → list (pystr * pystr) → result Response)
    (built : BuiltMessage) (agent_url : pystr) : result A2AMessage :=
  let '(url, body, headers) := _send_envelope_request built agent_url in
  response ← rethrow is_HTTPError (λ _, TransportError) (http_post url body headers);
  _interpret_response response.

Definition asend_envelope (http_post : pystr → pydict → list (pystr * pystr) → result Response)
    (built : BuiltMessage) (agent_url : pystr) : result A2AMessage :=
  let '(url, body, headers) := _send_envelope_request built agent_url in
  response ← rethrow is_HTTPError (λ _, TransportError) (http_post url body headers);
  _interpret_response response.

(** ** The receiver's side *)

(** [request_body] is a decoded JSON body. *)
Definition extract_envelope_jws (request_body : json) : result (pystr * pydict) :=
  message ← of_option (Wire ParseError) (match request_body with JDict b => get_dict (str "message") b | _ => None end);
  _ ← raise_if (match dict_get (str "extensions") message with
                | Some (JList l) => negb (existsb (json_is_str ENVELOPE_EXTENSION_URI) l)
                | _ => true
                end) (Wire ParseError);
  metadata ← of_option (Wire ParseError)
               (match or_dict (dict_get (str "metadata") message) with JDict d => Some d | _ => None end);
  envelope ← of_option (Wire ParseError) (get_str ENVELOPE_EXTENSION_URI metadata);
  _ ← raise_if (negb (count_char 46 envelope =? 2)) (Wire ParseError);
  Ok (envelope, message).

Definition build_acceptance_response (fresh : pystr) (context_id : option pystr) (text : pystr)
    (message_id : option pystr) : pydict :=
  [(str "message", JDict ([(str "messageId", JStr (or_new_id message_id fresh)); (str "role", JStr (str "ROLE_AGENT"));
                           (str "parts", JList [JDict [(str "text", JStr text)]])]
                          ++ some_entry (str "contextId") (JStr <$> context_id)))].

Definition acceptance_headers : list (pystr * pystr) :=
  [(str "Content-Type", A2A_MEDIA_TYPE); (str "A2A-Extensions", ENVELOPE_EXTENSION_URI)].
End a2a.

(** ** Lemmas *)

Lemma registry_code c : WIRE_ERROR_REGISTRY (code c) = Some c.
Proof. by destruct c. Qed.

Lemma drop_prefix {A} (p s : list A) : drop (length p) (p ++ s) = s.
Proof. apply drop_app_length. Qed.

Lemma problem_type e detail inc :
  dict_get (str "type") (problem_body e detail inc) = Some (JStr (urn_prefix ++ code (we_class e))).
Proof. unfold problem_body. destruct detail; [done|]. by case_match. Qed.

Lemma problem_detail e d inc : get_str (str "detail") (problem_body e (Some d) inc) = Some d.
Proof. done. Qed.

Lemma from_problem_class `{PyUnicode} e detail inc :
  we_class (wire_error_from_problem (problem_body e detail inc)) = we_class e.
Proof.
  unfold wire_error_from_problem. rewrite problem_type. cbn [from_option id]. rewrite startswith_app, drop_prefix.
  by rewrite registry_code.
Qed.

Lemma split_count sep s : py_len (split_on sep s) = count_char sep s + 1.
Proof.
  unfold py_len, count_char, py_len. induction s as [|c s IH]; [done|]. cbn [split_on List.filter].
  rewrite Z.eqb_sym. destruct (sep =? c); cbn [length]; [lia|].
  pose proof (split_on_ne sep s). destruct (split_on sep s); [done|]. cbn [length] in *. lia.
Qed.

Lemma jws_two_dots `{Ed25519} token key : env_verify_jws_signature token key = Ok tt → count_char 46 token = 2.
Proof.
  unfold env_verify_jws_signature. pose proof (split_count 46 token) as Hc. unfold py_len in Hc.
  destruct (split_on 46 token) as [|? [|? [|? [|]]]]; try done. cbn [length] in Hc. lia.
Qed.

Lemma to_wire_metadata m : dict_get (str "metadata") (to_wire m) = Some (JDict (am_metadata m)).
Proof.
  unfold to_wire, A2AMessage_dump.
  by destruct (am_parts m), (am_context_id m), (am_task_id m), (am_extensions m).
Qed.

Lemma to_wire_extensions m e es : am_extensions m = e :: es →
  dict_get (str "extensions") (to_wire m) = Some (JList (map JStr (am_extensions m))).
Proof.
  intros E. unfold to_wire, A2AMessage_dump. rewrite E. by destruct (am_parts m), (am_context_id m), (am_task_id m).
Qed.

(** ** Properties *)

Section a2a_properties.
Context `{PyUnicode} `{Pydantic} `{PyJWTLaws}.

(** Errors cross the wire: whatever error class a receiver answers with, in
    a problem document with or without detail, is the class the sender's
    [_interpret_response] raises; and the default document is the same for
    all errors of a class, so it tells the sender nothing else. *)
Lemma problem_roundtrip (e e' : WireError) (detail : option pystr) (inc : bool) (r : Response) :
  let '(status, body, headers) := problem_response e detail inc in
  status_code r = status → json_body r = Ok (JDict body) →
  header_get r (str "Content-Type") = Some (str "application/problem+json") →
  _interpret_response r = Raise (Wire (we_class e))
  ∧ (we_class e' = we_class e → problem_body e' None false = problem_body e None false).
Proof.
  unfold problem_response. intros Hs Hj Hh. split.
  - unfold _interpret_response. rewrite Hs, Hj, Hh.
    assert ((http_status (we_class e) =? 200) = false) as -> by (by destruct (we_class e)).
    cbn [from_option id]. change (startswith _ _) with true. cbn [rethrow mbind result_bind].
    by rewrite from_problem_class.
  - unfold problem_body. by intros ->.
Qed.

(** What the receiver finds in a message the sender built. *)
Lemma build_and_sign_ok (m : A2AMessage) (template : EnvelopePayload) (sk : ed_secret) (h : pystr) :
  ENVELOPE_EXTENSION_URI ∈ am_extensions m →
  compute_msg_hash (to_wire m) = Ok h → envelope_canonical (with_msg_hash template h) →
  ∃ built, build_and_sign_message m template (generate sk) = Ok built
    ∧ bm_envelope_payload built = with_msg_hash template h
    ∧ extract_envelope_jws (JDict [(str "message", JDict (bm_message built))])
      = Ok (bm_envelope_jws built, bm_message built)
    ∧ compute_msg_hash (bm_message built) = Ok h
    ∧ (∀ k, k ≠ str "metadata" → dict_get k (bm_message built) = dict_get k (to_wire m))
    ∧ (∃ hd claims, decode_header (bm_envelope_jws built) = Ok hd
        ∧ decode_unverified_claims (bm_envelope_jws built) = Ok claims
        ∧ get_str (str "kid") hd = Some (ep_sender template) ∧ get_str (str "from") claims = Some (ep_sender template)
        ∧ get_str (str "to") claims = Some (ep_recipient template))
    ∧ ∀ key now leeway, public_bytes key = ed_public sk →
        ep_iat template - leeway ≤ now ≤ ep_exp template + leeway →
        verify_envelope (bm_envelope_jws built) key (ep_recipient template) now leeway
        = Ok (bm_envelope_payload built).
Proof.
  intros Hext Hh Hcan. destruct (mint_envelope_verifies _ sk Hcan) as (token & Hm & Hdec & Hv).
  unfold build_and_sign_message. rewrite Hh. cbn [mbind result_bind]. rewrite Hm. cbn [mbind result_bind].
  rewrite to_wire_metadata.
  assert ((match or_dict (Some (JDict (am_metadata m))) with JDict d => d | _ => [] end) = am_metadata m) as ->
    by (simpl; by destruct (am_metadata m)).
  eexists. split; [done|]. cbn [bm_message bm_envelope_jws bm_envelope_payload]. split_and!; [done|..].
  - destruct (Hv (generate sk) (ep_iat template) 0 eq_refl) as [Hs _].
    { destruct Hcan as (_ & _ & _ & _ & Ht & _). cbn in *. lia. }
    unfold extract_envelope_jws, get_dict. set (msg := dict_set _ _ _).
    assert (dict_get (str "message") [(str "message", JDict msg)] = Some (JDict msg)) as -> by done.
    cbn [of_option mbind result_bind]. subst msg. rewrite !dict_get_set.
    rewrite (bool_decide_eq_false_2 (str "extensions" = _)), (bool_decide_eq_true_2 (str "metadata" = _)) by done.
    destruct (am_extensions m) as [|x xs] eqn:Ex; [by apply not_elem_of_nil in Hext|].
    rewrite (to_wire_extensions m x xs), Ex by done.
    assert (existsb (json_is_str ENVELOPE_EXTENSION_URI) (map JStr (x :: xs)) = true) as ->.
    { apply existsb_exists. exists (JStr ENVELOPE_EXTENSION_URI). split; [|by apply bool_decide_eq_true].
      by apply in_map, list_elem_of_In. }
    cbn [negb raise_if mbind result_bind]. unfold or_dict, truthy.
    set (md := dict_set ENVELOPE_EXTENSION_URI (JStr token) (am_metadata m)).
    assert (Hmd : dict_get ENVELOPE_EXTENSION_URI md = Some (JStr token))
      by (unfold md; by rewrite dict_get_set, bool_decide_eq_true_2).
    destruct md as [|kv md'] eqn:Emd; [done|]. rewrite <-Emd in *. cbn [of_option mbind result_bind].
    unfold get_str. rewrite Hmd. cbn [of_option mbind result_bind]. by rewrite (jws_two_dots _ _ Hs).
  - unfold compute_msg_hash at 1. rewrite canonical_input_attach by apply to_wire_metadata. exact Hh.
  - intros k Hk. rewrite dict_get_set. by rewrite bool_decide_eq_false_2.
  - exact Hdec.
  - intros key now leeway Hk Hn. by apply Hv.
Qed.

(** Sender to receiver: the message [build_and_sign_message] produces is one
    from which the receiver extracts the very envelope that was signed; the
    hash the receiver recomputes over the received message is the hash in
    the envelope, and the envelope verifies during its lifetime under the
    sender's key. *)
Lemma built_message_verifies (m : A2AMessage) (template : EnvelopePayload) (sk : ed_secret) (h : pystr) :
  ENVELOPE_EXTENSION_URI ∈ am_extensions m →
  compute_msg_hash (to_wire m) = Ok h → envelope_canonical (with_msg_hash template h) →
  ∃ built, build_and_sign_message m template (generate sk) = Ok built
    ∧ extract_envelope_jws (JDict [(str "message", JDict (bm_message built))])
      = Ok (bm_envelope_jws built, bm_message built)
    ∧ compute_msg_hash (bm_message built) = Ok (ep_msg_hash (bm_envelope_payload built))
    ∧ ∀ key now leeway, public_bytes key = ed_public sk →
        ep_iat template - leeway ≤ now ≤ ep_exp template + leeway →
        verify_envelope (bm_envelope_jws built) key (ep_recipient template) now leeway
        = Ok (bm_envelope_payload built).
Proof.
  intros Hext Hh Hcan. destruct (build_and_sign_ok m template sk h Hext Hh Hcan)
    as (built & Hb & Hp & He & Hhash & _ & _ & Hv).
  exists built. split_and!; try done. by rewrite Hp.
Qed.
End a2a_properties.

(** ** Examples *)

#[local] Existing Instance ascii_unicode.
#[local] Existing Instance strict_pydantic.
#[local] Existing Instance toy_ed25519.
#[local] Existing Instance toy_jwt.
#[local] Existing Instance toy_jwt_laws.

Definition demo_error : WireError := {| we_class := ReplayError; we_text := str "('ann@acme.example', 'M1') replayed" |}.

Definition demo_problem : Response := {|
  status_code := 409;
  header_get k := if bool_decide (k = str "Content-Type") then Some (str "application/problem+json") else None;
  text := []; content := []; json_body := Ok (JDict (problem_body demo_error None false)) |}.

Lemma problem_roundtrip_example :
  _interpret_response demo_problem = Raise (Wire ReplayError)
  ∧ (we_class demo_error = we_class demo_error →
     problem_body demo_error None false = problem_body demo_error None false).
Proof. apply (problem_roundtrip demo_error demo_error None false demo_problem); reflexivity. Qed.

Definition demo_outbound : A2AMessage :=
  build_outbound_message (str "FRESH") (Some (str "hello")) (Some (str "ctx")) None (Some [(str "trace", JInt 7)]) None.

Definition demo_outbound_hash : pystr :=
  match compute_msg_hash (to_wire demo_outbound) with Ok h => h | Raise _ => [] end.

Lemma demo_outbound_canonical : envelope_canonical (with_msg_hash demo_envelope demo_outbound_hash).
Proof.
  unfold envelope_canonical, body_canonical. split_and!;
    first [vm_compute; reflexivity | vm_compute; congruence | apply Forall_nil_2 | left; reflexivity
          | apply well_formed_dec; vm_compute; reflexivity].
Qed.

Lemma built_message_verifies_example :
  ∃ built, build_and_sign_message demo_outbound demo_envelope (generate (5 : @ed_secret toy_ed25519)) = Ok built
    ∧ verify_envelope (bm_envelope_jws built) demo_verifier (str "bob@acme.example") 2100 60
      = Ok (bm_envelope_payload built).
Proof.
  destruct (built_message_verifies demo_outbound demo_envelope (5 : @ed_secret toy_ed25519) demo_outbound_hash)
    as (built & Hb & _ & _ & Hv).
  - by left.
  - vm_compute. reflexivity.
  - exact demo_outbound_canonical.
  - exists built. split; [exact Hb|]. apply (Hv demo_verifier 2100 60); [reflexivity|]. vm_compute. split; congruence.
Qed.
