(* ===== verification/Retry.v ===== *)
(** * Sending with retries — [shadownet/a2a.py]

    [send_with_retries]: exponential backoff with jitter inside a total budget,
    a fresh message per attempt.  Seconds are rationals; the rounding of the
    floats is not modelled.  The loop takes fuel, one unit per attempt, and
    returns [None] when it is used up. *)

From Stdlib Require Import QArith Lqa.
From S2P Require Import Prelude PyStr Jcs Http Crypto Pydantic Envelope A2A.

Definition RETRY_INITIAL_DELAY : Q := 30.
Definition RETRY_MAX_DELAY : Q := 3600.
Definition RETRY_TOTAL_BUDGET : Q := 24 * 3600.
Definition RETRY_JITTER : Q := 1 # 4.

(** [min(a, b)] and [max(a, b)] keep their first argument on a tie. *)
Definition py_min (a b : Q) : Q := if Qlt_le_dec b a then b else a.
Definition py_max (a b : Q) : Q := if Qlt_le_dec a b then b else a.

Definition is_TransportError (e : exn) : bool := bool_decide (e = TransportError).

Section retry.
Context `{PyUnicode} `{Pydantic} {W : Type}.
(** The message of an attempt, the HTTP client, the clock, the random source
    and the waiting. *)
Context (builder : M W BuiltMessage).
Context (http_post : pystr → pydict → list (pystr * pystr) → M W Response).
Context (monotonic : M W Q) (uniform : Q → Q → M W Q) (sleep : Q → M W unit).
Context (agent_url : pystr) (initial_delay max_delay total_budget jitter : Q).

(** [send_envelope] with the client's answer. *)
Definition attempt (built : BuiltMessage) : M W A2AMessage := λ w,
  let '(url, body, headers) := _send_envelope_request built agent_url in
  let '(w', answer) := http_post url body headers w in
  (w', send_envelope (λ _ _ _, answer) built agent_url).

Definition aattempt (built : BuiltMessage) : M W A2AMessage := λ w,
  let '(url, body, headers) := _send_envelope_request built agent_url in
  let '(w', answer) := http_post url body headers w in
  (w', asend_envelope (λ _ _ _, answer) built agent_url).

Definition retry_wait (delay u elapsed : Q) : Q :=
  let jittered := (delay * (1 + u))%Q in
  py_min (py_max jittered 0) (py_max 0 (total_budget - elapsed)).

Definition next_delay (delay : Q) : Q := py_min (delay * 2) max_delay.

(** [try: return send(...) except ShadownetWireError: raise except
    TransportError as exc: k], where the wire errors are no transport errors. *)
Definition or_retry (m : M W A2AMessage) (k : M W (option A2AMessage)) : M W (option A2AMessage) := λ w,
  match m w with
  | (w', Ok a) => (w', Ok (Some a))
  | (w', Raise e) => if is_TransportError e then k w' else (w', Raise e)
  end.

Fixpoint retry_loop (send : BuiltMessage → M W A2AMessage) (fuel : nat) (start delay : Q) : M W (option A2AMessage) :=
  match fuel with
  | O => mret None
  | S fuel =>
      built ← builder;
      or_retry (send built)
        (now ← monotonic;
         let elapsed := (now - start)%Q in
         if Qle_bool total_budget elapsed then lift (Raise TransportRetryExhausted)
         else
           u ← uniform (- jitter) jitter;
           _ ← sleep (retry_wait delay u elapsed);
           retry_loop send fuel start (next_delay delay))
  end.

Definition send_with_retries (fuel : nat) : M W (option A2AMessage) :=
  start ← monotonic; retry_loop attempt fuel start initial_delay.

Definition asend_with_retries (fuel : nat) : M W (option A2AMessage) :=
  start ← monotonic; retry_loop aattempt fuel start initial_delay.
End retry.

(** ** Lemmas *)

Lemma py_min_spec a b : (py_min a b <= a /\ py_min a b <= b /\ (py_min a b == a \/ py_min a b == b))%Q.
Proof. unfold py_min. destruct (Qlt_le_dec b a); repeat split; lra. Qed.

Lemma py_max_spec a b : (a <= py_max a b /\ b <= py_max a b /\ (py_max a b == a \/ py_max a b == b))%Q.
Proof. unfold py_max. destruct (Qlt_le_dec a b); repeat split; lra. Qed.

(** The wait of one retry. *)
Lemma retry_wait_spec budget jitter delay u elapsed :
  (0 <= delay -> 0 <= jitter -> jitter < 1 -> - jitter <= u -> u <= jitter -> elapsed < budget ->
   0 <= retry_wait budget delay u elapsed /\ retry_wait budget delay u elapsed <= budget - elapsed
   /\ (retry_wait budget delay u elapsed == budget - elapsed \/ retry_wait budget delay u elapsed == delay * (1 + u))
   /\ delay * (1 - jitter) <= delay * (1 + u) /\ delay * (1 + u) <= delay * (1 + jitter))%Q.
Proof.
  intros Hd Hj Hj1 Hl Hu He. unfold retry_wait.
  assert (delay * (1 - jitter) <= delay * (1 + u) /\ delay * (1 + u) <= delay * (1 + jitter))%Q as [H1 H2]
    by (split; nra).
  assert (0 <= delay * (1 + u))%Q as H0 by nra.
  destruct (py_max_spec (delay * (1 + u)) 0) as (Ha1 & Ha2 & Ha3).
  destruct (py_max_spec 0 (budget - elapsed)) as (Hb1 & Hb2 & Hb3).
  destruct (py_min_spec (py_max (delay * (1 + u)) 0) (py_max 0 (budget - elapsed))) as (Hc1 & Hc2 & Hc3).
  repeat split; try lra.
Qed.

(** ** Properties *)

(** What the loop relies on: a clock that does not run backwards, jitter from
    the interval that was asked for, and a sleep that lasts as long as it was
    asked to. *)
Class RetryLaws {W : Type} (clock : W → Q) (builder : M W BuiltMessage)
    (http_post : pystr → pydict → list (pystr * pystr) → M W Response)
    (monotonic : M W Q) (uniform : Q → Q → M W Q) (sleep : Q → M W unit) : Prop := {
  rl_builder : keeps (λ w w', clock w <= clock w')%Q builder;
  rl_post url b h : keeps (λ w w', clock w <= clock w')%Q (http_post url b h);
  rl_monotonic w : ∃ w' t, monotonic w = (w', Ok t) ∧ (t == clock w')%Q ∧ (clock w <= clock w')%Q;
  rl_uniform a b w : (a <= b)%Q → ∃ w' u, uniform a b w = (w', Ok u) ∧ (a <= u <= b)%Q ∧ (clock w <= clock w')%Q;
  rl_sleep d w : (0 <= d)%Q → ∃ w', sleep d w = (w', Ok tt) ∧ (clock w + d <= clock w')%Q;
}.

Section retry_properties.
Context `{PyUnicode} `{Pydantic} {W : Type} (clock : W → Q).
Context (builder : M W BuiltMessage) (http_post : pystr → pydict → list (pystr * pystr) → M W Response).
Context (monotonic : M W Q) (uniform : Q → Q → M W Q) (sleep : Q → M W unit).
Context `{!RetryLaws clock builder http_post monotonic uniform sleep}.
Context (agent_url : pystr) (initial_delay max_delay total_budget jitter : Q).

(** The shortest wait that does not end the budget. *)
Let least : Q := (py_min initial_delay max_delay * (1 - jitter))%Q.
Hypothesis positive_delay : (0 < initial_delay)%Q.
Hypothesis positive_max : (0 < max_delay)%Q.
Hypothesis jitter_range : (0 <= jitter /\ jitter < 1)%Q.

Lemma attempt_clock built : keeps (λ w w', clock w <= clock w')%Q (attempt http_post agent_url built).
Proof.
  intros w w' r. unfold attempt. destruct (_send_envelope_request built agent_url) as [[url b] h].
  destruct (http_post url b h w) as [w1 x] eqn:E. intros [= <- _]. by eapply rl_post.
Qed.

Lemma next_delay_least delay : (py_min initial_delay max_delay <= delay -> py_min initial_delay max_delay <= next_delay max_delay delay)%Q.
Proof.
  intros Hd. unfold next_delay. destruct (py_min_spec initial_delay max_delay) as (? & ? & ?).
  destruct (py_min_spec (delay * 2) max_delay) as (? & ? & ?). lra.
Qed.

(** With [n + 1] attempts left and at most [n] least waits of budget, the loop
    ends. *)
Lemma retry_loop_ends n start delay w w' r :
  (py_min initial_delay max_delay <= delay)%Q →
  (total_budget - (clock w - start) <= inject_Z (Z.of_nat n) * least)%Q →
  retry_loop builder monotonic uniform sleep max_delay total_budget jitter (attempt http_post agent_url) (S n) start delay w
    = (w', r) → r ≠ Ok None.
Proof.
  destruct (py_min_spec initial_delay max_delay) as (Hm1 & Hm2 & Hm3).
  assert (Hleast : (0 < least)%Q) by (unfold least; nra).
  revert start delay w. induction n as [|n IH]; intros start delay w Hdelay Hbudget.
  all: set (loop := retry_loop _ _ _ _ _ _ _ _) in *; unfold loop at 1; cbn [retry_loop]; fold loop.
  all: unfold mbind at 1, M_bind at 1; destruct (builder w) as [w1 [built|e]] eqn:Eb; [|by intros [= _ <-]].
  all: assert (Hc1 : (clock w <= clock w1)%Q) by (by eapply rl_builder).
  all: unfold or_retry; destruct (attempt http_post agent_url built w1) as [w2 [a|e]] eqn:Ea; [by intros [= _ <-]|].
  all: assert (Hc2 : (clock w1 <= clock w2)%Q) by (by eapply attempt_clock).
  all: destruct (is_TransportError e); [|by intros [= _ <-]].
  all: destruct (rl_monotonic w2) as (w3 & t & Ht & Htc & Hc3); rewrite (M_bind_run _ _ _ _ _ Ht).
  all: destruct (Qle_bool total_budget (t - start)) eqn:Eq; [by intros [= _ <-]|].
  all: assert (Hlt : (t - start < total_budget)%Q) by (apply Qnot_le_lt; intros Hle; apply Qle_bool_iff in Hle; congruence).
  - exfalso. change (inject_Z (Z.of_nat 0)) with 0%Q in Hbudget. lra.
  - destruct (rl_uniform (- jitter) jitter w3) as (w4 & u & Hu & Hur & Hc4); [lra|]. rewrite (M_bind_run _ _ _ _ _ Hu).
    destruct (retry_wait_spec total_budget jitter delay u (t - start)) as (Hw0 & Hw1 & Hw2 & Hw3 & _); try lra.
    destruct (rl_sleep (retry_wait total_budget delay u (t - start)) w4) as (w5 & Hs & Hc5); [done|].
    rewrite (M_bind_run _ _ _ _ _ Hs). apply IH; [by apply next_delay_least|].
    rewrite Nat2Z.inj_succ, <-Z.add_1_r, inject_Z_plus in Hbudget. change (inject_Z 1) with 1%Q in Hbudget.
    assert (0 <= inject_Z (Z.of_nat n))%Q by (change 0%Q with (inject_Z 0); rewrite <-Zle_Qle; lia).
    assert (least <= delay * (1 - jitter))%Q by (unfold least; nra).
    destruct Hw2 as [Hw2|Hw2]; nra.
Qed.

(** C28: sending with retries ends: when the budget is at most [n] shortest
    waits (delays at the lower end of the jitter), [n + 1] attempts are
    enough, whatever the network answers; the loop returns the reply, raises
    the receiver's decisive error, or gives up with [TransportRetryExhausted]. *)
Theorem send_with_retries_terminates (n : nat) (w : W) :
  (total_budget <= inject_Z (Z.of_nat n) * (py_min initial_delay max_delay * (1 - jitter)))%Q →
  ∃ w' r, send_with_retries builder http_post monotonic uniform sleep agent_url initial_delay max_delay total_budget
            jitter (S n) w = (w', r) ∧ r ≠ Ok None.
Proof.
  intros Hb. destruct (send_with_retries _ _ _ _ _ _ _ _ _ _ (S n) w) as [w' r] eqn:E. exists w', r. split; [done|].
  unfold send_with_retries in E. destruct (rl_monotonic w) as (w1 & t & Ht & Htc & _).
  rewrite (M_bind_run _ _ _ _ _ Ht) in E. eapply retry_loop_ends; [| |exact E].
  - by destruct (py_min_spec initial_delay max_delay) as (? & _).
  - fold least in Hb. lra.
Qed.

(** The delay before jitter of the [k]-th retry. *)
Fixpoint delay_of (k : nat) : Q :=
  match k with O => initial_delay | S k => next_delay max_delay (delay_of k) end.

(** The backoff: the [k]-th delay is the initial one doubled [k] times and
    capped (when the initial one is within the cap), and the wait derived from
    it is never negative, never runs past the budget, and is otherwise the
    delay within the jitter. *)
Lemma backoff_bounds (k : nat) (u elapsed : Q) :
  (initial_delay <= max_delay)%Q → (- jitter <= u)%Q → (u <= jitter)%Q → (elapsed < total_budget)%Q →
  (delay_of k == py_min (initial_delay * inject_Z (2 ^ Z.of_nat k)) max_delay)%Q
  ∧ (0 <= retry_wait total_budget (delay_of k) u elapsed <= total_budget - elapsed)%Q
  ∧ (retry_wait total_budget (delay_of k) u elapsed < total_budget - elapsed →
     delay_of k * (1 - jitter) <= retry_wait total_budget (delay_of k) u elapsed <= delay_of k * (1 + jitter))%Q.
Proof.
  intros Hi Hl Hu He.
  assert (Hk : (delay_of k == py_min (initial_delay * inject_Z (2 ^ Z.of_nat k)) max_delay)%Q).
  { clear Hl Hu He. induction k as [|k IH].
    - change (inject_Z (2 ^ Z.of_nat 0)) with 1%Q. cbn [delay_of].
      destruct (py_min_spec (initial_delay * 1) max_delay) as (? & ? & ?). unfold py_min. destruct (Qlt_le_dec _ _); lra.
    - cbn [delay_of]. rewrite Nat2Z.inj_succ, Z.pow_succ_r, inject_Z_mult by lia. change (inject_Z 2) with 2%Q.
      assert (1 <= inject_Z (2 ^ Z.of_nat k))%Q as Hp.
      { change 1%Q with (inject_Z 1). rewrite <-Zle_Qle. pose proof (Z.pow_pos_nonneg 2 (Z.of_nat k)). lia. }
      revert IH. unfold next_delay, py_min. repeat destruct (Qlt_le_dec _ _); intros; nra. }
  assert (0 <= delay_of k)%Q as Hd.
  { rewrite Hk. assert (0 <= inject_Z (2 ^ Z.of_nat k))%Q.
    { change 0%Q with (inject_Z 0). rewrite <-Zle_Qle. apply Z.pow_nonneg. lia. }
    unfold py_min. destruct (Qlt_le_dec _ _); nra. }
  destruct (retry_wait_spec total_budget jitter (delay_of k) u elapsed) as (? & ? & ? & ? & ?); lra.
Qed.
End retry_properties.

(** ** Examples *)

#[local] Existing Instance ascii_unicode.
#[local] Existing Instance strict_pydantic.

(** The world is the clock; nobody answers. *)
Definition lonely_builder : M Q BuiltMessage :=
  mret {| bm_message := []; bm_envelope_jws := []; bm_envelope_payload := demo_envelope |}.
Definition lonely_post (_ : pystr) (_ : pydict) (_ : list (pystr * pystr)) : M Q Response := lift (Raise HTTPError).
Definition lonely_clock : M Q Q := λ w, (w, Ok w).
Definition low_jitter (a _ : Q) : M Q Q := mret a.
Definition lonely_sleep (d : Q) : M Q unit := λ w, ((w + d)%Q, Ok tt).

Lemma lonely_laws : RetryLaws (λ w : Q, w) lonely_builder lonely_post lonely_clock low_jitter lonely_sleep.
Proof.
  split.
  - intros w w' r [= <- _]. lra.
  - intros url b h w w' r [= <- _]. lra.
  - intros w. exists w, w. repeat split; lra.
  - intros a b w Hab. exists w, a. repeat split; lra.
  - intros d w Hd. exists (w + d)%Q. split; [done|lra].
Qed.

(** With the defaults of the code, 3841 attempts are enough. *)
Lemma send_with_retries_terminates_witness : ∃ w' r,
  send_with_retries lonely_builder lonely_post lonely_clock low_jitter lonely_sleep [] RETRY_INITIAL_DELAY RETRY_MAX_DELAY
    RETRY_TOTAL_BUDGET RETRY_JITTER 3841 0%Q = (w', r) ∧ r ≠ Ok None.
Proof.
  apply (send_with_retries_terminates (λ w : Q, w) lonely_builder lonely_post lonely_clock low_jitter lonely_sleep
    (RetryLaws0 := lonely_laws) [] RETRY_INITIAL_DELAY RETRY_MAX_DELAY RETRY_TOTAL_BUDGET RETRY_JITTER); vm_compute; easy.
Defined.

Lemma backoff_bounds_example :
  (delay_of RETRY_INITIAL_DELAY RETRY_MAX_DELAY 3 == 240)%Q
  ∧ (0 <= retry_wait RETRY_TOTAL_BUDGET (delay_of RETRY_INITIAL_DELAY RETRY_MAX_DELAY 3) (1 # 8) 60)%Q.
Proof.
  destruct (backoff_bounds RETRY_INITIAL_DELAY RETRY_MAX_DELAY RETRY_TOTAL_BUDGET RETRY_JITTER ltac:(easy) ltac:(easy)
    ltac:(easy) 3 (1 # 8) 60) as (Hk & Hw & _); [vm_compute; easy..|].
  split; [exact Hk|exact (proj1 Hw)].
Qed.

(** Without an answer the loop spends a budget of 100 s on four attempts. *)
Lemma lonely_run :
  let '(w, r) := send_with_retries lonely_builder lonely_post lonely_clock low_jitter lonely_sleep [] RETRY_INITIAL_DELAY
                   RETRY_MAX_DELAY 100 RETRY_JITTER 4 0%Q in
  (w == 100)%Q ∧ r = Raise TransportRetryExhausted.
Proof. vm_compute. done. Qed.
