(* ===== verification/AgentCard.v ===== *)
(** * Agent cards — [shadownet/agentcard.py]

    Fetching, verification (provider-signed and self-signed), construction and
    signing of A2A agent cards. *)

From S2P Require Import Prelude PyStr Base64 Multibase Identifiers Jcs Dicts PyJson JsonBytes Crypto.
From S2P Require Import Provider Http Credential Status.

Definition SHADOWNET_EXTENSION_URI : pystr := str "urn:shadownet:0.2".
Definition EXPECTED_ALG : pystr := str "EdDSA".
Definition EXPECTED_TYP : pystr := str "JOSE".
Definition DIRECT_AGENT_CARD_PATH : pystr := str "/.well-known/agent-card.json".
Definition PINNED_SELF_SIGNED_SCHEME : pystr := str "shadownet:pinned-self-signed".

Record FetchedAgentCard := {
  fc_shadowname : pystr;
  fc_shadow_public_key : pystr;
  fc_endpoint_url : pystr;
  fc_cache_max_age : option Z;
  fc_etag : option pystr;
  fc_raw : pydict;
}.

(** ** The signed payload *)

(** [_strip_empty]; [None] is Python's [None]. *)
Fixpoint _strip_empty (value : json) : option json :=
  match value with
  | JDict d =>
      let out := fold_right (λ kv out, match _strip_empty kv.2 with
                                       | Some v => (kv.1, v) :: out
                                       | None => out
                                       end) [] d in
      match out with [] => None | _ => Some (JDict out) end
  | JList l =>
      let cleaned := fold_right (λ v out, match _strip_empty v with Some c => c :: out | None => out end) [] l in
      match cleaned with [] => None | _ => Some (JList cleaned) end
  | JStr [] => None
  | JNull => None
  | v => Some v
  end.

Definition without_signatures (card : pydict) : pydict :=
  dict_filter (λ k, negb (bool_decide (k = str "signatures"))) card.

Definition _canonical_card_payload (card : pydict) : result pybytes :=
  match _strip_empty (JDict (without_signatures card)) with
  | None => Raise AgentCardError
  | Some pruned => canonicalize pruned
  end.

(** ** Field checks *)

Definition _require_str (card : pydict) (key : pystr) : result pystr :=
  of_option AgentCardError (get_str key card).

Definition extension_entry_ok (entry : json) : bool :=
  match entry with
  | JDict e => get_is_str (str "uri") SHADOWNET_EXTENSION_URI e
               && match dict_get (str "required") e with Some (JBool true) => true | _ => false end
  | _ => false
  end.

Definition _validate_extensions (card : pydict) : result unit :=
  capabilities ← of_option AgentCardError (get_dict (str "capabilities") card);
  extensions ← of_option AgentCardError (get_list (str "extensions") capabilities);
  raise_if (negb (existsb extension_entry_ok extensions)) AgentCardError.

Definition _supported_interface_url (card : pydict) : result pystr :=
  match get_list (str "supportedInterfaces") card with
  | Some (JDict first :: _) =>
      match get_str (str "url") first with
      | Some (c :: s) => Ok (c :: s)
      | _ => Raise AgentCardError
      end
  | _ => Raise AgentCardError
  end.

Definition _validate_direct_security_scheme (card : pydict) : result unit :=
  match get_dict (str "securitySchemes") card with
  | Some schemes => raise_if (negb (bool_decide (PINNED_SELF_SIGNED_SCHEME ∈ keys schemes))) AgentCardError
  | None => Raise AgentCardError
  end.

(** [value if isinstance(value, str) and value else None] *)
Definition nonempty_str (key : pystr) (card : pydict) : option pystr :=
  match get_str key card with Some (c :: s) => Some (c :: s) | _ => None end.
Definition extract_status_list_base (card : pydict) : option pystr := nonempty_str (str "shadownet:statusListBase") card.
Definition extract_issuer_endpoint (card : pydict) : option pystr := nonempty_str (str "shadownet:issueEndpoint") card.

(** ** Signatures *)

Section agentcard.
Context `{PyUnicode} `{Ed25519}.

(** One signer of the loop; every exception moves on to the next. *)
Definition signer_verifies (signature signing_input : pybytes) (pk : pystr) : bool :=
  is_ok (raw ← parse_public_key pk; key ← from_public_bytes raw; verify key signature signing_input).

Definition _verify_one (signature_obj : pydict) (payload_b64 : pystr) (expected_signers : list pystr)
    (expected_kid : pystr) : result unit :=
  protected_b64 ← of_option AgentCardSignatureError (get_str (str "protected") signature_obj);
  signature_b64 ← of_option AgentCardSignatureError (get_str (str "signature") signature_obj);
  header ← rethrow is_ValueError (λ _, AgentCardSignatureError)
             (header_bytes ← _b64u_decode protected_b64; json_loads_bytes header_bytes);
  (* [header.get]: only a dictionary has it *)
  header ← of_option AttributeError (match header with JDict h => Some h | _ => None end);
  _ ← raise_if (negb (get_is_str (str "alg") EXPECTED_ALG header)) AgentCardSignatureError;
  _ ← raise_if (negb (get_is_str (str "typ") EXPECTED_TYP header)) AgentCardSignatureError;
  _ ← raise_if (negb (get_is_str (str "kid") expected_kid header)) AgentCardSignatureError;
  signature_bytes ← rethrow is_ValueError (λ _, AgentCardSignatureError) (_b64u_decode signature_b64);
  signing_input ← encode_ascii (protected_b64 ++ [46] ++ payload_b64);
  raise_if (negb (existsb (signer_verifies signature_bytes signing_input) expected_signers)) AgentCardSignatureError.

Fixpoint _verify_signatures (signatures : list json) (payload_b64 : pystr) (expected_signers : list pystr)
    (expected_kid : pystr) : result unit :=
  match signatures with
  | [] => Raise AgentCardSignatureError
  | JDict sig :: signatures =>
      match _verify_one sig payload_b64 expected_signers expected_kid with
      | Ok u => Ok u
      | Raise AgentCardSignatureError => _verify_signatures signatures payload_b64 expected_signers expected_kid
      | Raise e => Raise e
      end
  | _ :: signatures => _verify_signatures signatures payload_b64 expected_signers expected_kid
  end.

(** The non-empty list under ["signatures"]. *)
Definition card_signatures (card : pydict) : result (list json) :=
  match get_list (str "signatures") card with
  | Some (s :: ss) => Ok (s :: ss)
  | _ => Raise AgentCardSignatureError
  end.

Definition card_key_ok (pk : pystr) : result unit :=
  _ ← rethrow is_InvalidIdentifierError (λ _, AgentCardError) (parse_public_key pk); Ok tt.

Definition verify_agent_card (card : pydict) (r : ProviderRecord) (shadowname : pystr) : result FetchedAgentCard :=
  canonical_name ← parse_shadowname shadowname;
  let provider := (partition_char 64 canonical_name).2 in
  _ ← raise_if (negb (bool_decide (provider = pr_domain r))) AgentCardError;
  signatures ← card_signatures card;
  payload_bytes ← _canonical_card_payload card;
  let payload_b64 := _b64u payload_bytes in
  let expected_kid := str "shadownet@" ++ pr_domain r in
  _ ← _verify_signatures signatures payload_b64 (pr_provider_keys r) expected_kid;
  shadow_pk ← _require_str card (str "shadownet:pk");
  _ ← card_key_ok shadow_pk;
  version ← _require_str card (str "shadownet:v");
  _ ← raise_if (negb (bool_decide (version = str "0.2"))) AgentCardError;
  _ ← _validate_extensions card;
  endpoint_url ← _supported_interface_url card;
  Ok {| fc_shadowname := canonical_name; fc_shadow_public_key := shadow_pk; fc_endpoint_url := endpoint_url;
        fc_cache_max_age := None; fc_etag := None; fc_raw := card |}.

Definition verify_self_signed_agent_card (card : pydict) (expected_public_key : pystr) : result FetchedAgentCard :=
  signatures ← card_signatures card;
  payload_bytes ← _canonical_card_payload card;
  let payload_b64 := _b64u payload_bytes in
  _ ← _verify_signatures signatures payload_b64 [expected_public_key] expected_public_key;
  shadow_pk ← _require_str card (str "shadownet:pk");
  _ ← raise_if (negb (bool_decide (shadow_pk = expected_public_key))) AgentCardError;
  _ ← card_key_ok shadow_pk;
  version ← _require_str card (str "shadownet:v");
  _ ← raise_if (negb (bool_decide (version = str "0.2"))) AgentCardError;
  _ ← _validate_extensions card;
  _ ← _validate_direct_security_scheme card;
  endpoint_url ← _supported_interface_url card;
  Ok {| fc_shadowname := expected_public_key; fc_shadow_public_key := shadow_pk; fc_endpoint_url := endpoint_url;
        fc_cache_max_age := None; fc_etag := None; fc_raw := card |}.

(** ** Fetching *)

Definition _agent_card_url_for_shadowname (shadowname : pystr) (r : ProviderRecord) : result pystr :=
  canonical ← parse_shadowname shadowname;
  let '(local, provider) := partition_char 64 canonical in
  _ ← raise_if (negb (bool_decide (provider = pr_domain r))) AgentCardError;
  Ok (rstrip_char 47 (pr_endpoint r) ++ str "/identity/" ++ local).

Definition card_is_JSONDecodeError (e : exn) : bool := bool_decide (e = JSONDecodeError).

(** The body and the response whose headers are read later. *)
Definition _interpret_card_response (response : Response) : result (pydict * Response) :=
  _ ← raise_if (negb (status_code response =? 200)) AgentCardError;
  body ← rethrow card_is_JSONDecodeError (λ _, AgentCardError) (json_body response);
  match body with JDict b => Ok (b, response) | _ => Raise AgentCardError end.

Definition fetch_agent_card_json (http_get : pystr → result Response) (shadowname : pystr) (r : ProviderRecord)
    : result (pydict * Response) :=
  url ← _agent_card_url_for_shadowname shadowname r;
  response ← rethrow is_HTTPError (λ _, AgentCardError) (http_get url);
  _interpret_card_response response.

Definition afetch_agent_card_json (http_get : pystr → result Response) (shadowname : pystr) (r : ProviderRecord)
    : result (pydict * Response) :=
  url ← _agent_card_url_for_shadowname shadowname r;
  response ← rethrow is_HTTPError (λ _, AgentCardError) (http_get url);
  _interpret_card_response response.

Definition card_parse_max_age : option pystr → option Z := _parse_max_age.

Definition _attach_cache_headers (v : FetchedAgentCard) (response : Response) : FetchedAgentCard := {|
  fc_shadowname := fc_shadowname v; fc_shadow_public_key := fc_shadow_public_key v;
  fc_endpoint_url := fc_endpoint_url v;
  fc_cache_max_age := card_parse_max_age (header_get response (str "Cache-Control"));
  fc_etag := header_get response (str "ETag"); fc_raw := fc_raw v |}.

Definition fetch_and_verify_agent_card (http_get : pystr → result Response) (shadowname : pystr)
    (r : ProviderRecord) : result FetchedAgentCard :=
  '(card, response) ← fetch_agent_card_json http_get shadowname r;
  v ← verify_agent_card card r shadowname;
  Ok (_attach_cache_headers v response).

Definition afetch_and_verify_agent_card (http_get : pystr → result Response) (shadowname : pystr)
    (r : ProviderRecord) : result FetchedAgentCard :=
  '(card, response) ← afetch_agent_card_json http_get shadowname r;
  v ← verify_agent_card card r shadowname;
  Ok (_attach_cache_headers v response).

Definition fetch_direct_agent_card_json (http_get : pystr → result Response) (endpoint_origin : pystr)
    : result (pydict * Response) :=
  let url := rstrip_char 47 endpoint_origin ++ DIRECT_AGENT_CARD_PATH in
  response ← rethrow is_HTTPError (λ _, AgentCardError) (http_get url);
  _interpret_card_response response.

Definition afetch_direct_agent_card_json (http_get : pystr → result Response) (endpoint_origin : pystr)
    : result (pydict * Response) :=
  let url := rstrip_char 47 endpoint_origin ++ DIRECT_AGENT_CARD_PATH in
  response ← rethrow is_HTTPError (λ _, AgentCardError) (http_get url);
  _interpret_card_response response.

Definition fetch_and_verify_direct_agent_card (http_get : pystr → result Response)
    (endpoint_origin expected_public_key : pystr) : result FetchedAgentCard :=
  '(card, response) ← fetch_direct_agent_card_json http_get endpoint_origin;
  v ← verify_self_signed_agent_card card expected_public_key;
  Ok (_attach_cache_headers v response).

Definition afetch_and_verify_direct_agent_card (http_get : pystr → result Response)
    (endpoint_origin expected_public_key : pystr) : result FetchedAgentCard :=
  '(card, response) ← afetch_direct_agent_card_json http_get endpoint_origin;
  v ← verify_self_signed_agent_card card expected_public_key;
  Ok (_attach_cache_headers v response).

(** ** Construction *)

Definition build_unsigned_agent_card_body (name description version a2a_url shadow_public_key protocol_binding
    a2a_protocol_version : pystr) (extras : option pydict) : pydict :=
  let body := [
    (str "name", JStr name); (str "description", JStr description); (str "version", JStr version);
    (str "supportedInterfaces", JList [JDict [(str "url", JStr a2a_url);
       (str "protocolBinding", JStr protocol_binding); (str "protocolVersion", JStr a2a_protocol_version)]]);
    (str "capabilities", JDict [(str "extensions", JList [JDict [(str "uri", JStr SHADOWNET_EXTENSION_URI);
       (str "required", JBool true); (str "description", JStr (str "Shadownet identity envelope"))]])]);
    (str "shadownet:v", JStr (str "0.2")); (str "shadownet:pk", JStr shadow_public_key)] in
  dict_update body (default [] extras).

Definition sign_agent_card_body (body : pydict) (signing_key : Ed25519KeyPair) (kid provider_domain : option pystr)
    : result pydict :=
  kid ← match kid, provider_domain with
        | None, None => Raise AgentCardError
        | None, Some d => Ok (str "shadownet@" ++ d)
        | Some k, None => Ok k
        | Some _, Some _ => Raise AgentCardError
        end;
  pruned ← of_option AgentCardError (_strip_empty (JDict (without_signatures body)));
  payload ← canonicalize pruned;
  let payload_b64 := _b64u payload in
  let header := JDict [(str "alg", JStr EXPECTED_ALG); (str "typ", JStr EXPECTED_TYP); (str "kid", JStr kid)] in
  header_bytes ← encode_utf8 (json_dumps_compact header);
  let header_b64 := _b64u header_bytes in
  signing_input ← encode_ascii (header_b64 ++ [46] ++ payload_b64);
  signature ← sign signing_key signing_input;
  Ok (dict_set (str "signatures")
        (JList [JDict [(str "protected", JStr header_b64); (str "signature", JStr (_b64u signature))]]) body).

Definition build_signed_agent_card (name description version a2a_url shadow_public_key : pystr)
    (provider_key : Ed25519KeyPair) (provider_domain : pystr) (extras : option pydict) : result pydict :=
  let body := build_unsigned_agent_card_body name description version a2a_url shadow_public_key
                (str "HTTP+JSON") (str "1.0") extras in
  sign_agent_card_body body provider_key None (Some provider_domain).

Definition build_direct_signed_agent_card (name description version a2a_url : pystr)
    (shadow_key : Ed25519KeyPair) (extras : option pydict) : result pydict :=
  shadow_public_key ← encode_public_key (public_bytes shadow_key);
  let merged_extras := dict_update [(str "securitySchemes", JDict [(PINNED_SELF_SIGNED_SCHEME, JDict [])])]
                         (default [] extras) in
  let body := build_unsigned_agent_card_body name description version a2a_url shadow_public_key
                (str "HTTP+JSON") (str "1.0") (Some merged_extras) in
  sign_agent_card_body body shadow_key (Some shadow_public_key) None.
End agentcard.

(** ** Lemmas: the stripped card *)

Lemma strip_list l :
  _strip_empty (JList l) = match omap _strip_empty l with [] => None | cs => Some (JList cs) end.
Proof.
  cbn [_strip_empty].
  assert (fold_right (λ v out, match _strip_empty v with Some c => c :: out | None => out end) [] l
    = omap _strip_empty l) as -> by (induction l as [|v l IH]; simpl; [done|]; rewrite IH; by destruct (_strip_empty v)).
  by destruct (omap _strip_empty l).
Qed.

Definition strip_entry (kv : pystr * json) : option (pystr * json) := pair kv.1 <$> _strip_empty kv.2.

Lemma strip_entries_cons k v d :
  omap strip_entry ((k, v) :: d)
  = match _strip_empty v with Some v' => (k, v') :: omap strip_entry d | None => omap strip_entry d end.
Proof. simpl. unfold strip_entry at 1. simpl. by destruct (_strip_empty v). Qed.

Lemma strip_dict d :
  _strip_empty (JDict d) = match omap strip_entry d with [] => None | out => Some (JDict out) end.
Proof.
  cbn [_strip_empty].
  assert (fold_right (λ kv out, match _strip_empty kv.2 with Some v => (kv.1, v) :: out | None => out end) [] d
    = omap strip_entry d) as ->; [|by destruct (omap strip_entry d)].
  induction d as [|[k v] d IH]; [done|]. cbn [fold_right fst snd]. rewrite IH.
  by rewrite strip_entries_cons.
Qed.

Lemma strip_keys d : sublist (keys (omap strip_entry d)) (keys d).
Proof.
  induction d as [|[k v] d IH]; [constructor|]. rewrite strip_entries_cons.
  destruct (_strip_empty v); simpl; by constructor.
Qed.

Lemma strip_get k d : NoDup (keys d) → dict_get k (omap strip_entry d) = (v ← dict_get k d; _strip_empty v).
Proof.
  induction d as [|[k' v] d IH]; intros Hn; [done|]. apply NoDup_cons in Hn as [Hk Hn].
  rewrite strip_entries_cons. cbn [dict_get].
  destruct (decide (k = k')) as [->|Hne].
  - rewrite (bool_decide_eq_true_2 (k' = k')) by done. cbn [mbind option_bind].
    destruct (_strip_empty v) as [v'|]; simpl; [by rewrite bool_decide_eq_true_2|].
    apply dict_get_none. intros Hin. apply Hk. eapply sublist_subseteq; [apply strip_keys|done].
  - rewrite (bool_decide_eq_false_2 (k = k')) by done.
    destruct (_strip_empty v) as [v'|]; simpl; [rewrite bool_decide_eq_false_2 by done|]; by apply IH.
Qed.

Lemma strip_well_formed v : well_formed v → ∀ v', _strip_empty v = Some v' → well_formed v'.
Proof.
  induction v as [ |b|z|f|s|l IH|d IH] using json_ind'; intros Hw v' Hv; try (by simplify_eq/=).
  - destruct s; by simplify_eq/=.
  - rewrite strip_list in Hv. apply well_formed_list in Hw.
    assert (Forall well_formed (omap _strip_empty l)) as Hl.
    { apply Forall_forall. intros c (a & Ha & Hc)%list_elem_of_omap. rewrite Forall_forall in IH, Hw.
      exact (IH a Ha (Hw a Ha) c Hc). }
    destruct (omap _strip_empty l); simplify_eq. by apply well_formed_list.
  - rewrite strip_dict in Hv. apply well_formed_entries in Hw as [Hw Hn].
    assert (well_formed (JDict (omap strip_entry d))) as Hd.
    { apply well_formed_entries. split; [|eapply sublist_NoDup; [exact Hn|apply strip_keys]].
      apply Forall_forall. intros c ([k a] & Ha & Hc)%list_elem_of_omap. rewrite Forall_forall in IH, Hw.
      unfold strip_entry in Hc. cbn [fst snd] in Hc. destruct (_strip_empty a) as [a'|] eqn:E; simplify_eq/=.
      destruct (Hw _ Ha) as [? ?]. split; [done|]. by apply (IH _ Ha). }
    by destruct (omap strip_entry d); simplify_eq.
Qed.

Lemma strip_wf_json v : wf_json v = true → ∀ v', _strip_empty v = Some v' → wf_json v' = true.
Proof.
  induction v as [ |b|z|f|s|l IH|d IH] using json_ind'; intros Hw v' Hv; try (by simplify_eq/=).
  - destruct s; by simplify_eq/=.
  - rewrite strip_list in Hv. cbn [wf_json] in Hw. apply forallb_Forall in Hw.
    assert (Forall (λ c, wf_json c = true) (omap _strip_empty l)) as Hl.
    { apply Forall_forall. intros c (a & Ha & Hc)%list_elem_of_omap. rewrite Forall_forall in IH, Hw.
      exact (IH a Ha (Hw a Ha) c Hc). }
    destruct (omap _strip_empty l); simplify_eq. by apply forallb_Forall.
  - rewrite strip_dict in Hv. apply wf_json_entries in Hw as [Hw Hn].
    assert (wf_json (JDict (omap strip_entry d)) = true) as Hd.
    { apply wf_json_entries. split; [|eapply sublist_NoDup; [exact Hn|apply strip_keys]].
      apply Forall_forall. intros c ([k a] & Ha & Hc)%list_elem_of_omap. rewrite Forall_forall in IH, Hw.
      unfold strip_entry in Hc. cbn [fst snd] in Hc. destruct (_strip_empty a) as [a'|] eqn:E; simplify_eq/=.
      destruct (Hw _ Ha) as [? ?]. split; [done|]. by apply (IH _ Ha). }
    by destruct (omap strip_entry d); simplify_eq.
Qed.

(** What the signature covers: lookups in the pruned card. *)
Lemma card_payload_ok card bs :
  _canonical_card_payload card = Ok bs →
  ∃ out, _strip_empty (JDict (without_signatures card)) = Some (JDict out) ∧ out ≠ []
    ∧ out = omap strip_entry (without_signatures card) ∧ canonicalize (JDict out) = Ok bs.
Proof.
  unfold _canonical_card_payload. rewrite strip_dict.
  destruct (omap strip_entry (without_signatures card)) as [|e out]; [done|]. intros Hc. by eexists.
Qed.

Lemma payload_out card bs :
  wf_json (JDict card) = true → _canonical_card_payload card = Ok bs →
  ∃ out, well_formed (JDict out) ∧ canonicalize (JDict out) = Ok bs
    ∧ ∀ k, k ≠ str "signatures" → dict_get k out = (v ← dict_get k card; _strip_empty v).
Proof.
  intros Wc (out & Hs & _ & -> & Hc)%card_payload_ok. eexists. split; [|split; [exact Hc|]].
  - split; [|by eapply canonicalize_encodable]. exact (strip_wf_json _ (wf_json_filter _ card Wc) _ Hs).
  - intros k Hk. rewrite strip_get.
    + unfold without_signatures. by rewrite dict_get_filter, bool_decide_eq_false_2.
    + unfold without_signatures. rewrite keys_filter. apply NoDup_filter_list. by apply wf_json_entries in Wc as [_ ?].
Qed.

(** A non-empty string of the card is in the signed payload as it is. *)
Lemma payload_str card out k s :
  (∀ k, k ≠ str "signatures" → dict_get k out = (v ← dict_get k card; _strip_empty v)) →
  k ≠ str "signatures" → s ≠ [] → dict_get k card = Some (JStr s) → dict_get k out = Some (JStr s).
Proof. intros Ho Hk Hs Hc. rewrite Ho, Hc by done. simpl. by destruct s. Qed.

Lemma same_str d1 d2 k s1 s2 :
  well_formed (JDict d1) → well_formed (JDict d2) → norm (JDict d1) = norm (JDict d2) →
  dict_get k d1 = Some (JStr s1) → dict_get k d2 = Some (JStr s2) → s1 = s2.
Proof.
  intros W1 W2 Hn H1 H2. pose proof (norm_dict_get k d1 d2 W1 W2 Hn) as E. rewrite H1, H2 in E. by injection E.
Qed.

(** The first interface with its URL stays the first of the payload. *)
Lemma payload_interface c o i l u :
  well_formed (JDict o) → wf_json (JDict c) = true →
  (∀ k, k ≠ str "signatures" → dict_get k o = (v ← dict_get k c; _strip_empty v)) →
  dict_get (str "supportedInterfaces") c = Some (JList (JDict i :: l)) → dict_get (str "url") i = Some (JStr u) → u ≠ [] →
  ∃ j m, dict_get (str "supportedInterfaces") o = Some (JList (JDict j :: m)) ∧ well_formed (JDict j)
    ∧ dict_get (str "url") j = Some (JStr u).
Proof.
  intros Wo Wc Go Gi Gu Hu. specialize (Go (str "supportedInterfaces") ltac:(done)).
  rewrite Gi in Go. cbn [mbind option_bind] in Go. rewrite strip_list in Go.
  assert (NoDup (keys i)) as Hni.
  { apply (wf_json_get _ _ _ Wc) in Gi. cbn [wf_json forallb] in Gi. apply andb_true_iff in Gi as [Gi _].
    by apply wf_json_entries in Gi as [_ ?]. }
  assert (dict_get (str "url") (omap strip_entry i) = Some (JStr u)) as Hj.
  { rewrite strip_get, Gu by done. simpl. by destruct u. }
  assert (_strip_empty (JDict i) = Some (JDict (omap strip_entry i))) as Hs.
  { rewrite strip_dict. by destruct (omap strip_entry i). }
  change (omap _strip_empty (JDict i :: l)) with
    (match _strip_empty (JDict i) with Some x => x :: omap _strip_empty l | None => omap _strip_empty l end) in Go.
  rewrite Hs in Go. cbv iota in Go.
  eexists _, _. split; [exact Go|]. split; [|done].
  apply (well_formed_get _ _ _ Wo) in Go. apply well_formed_list in Go. by apply Forall_cons in Go as [? _].
Qed.

(** ** Lemmas: signatures *)

Section card_lemmas.
Context `{PyUnicode} `{Ed25519}.

(** A JWS over [payload] under the key spelled [pk], whose protected header
    has the required algorithm, type and [kid]. *)
Definition card_signed_by (pk kid : pystr) (payload : pybytes) (sig : pydict) : Prop :=
  ∃ protected sig_b64 header_bytes header signature raw,
    get_str (str "protected") sig = Some protected ∧ get_str (str "signature") sig = Some sig_b64
    ∧ _b64u_decode protected = Ok header_bytes ∧ json_loads_bytes header_bytes = Ok (JDict header)
    ∧ get_is_str (str "alg") (str "EdDSA") header = true ∧ get_is_str (str "typ") (str "JOSE") header = true
    ∧ get_is_str (str "kid") kid header = true
    ∧ _b64u_decode sig_b64 = Ok signature ∧ parse_public_key pk = Ok raw
    ∧ ed_verify raw signature (protected ++ [46] ++ _b64u payload) = true.

Lemma is_ok_true {A} (r : result A) : is_ok r = true → ∃ a, r = Ok a.
Proof. destruct r; [eauto|done]. Qed.

Lemma verify_one_ok sig payload signers kid u :
  _verify_one sig (_b64u payload) signers kid = Ok u →
  ∃ pk, pk ∈ signers ∧ card_signed_by pk kid payload sig.
Proof.
  unfold _verify_one. intros Hv. res_inv. bool_prop.
  match goal with He : existsb _ _ = true |- _ => apply existsb_exists in He as (pk & Hin & Hs) end.
  unfold signer_verifies in Hs. apply is_ok_true in Hs as ([] & Hs). res_inv.
  match goal with Hf : from_public_bytes _ = Ok _ |- _ => apply from_public_bytes_ok in Hf as [Hpk _] end.
  match goal with Hf : verify _ _ _ = Ok _ |- _ => apply verify_ok in Hf as [_ Hver] end.
  rewrite Hpk in Hver. unfold encode_ascii in *.
  match goal with Hf : (if forallb is_ascii ?x then _ else _) = Ok _ |- _ =>
    destruct (forallb is_ascii x); [|done]; res_inv end.
  exists pk. split; [by apply list_elem_of_In|].
  match goal with Hj : match ?h with JDict _ => _ | _ => _ end = Some _ |- _ =>
    destruct h; try done; injection Hj as -> end.
  eexists _, _, _, _, _, _. split_and!; try eassumption.
Qed.

Lemma verify_signatures_ok sigs payload signers kid u :
  _verify_signatures sigs (_b64u payload) signers kid = Ok u →
  ∃ sig pk, JDict sig ∈ sigs ∧ pk ∈ signers ∧ card_signed_by pk kid payload sig.
Proof.
  induction sigs as [|s sigs IH]; [done|]. cbn [_verify_signatures]. intros Hv.
  destruct s as [| | | | | |sig]; try (apply IH in Hv as (sig & pk & ? & ?); exists sig, pk; set_solver).
  destruct (_verify_one sig (_b64u payload) signers kid) as [u'|e] eqn:E.
  - apply verify_one_ok in E as (pk & ? & ?). exists sig, pk. set_solver.
  - destruct e; try done. apply IH in Hv as (sig' & pk & ? & ?). exists sig', pk. set_solver.
Qed.

Lemma interface_url_ok card url :
  _supported_interface_url card = Ok url →
  ∃ first rest, dict_get (str "supportedInterfaces") card = Some (JList (JDict first :: rest))
    ∧ dict_get (str "url") first = Some (JStr url) ∧ url ≠ [].
Proof.
  unfold _supported_interface_url, get_list, get_str. intros Hu. repeat case_match; try done. res_inv.
  by simplify_eq; eauto.
Qed.

Lemma require_str_ok card k s : _require_str card k = Ok s ↔ dict_get k card = Some (JStr s).
Proof.
  unfold _require_str, get_str. rewrite of_option_ok. repeat case_match; naive_solver.
Qed.

Lemma card_key_ok_ok pk u : card_key_ok pk = Ok u → ∃ raw, parse_public_key pk = Ok raw ∧ length raw = 32%nat.
Proof.
  unfold card_key_ok. intros Hk. res_inv. eexists. split; [done|]. by apply parse_public_key_ok in H1 as (_ & _ & ?).
Qed.

Lemma card_signatures_ok card sigs :
  card_signatures card = Ok sigs → dict_get (str "signatures") card = Some (JList sigs).
Proof. unfold card_signatures, get_list. repeat case_match; try done. intros ?. res_inv. by simplify_eq. Qed.

Lemma verify_agent_card_ok card r name fc :
  verify_agent_card card r name = Ok fc →
  ∃ payload sig pk sigs,
    parse_shadowname name = Ok (fc_shadowname fc) ∧ (partition_char 64 (fc_shadowname fc)).2 = pr_domain r
    ∧ dict_get (str "signatures") card = Some (JList sigs) ∧ _canonical_card_payload card = Ok payload
    ∧ JDict sig ∈ sigs ∧ pk ∈ pr_provider_keys r
    ∧ card_signed_by pk (str "shadownet@" ++ pr_domain r) payload sig
    ∧ dict_get (str "shadownet:pk") card = Some (JStr (fc_shadow_public_key fc))
    ∧ (∃ raw, parse_public_key (fc_shadow_public_key fc) = Ok raw ∧ length raw = 32%nat)
    ∧ dict_get (str "shadownet:v") card = Some (JStr (str "0.2"))
    ∧ _validate_extensions card = Ok tt ∧ _supported_interface_url card = Ok (fc_endpoint_url fc)
    ∧ fc_raw fc = card.
Proof.
  unfold verify_agent_card. intros Hv. res_inv. bool_prop. subst.
  repeat match goal with
  | Hf : _require_str _ _ = Ok _ |- _ => apply require_str_ok in Hf
  | Hf : card_key_ok _ = Ok _ |- _ => apply card_key_ok_ok in Hf
  | Hf : _verify_signatures _ _ _ _ = Ok _ |- _ => apply verify_signatures_ok in Hf as (sig & pk & ? & ? & ?)
  | Hf : card_signatures _ = Ok _ |- _ => apply card_signatures_ok in Hf
  | u : () |- _ => destruct u
  end.
  cbn [fc_shadowname fc_shadow_public_key fc_endpoint_url fc_raw].
  eexists _, sig, pk, _. split_and!; try eassumption; done.
Qed.
End card_lemmas.

(** ** Properties *)

Section card_properties.
Context `{PyUnicode} `{Ed25519}.

(** C15: a card that verifies for a Shadowname belongs to the provider of that
    name: one of its signatures, with algorithm EdDSA, type JOSE and the
    [kid] of that provider, verifies under one of the provider's keys over
    the canonical form of the card; the key it gives is a 32-byte key, its
    version is 0.2 and its endpoint is not empty. *)
Theorem verify_agent_card_sound (card : pydict) (r : ProviderRecord) (name : pystr) (fc : FetchedAgentCard) :
  verify_agent_card card r name = Ok fc →
  ∃ payload sig pk sigs raw,
    parse_shadowname name = Ok (fc_shadowname fc) ∧ (partition_char 64 (fc_shadowname fc)).2 = pr_domain r
    ∧ dict_get (str "signatures") card = Some (JList sigs) ∧ JDict sig ∈ sigs ∧ pk ∈ pr_provider_keys r
    ∧ _canonical_card_payload card = Ok payload
    ∧ card_signed_by pk (str "shadownet@" ++ pr_domain r) payload sig
    ∧ dict_get (str "shadownet:pk") card = Some (JStr (fc_shadow_public_key fc))
    ∧ parse_public_key (fc_shadow_public_key fc) = Ok raw ∧ length raw = 32%nat
    ∧ dict_get (str "shadownet:v") card = Some (JStr (str "0.2")) ∧ fc_endpoint_url fc ≠ [].
Proof.
  intros (payload & sig & pk & sigs & Hn & Hd & Hs & Hp & Hi & Hk & Hsig & Hpk & (raw & Hraw & Hlen) & Hv & _ & Hu & _)%verify_agent_card_ok.
  apply interface_url_ok in Hu as (_ & _ & _ & _ & Hu). exists payload, sig, pk, sigs, raw. split_and!; done.
Qed.

(** The signed payload determines what the caller uses of a card: two cards
    with the same canonical payload that both verify give the same signing
    key and the same endpoint, whatever else (empty values, key order,
    signatures) differs between them. *)
Lemma card_payload_binds (c1 c2 : pydict) (r1 r2 : ProviderRecord) (n1 n2 : pystr)
    (f1 f2 : FetchedAgentCard) (payload : pybytes) :
  wf_json (JDict c1) = true → wf_json (JDict c2) = true →
  verify_agent_card c1 r1 n1 = Ok f1 → verify_agent_card c2 r2 n2 = Ok f2 →
  _canonical_card_payload c1 = Ok payload → _canonical_card_payload c2 = Ok payload →
  fc_shadow_public_key f1 = fc_shadow_public_key f2 ∧ fc_endpoint_url f1 = fc_endpoint_url f2.
Proof.
  intros W1 W2 V1 V2 P1 P2.
  apply verify_agent_card_ok in V1 as (_ & _ & _ & _ & _ & _ & _ & _ & _ & _ & _ & K1 & (raw1 & R1 & _) & _ & _ & U1 & _).
  apply verify_agent_card_ok in V2 as (_ & _ & _ & _ & _ & _ & _ & _ & _ & _ & _ & K2 & (raw2 & R2 & _) & _ & _ & U2 & _).
  destruct (payload_out c1 payload W1 P1) as (o1 & WF1 & C1 & G1), (payload_out c2 payload W2 P2) as (o2 & WF2 & C2 & G2).
  pose proof (proj1 (canonicalize_eq _ _ _ (proj1 WF1) (proj1 WF2) C1) C2) as Hn. split.
  - eapply (same_str o1 o2 (str "shadownet:pk")); [done..| |].
    + apply (payload_str c1); [done|done| |done]. intros E. rewrite E in R1. by vm_compute in R1.
    + apply (payload_str c2); [done|done| |done]. intros E. rewrite E in R2. by vm_compute in R2.
  - apply interface_url_ok in U1 as (i1 & l1 & I1 & U1 & N1), U2 as (i2 & l2 & I2 & U2 & N2).
    pose proof (norm_dict_get (str "supportedInterfaces") o1 o2 WF1 WF2 Hn) as E.
    destruct (payload_interface c1 o1 i1 l1 _ WF1 W1 G1 I1 U1 N1) as (j1 & m1 & J1 & WJ1 & JU1).
    destruct (payload_interface c2 o2 i2 l2 _ WF2 W2 G2 I2 U2 N2) as (j2 & m2 & J2 & WJ2 & JU2).
    rewrite J1, J2 in E. cbn [fmap option_fmap option_map] in E.
    eapply (same_str j1 j2 (str "url")); [done..| |done|done].
    exact (f_equal (λ o, match o with Some (JList (x :: _)) => x | _ => JNull end) E).
Qed.
End card_properties.

Section card_roundtrip.
Context `{PyUnicode} `{Ed25519}.

Definition card_header (kid : pystr) : json :=
  JDict [(str "alg", JStr EXPECTED_ALG); (str "typ", JStr EXPECTED_TYP); (str "kid", JStr kid)].

Lemma card_header_wf kid : wf_str kid → well_formed (card_header kid).
Proof. intros Hk. unfold card_header. wf_dict. Qed.

Lemma ascii_utf8 s : Forall (λ c, 0 < c < 128) s → encode_utf8 s = Ok s.
Proof.
  intros Hs. unfold encode_utf8.
  assert (existsb is_surrogate s = false) as ->.
  { apply existsb_false_Forall. eapply Forall_impl; [exact Hs|]. unfold is_surrogate. intros c Hc.
    cbn beta in Hc. apply andb_false_iff. rewrite !Z.leb_gt. lia. }
  f_equal. induction Hs as [|c s Hc _ IH]; simpl; [done|]. rewrite IH. unfold utf8_char.
  by rewrite (proj2 (Z.ltb_lt c 128)) by lia.
Qed.

Lemma utf8_char_bytes c : is_codepoint c → is_bytes (utf8_char c).
Proof.
  unfold is_codepoint, utf8_char. intros Hc.
  repeat case_match; bool_prop; repeat apply Forall_cons_2; try apply Forall_nil_2;
    Z.to_euclidean_division_equations; lia.
Qed.

Lemma canonicalize_bytes v bs : well_formed v → canonicalize v = Ok bs → is_bytes bs.
Proof.
  intros Hw Hc. destruct (canonicalize_spec v Hw) as [Hs _]. rewrite Hc in Hs.
  pose proof (enc_scalar (norm v) (norm_wf v Hw)) as Hsc. unfold encode_utf8 in Hs. case_match; [done|]. res_inv.
  clear -Hsc. induction Hsc as [|c s [Hc _] _ IH]; simpl; [constructor|]. apply Forall_app. split; [by apply utf8_char_bytes|done].
Qed.

Lemma pruned_card body v : well_formed (JDict body) → dict_get (str "shadownet:v") body = Some (JStr v) → v ≠ [] →
  ∃ pruned bs, _strip_empty (JDict (without_signatures body)) = Some pruned ∧ canonicalize pruned = Ok bs ∧ is_bytes bs.
Proof.
  intros Hw Hv Hne.
  assert (well_formed (JDict (without_signatures body))) as Hw'.
  { apply well_formed_entries in Hw as [Hw Hn]. apply well_formed_entries. unfold without_signatures.
    rewrite keys_filter. split; [|by apply NoDup_filter_list].
    rewrite Forall_forall in *. intros kv Hin. apply Hw. unfold dict_filter in Hin.
    rewrite list_elem_of_In, filter_In, <-list_elem_of_In in Hin. by destruct Hin. }
  assert (dict_get (str "shadownet:v") (omap strip_entry (without_signatures body)) = Some (JStr v)) as Hg.
  { rewrite strip_get by (by apply well_formed_entries in Hw' as [_ ?]). unfold without_signatures.
    rewrite dict_get_filter, bool_decide_eq_false_2 by done. cbn [negb]. rewrite Hv. simpl. by destruct v. }
  destruct (_strip_empty (JDict (without_signatures body))) as [pruned|] eqn:E.
  2: { rewrite strip_dict in E. by destruct (omap strip_entry (without_signatures body)). }
  pose proof (strip_well_formed _ Hw' _ E) as Hp. destruct (canonicalize_spec pruned Hp) as [_ Hok].
  destruct (canonicalize pruned) as [bs|] eqn:Ec; [|done]. exists pruned, bs. split_and!; [done..|].
  by apply (canonicalize_bytes pruned).
Qed.

Lemma signer_verifies_sign sk m pk :
  encode_public_key (ed_public sk) = Ok pk → signer_verifies (ed_sign sk m) m pk = true.
Proof.
  intros Hpk. destruct (encode_public_key_ok sk) as (k & Hk & Hp). rewrite Hpk in Hk. injection Hk as <-.
  unfold signer_verifies. rewrite Hp. cbn [mbind result_bind]. rewrite from_public_bytes_public. cbn [mbind result_bind].
  unfold verify, public_key. cbn [public_bytes]. rewrite ed_load_ok. cbn [mbind result_bind]. by rewrite ed_sign_verify.
Qed.

Lemma verify_one_signed sk kid pk bs signers :
  wf_str kid → is_bytes bs → encode_public_key (ed_public sk) = Ok pk → pk ∈ signers →
  let hb := json_dumps_compact (card_header kid) in
  _verify_one [(str "protected", JStr (_b64u hb)); (str "signature", JStr (_b64u (ed_sign sk (_b64u hb ++ [46] ++ _b64u bs))))]
    (_b64u bs) signers kid = Ok tt.
Proof.
  intros Hkid Hb Hpk Hin hb. pose proof (card_header_wf kid Hkid) as Hhw.
  pose proof (dumps_compact_ascii _ (proj2 Hhw)) as Hasc. fold hb in Hasc.
  assert (Hhb : is_bytes hb) by (eapply Forall_impl; [exact Hasc|]; cbn beta; lia).
  unfold _verify_one. set (obj := [_; _]).
  assert (get_str (str "protected") obj = Some (_b64u hb)) as -> by done.
  assert (get_str (str "signature") obj = Some (_b64u (ed_sign sk (_b64u hb ++ [46] ++ _b64u bs)))) as -> by done.
  cbn [of_option mbind result_bind]. rewrite (_b64u_roundtrip hb Hhb). cbn [mbind result_bind].
  rewrite json_loads_bytes_ascii by done.
  rewrite (proj2 (json_dumps_loads _ (proj1 Hhw) (proj2 Hhw)) : json_loads hb = Ok (card_header kid)). cbn [rethrow mbind result_bind of_option card_header].
  set (h := [_; _; _]).
  assert (get_is_str (str "alg") EXPECTED_ALG h = true) as -> by done.
  assert (get_is_str (str "typ") EXPECTED_TYP h = true) as -> by done.
  assert (get_is_str (str "kid") kid h = true) as -> by (cbn; by apply bool_decide_eq_true).
  cbn [negb raise_if mbind result_bind]. rewrite _b64u_roundtrip by apply ed_sign_bytes. cbn [rethrow mbind result_bind].
  unfold encode_ascii. rewrite (proj2 (forallb_Forall _ _)) by (by apply b64u_dot_ascii). cbn [mbind result_bind].
  assert (existsb (signer_verifies (ed_sign sk (_b64u hb ++ [46] ++ _b64u bs)) (_b64u hb ++ [46] ++ _b64u bs)) signers = true) as ->; [|done].
  apply existsb_exists. exists pk. split; [by apply list_elem_of_In|]. by apply signer_verifies_sign.
Qed.

(** Signing attaches a signature that the verifier's loop accepts. *)
Lemma sign_card_verifies body sk kid_arg domain_arg kid pk v :
  well_formed (JDict body) → dict_get (str "shadownet:v") body = Some (JStr v) → v ≠ [] → wf_str kid →
  encode_public_key (ed_public sk) = Ok pk →
  (kid_arg = Some kid ∧ domain_arg = None) ∨ (kid_arg = None ∧ ∃ d, domain_arg = Some d ∧ kid = str "shadownet@" ++ d) →
  ∃ card sigs payload, sign_agent_card_body body (generate sk) kid_arg domain_arg = Ok card
    ∧ card_signatures card = Ok sigs ∧ _canonical_card_payload card = Ok payload
    ∧ (∀ signers, pk ∈ signers → _verify_signatures sigs (_b64u payload) signers kid = Ok tt)
    ∧ ∀ k, k ≠ str "signatures" → dict_get k card = dict_get k body.
Proof.
  intros Hw Hv Hne Hkid Hpk Hargs.
  destruct (pruned_card body v Hw Hv Hne) as (pruned & bs & Hpr & Hbs & Hb).
  unfold sign_agent_card_body.
  assert ((match kid_arg, domain_arg with
    | None, None => Raise AgentCardError | None, Some d => Ok (str "shadownet@" ++ d)
    | Some k, None => Ok k | Some _, Some _ => Raise AgentCardError end : result pystr) = Ok kid) as ->.
  { destruct Hargs as [[-> ->]|[-> (d & -> & ->)]]; done. }
  cbn [mbind result_bind]. rewrite Hpr. cbn [of_option mbind result_bind]. rewrite Hbs. cbn [mbind result_bind].
  fold (card_header kid). pose proof (card_header_wf kid Hkid) as Hhw.
  pose proof (dumps_compact_ascii _ (proj2 Hhw)) as Hasc. rewrite ascii_utf8 by done. cbn [mbind result_bind].
  set (hb := json_dumps_compact (card_header kid)) in *.
  assert (Hhb : is_bytes hb) by (eapply Forall_impl; [exact Hasc|]; cbn beta; lia).
  assert (Hin : encode_ascii (_b64u hb ++ [46] ++ _b64u bs) = Ok (_b64u hb ++ [46] ++ _b64u bs)).
  { unfold encode_ascii. by rewrite (proj2 (forallb_Forall _ _)) by (by apply b64u_dot_ascii). }
  rewrite Hin. cbn [mbind result_bind sign generate _private].
  eexists _, _, bs. split; [reflexivity|]. split; [|split; [|split]].
  - unfold card_signatures, get_list. by rewrite dict_get_set, bool_decide_eq_true_2.
  - unfold _canonical_card_payload, without_signatures.
    rewrite dict_filter_set by (by rewrite bool_decide_eq_true_2). fold (without_signatures body). by rewrite Hpr.
  - intros signers Hs. pose proof (verify_one_signed sk kid pk bs signers Hkid Hb Hpk Hs) as Hone.
    cbv zeta in Hone. fold hb in Hone. cbn [_verify_signatures]. cbn [app] in *. by rewrite Hone.
  - intros k Hk. by rewrite dict_get_set, bool_decide_eq_false_2.
Qed.

(** The fields the verifier reads, of a card that has the standard body's. *)
Lemma verify_built_card card body r name canonical sigs payload pk url :
  (∀ k, k ≠ str "signatures" → dict_get k card = dict_get k body) →
  card_signatures card = Ok sigs → _canonical_card_payload card = Ok payload →
  _verify_signatures sigs (_b64u payload) (pr_provider_keys r) (str "shadownet@" ++ pr_domain r) = Ok tt →
  parse_shadowname name = Ok canonical → (partition_char 64 canonical).2 = pr_domain r →
  dict_get (str "shadownet:pk") body = Some (JStr pk) → is_ok (parse_public_key pk) = true →
  dict_get (str "shadownet:v") body = Some (JStr (str "0.2")) → _validate_extensions body = Ok tt →
  _supported_interface_url body = Ok url →
  verify_agent_card card r name
  = Ok {| fc_shadowname := canonical; fc_shadow_public_key := pk; fc_endpoint_url := url;
          fc_cache_max_age := None; fc_etag := None; fc_raw := card |}.
Proof.
  intros Hg Hs Hp Hver Hn Hd Hpk Hok Hv Hext Hu. unfold verify_agent_card.
  rewrite Hn. cbn [mbind result_bind]. rewrite bool_decide_eq_true_2 by done. cbn [negb raise_if mbind result_bind].
  rewrite Hs. cbn [mbind result_bind]. rewrite Hp. cbn [mbind result_bind]. rewrite Hver. cbn [mbind result_bind].
  unfold _require_str, get_str. rewrite !Hg, Hpk, Hv by done. cbn [of_option mbind result_bind].
  unfold card_key_ok. destruct (parse_public_key pk); [|done]. cbn [rethrow mbind result_bind].
  rewrite bool_decide_eq_true_2 by done. cbn [negb raise_if mbind result_bind].
  assert (_validate_extensions card = Ok tt) as ->.
  { rewrite <-Hext. unfold _validate_extensions, get_dict. by rewrite Hg. }
  assert (_supported_interface_url card = Ok url) as ->; [|done].
  rewrite <-Hu. unfold _supported_interface_url, get_list. by rewrite Hg.
Qed.

(** C16: a card the provider builds and signs verifies for every Shadowname of
    that provider, against any record that lists the provider's key, and
    gives back the Shadow's key and endpoint. *)
Theorem signed_card_verifies (name description version url pk domain shadowname canonical : pystr)
    (sk : ed_secret) (r : ProviderRecord) (provider_pk : pystr) :
  let body := build_unsigned_agent_card_body name description version url pk (str "HTTP+JSON") (str "1.0") None in
  well_formed (JDict body) → wf_str domain → url ≠ [] → is_ok (parse_public_key pk) = true →
  pr_domain r = domain → encode_public_key (ed_public sk) = Ok provider_pk → provider_pk ∈ pr_provider_keys r →
  parse_shadowname shadowname = Ok canonical → (partition_char 64 canonical).2 = domain →
  ∃ card, build_signed_agent_card name description version url pk (generate sk) domain None = Ok card
    ∧ verify_agent_card card r shadowname
      = Ok {| fc_shadowname := canonical; fc_shadow_public_key := pk; fc_endpoint_url := url;
              fc_cache_max_age := None; fc_etag := None; fc_raw := card |}.
Proof.
  intros body Hw Hd Hurl Hpk Hr Hppk Hin Hn Hp. unfold build_signed_agent_card. fold body.
  destruct (sign_card_verifies body sk None (Some domain) (str "shadownet@" ++ domain) provider_pk (str "0.2"))
    as (card & sigs & payload & Hs & Hsigs & Hpay & Hver & Hg); try done.
  { destruct Hd as [Hd1 Hd2]. split; [apply Forall_app; split; [apply codepointb_Forall; done|done]|].
    by rewrite existsb_app, Hd2. }
  { right. split; [done|]. by exists domain. }
  exists card. split; [done|]. eapply (verify_built_card card body); try done.
  - rewrite Hr. by apply Hver.
  - by rewrite Hp.
  - unfold body. cbn. by destruct url.
Qed.
End card_roundtrip.

(** ** Examples *)

#[local] Existing Instance ascii_unicode.
#[local] Existing Instance toy_ed25519.

Definition demo_provider : ProviderRecord := {|
  pr_domain := str "acme.example"; pr_version := str "0.2"; pr_endpoint := str "https://sn.acme.example/";
  pr_provider_keys := [demo_issuer_key]; pr_is_issuer := true; pr_delegates := [] |}.

Definition demo_card : pydict :=
  match build_signed_agent_card (str "Ann") (str "an agent") (str "1") (str "https://ann.example/a2a") demo_pk
          (demo_pair 77) (str "acme.example") None with Ok c => c | Raise _ => [] end.

Definition demo_fetched (card : pydict) : FetchedAgentCard :=
  {| fc_shadowname := str "ann@acme.example"; fc_shadow_public_key := demo_pk;
     fc_endpoint_url := str "https://ann.example/a2a"; fc_cache_max_age := None; fc_etag := None; fc_raw := card |}.

Lemma signed_card_verifies_witness :
  ∃ card, build_signed_agent_card (str "Ann") (str "an agent") (str "1") (str "https://ann.example/a2a") demo_pk
    (generate (77 : @ed_secret toy_ed25519)) (str "acme.example") None = Ok card
    ∧ verify_agent_card card demo_provider (str "Ann@Acme.Example") = Ok (demo_fetched card).
Proof.
  apply (signed_card_verifies (str "Ann") (str "an agent") (str "1") (str "https://ann.example/a2a") demo_pk
    (str "acme.example") (str "Ann@Acme.Example") (str "ann@acme.example") (77 : @ed_secret toy_ed25519)
    demo_provider demo_issuer_key).
  - apply well_formed_dec. vm_compute. reflexivity.
  - wf_lit.
  - done.
  - vm_compute. reflexivity.
  - reflexivity.
  - vm_compute. reflexivity.
  - left.
  - vm_compute. reflexivity.
  - vm_compute. reflexivity.
Defined.

Lemma demo_card_verifies : verify_agent_card demo_card demo_provider (str "ann@acme.example") = Ok (demo_fetched demo_card).
Proof. vm_compute. reflexivity. Qed.

Lemma verify_agent_card_sound_witness :
  verify_agent_card demo_card demo_provider (str "ann@acme.example") = Ok (demo_fetched demo_card)
  ∧ ∃ raw, parse_public_key demo_pk = Ok raw ∧ length raw = 32%nat.
Proof.
  split; [exact demo_card_verifies|].
  destruct (verify_agent_card_sound _ _ _ _ demo_card_verifies)
    as (_ & _ & _ & _ & raw & _ & _ & _ & _ & _ & _ & _ & _ & Hraw & Hlen & _).
  exists raw. split; [exact Hraw|exact Hlen].
Defined.

(** The same card with an empty value added and its keys reversed. *)
Definition demo_card' : pydict := rev ((str "tags", JList []) :: demo_card).

Lemma card_payload_binds_example :
  fc_shadow_public_key (demo_fetched demo_card) = fc_shadow_public_key (demo_fetched demo_card')
  ∧ fc_endpoint_url (demo_fetched demo_card) = fc_endpoint_url (demo_fetched demo_card').
Proof.
  apply (card_payload_binds demo_card demo_card' demo_provider demo_provider (str "ann@acme.example")
    (str "ann@acme.example") (demo_fetched demo_card) (demo_fetched demo_card')
    (match _canonical_card_payload demo_card with Ok b => b | Raise _ => [] end)); vm_compute; reflexivity.
Qed.

(** The pinned self-signed scheme of a direct card is an empty object, so it is
    stripped before signing: removing the declaration, or adding it, leaves the
    signed payload as it was. *)
Lemma pinned_scheme_is_not_signed :
  let body := build_unsigned_agent_card_body (str "Ann") [] (str "1") (str "https://a.example") demo_pk
                (str "HTTP+JSON") (str "1.0") None in
  _canonical_card_payload (dict_set (str "securitySchemes") (JDict [(PINNED_SELF_SIGNED_SCHEME, JDict [])]) body)
  = _canonical_card_payload body.
Proof. vm_compute. reflexivity. Qed.

(** A protected header that is JSON but no object escapes as [AttributeError]. *)
Lemma header_list_escapes :
  _verify_signatures [JDict [(str "protected", JStr (_b64u (str "[]"))); (str "signature", JStr (str "AA"))]]
    [] [] [] = Raise AttributeError.
Proof. vm_compute. reflexivity. Qed.
