(* ===== verification/Coroutine.v ===== *)
(** * Coroutines

    An [async def] body runs without interruption from one suspension to the
    next; at a suspension any other task may run and change the world.  [co W A]
    is a coroutine over the world [W] that returns an [A]: running it from a
    world gives the world at its next suspension or at its end.

    A pool of tasks under an arbitrary scheduler is the step relation
    [pool_step].  [drive] runs a coroutine alone, to its end. *)

From S2P Require Import Prelude.

Inductive co (W A : Type) : Type :=
  | Co (resume : W → W * (result A + co W A)).
Arguments Co {W A} resume.

Definition resume {W A} (c : co W A) : W → W * (result A + co W A) := let '(Co f) := c in f.

(** Code between two suspensions. *)
Definition sync {W A} (m : M W A) : co W A := Co (λ w, let '(w', r) := m w in (w', inl r)).

(** A suspension: control goes to the event loop and comes back. *)
Definition yield {W} : co W unit := Co (λ w, (w, inr (sync (mret tt)))).

Fixpoint co_bind_go {W A B} (k : A → co W B) (c : co W A) : co W B :=
  let '(Co f) := c in
  Co (λ w, match f w with
           | (w', inl (Ok a)) => resume (k a) w'
           | (w', inl (Raise e)) => (w', inl (Raise e))
           | (w', inr c') => (w', inr (co_bind_go k c'))
           end).
#[global] Instance co_ret W : MRet (co W) := λ A a, sync (mret a).
#[global] Instance co_bind W : MBind (co W) := λ A B, co_bind_go.

(** [try: await c except C as exc: raise f(exc)] *)
Fixpoint rethrowC {W A} (catches : exn → bool) (f : exn → exn) (c : co W A) : co W A :=
  let '(Co g) := c in
  Co (λ w, match g w with
           | (w', inl r) => (w', inl (rethrow catches f r))
           | (w', inr c') => (w', inr (rethrowC catches f c'))
           end).

(** An operation of a store behind a connection: the task is suspended while
    the request travels and while the answer does. *)
Definition remote {W A} (m : M W A) : co W A := _ ← yield; a ← sync m; _ ← yield; mret a.

(** Running alone. *)
Fixpoint drive {W A} (c : co W A) : M W A :=
  let '(Co f) := c in λ w,
  match f w with
  | (w', inl r) => (w', r)
  | (w', inr c') => drive c' w'
  end.

(** ** Induction and the laws of [drive] *)

Lemma co_induction {W A} (P : co W A → Prop) :
  (∀ f, (∀ w w' c, f w = (w', inr c) → P c) → P (Co f)) → ∀ c, P c.
Proof.
  intros Hstep. fix IH 1. intros [f]. apply Hstep. intros w.
  destruct (f w) as [w1 [r|c1]]; intros w' c E; [discriminate E|].
  assert (c1 = c) as <- by congruence. apply IH.
Qed.

Section drive.
Context {W A B : Type}.

Lemma drive_bind (c : co W A) (k : A → co W B) w :
  drive (c ≫= k) w = (drive c ≫= λ a, drive (k a)) w.
Proof.
  revert w. induction c as [f IH] using co_induction. intros w. unfold mbind at 1, co_bind. cbn [co_bind_go drive].
  unfold mbind, M_bind. destruct (f w) as [w' [[a|e]|c']] eqn:E; [|done|].
  - cbn. destruct (k a) as [g]. done.
  - exact (IH _ _ _ E w').
Qed.

Lemma drive_rethrow catches f (c : co W A) w : drive (rethrowC catches f c) w = rethrowM catches f (drive c) w.
Proof.
  revert w. induction c as [g IH] using co_induction. intros w. unfold rethrowM. cbn [rethrowC drive].
  destruct (g w) as [w' [r|c']] eqn:E; [done|]. exact (IH _ _ _ E w').
Qed.

Lemma drive_sync (m : M W A) w : drive (sync m) w = m w.
Proof. cbn. by destruct (m w). Qed.
End drive.

Lemma drive_remote {W A} (m : M W A) w : drive (remote m) w = m w.
Proof.
  unfold remote. rewrite drive_bind, (M_bind_run _ _ _ w tt) by done.
  rewrite drive_bind. unfold mbind at 1, M_bind at 1. rewrite drive_sync.
  destruct (m w) as [w' [a|e]]; [|done]. by rewrite drive_bind, (M_bind_run _ _ _ w' tt).
Qed.

(** [drives c m]: run alone, [c] does what [m] does. *)
Definition drives {W A} (c : co W A) (m : M W A) : Prop := ∀ w, drive c w = m w.

Section drives.
Context {W A B : Type}.

Lemma drives_bind (c : co W A) (m : M W A) (k : A → co W B) (k' : A → M W B) :
  drives c m → (∀ a, drives (k a) (k' a)) → drives (c ≫= k) (m ≫= k').
Proof.
  intros Hc Hk w. rewrite drive_bind. unfold mbind, M_bind. rewrite Hc.
  destruct (m w) as [w' [a|e]]; [apply Hk|done].
Qed.

Lemma drives_rethrow catches f (c : co W A) m : drives c m → drives (rethrowC catches f c) (rethrowM catches f m).
Proof. intros Hc w. rewrite drive_rethrow. unfold rethrowM. by rewrite Hc. Qed.

Lemma drives_sync (m : M W A) : drives (sync m) m.
Proof. intros w. apply drive_sync. Qed.

Lemma drives_remote (m : M W A) : drives (remote m) m.
Proof. intros w. apply drive_remote. Qed.

Lemma drives_ret (a : A) : drives (mret a) (mret a : M W A).
Proof. done. Qed.
End drives.

(** A stretch of code without suspension can be taken step by step. *)
Lemma drives_sync_bind {W A B C} (m : M W A) (f : A → M W B) (k : B → co W C) (n : M W C) :
  drives (sync m ≫= λ a, sync (f a) ≫= k) n → drives (sync (m ≫= f) ≫= k) n.
Proof.
  intros Hn w. rewrite <-Hn, !drive_bind. unfold mbind, M_bind. rewrite !drive_sync.
  destruct (m w) as [w' [a|e]]; [|done]. pose proof (drive_bind (sync (f a)) k w') as Hb.
  unfold mbind at 2, M_bind in Hb. rewrite drive_sync in Hb. symmetry. exact Hb.
Qed.

Lemma drives_ret_bind {W A B} (a : A) (k : A → co W B) (n : M W B) :
  drives (k a) n → drives (sync (mret a) ≫= k) n.
Proof. intros Hn w. rewrite drive_bind. exact (Hn w). Qed.

#[export] Hint Resolve drives_sync drives_remote drives_ret drives_rethrow : shadownet.

(** Walks through a coroutine and its synchronous sibling together. *)
Ltac drive :=
  repeat first
    [ match goal with |- drives (_ ≫= _) _ => apply drives_bind; [|intros ?] end
    | match goal with |- drives (match ?x with _ => _ end) _ => destruct x end
    | match goal with |- drives (if ?x then _ else _) _ => destruct x end
    | progress cbv zeta ];
  eauto with shadownet.

(** ** Tasks *)

(** A task is running or has its result. *)
Abbreviation task W A := (result A + co W A)%type.

(** Running one task of a pool to its next suspension. *)
Inductive pool_step {W A} : list (task W A) * W → list (task W A) * W → Prop :=
  | run_task i c pool w w' x :
      pool !! i = Some (inr c) → resume c w = (w', x) → pool_step (pool, w) (<[i := x]> pool, w').

(** ** What every stretch of a coroutine keeps *)

Inductive co_keeps {W A} (R : relation W) : co W A → Prop :=
  | co_keep f : (∀ w w' x, f w = (w', x) → R w w') → (∀ w w' c, f w = (w', inr c) → co_keeps R c) →
      co_keeps R (Co f).

Section co_keeps.
Context {W : Type} (R : relation W) `{!PreOrder R}.

Lemma co_keeps_sync {A} (m : M W A) : keeps R m → co_keeps R (sync m).
Proof.
  intros Hm. split; intros w w' x; destruct (m w) as [w1 r] eqn:E; [|done]. intros [= <- _]. by eapply Hm.
Qed.

Lemma co_keeps_ret {A} (a : A) : co_keeps R (mret a : co W A).
Proof. apply co_keeps_sync, keeps_ret, _. Qed.

Lemma co_keeps_resume {A} (c : co W A) w w' x : co_keeps R c → resume c w = (w', x) → R w w'.
Proof. intros [f Hf _] E. by eapply Hf. Qed.

Lemma co_keeps_next {A} (c : co W A) w w' c' : co_keeps R c → resume c w = (w', inr c') → co_keeps R c'.
Proof. intros [f _ Hf] E. by eapply Hf. Qed.

Lemma co_keeps_bind {A B} (c : co W A) (k : A → co W B) :
  co_keeps R c → (∀ a, co_keeps R (k a)) → co_keeps R (c ≫= k).
Proof.
  intros Hc Hk. induction Hc as [f Hf _ IH]. split; intros w w' x; cbn.
  - destruct (f w) as [w1 [[a|e]|c]] eqn:E; [|intros [= <- _]; by eapply Hf..].
    intros Ha. transitivity w1; [by eapply Hf|]. by eapply co_keeps_resume.
  - destruct (f w) as [w1 [[a|e]|c]] eqn:E; [|done|].
    + intros Ha. by eapply co_keeps_next.
    + intros [= <- <-]. by eapply IH.
Qed.

Lemma co_keeps_rethrow {A} catches g (c : co W A) : co_keeps R c → co_keeps R (rethrowC catches g c).
Proof.
  intros Hc. induction Hc as [f Hf _ IH]. split; intros w w' x; cbn.
  - destruct (f w) as [w1 [r|c]] eqn:E; intros [= <- _]; by eapply Hf.
  - destruct (f w) as [w1 [r|c]] eqn:E; [done|]. intros [= <- <-]. by eapply IH.
Qed.

Lemma co_keeps_yield : co_keeps R (yield : co W unit).
Proof.
  split; [by intros w w' x [= <- _]|]. intros w w' c [= _ <-]. apply co_keeps_sync, keeps_ret, _.
Qed.

Lemma co_keeps_remote {A} (m : M W A) : keeps R m → co_keeps R (remote m).
Proof.
  intros Hm. apply co_keeps_bind; [apply co_keeps_yield|intros _].
  apply co_keeps_bind; [by apply co_keeps_sync|intros a].
  apply co_keeps_bind; [apply co_keeps_yield|intros _]. apply co_keeps_ret.
Qed.
End co_keeps.

#[export] Hint Resolve co_keeps_sync co_keeps_ret co_keeps_rethrow co_keeps_remote : shadownet.

Ltac co_keep :=
  repeat first
    [ match goal with |- co_keeps _ (_ ≫= _) => apply co_keeps_bind; [apply _| |intros ?] end
    | match goal with |- co_keeps _ (match ?x with _ => _ end) => destruct x end
    | match goal with |- co_keeps _ (if ?x then _ else _) => destruct x end
    | progress cbv zeta ];
  eauto with shadownet typeclass_instances.
