(* ===== verification/Receiver.v ===== *)
(** * The receiver pipeline — [shadownet/receiver.py]

    [ReceiverPipeline.receive]: extraction, sender resolution, envelope
    verification, message hash, replay cache, credentials and classification.
    The pipeline is written against interfaces, as in the source: the
    [ReplayCache], [ContactGraph] and [CredentialCache] protocols and the
    injected callbacks are classes over a world [W] that every operation may
    change.  [Stores] gives the in-memory implementations. *)

From S2P Require Import Prelude PyStr Base64 Multibase Identifiers Jcs Dicts Crypto Provider Pydantic.
From S2P Require Import Credential Status Trust Envelope A2A AgentCard.

Definition REPLAY_CACHE_RETENTION : Z := 10 * 60.
Definition AUTO_ADD_LOOKBACK_DEFAULT : Z := 7 * 24 * 60 * 60.
Definition CREDENTIAL_CACHE_LEEWAY : Z := 60.
Definition CREDENTIAL_CACHE_DEFAULT_TTL : Z := 30 * 24 * 60 * 60.

Inductive Route := Inbox | StrangerReview.
#[global] Instance Route_eq_dec : EqDecision Route.
Proof. solve_decision. Defined.

Record AcceptedDecision := {
  ad_route : Route;
  ad_sender : pystr;
  ad_envelope : EnvelopePayload;
  ad_auto_added_contact : bool;
}.

Record ReceiverConfig := {
  cfg_subject : pystr;
  cfg_trust_store : TrustStore;
  cfg_policy : AcceptancePolicy;
  cfg_same_provider_org : bool;
  cfg_auto_add_lookback_seconds : Z;
  cfg_leeway_seconds : Z;
}.

(** ** Interfaces *)

Class ReplayCache (W : Type) : Type := {
  rc_seen : pystr → pystr → M W bool;
  rc_remember : pystr → pystr → Z → M W unit;
}.

Class ContactGraph (W : Type) : Type := {
  cg_is_contact : pystr → M W bool;
  (** [context_id], [peer], [lookback_seconds] *)
  cg_has_recent_outbound : pystr → pystr → Z → M W bool;
  cg_add_contact : pystr → M W unit;
}.

Class CredentialCache (W : Type) : Type := {
  cc_for_sender : pystr → M W (list VerifiedCredential);
  cc_cache : pystr → VerifiedCredential → Z → M W unit;
}.

(** The callbacks given to the constructor. *)
Class ReceiverEnv (W : Type) : Type := {
  env_provider_lookup : pystr → M W ProviderRecord;
  env_fetch_agent_card : pystr → ProviderRecord → M W FetchedAgentCard;
  env_revocation_check : VerifiedCredential → M W unit;
  env_now : M W Z;
}.

(** ** The pipeline *)

Section pipeline.
Context `{PyUnicode} `{Pydantic} `{PyJWT} {W : Type}.
Context `{!ReplayCache W} `{!ContactGraph W} `{!CredentialCache W} `{!ReceiverEnv W}.
Context (config : ReceiverConfig).

Definition _resolve_issuer_key (issuer : pystr) : M W pystr :=
  if is_public_key_identifier issuer then mret issuer
  else
    record ← rethrowM is_ProviderResolutionError (λ _, CredentialError) (env_provider_lookup issuer);
    lift (of_option CredentialError (head (pr_provider_keys record))).

Definition _check_issuer_authorized_for_org (issuer org : pystr) : M W unit :=
  if bool_decide (issuer = org) then mret tt
  else if is_public_key_identifier issuer || is_public_key_identifier org then lift (Raise CredentialError)
  else
    sub ← lift (is_subdomain_of issuer org);
    if (sub : bool) then mret tt
    else
      org_record ← rethrowM is_ProviderResolutionError (λ _, CredentialError) (env_provider_lookup org);
      if bool_decide (py_lower issuer ∈ map py_lower (pr_delegates org_record)) then mret tt
      else lift (Raise CredentialError).

Definition is_CredentialError (e : exn) : bool := bool_decide (e = CredentialError).
Definition is_StatusListError (e : exn) : bool := bool_decide (e = StatusListError).

(** One credential of the loop in [_validate_creds]. *)
Definition validate_cred (sender jws : pystr) : M W VerifiedCredential :=
  now ← env_now;
  cred ← rethrowM is_CredentialError (λ _, Wire CredsRejectedError)
           (verify_credential now (cfg_leeway_seconds config) _resolve_issuer_key
              _check_issuer_authorized_for_org jws);
  _ ← rethrowM is_StatusListError (λ _, Wire CredsRejectedError) (env_revocation_check cred);
  now2 ← env_now;
  _ ← cc_cache sender cred (Z.min (cp_exp (vc_payload cred) - CREDENTIAL_CACHE_LEEWAY)
                                  (now2 + CREDENTIAL_CACHE_DEFAULT_TTL));
  mret cred.

Fixpoint validate_creds_loop (sender : pystr) (creds : list pystr) : M W (list VerifiedCredential) :=
  match creds with
  | [] => mret []
  | jws :: creds =>
      cred ← validate_cred sender jws;
      rest ← validate_creds_loop sender creds;
      mret (cred :: rest)
  end.

Definition _validate_creds (envelope : EnvelopePayload) (sender : pystr) : M W (list VerifiedCredential) :=
  match ep_creds envelope with
  | [] => cc_for_sender sender
  | creds => validate_creds_loop sender creds
  end.

(** The same-provider shortcut. *)
Definition same_provider (sender_provider_record : option ProviderRecord) : result bool :=
  match sender_provider_record with
  | Some r =>
      if cfg_same_provider_org config && is_shadowname (cfg_subject config) then
        '(_, recipient_provider) ← split_shadowname (cfg_subject config);
        Ok (bool_decide (recipient_provider = pr_domain r))
      else Ok false
  | None => Ok false
  end.

(** [context_id and self._contacts.has_recent_outbound(...)] *)
Definition recent_outbound (context_id : option pystr) (sender : pystr) : M W bool :=
  match context_id with
  | Some (c :: s) => cg_has_recent_outbound (c :: s) sender (cfg_auto_add_lookback_seconds config)
  | _ => mret false
  end.

Definition _classify (sender : pystr) (sender_provider_record : option ProviderRecord)
    (credentials : list VerifiedCredential) (context_id : option pystr) : M W (Route * bool) :=
  same ← lift (same_provider sender_provider_record);
  if (same : bool) then mret (Inbox, false)
  else
    contact ← cg_is_contact sender;
    if (contact : bool) then mret (Inbox, false)
    else
      recent ← recent_outbound context_id sender;
      if (recent : bool) then
        _ ← cg_add_contact sender;
        mret (Inbox, true)
      else
        let required := required_kinds (cfg_policy config) false in
        match required with
        | [] => lift (Raise (Wire PolicyError))
        | _ =>
            ok ← lift (satisfies_policy credentials (cfg_trust_store config) required);
            if (ok : bool) then mret (StrangerReview, false)
            else match credentials with
                 | [] => lift (Raise (Wire CredsRequiredError))
                 | _ => lift (Raise (Wire CredsRejectedError))
                 end
        end.

(** [section 8.6, step 5]: the sender's key, and the provider record of a
    Shadowname. *)
Definition resolve_sender (sender : pystr) : M W (Ed25519KeyPair * option ProviderRecord) :=
  if is_public_key_identifier sender then
    raw ← lift (parse_public_key sender);
    key ← lift (from_public_bytes raw);
    mret (key, None)
  else
    record ← rethrowM is_ProviderResolutionError (λ _, Wire SignatureError)
               ('(_, sender_provider) ← lift (split_shadowname sender); env_provider_lookup sender_provider);
    card ← rethrowM is_AgentCardError (λ _, Wire SignatureError) (env_fetch_agent_card sender record);
    raw ← lift (parse_public_key (fc_shadow_public_key card));
    key ← lift (from_public_bytes raw);
    mret (key, Some record).

Definition is_EnvelopeError (e : exn) : bool := match e with EnvelopeError _ => true | _ => false end.

(** The wire class of an [EnvelopeError], by its text. *)
Definition envelope_error_class (e : exn) : exn :=
  if contains (str "signature") (py_lower (exn_text e)) then Wire SignatureError else Wire ParseError.

(** Header and claims of the envelope, unverified; any exception is a parse
    error. *)
Definition preparse (envelope_jws : pystr) : result (pydict * pydict) :=
  rethrow (λ _, true) (λ _, Wire ParseError)
    (header ← decode_header envelope_jws;
     unverified ← decode_unverified_claims envelope_jws;
     Ok (header, unverified)).

Definition addresses (header unverified : pydict) : result (pystr * pystr) :=
  match get_str (str "from") unverified, get_str (str "to") unverified with
  | Some sender_raw, Some recipient_raw =>
      _ ← raise_if (negb (get_is_str (str "kid") sender_raw header)) (Wire ParseError);
      rethrow (λ _, true) (λ _, Wire ParseError)
        (sender ← canonicalize_identifier sender_raw;
         recipient ← canonicalize_identifier recipient_raw;
         Ok (sender, recipient))
  | _, _ => Raise (Wire ParseError)
  end.

Definition message_id_of (message : pydict) : result pystr :=
  match get_str (str "messageId") message with
  | Some (c :: s) => Ok (c :: s)
  | _ => Raise (Wire ParseError)
  end.

Definition context_id_of (message : pydict) : result (option pystr) :=
  match dict_get (str "contextId") message with
  | None | Some JNull => Ok None
  | Some (JStr s) => Ok (Some s)
  | Some _ => Raise (Wire ParseError)
  end.

Definition receive (request_body : json) : M W AcceptedDecision :=
  '(envelope_jws, message) ← lift (extract_envelope_jws request_body);
  '(header, unverified) ← lift (preparse envelope_jws);
  '(sender, recipient) ← lift (addresses header unverified);
  _ ← lift (raise_if (negb (bool_decide (recipient = cfg_subject config))) (Wire UnknownRecipientError));
  '(sender_key, sender_provider_record) ← resolve_sender sender;
  now ← env_now;
  envelope ← lift (rethrow is_EnvelopeError envelope_error_class
                     (verify_envelope envelope_jws sender_key (cfg_subject config) now (cfg_leeway_seconds config)));
  recomputed ← lift (compute_msg_hash message);
  _ ← lift (raise_if (negb (bool_decide (recomputed = ep_msg_hash envelope))) (Wire ParseError));
  message_id ← lift (message_id_of message);
  seen ← rc_seen sender message_id;
  _ ← lift (raise_if seen (Wire ReplayError));
  _ ← rc_remember sender message_id REPLAY_CACHE_RETENTION;
  sender_credentials ← _validate_creds envelope sender;
  context_id ← lift (context_id_of message);
  '(route, auto_added) ← _classify sender sender_provider_record sender_credentials context_id;
  mret {| ad_route := route; ad_sender := sender; ad_envelope := envelope; ad_auto_added_contact := auto_added |}.
End pipeline.

(** ** The extension header *)

Definition header_includes_extension (a2a_extensions_header : option pystr) : bool :=
  match a2a_extensions_header with
  | None | Some [] => false
  | Some h =>
      bool_decide (ENVELOPE_EXTENSION_URI ∈
        List.filter (λ t, negb (bool_decide (t = []))) (map strip (split_on 44 h)))
  end.

Definition ensure_extension_declared (a2a_extensions_header : option pystr) : result unit :=
  raise_if (negb (header_includes_extension a2a_extensions_header)) (Wire ParseError).

(** ** Lemmas *)

Section receiver_lemmas.
Context `{PyUnicode} `{Pydantic} `{PyJWT} {W : Type}.
Context `{!ReplayCache W} `{!ContactGraph W} `{!CredentialCache W} `{!ReceiverEnv W}.
Context (config : ReceiverConfig).

(** The steps of a run that accepts. *)
Lemma receive_ok req (w w' : W) d :
  receive config req w = (w', Ok d) →
  ∃ jws message header claims key rec w1 now w2 mid w3 w4 creds w5 ctx,
    extract_envelope_jws req = Ok (jws, message)
    ∧ preparse jws = Ok (header, claims) ∧ addresses header claims = Ok (ad_sender d, cfg_subject config)
    ∧ resolve_sender (ad_sender d) w = (w1, Ok (key, rec))
    ∧ env_now w1 = (w2, Ok now)
    ∧ verify_envelope jws key (cfg_subject config) now (cfg_leeway_seconds config) = Ok (ad_envelope d)
    ∧ compute_msg_hash message = Ok (ep_msg_hash (ad_envelope d))
    ∧ message_id_of message = Ok mid
    ∧ rc_seen (ad_sender d) mid w2 = (w3, Ok false)
    ∧ rc_remember (ad_sender d) mid REPLAY_CACHE_RETENTION w3 = (w4, Ok tt)
    ∧ _validate_creds config (ad_envelope d) (ad_sender d) w4 = (w5, Ok creds)
    ∧ context_id_of message = Ok ctx
    ∧ _classify config (ad_sender d) rec creds ctx w5 = (w', Ok (ad_route d, ad_auto_added_contact d)).
Proof.
  unfold receive. intros Hr.
  apply M_bind_ok in Hr as ([jws message] & ? & [-> Hext]%lift_ok & Hr).
  apply M_bind_ok in Hr as ([header claims] & ? & [-> Hpre]%lift_ok & Hr).
  apply M_bind_ok in Hr as ([sender recipient] & ? & [-> Hadr]%lift_ok & Hr).
  apply M_bind_ok in Hr as (? & ? & [-> Hto%raise_if_ok]%lift_ok & Hr).
  apply M_bind_ok in Hr as ([key rec] & w1 & Hres & Hr).
  apply M_bind_ok in Hr as (now & w2 & Hnow & Hr).
  apply M_bind_ok in Hr as (envelope & ? & [-> Henv%rethrow_ok]%lift_ok & Hr).
  apply M_bind_ok in Hr as (recomputed & ? & [-> Hhash]%lift_ok & Hr).
  apply M_bind_ok in Hr as (? & ? & [-> Heq%raise_if_ok]%lift_ok & Hr).
  apply M_bind_ok in Hr as (mid & ? & [-> Hmid]%lift_ok & Hr).
  apply M_bind_ok in Hr as (seen & w3 & Hseen & Hr).
  apply M_bind_ok in Hr as (? & ? & [-> Hs%raise_if_ok]%lift_ok & Hr).
  apply M_bind_ok in Hr as ([] & w4 & Hrem & Hr).
  apply M_bind_ok in Hr as (creds & w5 & Hcreds & Hr).
  apply M_bind_ok in Hr as (ctx & ? & [-> Hctx]%lift_ok & Hr).
  apply M_bind_ok in Hr as ([route auto] & w6 & Hcl & Hr). apply M_ret_ok in Hr as [-> ->].
  bool_prop. subst. cbn [ad_sender ad_envelope ad_route ad_auto_added_contact].
  exists jws, message, header, claims, key, rec, w1, now, w2, mid, w3, w4, creds, w5, ctx.
  split_and!; assumption.
Qed.

Lemma preparse_ok jws header claims :
  preparse jws = Ok (header, claims) → pyjwt_header jws = Ok header ∧ pyjwt_claims jws = Ok claims.
Proof.
  unfold preparse. intros Hp. res_inv. rewrite decode_header_ok, decode_unverified_claims_ok in *. by simplify_eq.
Qed.

Lemma addresses_ok header claims sender recipient :
  addresses header claims = Ok (sender, recipient) →
  ∃ raw raw', get_str (str "from") claims = Some raw ∧ get_str (str "to") claims = Some raw'
    ∧ get_is_str (str "kid") raw header = true
    ∧ canonicalize_identifier raw = Ok sender ∧ canonicalize_identifier raw' = Ok recipient.
Proof.
  unfold addresses. intros Ha. repeat case_match; try done. res_inv. bool_prop. simplify_eq. eauto 10.
Qed.

(** The sender of the decision is the sender in the verified envelope. *)
Lemma sender_is_envelope_sender jws header claims sender recipient key now leeway p :
  preparse jws = Ok (header, claims) → addresses header claims = Ok (sender, recipient) →
  verify_envelope jws key recipient now leeway = Ok p → sender = ep_sender p.
Proof.
  intros [_ Hc]%preparse_ok (raw & raw' & Hf & _ & _ & Hs & _)%addresses_ok
    (hd & cl & _ & _ & _ & _ & Hcl & Hv & _)%verify_envelope_ok.
  rewrite Hc in Hcl. injection Hcl as <-.
  apply validate_fields in Hv as (_ & _ & _ & _ & (raw2 & Hr2 & Hs2) & _).
  unfold get_str in Hf. unfold get_alias in Hr2. repeat case_match; try done. simplify_eq. congruence.
Qed.
End receiver_lemmas.

(** ** What the parts of the pipeline keep

    If the callbacks and the credential cache keep a preorder, so do sender
    resolution and credential validation. *)

Class EnvKeeps {W : Type} (R : relation W) `{!ReceiverEnv W} : Prop := {
  ek_preorder :: PreOrder R;
  ek_lookup d : keeps R (env_provider_lookup d);
  ek_card n r : keeps R (env_fetch_agent_card n r);
  ek_revocation c : keeps R (env_revocation_check c);
  ek_now : keeps R env_now;
}.
Class CacheKeeps {W : Type} (R : relation W) `{!CredentialCache W} : Prop := {
  ek_for_sender s : keeps R (cc_for_sender s);
  ek_cache s c e : keeps R (cc_cache s c e);
}.
#[export] Hint Resolve ek_lookup ek_card ek_revocation ek_now ek_for_sender ek_cache : shadownet.

Section pipeline_keeps.
Context `{PyUnicode} `{Pydantic} `{PyJWT} {W : Type} (R : relation W).
Context `{!ReceiverEnv W} `{!EnvKeeps R}.

Lemma keeps_resolve_issuer_key issuer : keeps R (_resolve_issuer_key issuer).
Proof. unfold _resolve_issuer_key. keep. Qed.
Hint Resolve keeps_resolve_issuer_key : shadownet.

Lemma keeps_check_issuer issuer org : keeps R (_check_issuer_authorized_for_org issuer org).
Proof. unfold _check_issuer_authorized_for_org. keep. Qed.
Hint Resolve keeps_check_issuer : shadownet.

Lemma keeps_verify_credential now leeway token :
  keeps R (verify_credential now leeway _resolve_issuer_key _check_issuer_authorized_for_org token).
Proof. unfold verify_credential. keep. Qed.
Hint Resolve keeps_verify_credential : shadownet.

Lemma keeps_resolve_sender sender : keeps R (resolve_sender sender).
Proof.
  unfold resolve_sender. destruct (is_public_key_identifier sender); [keep|].
  apply keeps_bind; [apply _|apply keeps_rethrow; keep|intros r]. keep.
Qed.

Context `{!CredentialCache W} `{!CacheKeeps R} (config : ReceiverConfig).

Lemma keeps_validate_cred sender jws : keeps R (validate_cred config sender jws).
Proof. unfold validate_cred. keep. Qed.
Hint Resolve keeps_validate_cred : shadownet.

Lemma keeps_creds_loop sender creds : keeps R (validate_creds_loop config sender creds).
Proof. induction creds as [|jws creds IH]; cbn [validate_creds_loop]; keep. Qed.
Hint Resolve keeps_creds_loop : shadownet.

Lemma keeps_validate_creds env sender : keeps R (_validate_creds config env sender).
Proof. unfold _validate_creds. keep. Qed.
End pipeline_keeps.

(** ** Lemmas on the stages *)

Section stages.
Context `{PyUnicode} `{Pydantic} `{PyJWT} {W : Type}.
Context `{!ReplayCache W} `{!ContactGraph W} `{!CredentialCache W} `{!ReceiverEnv W}.
Context (config : ReceiverConfig).

(** Where the sender's key comes from. *)
Definition key_of_sender (sender : pystr) (w w' : W) (pk : pybytes) (rec : option ProviderRecord) : Prop :=
  (is_public_key_identifier sender = true ∧ parse_public_key sender = Ok pk ∧ rec = None ∧ w' = w)
  ∨ (∃ local provider record card wa, is_public_key_identifier sender = false
      ∧ split_shadowname sender = Ok (local, provider) ∧ env_provider_lookup provider w = (wa, Ok record)
      ∧ env_fetch_agent_card sender record wa = (w', Ok card)
      ∧ parse_public_key (fc_shadow_public_key card) = Ok pk ∧ rec = Some record).

Lemma resolve_sender_ok sender (w w' : W) key rec :
  resolve_sender sender w = (w', Ok (key, rec)) → key_of_sender sender w w' (public_bytes key) rec.
Proof.
  unfold resolve_sender, key_of_sender. destruct (is_public_key_identifier sender) eqn:Ek; intros Hr.
  - apply M_bind_ok in Hr as (raw & ? & [-> Hp]%lift_ok & Hr).
    apply M_bind_ok in Hr as (k & ? & [-> [Hk _]%from_public_bytes_ok]%lift_ok & Hr).
    apply M_ret_ok in Hr as [-> [= -> ->]]. left. by rewrite Hk.
  - apply M_bind_ok in Hr as (record & w1 & Hl%rethrowM_ok & Hr).
    apply M_bind_ok in Hl as ([local provider] & ? & [-> Hs]%lift_ok & Hl).
    apply M_bind_ok in Hr as (card & w2 & Hc%rethrowM_ok & Hr).
    apply M_bind_ok in Hr as (raw & ? & [-> Hp]%lift_ok & Hr).
    apply M_bind_ok in Hr as (k & ? & [-> [Hk _]%from_public_bytes_ok]%lift_ok & Hr).
    apply M_ret_ok in Hr as [-> [= -> ->]]. right.
    exists local, provider, record, card, w1. by rewrite Hk.
Qed.

(** A credential verified and found not revoked by this pipeline. *)
Definition checked_now (jws : pystr) (c : VerifiedCredential) : Prop :=
  ∃ now (wa wb wc : W),
    verify_credential now (cfg_leeway_seconds config) _resolve_issuer_key _check_issuer_authorized_for_org jws wa
      = (wb, Ok c) ∧ env_revocation_check c wb = (wc, Ok tt).

Lemma validate_creds_loop_ok sender jwss (w w' : W) cs :
  validate_creds_loop config sender jwss w = (w', Ok cs) → Forall2 checked_now jwss cs.
Proof.
  revert w w' cs. induction jwss as [|jws jwss IH]; intros w w' cs Hl; cbn [validate_creds_loop] in Hl.
  - apply M_ret_ok in Hl as [_ ->]. constructor.
  - apply M_bind_ok in Hl as (c & w1 & Hc & Hl). apply M_bind_ok in Hl as (rest & w2 & Hr & Hl).
    apply M_ret_ok in Hl as [_ ->]. constructor; [|exact (IH _ _ _ Hr)].
    unfold validate_cred in Hc. apply M_bind_ok in Hc as (now & wa & _ & Hc).
    apply M_bind_ok in Hc as (c' & wb & Hv%rethrowM_ok & Hc).
    apply M_bind_ok in Hc as ([] & wc & Hrev%rethrowM_ok & Hc).
    apply M_bind_ok in Hc as (? & ? & _ & Hc). apply M_bind_ok in Hc as (? & ? & _ & Hc).
    apply M_ret_ok in Hc as [_ ->]. by exists now, wa, wb, wc.
Qed.

(** Where the credentials used for classification come from: the envelope,
    each one checked, in its order, or else the cache in the state [w]. *)
Definition presented (envelope : EnvelopePayload) (sender : pystr) (w w' : W) (cs : list VerifiedCredential) : Prop :=
  match ep_creds envelope with
  | [] => cc_for_sender sender w = (w', Ok cs)
  | jwss => Forall2 checked_now jwss cs
  end.

Lemma validate_creds_ok envelope sender (w w' : W) cs :
  _validate_creds config envelope sender w = (w', Ok cs) → presented envelope sender w w' cs.
Proof.
  unfold _validate_creds, presented. destruct (ep_creds envelope); [done|]. by apply validate_creds_loop_ok.
Qed.

(** The subject's own provider is the one of the record. *)
Definition own_provider (r : ProviderRecord) : Prop :=
  ∃ local, (64 ∉ local) ∧ parse_shadowname (cfg_subject config) = Ok (local ++ str "@" ++ pr_domain r).

Lemma same_provider_ok rec :
  same_provider config rec = Ok true → cfg_same_provider_org config = true ∧ ∃ r, rec = Some r ∧ own_provider r.
Proof.
  unfold same_provider. destruct rec as [r|]; [|done].
  destruct (cfg_same_provider_org config && is_shadowname (cfg_subject config)) eqn:E; [|done]. intros Hs. bool_prop.
  destruct (split_shadowname (cfg_subject config)) as [[l d]|] eqn:Hsp; [|done]. injection Hs as Hd. bool_prop. subst d.
  apply split_shadowname_parts in Hsp as (? & ? & _). split; [done|]. exists r. split; [done|]. by exists l.
Qed.

(** Why a message got its route. *)
Definition route_reason (sender : pystr) (rec : option ProviderRecord) (creds : list VerifiedCredential)
    (ctx : option pystr) (w w' : W) (route : Route) (auto : bool) : Prop :=
  match route, auto with
  | Inbox, false =>
      (cfg_same_provider_org config = true ∧ (∃ r, rec = Some r ∧ own_provider r) ∧ w' = w)
      ∨ cg_is_contact sender w = (w', Ok true)
  | Inbox, true =>
      ∃ c s wa wb, ctx = Some (c :: s) ∧ cg_is_contact sender w = (wa, Ok false)
        ∧ cg_has_recent_outbound (c :: s) sender (cfg_auto_add_lookback_seconds config) wa = (wb, Ok true)
        ∧ cg_add_contact sender wb = (w', Ok tt)
  | StrangerReview, auto =>
      auto = false ∧ from_stranger (cfg_policy config) ≠ []
      ∧ ∃ c, c ∈ creds ∧ trusted_by (cfg_trust_store config) c
          ∧ cp_kind (vc_payload c) ∈ from_stranger (cfg_policy config)
  end.

Lemma classify_ok sender rec creds ctx (w w' : W) route auto :
  _classify config sender rec creds ctx w = (w', Ok (route, auto)) →
  route_reason sender rec creds ctx w w' route auto.
Proof.
  unfold _classify. intros Hc. apply M_bind_ok in Hc as (same & ? & [-> Hs]%lift_ok & Hc).
  destruct same; [apply M_ret_ok in Hc as [-> [= -> ->]]; apply same_provider_ok in Hs as [? ?]; by left|].
  apply M_bind_ok in Hc as (contact & wa & Hcon & Hc).
  destruct contact; [apply M_ret_ok in Hc as [-> [= -> ->]]; by right|].
  apply M_bind_ok in Hc as (recent & wb & Hrec & Hc). unfold recent_outbound in Hrec. destruct recent.
  - apply M_bind_ok in Hc as ([] & wc & Ha & Hc). apply M_ret_ok in Hc as [-> [= -> ->]].
    destruct ctx as [[|c s]|]; [by apply M_ret_ok in Hrec as [_ ?]| |by apply M_ret_ok in Hrec as [_ ?]].
    by exists c, s, wa, wb.
  - unfold required_kinds in Hc.
    destruct (from_stranger (cfg_policy config)) as [|k ks] eqn:Ek; [by apply lift_ok in Hc as [_ ?]|].
    apply M_bind_ok in Hc as (ok & ? & [-> Hsat]%lift_ok & Hc).
    destruct ok; [|destruct creds; by apply lift_ok in Hc as [_ ?]].
    apply M_ret_ok in Hc as [-> [= -> ->]]. cbn [route_reason]. rewrite Ek. split_and!; [done|done|].
    destruct (satisfies_policy_spec creds (cfg_trust_store config) (k :: ks)) as (b & Hb & Hiff).
    rewrite Hsat in Hb. injection Hb as <-. destruct (proj1 Hiff eq_refl) as [?|(c & ? & ? & ?)]; [done|]. eauto.
Qed.
End stages.

(** ** Properties *)

Section receiver_properties.
Context `{PyUnicode} `{Pydantic} `{PyJWT} {W : Type}.
Context `{!ReplayCache W} `{!ContactGraph W} `{!CredentialCache W} `{!ReceiverEnv W}.
Context (config : ReceiverConfig).

(** C2: an accepted message is authentic: its envelope is addressed to this
    subject, lives at most 300 seconds and is current, hashes exactly the
    message it came with, and is signed by the sender's key, which is the
    sender itself in direct mode and otherwise the key of the card that the
    sender's provider published; the decision names that sender. *)
Theorem receive_authentic (req : json) (w w' : W) (d : AcceptedDecision) :
  receive config req w = (w', Ok d) →
  ∃ jws message pk rec wr now,
    extract_envelope_jws req = Ok (jws, message)
    ∧ ad_sender d = ep_sender (ad_envelope d) ∧ ep_recipient (ad_envelope d) = cfg_subject config
    ∧ compute_msg_hash message = Ok (ep_msg_hash (ad_envelope d))
    ∧ key_of_sender (ad_sender d) w wr pk rec ∧ jws_signed_by pk jws
    ∧ ep_exp (ad_envelope d) - ep_iat (ad_envelope d) ≤ 300
    ∧ ep_iat (ad_envelope d) - cfg_leeway_seconds config ≤ now ≤ ep_exp (ad_envelope d) + cfg_leeway_seconds config
    ∧ ∃ wn, env_now wr = (wn, Ok now).
Proof.
  intros (jws & message & header & claims & key & rec & w1 & now & w2 & mid & w3 & w4 & creds & w5 & ctx
    & Hext & Hpre & Hadr & Hres & Hnow & Henv & Hhash & Hmid & Hseen & Hrem & Hcreds & Hctx & Hcl)%receive_ok.
  exists jws, message, (public_bytes key), rec, w1, now.
  pose proof (sender_is_envelope_sender _ _ _ _ _ _ _ _ _ Hpre Hadr Henv) as Hs.
  apply verify_envelope_ok in Henv as (_ & _ & _ & _ & _ & _ & _ & _ & Hr & Hl & Ht & Hsig).
  split_and!; try done. all: first [by apply resolve_sender_ok|lia|by exists w2].
Qed.

(** C3: every route has its reason, in the state this call reached.  The
    inbox: the deployment allows the same-provider shortcut and the record
    under which this call found the sender's key is the one of the subject's
    own provider, or the sender is a contact, or it answers in a thread this
    subject opened within the lookback, and then it becomes a contact.
    Stranger review: the policy admits strangers, and the sender presented
    (in this envelope, or else earlier and the cache still has it) a
    credential of a required kind from an issuer in the trust store;
    credentials of this envelope were all verified and found not revoked. *)
Theorem receive_route_justified (req : json) (w w' : W) (d : AcceptedDecision) :
  receive config req w = (w', Ok d) →
  ∃ jws message pk rec w1 now w2 mid w3 w4 creds w5 ctx,
    extract_envelope_jws req = Ok (jws, message) ∧ context_id_of message = Ok ctx ∧ message_id_of message = Ok mid
    ∧ key_of_sender (ad_sender d) w w1 pk rec ∧ jws_signed_by pk jws
    ∧ env_now w1 = (w2, Ok now) ∧ rc_seen (ad_sender d) mid w2 = (w3, Ok false)
    ∧ rc_remember (ad_sender d) mid 600 w3 = (w4, Ok tt)
    ∧ _validate_creds config (ad_envelope d) (ad_sender d) w4 = (w5, Ok creds)
    ∧ presented config (ad_envelope d) (ad_sender d) w4 w5 creds
    ∧ route_reason config (ad_sender d) rec creds ctx w5 w' (ad_route d) (ad_auto_added_contact d).
Proof.
  intros (jws & message & header & claims & key & rec & w1 & now & w2 & mid & w3 & w4 & creds & w5 & ctx
    & Hext & Hpre & Hadr & Hres & Hnow & Henv & Hhash & Hmid & Hseen & Hrem & Hcreds & Hctx & Hcl)%receive_ok.
  apply verify_envelope_ok in Henv as (_ & _ & _ & _ & _ & _ & _ & _ & _ & _ & _ & Hsig).
  exists jws, message, (public_bytes key), rec, w1, now, w2, mid, w3, w4, creds, w5, ctx. split_and!; try done.
  - by apply resolve_sender_ok.
  - by apply validate_creds_ok.
  - by apply classify_ok.
Qed.
End receiver_properties.
