(* ===== verification/Replay.v ===== *)
(** * No envelope is accepted twice

    What the replay cache promises the pipeline, as a class of laws over the
    interfaces of [Receiver], and the theorem the pipeline gains from it. *)

From S2P Require Import Prelude PyStr Base64 Multibase Identifiers Jcs Dicts Sha256 Crypto Provider.
From S2P Require Import Pydantic Credential Status Trust Envelope A2A AgentCard Receiver.

(** A world seen by the replay protection: the current time, and the expiry of
    each remembered pair of sender and message id. *)
Class ReplayView (W : Type) : Type := {
  clock : W → Z;
  held : W → pystr * pystr → option Z;
}.

(** Time does not run backwards, and what is not expired stays remembered. *)
Definition retains `{ReplayView W} (w w' : W) : Prop :=
  clock w ≤ clock w'
  ∧ ∀ k e, held w k = Some e → clock w' < e → ∃ e', e ≤ e' ∧ held w' k = Some e'.

#[global] Instance retains_preorder `{ReplayView W} : PreOrder retains.
Proof.
  split.
  - intros w. split; [done|]. intros k e He _. by exists e.
  - intros w1 w2 w3 [C1 R1] [C2 R2]. split; [lia|]. intros k e He Hc.
    destruct (R1 k e He ltac:(lia)) as (e1 & ? & He1). destruct (R2 k e1 He1 ltac:(lia)) as (e2 & ? & He2).
    exists e2. split; [lia|done].
Qed.

(** What the replay cache and the clock promise. *)
Class ReplayCacheLaws (W : Type) `{ReplayView W} `{!ReplayCache W} (now : M W Z) : Prop := {
  now_law w w' r : now w = (w', r) → retains w w' ∧ ∃ t, r = Ok t ∧ clock w ≤ t ≤ clock w';
  (** A pair that is answered to be new has no live entry. *)
  seen_law s m w w' r : rc_seen s m w = (w', r) →
    retains w w' ∧ ∃ b : bool, r = Ok b ∧ (b = false → ∀ e, held w' (s, m) = Some e → e ≤ clock w');
  (** Remembering a pair without a live entry holds it for the retention. *)
  remember_law s m ret w w' r : rc_remember s m ret w = (w', r) → 0 ≤ ret →
    (∀ e, held w (s, m) = Some e → e ≤ clock w) →
    retains w w' ∧ r = Ok tt ∧ ∃ t, clock w ≤ t ≤ clock w' ∧ held w' (s, m) = Some (t + ret);
}.

(** And that nothing else forgets. *)
Class ReplayLaws (W : Type) `{ReplayView W} `{!ReplayCache W} `{!ContactGraph W} `{!CredentialCache W}
    `{!ReceiverEnv W} : Prop := {
  replay_cache_laws :: ReplayCacheLaws W env_now;
  lookup_law d : keeps retains (env_provider_lookup d);
  card_law n r : keeps retains (env_fetch_agent_card n r);
  revocation_law c : keeps retains (env_revocation_check c);
  is_contact_law s : keeps retains (cg_is_contact s);
  outbound_law c p l : keeps retains (cg_has_recent_outbound c p l);
  add_contact_law s : keeps retains (cg_add_contact s);
  for_sender_law s : keeps retains (cc_for_sender s);
  cache_law s c e : keeps retains (cc_cache s c e);
}.

#[global] Instance replay_env_keeps `{ReplayLaws W} : EnvKeeps retains.
Proof.
  split; [apply _|apply lookup_law|apply card_law|apply revocation_law|].
  intros w w' r Hn. by apply now_law in Hn as [? _].
Qed.
#[global] Instance replay_cache_keeps `{ReplayLaws W} : CacheKeeps retains.
Proof. split; [apply for_sender_law|apply cache_law]. Qed.

#[export] Hint Resolve is_contact_law outbound_law add_contact_law : shadownet.

Section replay.
Context `{PyUnicode} `{Pydantic} `{PyJWT} {W : Type}.
Context `{!ReplayView W} `{!ReplayCache W} `{!ContactGraph W} `{!CredentialCache W} `{!ReceiverEnv W}.
Context `{!ReplayLaws W}.
Context (config : ReceiverConfig).

Lemma keeps_recent ctx sender : keeps retains (recent_outbound config ctx sender : M W bool).
Proof. unfold recent_outbound. keep. Qed.
Hint Resolve keeps_recent : shadownet.

Lemma keeps_classify sender rec creds ctx : keeps retains (_classify config sender rec creds ctx : M W (Route * bool)).
Proof. unfold _classify. keep. Qed.
Hint Resolve keeps_classify : shadownet.

(** Looking a pair up and then remembering it, as [receive] does. *)
Lemma keeps_admission {A} sender mid (k : M W A) :
  keeps retains k →
  keeps retains (seen ← rc_seen sender mid; _ ← lift (raise_if seen (Wire ReplayError));
         _ ← rc_remember sender mid REPLAY_CACHE_RETENTION; k).
Proof.
  intros Hk w w' r. unfold mbind, M_bind.
  destruct (rc_seen sender mid w) as [w1 r1] eqn:E1.
  apply seen_law in E1 as (R1 & b & -> & Hb). destruct b; [intros [= <- _]; done|]. cbn [lift raise_if].
  destruct (rc_remember sender mid REPLAY_CACHE_RETENTION w1) as [w2 r2] eqn:E2.
  apply remember_law in E2 as (R2 & -> & _); [|done|by apply Hb].
  intros E3. transitivity w1; [done|]. transitivity w2; [done|]. by eapply Hk.
Qed.

(** Every call of [receive], accepted or refused, keeps what is remembered. *)
Lemma receive_keeps req : keeps retains (receive config req : M W AcceptedDecision).
Proof.
  unfold receive. do 4 (apply keeps_bind; [apply _|by apply keeps_lift, _|intros []]).
  apply keeps_bind; [apply _|by apply (keeps_resolve_sender retains)|intros [key rec]].
  apply keeps_bind; [apply _|apply (ek_now (R := retains))|intros now].
  do 4 (apply keeps_bind; [apply _|by apply keeps_lift, _|intros ?]).
  apply keeps_admission. apply keeps_bind; [apply _|by apply (keeps_validate_creds retains)|intros creds]. keep.
Qed.

(** An accepted message is remembered for the retention from the moment its
    envelope was checked. *)
Lemma receive_remembers req (w w' : W) d :
  receive config req w = (w', Ok d) →
  ∃ jws message mid key now e,
    extract_envelope_jws req = Ok (jws, message) ∧ message_id_of message = Ok mid
    ∧ compute_msg_hash message = Ok (ep_msg_hash (ad_envelope d)) ∧ ad_sender d = ep_sender (ad_envelope d)
    ∧ verify_envelope jws key (cfg_subject config) now (cfg_leeway_seconds config) = Ok (ad_envelope d)
    ∧ now + REPLAY_CACHE_RETENTION ≤ e
    ∧ (clock w' < e → ∃ e', e ≤ e' ∧ held w' (ad_sender d, mid) = Some e').
Proof.
  intros (jws & message & header & claims & key & rec & w1 & now & w2 & mid & w3 & w4 & creds & w5 & ctx
    & Hext & Hpre & Hadr & Hres & Hnow & Henv & Hhash & Hmid & Hseen & Hrem & Hcreds & Hctx & Hcl)%receive_ok.
  apply now_law in Hnow as ([Ca _] & t & [= <-] & Ht).
  apply seen_law in Hseen as ([Cb Rb] & b & [= <-] & Hb).
  apply remember_law in Hrem as (Hr & _ & t2 & Ht2 & Hheld); [|done|by apply Hb].
  apply (keeps_validate_creds retains) in Hcreds. apply keeps_classify in Hcl.
  assert (retains w4 w') as [Cc Rc] by (by transitivity w5).
  exists jws, message, mid, key, now, (t2 + REPLAY_CACHE_RETENTION). split_and!; try done.
  - by eapply sender_is_envelope_sender.
  - lia.
  - by apply Rc.
Qed.

(** A message is accepted only if it has no live entry. *)
Lemma receive_fresh req (w w' : W) d :
  receive config req w = (w', Ok d) →
  ∃ jws message mid key now ws,
    extract_envelope_jws req = Ok (jws, message) ∧ message_id_of message = Ok mid
    ∧ compute_msg_hash message = Ok (ep_msg_hash (ad_envelope d)) ∧ ad_sender d = ep_sender (ad_envelope d)
    ∧ verify_envelope jws key (cfg_subject config) now (cfg_leeway_seconds config) = Ok (ad_envelope d)
    ∧ retains w ws ∧ clock w ≤ now ∧ clock ws ≤ clock w'
    ∧ ∀ e, held ws (ad_sender d, mid) = Some e → e ≤ clock ws.
Proof.
  intros (jws & message & header & claims & key & rec & w1 & now & w2 & mid & w3 & w4 & creds & w5 & ctx
    & Hext & Hpre & Hadr & Hres & Hnow & Henv & Hhash & Hmid & Hseen & Hrem & Hcreds & Hctx & Hcl)%receive_ok.
  apply (keeps_resolve_sender retains) in Hres. apply now_law in Hnow as (Rn & t & [= <-] & Ht).
  apply seen_law in Hseen as (Rs & b & [= <-] & Hb).
  apply remember_law in Hrem as ([Cr _] & _ & _); [|done|by apply Hb].
  apply (keeps_validate_creds retains) in Hcreds as [Cv _]. apply keeps_classify in Hcl as [Cc _].
  exists jws, message, mid, key, now, w3. split_and!; try done.
  - by eapply sender_is_envelope_sender.
  - transitivity w1; [done|]. by transitivity w2.
  - destruct Hres as [? _]. lia.
  - lia.
  - by apply Hb.
Qed.

Lemma extract_wf req jws m :
  wf_json req = true → extract_envelope_jws req = Ok (jws, m) → wf_json (JDict m) = true.
Proof.
  unfold extract_envelope_jws. intros Hw He. res_inv. simplify_eq.
  destruct req as [| | | | | |b]; try done. unfold get_dict in *. repeat case_match; try done. simplify_eq.
  by eapply wf_json_get.
Qed.

Lemma same_message_id m1 m2 i1 i2 :
  message_id_of m1 = Ok i1 → message_id_of m2 = Ok i2 →
  norm <$> dict_get (str "messageId") m1 = norm <$> dict_get (str "messageId") m2 → i1 = i2.
Proof.
  unfold message_id_of, get_str. intros E1 E2 Hn. repeat case_match; try done. res_inv. simplify_eq/=. done.
Qed.

(** The messages of the two requests are a SHA-256 collision. *)
Definition requests_collide (req1 req2 : json) : Prop :=
  ∃ jws1 m1 jws2 m2, extract_envelope_jws req1 = Ok (jws1, m1) ∧ extract_envelope_jws req2 = Ok (jws2, m2)
    ∧ hash_collision m1 m2.

(** A request does not collide with itself. *)
Lemma redelivery_no_collision req : ¬ requests_collide req req.
Proof. intros (j1 & m1 & j2 & m2 & X1 & X2 & Hc). assert (m1 = m2) as -> by congruence. by apply no_self_collision in Hc. Qed.

(** What may happen between two deliveries: other messages, and anything else
    that does not make the cache forget. *)
Inductive step : W → W → Prop :=
  | step_receive req w w' r : receive config req w = (w', r) → step w w'
  | step_other w w' : retains w w' → step w w'.

Lemma steps_retain w w' : rtc step w w' → retains w w'.
Proof.
  induction 1 as [|w1 w2 w3 Hs _ IH]; [done|]. transitivity w2; [|done].
  destruct Hs as [req w w' r Hr|]; [by eapply receive_keeps|done].
Qed.

(** The id of an accepted message. *)
Lemma receive_message req (w w' : W) d :
  receive config req w = (w', Ok d) →
  ∃ jws message mid key now, extract_envelope_jws req = Ok (jws, message) ∧ message_id_of message = Ok mid
    ∧ compute_msg_hash message = Ok (ep_msg_hash (ad_envelope d))
    ∧ verify_envelope jws key (cfg_subject config) now (cfg_leeway_seconds config) = Ok (ad_envelope d).
Proof.
  intros (jws & message & mid & key & now & ws & X & I & G & _ & V & _)%receive_fresh. by exists jws, message, mid, key, now.
Qed.

(** One envelope is not accepted twice with one message id. *)
Lemma same_id_refused req1 req2 (w1 w1' w2 w2' : W) d1 d2 jws1 m1 jws2 m2 mid :
  receive config req1 w1 = (w1', Ok d1) → rtc step w1' w2 → receive config req2 w2 = (w2', Ok d2) →
  clock w2' - clock w2 + 2 * cfg_leeway_seconds config < 300 →
  extract_envelope_jws req1 = Ok (jws1, m1) → extract_envelope_jws req2 = Ok (jws2, m2) →
  message_id_of m1 = Ok mid → message_id_of m2 = Ok mid → ad_envelope d2 ≠ ad_envelope d1.
Proof.
  intros A1 Hsteps A2 Htime Y1 Y2 J1 J2 Hsame.
  apply receive_remembers in A1 as (j1 & n1 & mid1 & k1 & t1 & e & X1 & I1 & _ & S1 & V1 & He & Hheld).
  apply receive_fresh in A2 as (j2 & n2 & mid2 & k2 & t2 & ws & X2 & I2 & _ & S2 & V2 & Rs & Hn & Hc & Hfresh).
  assert (mid1 = mid) as -> by congruence. assert (mid2 = mid) as -> by congruence. rewrite Hsame in *.
  apply verify_envelope_ok in V1 as (_ & _ & _ & _ & _ & _ & _ & _ & _ & L1 & [T1 _] & _).
  apply verify_envelope_ok in V2 as (_ & _ & _ & _ & _ & _ & _ & _ & _ & _ & [_ T2] & _).
  apply steps_retain in Hsteps as [Cs Rst]. destruct Rs as [Cw Rw]. unfold REPLAY_CACHE_RETENTION in *.
  destruct (Hheld ltac:(lia)) as (e1 & ? & Hh1). destruct (Rst _ _ Hh1 ltac:(lia)) as (e2 & ? & Hh2).
  destruct (Rw _ _ Hh2 ltac:(lia)) as (e3 & ? & Hh3). rewrite S1, <-S2 in Hh3.
  pose proof (Hfresh _ Hh3). lia.
Qed.

(** Two accepted messages with one envelope are a collision. *)
Lemma accepted_again req1 req2 (w1 w1' w2 w2' : W) d1 d2 :
  wf_json req1 = true → wf_json req2 = true →
  receive config req1 w1 = (w1', Ok d1) → rtc step w1' w2 → receive config req2 w2 = (w2', Ok d2) →
  clock w2' - clock w2 + 2 * cfg_leeway_seconds config < 300 →
  requests_collide req1 req2 ∨ ad_envelope d2 ≠ ad_envelope d1.
Proof.
  intros W1 W2 A1 Hsteps A2 Htime.
  pose proof A1 as (jws1 & m1 & mid1 & _ & _ & X1 & I1 & G1 & _)%receive_message.
  pose proof A2 as (jws2 & m2 & mid2 & _ & _ & X2 & I2 & G2 & _)%receive_message.
  destruct (decide (ep_msg_hash (ad_envelope d2) = ep_msg_hash (ad_envelope d1))) as [Eh|Ne]; [|right; congruence].
  rewrite Eh in G2. destruct (msg_hash_binds m1 m2 (ep_msg_hash (ad_envelope d1))) as [Hcol|[Hfields _]];
    [exact (extract_wf _ _ _ W1 X1)|exact (extract_wf _ _ _ W2 X2)|done|done|left; by exists jws1, m1, jws2, m2|].
  assert (mid1 = mid2) as -> by (apply (same_message_id m1 m2); [done|done|]; apply Hfields; by left).
  right. by eapply same_id_refused.
Qed.

(** A request delivered again is not accepted again. *)
Lemma redelivery_refused req (w1 w1' w2 w2' : W) d1 r2 :
  receive config req w1 = (w1', Ok d1) → rtc step w1' w2 → receive config req w2 = (w2', r2) →
  clock w2' - clock w2 + 2 * cfg_leeway_seconds config < 300 → ∃ e, r2 = Raise e.
Proof.
  intros A1 Hsteps A2 Htime. destruct r2 as [d2|e]; [exfalso|by exists e].
  pose proof A1 as (j1 & m1 & mid1 & k1 & t1 & X1 & I1 & _ & V1)%receive_message.
  pose proof A2 as (j2 & m2 & mid2 & k2 & t2 & X2 & I2 & _ & V2)%receive_message.
  rewrite X1 in X2. injection X2 as <- <-.
  apply (same_id_refused req req w1 w1' w2 w2' d1 d2 j1 m1 j1 m1 mid1); try done.
  by eapply verified_payload_unique.
Qed.

(** C1: no envelope is accepted twice.  Once a message is accepted, then
    whatever happens next, no later delivery is accepted with the same
    envelope, whatever message it carries: the envelope has expired or is
    still in the replay cache.  The exception: the two messages are different
    and their hashed bytes are a SHA-256 collision, which the same request
    delivered again never is.  The margin: the later call takes less than 300
    seconds less twice the leeway. *)
Theorem no_replay req1 req2 (w1 w1' w2 w2' : W) d1 r2 :
  wf_json req1 = true → wf_json req2 = true →
  receive config req1 w1 = (w1', Ok d1) → rtc step w1' w2 → receive config req2 w2 = (w2', r2) →
  clock w2' - clock w2 + 2 * cfg_leeway_seconds config < 300 →
  requests_collide req1 req2 ∨ ∀ d2, r2 = Ok d2 → ad_envelope d2 ≠ ad_envelope d1.
Proof.
  intros W1 W2 A1 Hsteps A2 Htime. destruct r2 as [d2|e]; [|by right].
  destruct (accepted_again req1 req2 w1 w1' w2 w2' d1 d2) as [?|Hne]; try done; [by left|right; by intros ? [= <-]].
Qed.
End replay.
