(* ===== verification/Stores.v ===== *)
(** * The in-memory stores and the default callbacks — [shadownet/receiver.py]

    [InMemoryReplayCache], [InMemoryContactGraph], [InMemoryCredentialCache]
    and the callbacks a [ReceiverPipeline] has by default, over one world that
    also holds the clock.  The asynchronous in-memory classes have the same
    bodies and no suspension point inside, so they are these operations too.
    DNS and the HTTP client are parameters that may answer differently at
    different times.

    [time.time()] takes its readings from a clock that does not run backwards:
    [w_ticks] says how many seconds pass before each of the next readings. *)

From S2P Require Import Prelude PyStr Base64 Multibase Identifiers Jcs Dicts Http Sha256 Crypto Provider.
From S2P Require Import Pydantic Credential Status Trust Envelope A2A AgentCard Receiver Replay.

Record World := {
  w_time : Z;
  w_ticks : list N;
  (** [InMemoryReplayCache._entries] *)
  w_entries : gmap (pystr * pystr) Z;
  (** [InMemoryContactGraph._contacts], [._outbound] *)
  w_contacts : gset pystr;
  w_outbound : gmap (pystr * pystr) Z;
  (** [InMemoryCredentialCache._by_sender] *)
  w_by_sender : gmap pystr (list (VerifiedCredential * Z));
}.

Definition set_time (t : Z) (ticks : list N) (w : World) : World :=
  {| w_time := t; w_ticks := ticks; w_entries := w_entries w; w_contacts := w_contacts w;
     w_outbound := w_outbound w; w_by_sender := w_by_sender w |}.
Definition set_entries (m : gmap (pystr * pystr) Z) (w : World) : World :=
  {| w_time := w_time w; w_ticks := w_ticks w; w_entries := m; w_contacts := w_contacts w;
     w_outbound := w_outbound w; w_by_sender := w_by_sender w |}.
Definition set_contacts (c : gset pystr) (w : World) : World :=
  {| w_time := w_time w; w_ticks := w_ticks w; w_entries := w_entries w; w_contacts := c;
     w_outbound := w_outbound w; w_by_sender := w_by_sender w |}.
Definition set_outbound (o : gmap (pystr * pystr) Z) (w : World) : World :=
  {| w_time := w_time w; w_ticks := w_ticks w; w_entries := w_entries w; w_contacts := w_contacts w;
     w_outbound := o; w_by_sender := w_by_sender w |}.
Definition set_by_sender (b : gmap pystr (list (VerifiedCredential * Z))) (w : World) : World :=
  {| w_time := w_time w; w_ticks := w_ticks w; w_entries := w_entries w; w_contacts := w_contacts w;
     w_outbound := w_outbound w; w_by_sender := b |}.

Definition get_world : M World World := λ w, (w, Ok w).
Definition put_world (f : World → World) : M World unit := λ w, (f w, Ok tt).

(** [int(time.time())] *)
Definition time_time : M World Z := λ w,
  match w_ticks w with
  | [] => (w, Ok (w_time w))
  | d :: ticks => (set_time (w_time w + Z.of_N d) ticks w, Ok (w_time w + Z.of_N d))
  end.

Module InMemoryReplayCache.
Definition _prune (now : Z) : M World unit :=
  put_world (λ w, set_entries (filter (λ kv : (pystr * pystr) * Z, now < kv.2) (w_entries w)) w).

Definition seen (sender message_id : pystr) : M World bool :=
  now ← time_time;
  _ ← _prune now;
  w ← get_world;
  mret (bool_decide (is_Some (w_entries w !! (sender, message_id)))).

Definition remember (sender message_id : pystr) (retention_seconds : Z) : M World unit :=
  now ← time_time;
  put_world (λ w, set_entries (<[(sender, message_id) := now + retention_seconds]> (w_entries w)) w).
End InMemoryReplayCache.

Module InMemoryContactGraph.
Definition is_contact (shadowname : pystr) : M World bool :=
  w ← get_world;
  mret (bool_decide (shadowname ∈ w_contacts w)).

Definition add_contact (shadowname : pystr) : M World unit :=
  put_world (λ w, set_contacts ({[shadowname]} ∪ w_contacts w) w).

Definition remove_contact (shadowname : pystr) : M World unit :=
  put_world (λ w, set_contacts (w_contacts w ∖ {[shadowname]}) w).

Definition record_outbound (context_id peer : pystr) : M World unit :=
  now ← time_time;
  put_world (λ w, set_outbound (<[(context_id, peer) := now]> (w_outbound w)) w).

Definition has_recent_outbound (context_id peer : pystr) (lookback_seconds : Z) : M World bool :=
  w ← get_world;
  match w_outbound w !! (context_id, peer) with
  | None => mret false
  | Some ts =>
      now ← time_time;
      mret (now - lookback_seconds <=? ts)
  end.
End InMemoryContactGraph.

Module InMemoryCredentialCache.
Definition for_sender (sender : pystr) : M World (list VerifiedCredential) :=
  now ← time_time;
  w ← get_world;
  let entries := default [] (w_by_sender w !! sender) in
  let live := List.filter (λ ce : VerifiedCredential * Z, now <? ce.2) entries in
  _ ← put_world (λ w, set_by_sender (<[sender := live]> (w_by_sender w)) w);
  mret (map fst live).

Definition cache (sender : pystr) (credential : VerifiedCredential) (expires_at : Z) : M World unit :=
  w ← get_world;
  let bucket := default [] (w_by_sender w !! sender) in
  put_world (set_by_sender (<[sender := bucket ++ [(credential, expires_at)]]> (w_by_sender w))).
End InMemoryCredentialCache.

#[global] Instance in_memory_replay : ReplayCache World :=
  {| rc_seen := InMemoryReplayCache.seen; rc_remember := InMemoryReplayCache.remember |}.
#[global] Instance in_memory_contacts : ContactGraph World :=
  {| cg_is_contact := InMemoryContactGraph.is_contact;
     cg_has_recent_outbound := InMemoryContactGraph.has_recent_outbound;
     cg_add_contact := InMemoryContactGraph.add_contact |}.
#[global] Instance in_memory_credentials : CredentialCache World :=
  {| cc_for_sender := InMemoryCredentialCache.for_sender; cc_cache := InMemoryCredentialCache.cache |}.

(** ** The default callbacks *)

Section defaults.
Context `{PyUnicode} `{Pydantic} `{Ed25519} `{Gzip}.
(** What DNS and the network answer at a given time. *)
Context (dns : Z → pystr → result (list (option (list pybytes)))).
Context (http_get : Z → pystr → result Response).

Definition _default_provider_lookup (domain : pystr) : M World ProviderRecord := λ w,
  (w, lookup_provider_record (dns (w_time w)) domain).

Definition _default_agent_card_fetcher (shadowname : pystr) (provider_record : ProviderRecord)
    : M World FetchedAgentCard := λ w,
  (w, fetch_and_verify_agent_card (http_get (w_time w)) shadowname provider_record).

Definition _default_revocation_check (credential : VerifiedCredential) : M World unit := λ w,
  (w, check_revocation (fetch_status_list (http_get (w_time w))) credential).

Definition default_env : ReceiverEnv World := {|
  env_provider_lookup := _default_provider_lookup;
  env_fetch_agent_card := _default_agent_card_fetcher;
  env_revocation_check := _default_revocation_check;
  env_now := time_time;
|}.
End defaults.

(** ** The stores keep what the replay protection relies on *)

#[global] Instance world_view : ReplayView World :=
  {| clock := w_time; held w k := w_entries w !! k |}.

(** A step that leaves the replay entries alone. *)
Lemma retains_same (w w' : World) :
  w_time w ≤ w_time w' → w_entries w' = w_entries w → retains w w'.
Proof. intros Ht He. split; [done|]. intros k e Hk _. exists e. cbn in *. by rewrite He. Qed.

(** Reading the clock moves only the clock. *)
Lemma time_time_spec (w w' : World) r :
  time_time w = (w', r) →
  r = Ok (w_time w') ∧ w_time w ≤ w_time w' ∧ w' = set_time (w_time w') (w_ticks w') w.
Proof.
  unfold time_time. destruct w as [t [|d ticks] en co ou bs]; cbn; intros [= <- <-]; split_and!; cbn; auto; lia.
Qed.

Lemma time_time_retains (w w' : World) r : time_time w = (w', r) → retains w w'.
Proof. intros (_ & ? & E)%time_time_spec. apply retains_same; [done|]. by rewrite E. Qed.

Lemma time_run (w : World) :
  ∃ w', time_time w = (w', Ok (w_time w')) ∧ w_time w ≤ w_time w' ∧ w' = set_time (w_time w') (w_ticks w') w.
Proof.
  destruct (time_time w) as [w' r] eqn:E. destruct (time_time_spec _ _ _ E) as (-> & ? & ?). by exists w'.
Qed.

Lemma seen_spec s m (w w' : World) r :
  InMemoryReplayCache.seen s m w = (w', r) →
  w_time w ≤ w_time w' ∧ w_entries w' = filter (λ kv, w_time w' < kv.2) (w_entries w)
  ∧ r = Ok (bool_decide (is_Some (w_entries w' !! (s, m))))
  ∧ w' = set_entries (w_entries w') (set_time (w_time w') (w_ticks w') w).
Proof.
  unfold InMemoryReplayCache.seen, mbind, M_bind. destruct (time_run w) as (w1 & -> & Ht & E1).
  intros [= <- <-]. cbn. rewrite E1. cbn. split_and!; done.
Qed.

Lemma remember_spec s m ret (w w' : World) r :
  InMemoryReplayCache.remember s m ret w = (w', r) →
  w_time w ≤ w_time w' ∧ w_entries w' = <[(s, m) := w_time w' + ret]> (w_entries w) ∧ r = Ok tt
  ∧ w' = set_entries (w_entries w') (set_time (w_time w') (w_ticks w') w).
Proof.
  unfold InMemoryReplayCache.remember, mbind, M_bind. destruct (time_run w) as (w1 & -> & Ht & E1).
  intros [= <- <-]. cbn. rewrite E1. cbn. split_and!; done.
Qed.

Lemma for_sender_spec s (w w' : World) r :
  InMemoryCredentialCache.for_sender s w = (w', r) →
  w_time w ≤ w_time w' ∧ w_entries w' = w_entries w ∧ w_contacts w' = w_contacts w ∧ w_outbound w' = w_outbound w
  ∧ let live := List.filter (λ ce : VerifiedCredential * Z, w_time w' <? ce.2) (default [] (w_by_sender w !! s)) in
    w_by_sender w' = <[s := live]> (w_by_sender w) ∧ r = Ok (map fst live).
Proof.
  unfold InMemoryCredentialCache.for_sender, mbind, M_bind. destruct (time_run w) as (w1 & -> & Ht & E1).
  intros [= <- <-]. cbn. rewrite E1. cbn. split_and!; done.
Qed.

Lemma has_recent_outbound_spec c p l (w w' : World) r :
  InMemoryContactGraph.has_recent_outbound c p l w = (w', r) →
  w_time w ≤ w_time w' ∧ w' = set_time (w_time w') (w_ticks w') w
  ∧ r = Ok (match w_outbound w !! (c, p) with None => false | Some ts => w_time w' - l <=? ts end).
Proof.
  unfold InMemoryContactGraph.has_recent_outbound, mbind, M_bind. cbn.
  destruct (w_outbound w !! (c, p)) as [ts|].
  - destruct (time_run w) as (w1 & -> & Ht & E1). by intros [= <- <-].
  - intros [= <- <-]. by destruct w.
Qed.

Lemma in_memory_cache_laws : ReplayCacheLaws World time_time.
Proof.
  split.
  - intros w w' r Hr. split; [by eapply time_time_retains|]. apply time_time_spec in Hr as (-> & ? & _).
    exists (w_time w'). cbn. split; [done|lia].
  - intros s m w w' r (Ht & He & -> & _)%seen_spec. split.
    + split; [done|]. intros k e Hk Hlt. exists e. split; [done|]. cbn in *. rewrite He.
      by apply map_lookup_filter_Some.
    + eexists. split; [done|]. intros Hb e Hk. bool_prop. destruct Hb. by exists e.
  - intros s m ret w w' r (Ht & He & -> & _)%remember_spec Hret Hold. split_and!; [|done|].
    + split; [done|]. intros k e Hk Hlt. cbn in *. rewrite He.
      destruct (decide (k = (s, m))) as [->|Hne].
      * apply Hold in Hk. lia.
      * exists e. by rewrite lookup_insert_ne.
    + exists (w_time w'). cbn. rewrite He, lookup_insert_eq. cbn in Ht. split; [lia|done].
Qed.

Section laws.
Context `{PyUnicode} `{Pydantic} `{PyJWT} `{Gzip}.
Context (dns : Z → pystr → result (list (option (list pybytes)))).
Context (http_get : Z → pystr → result Response).
#[local] Existing Instance default_env.

#[global] Instance in_memory_replay_laws :
  ReplayLaws World (ReceiverEnv0 := default_env dns http_get).
Proof.
  split; [exact in_memory_cache_laws|..].
  - intros d w w' r [= <- _]. done.
  - intros n p w w' r [= <- _]. done.
  - intros c w w' r [= <- _]. done.
  - intros s w w' r [= <- _]. done.
  - intros c p l w w' r (Ht & E & _)%has_recent_outbound_spec. apply retains_same; [done|]. by rewrite E.
  - intros s w w' r [= <- _]. by apply retains_same.
  - intros s w w' r (Ht & He & _)%for_sender_spec. by apply retains_same.
  - intros s c e w w' r [= <- _]. by apply retains_same.
Qed.
End laws.
