(* ===== verification/Deployment.v ===== *)
(** * The pipeline over the in-memory stores

    Properties of a [ReceiverPipeline] with the in-memory stores and the
    default callbacks of [Stores]: how contacts are gained, what the
    credential cache can contain, that a message built by the sender's side is
    accepted once and then refused as a replay. *)

From S2P Require Import Prelude PyStr Base64 Multibase Identifiers Jcs Dicts Http Sha256 Crypto Provider.
From S2P Require Import Pydantic Credential Status Trust Envelope A2A AgentCard Receiver Replay Stores.

(** ** Contacts *)

(** The contact graph is left alone. *)
Definition same_contacts (w w' : World) : Prop := w_contacts w' = w_contacts w ∧ w_outbound w' = w_outbound w.

#[global] Instance same_contacts_preorder : PreOrder same_contacts.
Proof. split; [done|]. intros w1 w2 w3 [? ?] [? ?]. split; by etransitivity. Qed.

Section contacts.
Context `{PyUnicode} `{Pydantic} `{PyJWT} `{Gzip}.
Context (dns : Z → pystr → result (list (option (list pybytes)))).
Context (http_get : Z → pystr → result Response).
#[local] Instance the_env : ReceiverEnv World := default_env dns http_get.
Context (config : ReceiverConfig).

Lemma time_keeps (R : relation World) :
  (∀ w t ticks, R w (set_time t ticks w)) → keeps R time_time.
Proof. intros HR w w' r (_ & _ & ->)%time_time_spec. apply HR. Qed.

Lemma in_memory_env_keeps (R : relation World) `{!PreOrder R} :
  (∀ w t ticks, R w (set_time t ticks w)) → EnvKeeps R.
Proof.
  intros HR. split; [done| | | |by apply time_keeps]; intros; intros w w' x [= <- _]; reflexivity.
Qed.

#[local] Instance contacts_env : EnvKeeps same_contacts.
Proof. by apply in_memory_env_keeps; [apply _|]. Qed.
#[local] Instance contacts_cache : CacheKeeps same_contacts.
Proof.
  split; [intros s w w' r (_ & _ & ? & ? & _)%for_sender_spec; done|by intros s c e w w' r [= <- _]].
Qed.

(** The one way [receive] changes the contact graph: a message of [sender] in
    the thread [context_id]. *)
Definition auto_add_only (sender : pystr) (context_id : option pystr) (w w' : World) (auto_added : bool) : Prop :=
  if auto_added then
    (sender ∉ w_contacts w) ∧ w_contacts w' = {[sender]} ∪ w_contacts w ∧ w_outbound w' = w_outbound w
    ∧ ∃ ctx ts, context_id = Some ctx ∧ ctx ≠ [] ∧ w_outbound w !! (ctx, sender) = Some ts
        ∧ w_time w' - cfg_auto_add_lookback_seconds config ≤ ts
  else same_contacts w w'.

Definition classify_effect (sender : pystr) (context_id : option pystr) (w w' : World) (r : result (Route * bool)) : Prop :=
  auto_add_only sender context_id w w' (match r with Ok (_, auto_added) => auto_added | Raise _ => false end).
Definition receive_effect (req : json) (w w' : World) (r : result AcceptedDecision) : Prop :=
  match r with
  | Ok d => ∃ jws message context_id, extract_envelope_jws req = Ok (jws, message)
      ∧ context_id_of message = Ok context_id ∧ auto_add_only (ad_sender d) context_id w w' (ad_auto_added_contact d)
  | Raise _ => same_contacts w w'
  end.

Lemma auto_add_absorbs sender ctx (w w1 w' : World) b :
  same_contacts w w1 → auto_add_only sender ctx w1 w' b → auto_add_only sender ctx w w' b.
Proof. intros [Ec Eo]. unfold auto_add_only, same_contacts. by rewrite Ec, Eo. Qed.

Lemma keeps_seen s m : keeps same_contacts (rc_seen s m).
Proof. intros w w' r (_ & _ & _ & ->)%seen_spec. done. Qed.
Lemma keeps_remember s m ret : keeps same_contacts (rc_remember s m ret).
Proof. intros w w' r (_ & _ & _ & ->)%remember_spec. done. Qed.
Lemma keeps_is_contact s : keeps same_contacts (cg_is_contact s).
Proof. by intros w w' r [= <- _]. Qed.
Hint Resolve keeps_seen keeps_remember keeps_is_contact : shadownet.

(** Where nothing was added, or the computation keeps the graph. *)
Lemma keeps_ends_classify sender ctx (m : M World (Route * bool)) :
  keeps same_contacts m → (∀ w w' route, m w ≠ (w', Ok (route, true))) → ends (classify_effect sender ctx) m.
Proof.
  intros Hk Hf w w' r Hm. unfold classify_effect. destruct r as [[route []]|e]; [by destruct (Hf _ _ _ Hm)| |];
    by apply Hk in Hm.
Qed.

Lemma classify_contacts sender rec creds ctx : ends (classify_effect sender ctx) (_classify config sender rec creds ctx).
Proof.
  unfold _classify. apply (ends_bind same_contacts); [done|by intros; eapply auto_add_absorbs|keep|].
  intros [|]; [apply keeps_ends_classify; [keep|by intros ??? [=]]|].
  intros w w' r. unfold mbind at 1, M_bind at 1. cbn [cg_is_contact in_memory_contacts].
  unfold InMemoryContactGraph.is_contact, get_world, mbind at 1, M_bind at 1, mret at 1, M_ret at 1.
  case_bool_decide as Hc; [intros [= <- <-]; done|]. revert w' r.
  unfold mbind at 1, M_bind at 1. intros w' r.
  destruct (recent_outbound config ctx sender w) as [w1 [recent|e]] eqn:Hr.
  2: { unfold recent_outbound in Hr. repeat case_match; try done.
       by apply has_recent_outbound_spec in Hr as (_ & _ & ?). }
  assert (w1 = set_time (w_time w1) (w_ticks w1) w ∧ (recent = true → ∃ c ts,
    ctx = Some c ∧ c ≠ [] ∧ w_outbound w !! (c, sender) = Some ts ∧ w_time w1 - cfg_auto_add_lookback_seconds config ≤ ts)) as [Ew Hts].
  { unfold recent_outbound in Hr. repeat case_match; try (injection Hr as <- <-; by destruct w).
    apply has_recent_outbound_spec in Hr as (_ & ? & [= ->]). split; [done|]. intros Hrec.
    repeat case_match; try done. bool_prop. subst. eexists _, _. split_and!; [done|done| |]; eauto. }
  destruct recent.
  - intros [= <- <-]. unfold classify_effect, auto_add_only. cbn. rewrite Ew. cbn. eauto.
  - intros Hrest. apply (auto_add_absorbs _ _ w w1); [by rewrite Ew|].
    refine (keeps_ends_classify sender ctx _ _ _ w1 w' r Hrest); [keep|].
    intros w2 w3 route. repeat case_match; try done. intros Hb. M_inv. repeat case_match; M_inv; done.
Qed.

(** A message that is refused leaves the graph alone. *)
Definition refused_effect (w w' : World) (r : result AcceptedDecision) : Prop :=
  match r with Ok _ => True | Raise _ => same_contacts w w' end.

Lemma refused_effect_absorbs (w w1 w' : World) r :
  same_contacts w w1 → refused_effect w1 w' r → refused_effect w w' r.
Proof. intros Hs. destruct r; [done|]. cbn. intros ?. by transitivity w1. Qed.

Lemma receive_refused_contacts req : ends refused_effect (receive config req).
Proof.
  unfold receive.
  do 4 (apply (ends_bind same_contacts); [done|by apply refused_effect_absorbs|by apply keeps_lift, _|intros []]).
  apply (ends_bind same_contacts); [done|by apply refused_effect_absorbs|apply keeps_resolve_sender, _|intros [key rec]].
  apply (ends_bind same_contacts); [done|by apply refused_effect_absorbs|apply (ek_now (R := same_contacts))|intros now].
  do 4 (apply (ends_bind same_contacts); [done|by apply refused_effect_absorbs|by apply keeps_lift, _|intros ?]).
  apply (ends_bind same_contacts); [done|by apply refused_effect_absorbs|by apply keeps_seen|intros seen].
  apply (ends_bind same_contacts); [done|by apply refused_effect_absorbs|by apply keeps_lift, _|intros []].
  apply (ends_bind same_contacts); [done|by apply refused_effect_absorbs|by apply keeps_remember|intros []].
  apply (ends_bind same_contacts); [done|by apply refused_effect_absorbs|by apply (keeps_validate_creds same_contacts)|intros creds].
  apply (ends_bind same_contacts); [done|by apply refused_effect_absorbs|by apply keeps_lift, _|intros ctx].
  intros w w' r. unfold mbind, M_bind. destruct (_classify _ _ _ _ _ _) as [w1 [[route auto]|e]] eqn:E;
    apply classify_contacts in E; by intros [= <- <-].
Qed.

(** C8: contacts are gained only by auto-add.  A call of [receive], accepted or
    not, leaves the contact graph as it is, unless its decision says that the
    contact was added: then exactly the sender was added, it was not a
    contact before, and this subject wrote to that sender, in the very thread
    that the message names as its [contextId], within the lookback. *)
Theorem contacts_gained_by_auto_add (req : json) (w w' : World) (r : result AcceptedDecision) :
  receive config req w = (w', r) → receive_effect req w w' r.
Proof.
  intros Hrun. destruct r as [d|e]; [|exact (receive_refused_contacts _ _ _ _ Hrun)].
  apply receive_ok in Hrun as (jws & message & header & claims & key & rec & w1 & now & w2 & mid & w3 & w4 & creds & w5 & ctx
    & Hext & _ & _ & Hres & Hnow & _ & _ & _ & Hseen & Hrem & Hcreds & Hctx & Hcl).
  exists jws, message, ctx. split_and!; [done|done|].
  apply (keeps_resolve_sender same_contacts) in Hres. apply (ek_now (R := same_contacts)) in Hnow.
  apply keeps_seen in Hseen. apply keeps_remember in Hrem. apply (keeps_validate_creds same_contacts) in Hcreds.
  apply classify_contacts in Hcl. apply (auto_add_absorbs _ _ _ w5); [|done].
  etransitivity; [exact Hres|]. etransitivity; [exact Hnow|]. etransitivity; [exact Hseen|]. by transitivity w4.
Qed.
End contacts.

(** ** The credential cache *)

Section credential_cache.
Context `{PyUnicode} `{Pydantic} `{PyJWT} `{Gzip}.
Context (dns : Z → pystr → result (list (option (list pybytes)))).
Context (http_get : Z → pystr → result Response).
#[local] Instance cache_env : ReceiverEnv World := default_env dns http_get.
Context (config : ReceiverConfig).

(** The envelope that brought a credential, and what was checked of both. *)
Definition brought (sender : pystr) (envelope : EnvelopePayload) : Prop :=
  ∃ jws (key : Ed25519KeyPair) rec now (wa wb : World),
    key_of_sender sender wa wb (public_bytes key) rec
    ∧ verify_envelope jws key (cfg_subject config) now (cfg_leeway_seconds config) = Ok envelope.
Definition vetted (sender : pystr) (c : VerifiedCredential) : Prop :=
  ∃ envelope jws, brought sender envelope ∧ jws ∈ ep_creds envelope ∧ checked_now config (W := World) jws c.

Definition entry_ok (sender : pystr) (ce : VerifiedCredential * Z) : Prop :=
  vetted sender ce.1 ∧ ce.2 ≤ cp_exp (vc_payload ce.1) - 60.
Definition cache_inv (w : World) : Prop := map_Forall (λ s ces, Forall (entry_ok s) ces) (w_by_sender w).
Definition keeps_inv (w w' : World) : Prop := cache_inv w → cache_inv w'.

#[local] Instance keeps_inv_preorder : PreOrder keeps_inv.
Proof. unfold keeps_inv. split; [by intros w ?|intros w1 w2 w3; auto]. Qed.
#[local] Instance inv_env : EnvKeeps keeps_inv.
Proof. apply in_memory_env_keeps; [apply _|]. intros w t ticks Hi. exact Hi. Qed.

Lemma bucket_ok s (w : World) : cache_inv w → Forall (entry_ok s) (default [] (w_by_sender w !! s)).
Proof. intros Hi. destruct (w_by_sender w !! s) as [ces|] eqn:E; [by apply (Hi s)|constructor]. Qed.

Lemma filter_entries s f (w : World) :
  cache_inv w → Forall (entry_ok s) (List.filter f (default [] (w_by_sender w !! s))).
Proof.
  intros Hb%(bucket_ok s). apply Forall_forall. intros x [Hx%list_elem_of_In _]%list_elem_of_In%filter_In.
  by eapply Forall_forall.
Qed.

Lemma for_sender_inv s : keeps keeps_inv (cc_for_sender s).
Proof.
  intros w w' r (_ & _ & _ & _ & Eb & _)%for_sender_spec Hi. unfold cache_inv. rewrite Eb.
  apply map_Forall_insert_2; [by apply filter_entries|done].
Qed.

Lemma cache_keeps_inv s c e : entry_ok s (c, e) → keeps keeps_inv (cc_cache s c e).
Proof.
  intros Hok w w' r [= <- _] Hi. apply map_Forall_insert_2; [|done].
  apply Forall_app_2; [by apply bucket_ok|by apply Forall_singleton].
Qed.

Lemma validate_cred_inv envelope s jws :
  brought s envelope → jws ∈ ep_creds envelope → keeps keeps_inv (validate_cred config s jws).
Proof.
  intros Hb Hin w. change (keeps_at keeps_inv w (validate_cred config s jws)). unfold validate_cred.
  apply keeps_at_bind; [apply _|by apply (ek_now (R := keeps_inv))|intros now w1 _].
  apply keeps_at_bind; [apply _|by apply keeps_rethrow, (keeps_verify_credential keeps_inv)|].
  intros c w2 Hv%rethrowM_ok.
  apply keeps_at_bind; [apply _|by apply keeps_rethrow, (ek_revocation (R := keeps_inv))|].
  intros [] w3 Hr%rethrowM_ok.
  apply keeps_at_bind; [apply _|by apply (ek_now (R := keeps_inv))|intros now2 w4 _].
  apply keeps_at_bind; [apply _| |intros [] w5 _; by apply keeps_keeps_at, keeps_ret, _].
  apply cache_keeps_inv. split; [|cbn [snd]; unfold CREDENTIAL_CACHE_LEEWAY; cbn; lia].
  exists envelope, jws. split_and!; [done|done|]. by exists now, w1, w2, w3.
Qed.

Lemma creds_loop_inv envelope s jwss :
  brought s envelope → (∀ jws, jws ∈ jwss → jws ∈ ep_creds envelope) →
  keeps keeps_inv (validate_creds_loop config s jwss).
Proof.
  intros Hb. induction jwss as [|jws jwss IH]; intros Hin; cbn [validate_creds_loop]; [by apply keeps_ret, _|].
  apply keeps_bind; [apply _|apply (validate_cred_inv envelope); [done|apply Hin; by left]|intros c].
  apply keeps_bind; [apply _|apply IH; intros; apply Hin; by right|intros cs]. by apply keeps_ret, _.
Qed.

Lemma validate_creds_inv envelope s : brought s envelope → keeps keeps_inv (_validate_creds config envelope s).
Proof.
  intros Hb. unfold _validate_creds. destruct (ep_creds envelope) as [|j js] eqn:E; [apply for_sender_inv|].
  apply (creds_loop_inv envelope); [done|]. intros jws. by rewrite E.
Qed.

Lemma keeps_classify_inv s rec creds ctx : keeps keeps_inv (_classify config s rec creds ctx).
Proof.
  assert (∀ x, keeps keeps_inv (cg_is_contact x)) by (intros x w w' r [= <- _]; reflexivity).
  assert (∀ x, keeps keeps_inv (cg_add_contact x)) by (intros x w w' r [= <- _] Hi; exact Hi).
  assert (keeps keeps_inv (recent_outbound config ctx s)).
  { unfold recent_outbound. destruct ctx as [[|]|]; [keep| |keep].
    intros w w' r (_ & -> & _)%has_recent_outbound_spec Hi. exact Hi. }
  unfold _classify. keep.
Qed.

Lemma receive_inv req : keeps keeps_inv (receive config req).
Proof.
  intros w. change (keeps_at keeps_inv w (receive config req)). unfold receive.
  apply keeps_at_bind; [apply _|by apply keeps_lift, _|intros [jws message] ? [-> _]%lift_ok].
  do 3 (apply keeps_at_bind; [apply _|by apply keeps_lift, _|intros [] ? [-> _]%lift_ok]).
  apply keeps_at_bind; [apply _|by apply (keeps_resolve_sender keeps_inv)|intros [key rec] wk Hkey].
  apply keeps_at_bind; [apply _|by apply (ek_now (R := keeps_inv))|intros now wn _].
  apply keeps_at_bind; [apply _|by apply keeps_lift, _|intros envelope wv [-> Hv%rethrow_ok]%lift_ok].
  do 3 (apply keeps_at_bind; [apply _|by apply keeps_lift, _|intros ? ? _]).
  apply keeps_at_bind; [apply _| |intros seen ws _].
  { intros wa wb r (_ & _ & _ & ->)%seen_spec Hi. exact Hi. }
  apply keeps_at_bind; [apply _|by apply keeps_lift, _|intros ? ? _].
  apply keeps_at_bind; [apply _| |intros [] wr _].
  { intros wa wb r (_ & _ & _ & ->)%remember_spec Hi. exact Hi. }
  apply resolve_sender_ok in Hkey.
  apply keeps_at_bind; [apply _|apply validate_creds_inv; by exists jws, key, rec, now, w, wk|intros creds wc _].
  apply keeps_at_bind; [apply _|by apply keeps_lift, _|intros ctx ? _].
  apply keeps_at_bind; [apply _|by apply keeps_classify_inv|intros [] ? _]. by apply keeps_keeps_at, keeps_ret, _.
Qed.

(** Any number of calls of [receive], whatever they answer. *)
Definition calls : relation World := rtc (λ w w', ∃ req r, receive config req w = (w', r)).

(** C9: a credential taken from the cache for a sender is one that this sender
    brought earlier in an envelope verified under its own key, that was
    verified and found not revoked then, and that has more than the leeway
    of 60 seconds left. *)
Theorem cached_credentials_vetted (w0 w w' : World) (s : pystr) (cs : list VerifiedCredential) :
  w_by_sender w0 = ∅ → calls w0 w → InMemoryCredentialCache.for_sender s w = (w', Ok cs) →
  Forall (λ c, vetted s c ∧ w_time w' + 60 < cp_exp (vc_payload c)) cs.
Proof.
  intros H0w Hc (_ & _ & _ & _ & _ & [= ->])%for_sender_spec.
  assert (cache_inv w) as Hi.
  { assert (cache_inv w0) as Hi by (unfold cache_inv; rewrite H0w; apply map_Forall_empty).
    clear H0w. induction Hc as [|w1 w2 w3 (req & r & Hr) _ IH]; [done|]. eapply IH, receive_inv; done. }
  apply Forall_map, Forall_forall. intros [c e] [Hin%list_elem_of_In Hlt]%list_elem_of_In%filter_In.
  apply (bucket_ok s) in Hi.
  destruct (proj1 (Forall_forall _ _) Hi _ Hin) as [Hv He]. cbn in *. bool_prop. split; [done|lia].
Qed.
End credential_cache.

(** ** Delivery *)

(** The last time the clock will show. *)
Definition horizon (w : World) : Z := w_time w + foldr (λ d t, Z.of_N d + t) 0 (w_ticks w).

Lemma ticks_nonneg (l : list N) : 0 ≤ foldr (λ d t, Z.of_N d + t) 0 l.
Proof. induction l as [|d l IH]; cbn [foldr]; lia. Qed.

Lemma time_horizon (w w' : World) r : time_time w = (w', r) → horizon w' = horizon w ∧ w_time w' ≤ horizon w.
Proof.
  unfold time_time, horizon. destruct (w_ticks w) as [|d l] eqn:E; intros [= <- <-]; cbn [set_time w_time w_ticks foldr].
  - rewrite E. cbn [foldr]. lia.
  - pose proof (ticks_nonneg l). lia.
Qed.

Lemma seen_horizon s i (w w' : World) r : rc_seen s i w = (w', r) → horizon w' = horizon w.
Proof.
  cbn. unfold InMemoryReplayCache.seen, mbind, M_bind. destruct (time_run w) as (w1 & E & _ & _). rewrite E.
  apply time_horizon in E as [E _]. intros [= <- <-]. by rewrite <-E.
Qed.

Lemma remember_horizon s i ret (w w' : World) r : rc_remember s i ret w = (w', r) → horizon w' = horizon w.
Proof.
  cbn. unfold InMemoryReplayCache.remember, mbind, M_bind. destruct (time_run w) as (w1 & E & _ & _). rewrite E.
  apply time_horizon in E as [E _]. intros [= <- <-]. by rewrite <-E.
Qed.

Section checks.
Context `{PyUnicode} `{Pydantic} `{PyJWT} `{!PyJWTLaws}.
Context {env : ReceiverEnv World} (Hclock : ∀ w, env_now w = time_time w).
Context (config : ReceiverConfig).

(** A sender writes to the subject of this receiver, which finds its key (and,
    for a Shadowname, the record of its provider). *)
Context (sk : ed_secret) (fresh : pystr) (text ctx task : option pystr) (meta : option pydict) (mid : option pystr).
Context (template : EnvelopePayload) (h : pystr).
Let m : A2AMessage := build_outbound_message fresh text ctx task meta mid.
Context (Hfresh : fresh ≠ []) (Hhash : compute_msg_hash (to_wire m) = Ok h) (Hcanonical : envelope_canonical (with_msg_hash template h)).
Context (Hrecipient : ep_recipient template = cfg_subject config).
Context (rec : option ProviderRecord).

(** Every reading of the clock falls into the lifetime of the envelope. *)
Definition in_lifetime (w : World) : Prop :=
  ep_iat template - cfg_leeway_seconds config ≤ w_time w ∧ horizon w ≤ ep_exp template + cfg_leeway_seconds config.

Lemma message_id_nonempty : am_message_id m ≠ [].
Proof. subst m. cbn. unfold or_new_id. by destruct mid as [[|]|]. Qed.

Lemma wire_ids built :
  (∀ k, k ≠ str "metadata" → dict_get k built = dict_get k (to_wire m)) →
  message_id_of built = Ok (am_message_id m) ∧ context_id_of built = Ok ctx.
Proof.
  intros Hk. unfold message_id_of, context_id_of, get_str. rewrite !Hk by done. split.
  - pose proof message_id_nonempty as Hne. unfold to_wire, A2AMessage_dump. subst m. cbn -[or_new_id] in *.
    by destruct (or_new_id mid fresh).
  - subst m. unfold to_wire, A2AMessage_dump. by destruct text, ctx, task, meta.
Qed.

Definition verifier : Ed25519KeyPair := {| public_bytes := ed_public sk; _private := None |}.

(** The request body the sender posts. *)
Definition request (built : BuiltMessage) : json := JDict [(str "message", JDict (bm_message built))].

(** The part of [receive] from the replay cache on. *)
Definition after_checks (env : EnvelopePayload) (context_id : option pystr) : M World AcceptedDecision :=
  let sender := ep_sender template in
  seen ← rc_seen sender (am_message_id m);
  _ ← lift (raise_if seen (Wire ReplayError));
  _ ← rc_remember sender (am_message_id m) REPLAY_CACHE_RETENTION;
  sender_credentials ← _validate_creds config env sender;
  context_id ← lift (Ok context_id);
  '(route, auto_added) ← _classify config sender rec sender_credentials context_id;
  mret {| ad_route := route; ad_sender := sender; ad_envelope := env; ad_auto_added_contact := auto_added |}.

Lemma receive_checks :
  (∀ w, resolve_sender (ep_sender template) w = (w, Ok (verifier, rec))) →
  ∃ built, build_and_sign_message m template (generate sk) = Ok built
    ∧ bm_envelope_payload built = with_msg_hash template h
    ∧ ∀ w, in_lifetime w → ∃ wn, time_time w = (wn, Ok (w_time wn))
        ∧ receive config (request built) w = after_checks (with_msg_hash template h) ctx wn.
Proof.
  intros Hkey. destruct (build_and_sign_ok m template sk h) as (built & Hb & Hp & Hx & Hh & Hk & (hd & cl & Hhd & Hcl & Hkid & Hf & Ht) & Hv);
    [by left|done|done|].
  exists built. split_and!; [done|done|]. intros w [Hlo Hhi]. destruct (time_run w) as (wn & Hn & Hle & _).
  exists wn. split; [done|]. unfold receive, request. rewrite (M_bind_lift _ _ _ _ Hx).
  assert (preparse (bm_envelope_jws built) = Ok (hd, cl)) as Hpre.
  { unfold preparse. by rewrite Hhd, Hcl. }
  rewrite (M_bind_lift _ _ _ _ Hpre).
  assert (addresses hd cl = Ok (ep_sender template, ep_recipient template)) as Hadr.
  { unfold addresses. rewrite Hf, Ht, (get_str_is _ _ _ Hkid). destruct Hcanonical as (_ & Hcs & Hcr & _). cbn in Hcs, Hcr.
    by rewrite Hcs, Hcr. }
  rewrite (M_bind_lift _ _ _ _ Hadr), (M_bind_lift _ _ _ tt) by (by rewrite bool_decide_eq_true_2).
  assert ((env_now : M World Z) w = (wn, Ok (w_time wn))) as Hn' by (by rewrite Hclock).
  rewrite (M_bind_run _ _ _ _ _ (Hkey w)), (M_bind_run _ _ _ _ _ Hn').
  apply time_horizon in Hn as [_ Hh'].
  rewrite (M_bind_lift _ _ _ (with_msg_hash template h)).
  2: { rewrite <-Hrecipient, Hv, Hp; [done|done|lia]. }
  rewrite (M_bind_lift _ _ _ _ Hh), (M_bind_lift _ _ _ tt) by (by rewrite bool_decide_eq_true_2).
  destruct (wire_ids _ Hk) as [Hmid Hctx]. rewrite (M_bind_lift _ _ _ _ Hmid). unfold after_checks. by rewrite Hctx.
Qed.

(** A message id that is new is remembered; the credentials and the route follow. *)
Lemma admitted_once (w : World) :
  (∀ e, w_entries w !! (ep_sender template, am_message_id m) = Some e → e ≤ w_time w) →
  ∃ w2, horizon w2 = horizon w ∧ w_time w ≤ w_time w2 ∧ w_contacts w2 = w_contacts w ∧ w_outbound w2 = w_outbound w
    ∧ ∀ env context_id, after_checks env context_id w =
        (sender_credentials ← _validate_creds config env (ep_sender template);
         context_id ← lift (Ok context_id);
         '(route, auto_added) ← _classify config (ep_sender template) rec sender_credentials context_id;
         mret {| ad_route := route; ad_sender := ep_sender template; ad_envelope := env;
                 ad_auto_added_contact := auto_added |}) w2.
Proof.
  intros Hnew. destruct (rc_seen (ep_sender template) (am_message_id m) w) as [w1 r1] eqn:E1.
  pose proof E1 as (Ht & He & -> & Ew1)%seen_spec. rewrite bool_decide_eq_false_2 in E1.
  2: { intros [e Hs]. rewrite He, map_lookup_filter_Some in Hs. destruct Hs as [Hs Hlt]. apply Hnew in Hs. cbn in Hlt. lia. }
  destruct (rc_remember (ep_sender template) (am_message_id m) REPLAY_CACHE_RETENTION w1) as [w2 r2] eqn:E2.
  pose proof E2 as (Ht2 & _ & -> & Ew2)%remember_spec. exists w2. split_and!.
  5: { intros env' c. unfold after_checks. by rewrite (M_bind_run _ _ _ _ _ E1), (M_bind_lift _ _ _ tt), (M_bind_run _ _ _ _ _ E2). }
  - by rewrite (remember_horizon _ _ _ _ _ _ E2), (seen_horizon _ _ _ _ _ E1).
  - lia.
  - by rewrite Ew2, Ew1.
  - by rewrite Ew2, Ew1.
Qed.
End checks.

Section delivery.
Context `{PyUnicode} `{Pydantic} `{PyJWT} `{!PyJWTLaws} `{Gzip}.
Context (dns : Z → pystr → result (list (option (list pybytes)))).
Context (http_get : Z → pystr → result Response).
#[local] Instance delivery_env : ReceiverEnv World := default_env dns http_get.
Context (config : ReceiverConfig).

(** A sender writes to the subject of this receiver, which finds its key: the
    sender itself, or the one of its published card. *)
Context (sk : ed_secret) (fresh : pystr) (text ctx task : option pystr) (meta : option pydict) (mid : option pystr).
Context (template : EnvelopePayload) (h : pystr) (rec : option ProviderRecord).
Let m : A2AMessage := build_outbound_message fresh text ctx task meta mid.
Hypothesis Hfresh : fresh ≠ [].
Hypothesis Hhash : compute_msg_hash (to_wire m) = Ok h.
Hypothesis Hcanonical : envelope_canonical (with_msg_hash template h).
Hypothesis Hkey : ∀ w, resolve_sender (ep_sender template) w = (w, Ok (verifier sk, rec)).
Hypothesis Hrecipient : ep_recipient template = cfg_subject config.
Hypothesis Hcreds : ep_creds template = [].

#[local] Abbreviation in_lifetime := (in_lifetime config template).
#[local] Abbreviation after_checks := (after_checks config fresh text ctx task meta mid template rec).

(** The subject is canonical, so the same-provider test does not raise. *)
Lemma same_provider_total : ∃ b, same_provider config rec = Ok b.
Proof.
  unfold same_provider. destruct rec as [r|]; [|by exists false]. destruct (cfg_same_provider_org config); [|by exists false].
  destruct (is_shadowname (cfg_subject config)) eqn:E; [cbn [andb]|by exists false].
  destruct Hcanonical as (_ & _ & Hc & _). cbn [with_msg_hash ep_recipient] in Hc. unfold canonicalize_identifier in Hc.
  rewrite Hrecipient, E in Hc. unfold split_shadowname. rewrite Hc. cbn [mbind result_bind].
  destruct (partition_char 64 (cfg_subject config)) as [l d]. by eexists.
Qed.

Lemma first_delivery (w : World) :
  ep_sender template ∈ w_contacts w →
  (∀ e, w_entries w !! (ep_sender template, am_message_id m) = Some e → e ≤ w_time w) →
  ∃ w', after_checks (with_msg_hash template h) ctx w
    = (w', Ok {| ad_route := Inbox; ad_sender := ep_sender template; ad_envelope := with_msg_hash template h;
                 ad_auto_added_contact := false |}).
Proof.
  intros Hcon Hnew.
  destruct (admitted_once (env := delivery_env) config fresh text ctx task meta mid template rec w Hnew)
    as (w2 & _ & _ & Hcon2 & _ & ->).
  unfold _validate_creds. cbn [with_msg_hash ep_creds]. rewrite Hcreds.
  destruct (cc_for_sender (ep_sender template) w2) as [w3 r3] eqn:E3.
  pose proof E3 as (_ & _ & Hc3 & _ & _ & ->)%for_sender_spec. rewrite (M_bind_run _ _ _ _ _ E3), (M_bind_lift _ _ _ ctx) by done.
  exists w3. unfold _classify. destruct same_provider_total as [same Hsame].
  assert (cg_is_contact (ep_sender template) w3 = (w3, Ok true)) as Hi.
  { cbn. unfold InMemoryContactGraph.is_contact, mbind, M_bind, get_world, mret, M_ret. rewrite bool_decide_eq_true_2; [done|].
    by rewrite Hc3, Hcon2. }
  unfold mbind at 1, M_bind at 1. rewrite (M_bind_lift _ _ _ _ Hsame). destruct same; [done|]. by rewrite (M_bind_run _ _ _ _ _ Hi).
Qed.

Lemma second_delivery (w : World) e :
  w_entries w !! (ep_sender template, am_message_id m) = Some e → horizon w < e →
  ∃ w', after_checks (with_msg_hash template h) ctx w = (w', Raise (Wire ReplayError)).
Proof.
  intros He Hlt. unfold after_checks. cbn [rc_seen in_memory_replay].
  unfold InMemoryReplayCache.seen. destruct (time_run w) as (w1 & Ht & _ & Ew1).
  pose proof Ht as [_ Hh]%time_horizon. eexists. unfold mbind, M_bind. rewrite Ht. cbn -[after_checks].
  rewrite bool_decide_eq_true_2; [done|]. exists e. apply map_lookup_filter_Some. rewrite Ew1. cbn. split; [done|lia].
Qed.

Lemma calls_are_steps (w1 w2 : World) : calls dns http_get config w1 w2 → rtc (step config) w1 w2.
Proof. induction 1 as [|wa wb wc (req & r & Hr) _ IH]; [done|]. by eapply rtc_l; [eapply step_receive|]. Qed.

(** The built request names the message id. *)
Lemma built_message_id built jws msg mid' :
  build_and_sign_message m template (generate sk) = Ok built →
  extract_envelope_jws (request built) = Ok (jws, msg) → message_id_of msg = Ok mid' → mid' = am_message_id m.
Proof.
  intros Hb Hx Hm. destruct (build_and_sign_ok m template sk h) as (b & Hb' & _ & Hx' & _ & Hk & _); [by left|done|done|].
  rewrite Hb in Hb'. injection Hb' as <-. unfold request in Hx. rewrite Hx' in Hx. injection Hx as <- <-.
  destruct (wire_ids fresh text ctx task meta mid h Hfresh Hhash _ Hk) as [Hm' _]. fold m in Hm'. congruence.
Qed.

(** While the envelope lives, the replay cache holds the message. *)
Lemma redelivered (w w1 w2 : World) built d :
  receive config (request built) w = (w1, Ok d) → build_and_sign_message m template (generate sk) = Ok built →
  ad_sender d = ep_sender template → ad_envelope d = with_msg_hash template h →
  cfg_leeway_seconds config < 150 → rtc (step config) w1 w2 → in_lifetime w2 →
  ∃ e, horizon w2 < e ∧ w_entries w2 !! (ep_sender template, am_message_id m) = Some e.
Proof.
  intros Hfirst Hb Hs Hd Hleeway Hsteps [Hlo Hhi].
  apply receive_remembers in Hfirst as (jws & msg & mid' & key & now & e & Hx & Hm & _ & _ & Hv & He & Hheld).
  rewrite (built_message_id _ _ _ _ Hb Hx Hm), Hs in Hheld.
  apply verify_envelope_ok in Hv as (_ & _ & _ & _ & _ & _ & _ & _ & _ & Hl & [Hi _] & _).
  rewrite Hd in Hl, Hi. cbn in Hl, Hi. apply steps_retain in Hsteps as [Hc Hret].
  pose proof (ticks_nonneg (w_ticks w2)). unfold horizon in Hhi. cbn in Hc. unfold REPLAY_CACHE_RETENTION in He.
  destruct (Hheld ltac:(cbn; lia)) as (e1 & ? & Hh1). destruct (Hret _ _ Hh1 ltac:(cbn; lia)) as (e2 & ? & Hh2).
  exists e2. split; [unfold horizon; lia|exact Hh2].
Qed.

(** C5: a message is delivered, once.  A contact whose key resolves (it is the
    key, or its published card has it) builds and posts a message without
    credentials to this subject; every reading of the clock is within the
    lifetime of the envelope, the leeway is below 150 seconds and the message
    id is new: the message is accepted for the inbox.  Whatever calls follow,
    the same request is refused: as a replay when the clock stays within the
    lifetime, and at any later time when the call takes less than 300
    seconds less twice the leeway. *)
Theorem delivered_once (w : World) :
  in_lifetime w → 0 ≤ cfg_leeway_seconds config < 150 → ep_sender template ∈ w_contacts w →
  (∀ e, w_entries w !! (ep_sender template, am_message_id m) = Some e → e ≤ w_time w) →
  ∃ built w1, build_and_sign_message m template (generate sk) = Ok built
    ∧ receive config (request built) w
      = (w1, Ok {| ad_route := Inbox; ad_sender := ep_sender template; ad_envelope := bm_envelope_payload built;
                   ad_auto_added_contact := false |})
    ∧ ∀ w2, calls dns http_get config w1 w2 →
        (in_lifetime w2 → ∃ w3, receive config (request built) w2 = (w3, Raise (Wire ReplayError)))
        ∧ ∀ w3 r, receive config (request built) w2 = (w3, r) →
            w_time w3 - w_time w2 + 2 * cfg_leeway_seconds config < 300 → ∃ e, r = Raise e.
Proof.
  intros Hin Hleeway Hcon Hnew.
  destruct (receive_checks (env := delivery_env) (λ _, eq_refl) config sk fresh text ctx task meta mid template h
    Hfresh Hhash Hcanonical Hrecipient rec Hkey) as (built & Hb & Hp & Hrun). fold m in Hb.
  destruct (Hrun w Hin) as (wn & Hn & Hr). pose proof Hn as (_ & Hle & Ewn)%time_time_spec.
  destruct (first_delivery wn) as (w1 & Hfirst); [by rewrite Ewn| |].
  { intros e He. rewrite Ewn in He. apply Hnew in He. lia. }
  rewrite <-Hr in Hfirst. exists built, w1. rewrite Hp. split_and!; [done|done|].
  intros w2 Hcalls%calls_are_steps. split.
  - intros Hin2. destruct (redelivered w w1 w2 built _ Hfirst Hb eq_refl eq_refl) as (e & Hlt & He); [lia|done|done|].
    destruct (Hrun w2 Hin2) as (wn2 & Hn2 & ->). pose proof Hn2 as [Hhz _]%time_horizon.
    pose proof Hn2 as (_ & _ & Ewn2)%time_time_spec. apply (second_delivery wn2 e); [by rewrite Ewn2|by rewrite Hhz].
  - intros w3 r Hagain Hmargin. by eapply redelivery_refused.
Qed.
End delivery.

(** In direct mode the sender is the key. *)
Lemma direct_key_resolves `{PyUnicode} `{Pydantic} `{PyJWT} {env : ReceiverEnv World} (sk : ed_secret) (sender : pystr) (w : World) :
  encode_public_key (ed_public sk) = Ok sender → resolve_sender sender w = (w, Ok (verifier sk, None)).
Proof.
  intros Hsender. destruct (ed_public_bytes sk) as [Hl Hb].
  destruct (encode_public_key_ok sk) as (k & Hk & Hp). rewrite Hsender in Hk. injection Hk as <-.
  assert (is_public_key_identifier sender = true) as Ek.
  { unfold encode_public_key, py_len in Hsender. rewrite Hl in Hsender. injection Hsender as <-.
    by apply key_is_key_identifier. }
  unfold resolve_sender. rewrite Ek, (M_bind_lift _ _ _ _ Hp).
  by rewrite (M_bind_lift _ _ _ _ (from_public_bytes_public sk)).
Qed.

(** ** Examples: a receiver with one contact *)

#[local] Existing Instance ascii_unicode.
#[local] Existing Instance strict_pydantic.
#[local] Existing Instance toy_ed25519.
#[local] Existing Instance toy_jwt.
#[local] Existing Instance toy_jwt_laws.
#[local] Existing Instance toy_gzip.

(** No name resolves and no host answers: direct mode needs neither. *)
Definition no_dns (_ : Z) (_ : pystr) : result (list (option (list pybytes))) := Raise DNSException.
Definition no_net (_ : Z) (_ : pystr) : result Response := Raise HTTPError.
#[local] Instance offline : ReceiverEnv World := default_env no_dns no_net.

Definition demo_config : ReceiverConfig := {|
  cfg_subject := str "bob@acme.example"; cfg_trust_store := demo_store; cfg_policy := {| from_contact := []; from_stranger := [] |};
  cfg_same_provider_org := false; cfg_auto_add_lookback_seconds := AUTO_ADD_LOOKBACK_DEFAULT;
  cfg_leeway_seconds := 60 |}.

Definition demo_template : EnvelopePayload := {|
  ep_v := str "0.2"; ep_sender := demo_sender; ep_recipient := str "bob@acme.example";
  ep_iat := 2000; ep_exp := 2200; ep_msg_hash := demo_outbound_hash;
  ep_body := {| eb_text := Some (str "hello"); eb_intent := None; eb_data := None; eb_extra := [] |};
  ep_creds := []; ep_extra := [] |}.

Lemma demo_template_canonical : envelope_canonical (with_msg_hash demo_template demo_outbound_hash).
Proof.
  unfold envelope_canonical, body_canonical. split_and!;
    first [vm_compute; reflexivity | vm_compute; congruence | apply Forall_nil_2 | left; reflexivity
          | apply well_formed_dec; vm_compute; reflexivity].
Qed.

Definition demo_request : json :=
  match build_and_sign_message demo_outbound demo_template (demo_pair 5) with
  | Ok built => request built
  | Raise _ => JNull
  end.

(** The clock starts at 2010 and a second passes at each of twenty readings. *)
Definition demo_world (contacts : gset pystr) : World := {|
  w_time := 2010; w_ticks := repeat 1%N 20; w_entries := ∅; w_contacts := contacts;
  w_outbound := {[ (str "ctx", demo_sender) := 1500 ]}; w_by_sender := ∅ |}.

Definition demo_decision (auto : bool) : AcceptedDecision := {|
  ad_route := Inbox; ad_sender := demo_sender; ad_envelope := demo_template; ad_auto_added_contact := auto |}.

Definition demo_w : World := demo_world {[demo_sender]}.
Definition demo_w1 : World := (receive demo_config demo_request demo_w).1.

Lemma run_split {A} (m : M World A) (w : World) (r : result A) : (m w).2 = r → m w = ((m w).1, r).
Proof. destruct (m w). simpl. by intros ->. Qed.

Lemma demo_first : receive demo_config demo_request demo_w = (demo_w1, Ok (demo_decision false)).
Proof. unfold demo_w1. refine (run_split (receive demo_config demo_request) demo_w _ _). vm_compute. reflexivity. Qed.

Lemma receive_authentic_witness :
  ad_sender (demo_decision false) = ep_sender demo_template ∧ ep_recipient demo_template = cfg_subject demo_config
  ∧ ep_exp demo_template - ep_iat demo_template ≤ 300.
Proof.
  destruct (receive_authentic demo_config demo_request demo_w _ _ demo_first)
    as (jws & message & pk & rec & wr & now & _ & Hs & Hr & _ & _ & _ & Hl & _).
  split_and!; [exact Hs|exact Hr|exact Hl].
Defined.

Lemma receive_route_justified_witness :
  ∃ w1 pk rec creds ctx w5,
    key_of_sender demo_sender demo_w w1 pk rec
    ∧ route_reason demo_config demo_sender rec creds ctx w5 demo_w1 Inbox false.
Proof.
  destruct (receive_route_justified demo_config demo_request demo_w _ _ demo_first)
    as (jws & message & pk & rec & w1 & now & w2 & mid & w3 & w4 & creds & w5 & ctx & _ & _ & _ & Hk & _ & _ & _ & _ & _ & _ & Hr).
  exists w1, pk, rec, creds, ctx, w5. split; [exact Hk|exact Hr].
Defined.

Definition demo_w2 : World := (receive demo_config demo_request demo_w1).1.

Lemma demo_second : receive demo_config demo_request demo_w1 = (demo_w2, Raise (Wire ReplayError)).
Proof. unfold demo_w2. refine (run_split (receive demo_config demo_request) demo_w1 _ _). vm_compute. reflexivity. Qed.

Lemma no_replay_witness :
  requests_collide demo_request demo_request
  ∨ ∀ d2, (Raise (Wire ReplayError) : result AcceptedDecision) = Ok d2 → ad_envelope d2 ≠ demo_template.
Proof.
  apply (no_replay demo_config demo_request demo_request demo_w _ _ _ (demo_decision false) _
           ltac:(vm_compute; reflexivity) ltac:(vm_compute; reflexivity) demo_first (rtc_refl _ _) demo_second).
  vm_compute. reflexivity.
Defined.

Definition demo_v : World := demo_world ∅.
Definition demo_v1 : World := (receive demo_config demo_request demo_v).1.

Lemma demo_answer : receive demo_config demo_request demo_v = (demo_v1, Ok (demo_decision true)).
Proof. unfold demo_v1. refine (run_split (receive demo_config demo_request) demo_v _ _). vm_compute. reflexivity. Qed.

(** An answer in a thread that the subject opened makes its sender a contact. *)
Lemma contacts_gained_by_auto_add_witness :
  (demo_sender ∉ w_contacts demo_v) ∧ w_contacts demo_v1 = {[demo_sender]} ∪ w_contacts demo_v.
Proof.
  destruct (contacts_gained_by_auto_add no_dns no_net demo_config demo_request demo_v demo_v1 _ demo_answer)
    as (jws & message & ctx & _ & _ & Hnew & Hadd & _).
  split; [exact Hnew|exact Hadd].
Defined.

(** A sender that brings a credential of a keyed issuer; the issuer's status
    list says that nothing is revoked. *)
Definition status_net (_ : Z) (_ : pystr) : result Response :=
  Ok {| status_code := 200; header_get := λ _, None; text := encode_status_list (empty 16); content := [];
        json_body := Raise JSONDecodeError |}.

Definition demo_cred_template : EnvelopePayload := {|
  ep_v := str "0.2"; ep_sender := demo_sender; ep_recipient := str "bob@acme.example";
  ep_iat := 2000; ep_exp := 2200; ep_msg_hash := demo_outbound_hash;
  ep_body := {| eb_text := Some (str "hello"); eb_intent := None; eb_data := None; eb_extra := [] |};
  ep_creds := [vc_raw_jws demo_keyed]; ep_extra := [] |}.

Definition demo_cred_request : json :=
  match build_and_sign_message demo_outbound demo_cred_template (demo_pair 5) with
  | Ok built => request built
  | Raise _ => JNull
  end.

Definition demo_k1 : World :=
  (receive demo_config demo_cred_request (ReceiverEnv0 := default_env no_dns status_net) demo_w).1.
Definition demo_k2 : World := (InMemoryCredentialCache.for_sender demo_sender demo_k1).1.

Lemma demo_brings :
  receive demo_config demo_cred_request (ReceiverEnv0 := default_env no_dns status_net) demo_w
  = (demo_k1, Ok {| ad_route := Inbox; ad_sender := demo_sender; ad_envelope := demo_cred_template;
                    ad_auto_added_contact := false |}).
Proof.
  unfold demo_k1. refine (run_split (receive demo_config demo_cred_request) demo_w _ _). vm_compute. reflexivity.
Qed.

Lemma demo_cached : InMemoryCredentialCache.for_sender demo_sender demo_k1 = (demo_k2, Ok [demo_keyed]).
Proof.
  unfold demo_k2. refine (run_split (InMemoryCredentialCache.for_sender demo_sender) demo_k1 _ _). vm_compute. reflexivity.
Qed.

Lemma cached_credentials_vetted_witness :
  Forall (λ c, vetted no_dns status_net demo_config demo_sender c ∧ w_time demo_k2 + 60 < cp_exp (vc_payload c)) [demo_keyed].
Proof.
  refine (cached_credentials_vetted no_dns status_net demo_config demo_w demo_k1 demo_k2 demo_sender [demo_keyed]
    eq_refl _ demo_cached).
  apply rtc_once. eexists _, _. exact demo_brings.
Defined.

Lemma delivered_once_witness :
  ∃ built w1, build_and_sign_message demo_outbound demo_template (generate (5 : @ed_secret toy_ed25519)) = Ok built
    ∧ receive demo_config (request built) demo_w
      = (w1, Ok {| ad_route := Inbox; ad_sender := demo_sender; ad_envelope := bm_envelope_payload built;
                   ad_auto_added_contact := false |}).
Proof.
  destruct (delivered_once no_dns no_net demo_config (5 : @ed_secret toy_ed25519) (str "FRESH") (Some (str "hello"))
    (Some (str "ctx")) None (Some [(str "trace", JInt 7)]) None demo_template demo_outbound_hash None) with (w := demo_w)
    as (built & w1 & Hb & Hr & _).
  - discriminate.
  - vm_compute. reflexivity.
  - exact demo_template_canonical.
  - intros w. apply direct_key_resolves. reflexivity.
  - reflexivity.
  - reflexivity.
  - vm_compute. split; congruence.
  - vm_compute. split; congruence.
  - cbn. set_solver.
  - intros e He. discriminate.
  - exists built, w1. split; [exact Hb|exact Hr].
Defined.
