(* ===== verification/AsyncReceiver.v ===== *)
(** * The asynchronous receiver — [shadownet/receiver.py], [shadownet/credential.py]

    [AsyncReceiverPipeline] and the asynchronous credential verification, as
    coroutines over the protocols [AsyncReplayCache], [AsyncContactGraph] and
    [AsyncCredentialCache].  A store may suspend the task that calls it, or not:
    the in-memory stores of [Stores] have no suspension point. *)

From S2P Require Import Prelude PyStr Identifiers Jcs Dicts Crypto Provider Pydantic Credential Status.
From S2P Require Import Trust Envelope A2A AgentCard Coroutine Receiver.

(** ** Interfaces *)

Class AsyncReplayCache (W : Type) : Type := {
  arc_seen : pystr → pystr → co W bool;
  arc_remember : pystr → pystr → Z → co W unit;
}.

Class AsyncContactGraph (W : Type) : Type := {
  acg_is_contact : pystr → co W bool;
  acg_has_recent_outbound : pystr → pystr → Z → co W bool;
  acg_add_contact : pystr → co W unit;
}.

Class AsyncCredentialCache (W : Type) : Type := {
  acc_for_sender : pystr → co W (list VerifiedCredential);
  acc_cache : pystr → VerifiedCredential → Z → co W unit;
}.

(** The callbacks given to the constructor; [now] is a plain function. *)
Class AsyncReceiverEnv (W : Type) : Type := {
  aenv_provider_lookup : pystr → co W ProviderRecord;
  aenv_fetch_agent_card : pystr → ProviderRecord → co W FetchedAgentCard;
  aenv_revocation_check : VerifiedCredential → co W unit;
  aenv_now : M W Z;
}.

(** ** Credentials *)

Section async_credential.
Context `{PyUnicode} `{Pydantic} `{PyJWT} {W : Type}.

Definition averify_credential (now leeway : Z) (resolver : pystr → co W pystr)
    (authorize : pystr → pystr → co W unit) (token : pystr) : co W VerifiedCredential :=
  payload ← sync (lift (credential_claims now leeway token));
  issuer_key_multibase ← resolver (cp_iss payload);
  _ ← sync (lift (credential_signature token issuer_key_multibase));
  _ ← authorize (cp_iss payload) (cp_org payload);
  mret {| vc_payload := payload; vc_issuer_key := issuer_key_multibase; vc_raw_jws := token |}.

Definition default_async_issuer_key_resolver (alookup : pystr → co W ProviderRecord) (issuer : pystr) : co W pystr :=
  if is_public_key_identifier issuer then mret issuer
  else
    record ← rethrowC is_ProviderResolutionError (λ _, CredentialError) (alookup issuer);
    sync (lift (of_option CredentialError (head (pr_provider_keys record)))).

Definition default_async_issuer_authorization_check (alookup : pystr → co W ProviderRecord)
    (issuer org : pystr) : co W unit :=
  if bool_decide (issuer = org) then mret tt
  else if is_public_key_identifier issuer || is_public_key_identifier org then sync (lift (Raise CredentialError))
  else
    sub ← sync (lift (is_subdomain_of issuer org));
    if (sub : bool) then mret tt
    else
      org_record ← rethrowC is_ProviderResolutionError (λ _, CredentialError) (alookup org);
      if bool_decide (py_lower issuer ∈ map py_lower (pr_delegates org_record)) then mret tt
      else sync (lift (Raise CredentialError)).
End async_credential.

(** ** The pipeline *)

Module AsyncReceiverPipeline.
Section pipeline.
Context `{PyUnicode} `{Pydantic} `{PyJWT} {W : Type}.
Context `{!AsyncReplayCache W} `{!AsyncContactGraph W} `{!AsyncCredentialCache W} `{!AsyncReceiverEnv W}.
Context (config : ReceiverConfig).

Definition _resolve_issuer_key (issuer : pystr) : co W pystr :=
  if is_public_key_identifier issuer then mret issuer
  else
    record ← rethrowC is_ProviderResolutionError (λ _, CredentialError) (aenv_provider_lookup issuer);
    sync (lift (of_option CredentialError (head (pr_provider_keys record)))).

Definition _check_issuer_authorized_for_org (issuer org : pystr) : co W unit :=
  if bool_decide (issuer = org) then mret tt
  else if is_public_key_identifier issuer || is_public_key_identifier org then sync (lift (Raise CredentialError))
  else
    sub ← sync (lift (is_subdomain_of issuer org));
    if (sub : bool) then mret tt
    else
      org_record ← rethrowC is_ProviderResolutionError (λ _, CredentialError) (aenv_provider_lookup org);
      if bool_decide (py_lower issuer ∈ map py_lower (pr_delegates org_record)) then mret tt
      else sync (lift (Raise CredentialError)).

(** One credential of the loop in [_validate_creds]. *)
Definition validate_cred (sender jws : pystr) : co W VerifiedCredential :=
  now ← sync aenv_now;
  cred ← rethrowC is_CredentialError (λ _, Wire CredsRejectedError)
           (averify_credential now (cfg_leeway_seconds config) _resolve_issuer_key
              _check_issuer_authorized_for_org jws);
  _ ← rethrowC is_StatusListError (λ _, Wire CredsRejectedError) (aenv_revocation_check cred);
  now2 ← sync aenv_now;
  _ ← acc_cache sender cred (Z.min (cp_exp (vc_payload cred) - CREDENTIAL_CACHE_LEEWAY)
                                   (now2 + CREDENTIAL_CACHE_DEFAULT_TTL));
  mret cred.

Fixpoint validate_creds_loop (sender : pystr) (creds : list pystr) : co W (list VerifiedCredential) :=
  match creds with
  | [] => mret []
  | jws :: creds =>
      cred ← validate_cred sender jws;
      rest ← validate_creds_loop sender creds;
      mret (cred :: rest)
  end.

Definition _validate_creds (envelope : EnvelopePayload) (sender : pystr) : co W (list VerifiedCredential) :=
  match ep_creds envelope with
  | [] => acc_for_sender sender
  | creds => validate_creds_loop sender creds
  end.

Definition recent_outbound (context_id : option pystr) (sender : pystr) : co W bool :=
  match context_id with
  | Some (c :: s) => acg_has_recent_outbound (c :: s) sender (cfg_auto_add_lookback_seconds config)
  | _ => mret false
  end.

Definition _classify (sender : pystr) (sender_provider_record : option ProviderRecord)
    (credentials : list VerifiedCredential) (context_id : option pystr) : co W (Route * bool) :=
  same ← sync (lift (same_provider config sender_provider_record));
  if (same : bool) then mret (Inbox, false)
  else
    contact ← acg_is_contact sender;
    if (contact : bool) then mret (Inbox, false)
    else
      recent ← recent_outbound context_id sender;
      if (recent : bool) then
        _ ← acg_add_contact sender;
        mret (Inbox, true)
      else
        let required := required_kinds (cfg_policy config) false in
        match required with
        | [] => sync (lift (Raise (Wire PolicyError)))
        | _ =>
            ok ← sync (lift (satisfies_policy credentials (cfg_trust_store config) required));
            if (ok : bool) then mret (StrangerReview, false)
            else match credentials with
                 | [] => sync (lift (Raise (Wire CredsRequiredError)))
                 | _ => sync (lift (Raise (Wire CredsRejectedError)))
                 end
        end.

Definition resolve_sender (sender : pystr) : co W (Ed25519KeyPair * option ProviderRecord) :=
  if is_public_key_identifier sender then
    raw ← sync (lift (parse_public_key sender));
    key ← sync (lift (from_public_bytes raw));
    mret (key, None)
  else
    record ← rethrowC is_ProviderResolutionError (λ _, Wire SignatureError)
               ('(_, sender_provider) ← sync (lift (split_shadowname sender)); aenv_provider_lookup sender_provider);
    card ← rethrowC is_AgentCardError (λ _, Wire SignatureError) (aenv_fetch_agent_card sender record);
    raw ← sync (lift (parse_public_key (fc_shadow_public_key card)));
    key ← sync (lift (from_public_bytes raw));
    mret (key, Some record).

(** From the verification of the envelope to the message id. *)
Definition check_envelope (envelope_jws : pystr) (message : pydict) (sender_key : Ed25519KeyPair)
    : M W (EnvelopePayload * pystr) :=
  now ← aenv_now;
  envelope ← lift (rethrow is_EnvelopeError envelope_error_class
                     (verify_envelope envelope_jws sender_key (cfg_subject config) now (cfg_leeway_seconds config)));
  recomputed ← lift (compute_msg_hash message);
  _ ← lift (raise_if (negb (bool_decide (recomputed = ep_msg_hash envelope))) (Wire ParseError));
  message_id ← lift (message_id_of message);
  mret (envelope, message_id).

Definition receive (request_body : json) : co W AcceptedDecision :=
  '(envelope_jws, message) ← sync (lift (extract_envelope_jws request_body));
  '(header, unverified) ← sync (lift (preparse envelope_jws));
  '(sender, recipient) ← sync (lift (addresses header unverified));
  _ ← sync (lift (raise_if (negb (bool_decide (recipient = cfg_subject config))) (Wire UnknownRecipientError)));
  '(sender_key, sender_provider_record) ← resolve_sender sender;
  '(envelope, message_id) ← sync (check_envelope envelope_jws message sender_key);
  seen ← arc_seen sender message_id;
  _ ← sync (lift (raise_if seen (Wire ReplayError)));
  _ ← arc_remember sender message_id REPLAY_CACHE_RETENTION;
  sender_credentials ← _validate_creds envelope sender;
  context_id ← sync (lift (context_id_of message));
  '(route, auto_added) ← _classify sender sender_provider_record sender_credentials context_id;
  mret {| ad_route := route; ad_sender := sender; ad_envelope := envelope; ad_auto_added_contact := auto_added |}.
End pipeline.
End AsyncReceiverPipeline.

(** ** Run alone, the asynchronous pipeline is the synchronous one *)

(** Stores and callbacks of which each asynchronous operation, run alone, is the
    synchronous one. *)
Class AsyncSiblings (W : Type)
    `{!ReplayCache W} `{!ContactGraph W} `{!CredentialCache W} `{!ReceiverEnv W}
    `{!AsyncReplayCache W} `{!AsyncContactGraph W} `{!AsyncCredentialCache W} `{!AsyncReceiverEnv W} : Prop := {
  sib_seen s m : drives (arc_seen s m) (rc_seen s m);
  sib_remember s m r : drives (arc_remember s m r) (rc_remember s m r);
  sib_is_contact s : drives (acg_is_contact s) (cg_is_contact s);
  sib_outbound c p l : drives (acg_has_recent_outbound c p l) (cg_has_recent_outbound c p l);
  sib_add_contact s : drives (acg_add_contact s) (cg_add_contact s);
  sib_for_sender s : drives (acc_for_sender s) (cc_for_sender s);
  sib_cache s c e : drives (acc_cache s c e) (cc_cache s c e);
  sib_lookup d : drives (aenv_provider_lookup d) (env_provider_lookup d);
  sib_card s r : drives (aenv_fetch_agent_card s r) (env_fetch_agent_card s r);
  sib_revocation c : drives (aenv_revocation_check c) (env_revocation_check c);
  sib_now : aenv_now = env_now;
}.
#[export] Hint Resolve sib_seen sib_remember sib_is_contact sib_outbound sib_add_contact sib_for_sender sib_cache
  sib_lookup sib_card sib_revocation : shadownet.

Section siblings.
Context `{PyUnicode} `{Pydantic} `{PyJWT} {W : Type}.
Context `{AsyncSiblings W} (config : ReceiverConfig).

Lemma drives_now : drives (sync aenv_now) (env_now : M W Z).
Proof. rewrite <-sib_now. apply drives_sync. Qed.
Hint Resolve drives_now : shadownet.

Lemma drives_issuer_key i : drives (AsyncReceiverPipeline._resolve_issuer_key i) (_resolve_issuer_key i).
Proof. unfold AsyncReceiverPipeline._resolve_issuer_key, _resolve_issuer_key. drive. Qed.
Lemma drives_authorized i o :
  drives (AsyncReceiverPipeline._check_issuer_authorized_for_org i o) (_check_issuer_authorized_for_org i o).
Proof.
  unfold AsyncReceiverPipeline._check_issuer_authorized_for_org, _check_issuer_authorized_for_org. drive.
Qed.
Hint Resolve drives_issuer_key drives_authorized : shadownet.

Lemma drives_verify_credential now leeway token :
  drives (averify_credential now leeway AsyncReceiverPipeline._resolve_issuer_key
            AsyncReceiverPipeline._check_issuer_authorized_for_org token)
         (verify_credential now leeway _resolve_issuer_key _check_issuer_authorized_for_org token).
Proof. unfold averify_credential, verify_credential. drive. Qed.
Hint Resolve drives_verify_credential : shadownet.

Lemma drives_validate_creds env s :
  drives (AsyncReceiverPipeline._validate_creds config env s) (_validate_creds config env s).
Proof.
  unfold AsyncReceiverPipeline._validate_creds, _validate_creds. destruct (ep_creds env) as [|j js]; [drive|].
  generalize (j :: js). intros l. induction l as [|jws l IH]; [drive|].
  cbn [AsyncReceiverPipeline.validate_creds_loop validate_creds_loop].
  apply drives_bind; [|intros c; drive]. unfold AsyncReceiverPipeline.validate_cred, validate_cred. drive.
Qed.

Lemma drives_classify s rec cs ctx :
  drives (AsyncReceiverPipeline._classify config s rec cs ctx) (_classify config s rec cs ctx).
Proof.
  unfold AsyncReceiverPipeline._classify, _classify, AsyncReceiverPipeline.recent_outbound, recent_outbound. drive.
Qed.

Lemma drives_resolve_sender s : drives (AsyncReceiverPipeline.resolve_sender s) (resolve_sender s).
Proof.
  unfold AsyncReceiverPipeline.resolve_sender, resolve_sender. destruct (is_public_key_identifier s); [drive|].
  apply drives_bind; [apply drives_rethrow|intros]; drive.
Qed.
Hint Resolve drives_validate_creds drives_classify drives_resolve_sender : shadownet.

(** C7: run without interruption, the asynchronous pipeline gives the same
    decision or error as the synchronous one and leaves the same world. *)
Theorem async_receive_uninterrupted (req : json) (w : W) :
  drive (AsyncReceiverPipeline.receive config req) w = receive config req w.
Proof.
  revert w. change (drives (AsyncReceiverPipeline.receive config req) (receive config req)).
  unfold AsyncReceiverPipeline.receive, receive.
  do 4 (apply drives_bind; [by apply drives_sync|intros []]).
  apply drives_bind; [apply drives_resolve_sender|intros [key rec]].
  unfold AsyncReceiverPipeline.check_envelope. rewrite sib_now.
  do 5 (apply drives_sync_bind, drives_bind; [by apply drives_sync|intros ?]). apply drives_ret_bind. drive.
Qed.
End siblings.
