(* ===== verification/AsyncReplay.v ===== *)
(** * Concurrent deliveries

    Requests handled by tasks of one event loop, interleaved at every
    suspension.  When the replay cache does not suspend between [seen] and
    [remember] (the in-memory one does not), no two tasks accept the same
    envelope; with a cache behind a connection they may. *)

From S2P Require Import Prelude PyStr Identifiers Jcs Dicts Http Sha256 Crypto Provider Pydantic.
From S2P Require Import Credential Status Trust Envelope A2A AgentCard Coroutine Receiver Replay Stores.
From S2P Require Import Deployment AsyncReceiver.

(** What the stores and callbacks promise: the replay cache is atomic, nothing
    else makes it forget. *)
Class AsyncReplayLaws (W : Type) `{ReplayView W} `{!ReplayCache W} `{!AsyncReplayCache W} `{!AsyncContactGraph W}
    `{!AsyncCredentialCache W} `{!AsyncReceiverEnv W} : Prop := {
  arl_cache :: ReplayCacheLaws W aenv_now;
  arl_seen s m : arc_seen s m = sync (rc_seen s m);
  arl_remember s m r : arc_remember s m r = sync (rc_remember s m r);
  arl_lookup d : co_keeps retains (aenv_provider_lookup d);
  arl_card s r : co_keeps retains (aenv_fetch_agent_card s r);
  arl_revocation c : co_keeps retains (aenv_revocation_check c);
  arl_is_contact s : co_keeps retains (acg_is_contact s);
  arl_outbound c p l : co_keeps retains (acg_has_recent_outbound c p l);
  arl_add_contact s : co_keeps retains (acg_add_contact s);
  arl_for_sender s : co_keeps retains (acc_for_sender s);
  arl_cache_cred s c e : co_keeps retains (acc_cache s c e);
}.
#[export] Hint Resolve arl_lookup arl_card arl_revocation arl_is_contact arl_outbound arl_add_contact arl_for_sender
  arl_cache_cred : shadownet.

(** ** The phases of a task *)

(** The admission of a message: what the replay cache is told, and when. *)
Record admission := {
  adm_envelope : EnvelopePayload;
  adm_key : pystr * pystr;
  adm_now : Z;
  adm_expires : Z;
}.

Section phases.
Context `{PyUnicode} `{Pydantic} `{PyJWT} {W : Type}.
Context `{!ReplayView W} `{!ReplayCache W} `{!AsyncReplayCache W} `{!AsyncContactGraph W} `{!AsyncCredentialCache W}
  `{!AsyncReceiverEnv W} `{!AsyncReplayLaws W}.
Context (config : ReceiverConfig).

(** What was checked of a request before it was admitted. *)
Definition checked (req : json) (a : admission) : Prop :=
  ∃ jws message mid key,
    extract_envelope_jws req = Ok (jws, message) ∧ message_id_of message = Ok mid
    ∧ compute_msg_hash message = Ok (ep_msg_hash (adm_envelope a)) ∧ adm_key a = (ep_sender (adm_envelope a), mid)
    ∧ verify_envelope jws key (cfg_subject config) (adm_now a) (cfg_leeway_seconds config) = Ok (adm_envelope a)
    ∧ adm_now a + REPLAY_CACHE_RETENTION ≤ adm_expires a.

(** A stretch from [w] to [w'] in which a message is admitted: no live entry at
    [wa], remembered from there on. *)
Definition admits (a : admission) (w w' : W) : Prop :=
  ∃ wa, retains w wa ∧ (∀ e, held wa (adm_key a) = Some e → e ≤ clock wa) ∧ retains wa w'
    ∧ clock w ≤ adm_now a
    ∧ (clock w' < adm_expires a → ∃ e, adm_expires a ≤ e ∧ held w' (adm_key a) = Some e).

(** After the admission: whatever happens, only this envelope is accepted. *)
Inductive post (a : admission) : co W AcceptedDecision → Prop :=
  | in_post f : (∀ w w' x, f w = (w', x) → retains w w') →
      (∀ w w' d, f w = (w', inl (Ok d)) → ad_envelope d = adm_envelope a) →
      (∀ w w' c, f w = (w', inr c) → post a c) → post a (Co f).

Definition after (a : admission) (x : task W AcceptedDecision) : Prop :=
  match x with
  | inl r => ∀ d, r = Ok d → ad_envelope d = adm_envelope a
  | inr c => post a c
  end.

(** Before it: a stretch either admits nothing and accepts nothing, or admits. *)
Inductive pre (req : json) : co W AcceptedDecision → Prop :=
  | in_pre f : (∀ w w' x, f w = (w', x) → retains w w') →
      (∀ w w' d, f w = (w', inl (Ok d)) → ∃ a, checked req a ∧ admits a w w' ∧ after a (inl (Ok d))) →
      (∀ w w' c, f w = (w', inr c) → pre req c ∨ ∃ a, checked req a ∧ admits a w w' ∧ after a (inr c)) →
      pre req (Co f).

Lemma admits_later a (w w1 w2 : W) : retains w w1 → admits a w1 w2 → admits a w w2.
Proof.
  intros Rw (wa & R1 & Hn & R2 & Hc & Hh). exists wa. split_and!; [by transitivity w1|done|done| |done].
  destruct Rw. lia.
Qed.

Lemma pre_bind {A} req (c : co W A) (k : A → co W AcceptedDecision) :
  co_keeps retains c → (∀ a, pre req (k a)) → pre req (c ≫= k).
Proof.
  intros Hc Hk. induction Hc as [f Hf _ IH].
  split; intros w w' x; cbn; destruct (f w) as [w1 [[a|e]|c]] eqn:E; try done.
  - destruct (Hk a) as [g Hg _ _]. intros Ha. transitivity w1; [by eapply Hf|by eapply Hg].
  - intros [= <- _]. by eapply Hf.
  - intros [= <- _]. by eapply Hf.
  - destruct (Hk a) as [g _ Hg _]. intros Ha. destruct (Hg _ _ _ Ha) as (ad & ? & ? & ?).
    exists ad. split_and!; [done| |done]. eapply admits_later; [by eapply Hf|done].
  - destruct (Hk a) as [g _ _ Hg]. intros Ha. destruct (Hg _ _ _ Ha) as [?|(ad & ? & ? & ?)]; [by left|].
    right. exists ad. split_and!; [done| |done]. eapply admits_later; [by eapply Hf|done].
  - intros [= <- <-]. left. by eapply IH.
Qed.

Lemma post_bind {A} a (c : co W A) (k : A → co W AcceptedDecision) :
  co_keeps retains c → (∀ x, post a (k x)) → post a (c ≫= k).
Proof.
  intros Hc Hk. induction Hc as [f Hf _ IH].
  split; intros w w' x; cbn; destruct (f w) as [w1 [[y|e]|c]] eqn:E; try done.
  - destruct (Hk y) as [g Hg _ _]. intros Ha. transitivity w1; [by eapply Hf|by eapply Hg].
  - intros [= <- _]. by eapply Hf.
  - intros [= <- _]. by eapply Hf.
  - destruct (Hk y) as [g _ Hg _]. intros Ha. by eapply Hg.
  - destruct (Hk y) as [g _ _ Hg]. intros Ha. by eapply Hg.
  - intros [= <- <-]. by eapply IH.
Qed.

Lemma post_ret a d : ad_envelope d = adm_envelope a → post a (mret d).
Proof. intros Hd. split; [by intros w w' x [= <- _]|by intros w w' x [= <- <-]|done]. Qed.

(** ** The pipeline goes through these phases *)

Lemma now_keeps : keeps retains (aenv_now : M W Z).
Proof. intros w w' r Hn. by apply now_law in Hn as [? _]. Qed.
Lemma co_now_keeps : co_keeps retains (sync aenv_now : co W Z).
Proof. apply co_keeps_sync, now_keeps. Qed.
Hint Resolve co_now_keeps keeps_lift : shadownet.

Lemma issuer_key_keeps i : co_keeps retains (AsyncReceiverPipeline._resolve_issuer_key i : co W pystr).
Proof. unfold AsyncReceiverPipeline._resolve_issuer_key. co_keep. Qed.
Lemma authorized_keeps i o : co_keeps retains (AsyncReceiverPipeline._check_issuer_authorized_for_org i o : co W unit).
Proof. unfold AsyncReceiverPipeline._check_issuer_authorized_for_org. co_keep. Qed.
Hint Resolve issuer_key_keeps authorized_keeps : shadownet.

Lemma averify_keeps now leeway token :
  co_keeps retains (averify_credential now leeway AsyncReceiverPipeline._resolve_issuer_key
    AsyncReceiverPipeline._check_issuer_authorized_for_org token : co W _).
Proof. unfold averify_credential. co_keep. Qed.
Hint Resolve averify_keeps : shadownet.

Lemma avalidate_creds_keeps env s : co_keeps retains (AsyncReceiverPipeline._validate_creds config env s : co W _).
Proof.
  unfold AsyncReceiverPipeline._validate_creds. destruct (ep_creds env) as [|j js]; [co_keep|].
  generalize (j :: js). intros l. induction l as [|jws l IH]; cbn [AsyncReceiverPipeline.validate_creds_loop]; [co_keep|].
  apply co_keeps_bind; [apply _| |intros c; co_keep]. unfold AsyncReceiverPipeline.validate_cred. co_keep.
Qed.

Lemma aclassify_keeps s rec cs ctx : co_keeps retains (AsyncReceiverPipeline._classify config s rec cs ctx : co W _).
Proof. unfold AsyncReceiverPipeline._classify, AsyncReceiverPipeline.recent_outbound. co_keep. Qed.

Lemma aresolve_keeps s : co_keeps retains (AsyncReceiverPipeline.resolve_sender s : co W _).
Proof.
  unfold AsyncReceiverPipeline.resolve_sender. destruct (is_public_key_identifier s); [co_keep|].
  apply co_keeps_bind; [apply _|apply co_keeps_rethrow; co_keep|intros r]. co_keep.
Qed.

Lemma check_envelope_ok jws message key (w w' : W) env mid :
  AsyncReceiverPipeline.check_envelope config jws message key w = (w', Ok (env, mid)) →
  ∃ now, aenv_now w = (w', Ok now)
    ∧ verify_envelope jws key (cfg_subject config) now (cfg_leeway_seconds config) = Ok env
    ∧ compute_msg_hash message = Ok (ep_msg_hash env) ∧ message_id_of message = Ok mid.
Proof.
  unfold AsyncReceiverPipeline.check_envelope. intros Hc.
  apply M_bind_ok in Hc as (now & w1 & Hn & Hc).
  apply M_bind_ok in Hc as (e & ? & [-> Hv%rethrow_ok]%lift_ok & Hc).
  apply M_bind_ok in Hc as (h & ? & [-> Hh]%lift_ok & Hc).
  apply M_bind_ok in Hc as (? & ? & [-> Heq%raise_if_ok]%lift_ok & Hc).
  apply M_bind_ok in Hc as (m & ? & [-> Hm]%lift_ok & Hc). apply M_ret_ok in Hc as [-> [= -> ->]].
  bool_prop. subst. by exists now.
Qed.

Lemma check_envelope_keeps jws message key : keeps retains (AsyncReceiverPipeline.check_envelope config jws message key : M W _).
Proof. unfold AsyncReceiverPipeline.check_envelope. pose proof now_keeps. keep. Qed.

Lemma admits_then a (w w1 w2 : W) : admits a w w1 → retains w1 w2 → admits a w w2.
Proof.
  intros (wa & R1 & Hn & R2 & Hc & Hh) R3. exists wa. split_and!; [done|done|by transitivity w1|done|].
  destruct R3 as [C3 R3]. intros Hlt. destruct (Hh ltac:(lia)) as (e & He & Hk).
  destruct (R3 _ _ Hk ltac:(lia)) as (e' & ? & ?). exists e'. split; [lia|done].
Qed.

(** The stretch in which a message is admitted. *)
Definition admission_block (jws : pystr) (message : pydict) (key : Ed25519KeyPair) (sender : pystr)
    (k : EnvelopePayload → co W AcceptedDecision) : co W AcceptedDecision :=
  '(envelope, message_id) ← sync (AsyncReceiverPipeline.check_envelope config jws message key);
  seen ← arc_seen sender message_id;
  _ ← sync (lift (raise_if seen (Wire ReplayError)));
  _ ← arc_remember sender message_id REPLAY_CACHE_RETENTION;
  k envelope.

Lemma admission_run req jws message key sender k (w w' : W) x :
  extract_envelope_jws req = Ok (jws, message) →
  (∀ now env, verify_envelope jws key (cfg_subject config) now (cfg_leeway_seconds config) = Ok env → sender = ep_sender env) →
  resume (admission_block jws message key sender k) w = (w', x) →
  (retains w w' ∧ ∃ e, x = inl (Raise e))
  ∨ ∃ a w3, checked req a ∧ admits a w w3 ∧ retains w w3 ∧ resume (k (adm_envelope a)) w3 = (w', x).
Proof.
  intros Hx Hsender. unfold admission_block, mbind, co_bind. cbn [co_bind_go resume sync].
  destruct (AsyncReceiverPipeline.check_envelope config jws message key w) as [w1 [[env mid]|e]] eqn:Hc.
  2: { intros [= <- <-]. left. split; [by eapply check_envelope_keeps|by eexists]. }
  rewrite arl_seen. cbn [co_bind_go resume sync].
  apply check_envelope_ok in Hc as (now & Hn & Hv & Hh & Hm).
  apply now_law in Hn as (R1 & t & [= <-] & Ht). pose proof (Hsender _ _ Hv) as ->.
  destruct (rc_seen (ep_sender env) mid w1) as [w2 r2] eqn:E2. apply seen_law in E2 as (R2 & b & -> & Hb).
  cbn [co_bind_go resume sync]. assert (R12 : retains w w2) by (by transitivity w1).
  destruct b; cbn [co_bind_go resume sync raise_if lift]; [intros [= <- <-]; left; by eauto|].
  rewrite arl_remember. cbn [co_bind_go resume sync].
  destruct (rc_remember (ep_sender env) mid REPLAY_CACHE_RETENTION w2) as [w3 r3] eqn:E3.
  apply remember_law in E3 as (R3 & -> & e & He & Hh3); [|done|by apply Hb]. cbn [co_bind_go resume sync].
  intros Hk. right.
  exists {| adm_envelope := env; adm_key := (ep_sender env, mid); adm_now := now;
            adm_expires := e + REPLAY_CACHE_RETENTION |}, w3.
  split_and!; [| |by transitivity w2|done].
  - exists jws, message, mid, key. cbn [adm_envelope adm_key adm_now adm_expires]. destruct R2 as [C2 _].
    split_and!; try done. lia.
  - exists w2. cbn [adm_envelope adm_key adm_now adm_expires]. split_and!; [done|by apply Hb|done|lia|].
    intros _. by exists (e + REPLAY_CACHE_RETENTION).
Qed.

Lemma admission_pre req jws message key sender k :
  extract_envelope_jws req = Ok (jws, message) →
  (∀ now env, verify_envelope jws key (cfg_subject config) now (cfg_leeway_seconds config) = Ok env → sender = ep_sender env) →
  (∀ a, post a (k (adm_envelope a))) → pre req (admission_block jws message key sender k).
Proof.
  intros Hx Hsender Hk. destruct (admission_block jws message key sender k) as [f] eqn:Ef.
  assert (∀ w w' x, f w = (w', x) → (retains w w' ∧ ∃ e, x = inl (Raise e))
    ∨ ∃ a, checked req a ∧ admits a w w' ∧ retains w w' ∧ after a x) as Hrun.
  { intros w w' x Hf. change (resume (Co f) w = (w', x)) in Hf. rewrite <-Ef in Hf.
    apply (admission_run req) in Hf as [?|(a & w3 & Ha & Hadm & R3 & Hr)]; [by left|right|done|done].
    destruct (Hk a) as [g G1 G2 G3]. cbn [resume] in Hr. pose proof (G1 _ _ _ Hr).
    exists a. split_and!; [done|by eapply admits_then|by transitivity w3|].
    destruct x as [r|c]; [|by eapply G3]. intros d ->. by eapply G2. }
  split.
  - intros w w' x [[? _]|(a & _ & _ & ? & _)]%Hrun; done.
  - intros w w' d [[_ [e ?]]|(a & ? & ? & _ & ?)]%Hrun; [done|by exists a].
  - intros w w' c [[_ [e ?]]|(a & ? & ? & _ & ?)]%Hrun; [done|right; by exists a].
Qed.

Lemma pre_lift {A} req (r : result A) (k : A → co W AcceptedDecision) :
  (∀ a, r = Ok a → pre req (k a)) → pre req (sync (lift r) ≫= k).
Proof.
  intros Hk. destruct r as [a|e].
  - specialize (Hk a eq_refl). unfold mbind, co_bind. cbn [sync lift co_bind_go].
    destruct (k a) as [f] eqn:Ef. cbn [resume]. inversion Hk; subst. by constructor.
  - by split; intros w w' x [= <- <-].
Qed.

Lemma receive_pre req : pre req (AsyncReceiverPipeline.receive config req).
Proof.
  unfold AsyncReceiverPipeline.receive.
  apply pre_lift. intros [jws message] Hx. apply pre_lift. intros [header claims] Hp.
  apply pre_lift. intros [sender recipient] Ha. apply pre_lift. intros [] Hr%raise_if_ok. bool_prop. subst recipient.
  apply pre_bind; [apply aresolve_keeps|]. intros [key rec].
  refine (admission_pre req jws message key sender (λ envelope, _) Hx _ _).
  - intros now env. by eapply sender_is_envelope_sender.
  - intros a. cbv beta. apply post_bind; [apply avalidate_creds_keeps|intros creds].
    apply post_bind; [by apply co_keeps_sync, keeps_lift, _|intros ctx].
    apply post_bind; [apply aclassify_keeps|intros [route auto]]. by apply post_ret.
Qed.

(** ** The pool *)

(** A step of the event loop: a task runs to its next suspension, or something
    else happens that does not make the cache forget.  No stretch takes longer
    than the margin the retention leaves. *)
Definition loop_step (s s' : list (task W AcceptedDecision) * W) : Prop :=
  (pool_step s s' ∨ (s'.1 = s.1 ∧ retains s.2 s'.2))
  ∧ clock s'.2 - clock s.2 + 2 * cfg_leeway_seconds config < 300.

Definition started (reqs : list json) : list (task W AcceptedDecision) :=
  map (λ req, inr (AsyncReceiverPipeline.receive config req)) reqs.

(** The admission [b] came after [a] had expired, up to the margin. *)
Definition long_after (a b : admission) : Prop :=
  adm_expires a + 2 * cfg_leeway_seconds config < adm_now b + 300.

(** One task: not admitted yet, or admitted and still remembered. *)
Definition task_inv (req : json) (adm : option admission) (w : W) (x : task W AcceptedDecision) : Prop :=
  match adm with
  | None => match x with inl r => ∀ d, r ≠ Ok d | inr c => pre req c end
  | Some a => checked req a ∧ after a x
      ∧ (clock w < adm_expires a → ∃ e, adm_expires a ≤ e ∧ held w (adm_key a) = Some e)
  end.

Definition pool_inv (reqs : list json) (adm : nat → option admission) (s : list (task W AcceptedDecision) * W) : Prop :=
  (∀ i x, s.1 !! i = Some x → ∃ req, reqs !! i = Some req ∧ task_inv req (adm i) s.2 x)
  ∧ (∀ i a, adm i = Some a → is_Some (s.1 !! i))
  ∧ ∀ i j a b, i ≠ j → adm i = Some a → adm j = Some b → adm_key a = adm_key b → long_after a b ∨ long_after b a.

Lemma task_inv_later req adm w w' x : retains w w' → task_inv req adm w x → task_inv req adm w' x.
Proof.
  intros [Hc Hr]. destruct adm as [a|]; [|done]. intros (Hk & Ha & Hh). split_and!; [done|done|]. intros Hlt.
  destruct (Hh ltac:(lia)) as (e & ? & He). destruct (Hr _ _ He ltac:(lia)) as (e' & ? & ?). exists e'. split; [lia|done].
Qed.

Lemma step_task req adm (w w' : W) c x :
  task_inv req adm w (inr c) → resume c w = (w', x) →
  retains w w' ∧ (task_inv req adm w' x ∨ (adm = None ∧ ∃ a, checked req a ∧ admits a w w' ∧ after a x)).
Proof.
  destruct adm as [a|]; cbn [task_inv after].
  - intros (Hk & [f F1 F2 F3] & Hh) Hr. cbn [resume] in Hr. pose proof (F1 _ _ _ Hr) as R. split; [done|left].
    apply (task_inv_later req (Some a) w); [done|]. split_and!; [done| |done].
    destruct x as [r|c']; [|by eapply F3]. intros d ->. by eapply F2.
  - intros [f F1 F2 F3] Hr. cbn [resume] in Hr. split; [by eapply F1|].
    destruct x as [[d|e]|c'].
    + right. split; [done|by eapply F2].
    + by left.
    + destruct (F3 _ _ _ Hr); [by left|by right].
Qed.

(** A new admission is far from every earlier one for the same key. *)
Lemma admits_long_after req a b (w w' : W) x :
  task_inv req (Some a) w x → admits b w w' → adm_key a = adm_key b →
  clock w' - clock w + 2 * cfg_leeway_seconds config < 300 → long_after a b.
Proof.
  intros (_ & _ & Hh) (wa & [C1 R1] & Hn & [C2 _] & Hc & _) Hk Ht. unfold long_after.
  destruct (decide (clock wa < adm_expires a)) as [Hlt|Hge]; [|lia].
  destruct (Hh ltac:(lia)) as (e & ? & He). destruct (R1 _ _ He ltac:(lia)) as (e' & ? & He'). rewrite Hk in He'.
  apply Hn in He'. lia.
Qed.

Lemma pool_inv_step reqs adm s s' : pool_inv reqs adm s → loop_step s s' → ∃ adm', pool_inv reqs adm' s'.
Proof.
  intros (Ht & Hdom & Hsep) [Hstep Htime]. destruct Hstep as [Hs|[Hp Hr]].
  2: { exists adm. split_and!; [|by rewrite Hp|done]. rewrite Hp. intros i x Hx.
       destruct (Ht i x Hx) as (req & ? & ?). exists req. split; [done|by eapply task_inv_later]. }
  destruct Hs as [i c pool w w' x Hi Hr]. cbn [fst snd] in *.
  destruct (Ht i _ Hi) as (req & Hreq & Hinv). destruct (step_task _ _ _ _ _ _ Hinv Hr) as [Rw Hx].
  assert (∀ adm', (∀ j, j ≠ i → adm' j = adm j) → task_inv req (adm' i) w' x →
    ∀ j y, <[i:=x]> pool !! j = Some y → ∃ r, reqs !! j = Some r ∧ task_inv r (adm' j) w' y) as Htasks.
  { intros adm' Hne Hi' j y Hj. destruct (decide (j = i)) as [->|Hji].
    - rewrite list_lookup_insert_eq in Hj by (by eapply lookup_lt_Some). injection Hj as <-. by exists req.
    - rewrite list_lookup_insert_ne in Hj by done. rewrite Hne by done.
      destruct (Ht j y Hj) as (r & ? & ?). exists r. split; [done|by eapply task_inv_later]. }
  destruct Hx as [Hx|(Hnone & b & Hck & Hadm & Haft)].
  - exists adm. split_and!; [by apply Htasks| |done].
    intros j a Ha. apply lookup_lt_is_Some. cbn [fst]. rewrite length_insert. by apply lookup_lt_is_Some, (Hdom j a).
  - exists (λ j, if decide (j = i) then Some b else adm j).
    assert (∀ j a, j ≠ i → adm j = Some a → adm_key a = adm_key b → long_after a b) as Hnew.
    { intros j a Hji Ha Hk. destruct (Hdom j a Ha) as [y Hy]. destruct (Ht j y Hy) as (r & _ & Hinvj).
      rewrite Ha in Hinvj. by eapply admits_long_after. }
    split_and!.
    + apply Htasks; [intros j Hj; by rewrite decide_False|]. rewrite decide_True by done.
      destruct Hadm as (wa & _ & _ & _ & _ & Hh). done.
    + intros j a Ha. apply lookup_lt_is_Some. cbn [fst]. rewrite length_insert. apply lookup_lt_is_Some.
      destruct (decide (j = i)) as [->|]; [by eexists|by apply (Hdom j a)].
    + intros j k a a' Hjk Ha Ha' Hk.
      destruct (decide (j = i)), (decide (k = i)); simplify_eq; [right|left|]; by eauto.
Qed.

Lemma pool_inv_start reqs w : pool_inv reqs (λ _, None) (started reqs, w).
Proof.
  split_and!; [|done|done]. intros i x Hx. unfold started in Hx. cbn [fst] in Hx.
  apply list_lookup_fmap_Some in Hx as (req & -> & Hreq). exists req. split; [done|]. apply receive_pre.
Qed.

Lemma pool_inv_run reqs w s : rtc loop_step (started reqs, w) s → ∃ adm, pool_inv reqs adm s.
Proof.
  intros Hr. assert (∃ adm, pool_inv reqs adm (started reqs, w)) as Hi by (eexists; apply pool_inv_start).
  revert Hi. induction Hr as [|s1 s2 s3 Hs _ IH]; [done|]. intros [adm Hi]. by apply IH, (pool_inv_step _ adm s1).
Qed.

(** Two admissions of one envelope under one key are never far apart. *)
Lemma same_envelope_near reqa reqb a b :
  checked reqa a → checked reqb b → adm_envelope a = adm_envelope b → ¬ long_after a b.
Proof.
  intros (j1 & m1 & i1 & k1 & _ & _ & _ & _ & V1 & X1) (j2 & m2 & i2 & k2 & _ & _ & _ & _ & V2 & _) He.
  apply verify_envelope_ok in V1 as (_ & _ & _ & _ & _ & _ & _ & _ & _ & L1 & [T1 _] & _).
  apply verify_envelope_ok in V2 as (_ & _ & _ & _ & _ & _ & _ & _ & _ & _ & [_ T2] & _).
  unfold long_after. rewrite He in *. unfold REPLAY_CACHE_RETENTION in X1. lia.
Qed.

Lemma same_hash_same_id reqa reqb a b :
  wf_json reqa = true → wf_json reqb = true → checked reqa a → checked reqb b →
  ep_msg_hash (adm_envelope a) = ep_msg_hash (adm_envelope b) →
  requests_collide reqa reqb ∨ (adm_envelope a = adm_envelope b → adm_key a = adm_key b).
Proof.
  intros Wa Wb (j1 & m1 & i1 & k1 & X1 & I1 & G1 & -> & _) (j2 & m2 & i2 & k2 & X2 & I2 & G2 & -> & _) He.
  rewrite He in *.
  destruct (msg_hash_binds m1 m2 (ep_msg_hash (adm_envelope b))) as [Hcol|[Hfields _]];
    [exact (extract_wf _ _ _ Wa X1)|exact (extract_wf _ _ _ Wb X2)|done|done|left; by exists j1, m1, j2, m2|right].
  intros ->. f_equal. apply (same_message_id m1 m2); [done|done|]. apply Hfields. by left.
Qed.

(** C4: concurrent deliveries: the requests are handled by tasks that are
    interleaved at every suspension, in any order, together with any other
    activity that does not make the replay cache forget.  If the replay
    cache does not suspend, no two tasks accept the same envelope, whatever
    the schedule, unless the messages of these two requests are a SHA-256
    collision.  The margin: no stretch of a task between two suspensions takes
    300 seconds less twice the leeway, or longer. *)
Theorem no_concurrent_replay (reqs : list json) (w w' : W) pool i j d1 d2 :
  Forall (λ req, wf_json req = true) reqs →
  rtc loop_step (started reqs, w) (pool, w') → i ≠ j →
  pool !! i = Some (inl (Ok d1)) → pool !! j = Some (inl (Ok d2)) →
  (∃ req1 req2, reqs !! i = Some req1 ∧ reqs !! j = Some req2 ∧ requests_collide req1 req2)
  ∨ ad_envelope d1 ≠ ad_envelope d2.
Proof.
  intros Hwf [adm (Ht & _ & Hsep)]%pool_inv_run Hij Hi Hj.
  assert (∀ k d, pool !! k = Some (inl (Ok d)) → ∃ req a, reqs !! k = Some req ∧ wf_json req = true ∧ adm k = Some a ∧ checked req a
    ∧ ad_envelope d = adm_envelope a) as Hadm.
  { intros k d Hk. destruct (Ht k _ Hk) as (req & Hreq & Hinv). unfold task_inv in Hinv.
    destruct (adm k) as [a|] eqn:Ea; [|by destruct (Hinv d)]. destruct Hinv as (? & Ha & _).
    exists req, a. split_and!; [done|by eapply (Forall_lookup_1 _ _ _ _ Hwf)|done|done|by apply Ha]. }
  destruct (Hadm _ _ Hi) as (ra & a & La & Wa & Ea & Ca & Da). destruct (Hadm _ _ Hj) as (rb & b & Lb & Wb & Eb & Cb & Db).
  destruct (decide (ep_msg_hash (adm_envelope a) = ep_msg_hash (adm_envelope b))) as [Hh|Hne];
    [|right; rewrite Da, Db; congruence].
  destruct (same_hash_same_id ra rb a b Wa Wb Ca Cb Hh) as [?|Hk]; [left; by exists ra, rb|right].
  rewrite Da, Db. intros He. destruct (Hsep i j a b Hij Ea Eb (Hk He)) as [Hl|Hl]; revert Hl.
  - by apply (same_envelope_near ra rb).
  - by apply (same_envelope_near rb ra).
Qed.
End phases.

(** ** The in-memory stores, and stores behind a connection *)

Module AsyncInMemory.
Definition seen (sender message_id : pystr) : co World bool := sync (InMemoryReplayCache.seen sender message_id).
Definition remember (sender message_id : pystr) (retention_seconds : Z) : co World unit :=
  sync (InMemoryReplayCache.remember sender message_id retention_seconds).

Definition is_contact (shadowname : pystr) : co World bool := sync (InMemoryContactGraph.is_contact shadowname).
Definition add_contact (shadowname : pystr) : co World unit := sync (InMemoryContactGraph.add_contact shadowname).
Definition remove_contact (shadowname : pystr) : co World unit := sync (InMemoryContactGraph.remove_contact shadowname).
Definition record_outbound (context_id peer : pystr) : co World unit :=
  sync (InMemoryContactGraph.record_outbound context_id peer).
Definition has_recent_outbound (context_id peer : pystr) (lookback_seconds : Z) : co World bool :=
  sync (InMemoryContactGraph.has_recent_outbound context_id peer lookback_seconds).

Definition for_sender (sender : pystr) : co World (list VerifiedCredential) :=
  sync (InMemoryCredentialCache.for_sender sender).
Definition cache (sender : pystr) (credential : VerifiedCredential) (expires_at : Z) : co World unit :=
  sync (InMemoryCredentialCache.cache sender credential expires_at).

#[export] Instance replay : AsyncReplayCache World := {| arc_seen := seen; arc_remember := remember |}.
#[export] Instance contacts : AsyncContactGraph World :=
  {| acg_is_contact := is_contact; acg_has_recent_outbound := has_recent_outbound; acg_add_contact := add_contact |}.
#[export] Instance credentials : AsyncCredentialCache World := {| acc_for_sender := for_sender; acc_cache := cache |}.
End AsyncInMemory.

(** The same replay cache reached over a connection. *)
Definition remote_replay : AsyncReplayCache World :=
  {| arc_seen s m := remote (InMemoryReplayCache.seen s m);
     arc_remember s m r := remote (InMemoryReplayCache.remember s m r) |}.

Section async_defaults.
Context `{PyUnicode} `{Pydantic} `{Ed25519} `{Gzip}.
Context (dns : Z → pystr → result (list (option (list pybytes)))).
Context (http_get : Z → pystr → result Response).

(** [alookup_provider_record]: a query is a suspension. *)
Definition _default_async_provider_lookup (domain : pystr) : co World ProviderRecord :=
  remote (λ w, (w, alookup_provider_record (dns (w_time w)) domain)).

Definition _default_async_agent_card_fetcher (shadowname : pystr) (provider_record : ProviderRecord)
    : co World FetchedAgentCard :=
  remote (λ w, (w, afetch_and_verify_agent_card (http_get (w_time w)) shadowname provider_record)).

Definition _default_async_revocation_check (credential : VerifiedCredential) : co World unit :=
  remote (λ w, (w, acheck_revocation (afetch_status_list (http_get (w_time w))) credential)).

Definition default_async_env : AsyncReceiverEnv World := {|
  aenv_provider_lookup := _default_async_provider_lookup;
  aenv_fetch_agent_card := _default_async_agent_card_fetcher;
  aenv_revocation_check := _default_async_revocation_check;
  aenv_now := time_time;
|}.
End async_defaults.

Section async_in_memory.
Context `{PyUnicode} `{Pydantic} `{PyJWT} `{Gzip}.
Context (dns : Z → pystr → result (list (option (list pybytes)))).
Context (http_get : Z → pystr → result Response).
#[local] Instance aenv : AsyncReceiverEnv World := default_async_env dns http_get.
#[local] Instance senv : ReceiverEnv World := default_env dns http_get.
Import AsyncInMemory.

(** Any contact graph will do that leaves the replay cache alone. *)
Lemma in_memory_async_laws (contacts : AsyncContactGraph World) :
  (∀ s, co_keeps retains (acg_is_contact s)) → (∀ c p l, co_keeps retains (acg_has_recent_outbound c p l)) →
  (∀ s, co_keeps retains (acg_add_contact s)) → AsyncReplayLaws World (AsyncContactGraph0 := contacts).
Proof.
  intros Hc Ho Ha. assert (ReplayLaws World) as L by exact (in_memory_replay_laws dns http_get).
  split; [apply in_memory_cache_laws|done|done|..|done|done|done| |]; intros;
    first [apply (co_keeps_remote retains); by intros w w' x [= <- _] | apply co_keeps_sync].
  - exact (for_sender_law (W := World) s).
  - exact (cache_law (W := World) s c e).
Qed.

Lemma in_memory_siblings : AsyncSiblings World.
Proof. split; intros; first [done | apply drives_sync | apply drives_remote]. Qed.
End async_in_memory.

(** ** Examples *)

#[local] Existing Instance ascii_unicode.
#[local] Existing Instance strict_pydantic.
#[local] Existing Instance toy_ed25519.
#[local] Existing Instance toy_jwt.
#[local] Existing Instance toy_jwt_laws.
#[local] Existing Instance toy_gzip.
#[local] Instance offline_async : AsyncReceiverEnv World := default_async_env no_dns no_net.
#[local] Instance offline_sync : ReceiverEnv World := default_env no_dns no_net.

(** Runs the tasks in the given order; [None] if one has ended or took too long. *)
Fixpoint schedule {A} (leeway : Z) (order : list nat) (s : list (task World A) * World) : option (list (task World A) * World) :=
  match order with
  | [] => Some s
  | i :: order =>
      match s.1 !! i with
      | Some (inr c) =>
          let '(w', x) := resume c s.2 in
          if w_time w' - w_time s.2 + 2 * leeway <? 300 then schedule leeway order (<[i := x]> s.1, w') else None
      | _ => None
      end
  end.

Lemma schedule_sound config order s s' :
  schedule (cfg_leeway_seconds config) order s = Some s' → rtc (loop_step config) s s'.
Proof.
  revert s. induction order as [|i order IH]; intros [pool w]; cbn [schedule fst snd].
  - intros [= ->]. apply rtc_refl.
  - destruct (pool !! i) as [[r|c]|] eqn:Hi; try done. destruct (resume c w) as [w' x] eqn:Hr.
    destruct (_ <? _) eqn:Ht; [|done]. intros Hs%IH. bool_prop.
    eapply rtc_l; [|exact Hs]. split; [left; by econstructor|exact Ht].
Qed.

(** A second message of the same sender. *)
Definition demo_outbound2 : A2AMessage :=
  build_outbound_message (str "FRESH") (Some (str "again")) (Some (str "ctx")) None None (Some (str "M2")).
Definition demo_request2 : json :=
  match build_and_sign_message demo_outbound2 demo_template (demo_pair 5) with
  | Ok built => request built
  | Raise _ => JNull
  end.

(** The replay cache in memory, the contacts behind a connection. *)
#[local] Instance remote_contacts : AsyncContactGraph World := {|
  acg_is_contact s := remote (InMemoryContactGraph.is_contact s);
  acg_has_recent_outbound c p l := remote (InMemoryContactGraph.has_recent_outbound c p l);
  acg_add_contact s := remote (InMemoryContactGraph.add_contact s) |}.

Lemma remote_contacts_laws : AsyncReplayLaws World (AsyncContactGraph0 := remote_contacts) (AsyncReplayCache0 := AsyncInMemory.replay)
  (AsyncCredentialCache0 := AsyncInMemory.credentials).
Proof.
  pose proof (in_memory_replay_laws no_dns no_net) as L.
  apply in_memory_async_laws; intros; apply (co_keeps_remote retains).
  - exact (@is_contact_law World _ _ _ _ _ L s).
  - exact (@outbound_law World _ _ _ _ _ L c p l).
  - exact (@add_contact_law World _ _ _ _ _ L s).
Qed.

Definition receive_remote (req : json) : co World AcceptedDecision :=
  AsyncReceiverPipeline.receive demo_config req (AsyncReplayCache0 := remote_replay)
    (AsyncCredentialCache0 := AsyncInMemory.credentials) (AsyncContactGraph0 := AsyncInMemory.contacts).

Definition results {A} (o : option (list (task World A) * World)) : option (list (option (result A))) :=
  (λ s, map (λ x, match x with inl r => Some r | inr _ => None end) s.1) <$> o.

Lemma schedule_steps {A} leeway order (s s' : list (task World A) * World) :
  schedule leeway order s = Some s' → rtc pool_step s s'.
Proof.
  revert s. induction order as [|i order IH]; intros [pool w]; cbn [schedule fst snd].
  - intros [= ->]. apply rtc_refl.
  - destruct (pool !! i) as [[r|c]|] eqn:Hi; try done. destruct (resume c w) as [w' x] eqn:Hr.
    destruct (_ <? _); [|done]. intros Hs%IH. eapply rtc_l; [|exact Hs]. by econstructor.
Qed.

Lemma results_end {A} leeway order (s : list (task World A) * World) rs :
  results (schedule leeway order s) = Some (map Some rs) →
  ∃ w', schedule leeway order s = Some (map inl rs, w').
Proof.
  destruct (schedule leeway order s) as [[pool w']|]; [|done]. unfold results. cbn. intros [= Hp]. exists w'. do 2 f_equal.
  revert pool Hp. induction rs as [|r rs IH]; intros [|x pool]; cbn; intros Hp; try done.
  injection Hp as Hx Hp. rewrite (IH _ Hp). destruct x; [|done]. by injection Hx as ->.
Qed.

Definition race_order : list nat := [0; 1; 0; 1; 0; 1; 0; 1; 0; 1]%nat.
Definition both (r : result AcceptedDecision) : list (result AcceptedDecision) := [r; r].

Lemma race_results :
  results (schedule 60 race_order ([inr (receive_remote demo_request); inr (receive_remote demo_request)], demo_w))
  = Some (map Some (both (Ok (demo_decision false)))).
Proof. vm_compute. reflexivity. Qed.

(** With a replay cache that suspends its caller, as one behind a database
    connection does, two deliveries of one request can both pass [seen] before
    either is remembered: both are accepted. *)
Lemma async_replay_race :
  ∃ w', rtc pool_step ([inr (receive_remote demo_request); inr (receive_remote demo_request)], demo_w)
    (map inl (both (Ok (demo_decision false))), w').
Proof.
  destruct (results_end 60 race_order _ _ race_results) as (w' & E). exists w'. exact (schedule_steps 60 race_order _ _ E).
Qed.

Definition pool_order : list nat := [0; 1; 2; 0; 2; 0; 2]%nat.
Definition pool_start : list (task World AcceptedDecision) :=
  started demo_config [demo_request; demo_request; demo_request2] (AsyncReplayCache0 := AsyncInMemory.replay)
    (AsyncCredentialCache0 := AsyncInMemory.credentials).

Definition demo_template2 : EnvelopePayload :=
  with_msg_hash demo_template
    (match compute_msg_hash (to_wire demo_outbound2) with Ok h => h | Raise _ => [] end).
Definition demo_decision2 : AcceptedDecision := {|
  ad_route := Inbox; ad_sender := demo_sender; ad_envelope := demo_template2; ad_auto_added_contact := false |}.
Definition pool_decisions : list (result AcceptedDecision) :=
  [Ok (demo_decision false); Raise (Wire ReplayError); Ok demo_decision2].

(** One message delivered twice and another once, interleaved: each is accepted
    once. *)
Lemma pool_results :
  results (schedule (cfg_leeway_seconds demo_config) pool_order (pool_start, demo_w)) = Some (map Some pool_decisions).
Proof. vm_compute. reflexivity. Qed.

Lemma pool_run : ∃ w', rtc (loop_step demo_config) (pool_start, demo_w) (map inl pool_decisions, w').
Proof.
  destruct (results_end _ pool_order _ _ pool_results) as (w' & E). exists w'. exact (schedule_sound demo_config pool_order _ _ E).
Qed.

Lemma no_concurrent_replay_witness :
  (∃ req1 req2, [demo_request; demo_request; demo_request2] !! 0%nat = Some req1
     ∧ [demo_request; demo_request; demo_request2] !! 2%nat = Some req2 ∧ requests_collide req1 req2)
  ∨ demo_template ≠ demo_template2.
Proof.
  destruct pool_run as (w' & Hrun).
  refine (no_concurrent_replay demo_config (AsyncReplayLaws0 := remote_contacts_laws)
    [demo_request; demo_request; demo_request2] demo_w w' _ 0 2 (demo_decision false) demo_decision2 _ Hrun _ _ _).
  - repeat apply Forall_cons_2; try apply Forall_nil_2; vm_compute; reflexivity.
  - discriminate.
  - reflexivity.
  - reflexivity.
Defined.

Lemma async_receive_uninterrupted_witness :
  drive (AsyncReceiverPipeline.receive demo_config demo_request (AsyncReplayCache0 := AsyncInMemory.replay)
    (AsyncCredentialCache0 := AsyncInMemory.credentials) (AsyncContactGraph0 := AsyncInMemory.contacts)) demo_w
  = receive demo_config demo_request demo_w.
Proof.
  exact (async_receive_uninterrupted demo_config (H3 := in_memory_siblings no_dns no_net) demo_request demo_w).
Defined.
