(* ===== verification/Csr.v ===== *)
(** * Certificate signing requests — [shadownet/csr.py]

    The request a subject signs, its verification by the issuer, and the
    reading of the issuer's answer. *)

From S2P Require Import Prelude PyStr Base64 Identifiers Jcs Dicts Http Crypto Provider Pydantic Credential.

Definition CSR_TYP : pystr := str "shadownet-csr+jwt".
Definition ISSUER_MEDIA_TYPE : pystr := str "application/jose".
Definition MAX_CSR_LIFETIME_SECONDS : Z := 600.

(** ** The payload model *)

Record CsrRequest := { csr_kind : pystr; csr_org : pystr }.

Record CsrPayload := {
  csr_iss : pystr;
  csr_aud : pystr;
  csr_iat : Z;
  csr_exp : Z;
  csr_req : CsrRequest;
  csr_extra : pydict;
}.

Record IssuanceResult := { ir_credential : pystr }.

Definition csr_fields : list pystr := [str "iss"; str "aud"; str "iat"; str "exp"; str "req"].

Section csr_payload.
Context `{PyUnicode} `{Pydantic}.

(** [extra="forbid"] *)
Definition CsrRequest_validate (v : option json) : result CsrRequest :=
  match v with
  | Some (JDict d) =>
      Ok (λ k o _, {| csr_kind := k; csr_org := o |})
      <*> v_pattern kind_pattern (dict_get (str "kind") d)
      <*> v_after canonicalize_issuer_or_org_identifier (dict_get (str "org") d)
      <*> (match extras [str "kind"; str "org"] d with [] => Ok tt | _ => invalid end)
  | _ => invalid
  end.

Definition CsrPayload_validate (d : pydict) : result CsrPayload :=
  model_validate (str "CsrPayload") d
    (Ok (λ iss aud iat exp req,
           {| csr_iss := iss; csr_aud := aud; csr_iat := iat; csr_exp := exp; csr_req := req;
              csr_extra := extras csr_fields d |})
     <*> v_after canonicalize_identifier (dict_get (str "iss") d)
     <*> v_after canonicalize_issuer_or_org_identifier (dict_get (str "aud") d)
     <*> v_nat (dict_get (str "iat") d)
     <*> v_nat (dict_get (str "exp") d)
     <*> CsrRequest_validate (dict_get (str "req") d)).

(** [payload.model_dump()] *)
Definition CsrPayload_dump (p : CsrPayload) : pydict :=
  [(str "iss", JStr (csr_iss p)); (str "aud", JStr (csr_aud p)); (str "iat", JInt (csr_iat p));
   (str "exp", JInt (csr_exp p));
   (str "req", JDict [(str "kind", JStr (csr_kind (csr_req p))); (str "org", JStr (csr_org (csr_req p)))])]
  ++ csr_extra p.
End csr_payload.

(** ** Minting and verification *)

Section csr.
Context `{PyUnicode} `{Pydantic} `{PyJWT}.

Definition mint_csr (payload : CsrPayload) (subject_key : Ed25519KeyPair) : result pystr :=
  _ ← raise_if (MAX_CSR_LIFETIME_SECONDS <? csr_exp payload - csr_iat payload) CsrError;
  _ ← raise_if (csr_exp payload <=? csr_iat payload) CsrError;
  sign_jwt (CsrPayload_dump payload) subject_key (Some [(str "typ", JStr CSR_TYP)]).

(** [csr.py] has its own copy of the signature check. *)
Definition csr_verify_jws_signature (token : pystr) (key : Ed25519KeyPair) : result unit :=
  match split_on 46 token with
  | [p0; p1; p2] =>
      signing_input ← encode_ascii (p0 ++ [46] ++ p1);
      sig ← _b64u_decode p2;
      verify key sig signing_input
  | _ => Raise (JWTError (str "malformed JWS compact serialization"))
  end.

(** [current] is [int(time.time())], or what the caller passes. *)
Definition verify_csr (current leeway : Z) (token : pystr) (subject_key : Ed25519KeyPair) (expected_audience : pystr)
    : result CsrPayload :=
  header ← rethrow is_JWTError (λ _, CsrError) (decode_header token);
  _ ← raise_if (negb (get_is_str (str "typ") CSR_TYP header)) CsrError;
  _ ← raise_if (negb (get_is_str (str "alg") (str "EdDSA") header)) CsrError;
  unverified ← rethrow is_JWTError (λ _, CsrError) (decode_unverified_claims token);
  payload ← rethrow is_ValidationError (λ _, CsrError) (CsrPayload_validate unverified);
  _ ← raise_if (negb (bool_decide (csr_aud payload = expected_audience))) CsrError;
  _ ← raise_if (MAX_CSR_LIFETIME_SECONDS <? csr_exp payload - csr_iat payload) CsrError;
  _ ← raise_if (csr_exp payload <? current - leeway) CsrError;
  _ ← raise_if (current + leeway <? csr_iat payload) CsrError;
  _ ← rethrow is_EdSignatureError (λ _, CsrError) (csr_verify_jws_signature token subject_key);
  Ok payload.
End csr.

(** ** Submission *)

Definition build_issuer_url (issuer_domain : pystr) : result pystr :=
  _ ← raise_if (bool_decide (issuer_domain = [])) CsrError;
  Ok (str "https://" ++ issuer_domain ++ str "/.well-known/shadownet/issue").

Definition csr_is_JSONDecodeError (e : exn) : bool := bool_decide (e = JSONDecodeError).

Definition csr_interpret_response (response : Response) : result IssuanceResult :=
  let status := status_code response in
  if status =? 200 then
    let body := strip (text response) in
    _ ← raise_if (bool_decide (body = []) || negb (count_char 46 body =? 2)) CsrError;
    Ok {| ir_credential := body |}
  else if status =? 409 then
    data ← rethrow csr_is_JSONDecodeError (λ _, CsrError) (json_body response);
    match (match data with JDict d => get_str (str "next") d | _ => None end) with
    | Some (c :: next) => Raise (CeremonyPendingError (c :: next))
    | _ => Raise CsrError
    end
  else if status =? 403 then Raise CeremonyFailedError
  else if status =? 429 then Raise CsrRateLimitedError
  else Raise CsrError.

Definition csr_headers : list (pystr * pystr) :=
  [(str "Content-Type", ISSUER_MEDIA_TYPE); (str "Accept", ISSUER_MEDIA_TYPE)].

Section submit.
Context (http_post : pystr → pybytes → list (pystr * pystr) → result Response).

Definition submit_csr (csr_jws issuer_domain : pystr) : result IssuanceResult :=
  url ← build_issuer_url issuer_domain;
  response ← rethrow is_HTTPError (λ _, CsrError) (content ← encode_ascii csr_jws; http_post url content csr_headers);
  csr_interpret_response response.

Definition asubmit_csr (csr_jws issuer_domain : pystr) : result IssuanceResult :=
  url ← build_issuer_url issuer_domain;
  response ← rethrow is_HTTPError (λ _, CsrError) (content ← encode_ascii csr_jws; http_post url content csr_headers);
  csr_interpret_response response.
End submit.

(** ** Properties *)

Section csr_properties.
Context `{PyUnicode} `{Pydantic} `{PyJWT}.

Lemma csr_signature_same token key : csr_verify_jws_signature token key = _verify_jws_signature token key.
Proof. done. Qed.

(** C27: a request the issuer accepts is of the CSR type, addressed to this
    issuer, at most 600 seconds long and current up to the leeway, its payload
    is the validated claims, and it is signed with the key the issuer looked
    up for the subject. *)
Theorem verify_csr_sound (current leeway : Z) (token : pystr) (key : Ed25519KeyPair) (audience : pystr) (p : CsrPayload) :
  verify_csr current leeway token key audience = Ok p →
  jws_signed_by (public_bytes key) token
  ∧ (∃ header claims,
      pyjwt_header token = Ok header ∧ get_is_str (str "typ") (str "shadownet-csr+jwt") header = true
      ∧ get_is_str (str "alg") (str "EdDSA") header = true
      ∧ pyjwt_claims token = Ok claims ∧ CsrPayload_validate claims = Ok p)
  ∧ csr_aud p = audience ∧ csr_exp p - csr_iat p ≤ 600
  ∧ csr_iat p - leeway ≤ current ≤ csr_exp p + leeway.
Proof.
  unfold verify_csr. intros Hv. res_inv. bool_prop. subst.
  match goal with Hs : csr_verify_jws_signature _ _ = Ok _ |- _ => apply verify_jws_ok in Hs end.
  rewrite decode_header_ok, decode_unverified_claims_ok in *.
  split_and!; [done| |done|done|lia|lia]. eexists _, _. split_and!; done.
Qed.

(** A payload the model gives back unchanged. *)
Definition csr_canonical (p : CsrPayload) : Prop :=
  canonicalize_identifier (csr_iss p) = Ok (csr_iss p)
  ∧ canonicalize_issuer_or_org_identifier (csr_aud p) = Ok (csr_aud p)
  ∧ canonicalize_issuer_or_org_identifier (csr_org (csr_req p)) = Ok (csr_org (csr_req p))
  ∧ kind_pattern (csr_kind (csr_req p)) = true ∧ 0 ≤ csr_iat p ∧ 0 ≤ csr_exp p
  ∧ well_formed (JDict (CsrPayload_dump p)).

Lemma csr_validate_dump p : csr_canonical p → CsrPayload_validate (CsrPayload_dump p) = Ok p.
Proof.
  intros (Hi & Ha & Ho & Hk & Hia & Hex & Hw). apply rethrow_ok.
  assert (extras csr_fields (CsrPayload_dump p) = csr_extra p) as ->.
  { apply (extras_dump (firstn 5 (CsrPayload_dump p))). by apply well_formed_entries in Hw as [_ Hn]. }
  assert (Hd : dict_get (str "iss") (CsrPayload_dump p) = Some (JStr (csr_iss p))
    ∧ dict_get (str "aud") (CsrPayload_dump p) = Some (JStr (csr_aud p))
    ∧ dict_get (str "iat") (CsrPayload_dump p) = Some (JInt (csr_iat p))
    ∧ dict_get (str "exp") (CsrPayload_dump p) = Some (JInt (csr_exp p))
    ∧ dict_get (str "req") (CsrPayload_dump p) = Some (JDict [(str "kind", JStr (csr_kind (csr_req p)));
        (str "org", JStr (csr_org (csr_req p)))])) by done.
  destruct Hd as (-> & -> & -> & -> & ->). unfold v_after. cbn [v_str mbind result_bind]. rewrite Hi, Ha.
  rewrite !v_nat_int by done. unfold CsrRequest_validate. set (d := [_; _]).
  assert (dict_get (str "kind") d = Some (JStr (csr_kind (csr_req p)))) as -> by done.
  assert (dict_get (str "org") d = Some (JStr (csr_org (csr_req p)))) as -> by done.
  unfold v_pattern, v_after. cbn [v_str mbind result_bind]. rewrite Hk, Ho.
  destruct p as [? ? ? ? [? ?] ?]. reflexivity.
Qed.

(** A request the subject mints is accepted by the issuer it is addressed
    to, with the subject's key and while it is current, and the issuer reads
    exactly the payload that was signed. *)
Lemma mint_verify_csr `{!PyJWTLaws} (p : CsrPayload) (sk : ed_secret) :
  csr_canonical p → 0 < csr_exp p - csr_iat p ≤ 600 →
  ∃ token, mint_csr p (generate sk) = Ok token
    ∧ ∀ key current leeway, public_bytes key = ed_public sk →
        csr_iat p - leeway ≤ current ≤ csr_exp p + leeway →
        verify_csr current leeway token key (csr_aud p) = Ok p.
Proof.
  intros Hp Hlife. pose proof (csr_validate_dump p Hp) as Hval. destruct Hp as (_ & _ & _ & _ & _ & _ & Hw).
  destruct (sign_jwt_spec (CsrPayload_dump p) (generate sk) sk CSR_TYP [])
    as (token & hd & Hsign & Hhd & Hcl & Hver & Htyp & Halg & _);
    try first [done | wf_lit | by left | by wf_dict].
  { split; [done|]. right. by exists (csr_iss p). }
  exists token. split.
  - unfold mint_csr. rewrite !raise_if_false; [exact Hsign| |]; unfold MAX_CSR_LIFETIME_SECONDS; lia.
  - intros key current leeway Hk Hnow. unfold verify_csr. rewrite Hhd. cbn [rethrow mbind result_bind].
    unfold get_is_str, get_str in *. repeat (case_match; try done). simplify_eq.
    unfold json_is_str. rewrite !bool_decide_eq_true_2 by done. cbn [raise_if negb mbind result_bind].
    rewrite Hcl. cbn [rethrow mbind result_bind]. rewrite Hval. cbn [rethrow mbind result_bind].
    rewrite (bool_decide_eq_true_2 (csr_aud p = csr_aud p)) by done.
    rewrite !raise_if_false by (unfold MAX_CSR_LIFETIME_SECONDS; cbn; lia). cbn [mbind result_bind].
    rewrite csr_signature_same, Hver by done. done.
Qed.
End csr_properties.

(** ** Examples *)

#[local] Existing Instance ascii_unicode.
#[local] Existing Instance strict_pydantic.
#[local] Existing Instance toy_ed25519.
#[local] Existing Instance toy_jwt.
#[local] Existing Instance toy_jwt_laws.

Definition demo_csr : CsrPayload := {|
  csr_iss := str "ann@acme.example"; csr_aud := str "acme.example"; csr_iat := 1000; csr_exp := 1500;
  csr_req := {| csr_kind := str "org_affiliation"; csr_org := str "acme.example" |}; csr_extra := [] |}.
Definition demo_csr_token : pystr := match mint_csr demo_csr (demo_pair 78) with Ok t => t | Raise _ => [] end.

Lemma verify_csr_sound_witness :
  verify_csr 1200 60 demo_csr_token (demo_pair 78) (str "acme.example") = Ok demo_csr
  ∧ jws_signed_by (public_bytes (demo_pair 78)) demo_csr_token.
Proof.
  assert (Hv : verify_csr 1200 60 demo_csr_token (demo_pair 78) (str "acme.example") = Ok demo_csr) by reflexivity.
  split; [exact Hv|]. exact (proj1 (verify_csr_sound _ _ _ _ _ _ Hv)).
Defined.

Lemma mint_verify_csr_example : ∃ token, mint_csr demo_csr (generate (78 : @ed_secret toy_ed25519)) = Ok token
  ∧ verify_csr 1200 60 token (generate (78 : @ed_secret toy_ed25519)) (str "acme.example") = Ok demo_csr.
Proof.
  destruct (mint_verify_csr demo_csr (78 : @ed_secret toy_ed25519)) as (token & Hm & Hv).
  - unfold csr_canonical. split_and!; try (vm_compute; reflexivity); try (vm_compute; congruence).
    apply well_formed_dec. vm_compute. reflexivity.
  - vm_compute. split; congruence.
  - exists token. split; [exact Hm|]. apply (Hv _ 1200 60); [reflexivity|]. vm_compute. split; congruence.
Qed.

(** The answers of an issuer. *)
Definition answer (status : Z) (body : pystr) (j : result json) : Response :=
  {| status_code := status; header_get _ := None; text := body; content := []; json_body := j |}.

Lemma csr_answers :
  csr_interpret_response (answer 200 (str " a.b.c ") (Raise JSONDecodeError)) = Ok {| ir_credential := str "a.b.c" |}
  ∧ csr_interpret_response (answer 409 [] (Ok (JDict [(str "next", JStr (str "https://x"))])))
    = Raise (CeremonyPendingError (str "https://x"))
  ∧ csr_interpret_response (answer 409 [] (Raise JSONDecodeError)) = Raise CsrError
  ∧ csr_interpret_response (answer 403 [] (Raise JSONDecodeError)) = Raise CeremonyFailedError.
Proof. vm_compute. done. Qed.
