(* ===== verification/Url.v ===== *)
(** * [urllib.parse]

    [urlparse] with the accessors of its result, and [parse_qsl], as far as
    the SDK uses them, with the checks of [ipaddress] on bracketed hosts. *)

From S2P Require Import Prelude Radix PyStr PyInt Jcs PyJson.

(** [unicodedata.normalize("NFKC", s)] of non-ASCII text, from the tables of
    the interpreter. *)
Class PyNfkc : Type := { nfkc : pystr → pystr }.

(** [s.rpartition(sep)]: before, whether there is one, after the last one. *)
Definition rpartition_char (sep : Z) (s : pystr) : pystr * bool * pystr :=
  if has_char sep s then
    let '(a, b) := partition_char sep (rev s) in (rev b, true, rev a)
  else ([], false, s).

(** ** [ipaddress.ip_address] *)

Definition ipv4_octet (s : pystr) : bool :=
  negb (bool_decide (s = [])) && forallb is_num s && (py_len s <=? 3)
  && (bool_decide (s = [48]) || negb (startswith [48] s)) && (of_digits 10 (map (λ c, c - 48) s) <=? 255).

Definition is_ipv4 (s : pystr) : bool :=
  let octets := split_on 46 s in (py_len octets =? 4) && forallb ipv4_octet octets.

Definition ipv6_hextet (s : pystr) : bool :=
  negb (bool_decide (s = [])) && forallb (λ c, bool_decide (is_Some (hex_val c))) s && (py_len s <=? 4).

(** The inner empty parts of [parts[1:-1]], as indices. *)
Definition inner_empty (parts : list pystr) : list nat :=
  List.filter (λ i, bool_decide (parts !! i = Some [])) (seq 1 (length parts - 2)).

Definition ipv6_parts (parts : list pystr) : bool :=
  let first_empty := bool_decide (head parts = Some []) in
  let last_empty := bool_decide (last parts = Some []) in
  (py_len parts <=? 9) &&
  match inner_empty parts with
  | [] => (py_len parts =? 8) && forallb ipv6_hextet parts
  | [skip] =>
      let hi := Z.of_nat skip - (if first_empty then 1 else 0) in
      let lo := py_len parts - Z.of_nat skip - 1 - (if last_empty then 1 else 0) in
      negb (first_empty && negb (hi =? 0)) && negb (last_empty && negb (lo =? 0)) && (1 <=? 8 - (hi + lo))
      && forallb ipv6_hextet (take (Z.to_nat hi) parts)
      && forallb ipv6_hextet (drop (length parts - Z.to_nat lo) parts)
  | _ => false
  end.

(** A dotted tail stands for its two hextets. *)
Definition ipv6_tail (parts : list pystr) : option (list pystr) :=
  match last parts with
  | Some t =>
      if has_char 46 t then if is_ipv4 t then Some (removelast parts ++ [[48]; [48]]) else None else Some parts
  | None => None
  end.

Definition is_ipv6 (s : pystr) : bool :=
  let '(addr, scope) := partition_char 37 s in
  negb (has_char 47 s)
  && (negb (has_char 37 s) || (negb (bool_decide (scope = [])) && negb (has_char 37 scope)))
  && negb (bool_decide (addr = [])) && (3 <=? py_len (split_on 58 addr))
  && match ipv6_tail (split_on 58 addr) with Some parts => ipv6_parts parts | None => false end.

(** ** [urlsplit] *)

Record ParseResult := {
  u_scheme : pystr;
  u_netloc : pystr;
  u_path : pystr;
  u_query : pystr;
  u_fragment : pystr;
}.

Definition scheme_char (c : Z) : bool := is_alnum c || (c =? 43) || (c =? 45) || (c =? 46).

(** The scheme, when the text before the first colon is one. *)
Definition split_scheme (url : pystr) : pystr * pystr :=
  let '(pre, post) := partition_char 58 url in
  match pre with
  | c :: _ =>
      if has_char 58 url && (is_upper c || is_lower c) && forallb scheme_char pre
      then (map ascii_lower pre, post) else ([], url)
  | [] => ([], url)
  end.

(** Up to the first of [/?#]. *)
Fixpoint _splitnetloc (s : pystr) : pystr * pystr :=
  match s with
  | [] => ([], [])
  | c :: t => if (c =? 47) || (c =? 63) || (c =? 35) then ([], s)
              else let '(n, rest) := _splitnetloc t in (c :: n, rest)
  end.

(** [v[a-fA-F0-9]+\..+] *)
Definition ipvfuture (s : pystr) : bool :=
  match s with
  | 118 :: t =>
      let '(h, rest) := partition_char 46 t in
      has_char 46 t && negb (bool_decide (h = [])) && forallb (λ c, bool_decide (is_Some (hex_val c))) h
      && negb (bool_decide (rest = [])) && negb (has_char 10 rest)
  | _ => false
  end.

Definition _check_bracketed_host (hostname : pystr) : result unit :=
  raise_if (if startswith [118] hostname then negb (ipvfuture hostname)
            else is_ipv4 hostname || negb (is_ipv6 hostname)) ValueError.

Definition _check_bracketed_netloc (netloc : pystr) : result unit :=
  let hostname_and_port := snd (rpartition_char 64 netloc) in
  if has_char 91 hostname_and_port then
    let '(before, bracketed) := partition_char 91 hostname_and_port in
    _ ← raise_if (negb (bool_decide (before = []))) ValueError;
    let '(hostname, port) := partition_char 93 bracketed in
    _ ← raise_if (negb (bool_decide (port = [])) && negb (startswith [58] port)) ValueError;
    _check_bracketed_host hostname
  else _check_bracketed_host (fst (partition_char 58 hostname_and_port)).

Section urlsplit.
Context `{PyUnicode} `{PyNfkc}.

Definition _checknetloc (netloc : pystr) : result unit :=
  if forallb is_ascii netloc then Ok tt
  else
    let n := List.filter (λ c, negb ((c =? 64) || (c =? 58) || (c =? 35) || (c =? 63))) netloc in
    let netloc2 := nfkc n in
    raise_if (negb (bool_decide (n = netloc2)) && existsb (λ c, has_char c netloc2) (str "/?#@:")) ValueError.

(** [urlparse]; the SDK does not look at [params], which only exist for
    schemes it refuses. *)
Definition urlparse (url : pystr) : result ParseResult :=
  let url := lstrip_by (λ c, (0 <=? c) && (c <=? 32)) url in
  let url := List.filter (λ c, negb ((c =? 9) || (c =? 10) || (c =? 13))) url in
  let '(scheme, url) := split_scheme url in
  let '(netloc, url) := match url with 47 :: 47 :: rest => _splitnetloc rest | _ => ([], url) end in
  _ ← raise_if (xorb (has_char 91 netloc) (has_char 93 netloc)) ValueError;
  _ ← (if has_char 91 netloc && has_char 93 netloc then _check_bracketed_netloc netloc else Ok tt);
  let '(url, fragment) := partition_char 35 url in
  let '(path, query) := partition_char 63 url in
  _ ← _checknetloc netloc;
  Ok {| u_scheme := scheme; u_netloc := netloc; u_path := path; u_query := query; u_fragment := fragment |}.
End urlsplit.

(** ** The parts of the authority *)

Definition userinfo (p : ParseResult) : option pystr * option pystr :=
  let '(info, have_info, _) := rpartition_char 64 (u_netloc p) in
  if have_info then
    let '(username, password) := partition_char 58 info in
    (Some username, if has_char 58 info then Some password else None)
  else (None, None).

Definition username (p : ParseResult) : option pystr := (userinfo p).1.
Definition password (p : ParseResult) : option pystr := (userinfo p).2.

(** Host and port texts; no port is [None]. *)
Definition hostinfo (p : ParseResult) : pystr * option pystr :=
  let hostinfo := snd (rpartition_char 64 (u_netloc p)) in
  let '(hostname, port) :=
    if has_char 91 hostinfo then
      let '(hostname, rest) := partition_char 93 (snd (partition_char 91 hostinfo)) in
      (hostname, snd (partition_char 58 rest))
    else partition_char 58 hostinfo in
  (hostname, match port with [] => None | _ => Some port end).

Section accessors.
Context `{PyUnicode}.

Definition hostname (p : ParseResult) : option pystr :=
  match (hostinfo p).1 with
  | [] => None
  | h => let '(name, zone) := partition_char 37 h in
         Some (py_lower name ++ (if has_char 37 h then [37] else []) ++ zone)
  end.

Definition port (p : ParseResult) : result (option Z) :=
  match (hostinfo p).2 with
  | None => Ok None
  | Some t =>
      _ ← raise_if (negb (forallb is_num t)) ValueError;
      n ← py_int t;
      _ ← raise_if (negb ((0 <=? n) && (n <=? 65535))) ValueError;
      Ok (Some n)
  end.
End accessors.

(** ** [unquote] and [parse_qsl] *)

Fixpoint unquote_to_bytes (s : pystr) : pybytes :=
  match s with
  | [] => []
  | 37 :: t =>
      match t with
      | a :: b :: u =>
          match hex_val a, hex_val b with
          | Some x, Some y => 16 * x + y :: unquote_to_bytes u
          | _, _ => 37 :: unquote_to_bytes t
          end
      | _ => 37 :: unquote_to_bytes t
      end
  | c :: t => c :: unquote_to_bytes t
  end.

(** [bs.decode("utf-8", "replace")]: every maximal ill-formed piece becomes
    U+FFFD. *)
Fixpoint utf8_replace (bs : pybytes) : pystr :=
  match bs with
  | [] => []
  | a :: s1 =>
      if a <? 0x80 then a :: utf8_replace s1
      else if (a <? 0xC2) || (0xF4 <? a) then 0xFFFD :: utf8_replace s1
      else match s1 with
      | [] => [0xFFFD]
      | b :: s2 =>
          if a <? 0xE0 then
            if is_cont b then (a - 0xC0) * 64 + (b - 0x80) :: utf8_replace s2 else 0xFFFD :: utf8_replace s1
          else if negb (is_cont b && negb ((a =? 0xE0) && (b <? 0xA0)) && negb ((a =? 0xED) && (0xA0 <=? b))
                        && negb ((a =? 0xF0) && (b <? 0x90)) && negb ((a =? 0xF4) && (0x90 <=? b)))
          then 0xFFFD :: utf8_replace s1
          else match s2 with
          | [] => [0xFFFD]
          | c :: s3 =>
              if negb (is_cont c) then 0xFFFD :: utf8_replace s2
              else if a <? 0xF0 then ((a - 0xE0) * 64 + (b - 0x80)) * 64 + (c - 0x80) :: utf8_replace s3
              else match s3 with
              | [] => [0xFFFD]
              | d :: s4 =>
                  if is_cont d
                  then (((a - 0xF0) * 64 + (b - 0x80)) * 64 + (c - 0x80)) * 64 + (d - 0x80) :: utf8_replace s4
                  else 0xFFFD :: utf8_replace s3
              end
          end
      end
  end.

(** Runs of ASCII characters are decoded, the others stay. *)
Fixpoint unquote_runs (s run : pystr) : pystr :=
  match s with
  | [] => utf8_replace (unquote_to_bytes (rev run))
  | c :: s => if is_ascii c then unquote_runs s (c :: run)
              else utf8_replace (unquote_to_bytes (rev run)) ++ c :: unquote_runs s []
  end.

Definition unquote (s : pystr) : pystr := if has_char 37 s then unquote_runs s [] else s.
Definition unquote_plus (s : pystr) : pystr := unquote (map (λ c, if c =? 43 then 32 else c) s).

(** [parse_qsl(qs, keep_blank_values=False, strict_parsing=True)] *)
Fixpoint parse_fields (fields : list pystr) : result (list (pystr * pystr)) :=
  match fields with
  | [] => Ok []
  | f :: fields =>
      _ ← raise_if (negb (has_char 61 f)) ValueError;
      let '(name, value) := partition_char 61 f in
      rest ← parse_fields fields;
      Ok (match value with [] => rest | _ => (unquote_plus name, unquote_plus value) :: rest end)
  end.

Definition parse_qsl (qs : pystr) : result (list (pystr * pystr)) :=
  match qs with [] => Ok [] | _ => parse_fields (split_on 38 qs) end.

(** ** Examples *)

Definition no_nfkc : PyNfkc := {| nfkc s := s |}.

Lemma url_examples :
  let _ := ascii_unicode in let _ := no_nfkc in
  urlparse (str "Shadow://key:zA@[2001:db8::1]:8443/#sha256:x")
  = Ok {| u_scheme := str "shadow"; u_netloc := str "key:zA@[2001:db8::1]:8443"; u_path := str "/"; u_query := [];
          u_fragment := str "sha256:x" |}
  ∧ urlparse (str "shadow://[1::2::3]") = Raise ValueError
  ∧ urlparse (str "shadow://[::ffff:1.2.3.4") = Raise ValueError
  ∧ is_ipv6 (str "::ffff:1.2.3.4") = true ∧ is_ipv6 (str "1:2:3:4:5:6:7") = false ∧ is_ipv6 (str "::") = true
  ∧ unquote_plus (str "a+b%2Fc%zz%C3%A9%ff") = str "a b/c%zz" ++ [233; 0xFFFD]
  ∧ parse_qsl (str "a=1&b=&c=%20") = Ok [(str "a", str "1"); (str "c", str " ")]
  ∧ parse_qsl (str "a=1&b") = Raise ValueError.
Proof. vm_compute. split_and!; reflexivity. Qed.
