(* ===== verification/Addressing.v ===== *)
(** * Shadow addresses — [shadownet/addressing.py]

    [shadow://] URIs that name a Shadow: by Shadowname, or directly by its key
    and endpoint with an optional certificate pin. *)

From S2P Require Import Prelude Radix PyStr PyInt Base64 Multibase Identifiers Jcs Provider Url.

Definition SHADOW_SCHEME : pystr := str "shadow".
Definition TLS_PIN_PREFIX : pystr := str "sha256:".
Definition DEFAULT_DIRECT_PORT : Z := 443.
Definition _USERINFO_KEY_TAG : pystr := str "key".

Record DirectAddress := {
  da_public_key : pystr;
  da_host : pystr;
  da_port : Z;
  da_tls_pin_sha256 : option pystr;
}.

Inductive ShadowAddress : Type :=
  | ShadownameAddress (shadowname : pystr)
  | DirectAddr (a : DirectAddress).

(** The property [endpoint]. *)
Definition endpoint (a : DirectAddress) : pystr :=
  let host_part := if has_char 58 (da_host a) then [91] ++ da_host a ++ [93] else da_host a in
  str "https://" ++ host_part ++ [58] ++ dec (da_port a).

(** [[A-Za-z0-9_-]+] *)
Definition fingerprint_full (s : pystr) : bool := negb (bool_decide (s = [])) && forallb url_char s.
Definition _FINGERPRINT_PATTERN (s : pystr) : bool := dollar_match fingerprint_full s.

Section addressing.
Context `{PyUnicode} `{PyNfkc}.

Definition parse_tls_pin (fragment : pystr) : result pystr :=
  let fingerprint := if startswith TLS_PIN_PREFIX (py_lower fragment) then drop 7 fragment else fragment in
  _ ← raise_if (negb (_FINGERPRINT_PATTERN fingerprint)) ShadowAddressError;
  digest ← rethrow is_ValueError (λ _, ShadowAddressError) (_b64u_decode fingerprint);
  _ ← raise_if (negb (py_len digest =? 32)) ShadowAddressError;
  Ok fingerprint.

Definition _canonical_shadowname (value : pystr) : result pystr :=
  rethrow is_InvalidIdentifierError (λ _, ShadowAddressError) (parse_shadowname value).

Definition _parse_direct (parts : ParseResult) : result DirectAddress :=
  password ← of_option ShadowAddressError (password parts);
  public_key ← rethrow is_InvalidIdentifierError (λ _, ShadowAddressError) (canonicalize_identifier password);
  _ ← raise_if (negb (is_public_key_identifier public_key)) ShadowAddressError;
  host ← of_option ShadowAddressError (hostname parts);
  _ ← raise_if (bool_decide (host = [])) ShadowAddressError;
  p ← port parts;
  pin ← (match u_fragment parts with
         | [] => Ok None
         | f => fp ← parse_tls_pin f; Ok (Some fp)
         end);
  Ok {| da_public_key := public_key; da_host := host; da_port := default DEFAULT_DIRECT_PORT p;
        da_tls_pin_sha256 := pin |}.

Definition _parse_shadowname_uri (parts : ParseResult) : result pystr :=
  match username parts, hostname parts with
  | Some (u :: us), Some (h :: hs) =>
      p ← port parts;
      _ ← raise_if (bool_decide (p ≠ None)) ShadowAddressError;
      _ ← raise_if (negb (bool_decide (u_fragment parts = []))) ShadowAddressError;
      _canonical_shadowname ((u :: us) ++ [64] ++ (h :: hs))
  | _, _ => Raise ShadowAddressError
  end.

Definition parse_shadow_address (value : pystr) : result ShadowAddress :=
  let stripped := strip value in
  _ ← raise_if (bool_decide (stripped = [])) ShadowAddressError;
  if negb (contains (str "://") stripped) then
    s ← _canonical_shadowname stripped; Ok (ShadownameAddress s)
  else
    parts ← urlparse stripped;
    _ ← raise_if (negb (bool_decide (py_lower (u_scheme parts) = SHADOW_SCHEME))) ShadowAddressError;
    _ ← raise_if (bool_decide (u_netloc parts = [])) ShadowAddressError;
    _ ← raise_if (negb (bool_decide (u_path parts = []) || bool_decide (u_path parts = [47]))) ShadowAddressError;
    _ ← raise_if (negb (bool_decide (u_query parts = []))) ShadowAddressError;
    user ← of_option ShadowAddressError (username parts);
    if bool_decide (py_lower user = _USERINFO_KEY_TAG) then
      a ← _parse_direct parts; Ok (DirectAddr a)
    else
      _ ← raise_if (bool_decide (password parts ≠ None)) ShadowAddressError;
      s ← _parse_shadowname_uri parts; Ok (ShadownameAddress s).
End addressing.

(** ** Lemmas *)

(** Visible ASCII: nothing to strip or to remove. *)
Definition visible (c : Z) : Prop := 33 ≤ c < 127.

Lemma visible_strip s : Forall visible s → strip s = s.
Proof.
  assert (Hsp : ∀ c, visible c → is_space c = false) by (unfold visible, is_space; intros; lia).
  intros Hs. apply strip_id; intros c t ->; apply Hsp.
  - by apply Forall_cons in Hs as [? _].
  - by apply Forall_app in Hs as [_ [? _]%Forall_cons].
Qed.

Lemma visible_url s : Forall visible s →
  List.filter (λ c, negb ((c =? 9) || (c =? 10) || (c =? 13))) (lstrip_by (λ c, (0 <=? c) && (c <=? 32)) s) = s.
Proof.
  intros Hs. assert (lstrip_by (λ c, (0 <=? c) && (c <=? 32)) s = s) as ->.
  { destruct Hs as [|c s Hc _]; [done|]. cbn. unfold visible in Hc. by rewrite (proj2 (Z.leb_gt c 32)), andb_false_r by lia. }
  induction Hs as [|c s Hc _ IH]; [done|]. cbn. unfold visible in Hc.
  rewrite !(proj2 (Z.eqb_neq c _)) by lia. cbn. by rewrite IH.
Qed.

Lemma splitnetloc_free n rest : Forall (λ c, c ≠ 47 ∧ c ≠ 63 ∧ c ≠ 35) n → rest = [] ∨ head rest = Some 35 →
  _splitnetloc (n ++ rest) = (n, rest).
Proof.
  intros Hn Hr. induction Hn as [|c n (? & ? & ?) _ IH]; cbn.
  - destruct Hr as [->|Hr]; [done|]. destruct rest as [|c rest]; [done|]. cbn in *. by injection Hr as ->.
  - rewrite !(proj2 (Z.eqb_neq c _)) by done. cbn. by rewrite IH.
Qed.

Lemma partition_none sep s : sep ∉ s → partition_char sep s = (s, []).
Proof.
  induction s as [|c s IH]; [done|]. rewrite not_elem_of_cons. intros [? ?]. cbn.
  rewrite (proj2 (Z.eqb_neq c sep)) by done. by rewrite IH.
Qed.

Lemma rpartition_free sep a b : sep ∉ b → rpartition_char sep (a ++ sep :: b) = (a, true, b).
Proof.
  intros Hb. unfold rpartition_char. rewrite (proj2 (has_char_spec sep (a ++ sep :: b))) by set_solver.
  rewrite rev_app_distr. cbn. rewrite <-app_assoc. cbn.
  rewrite partition_free by (intros Hin; apply Hb; by apply list_elem_of_In, in_rev, list_elem_of_In). by rewrite !rev_involutive.
Qed.

Lemma b58_char_alnum i : 0 ≤ i < 58 → is_alnum (b58_char i) = true.
Proof.
  intros Hi. assert (Hall : forallb (λ n, is_alnum (b58_char (Z.of_nat n))) (seq 0 58) = true) by (vm_compute; reflexivity).
  rewrite forallb_forall in Hall. specialize (Hall (Z.to_nat i)). rewrite Z2Nat.id in Hall by lia. apply Hall, in_seq. lia.
Qed.

Lemma multibase_alnum raw : is_bytes raw → Forall (λ c, is_alnum c = true) (encode_multibase_z raw).
Proof.
  intros Hb. destruct (lead_split 0 raw) as (k & t & -> & _ & Hx). apply no_lead_iff in Hx.
  unfold encode_multibase_z. rewrite b58encode_shape by done. rewrite !Forall_app. split_and!.
  - by repeat constructor.
  - apply Forall_forall. intros c Hc%list_elem_of_In%repeat_spec. by subst.
  - apply Forall_map. eapply Forall_impl; [apply (to_digits_digits 58); lia|]. intros i Hi. by apply b58_char_alnum.
Qed.

Lemma num_int_digits `{PyUnicode} ds after acc :
  Forall (λ c, is_num c = true) ds → (ds ≠ [] ∨ after = true) →
  int_digits ds after acc = Some (rev acc ++ map (λ c, c - 48) ds).
Proof.
  intros Hd. revert after acc. induction Hd as [|c ds Hc _ IH]; intros after acc Hne; cbn [int_digits].
  - destruct Hne as [Hx| ->]; [done|]. by rewrite app_nil_r.
  - unfold is_num in Hc. rewrite (proj2 (Z.eqb_neq c 95)) by lia. unfold digit_value, is_num. rewrite Hc.
    rewrite IH by (by right). cbn. by rewrite <-app_assoc.
Qed.

Lemma port_digits n : 0 ≤ n ≤ 65535 → int_digits_ok n = true.
Proof.
  intros Hn. unfold int_digits_ok. rewrite Z.abs_eq by lia. apply Z.leb_le.
  destruct (to_digits 10 n) as [|d ds] eqn:E; [unfold py_len; cbn [length]; lia|].
  pose proof (no_lead_bound 10 ltac:(lia) (to_digits 10 n)) as Hb. rewrite of_to_digits in Hb by lia. rewrite E in *.
  destruct (Z_le_gt_dec (py_len (d :: ds)) 5); [lia|].
  assert (10 ^ 5 ≤ 10 ^ (py_len (d :: ds) - 1)) by (apply Z.pow_le_mono_r; lia).
  assert (10 ^ (py_len (d :: ds) - 1) ≤ n); [|lia]. apply Hb; [done| |].
  - rewrite <-E. apply to_digits_digits. lia.
  - rewrite <-E. apply to_digits_no_lead; lia.
Qed.

Lemma num_cases c : is_num c = true →
  c = 48 ∨ c = 49 ∨ c = 50 ∨ c = 51 ∨ c = 52 ∨ c = 53 ∨ c = 54 ∨ c = 55 ∨ c = 56 ∨ c = 57.
Proof. unfold is_num. intros Hc. bool_prop. lia. Qed.

Lemma sign_free {A} (c : Z) (t : pystr) (x y : pystr → A) (z : A) :
  is_num c = true → match c :: t with 43 :: b => x b | 45 :: b => y b | _ => z end = z.
Proof.
  intros Hx%num_cases. by destruct_or! Hx; subst.
Qed.

Lemma py_int_dec `{PyUnicode} n : 0 ≤ n ≤ 65535 → py_int (dec n) = Ok n.
Proof.
  intros Hn. unfold dec. rewrite (proj2 (Z.ltb_ge n 0)) by lia. unfold py_int.
  pose proof (dec_digits_num n) as Hd. pose proof (dec_digits_ne n ltac:(lia)) as Hne.
  assert (Hsp : ∀ c, is_num c = true → int_space c = false) by (intros c Hx%num_cases; by destruct_or! Hx; subst).
  assert (Hl : ∀ s, Forall (λ c, is_num c = true) s → lstrip_by int_space s = s).
  { intros s Hs. destruct Hs as [|c s Hc _]; [done|]. cbn. by rewrite Hsp. }
  rewrite Hl by done. unfold rstrip_by. rewrite Hl, rev_involutive by (by apply Forall_rev).
  pose proof (PyJson.dec_digits_len n ltac:(lia) (port_digits n Hn)) as Hlen. pose proof (dec_digits_value n ltac:(lia)) as Hv.
  destruct (dec_digits n) as [|c ds] eqn:E; [done|]. rewrite sign_free by (by apply Forall_cons in Hd as [? _]).
  rewrite num_int_digits by (first [done | by left]). cbn [rev app].
  unfold py_len in *. rewrite length_map. rewrite (proj2 (Z.ltb_ge 4300 _)) by lia. by rewrite Hv.
Qed.

(** ** Properties *)

Section addressing_properties.
Context `{PyUnicode} `{PyNfkc}.

Lemma parse_tls_pin_ok f fp :
  parse_tls_pin f = Ok fp → ∃ digest, _b64u_decode fp = Ok digest ∧ length digest = 32%nat.
Proof.
  unfold parse_tls_pin. intros Hp. res_inv. bool_prop. eexists. split; [done|]. unfold py_len in *. lia.
Qed.

Lemma parse_tls_pin_digest digest : is_bytes digest → length digest = 32%nat →
  parse_tls_pin (TLS_PIN_PREFIX ++ _b64u digest) = Ok (_b64u digest).
Proof.
  intros Hb Hl. unfold parse_tls_pin. pose proof (_b64u_url digest Hb) as Hu.
  rewrite py_lower_ascii; cycle 1.
  { apply Forall_app. split; [by repeat constructor|by apply _b64u_ascii]. }
  rewrite map_app. change (map ascii_lower TLS_PIN_PREFIX) with TLS_PIN_PREFIX. rewrite startswith_app.
  change (drop 7 (TLS_PIN_PREFIX ++ _b64u digest)) with (_b64u digest).
  assert (_FINGERPRINT_PATTERN (_b64u digest) = true) as ->.
  { apply dollar_match_spec. left. unfold fingerprint_full. apply andb_true_iff. split; [|by apply forallb_Forall].
    apply negb_true_iff, bool_decide_eq_false. intros He. pose proof (_b64u_roundtrip digest Hb) as Hr.
    rewrite He in Hr. injection Hr as <-. done. }
  cbn [negb raise_if mbind result_bind]. rewrite _b64u_roundtrip by done. cbn [rethrow mbind result_bind].
  unfold py_len. by rewrite Hl.
Qed.

Lemma canonical_key v k : canonicalize_identifier v = Ok k → is_public_key_identifier k = true →
  ∃ pk, parse_public_key k = Ok pk ∧ length pk = 32%nat.
Proof.
  intros Hc Hk. destruct (canonicalize_identifier_kind v k Hc) as [_ Hs]. rewrite Hk in Hs. unfold canonicalize_identifier in Hc.
  destruct (is_shadowname v); [done|]. destruct (is_public_key_identifier v); [|done].
  apply validate_multibase_ok in Hc as (-> & _ & raw & -> & Hb & Hl). exists raw. split; [|done]. by apply parse_public_key_ok.
Qed.

Lemma port_range p o : port p = Ok o → 0 ≤ default DEFAULT_DIRECT_PORT o ≤ 65535.
Proof.
  unfold port. destruct (hostinfo p).2; intros Hp; res_inv; bool_prop; cbn; unfold DEFAULT_DIRECT_PORT; lia.
Qed.

(** A direct address that parses is usable: its key is the canonical form
    of a 32-byte key, the host is not empty, the port is a port number, and
    the pin, when there is one, is the text of a 32-byte digest. *)
Lemma parse_direct_sound (value : pystr) (a : DirectAddress) :
  parse_shadow_address value = Ok (DirectAddr a) →
  (∃ pk, parse_public_key (da_public_key a) = Ok pk ∧ length pk = 32%nat)
  ∧ da_host a ≠ [] ∧ 0 ≤ da_port a ≤ 65535
  ∧ ∀ fp, da_tls_pin_sha256 a = Some fp → ∃ digest, _b64u_decode fp = Ok digest ∧ length digest = 32%nat.
Proof.
  unfold parse_shadow_address. intros Hp. res_inv. case_match; [by res_inv|]. res_inv. case_match; [|by res_inv].
  res_inv. match goal with Hd : DirectAddr _ = DirectAddr _ |- _ => injection Hd as -> end.
  match goal with Hd : _parse_direct _ = Ok _ |- _ => unfold _parse_direct in Hd end.
  res_inv. bool_prop. cbn [da_public_key da_host da_port da_tls_pin_sha256]. split_and!.
  - by eapply canonical_key.
  - done.
  - by apply (port_range x0).
  - by apply (port_range x0).
  - intros fp ->. destruct (u_fragment x0); [done|]. res_inv.
    match goal with Hs : Some _ = Some _ |- _ => injection Hs as -> end. by eapply parse_tls_pin_ok.
Qed.

(** The text of a direct address. *)
Definition render_direct (a : DirectAddress) : pystr :=
  str "shadow://key:" ++ da_public_key a ++ [64] ++ da_host a ++ [58] ++ dec (da_port a)
  ++ match da_tls_pin_sha256 a with Some fp => [35] ++ TLS_PIN_PREFIX ++ fp | None => [] end.

(** A lower-case DNS name or IPv4 literal. *)
Definition host_char (c : Z) : bool := is_lower c || is_num c || (c =? 45) || (c =? 46).
Definition plain_host (h : pystr) : Prop := h ≠ [] ∧ Forall (λ c, host_char c = true) h.

Definition direct_wf (a : DirectAddress) : Prop :=
  (∃ pk, parse_public_key (da_public_key a) = Ok pk) ∧ plain_host (da_host a) ∧ 0 ≤ da_port a ≤ 65535
  ∧ ∀ fp, da_tls_pin_sha256 a = Some fp → ∃ digest, is_bytes digest ∧ length digest = 32%nat ∧ fp = _b64u digest.

Lemma host_char_facts c : host_char c = true →
  45 ≤ c ≤ 122 ∧ c ≠ 47 ∧ c ≠ 58 ∧ c ≠ 63 ∧ c ≠ 64 ∧ c ≠ 91 ∧ c ≠ 93 ∧ is_upper c = false.
Proof. unfold host_char, is_lower, is_num, is_upper. intros. lia. Qed.

Lemma alnum_range c : is_alnum c = true → 48 ≤ c ≤ 122 ∧ c ≠ 58 ∧ c ≠ 63 ∧ c ≠ 64 ∧ c ≠ 91 ∧ c ≠ 93.
Proof. unfold is_alnum, is_lower, is_num, is_upper. intros. lia. Qed.

Lemma url_char_range c : url_char c = true → 45 ≤ c ≤ 122.
Proof. unfold url_char, is_alnum, is_lower, is_num, is_upper. intros. lia. Qed.

(** The characters of the authority of a rendered address. *)
Definition net_char (c : Z) : Prop := 45 ≤ c ≤ 122 ∧ c ≠ 47 ∧ c ≠ 63 ∧ c ≠ 91 ∧ c ≠ 93.

Definition render_netloc (a : DirectAddress) : pystr :=
  (str "key:" ++ da_public_key a) ++ 64 :: da_host a ++ 58 :: dec (da_port a).
Definition render_fragment (a : DirectAddress) : pystr :=
  match da_tls_pin_sha256 a with Some fp => TLS_PIN_PREFIX ++ fp | None => [] end.

Lemma dec_num n : 0 ≤ n → Forall (λ c, is_num c = true) (dec n) ∧ dec n ≠ [].
Proof.
  intros Hn. unfold dec. rewrite (proj2 (Z.ltb_ge n 0)) by lia. split; [apply dec_digits_num|by apply dec_digits_ne].
Qed.

Lemma host_part_chars a : direct_wf a → Forall (λ c, net_char c ∧ c ≠ 64) (da_host a ++ 58 :: dec (da_port a)).
Proof.
  intros (_ & [_ Hh] & Hp & _). apply Forall_app. split.
  - eapply Forall_impl; [exact Hh|]. intros c Hc%host_char_facts. unfold net_char. lia.
  - constructor; [unfold net_char; lia|]. eapply Forall_impl; [apply dec_num; lia|]. cbn.
    unfold is_num, net_char. intros c Hc. bool_prop. lia.
Qed.

Lemma netloc_chars a : direct_wf a → Forall net_char (render_netloc a).
Proof.
  intros Ha. pose proof Ha as ((pk & Hk) & _). apply parse_public_key_ok in Hk as (Hk & Hb & _).
  unfold render_netloc. rewrite !Forall_app, Forall_cons. split_and!.
  - repeat constructor; vm_compute; discriminate.
  - rewrite Hk. eapply Forall_impl; [apply multibase_alnum, multicodec_bytes; exact Hb|].
    intros c Hc%alnum_range. unfold net_char. lia.
  - unfold net_char. lia.
  - eapply Forall_impl; [by apply host_part_chars|]. cbn. tauto.
Qed.

Lemma fragment_visible a : direct_wf a → Forall visible (render_fragment a).
Proof.
  intros (_ & _ & _ & Hf). unfold render_fragment. destruct (da_tls_pin_sha256 a) as [fp|]; [|constructor].
  destruct (Hf fp eq_refl) as (digest & Hb & _ & ->). apply Forall_app. split; [by repeat constructor|].
  eapply Forall_impl; [by apply _b64u_url|]. intros c Hc%url_char_range. unfold visible. lia.
Qed.

Lemma render_split a : render_direct a = str "shadow" ++ 58 :: 47 :: 47 :: render_netloc a
  ++ match render_fragment a with [] => [] | f => 35 :: f end.
Proof.
  unfold render_direct, render_netloc, render_fragment. destruct (da_tls_pin_sha256 a) as [fp|]; cbn;
    by rewrite <-?app_assoc; cbn; rewrite <-?app_assoc.
Qed.

Lemma render_visible a : direct_wf a → Forall visible (render_direct a).
Proof.
  intros Ha. pose proof (netloc_chars a Ha) as Hn. pose proof (fragment_visible a Ha) as Hf. rewrite render_split.
  apply Forall_app. split; [by repeat constructor|]. do 3 (apply Forall_cons; split; [by vm_compute|]). apply Forall_app. split.
  - eapply Forall_impl; [exact Hn|]. unfold net_char, visible. lia.
  - destruct (render_fragment a); [constructor|]. constructor; [by vm_compute|done].
Qed.

Lemma urlparse_direct a : direct_wf a → urlparse (render_direct a) = Ok {|
  u_scheme := str "shadow"; u_netloc := render_netloc a; u_path := []; u_query := []; u_fragment := render_fragment a |}.
Proof.
  intros Ha. pose proof (netloc_chars a Ha) as Hn. unfold urlparse. rewrite visible_url by (by apply render_visible).
  rewrite render_split. set (rest := match render_fragment a with [] => [] | f => 35 :: f end).
  change (split_scheme (str "shadow" ++ 58 :: 47 :: 47 :: render_netloc a ++ rest))
    with (str "shadow", 47 :: 47 :: render_netloc a ++ rest). cbn iota beta.
  rewrite splitnetloc_free; cycle 1.
  { eapply Forall_impl; [exact Hn|]. unfold net_char. lia. }
  { subst rest. destruct (render_fragment a); [by left|by right]. }
  assert (Hfree : ∀ c, ¬ net_char c → has_char c (render_netloc a) = false).
  { intros c Hc. apply has_char_false. intros Hin. by apply (proj1 (Forall_forall _ _) Hn) in Hin. }
  rewrite !Hfree by (unfold net_char; lia). cbn [xorb andb raise_if mbind result_bind].
  assert (partition_char 35 rest = ([], render_fragment a)) as -> by (subst rest; by destruct (render_fragment a)).
  cbn [partition_char mbind result_bind]. unfold _checknetloc. assert (forallb is_ascii (render_netloc a) = true) as ->; [|done].
  apply forallb_Forall. eapply Forall_impl; [exact Hn|]. unfold net_char, is_ascii. intros c Hc. apply andb_true_iff. lia.
Qed.

Lemma authority_direct a p : direct_wf a → u_netloc p = render_netloc a →
  username p = Some (str "key") ∧ password p = Some (da_public_key a) ∧ hostname p = Some (da_host a)
  ∧ port p = Ok (Some (da_port a)).
Proof.
  intros Ha Hn. pose proof (host_part_chars a Ha) as Hc. destruct Ha as (_ & [Hne Hh] & Hp & _).
  assert (Hr : rpartition_char 64 (u_netloc p) = (str "key:" ++ da_public_key a, true, da_host a ++ 58 :: dec (da_port a))).
  { rewrite Hn. unfold render_netloc. apply rpartition_free. intros Hin.
    by apply (proj1 (Forall_forall _ _) Hc) in Hin as [_ ?]. }
  assert (Hu : userinfo p = (Some (str "key"), Some (da_public_key a))) by (unfold userinfo; by rewrite Hr).
  assert (Hi : hostinfo p = (da_host a, Some (dec (da_port a)))).
  { unfold hostinfo. rewrite Hr. cbn [snd]. rewrite (proj2 (has_char_false 91 _)); cycle 1.
    { intros Hin. apply (proj1 (Forall_forall _ _) Hc) in Hin as [Hx _]. unfold net_char in Hx. lia. }
    rewrite partition_free; cycle 1.
    { intros Hin. apply (proj1 (Forall_forall _ _) Hh), host_char_facts in Hin. lia. }
    destruct (dec_num (da_port a) ltac:(lia)) as [_ Hd]. by destruct (dec (da_port a)). }
  unfold username, password, hostname, port. rewrite Hu, Hi. cbn [fst snd]. split_and!; [done|done| |].
  - assert (Hpc : 37 ∉ da_host a).
    { intros Hin. apply (proj1 (Forall_forall _ _) Hh), host_char_facts in Hin. lia. }
    destruct (da_host a) as [|c0 h0] eqn:Eh; [done|].
    rewrite partition_none, (proj2 (has_char_false 37 _)) by done.
    rewrite py_lower_ascii; cycle 1.
    { eapply Forall_impl; [exact Hh|]. intros c Hx%host_char_facts. unfold is_ascii. apply andb_true_iff. lia. }
    assert (map ascii_lower (c0 :: h0) = c0 :: h0) as ->.
    { rewrite <-(map_id (c0 :: h0)) at 2. apply map_ext_in. intros c Hx%list_elem_of_In.
      apply (proj1 (Forall_forall _ _) Hh), host_char_facts in Hx as (_&_&_&_&_&_&_&Hx). unfold ascii_lower. by rewrite Hx. }
    by rewrite app_nil_r.
  - destruct (dec_num (da_port a) ltac:(lia)) as [Hd _]. rewrite (proj2 (forallb_Forall _ _) Hd). cbn [negb raise_if mbind result_bind].
    rewrite py_int_dec by done. cbn [mbind result_bind]. by rewrite (proj2 (Z.leb_le 0 _)), (proj2 (Z.leb_le _ 65535)) by lia.
Qed.

(** C25: a direct address written as a [shadow://] URI is read back: key, host,
    port and pin. *)
Theorem direct_address_roundtrip (a : DirectAddress) :
  direct_wf a → parse_shadow_address (render_direct a) = Ok (DirectAddr a).
Proof.
  intros Ha. unfold parse_shadow_address.
  rewrite visible_strip by (by apply render_visible).
  rewrite (bool_decide_eq_false_2 (render_direct a = [])) by done.
  assert (contains (str "://") (render_direct a) = true) as -> by reflexivity.
  cbn [negb raise_if mbind result_bind]. rewrite urlparse_direct by done.
  cbn [mbind result_bind u_scheme u_netloc u_path u_query].
  rewrite py_lower_ascii by (by repeat constructor). change (map ascii_lower (str "shadow")) with SHADOW_SCHEME.
  rewrite (bool_decide_eq_true_2 (SHADOW_SCHEME = SHADOW_SCHEME)), (bool_decide_eq_false_2 (render_netloc a = [])),
    (bool_decide_eq_true_2 (@nil Z = [])) by done. cbn [negb orb raise_if mbind result_bind].
  set (p := {| u_scheme := _ |}). destruct (authority_direct a p Ha eq_refl) as (-> & Hpw & Hh & Hp).
  cbn [of_option mbind result_bind]. rewrite py_lower_ascii by (by repeat constructor).
  change (map ascii_lower (str "key")) with _USERINFO_KEY_TAG.
  rewrite (bool_decide_eq_true_2 (_USERINFO_KEY_TAG = _)) by done. unfold _parse_direct. rewrite Hpw, Hh, Hp. cbn [of_option mbind result_bind].
  destruct Ha as ((pk & Hk) & [Hne _] & _ & Hf). apply parse_public_key_ok in Hk as (Hk & Hb & Hl).
  assert (canonicalize_identifier (da_public_key a) = Ok (da_public_key a)) as -> by (rewrite Hk; by apply key_canonical).
  cbn [rethrow mbind result_bind].
  assert (is_public_key_identifier (da_public_key a) = true) as -> by (rewrite Hk; by apply key_is_key_identifier).
  rewrite (bool_decide_eq_false_2 (da_host a = [])) by done. cbn [negb raise_if mbind result_bind default].
  subst p. cbn [u_fragment]. unfold render_fragment. destruct a as [k h n [fp|]]; cbn in *; [|done].
  destruct (Hf fp eq_refl) as (digest & Hbd & Hld & ->).
  pose proof (parse_tls_pin_digest digest Hbd Hld) as Hpin. unfold TLS_PIN_PREFIX in Hpin. cbn in Hpin. by rewrite Hpin.
Qed.
End addressing_properties.

(** ** Examples *)

#[local] Existing Instance ascii_unicode.
#[local] Existing Instance no_nfkc.

Definition demo_direct : DirectAddress := {|
  da_public_key := demo_pk; da_host := str "shadow.example"; da_port := 8443;
  da_tls_pin_sha256 := Some (_b64u (repeat 9 32)) |}.

Lemma demo_direct_wf : direct_wf demo_direct.
Proof.
  split_and!; try (vm_compute; congruence).
  - exists demo_key. vm_compute. reflexivity.
  - split; [vm_compute; congruence|]. apply forallb_Forall. vm_compute. reflexivity.
  - intros fp [= <-]. exists (repeat 9 32). split_and!; [|done|done]. by repeat constructor.
Qed.

Lemma direct_address_roundtrip_witness :
  parse_shadow_address (render_direct demo_direct) = Ok (DirectAddr demo_direct).
Proof. apply (direct_address_roundtrip demo_direct). exact demo_direct_wf. Defined.

Lemma parse_direct_sound_example :
  parse_shadow_address (render_direct demo_direct) = Ok (DirectAddr demo_direct) ∧ 0 ≤ da_port demo_direct ≤ 65535.
Proof.
  assert (Hp : parse_shadow_address (render_direct demo_direct) = Ok (DirectAddr demo_direct)) by (vm_compute; reflexivity).
  split; [exact Hp|]. apply (parse_direct_sound _ _ Hp).
Qed.

(** A bad port or bracket leaves as the [ValueError] of [urllib], not as the
    [ShadowAddressError] that malformed addresses have. *)
Lemma bad_port_escapes :
  parse_shadow_address (str "shadow://key:" ++ demo_pk ++ str "@h.example:99999") = Raise ValueError
  ∧ parse_shadow_address (str "shadow://ann@[acme") = Raise ValueError
  ∧ parse_shadow_address (str "shadow://ann@acme.example:443") = Raise ShadowAddressError
  ∧ parse_shadow_address (str " Ann@ACME.example ") = Ok (ShadownameAddress (str "ann@acme.example")).
Proof. vm_compute. split_and!; reflexivity. Qed.
