(* ===== verification/Tls.v ===== *)
(** * TLS pinning — [shadownet/tls.py]

    Pins of direct-mode certificates: from the address, or recorded at first
    use; and the transport that checks them after the handshake. *)

From stdpp Require Import relations.
From S2P Require Import Prelude PyStr Base64 Identifiers Jcs Sha256 Http Url Addressing.

(** [TLSPinStore] *)
Class TLSPinStore (W : Type) : Type := {
  ps_get : pystr → M W (option pystr);
  ps_record : pystr → pystr → M W unit;
}.

Definition compute_cert_fingerprint (der_bytes : pybytes) : pystr := _b64u (sha256 der_bytes).

Definition is_TLSPinMismatchError (e : exn) : bool := bool_decide (e = TLSPinMismatchError).

(** What the pinned transport reads of a response: the [network_stream]
    extension, its [ssl_object], and the DER bytes of the peer certificate. *)
Record TlsResponse := {
  tr_response : Response;
  tr_network_stream : option (option (option pybytes));
}.

(** The transport's fields, as [__init__] sets them. *)
Record PinnedTransport := { tp_host_port : pystr; tp_expected_pin : option pystr }.

Section tls.
Context {W : Type} `{!TLSPinStore W}.

Definition verify_tls_pin (peer_cert_der : pybytes) (expected_pin : option pystr) (host_port : pystr) : M W pystr :=
  let actual := compute_cert_fingerprint peer_cert_der in
  match expected_pin with
  | Some pin =>
      _ ← lift (raise_if (negb (bool_decide (actual = pin))) TLSPinMismatchError);
      mret actual
  | None =>
      recorded ← ps_get host_port;
      match recorded with
      | Some r =>
          _ ← lift (raise_if (negb (bool_decide (actual = r))) TLSPinMismatchError);
          mret actual
      | None =>
          _ ← ps_record host_port actual;
          mret actual
      end
  end.

(** The request itself, and the closing of a response. *)
Context {Request : Type} (send : Request → M W TlsResponse) (close : TlsResponse → M W unit).

Definition peer_certificate (response : TlsResponse) : result pybytes :=
  network_stream ← of_option TLSPinMismatchError (tr_network_stream response);
  ssl_object ← of_option TLSPinMismatchError network_stream;
  match ssl_object with
  | None | Some [] => Raise TLSPinMismatchError
  | Some der => Ok der
  end.

(** [except TLSPinMismatchError: response.close(); raise] *)
Definition closing (response : TlsResponse) (m : M W unit) : M W unit := λ w,
  match m w with
  | (w', Raise e) => if is_TLSPinMismatchError e then (_ ← close response; lift (Raise e)) w' else (w', Raise e)
  | r => r
  end.

Definition handle_request (t : PinnedTransport) (request : Request) : M W TlsResponse :=
  response ← send request;
  _ ← closing response (peer_cert_der ← lift (peer_certificate response);
                        _ ← verify_tls_pin peer_cert_der (tp_expected_pin t) (tp_host_port t);
                        mret tt);
  mret response.

Definition handle_async_request (t : PinnedTransport) (request : Request) : M W TlsResponse :=
  response ← send request;
  _ ← closing response (peer_cert_der ← lift (peer_certificate response);
                        _ ← verify_tls_pin peer_cert_der (tp_expected_pin t) (tp_host_port t);
                        mret tt);
  mret response.
End tls.

Definition make_pinned_httpx_client (direct_address : DirectAddress) : PinnedTransport := {|
  tp_host_port := da_host direct_address ++ [58] ++ dec (da_port direct_address);
  tp_expected_pin := da_tls_pin_sha256 direct_address |}.

Definition make_pinned_httpx_async_client (direct_address : DirectAddress) : PinnedTransport := {|
  tp_host_port := da_host direct_address ++ [58] ++ dec (da_port direct_address);
  tp_expected_pin := da_tls_pin_sha256 direct_address |}.

(** ** The in-memory store *)

Module InMemoryTLSPinStore.
Definition pins : Type := gmap pystr pystr.

Definition get (host_port : pystr) : M pins (option pystr) := λ w, (w, Ok (w !! host_port)).
Definition record (host_port fingerprint : pystr) : M pins unit := λ w, (<[host_port := fingerprint]> w, Ok tt).
Definition len : M pins Z := λ w, (w, Ok (Z.of_nat (size w))).

#[global] Instance store : TLSPinStore pins := {| ps_get := get; ps_record := record |}.
End InMemoryTLSPinStore.

(** ** Properties *)

Section tls_properties.
Import InMemoryTLSPinStore.
Context {Request : Type} (send : Request → M pins TlsResponse) (close : TlsResponse → M pins unit).
(** Requests do not touch the pin store. *)
Hypothesis send_keeps : ∀ r, keeps eq (send r).
Hypothesis close_keeps : ∀ r, keeps eq (close r).

Lemma verify_tls_pin_ok der pin hp w w' f :
  verify_tls_pin der pin hp w = (w', Ok f) →
  f = compute_cert_fingerprint der
  ∧ match pin with Some p => f = p ∧ w' = w | None => w' !! hp = Some f end.
Proof.
  unfold verify_tls_pin. destruct pin as [p|]; intros Hv; M_inv; res_inv; bool_prop; [done|].
  match goal with Hg : ps_get _ _ = _ |- _ => cbn in Hg; unfold get in Hg; injection Hg as <- <- end.
  destruct (w !! hp) as [r|] eqn:E; M_inv; res_inv; bool_prop; subst; [done|].
  match goal with Hg : ps_record _ _ _ = _ |- _ => cbn in Hg; unfold record in Hg; injection Hg as <- end.
  split; [done|]. apply lookup_insert_eq.
Qed.

(** Recorded pins are never replaced. *)
Lemma verify_tls_pin_keeps der pin hp : keeps (⊆) (verify_tls_pin (W := pins) der pin hp).
Proof.
  unfold verify_tls_pin. destruct pin as [p|]; [keep|]. intros w w' r.
  cbn [ps_get ps_record store]. unfold get, record, mbind, M_bind, mret, M_ret, lift.
  destruct (w !! hp) eqn:E; [destruct (raise_if _ _)|]; intros [= <- _]; [reflexivity..|]. by apply insert_subseteq.
Qed.

Lemma eq_keeps_pins {A} (m : M pins A) : keeps eq m → keeps (⊆) m.
Proof. intros Hm w w' r Hr. by rewrite (Hm _ _ _ Hr). Qed.

Lemma closing_keeps r (m : M pins unit) : keeps (⊆) m → keeps (⊆) (closing close r m).
Proof.
  intros Hm w w' x. unfold closing. destruct (m w) as [w1 [u|e]] eqn:E.
  - intros [= <- _]. by eapply Hm.
  - destruct (is_TLSPinMismatchError e); [|intros [= <- _]; by eapply Hm].
    intros Hc. transitivity w1; [by eapply Hm|]. revert w1 w' x Hc E. intros w1 w' x Hc _. revert w1 w' x Hc.
    change (keeps (⊆) (_ ← close r; lift (Raise e) : M pins unit)). keep. by apply eq_keeps_pins.
Qed.

Lemma handle_request_keeps t r : keeps (⊆) (handle_request send close t r).
Proof.
  unfold handle_request. keep; [by apply eq_keeps_pins|]. apply closing_keeps. keep. apply verify_tls_pin_keeps.
Qed.

Lemma handle_request_ok t r w w' resp :
  handle_request send close t r w = (w', Ok resp) →
  ∃ der, peer_certificate resp = Ok der
    ∧ match tp_expected_pin t with
      | Some p => compute_cert_fingerprint der = p ∧ w' = w
      | None => w' !! tp_host_port t = Some (compute_cert_fingerprint der)
      end.
Proof.
  unfold handle_request. intros Hh. M_inv.
  match goal with Hs : send _ _ = _ |- _ => apply send_keeps in Hs as <- end.
  match goal with Hc : closing _ ?r ?m ?wa = (?wb, Ok ?u) |- _ =>
    assert (Hm : m wa = (wb, Ok u)) by (clear -Hc; unfold closing in Hc; destruct (m wa) as [w1 [|e]]; [done|];
      destruct (is_TLSPinMismatchError e); [|done]; unfold mbind, M_bind, lift in Hc;
      destruct (close r w1) as [? [|]]; done) end.
  M_inv. match goal with Hv : verify_tls_pin _ _ _ _ = _ |- _ => apply verify_tls_pin_ok in Hv as [-> Hp] end.
  eexists. split; [done|]. by destruct (tp_expected_pin t) as [p|].
Qed.

(** Any request through any transport that shares the store. *)
Definition request_step (w w' : pins) : Prop := ∃ t r x, handle_request send close t r w = (w', x).

Lemma requests_keep w w' : rtc request_step w w' → w ⊆ w'.
Proof.
  induction 1 as [|w w1 w' (t & r & x & Hs) _ IH]; [done|]. etrans; [by eapply handle_request_keeps|done].
Qed.

Lemma fingerprint_inj d1 d2 : compute_cert_fingerprint d1 = compute_cert_fingerprint d2 → sha256 d1 = sha256 d2.
Proof. apply _b64u_inj; apply sha256_bytes. Qed.

(** C24: trust on first use: after a response came through from a host without
    a pin in its address, whatever requests follow, every later response from
    that host without a pin comes with the same certificate (or the two
    certificates are a SHA-256 collision). *)
Theorem tofu_one_certificate t1 t2 r1 r2 w w1 w2 w3 resp1 resp2 c1 c2 :
  tp_expected_pin t1 = None → tp_expected_pin t2 = None → tp_host_port t1 = tp_host_port t2 →
  handle_request send close t1 r1 w = (w1, Ok resp1) → rtc request_step w1 w2 →
  handle_request send close t2 r2 w2 = (w3, Ok resp2) →
  peer_certificate resp1 = Ok c1 → peer_certificate resp2 = Ok c2 →
  c1 = c2 ∨ (c1 ≠ c2 ∧ sha256 c1 = sha256 c2).
Proof.
  intros Hp1 Hp2 Hhp Hr1 Hsteps Hr2 Hc1 Hc2.
  pose proof (handle_request_keeps _ _ _ _ _ Hr2) as Hk.
  apply handle_request_ok in Hr1 as (d1 & Hd1 & H1). apply handle_request_ok in Hr2 as (d2 & Hd2 & H2).
  rewrite Hp1 in H1. rewrite Hp2 in H2. rewrite Hc1 in Hd1. rewrite Hc2 in Hd2.
  injection Hd1 as <-. injection Hd2 as <-.
  apply requests_keep in Hsteps. pose proof (lookup_weaken _ _ _ _ (lookup_weaken _ _ _ _ H1 Hsteps) Hk) as H1'.
  rewrite Hhp in H1'. pose proof (eq_trans (eq_sym H1') H2) as Hf. injection Hf as Hf. apply fingerprint_inj in Hf.
  destruct (decide (c1 = c2)); [by left|by right].
Qed.

(** A pin in the address authenticates the certificate: a response through
    the client made for an address with a pin comes with a certificate
    whose SHA-256 is the 32-byte digest the pin spells, and the store of first
    uses is neither asked nor changed. *)
Lemma pinned_address_authenticates a fp r w w' resp :
  da_tls_pin_sha256 a = Some fp →
  handle_request send close (make_pinned_httpx_client a) r w = (w', Ok resp) →
  ∃ der, peer_certificate resp = Ok der ∧ _b64u_decode fp = Ok (sha256 der) ∧ w' = w.
Proof.
  intros Hfp Hr. apply handle_request_ok in Hr as (der & Hd & Hm). cbn [make_pinned_httpx_client tp_expected_pin] in Hm. rewrite Hfp in Hm.
  destruct Hm as [<- ->]. exists der. split_and!; [done| |done]. apply _b64u_roundtrip, sha256_bytes.
Qed.
End tls_properties.

(** ** Examples *)

Definition demo_tls (cert : pybytes) : TlsResponse := {|
  tr_response := {| status_code := 200; header_get _ := None; text := []; content := []; json_body := Ok JNull |};
  tr_network_stream := Some (Some (Some cert)) |}.
(** A request names the certificate of the host that answers it. *)
Definition demo_send (cert : pybytes) : M InMemoryTLSPinStore.pins TlsResponse := mret (demo_tls cert).
Definition demo_close (_ : TlsResponse) : M InMemoryTLSPinStore.pins unit := mret tt.
Definition demo_host : PinnedTransport := {| tp_host_port := str "h.example:443"; tp_expected_pin := None |}.
Definition demo_pins : InMemoryTLSPinStore.pins := {[str "h.example:443" := compute_cert_fingerprint (str "abc")]}.

Lemma demo_send_keeps r : keeps eq (demo_send r).
Proof. by intros w w' x [= <- _]. Qed.
Lemma demo_close_keeps r : keeps eq (demo_close r).
Proof. by intros w w' x [= <- _]. Qed.

Lemma demo_tofu : handle_request demo_send demo_close demo_host (str "abc") ∅ = (demo_pins, Ok (demo_tls (str "abc"))).
Proof. reflexivity. Qed.
Lemma demo_tofu_again :
  handle_request demo_send demo_close demo_host (str "abc") demo_pins = (demo_pins, Ok (demo_tls (str "abc"))).
Proof.
  vm_compute. reflexivity.
Qed.

Lemma tofu_one_certificate_witness : str "abc" = str "abc" ∨ (str "abc" ≠ str "abc" ∧ sha256 (str "abc") = sha256 (str "abc")).
Proof.
  exact (tofu_one_certificate demo_send demo_close demo_send_keeps demo_close_keeps demo_host demo_host
    (str "abc") (str "abc") ∅ demo_pins demo_pins demo_pins _ _ (str "abc") (str "abc")
    eq_refl eq_refl eq_refl demo_tofu (rtc_refl _ _) demo_tofu_again eq_refl eq_refl).
Defined.

Definition demo_pinned : DirectAddress := {|
  da_public_key := []; da_host := str "h.example"; da_port := 443;
  da_tls_pin_sha256 := Some (compute_cert_fingerprint (str "abc")) |}.

Lemma pinned_address_authenticates_example : ∃ der,
  peer_certificate (demo_tls (str "abc")) = Ok der
  ∧ _b64u_decode (compute_cert_fingerprint (str "abc")) = Ok (sha256 der) ∧ (∅ : InMemoryTLSPinStore.pins) = ∅.
Proof.
  refine (pinned_address_authenticates demo_send demo_close demo_send_keeps demo_pinned
    (compute_cert_fingerprint (str "abc")) (str "abc") ∅ ∅ (demo_tls (str "abc")) eq_refl _).
  vm_compute. reflexivity.
Qed.
