(* ===== verification/Onboarding.v ===== *)
(** * Onboarding — [shadownet/onboarding.py]

    [shadow://connect] URIs, and the two endpoints that exchange a handoff code
    or a refresh token for an access token. *)

From S2P Require Import Prelude PyStr PyInt Base64 Identifiers Jcs Dicts Http Pydantic Credential Url.

Definition CONNECT_SCHEME : pystr := str "shadow".
Definition CONNECT_AUTHORITY : pystr := str "connect".
Definition HANDOFF_PATH : pystr := str "/.well-known/shadownet/onboard/handoff/".
Definition REFRESH_PATH : pystr := str "/.well-known/shadownet/onboard/refresh".

(** [[A-Za-z0-9._-]{16,128}] *)
Definition handoff_full (s : pystr) : bool :=
  (16 <=? py_len s) && (py_len s <=? 128) && forallb (λ c, is_alnum c || (c =? 46) || (c =? 95) || (c =? 45)) s.
Definition _HANDOFF_PATTERN (s : pystr) : bool := dollar_match handoff_full s.

Definition _LOOPBACK_PREFIXES : list pystr :=
  [str "http://localhost"; str "http://127.0.0.1"; str "http://[::1]"].

Record ConnectURI := {
  cu_mcp_endpoint : pystr;
  cu_access_token : option pystr;
  cu_handoff_code : option pystr;
}.

Definition is_inline (u : ConnectURI) : bool := bool_decide (cu_access_token u ≠ None).
Definition is_handoff (u : ConnectURI) : bool := bool_decide (cu_handoff_code u ≠ None).

(** ** Connect URIs *)

(** The loop that refuses repeated parameters. *)
Fixpoint collect_params (pairs seen : list (pystr * pystr)) : result (list (pystr * pystr)) :=
  match pairs with
  | [] => Ok seen
  | (key, value) :: pairs =>
      _ ← raise_if (bool_decide (key ∈ map fst seen)) ConnectURIError;
      collect_params pairs (seen ++ [(key, value)])
  end.

(** [seen.get(key)] *)
Definition param (key : pystr) (seen : list (pystr * pystr)) : option pystr :=
  snd <$> List.find (λ kv, bool_decide (kv.1 = key)) seen.

Definition endpoint_allowed (mcp_endpoint : pystr) : bool :=
  startswith (str "https://") mcp_endpoint || existsb (λ p, startswith p mcp_endpoint) _LOOPBACK_PREFIXES.

Section connect.
Context `{PyUnicode} `{PyNfkc}.

Definition parse_connect_uri (uri : pystr) : result ConnectURI :=
  parts ← urlparse uri;
  _ ← raise_if (negb (bool_decide (u_scheme parts = CONNECT_SCHEME))) ConnectURIError;
  _ ← raise_if (negb (bool_decide (u_netloc parts = CONNECT_AUTHORITY))) ConnectURIError;
  _ ← raise_if (negb (bool_decide (u_path parts = []) || bool_decide (u_path parts = [47]))) ConnectURIError;
  _ ← raise_if (negb (bool_decide (u_fragment parts = []))) ConnectURIError;
  raw_pairs ← parse_qsl (u_query parts);
  seen ← collect_params raw_pairs [];
  mcp_endpoint ← (match param (str "mcp") seen with
                  | None | Some [] => Raise ConnectURIError
                  | Some e => Ok e
                  end);
  _ ← raise_if (negb (endpoint_allowed mcp_endpoint)) ConnectURIError;
  let access_token := param (str "token") seen in
  let handoff_code := param (str "handoff") seen in
  _ ← raise_if (bool_decide (bool_decide (access_token = None) = bool_decide (handoff_code = None))) ConnectURIError;
  _ ← raise_if (match handoff_code with Some c => negb (_HANDOFF_PATTERN c) | None => false end) ConnectURIError;
  Ok {| cu_mcp_endpoint := mcp_endpoint; cu_access_token := access_token; cu_handoff_code := handoff_code |}.
End connect.

(** ** Token responses *)

Record HandoffResponse := {
  hr_access_token : pystr;
  hr_expires_at : option pystr;
  hr_refresh_token : option pystr;
  hr_extra : pydict;
}.

Record RefreshResponse := {
  rr_access_token : pystr;
  rr_expires_at : option pystr;
  rr_refresh_token : option pystr;
  rr_extra : pydict;
}.

(** The keys the three fields take: the alias, or the name without it. *)
Definition token_names (d : pydict) : list pystr :=
  map (λ an, if bool_decide (dict_get an.1 d = None) then an.2 else an.1)
    [(str "accessToken", str "access_token"); (str "expiresAt", str "expires_at"); (str "refreshToken", str "refresh_token")].

Section onboarding.
Context `{Pydantic}.

Definition HandoffResponse_validate (body : json) : result HandoffResponse :=
  match body with
  | JDict d =>
      model_validate (str "HandoffResponse") d
        (Ok (λ a e r, {| hr_access_token := a; hr_expires_at := e; hr_refresh_token := r; hr_extra := extras (token_names d) d |})
         <*> v_str (get_alias (str "accessToken") (str "access_token") d)
         <*> v_optional v_str (get_alias (str "expiresAt") (str "expires_at") d)
         <*> v_optional v_str (get_alias (str "refreshToken") (str "refresh_token") d))
  | _ => invalid
  end.

Definition RefreshResponse_validate (body : json) : result RefreshResponse :=
  match body with
  | JDict d =>
      model_validate (str "RefreshResponse") d
        (Ok (λ a e r, {| rr_access_token := a; rr_expires_at := e; rr_refresh_token := r; rr_extra := extras (token_names d) d |})
         <*> v_str (get_alias (str "accessToken") (str "access_token") d)
         <*> v_optional v_str (get_alias (str "expiresAt") (str "expires_at") d)
         <*> v_optional v_str (get_alias (str "refreshToken") (str "refresh_token") d))
  | _ => invalid
  end.

Definition _json_body (response : Response) (error_cls : exn) : result json :=
  rethrow is_ValueError (λ _, error_cls) (json_body response).

Definition _handoff_url (mcp_origin code : pystr) : result pystr :=
  _ ← raise_if (negb (_HANDOFF_PATTERN code)) HandoffError;
  Ok (rstrip_char 47 mcp_origin ++ HANDOFF_PATH ++ code).

Definition _interpret_handoff_response (response : Response) : result HandoffResponse :=
  let status := status_code response in
  if status =? 200 then
    body ← _json_body response HandoffError;
    rethrow is_Exception (λ _, HandoffError) (HandoffResponse_validate body)
  else if status =? 404 then Raise HandoffUnknownError
  else if status =? 410 then Raise HandoffExpiredError
  else if status =? 429 then Raise HandoffRateLimitedError
  else Raise HandoffError.

Definition _interpret_refresh_response (response : Response) : result RefreshResponse :=
  let status := status_code response in
  if status =? 200 then
    body ← _json_body response RefreshError;
    rethrow is_Exception (λ _, RefreshError) (RefreshResponse_validate body)
  else if status =? 401 then Raise RefreshInvalidError
  else if status =? 429 then Raise RefreshRateLimitedError
  else Raise RefreshError.

(** [c.post(url, json=json, headers=headers)] of the client at hand. *)
Context (http_post : pystr → json → list (pystr * pystr) → result Response).

Definition _post (url : pystr) (body : json) (error_cls : exn) (headers : list (pystr * pystr)) : result Response :=
  rethrow is_HTTPError (λ _, error_cls)
    (http_post url body ((str "Content-Type", str "application/json") :: headers)).

Definition _apost (url : pystr) (body : json) (error_cls : exn) (headers : list (pystr * pystr)) : result Response :=
  rethrow is_HTTPError (λ _, error_cls)
    (http_post url body ((str "Content-Type", str "application/json") :: headers)).

Definition redeem_handoff (mcp_origin code : pystr) : result HandoffResponse :=
  url ← _handoff_url mcp_origin code;
  response ← _post url (JDict []) HandoffError [];
  _interpret_handoff_response response.

Definition aredeem_handoff (mcp_origin code : pystr) : result HandoffResponse :=
  url ← _handoff_url mcp_origin code;
  response ← _apost url (JDict []) HandoffError [];
  _interpret_handoff_response response.

Definition refresh_access_token (mcp_origin refresh_token : pystr) : result RefreshResponse :=
  let url := rstrip_char 47 mcp_origin ++ REFRESH_PATH in
  response ← _post url (JDict []) RefreshError [(str "Authorization", str "Bearer " ++ refresh_token)];
  _interpret_refresh_response response.

Definition arefresh_access_token (mcp_origin refresh_token : pystr) : result RefreshResponse :=
  let url := rstrip_char 47 mcp_origin ++ REFRESH_PATH in
  response ← _apost url (JDict []) RefreshError [(str "Authorization", str "Bearer " ++ refresh_token)];
  _interpret_refresh_response response.
End onboarding.

(** ** Properties *)

Section connect_properties.
Context `{PyUnicode} `{PyNfkc}.

Lemma connect_uri_endpoint uri u : parse_connect_uri uri = Ok u → endpoint_allowed (cu_mcp_endpoint u) = true.
Proof. unfold parse_connect_uri. intros Hp. res_inv. bool_prop. done. Qed.

(** The parameters of a query without repetitions. *)
Lemma collect_params_spec pairs seen r :
  collect_params pairs seen = Ok r ↔
  r = seen ++ pairs ∧ NoDup pairs.*1 ∧ ∀ k, k ∈ pairs.*1 → (k ∉ seen.*1).
Proof.
  revert seen. induction pairs as [|[k v] pairs IH]; intros seen; cbn [collect_params fmap list_fmap].
  - rewrite app_nil_r. split; [intros [= ->]|intros (-> & _)]; [|done]. split_and!; [done|constructor|set_solver].
  - change (map fst seen) with (seen.*1). case_bool_decide as Hin; cbn [raise_if mbind result_bind].
    + split; [done|]. intros (_ & _ & Hd). destruct (Hd k); [by left|done].
    + rewrite IH, <-app_assoc, NoDup_cons, fmap_app. cbn [app fmap list_fmap fst]. split.
      * intros (-> & Hn & Hd). split_and!; [done| |done|]; [intros Hk; apply (Hd k); set_solver|].
        intros k' [->|Hk']%elem_of_cons; [done|]. specialize (Hd k' Hk'). set_solver.
      * intros (-> & [Hk Hn] & Hd). split_and!; [done|done|]. intros k' Hk'. pose proof (Hd k'). set_solver.
Qed.

Lemma param_absent key pairs : param key pairs = None ↔ (key ∉ pairs.*1).
Proof.
  unfold param. induction pairs as [|[k v] pairs IH]; cbn [List.find fst]; [set_solver|].
  case_bool_decide as Hk; cbn [fmap option_fmap option_map list_fmap fst].
  - subst. set_solver.
  - rewrite IH. set_solver.
Qed.

Lemma param_present key value pairs :
  NoDup pairs.*1 → param key pairs = Some value ↔ (key, value) ∈ pairs.
Proof.
  unfold param. induction pairs as [|[k v] pairs IH]; cbn [List.find fst fmap list_fmap].
  - split; [done|]. by intros ?%not_elem_of_nil.
  - intros [Hk Hn]%NoDup_cons. specialize (IH Hn). case_bool_decide as E; cbn [fmap option_fmap option_map snd].
    + subst k. split; [intros [= ->]; by left|]. intros [[= ->]|Hin]%elem_of_cons; [done|].
      destruct Hk. apply list_elem_of_fmap. by exists (key, value).
    + rewrite IH, elem_of_cons. split; [by right|]. intros [[= -> _]|?]; done.
Qed.

(** The grammar of the handoff code, [[A-Za-z0-9._-]{16,128}]; Python's [$] lets
    a newline follow. *)
Definition handoff_char (c : Z) : Prop :=
  65 ≤ c ≤ 90 ∨ 97 ≤ c ≤ 122 ∨ 48 ≤ c ≤ 57 ∨ c = 46 ∨ c = 95 ∨ c = 45.
Definition handoff_grammar (code : pystr) : Prop :=
  ∃ body, (code = body ∨ code = body ++ [10]) ∧ (16 ≤ length body ≤ 128)%nat ∧ Forall handoff_char body.

Lemma handoff_full_grammar s : handoff_full s = true ↔ (16 ≤ length s ≤ 128)%nat ∧ Forall handoff_char s.
Proof.
  unfold handoff_full, py_len. rewrite !andb_true_iff, forallb_Forall.
  assert (∀ c, is_alnum c || (c =? 46) || (c =? 95) || (c =? 45) = true ↔ handoff_char c) as Hc.
  { intros c. unfold handoff_char, is_alnum, is_upper, is_lower, is_num. lia. }
  assert (Forall (λ c, is_alnum c || (c =? 46) || (c =? 95) || (c =? 45) = true) s ↔ Forall handoff_char s) as ->.
  { by apply Forall_iff. }
  split; intros [Hl Hs]; split; done || lia.
Qed.

Lemma handoff_pattern_grammar code : _HANDOFF_PATTERN code = true ↔ handoff_grammar code.
Proof.
  unfold _HANDOFF_PATTERN, handoff_grammar. rewrite dollar_match_spec. split.
  - intros [Hf|(t & -> & Hf)]; apply handoff_full_grammar in Hf; [exists code|exists t]; naive_solver.
  - intros (body & Hcode & Hf%handoff_full_grammar). destruct Hcode as [->| ->]; [by left|right; by exists body].
Qed.

(** The endpoint: [https], or plain [http] behind one of three prefixes. *)
Definition endpoint_prefixed (endpoint : pystr) : Prop :=
  ∃ rest, endpoint = str "https://" ++ rest ∨ endpoint = str "http://localhost" ++ rest
    ∨ endpoint = str "http://127.0.0.1" ++ rest ∨ endpoint = str "http://[::1]" ++ rest.

Lemma endpoint_allowed_prefixed endpoint : endpoint_allowed endpoint = true ↔ endpoint_prefixed endpoint.
Proof.
  unfold endpoint_allowed, endpoint_prefixed, _LOOPBACK_PREFIXES. cbn [existsb].
  rewrite orb_false_r, !orb_true_iff, !startswith_spec. naive_solver.
Qed.

(** What the URI says of the credential. *)
Definition one_credential (pairs : list (pystr * pystr)) (token code : option pystr) : Prop :=
  (∃ t, token = Some t ∧ code = None ∧ (str "token", t) ∈ pairs ∧ (str "handoff" ∉ pairs.*1))
  ∨ (∃ c, token = None ∧ code = Some c ∧ (str "handoff", c) ∈ pairs ∧ (str "token" ∉ pairs.*1) ∧ handoff_grammar c).

Lemma one_credential_spec pairs token code :
  NoDup pairs.*1 →
  one_credential pairs token code ↔
  token = param (str "token") pairs ∧ code = param (str "handoff") pairs
  ∧ bool_decide (bool_decide (token = None) = bool_decide (code = None)) = false
  ∧ (match code with Some c => negb (_HANDOFF_PATTERN c) | None => false end) = false.
Proof.
  intros Hn. unfold one_credential. split.
  - intros [(t & -> & -> & Ht%(param_present _ _ _ Hn) & Hh%param_absent)
           |(c & -> & -> & Hc%(param_present _ _ _ Hn) & Hh%param_absent & Hg%handoff_pattern_grammar)];
      split_and!; try done; by rewrite Hg.
  - intros (Ht & Hc & Hone & Hpat). destruct token as [t|], code as [c|]; try done.
    + left. exists t. split_and!; [done|done|by apply param_present|by apply param_absent].
    + right. exists c. split_and!; [done|done|by apply param_present|by apply param_absent|].
      apply handoff_pattern_grammar. by destruct (_HANDOFF_PATTERN c).
Qed.

(** C26: a connect URI parses exactly when it is [shadow://connect], with an
    empty path or a slash and without a fragment, and its query has no
    parameter twice, has [mcp] with an endpoint that starts with [https://] or
    with one of the three loopback texts, and has one of [token] and
    [handoff] and not the other, the handoff code of 16 to 128 letters,
    digits, dots, underscores and dashes (and a newline after them, which the
    pattern's dollar allows); the result is what those parameters say. *)
Theorem connect_uri_sound (uri : pystr) (u : ConnectURI) :
  parse_connect_uri uri = Ok u ↔
  ∃ parts pairs, urlparse uri = Ok parts ∧ u_scheme parts = str "shadow" ∧ u_netloc parts = str "connect"
    ∧ (u_path parts = [] ∨ u_path parts = str "/") ∧ u_fragment parts = []
    ∧ parse_qsl (u_query parts) = Ok pairs ∧ NoDup pairs.*1
    ∧ (str "mcp", cu_mcp_endpoint u) ∈ pairs ∧ endpoint_prefixed (cu_mcp_endpoint u)
    ∧ one_credential pairs (cu_access_token u) (cu_handoff_code u).
Proof.
  unfold parse_connect_uri. split.
  - intros Hp. res_inv. bool_prop.
    match goal with Hc : collect_params _ _ = Ok _ |- _ => apply collect_params_spec in Hc as (-> & Hn & _) end.
    cbn [cu_mcp_endpoint cu_access_token cu_handoff_code app] in *.
    match goal with Hm : match param (str "mcp") ?l with _ => _ end = Ok _ |- _ =>
      destruct (param (str "mcp") l) as [[|c s]|] eqn:Hmcp; try discriminate Hm; injection Hm as <- end.
    match goal with Hp : _ || _ = true |- _ => rewrite orb_true_iff, !bool_decide_eq_true in Hp end.
    eexists _, _. split_and!; try eassumption; [by apply param_present|by apply endpoint_allowed_prefixed|].
    apply one_credential_spec; [done|]. split_and!; try done. by apply bool_decide_eq_false.
  - intros (parts & pairs & -> & Hs & Ha & Hpath & Hf & Hq & Hn & Hm & He & Hc).
    cbn [mbind result_bind]. unfold CONNECT_SCHEME, CONNECT_AUTHORITY.
    rewrite (bool_decide_eq_true_2 _ Hs), (bool_decide_eq_true_2 _ Ha), (bool_decide_eq_true_2 _ Hf). cbn [negb raise_if mbind result_bind].
    assert (bool_decide (u_path parts = []) || bool_decide (u_path parts = [47]) = true) as ->
      by (apply orb_true_iff; destruct Hpath; [left|right]; by apply bool_decide_eq_true_2).
    cbn [negb raise_if mbind result_bind]. rewrite Hq. cbn [mbind result_bind].
    rewrite (proj2 (collect_params_spec pairs [] pairs)) by (split_and!; [done|done|set_solver]). cbn [mbind result_bind].
    rewrite (proj2 (param_present _ _ _ Hn) Hm). pose proof (proj2 (endpoint_allowed_prefixed _) He) as Hall.
    destruct u as [[|c s] token code]; [done|]. cbn [cu_mcp_endpoint cu_access_token cu_handoff_code] in *.
    cbn [mbind result_bind]. rewrite Hall. cbn [negb raise_if mbind result_bind].
    apply (one_credential_spec _ _ _ Hn) in Hc as (<- & <- & -> & Hpat). cbn [raise_if mbind result_bind]. by rewrite Hpat.
Qed.

Lemma HandoffResponse_only_invalid `{Pydantic} body : only_invalid (HandoffResponse_validate body).
Proof. unfold HandoffResponse_validate. case_match; eauto 10 with shadownet. Qed.

Lemma redeem_handoff_errors `{Pydantic} http_post origin code e :
  (∀ url b h e, http_post url b h = Raise e → is_HTTPError e = true) →
  (∀ url b h r e, http_post url b h = Ok r → json_body r = Raise e → is_ValueError e = true) →
  redeem_handoff http_post origin code = Raise e →
  e = HandoffError ∨ e = HandoffUnknownError ∨ e = HandoffExpiredError ∨ e = HandoffRateLimitedError.
Proof.
  intros Hpost Hjson. unfold redeem_handoff, _handoff_url, _post, _interpret_handoff_response, _json_body.
  rewrite bind_raise. intros [Hr|(url & _ & Hr)].
  - unfold raise_if in Hr. destruct (negb _); cbn in Hr; res_inv. by left.
  - apply bind_raise in Hr as [Hr|(resp & Hok & Hr)].
    + destruct (http_post _ _ _) as [|e'] eqn:E; cbn [rethrow] in Hr; [done|]. rewrite (Hpost _ _ _ _ E) in Hr. res_inv. by left.
    + apply rethrow_ok in Hok. destruct (status_code resp =? 200).
      * destruct (json_body resp) as [b|e'] eqn:E; cbn [rethrow] in Hr;
          [|rewrite (Hjson _ _ _ _ _ Hok E) in Hr; cbn in Hr; res_inv; by left].
        cbn [mbind result_bind] in Hr. pose proof (HandoffResponse_only_invalid b) as Hv.
        destruct (HandoffResponse_validate b) as [|e']; [done|]. specialize (Hv e' eq_refl).
        destruct e'; try done. cbn in Hr. res_inv. by left.
      * repeat case_match; res_inv; auto.
Qed.
End connect_properties.

(** ** Examples *)

#[local] Existing Instance ascii_unicode.
#[local] Existing Instance no_nfkc.

Definition demo_connect : ConnectURI := {|
  cu_mcp_endpoint := str "https://sidecar.example/mcp"; cu_access_token := None;
  cu_handoff_code := Some (str "abcdefgh01234567") |}.
Definition demo_uri : pystr :=
  str "shadow://connect?mcp=https%3A%2F%2Fsidecar.example/mcp&handoff=abcdefgh01234567".

Lemma connect_uri_sound_witness :
  parse_connect_uri demo_uri = Ok demo_connect
  ∧ ∃ pairs, one_credential pairs None (Some (str "abcdefgh01234567")).
Proof.
  assert (Hp : parse_connect_uri demo_uri = Ok demo_connect) by (vm_compute; reflexivity).
  split; [exact Hp|]. destruct (proj1 (connect_uri_sound demo_uri demo_connect) Hp) as (parts & pairs & Hall).
  exists pairs. apply Hall.
Defined.

(** The loopback test is a prefix test on the text: plain [http] to another
    host passes it. *)
Lemma loopback_prefix_bypass :
  is_ok (parse_connect_uri (str "shadow://connect?mcp=http://localhost.evil.example/mcp&token=t")) = true
  ∧ is_ok (parse_connect_uri (str "shadow://connect?mcp=http://127.0.0.1%40evil.example/mcp&token=t")) = true
  ∧ parse_connect_uri (str "shadow://connect?mcp=http://evil.example/mcp&token=t") = Raise ConnectURIError.
Proof. vm_compute. split_and!; reflexivity. Qed.

(** The dollar of the pattern lets a newline follow the code. *)
Lemma newline_handoff_accepted :
  cu_handoff_code <$> match parse_connect_uri (demo_uri ++ str "%0A") with Ok u => Some u | Raise _ => None end
  = Some (Some (str "abcdefgh01234567" ++ [10])).
Proof. vm_compute. reflexivity. Qed.

(** A query without [=] leaves as the [ValueError] of [parse_qsl]. *)
Lemma bad_query_escapes : parse_connect_uri (str "shadow://connect?mcp") = Raise ValueError.
Proof. vm_compute. reflexivity. Qed.
