(* ===== verification/Payment.v ===== *)
(** * Payments — [shadownet_x402/config.py], [requirements.py], [settlement.py],
    [facilitator.py], [pop.py]

    The quoted requirements, the X-PAYMENT value, the check that what was agreed
    is what is paid, and the proof of possession over a server nonce. *)

From S2P Require Import Prelude PyStr PyInt Base64 Identifiers Jcs Dicts PyJson PyRepr JsonBytes Crypto.
From S2P Require Import Provider Pydantic Credential.

(** ** Settings and requirements *)

(** [Settings], as far as the paywall reads it. *)
Record Settings := {
  st_network_caip2 : pystr;
  st_asset_id : Z;
  st_pay_to : option pystr;
  st_price_micro : Z;
  st_budget_micro : Z;
  st_nonce_ttl_seconds : Z;
  st_pop_lifetime_seconds : Z;
}.

Record PaymentRequirements := {
  rq_scheme : pystr;
  rq_network : pystr;
  rq_asset : pystr;
  rq_amount : Z;
  rq_pay_to : pystr;
  rq_resource : pystr;
  rq_max_timeout_seconds : Z;
}.

Definition build_payment_requirements (settings : Settings) (resource_url : pystr) : result PaymentRequirements :=
  match st_pay_to settings with
  | None => Raise SettlementError
  | Some pay_to => Ok {|
      rq_scheme := str "exact";
      rq_network := st_network_caip2 settings;
      rq_asset := dec (st_asset_id settings);
      rq_amount := st_price_micro settings;
      rq_pay_to := pay_to;
      rq_resource := resource_url;
      rq_max_timeout_seconds := 60 |}
  end.

(** [model_dump(by_alias=True)] *)
Definition PaymentRequirements_dump (r : PaymentRequirements) : pydict :=
  [(str "scheme", JStr (rq_scheme r)); (str "network", JStr (rq_network r)); (str "asset", JStr (rq_asset r));
   (str "maxAmountRequired", JInt (rq_amount r)); (str "payTo", JStr (rq_pay_to r));
   (str "resource", JStr (rq_resource r)); (str "maxTimeoutSeconds", JInt (rq_max_timeout_seconds r))].

Section requirements_model.
Context `{Pydantic}.

(** [int] *)
Definition v_int (v : option json) : result Z :=
  match v with Some v => of_option (ValidationError []) (pyd_int v) | None => invalid end.

Definition v_default {A} (a : A) (f : option json → result A) (v : option json) : result A :=
  match v with None => Ok a | v => f v end.

Definition PaymentRequirements_validate (d : pydict) : result PaymentRequirements :=
  model_validate (str "PaymentRequirements") d
    (Ok (λ s n a m p r t, {| rq_scheme := s; rq_network := n; rq_asset := a; rq_amount := m; rq_pay_to := p;
                             rq_resource := r; rq_max_timeout_seconds := t |})
     <*> v_default (str "exact") v_str (dict_get (str "scheme") d)
     <*> v_str (dict_get (str "network") d)
     <*> v_str (dict_get (str "asset") d)
     <*> v_int (get_alias (str "maxAmountRequired") (str "amount") d)
     <*> v_str (get_alias (str "payTo") (str "pay_to") d)
     <*> v_str (dict_get (str "resource") d)
     <*> v_default 60 v_int (get_alias (str "maxTimeoutSeconds") (str "max_timeout_seconds") d)).
End requirements_model.

(** ** X-PAYMENT *)

(** [payer] is whatever JSON value the payload carries. *)
Record PaidTerms := {
  pt_network : pystr;
  pt_asset : pystr;
  pt_amount : Z;
  pt_pay_to : pystr;
  pt_payer : json;
}.

Record SettleOutcome := {
  so_success : bool;
  so_transaction : option pystr;
  so_payer : json;
  so_network : pystr;
  so_error_reason : option pystr;
}.

Definition x_payment_payload (terms : PaidTerms) : json :=
  JDict [(str "network", JStr (pt_network terms)); (str "asset", JStr (pt_asset terms));
         (str "amount", JInt (pt_amount terms)); (str "payTo", JStr (pt_pay_to terms)); (str "payer", pt_payer terms)].

Definition encode_x_payment (terms : PaidTerms) : pystr := _b64u (json_dumps (x_payment_payload terms)).

(** [int(x)] of a float, which the model carries as its literal. *)
Class PyFloat : Type := { float_to_int : pyfloat → result Z }.

Section settlement.
Context `{PyUnicode} `{PyFloat}.

(** [str(v)] *)
Definition py_str (v : json) : pystr := match v with JStr s => s | v => repr v end.

(** [int(v)] *)
Definition py_int_of (v : json) : result Z :=
  match v with
  | JInt z => Ok z
  | JBool b => Ok (if b then 1 else 0)
  | JStr s => py_int s
  | JFloat f => float_to_int f
  | JNull | JList _ | JDict _ => Raise TypeError
  end.

(** [data[key]] on a decoded JSON value *)
Definition json_item (data : json) (key : pystr) : result json :=
  match data with
  | JDict d => of_option KeyError (dict_get key d)
  | _ => Raise TypeError
  end.

Definition is_field_error (e : exn) : bool :=
  match e with KeyError | TypeError => true | e => is_ValueError e end.

Definition parse_x_payment (x_payment : pystr) : result PaidTerms :=
  data ← rethrow is_ValueError (λ _, AmountMismatchError) (raw ← _b64u_decode x_payment; json_loads_bytes raw);
  rethrow is_field_error (λ _, AmountMismatchError)
    (network ← json_item data (str "network");
     asset ← json_item data (str "asset");
     amount ← json_item data (str "amount") ≫= py_int_of;
     pay_to ← json_item data (str "payTo");
     let payer := match data with JDict d => default JNull (dict_get (str "payer") d) | _ => JNull end in
     Ok {| pt_network := py_str network; pt_asset := py_str asset; pt_amount := amount; pt_pay_to := py_str pay_to;
           pt_payer := payer |}).

Definition enforce_agreed_equals_paid (terms : PaidTerms) (requirements : PaymentRequirements) : result unit :=
  raise_if (negb (bool_decide ((pt_network terms, pt_asset terms, pt_amount terms, pt_pay_to terms)
                  = (rq_network requirements, rq_asset requirements, rq_amount requirements, rq_pay_to requirements))))
    AmountMismatchError.

(** ** The stub facilitator *)

Record FakeFacilitator := { ff_transaction : pystr; ff_success : bool }.

Definition fake_settle (f : FakeFacilitator) (x_payment : pystr) (requirements : PaymentRequirements)
    : result SettleOutcome :=
  if negb (ff_success f) then
    Ok {| so_success := false; so_transaction := None; so_payer := JNull; so_network := rq_network requirements;
          so_error_reason := Some (str "stub settlement failure") |}
  else
    terms ← parse_x_payment x_payment;
    Ok {| so_success := true; so_transaction := Some (ff_transaction f); so_payer := pt_payer terms;
          so_network := rq_network requirements; so_error_reason := None |}.
End settlement.

(** ** Proof of possession *)

Definition POP_TYP : pystr := str "shadownet-x402-pop+jwt".
Definition DEFAULT_POP_LIFETIME_SECONDS : Z := 120.

Definition pop_claims (sub audience nonce : pystr) (issued lifetime : Z) : pydict :=
  [(str "sub", JStr sub); (str "aud", JStr audience); (str "nonce", JStr nonce);
   (str "iat", JInt issued); (str "exp", JInt (issued + lifetime))].

Definition pop_required : list pystr := [str "sub"; str "aud"; str "nonce"; str "iat"; str "exp"].

Section pop.
Context `{PyJWT} {W : Type}.

Definition mint_pop (key : Ed25519KeyPair) (sub audience nonce : pystr) (issued lifetime : Z) : result pystr :=
  sign_jwt (pop_claims sub audience nonce issued lifetime) key
    (Some [(str "typ", JStr POP_TYP); (str "kid", JStr sub)]).

(** [now] is the clock [PyJWT] reads. *)
Definition verify_pop (now : M W Z) (token expected_sub expected_audience expected_nonce : pystr)
    (resolve_subject_key : pystr → M W Ed25519KeyPair) (leeway : Z) : M W unit :=
  header ← lift (rethrow is_JWTError (λ _, PoPError) (decode_header token));
  _ ← lift (raise_if (negb (get_is_str (str "typ") POP_TYP header)) PoPError);
  key ← resolve_subject_key expected_sub;
  now ← now;
  claims ← lift (rethrow is_JWTError (λ _, PoPError)
             (verify_jwt now token key {| jo_audience := Some [expected_audience]; jo_issuer := None; jo_leeway := leeway;
                                          jo_require := pop_required; jo_verify_exp := true |}));
  _ ← lift (raise_if (negb (get_is_str (str "sub") expected_sub claims)) PoPError);
  lift (raise_if (negb (get_is_str (str "nonce") expected_nonce claims)) PoPError).
End pop.

(** ** Round trip of the payment *)

Section payment_lemmas.
Context `{PyUnicode} `{PyFloat}.

Lemma parse_encode_payment terms : well_formed (x_payment_payload terms) → parse_x_payment (encode_x_payment terms) = Ok terms.
Proof.
  intros Hw. unfold parse_x_payment, encode_x_payment.
  pose proof (dumps_ascii (str ", ") (str ": ") (x_payment_payload terms)) as Ha. fold json_dumps in Ha.
  specialize (Ha ltac:(by repeat constructor) ltac:(by repeat constructor) (proj2 Hw)).
  rewrite _b64u_roundtrip by (eapply Forall_impl; [exact Ha|cbn; lia]). cbn [mbind result_bind].
  rewrite json_loads_bytes_ascii by exact Ha.
  destruct (json_dumps_loads (x_payment_payload terms)) as [-> _]; [apply Hw|apply Hw|].
  by destruct terms.
Qed.

Lemma payment_payload_wf terms :
  wf_str (pt_network terms) → wf_str (pt_asset terms) → wf_str (pt_pay_to terms) →
  well_formed (JInt (pt_amount terms)) → well_formed (pt_payer terms) → well_formed (x_payment_payload terms).
Proof. intros. unfold x_payment_payload. wf_dict; done. Qed.

(** An [X-PAYMENT] value that was encoded from terms is parsed back to
    exactly these terms; the amount may have as many digits as [int] converts
    and the payer may be any JSON value without floats. *)
Lemma x_payment_roundtrip (terms : PaidTerms) :
  wf_str (pt_network terms) → wf_str (pt_asset terms) → wf_str (pt_pay_to terms) →
  well_formed (JInt (pt_amount terms)) → well_formed (pt_payer terms) →
  parse_x_payment (encode_x_payment terms) = Ok terms.
Proof. intros. by apply parse_encode_payment, payment_payload_wf. Qed.
End payment_lemmas.
