(* ===== verification/Paywall.v ===== *)
(** * The paywall — [shadownet_x402/server.py], [gate.py], [nonce.py], [budget.py],
    [asgi.py], [client.py]

    The identity gate, the nonce and budget stores, and [Paywall.process] over
    the protocols [NonceStore], [BudgetStore] and [Facilitator]: first a
    challenge with a fresh nonce, then gate, nonce, agreed-equals-paid, budget
    and settlement, in this order. *)

From S2P Require Import Prelude PyStr Base64 Identifiers Jcs Dicts PyJson PyRepr JsonBytes Http Crypto Provider.
From S2P Require Import Pydantic Credential Status Trust Payment.

(** ** Interfaces *)

Class NonceStore (W : Type) : Type := {
  ns_issue : Z → option pystr → M W pystr;
  ns_consume : pystr → option pystr → M W unit;
}.

Class BudgetStore (W : Type) : Type := {
  bs_allowed : pystr → M W bool;
  bs_remaining : pystr → M W Z;
  bs_reserve : pystr → Z → M W unit;
  bs_record : pystr → Z → M W unit;
}.

Class Facilitator (W : Type) : Type := {
  fc_settle : pystr → PaymentRequirements → M W SettleOutcome;
}.

(** The callbacks of the constructor, with their defaults filled in, and the
    clock ([int(time.time())]). *)
Class PaywallEnv `{Ed25519} (W : Type) : Type := {
  pe_resolve_subject_key : pystr → M W Ed25519KeyPair;
  pe_resolve_issuer_key : pystr → M W pystr;
  pe_check_issuer_authorized_for_org : pystr → pystr → M W unit;
  pe_check_revoked : VerifiedCredential → M W unit;
  pe_time : M W Z;
}.

(** ** The identity gate *)

Definition DEFAULT_REQUIRED_KINDS : list pystr := [str "org_affiliation"].

Record ShadowIdentity := {
  si_sub : pystr;
  si_org : pystr;
  si_credential : VerifiedCredential;
}.

(** [try: a = m except C as e: return h(e)], then [k a]. *)
Definition try_return {W A B} (m : M W A) (catches : exn → bool) (h : exn → B) (k : A → M W B) : M W B := λ w,
  match m w with
  | (w', Ok a) => k a w'
  | (w', Raise e) => if catches e then (w', Ok (h e)) else (w', Raise e)
  end.

Section gate.
Context `{PyUnicode} `{Pydantic} `{PyJWT} {W : Type} `{!PaywallEnv W}.

Definition default_resolve_subject_key (sub : pystr) : result Ed25519KeyPair :=
  _ ← raise_if (negb (is_public_key_identifier sub)) GateError;
  rethrow is_InvalidIdentifierError (λ _, GateError) (raw ← parse_public_key sub; from_public_bytes raw).

Definition gate_is_CredentialError (e : exn) : bool := bool_decide (e = CredentialError).
Definition gate_is_StatusListError (e : exn) : bool := bool_decide (e = StatusListError).

Definition run_identity_gate (credential_jws pop_jws resource_url nonce : pystr) (trust_store : option TrustStore)
    (required_kinds : list pystr) (leeway : Z) : M W ShadowIdentity :=
  now ← pe_time;
  credential ← rethrowM gate_is_CredentialError (λ _, GateError)
                 (verify_credential now leeway pe_resolve_issuer_key pe_check_issuer_authorized_for_org credential_jws);
  _ ← lift (raise_if (negb (bool_decide (cp_kind (vc_payload credential) ∈ required_kinds))) GateError);
  _ ← rethrowM gate_is_StatusListError (λ _, GateError) (pe_check_revoked credential);
  ok ← lift (match trust_store with
             | Some ts => satisfies_policy [credential] ts required_kinds
             | None => Ok true
             end);
  _ ← lift (raise_if (negb ok) GateError);
  _ ← verify_pop pe_time pop_jws (cp_sub (vc_payload credential)) resource_url nonce pe_resolve_subject_key leeway;
  mret {| si_sub := cp_sub (vc_payload credential); si_org := cp_org (vc_payload credential);
          si_credential := credential |}.
End gate.

(** ** The paywall *)

(** The texts that are built from an exception are named by their prefix. *)
Inductive refusal : Type :=
  | credential_required | credential_rejected | identity_revoked | credential_revoked
  | headers_required | malformed_pop | identity_refused | nonce_reused | terms_mismatch | over_budget
  | settlement_raised | settlement_failed (reason : pystr).

Inductive PaywallResult : Type :=
  | Challenge (requirements : PaymentRequirements) (nonce : pystr)
  | Settled (identity : ShadowIdentity) (outcome : SettleOutcome)
  | Refused (status : Z) (reason : refusal).

Definition DEFAULT_LEEWAY : Z := 60.

Section paywall.
Context `{PyUnicode} `{PyFloat} `{Pydantic} `{PyJWT} {W : Type}.
Context `{!PaywallEnv W} `{!NonceStore W} `{!BudgetStore W} `{!Facilitator W}.
Context (settings : Settings) (trust_store : option TrustStore).

Definition _challenge (resource_url : pystr) (credential : option pystr) : M W PaywallResult :=
  match credential with
  | None | Some [] => mret (Refused 401 credential_required)
  | Some credential =>
      now ← pe_time;
      try_return (verify_credential now DEFAULT_LEEWAY pe_resolve_issuer_key pe_check_issuer_authorized_for_org credential)
        gate_is_CredentialError (λ _, Refused 403 credential_rejected) (λ verified,
      let sub := cp_sub (vc_payload verified) in
      allowed ← bs_allowed sub;
      if negb allowed then mret (Refused 403 identity_revoked)
      else
        try_return (pe_check_revoked verified) gate_is_StatusListError (λ _, Refused 403 credential_revoked) (λ _,
        nonce ← ns_issue (st_nonce_ttl_seconds settings) (Some sub);
        requirements ← lift (build_payment_requirements settings resource_url);
        mret (Challenge requirements nonce)))
  end.

(** [str(claims.get("nonce", ""))] *)
Definition claimed_nonce (claims : pydict) : pystr :=
  match dict_get (str "nonce") claims with Some v => py_str v | None => [] end.

Definition pop_nonce (pop : pystr) : result pystr :=
  claims ← decode_unverified_claims pop; Ok (claimed_nonce claims).

Definition is_NonceReplayError (e : exn) : bool := bool_decide (e = NonceReplayError).
Definition is_AmountMismatchError (e : exn) : bool := bool_decide (e = AmountMismatchError).
Definition is_BudgetError (e : exn) : bool := bool_decide (e = BudgetError).
Definition is_SettlementError (e : exn) : bool := bool_decide (e = SettlementError).

(** [outcome.error_reason or "settlement failed"] *)
Definition failure_reason (outcome : SettleOutcome) : pystr :=
  match so_error_reason outcome with Some (c :: s) => c :: s | _ => str "settlement failed" end.

(** From the consumed nonce on. *)
Definition settle_payment (resource_url x_payment : pystr) (identity : ShadowIdentity) : M W PaywallResult :=
  requirements ← lift (build_payment_requirements settings resource_url);
  try_return (lift (terms ← parse_x_payment x_payment; enforce_agreed_equals_paid terms requirements))
    is_AmountMismatchError (λ _, Refused 402 terms_mismatch) (λ _,
  try_return (bs_reserve (si_sub identity) (rq_amount requirements))
    is_BudgetError (λ _, Refused 402 over_budget) (λ _,
  try_return (fc_settle x_payment requirements)
    is_SettlementError (λ _, Refused 402 settlement_raised) (λ outcome,
  if negb (so_success outcome) then mret (Refused 402 (settlement_failed (failure_reason outcome)))
  else
    _ ← bs_record (si_sub identity) (rq_amount requirements);
    mret (Settled identity outcome)))).

Definition _settle (resource_url : pystr) (credential pop : option pystr) (x_payment : pystr) : M W PaywallResult :=
  match credential, pop with
  | Some (c :: cs), Some (p :: ps) =>
      let credential := c :: cs in let pop := p :: ps in
      try_return (lift (pop_nonce pop))
        is_JWTError (λ _, Refused 400 malformed_pop) (λ nonce,
      try_return (run_identity_gate credential pop resource_url nonce trust_store DEFAULT_REQUIRED_KINDS DEFAULT_LEEWAY)
        is_GateError (λ _, Refused 403 identity_refused) (λ identity,
      try_return (ns_consume nonce (Some (si_sub identity)))
        is_NonceReplayError (λ _, Refused 409 nonce_reused) (λ _,
      settle_payment resource_url x_payment identity)))
  | _, _ => mret (Refused 401 headers_required)
  end.

Definition process (resource_url : pystr) (credential pop x_payment : option pystr) : M W PaywallResult :=
  match x_payment with
  | None => _challenge resource_url credential
  | Some x_payment => _settle resource_url credential pop x_payment
  end.
End paywall.

(** ** The HTTP adapter *)

Definition read_payment_headers (headers_get : pystr → option pystr) : option pystr * option pystr * option pystr :=
  (headers_get (str "Shadow-Credential"), headers_get (str "Shadow-PoP"), headers_get (str "X-PAYMENT")).

Definition _encode_receipt (outcome : SettleOutcome) : pystr :=
  _b64u (json_dumps (JDict [(str "success", JBool (so_success outcome));
                            (str "transaction", match so_transaction outcome with Some t => JStr t | None => JNull end);
                            (str "network", JStr (so_network outcome)); (str "payer", so_payer outcome)])).

(** Status, body and headers of the response; [refusal_text] is the reason. *)
Definition to_response (refusal_text : refusal → pystr) (r : PaywallResult) (body : option pydict)
    : Z * pydict * list (pystr * pystr) :=
  match r with
  | Challenge requirements nonce =>
      (402, [(str "x402Version", JInt 1); (str "accepts", JList [JDict (PaymentRequirements_dump requirements)]);
             (str "resource", JStr (rq_resource requirements))],
       [(str "Shadow-Nonce", nonce)])
  | Refused status reason => (status, [(str "error", JStr (refusal_text reason))], [])
  | Settled _ outcome =>
      (200, default [] body,
       match so_transaction outcome with
       | Some _ => [(str "X-PAYMENT-RESPONSE", _encode_receipt outcome)]
       | None => []
       end)
  end.

(** ** The client *)

Section client.
Context `{Pydantic} `{PyJWT} {W : Type}.
(** [self._http.get(url, headers)], and the clock. *)
Context (http_get : pystr → list (pystr * pystr) → M W Response) (time : M W Z).

Record ShadowX402Client := {
  xc_shadow_key : Ed25519KeyPair;
  xc_shadow_sub : pystr;
  xc_credential : pystr;
  xc_payer : pystr;
}.

Definition _stub_payment (c : ShadowX402Client) (requirements : PaymentRequirements) : pystr :=
  encode_x_payment {| pt_network := rq_network requirements; pt_asset := rq_asset requirements;
                      pt_amount := rq_amount requirements; pt_pay_to := rq_pay_to requirements;
                      pt_payer := JStr (xc_payer c) |}.

(** [challenge.json()["accepts"][0]] *)
Definition first_accepts (body : json) : result json :=
  accepts ← (match body with JDict b => of_option KeyError (dict_get (str "accepts") b) | _ => Raise TypeError end);
  match accepts with
  | JList (a :: _) => Ok a
  | JList [] => Raise IndexError
  | JStr (c :: _) => Ok (JStr [c])
  | JStr [] => Raise IndexError
  | JDict _ => Raise KeyError
  | _ => Raise TypeError
  end.

Definition get (c : ShadowX402Client) (build_payment : PaymentRequirements → pystr) (url : pystr) : M W Response :=
  challenge ← http_get url [(str "Shadow-Credential", xc_credential c)];
  if negb (status_code challenge =? 402) then mret challenge
  else
    let nonce := default [] (header_get challenge (str "Shadow-Nonce")) in
    body ← lift (json_body challenge);
    a ← lift (first_accepts body);
    requirements ← lift (match a with JDict d => PaymentRequirements_validate d | _ => Raise (ValidationError []) end);
    issued ← time;
    pop ← lift (mint_pop (xc_shadow_key c) (xc_shadow_sub c) url nonce issued DEFAULT_POP_LIFETIME_SECONDS);
    http_get url [(str "Shadow-Credential", xc_credential c); (str "Shadow-PoP", pop);
                  (str "X-PAYMENT", build_payment requirements)].
End client.

(** ** The in-memory stores *)

(** The clock in microseconds, the tokens drawn so far, and the two stores. *)
Record PayWorld := {
  pw_clock : Z;
  pw_ticks : list N;
  pw_drawn : nat;
  pw_nonces : gmap pystr (option pystr * Z);
  pw_spent : gmap pystr Z;
  pw_revoked : gset pystr;
}.

Definition set_pay_time (t : Z) (ticks : list N) (w : PayWorld) : PayWorld :=
  {| pw_clock := t; pw_ticks := ticks; pw_drawn := pw_drawn w; pw_nonces := pw_nonces w; pw_spent := pw_spent w;
     pw_revoked := pw_revoked w |}.
Definition set_nonces (n : gmap pystr (option pystr * Z)) (w : PayWorld) : PayWorld :=
  {| pw_clock := pw_clock w; pw_ticks := pw_ticks w; pw_drawn := pw_drawn w; pw_nonces := n; pw_spent := pw_spent w;
     pw_revoked := pw_revoked w |}.
Definition set_spent (s : gmap pystr Z) (w : PayWorld) : PayWorld :=
  {| pw_clock := pw_clock w; pw_ticks := pw_ticks w; pw_drawn := pw_drawn w; pw_nonces := pw_nonces w; pw_spent := s;
     pw_revoked := pw_revoked w |}.
Definition set_revoked (r : gset pystr) (w : PayWorld) : PayWorld :=
  {| pw_clock := pw_clock w; pw_ticks := pw_ticks w; pw_drawn := pw_drawn w; pw_nonces := pw_nonces w;
     pw_spent := pw_spent w; pw_revoked := r |}.

(** [time.time()] in microseconds; a clock that does not run backwards. *)
Definition pay_clock : M PayWorld Z := λ w,
  match pw_ticks w with
  | [] => (w, Ok (pw_clock w))
  | d :: ticks => (set_pay_time (pw_clock w + Z.of_N d) ticks w, Ok (pw_clock w + Z.of_N d))
  end.

Definition modify (f : PayWorld → PayWorld) : M PayWorld unit := λ w, (f w, Ok tt).
Definition read {A} (f : PayWorld → A) : M PayWorld A := λ w, (w, Ok (f w)).

Definition pay_time : M PayWorld Z := t ← pay_clock; mret (t / 1000000).

Section in_memory.
(** [secrets.token_urlsafe(16)]: the tokens in the order they are drawn. *)
Context (tokens : nat → pystr).

Definition token_urlsafe : M PayWorld pystr := λ w,
  ({| pw_clock := pw_clock w; pw_ticks := pw_ticks w; pw_drawn := S (pw_drawn w); pw_nonces := pw_nonces w;
      pw_spent := pw_spent w; pw_revoked := pw_revoked w |}, Ok (tokens (pw_drawn w))).

Definition nonce_issue (ttl : Z) (identity_key : option pystr) : M PayWorld pystr :=
  nonce ← token_urlsafe;
  now ← pay_clock;
  _ ← modify (λ w, set_nonces (<[nonce := (identity_key, now + ttl * 1000000)]> (pw_nonces w)) w);
  mret nonce.

Definition nonce_consume (nonce : pystr) (identity_key : option pystr) : M PayWorld unit := λ w,
  match pw_nonces w !! nonce with
  | None => (w, Raise NonceReplayError)
  | Some (bound_identity, expiry) =>
      (now ← pay_clock;
       _ ← lift (raise_if (expiry <? now) NonceReplayError);
       lift (raise_if (match bound_identity with
                       | Some b => negb (bool_decide (Some b = identity_key))
                       | None => false
                       end) NonceReplayError)) (set_nonces (delete nonce (pw_nonces w)) w)
  end.

#[global] Instance in_memory_nonces : NonceStore PayWorld := {| ns_issue := nonce_issue; ns_consume := nonce_consume |}.
End in_memory.

Section in_memory_budget.
Context (cap_micro : Z).

Definition spent_of (w : PayWorld) (identity_key : pystr) : Z := default 0 (pw_spent w !! identity_key).

Definition budget_allowed (identity_key : pystr) : M PayWorld bool :=
  read (λ w, bool_decide (identity_key ∉ pw_revoked w)).

Definition budget_remaining (identity_key : pystr) : M PayWorld Z :=
  read (λ w, Z.max 0 (cap_micro - spent_of w identity_key)).

Definition budget_reserve (identity_key : pystr) (amount : Z) : M PayWorld unit :=
  allowed ← budget_allowed identity_key;
  _ ← lift (raise_if (negb allowed) BudgetError);
  spent ← read (λ w, spent_of w identity_key);
  lift (raise_if (cap_micro <? spent + amount) BudgetError).

Definition budget_record (identity_key : pystr) (amount : Z) : M PayWorld unit :=
  modify (λ w, set_spent (<[identity_key := spent_of w identity_key + amount]> (pw_spent w)) w).

Definition budget_revoke (identity_key : pystr) : M PayWorld unit :=
  modify (λ w, set_revoked ({[identity_key]} ∪ pw_revoked w) w).

Definition budget_restore (identity_key : pystr) : M PayWorld unit :=
  modify (λ w, set_revoked (pw_revoked w ∖ {[identity_key]}) w).

#[global] Instance in_memory_budget : BudgetStore PayWorld :=
  {| bs_allowed := budget_allowed; bs_remaining := budget_remaining; bs_reserve := budget_reserve;
     bs_record := budget_record |}.
End in_memory_budget.
