(* ===== verification/PaywallProps.v ===== *)
(** * Properties of the paywall

    The paywall over its in-memory stores, with the resolvers, the revocation
    check and the facilitator as parameters that leave the stores alone. *)

From stdpp Require Import relations.
From S2P Require Import Prelude PyStr Base64 Identifiers Jcs Dicts PyJson PyRepr JsonBytes Http Crypto Provider.
From S2P Require Import Pydantic Credential Status Trust Payment Paywall.

(** ** [try_return] *)

Section try_return.
Context {W A B : Type} (m : M W A) (catches : exn → bool) (h : exn → B) (k : A → M W B).

Lemma try_return_ok w w' b :
  (∀ e, h e ≠ b) →
  try_return m catches h k w = (w', Ok b) → ∃ a w1, m w = (w1, Ok a) ∧ k a w1 = (w', Ok b).
Proof.
  intros Hh. unfold try_return. destruct (m w) as [w1 [a|e]]; [eauto|].
  destruct (catches e); [|done]. intros [= _ He]. by destruct (Hh e).
Qed.

Lemma try_return_run w w1 a : m w = (w1, Ok a) → try_return m catches h k w = k a w1.
Proof. unfold try_return. by intros ->. Qed.

Lemma keeps_try_return (R : relation W) `{!PreOrder R} :
  keeps R m → (∀ a, keeps R (k a)) → keeps R (try_return m catches h k).
Proof.
  intros Hm Hk w w' r. unfold try_return. destruct (m w) as [w1 [a|e]] eqn:E; intros Hb.
  - transitivity w1; [by eapply Hm|by eapply Hk].
  - destruct (catches e); injection Hb as <- _; by eapply Hm.
Qed.

Lemma ends_try_return (R : relation W) (T : W → W → result B → Prop) :
  (∀ w w' e, R w w' → T w w' (Raise e)) → (∀ w w' e, R w w' → T w w' (Ok (h e))) →
  (∀ w w1 w' r, R w w1 → T w1 w' r → T w w' r) →
  keeps R m → (∀ a, ends T (k a)) → ends T (try_return m catches h k).
Proof.
  intros Hr Hh Habs Hm Hk w w' r. unfold try_return. destruct (m w) as [w1 [a|e]] eqn:E; intros Hb.
  - eapply Habs; [by eapply Hm|by eapply Hk].
  - destruct (catches e); injection Hb as <- <-; [eapply Hh|eapply Hr]; by eapply Hm.
Qed.
End try_return.

Ltac try_inv :=
  repeat first
    [ progress M_inv
    | match goal with
      | H : try_return _ _ _ _ _ = (_, Ok _) |- _ => apply try_return_ok in H as (?&?&?&?); [|done]
      end ].

Ltac pay_keep :=
  repeat first
    [ match goal with |- keeps _ (try_return _ _ _ _) => apply keeps_try_return; [apply _| |intros ?] end
    | progress keep ].

(** ** What the parameters leave alone *)

(** The clock may advance; the stores and the token source stay. *)
Definition same_stores : relation PayWorld := λ w w',
  pw_clock w ≤ pw_clock w' ∧ pw_drawn w' = pw_drawn w ∧ pw_nonces w' = pw_nonces w ∧ pw_spent w' = pw_spent w
  ∧ pw_revoked w' = pw_revoked w.

#[global] Instance same_stores_preorder : PreOrder same_stores.
Proof.
  split; [by intros w; unfold same_stores; split_and!|].
  intros w1 w2 w3 (?&?&?&?&?) (?&?&?&?&?). unfold same_stores. split_and!; [lia|congruence..].
Qed.

Class PaywallEnvLaws `{Ed25519} `{!PaywallEnv PayWorld} `{!Facilitator PayWorld} : Prop := {
  pl_subject sub : keeps same_stores (pe_resolve_subject_key sub);
  pl_issuer iss : keeps same_stores (pe_resolve_issuer_key iss);
  pl_authorized iss org : keeps same_stores (pe_check_issuer_authorized_for_org iss org);
  pl_revoked c : keeps same_stores (pe_check_revoked c);
  pl_time : keeps same_stores pe_time;
  pl_settle x r : keeps same_stores (fc_settle x r);
}.

#[export] Hint Resolve pl_subject pl_issuer pl_authorized pl_revoked pl_time pl_settle : shadownet.

Lemma pay_clock_keeps : keeps same_stores pay_clock.
Proof.
  intros w w' r. unfold pay_clock. destruct (pw_ticks w) as [|d t]; intros [= <- _]; [reflexivity|].
  unfold same_stores. cbn. split_and!; [lia|done..].
Qed.

Lemma pay_clock_value w w' t : pay_clock w = (w', Ok t) → same_stores w w' ∧ pw_clock w ≤ t.
Proof.
  intros Hc. split; [by eapply pay_clock_keeps|]. revert Hc. unfold pay_clock.
  destruct (pw_ticks w); intros [= <- <-]; lia.
Qed.
#[export] Hint Resolve pay_clock_keeps : shadownet.

(** What the caller's proof of possession says: signed with [pk], about this
    subject, resource and nonce. *)
Definition possession_proof `{PyJWT} (pk : pybytes) (pop sub url nonce : pystr) : Prop :=
  ∃ claims, jws_signed_by pk pop ∧ pyjwt_claims pop = Ok claims
    ∧ get_str (str "sub") claims = Some sub ∧ get_str (str "nonce") claims = Some nonce
    ∧ audience_matches [url] claims = true.

Lemma get_is_str_get k s d : get_is_str k s d = true ↔ get_str k d = Some s.
Proof.
  unfold get_is_str, get_str, json_is_str. repeat case_match; try naive_solver. rewrite bool_decide_eq_true. naive_solver.
Qed.

Lemma verify_pop_ok `{PyJWT} `{!PyJWTDecodeLaws} {W} (time : M W Z) pop sub url nonce resolve leeway (w w' : W) u :
  verify_pop time pop sub url nonce resolve leeway w = (w', Ok u) →
  ∃ key w1 w2, resolve sub w1 = (w2, Ok key) ∧ possession_proof (public_bytes key) pop sub url nonce.
Proof.
  unfold verify_pop. intros Hv. M_inv. res_inv. bool_prop.
  match goal with Hr : resolve _ _ = (_, Ok ?k) |- _ => exists k; do 2 eexists; split; [exact Hr|] end.
  match goal with Hj : verify_jwt _ _ _ _ = Ok ?c |- _ => exists c; unfold verify_jwt, public_key in Hj end.
  res_inv. match goal with Hd : pyjwt_decode _ _ _ _ = _ |- _ => apply pyjwt_decode_sound in Hd as (?&?&_&Ha&_) end.
  subst. rewrite get_is_str_get in *. split_and!; try done. by apply Ha.
Qed.

Section paywall_lemmas.
Context `{PyUnicode} `{PyFloat} `{Pydantic} `{PyJWT}.
Context (tokens : nat → pystr) (cap : Z).
Context `{!PaywallEnv PayWorld} `{!Facilitator PayWorld} `{!PaywallEnvLaws}.
Context (settings : Settings) (trust_store : option TrustStore).
#[local] Instance nonces : NonceStore PayWorld := in_memory_nonces tokens.
#[local] Instance budget : BudgetStore PayWorld := in_memory_budget cap.

Lemma verify_credential_keeps now leeway token :
  keeps same_stores (verify_credential now leeway pe_resolve_issuer_key pe_check_issuer_authorized_for_org token).
Proof. unfold verify_credential. keep. Qed.

Lemma verify_pop_keeps token sub aud nonce leeway :
  keeps same_stores (verify_pop pe_time token sub aud nonce pe_resolve_subject_key leeway).
Proof. unfold verify_pop. keep. Qed.
#[local] Hint Resolve verify_credential_keeps verify_pop_keeps : shadownet.

Lemma gate_keeps c p url nonce kinds leeway :
  keeps same_stores (run_identity_gate c p url nonce trust_store kinds leeway).
Proof. unfold run_identity_gate. keep. Qed.

Lemma gate_ok `{!PyJWTDecodeLaws} c p url nonce kinds leeway w w' identity :
  run_identity_gate c p url nonce trust_store kinds leeway w = (w', Ok identity) →
  (∃ now w1 w2, pe_time w = (w1, Ok now)
    ∧ verify_credential now leeway pe_resolve_issuer_key pe_check_issuer_authorized_for_org c w1
      = (w2, Ok (si_credential identity)))
  ∧ (∃ w1 w2, pe_check_revoked (si_credential identity) w1 = (w2, Ok tt))
  ∧ si_sub identity = cp_sub (vc_payload (si_credential identity))
  ∧ (∀ ts, trust_store = Some ts → satisfies_policy [si_credential identity] ts kinds = Ok true)
  ∧ ∃ key w1 w2, pe_resolve_subject_key (si_sub identity) w1 = (w2, Ok key)
      ∧ possession_proof (public_bytes key) p (si_sub identity) url nonce.
Proof.
  unfold run_identity_gate. intros Hg. M_inv. res_inv. bool_prop. subst.
  repeat match goal with u : () |- _ => destruct u end.
  match goal with Hv : verify_pop _ _ _ _ _ _ _ _ = _ |- _ => apply verify_pop_ok in Hv as (key & w1 & w2 & ? & ?) end.
  cbn. split_and!; eauto 6. intros ts ->. congruence.
Qed.

Lemma consume_ok nonce sub w w' u :
  nonce_consume nonce (Some sub) w = (w', Ok u) →
  (∃ bound expiry, pw_nonces w !! nonce = Some (bound, expiry) ∧ (bound = None ∨ bound = Some sub)
    ∧ pw_clock w ≤ expiry)
  ∧ same_stores (set_nonces (delete nonce (pw_nonces w)) w) w'.
Proof.
  unfold nonce_consume. destruct (pw_nonces w !! nonce) as [[bound expiry]|]; [|done].
  intros Hc. M_inv. res_inv. bool_prop.
  match goal with Ht : pay_clock _ = _ |- _ => apply pay_clock_value in Ht as [? Hle] end.
  split; [|done]. exists bound, expiry. cbn in Hle. split_and!; [done| |lia].
  destruct bound; [right|by left]. by bool_prop.
Qed.

Lemma reserve_ok sub amount w w' u :
  budget_reserve cap sub amount w = (w', Ok u) → w' = w ∧ (sub ∉ pw_revoked w) ∧ spent_of w sub + amount ≤ cap.
Proof.
  unfold budget_reserve, budget_allowed, read. intros Hr. M_inv. res_inv. bool_prop. done.
Qed.

(** The tail of a settlement: the quote, the payment, the budget. *)
Lemma settle_payment_ok url x identity identity' out w w' :
  settle_payment settings url x identity w = (w', Ok (Settled identity' out)) →
  identity' = identity ∧ so_success out = true
  ∧ ∃ req terms w1 w2, build_payment_requirements settings url = Ok req ∧ parse_x_payment x = Ok terms
    ∧ enforce_agreed_equals_paid terms req = Ok tt ∧ fc_settle x req w1 = (w2, Ok out)
    ∧ (si_sub identity ∉ pw_revoked w) ∧ spent_of w (si_sub identity) + st_price_micro settings ≤ cap
    ∧ same_stores (set_spent (<[si_sub identity := spent_of w (si_sub identity) + st_price_micro settings]> (pw_spent w)) w) w'.
Proof.
  unfold settle_payment. intros Hs. try_inv. res_inv.
  match goal with Hr : bs_reserve _ _ _ = _ |- _ => apply reserve_ok in Hr as (-> & ? & ?) end.
  match goal with Hb : build_payment_requirements _ _ = Ok ?r |- _ =>
    assert (Hp : rq_amount r = st_price_micro settings)
      by (clear -Hb; unfold build_payment_requirements in Hb; destruct (st_pay_to settings); res_inv; done) end.
  match goal with Hf : fc_settle _ _ _ = (_, Ok ?o) |- _ => pose proof (pl_settle _ _ _ _ _ Hf) as (?&Hd&Hn&Hsp&Hrv);
    destruct (so_success o) eqn:Hok; [|discriminate] end.
  cbn [negb] in *. M_inv.
  match goal with Hm : bs_record _ _ _ = _ |- _ => cbn in Hm; unfold budget_record, modify in Hm; injection Hm as <- end.
  match goal with Hm : Settled _ _ = Settled _ _ |- _ => injection Hm as -> -> end.
  rewrite Hp in *. repeat match goal with u : () |- _ => destruct u end.
  split_and!; [done..|]. do 4 eexists. split_and!; try done.
  unfold same_stores, set_spent, spent_of. cbn. rewrite Hd, Hn, Hsp, Hrv. split_and!; [lia|done..].
Qed.

(** Everything a settled request has passed. *)
Record settled_facts (url c p x : pystr) (identity : ShadowIdentity) (out : SettleOutcome) (w w' : PayWorld) : Prop := {
  sf_credential : ∃ now w1 w2, pe_time w = (w1, Ok now)
    ∧ verify_credential now 60 pe_resolve_issuer_key pe_check_issuer_authorized_for_org c w1
      = (w2, Ok (si_credential identity));
  sf_revocation : ∃ w1 w2, pe_check_revoked (si_credential identity) w1 = (w2, Ok tt);
  sf_policy : ∀ ts, trust_store = Some ts →
    satisfies_policy [si_credential identity] ts [str "org_affiliation"] = Ok true;
  sf_sub : si_sub identity = cp_sub (vc_payload (si_credential identity));
  sf_nonce : ∃ nonce bound expiry key w1 w2,
    pop_nonce p = Ok nonce
    ∧ pe_resolve_subject_key (si_sub identity) w1 = (w2, Ok key)
    ∧ possession_proof (public_bytes key) p (si_sub identity) url nonce
    ∧ pw_nonces w !! nonce = Some (bound, expiry) ∧ (bound = None ∨ bound = Some (si_sub identity))
    ∧ pw_clock w ≤ expiry
    ∧ pw_nonces w' = delete nonce (pw_nonces w);
  sf_terms : ∃ req terms w1 w2,
    build_payment_requirements settings url = Ok req ∧ parse_x_payment x = Ok terms
    ∧ pt_network terms = rq_network req ∧ pt_asset terms = rq_asset req
    ∧ pt_amount terms = st_price_micro settings ∧ pt_pay_to terms = rq_pay_to req
    ∧ fc_settle x req w1 = (w2, Ok out) ∧ so_success out = true;
  sf_budget : (si_sub identity ∉ pw_revoked w) ∧ spent_of w (si_sub identity) + st_price_micro settings ≤ cap
    ∧ pw_spent w' = <[si_sub identity := spent_of w (si_sub identity) + st_price_micro settings]> (pw_spent w);
  sf_drawn : pw_drawn w' = pw_drawn w;
}.

Lemma process_settled `{!PyJWTDecodeLaws} url cred pop xp identity out w w' :
  process settings trust_store url cred pop xp w = (w', Ok (Settled identity out)) →
  ∃ c p x, cred = Some c ∧ pop = Some p ∧ xp = Some x ∧ settled_facts url c p x identity out w w'.
Proof.
  unfold process. destruct xp as [x|]; cycle 1.
  { unfold _challenge. intros Hc. destruct cred as [[|c cs]|]; [by M_inv| |by M_inv]. M_inv. try_inv.
    destruct (negb _); M_inv; [done|]. try_inv. done. }
  unfold _settle. destruct cred as [[|c cs]|]; [by intros; M_inv| |by intros; M_inv].
  destruct pop as [[|p ps]|]; [by intros; M_inv| |by intros; M_inv]. intros Hs. cbv zeta in Hs.
  try_inv. exists (c :: cs), (p :: ps), x. split_and!; [done..|].
  match goal with Hg : run_identity_gate _ _ _ _ _ _ _ _ = _ |- _ =>
    pose proof (gate_keeps _ _ _ _ _ _ _ _ _ Hg) as (Hc1&Hd1&Hn1&Hs1&Hr1);
    apply gate_ok in Hg as (?&?&?&?&key&k1&k2&?&?) end.
  match goal with Hn : ns_consume _ _ _ = _ |- _ => apply consume_ok in Hn as [(bound&expiry&Hb&?&?) (Hc2&Hd2&Hn2&Hs2&Hr2)] end.
  match goal with Hp : settle_payment _ _ _ _ _ = _ |- _ =>
    apply settle_payment_ok in Hp as (-> & ? & req & terms & v1 & v2 & Hq & ? & He & ? & ? & ? & (Hc3&Hd3&Hn3&Hs3&Hr3)) end.
  unfold spent_of in *. cbn in *. rewrite Hn1, Hs1, Hr1, Hd1, ?Hs2, ?Hr2 in *.
  split; try done.
  - do 6 eexists. split_and!; try done; [lia|congruence].
  - exists req, terms, v1, v2. unfold enforce_agreed_equals_paid in He. res_inv. bool_prop.
    match goal with Heq : (_, _) = (_, _) |- _ => injection Heq as Hnet Hass Ham Hpay end.
    assert (rq_amount req = st_price_micro settings)
      by (clear -Hq; unfold build_payment_requirements in Hq; destruct (st_pay_to settings); res_inv; done).
    split_and!; congruence.
  - congruence.
Qed.

(** ** What one request does to the stores *)

(** Nonces only come from the token source. *)
Definition nonces_drawn : relation PayWorld := λ w w',
  (pw_drawn w ≤ pw_drawn w')%nat
  ∧ ∀ n, is_Some (pw_nonces w' !! n) →
      is_Some (pw_nonces w !! n) ∨ ∃ i, (pw_drawn w ≤ i < pw_drawn w')%nat ∧ n = tokens i.

#[local] Instance nonces_drawn_preorder : PreOrder nonces_drawn.
Proof.
  split; [by intros w; split; [lia|auto]|].
  intros w1 w2 w3 [Hd1 Hn1] [Hd2 Hn2]. split; [lia|]. intros n [Hn|(i & ? & ->)]%Hn2.
  - apply Hn1 in Hn as [?|(i & ? & ->)]; [by left|right; exists i; split; [lia|done]].
  - right. exists i. split; [lia|done].
Qed.

Lemma same_stores_nonces w w' : same_stores w w' → nonces_drawn w w'.
Proof. intros (_ & Hd & Hn & _). split; [lia|]. rewrite Hn. auto. Qed.

Lemma same_keeps_nonces {A} (m : M PayWorld A) : keeps same_stores m → keeps nonces_drawn m.
Proof. intros Hm w w' r Hr. by eapply same_stores_nonces, Hm. Qed.

Lemma issue_nonces ttl sub : keeps nonces_drawn (nonce_issue tokens ttl sub).
Proof.
  intros w w' r. unfold nonce_issue, token_urlsafe, mbind, M_bind, modify, mret, M_ret, pay_clock.
  destruct (pw_ticks _); intros [= <- _]; (split; [cbn; lia|]); cbn; intros x [v Hv];
    apply lookup_insert_Some in Hv as [[<- _]|[_ Hv]]; eauto with lia.
Qed.

Lemma consume_nonces n sub : keeps nonces_drawn (nonce_consume n sub).
Proof.
  intros w w' r. unfold nonce_consume. destruct (pw_nonces w !! n) as [[b e]|]; [|by intros [= <- _]].
  intros Hc. transitivity (set_nonces (delete n (pw_nonces w)) w).
  - split; [done|]. cbn. intros n' [v [_ Hv]%lookup_delete_Some]. left. by exists v.
  - revert Hc. generalize (set_nonces (delete n (pw_nonces w)) w). intros w1. revert w1 w' r.
    change (keeps nonces_drawn (now ← pay_clock; _ ← lift (raise_if (e <? now) NonceReplayError);
       lift (raise_if (match b with Some b => negb (bool_decide (Some b = sub)) | None => false end) NonceReplayError))).
    apply same_keeps_nonces. keep.
Qed.

Lemma allowed_nonces s : keeps nonces_drawn (bs_allowed s).
Proof. by intros w w' r [= <- _]. Qed.
Lemma reserve_nonces s a : keeps nonces_drawn (bs_reserve s a).
Proof.
  intros w w' r. cbn. unfold budget_reserve, budget_allowed, read, mbind, M_bind, lift.
  repeat case_match; intros; simplify_eq; reflexivity.
Qed.
Lemma record_nonces s a : keeps nonces_drawn (bs_record s a).
Proof. intros w w' r [= <- _]. split; [done|]. auto. Qed.
#[local] Hint Resolve allowed_nonces reserve_nonces record_nonces issue_nonces consume_nonces : shadownet.

Lemma process_nonces url cred pop xp : keeps nonces_drawn (process settings trust_store url cred pop xp).
Proof.
  unfold process, _challenge, _settle, settle_payment.
  pay_keep; first [apply issue_nonces | apply consume_nonces | apply same_keeps_nonces; eauto using gate_keeps with shadownet].
Qed.

(** Only a settlement changes what is spent. *)
Definition same_spent : relation PayWorld := λ w w', pw_spent w' = pw_spent w.

#[local] Instance same_spent_preorder : PreOrder same_spent.
Proof. unfold same_spent. split; [done|]. intros w1 w2 w3. congruence. Qed.

Definition spends (w w' : PayWorld) (r : result PaywallResult) : Prop :=
  (∃ i o, r = Ok (Settled i o)) ∨ same_spent w w'.

Lemma same_keeps_spent {A} (m : M PayWorld A) : keeps same_stores m → keeps same_spent m.
Proof. intros Hm w w' r Hr. by apply Hm in Hr as (_ & _ & _ & ? & _). Qed.

Lemma issue_spent ttl sub : keeps same_spent (ns_issue ttl sub).
Proof.
  intros w w' r. cbn. unfold nonce_issue, token_urlsafe, mbind, M_bind, modify, mret, M_ret, pay_clock.
  by destruct (pw_ticks _); intros [= <- _].
Qed.
Lemma consume_spent n sub : keeps same_spent (ns_consume n sub).
Proof.
  intros w w' r. cbn. unfold nonce_consume. destruct (pw_nonces w !! n) as [[b e]|]; [|by intros [= <- _]].
  unfold mbind, M_bind, lift, pay_clock. repeat case_match; intros; by simplify_eq.
Qed.
Lemma allowed_spent s : keeps same_spent (bs_allowed s).
Proof. by intros w w' r [= <- _]. Qed.
Lemma reserve_spent s a : keeps same_spent (bs_reserve s a).
Proof.
  intros w w' r. cbn. unfold budget_reserve, budget_allowed, read, mbind, M_bind, lift.
  repeat case_match; intros; by simplify_eq.
Qed.
#[local] Hint Resolve issue_spent consume_spent allowed_spent reserve_spent : shadownet.

Lemma spends_absorbs w w1 w' r : same_spent w w1 → spends w1 w' r → spends w w' r.
Proof. unfold same_spent. intros ? [?|?]; [by left|right; unfold same_spent in *; congruence]. Qed.

Lemma keeps_spends (m : M PayWorld PaywallResult) : keeps same_spent m → ends spends m.
Proof. intros Hm w w' r Hr. right. by eapply Hm. Qed.

Lemma bind_spends {A} (m : M PayWorld A) (k : A → M PayWorld PaywallResult) :
  keeps same_spent m → (∀ a, ends spends (k a)) → ends spends (m ≫= k).
Proof. apply (ends_bind same_spent); [by right|apply spends_absorbs]. Qed.

Lemma try_spends {A} (m : M PayWorld A) catches h (k : A → M PayWorld PaywallResult) :
  keeps same_spent m → (∀ a, ends spends (k a)) → ends spends (try_return m catches h k).
Proof. apply (ends_try_return m catches h k same_spent spends); [by right|by right|apply spends_absorbs]. Qed.

Lemma settle_spends sub amount identity out :
  ends spends (_ ← bs_record sub amount; mret (Settled identity out)).
Proof. intros w w' r. cbn. unfold budget_record, modify, mbind, M_bind, mret, M_ret. intros [= _ <-]. left. eauto. Qed.

Lemma process_spends url cred pop xp : ends spends (process settings trust_store url cred pop xp).
Proof.
  unfold process, _challenge, _settle, settle_payment.
  repeat first
    [ apply settle_spends | apply bind_spends; [|intros ?] | apply try_spends; [|intros ?]
    | match goal with |- ends _ (match ?x with _ => _ end) => destruct x end
    | match goal with |- ends _ (if ?x then _ else _) => destruct x end
    | progress cbv zeta | apply keeps_spends, keeps_ret; apply _ ];
    first [ solve [eauto with shadownet typeclass_instances]
          | apply same_keeps_spent; eauto using gate_keeps with shadownet typeclass_instances ].
Qed.

(** ** Sequences of requests and operator commands *)

Inductive served : PayWorld → list (result PaywallResult) → PayWorld → Prop :=
  | served_nil w : served w [] w
  | served_request w w1 w' url cred pop xp r rs :
      process settings trust_store url cred pop xp w = (w1, r) → served w1 rs w' → served w (r :: rs) w'
  | served_revoke w w1 w' s u rs : budget_revoke s w = (w1, u) → served w1 rs w' → served w rs w'
  | served_restore w w1 w' s u rs : budget_restore s w = (w1, u) → served w1 rs w' → served w rs w'.

Lemma served_nonces w rs w' : served w rs w' → nonces_drawn w w'.
Proof.
  induction 1 as [|? w1 ? ? ? ? ? ? ? Hp _ IH|? w1 ? ? ? ? Hr _ IH|? w1 ? ? ? ? Hr _ IH]; [reflexivity|..].
  - etrans; [|exact IH]. by eapply process_nonces.
  - injection Hr as <- _. destruct IH as [Hd Hn]. by split.
  - injection Hr as <- _. destruct IH as [Hd Hn]. by split.
Qed.

(** The settlements of an identity. *)
Definition settled_for (s : pystr) (r : result PaywallResult) : bool :=
  match r with Ok (Settled i _) => bool_decide (si_sub i = s) | _ => false end.
Definition settlements (s : pystr) (rs : list (result PaywallResult)) : nat := length (List.filter (settled_for s) rs).

Lemma request_spent `{!PyJWTDecodeLaws} url cred pop xp w w' r s :
  process settings trust_store url cred pop xp w = (w', r) →
  spent_of w' s = spent_of w s + (if settled_for s r then st_price_micro settings else 0)
  ∧ (spent_of w s ≤ cap → spent_of w' s ≤ cap).
Proof.
  intros Hp. assert ((∃ i o, r = Ok (Settled i o)) ∨ (settled_for s r = false ∧ same_spent w w')) as [(i & o & ->)|[-> Hs]].
  { destruct (process_spends _ _ _ _ _ _ _ Hp) as [?|?]; [by left|].
    destruct r as [[| |]|]; try (by right); left; eauto. }
  - apply process_settled in Hp as (c & p & x & _ & _ & _ & [_ _ _ _ _ _ (_ & Hcap & Hs) _]).
    unfold spent_of at 1 4. rewrite Hs. cbn [settled_for]. case_bool_decide as Hi.
    + subst s. rewrite lookup_insert_eq. cbn. lia.
    + rewrite lookup_insert_ne by done. fold (spent_of w s). lia.
  - unfold spent_of. rewrite Hs. lia.
Qed.

(** ** Properties *)

(** C19: a request that settles presented a credential that verified, was not
    revoked and satisfied the trust policy; a proof of possession signed with
    the subject's key over this resource and over a nonce of the store, bound
    to this subject (or to nobody) and unexpired, and that nonce is gone
    afterwards; a payment equal to the quote, which the facilitator settled;
    the subject was not revoked and stayed within its budget, and exactly the
    price was added to what it has spent. *)
Theorem settled_request_sound `{!PyJWTDecodeLaws} url cred pop xp identity out w w' :
  process settings trust_store url cred pop xp w = (w', Ok (Settled identity out)) →
  ∃ c p x, cred = Some c ∧ pop = Some p ∧ xp = Some x ∧ settled_facts url c p x identity out w w'.
Proof. apply process_settled. Qed.

(** C20: a payment nonce settles once: whatever requests and operator commands
    come in between, after a settlement no request whose proof of possession
    carries the same nonce settles, given that the token source does not
    repeat itself. *)
Theorem nonce_single_use `{!PyJWTDecodeLaws} `{!Inj (=) (=) tokens} w0 rs0 w1 url c p x i o w2 rs w3 url' c' p' x' w4 r n :
  pw_nonces w0 = ∅ → served w0 rs0 w1 →
  process settings trust_store url c (Some p) (Some x) w1 = (w2, Ok (Settled i o)) →
  served w2 rs w3 →
  process settings trust_store url' c' (Some p') (Some x') w3 = (w4, r) →
  pop_nonce p = Ok n → pop_nonce p' = Ok n →
  ∀ i' o', r ≠ Ok (Settled i' o').
Proof.
  intros Hw0 Hs0 Hp1 Hs1 Hp2 Hn Hn' i' o' ->.
  apply process_settled in Hp1 as (? & ? & ? & _ & [= <-] & _ & Hf1).
  apply process_settled in Hp2 as (? & ? & ? & _ & [= <-] & _ & Hf2).
  destruct (sf_nonce _ _ _ _ _ _ _ _ Hf1) as (? & ? & ? & ? & ? & ? & E1 & _ & _ & Hin & _ & _ & Hdel).
  destruct (sf_nonce _ _ _ _ _ _ _ _ Hf2) as (? & ? & ? & ? & ? & ? & E2 & _ & _ & Hin2 & _).
  rewrite Hn in E1. rewrite Hn' in E2. injection E1 as <-. injection E2 as <-.
  destruct (served_nonces _ _ _ Hs0) as [Hd0 Hi0].
  destruct (Hi0 n) as [[? He]|(k & Hk & Hnk)]; [by eexists|by rewrite Hw0, lookup_empty in He|].
  destruct (served_nonces _ _ _ Hs1) as [Hd1 Hi1].
  destruct (Hi1 n) as [[? He]|(j & Hj & Hnj)]; [by eexists|by rewrite Hdel, lookup_delete_eq in He|].
  pose proof (sf_drawn _ _ _ _ _ _ _ _ Hf1). assert (k = j) by (apply (inj tokens); congruence). lia.
Qed.

(** C21: the accounts of the budget: starting from nothing spent, after any
    sequence of requests and operator commands an identity has spent the price
    times the number of its settlements, never more than the cap, and
    [remaining] is the difference. *)
Theorem budget_never_exceeded `{!PyJWTDecodeLaws} w0 rs w s :
  0 ≤ cap → pw_spent w0 = ∅ → served w0 rs w →
  spent_of w s = st_price_micro settings * Z.of_nat (settlements s rs)
  ∧ spent_of w s ≤ cap
  ∧ budget_remaining cap s w = (w, Ok (cap - st_price_micro settings * Z.of_nat (settlements s rs))).
Proof.
  intros Hcap Hw0 Hs.
  assert (spent_of w s = spent_of w0 s + st_price_micro settings * Z.of_nat (settlements s rs)
    ∧ (spent_of w0 s ≤ cap → spent_of w s ≤ cap)) as [Heq Hle].
  { clear Hw0. induction Hs as [|? w1 ? ? ? ? ? ? ? Hp _ [IH1 IH2]|? w1 ? ? ? ? Hr _ [IH1 IH2]|? w1 ? ? ? ? Hr _ [IH1 IH2]].
    - unfold settlements. cbn. lia.
    - apply (request_spent _ _ _ _ _ _ _ s) in Hp as [Hp1 Hp2]. unfold settlements in *. cbn [List.filter].
      destruct (settled_for s _); cbn [length] in *; lia.
    - injection Hr as <- _. exact (conj IH1 IH2).
    - injection Hr as <- _. exact (conj IH1 IH2). }
  assert (spent_of w0 s = 0) as Hz by (unfold spent_of; by rewrite Hw0, lookup_empty). rewrite Hz in Heq, Hle.
  split_and!; [lia|lia|]. unfold budget_remaining, read. do 2 f_equal. lia.
Qed.
End paywall_lemmas.
