(* ===== verification/PaywallHandshake.v ===== *)
(** * The x402 handshake

    [ShadowX402Client.get] against the paywall: a buyer with a valid credential
    and the subject's key is challenged, pays and is served. *)

From S2P Require Import Prelude PyStr Base64 Identifiers Jcs Dicts PyJson PyRepr JsonBytes Http Crypto Provider.
From S2P Require Import Pydantic Credential Status Trust Payment Paywall PaywallProps.

(** ** Minted proofs verify *)

Section mint_pop.
Context `{PyJWT} `{!PyJWTLaws} `{!PyJWTDecodeLaws} {W : Type}.

Lemma mint_verify_pop sk key sub url nonce issued :
  public_bytes key = ed_public sk → sub ≠ [] → wf_str sub →
  well_formed (JDict (pop_claims sub url nonce issued DEFAULT_POP_LIFETIME_SECONDS)) →
  ∃ pop, mint_pop (generate sk) sub url nonce issued DEFAULT_POP_LIFETIME_SECONDS = Ok pop ∧ pop ≠ []
    ∧ decode_unverified_claims pop = Ok (pop_claims sub url nonce issued DEFAULT_POP_LIFETIME_SECONDS)
    ∧ ∀ (clock : M W Z) resolve leeway w w1 w2 now,
        resolve sub w = (w1, Ok key) → clock w1 = (w2, Ok now) →
        issued ≤ now + leeway → now - leeway < issued + DEFAULT_POP_LIFETIME_SECONDS →
        verify_pop clock pop sub url nonce resolve leeway w = (w2, Ok tt).
Proof.
  intros Hpk Hne Hsub Hw. set (claims := pop_claims _ _ _ _ _) in *.
  assert (Hc : encodable_claims claims) by (split; [done|by left]).
  assert (Hwe : well_formed (JDict [(str "typ", JStr POP_TYP); (str "kid", JStr sub)])) by wf_dict.
  destruct (sign_jwt_spec claims (generate sk) sk POP_TYP [(str "kid", JStr sub)])
    as (pop & hd & Hsign & Hhd & Hcl & _ & Htyp & _ & _); try first [done | wf_lit | right; by eexists].
  exists pop. split_and!; [exact Hsign| |exact Hcl|].
  { intros ->. apply decode_unverified_claims_ok in Hcl.
    destruct (jwt_headers_ok POP_TYP [(str "kid", JStr sub)]) as (Hh & _); try first [done | wf_lit | right; by eexists].
    destruct (pyjwt_encode_spec claims sk _ Hc Hh) as (h & p & t & ? & ? & ? & -> & He & _).
    unfold sign_jwt in Hsign. cbn in He, Hsign. rewrite He in Hsign. unfold jws_token in Hsign.
    by destruct (_b64u h). }
  intros clock resolve leeway w w1 w2 now Hr Ht Hi Hx. unfold verify_pop.
  rewrite (M_bind_lift _ _ _ hd) by (by rewrite Hhd).
  rewrite (M_bind_lift _ _ _ tt) by (by rewrite (proj2 (get_is_str_get _ _ _) Htyp)).
  rewrite (M_bind_run _ _ _ _ _ Hr), (M_bind_run _ _ _ _ _ Ht).
  rewrite (M_bind_lift _ _ _ claims); cycle 1.
  { apply rethrow_ok, rethrow_ok. unfold public_key. rewrite Hpk, ed_load_ok. cbn [mbind result_bind].
    destruct (jwt_headers_ok POP_TYP [(str "kid", JStr sub)]) as (Hh & _); try first [done | wf_lit | right; by eexists].
    eapply (pyjwt_decode_complete now claims sk _ pop _ url issued (issued + DEFAULT_POP_LIFETIME_SECONDS));
      first [exact Hc | exact Hh | exact Hsign | done | idtac].
    - by repeat constructor.
    - intros s [= <-]. eauto. }
  assert (Hs : get_is_str (str "sub") sub claims = true) by (by apply get_is_str_get).
  assert (Hn : get_is_str (str "nonce") nonce claims = true) by (by apply get_is_str_get).
  rewrite (M_bind_lift _ _ _ tt) by (by rewrite Hs). unfold lift. by rewrite Hn.
Qed.
End mint_pop.

(** ** The environment of a handshake *)

(** Callbacks and facilitator that answer without touching the world; the
    paywall's clock is the world's. *)
Section answers.
Context `{PyJWT}.
Context (subject_key : pystr → result Ed25519KeyPair) (issuer_key : pystr → result pystr).
Context (authorized : pystr → pystr → result unit) (revoked : VerifiedCredential → result unit).
Context (settle : pystr → PaymentRequirements → result SettleOutcome).

Definition answering_env : PaywallEnv PayWorld := {|
  pe_resolve_subject_key s := lift (subject_key s);
  pe_resolve_issuer_key i := lift (issuer_key i);
  pe_check_issuer_authorized_for_org i o := lift (authorized i o);
  pe_check_revoked c := lift (revoked c);
  pe_time := pay_time;
|}.
Definition answering_facilitator : Facilitator PayWorld := {| fc_settle x r := lift (settle x r) |}.

Lemma answering_laws : @PaywallEnvLaws _ answering_env answering_facilitator.
Proof. split; intros; cbn; unfold pay_time; keep. Qed.
End answers.

(** ** Clock readings *)

(** The last time the clock will show. *)
Definition pay_horizon (w : PayWorld) : Z := pw_clock w + foldr (λ d t, Z.of_N d + t) 0 (pw_ticks w).

Definition within (lo hi : Z) (w : PayWorld) : Prop := lo ≤ pw_clock w ∧ pay_horizon w ≤ hi.

Lemma clock_within lo hi w : within lo hi w → ∃ w' t,
  pay_clock w = (w', Ok t) ∧ within lo hi w' ∧ same_stores w w' ∧ lo ≤ t ≤ hi.
Proof.
  intros [Hlo Hhi]. destruct (pay_clock w) as [w' r] eqn:E. pose proof (pay_clock_keeps _ _ _ E) as Hs.
  revert E. unfold pay_clock, within, pay_horizon in *.
  assert (Hn : ∀ l : list N, 0 ≤ foldr (λ d t, Z.of_N d + t) 0 l) by (induction l; cbn; lia).
  pose proof (Hn (pw_ticks w)). destruct (pw_ticks w) as [|d l] eqn:Hl; intros [= <- <-]; eexists _, _; split; [done| |done|];
    cbn in *; rewrite ?Hl; cbn; split_and!; try done; try lia.
  pose proof (Hn l). lia.
Qed.

Lemma time_within lo hi w : within lo hi w → ∃ w' t,
  pay_time w = (w', Ok t) ∧ within lo hi w' ∧ same_stores w w' ∧ lo / 1000000 ≤ t ≤ hi / 1000000.
Proof.
  intros (w' & t & Ht & Hw & Hs & Hb)%clock_within. exists w', (t / 1000000). unfold pay_time.
  rewrite (M_bind_run _ _ _ _ _ Ht). split_and!; [done..| |]; apply Z.div_le_mono; lia.
Qed.

(** ** The handshake *)

(** [request.headers.get] *)
Definition headers_lookup (headers : list (pystr * pystr)) (k : pystr) : option pystr :=
  snd <$> List.find (λ h, bool_decide (h.1 = k)) headers.

Lemma stub_payment_parses `{PyUnicode} `{PyFloat} `{PyJWT} (c : ShadowX402Client) req :
  well_formed (JDict (PaymentRequirements_dump req)) → wf_str (xc_payer c) →
  parse_x_payment (_stub_payment c req) =
    Ok {| pt_network := rq_network req; pt_asset := rq_asset req; pt_amount := rq_amount req;
          pt_pay_to := rq_pay_to req; pt_payer := JStr (xc_payer c) |}.
Proof.
  intros Hq Hp. apply parse_encode_payment, payment_payload_wf; cbn; rewrite <-?well_formed_str.
  - exact (well_formed_get (str "network") _ _ Hq eq_refl).
  - exact (well_formed_get (str "asset") _ _ Hq eq_refl).
  - exact (well_formed_get (str "payTo") _ _ Hq eq_refl).
  - exact (well_formed_get (str "maxAmountRequired") _ _ Hq eq_refl).
  - by apply well_formed_str.
Qed.

Lemma requirements_validate_dump `{Pydantic} req :
  PaymentRequirements_validate (PaymentRequirements_dump req) = Ok req.
Proof.
  assert (Hi : ∀ z, v_int (Some (JInt z)) = Ok z) by (intros z; unfold v_int; by rewrite pyd_int_int).
  destruct req as [sch net ass am pay res tmo]. apply rethrow_ok. unfold PaymentRequirements_dump. cbn [rq_scheme rq_network rq_asset rq_amount rq_pay_to rq_resource rq_max_timeout_seconds].
  set (d := _ :: _).
  assert (get_alias (str "maxAmountRequired") (str "amount") d = Some (JInt am)) as -> by reflexivity.
  assert (get_alias (str "maxTimeoutSeconds") (str "max_timeout_seconds") d = Some (JInt tmo)) as -> by reflexivity.
  cbn [v_default]. rewrite !Hi. reflexivity.
Qed.

Section handshake.
Context `{PyUnicode} `{PyFloat} `{Pydantic} `{PyJWT} `{!PyJWTLaws} `{!PyJWTDecodeLaws}.
Context (tokens : nat → pystr) (cap : Z) (settings : Settings) (trust_store : option TrustStore).
Context (subject_key : pystr → result Ed25519KeyPair) (issuer_key : pystr → result pystr).
Context (authorized : pystr → pystr → result unit) (revoked : VerifiedCredential → result unit).
Context (settle : pystr → PaymentRequirements → result SettleOutcome).
#[local] Instance the_env : PaywallEnv PayWorld := answering_env subject_key issuer_key authorized revoked.
#[local] Instance the_facilitator : Facilitator PayWorld := answering_facilitator settle.
#[local] Instance the_nonces : NonceStore PayWorld := in_memory_nonces tokens.
#[local] Instance the_budget : BudgetStore PayWorld := in_memory_budget cap.

(** The transport: status, headers and JSON body arrive as rendered. *)
Context (deliver : Z * pydict * list (pystr * pystr) → Response) (refusal_text : refusal → pystr) (body : option pydict).
Hypothesis deliver_status : ∀ s b hs, status_code (deliver (s, b, hs)) = s.
Hypothesis deliver_header : ∀ s b k v hs, header_get (deliver (s, b, (k, v) :: hs)) k = Some v.
Hypothesis deliver_json : ∀ s b hs, json_body (deliver (s, b, hs)) = Ok (JDict b).

Definition serve (url : pystr) (headers : list (pystr * pystr)) : M PayWorld Response :=
  let '(credential, pop, x_payment) := read_payment_headers (headers_lookup headers) in
  r ← process settings trust_store url credential pop x_payment;
  mret (deliver (to_response refusal_text r body)).

(** A buyer with a credential [vc] and the key of its subject. *)
Context (sk : ed_secret) (key : Ed25519KeyPair) (cred payer url : pystr) (vc : VerifiedCredential).
Context (req : PaymentRequirements) (out : SettleOutcome) (issued lo hi : Z).
Let sub := cp_sub (vc_payload vc).
Let client : ShadowX402Client :=
  {| xc_shadow_key := generate sk; xc_shadow_sub := sub; xc_credential := cred; xc_payer := payer |}.

Hypothesis cred_present : cred ≠ [].
Hypothesis cred_verifies : ∀ now (w : PayWorld), lo / 1000000 ≤ now ≤ hi / 1000000 →
  verify_credential now 60 (λ i, lift (issuer_key i)) (λ i o, lift (authorized i o)) cred w = (w, Ok vc).
Hypothesis cred_unrevoked : revoked vc = Ok tt.
Hypothesis cred_accepted : ∀ ts, trust_store = Some ts → satisfies_policy [vc] ts DEFAULT_REQUIRED_KINDS = Ok true.
Hypothesis sub_key : subject_key sub = Ok key ∧ public_bytes key = ed_public sk.
Hypothesis sub_text : sub ≠ [] ∧ wf_str sub.
Hypothesis quote : build_payment_requirements settings url = Ok req.
Hypothesis quote_text : well_formed (JDict (PaymentRequirements_dump req)) ∧ wf_str payer.
Hypothesis settles : settle (_stub_payment client req) req = Ok out ∧ so_success out = true.
(** The readings of the clock lie in [lo, hi]: within the nonce's time to live,
    and close enough to the buyer's clock, which shows [issued]. *)
Hypothesis nonce_lives : hi ≤ lo + st_nonce_ttl_seconds settings * 1000000.
Hypothesis clocks : issued ≤ lo / 1000000 + 60 ∧ hi / 1000000 - 60 < issued + DEFAULT_POP_LIFETIME_SECONDS.

Lemma cred_kind : lo ≤ hi → cp_kind (vc_payload vc) = ORG_AFFILIATION.
Proof.
  intros Hlh. assert (Hn : lo / 1000000 ≤ lo / 1000000 ≤ hi / 1000000) by (split; [lia|apply Z.div_le_mono; lia]).
  pose (w0 := {| pw_clock := 0; pw_ticks := []; pw_drawn := 0%nat; pw_nonces := ∅; pw_spent := ∅; pw_revoked := ∅ |}).
  destruct (verify_credential_ok _ _ _ _ _ _ _ _ (cred_verifies _ w0 Hn)) as (Hc & _).
  by apply credential_claims_ok in Hc as (? & ? & _ & _ & _ & _ & _ & ? & _).
Qed.

Lemma challenged w : within lo hi w → sub ∉ pw_revoked w → ∃ w' t,
  process settings trust_store url (Some cred) None None w = (w', Ok (Challenge req (tokens (pw_drawn w))))
  ∧ within lo hi w' ∧ lo ≤ t ∧ pw_spent w' = pw_spent w ∧ pw_revoked w' = pw_revoked w
  ∧ pw_nonces w' !! tokens (pw_drawn w) = Some (Some sub, t + st_nonce_ttl_seconds settings * 1000000).
Proof.
  intros Hw Hr. destruct (time_within _ _ _ Hw) as (w1 & now & Ht & Hw1 & (_ & Hd1 & Hn1 & Hs1 & Hr1) & Hb).
  set (w2 := {| pw_clock := pw_clock w1; pw_ticks := pw_ticks w1; pw_drawn := S (pw_drawn w1); pw_nonces := pw_nonces w1;
      pw_spent := pw_spent w1; pw_revoked := pw_revoked w1 |}).
  destruct (clock_within lo hi w2) as (w3 & t & Hc & Hw3 & (_ & Hd3 & Hn3 & Hs3 & Hr3) & Hlo); [exact Hw1|].
  exists (set_nonces (<[tokens (pw_drawn w1) := (Some sub, t + st_nonce_ttl_seconds settings * 1000000)]> (pw_nonces w3)) w3), t.
  split.
  - unfold process, _challenge. destruct cred as [|c cs] eqn:Ecred; [done|]. rewrite <-Ecred in *.
    cbn [pe_time the_env answering_env]. rewrite (M_bind_run _ _ _ _ _ Ht).
    erewrite try_return_run by exact (cred_verifies now w1 Hb). fold sub.
    rewrite (M_bind_run _ _ _ w1 true); cycle 1.
    { cbn. unfold budget_allowed, read. rewrite Hr1, bool_decide_eq_true_2; done. }
    cbn [negb pe_check_revoked the_env answering_env]. rewrite (try_return_run _ _ _ _ _ w1 tt) by (by rewrite cred_unrevoked).
    cbn [ns_issue the_nonces in_memory_nonces]. rewrite <-Hd1.
    erewrite M_bind_run; cycle 1.
    { unfold nonce_issue. erewrite M_bind_run by reflexivity. erewrite M_bind_run by exact Hc.
      erewrite M_bind_run by reflexivity. reflexivity. }
    by rewrite (M_bind_lift _ _ _ req) by exact quote.
  - subst w2. cbn in Hs3, Hr3. split_and!; [exact Hw3|lia|cbn; congruence|cbn; congruence|]. cbn. rewrite Hd1. apply lookup_insert_eq.
Qed.

(** A request that is challenged but for a revoked subject. *)
Lemma refused_challenge w : within lo hi w → sub ∈ pw_revoked w → ∃ w',
  process settings trust_store url (Some cred) None None w = (w', Ok (Refused 403 identity_revoked))
  ∧ within lo hi w' ∧ pw_spent w' = pw_spent w ∧ pw_revoked w' = pw_revoked w.
Proof.
  intros Hw Hr. destruct (time_within _ _ _ Hw) as (w1 & now & Ht & Hw1 & (_ & _ & _ & Hs1 & Hr1) & Hb).
  exists w1. split; [|done]. unfold process, _challenge. destruct cred as [|c cs] eqn:Ecred; [done|]. rewrite <-Ecred in *.
  cbn [pe_time the_env answering_env]. rewrite (M_bind_run _ _ _ _ _ Ht).
  erewrite try_return_run by exact (cred_verifies now w1 Hb). fold sub.
  rewrite (M_bind_run _ _ _ w1 false); [done|]. cbn. unfold budget_allowed, read. by rewrite Hr1, bool_decide_eq_false_2 by auto.
Qed.

(** A proof of possession over an issued nonce reaches the settlement, whatever
    the payment. *)
Lemma admitted w pop expiry nonce x (claims := pop_claims sub url nonce issued DEFAULT_POP_LIFETIME_SECONDS) :
  within lo hi w → hi ≤ expiry → pw_nonces w !! nonce = Some (Some sub, expiry) → well_formed (JDict claims) →
  mint_pop (generate sk) sub url nonce issued DEFAULT_POP_LIFETIME_SECONDS = Ok pop →
  ∃ w3, process settings trust_store url (Some cred) (Some pop) (Some x) w
        = settle_payment settings url x {| si_sub := sub; si_org := cp_org (vc_payload vc); si_credential := vc |} w3
    ∧ within lo hi w3 ∧ pw_spent w3 = pw_spent w ∧ pw_revoked w3 = pw_revoked w.
Proof.
  intros Hw Hexp Hn Hwf Hpop. destruct sub_key as [Hsk Hpk], sub_text as [Hne Hst].
  destruct (mint_verify_pop (W := PayWorld) sk key sub url nonce issued Hpk Hne Hst Hwf) as (pop' & Hp & Hpne & Hcl & Hver).
  rewrite Hpop in Hp. injection Hp as <-.
  assert (Hlh : lo ≤ hi).
  { destruct (clock_within _ _ _ Hw) as (? & ? & _ & _ & _ & ?). lia. }
  destruct (time_within _ _ _ Hw) as (w1 & now1 & Ht1 & Hw1 & Hs1 & Hb1).
  destruct (time_within _ _ _ Hw1) as (w2 & now2 & Ht2 & Hw2 & Hs2 & Hb2).
  pose proof (transitivity Hs1 Hs2) as (_ & _ & Hn2 & Hsp2 & Hrv2). clear Hs1 Hs2.
  destruct (clock_within lo hi (set_nonces (delete nonce (pw_nonces w2)) w2) Hw2)
    as (w3 & now3 & Ht3 & Hw3 & (_ & _ & _ & Hsp3 & Hrv3) & Hb3). cbn in Hsp3, Hrv3.
  pose proof (cred_kind Hlh) as Hkind. pose proof (cred_verifies now1 w1 Hb1) as Hv1.
  exists w3. split; [|split_and!; [done|congruence..]].
  unfold process, _settle. destruct cred as [|c cs] eqn:Ecred; [done|]. destruct pop as [|p ps] eqn:Epop; [done|].
  cbv zeta. rewrite <-Ecred, <-Epop in *.
  erewrite (try_return_run _ _ _ _ _ w nonce); cycle 1.
  { unfold pop_nonce. rewrite Hcl. reflexivity. }
  erewrite (try_return_run _ _ _ _ _ w2); cycle 1.
  { unfold run_identity_gate. cbn [pe_time the_env answering_env]. rewrite (M_bind_run _ _ _ _ _ Ht1).
    erewrite M_bind_run by (apply rethrowM_ok; exact Hv1).
    rewrite (M_bind_lift _ _ _ tt).
    2: { rewrite bool_decide_eq_true_2; [done|]. rewrite Hkind. by left. }
    rewrite (M_bind_run _ _ _ w1 tt) by (cbn; unfold lift, rethrowM; by rewrite cred_unrevoked).
    rewrite (M_bind_lift _ _ _ true).
    2: { destruct trust_store; [by apply cred_accepted|done]. }
    rewrite (M_bind_lift _ _ _ tt) by done. fold sub.
    rewrite (M_bind_run _ _ _ w2 tt); [reflexivity|].
    apply (Hver _ _ _ w1 w1 w2 now2); [cbn; unfold lift; by rewrite Hsk|exact Ht2|unfold DEFAULT_LEEWAY; lia..]. }
  cbn [si_sub].
  erewrite (try_return_run _ _ _ _ _ w3 tt); cycle 1.
  { cbn [ns_consume the_nonces in_memory_nonces]. unfold nonce_consume. rewrite Hn2, Hn.
    rewrite <-Hn2. rewrite (M_bind_run _ _ _ _ _ Ht3). rewrite (M_bind_lift _ _ _ tt).
    - unfold lift. by rewrite bool_decide_eq_true_2.
    - by rewrite (proj2 (Z.ltb_ge expiry now3)) by lia. }
  reflexivity.
Qed.

(** A payment on other terms is refused and nothing is spent. *)
Lemma refused_payment w x terms identity :
  parse_x_payment x = Ok terms →
  (pt_network terms, pt_asset terms, pt_amount terms, pt_pay_to terms) ≠ (rq_network req, rq_asset req, rq_amount req, rq_pay_to req) →
  settle_payment settings url x identity w = (w, Ok (Refused 402 terms_mismatch)).
Proof.
  intros Hx Hne. unfold settle_payment. rewrite (M_bind_lift _ _ _ req) by exact quote.
  unfold try_return, lift. rewrite Hx. cbn [mbind result_bind]. unfold enforce_agreed_equals_paid.
  by rewrite bool_decide_eq_false_2.
Qed.

Lemma settled w pop expiry nonce (claims := pop_claims sub url nonce issued DEFAULT_POP_LIFETIME_SECONDS) :
  within lo hi w → (sub ∉ pw_revoked w) → spent_of w sub + st_price_micro settings ≤ cap → hi ≤ expiry →
  pw_nonces w !! nonce = Some (Some sub, expiry) →
  well_formed (JDict claims) →
  mint_pop (generate sk) sub url nonce issued DEFAULT_POP_LIFETIME_SECONDS = Ok pop →
  ∃ w', process settings trust_store url (Some cred) (Some pop) (Some (_stub_payment client req)) w
        = (w', Ok (Settled {| si_sub := sub; si_org := cp_org (vc_payload vc); si_credential := vc |} out))
    ∧ within lo hi w' ∧ pw_revoked w' = pw_revoked w ∧ spent_of w' sub = spent_of w sub + st_price_micro settings.
Proof.
  intros Hw Hr Hb Hexp Hn Hwf Hpop. destruct quote_text as [Hqt Hpt], settles as [Hset Hsuc].
  destruct (admitted w pop expiry nonce (_stub_payment client req) Hw Hexp Hn Hwf Hpop) as (w3 & -> & Hw3 & Hsp3 & Hrv3).
  assert (Hamount : rq_amount req = st_price_micro settings)
    by (pose proof quote as Hq; unfold build_payment_requirements in Hq; destruct (st_pay_to settings); res_inv; done).
  eexists. split.
  - unfold settle_payment. rewrite (M_bind_lift _ _ _ req) by exact quote.
    erewrite (try_return_run _ _ _ _ _ w3 tt); cycle 1.
    { unfold lift. rewrite (stub_payment_parses client req Hqt Hpt). cbn [mbind result_bind].
      unfold enforce_agreed_equals_paid. cbn. by rewrite bool_decide_eq_true_2. }
    erewrite (try_return_run _ _ _ _ _ w3 tt); cycle 1.
    { cbn. unfold budget_reserve, budget_allowed, read. cbn. unfold mbind, M_bind, lift.
      rewrite bool_decide_eq_true_2 by (rewrite Hrv3; exact Hr). cbn.
      unfold spent_of. rewrite Hsp3. fold (spent_of w sub). rewrite Hamount. by rewrite (proj2 (Z.ltb_ge cap _)) by lia. }
    erewrite (try_return_run _ _ _ _ _ w3 out) by (unfold fc_settle, the_facilitator, answering_facilitator, lift; by rewrite Hset).
    rewrite Hsuc. cbn [negb si_sub]. erewrite M_bind_run by reflexivity. reflexivity.
  - split_and!; [exact Hw3|exact Hrv3|]. unfold spent_of. cbn. rewrite lookup_insert_eq. cbn. unfold spent_of.
    by rewrite Hsp3, Hamount.
Qed.

(** C22: the handshake completes: a buyer whose credential verifies and is
    accepted, who holds the subject's key, is not revoked and has budget left,
    gets the resource with one [get]: challenged with a nonce, it signs and
    pays, the facilitator settles, and exactly the price is added to what it
    has spent.  The buyer's clock may be off by the leeway. *)
Theorem handshake_settles (w : PayWorld) :
  within lo hi w → (sub ∉ pw_revoked w) → spent_of w sub + st_price_micro settings ≤ cap →
  well_formed (JDict (pop_claims sub url (tokens (pw_drawn w)) issued DEFAULT_POP_LIFETIME_SECONDS)) →
  ∃ w', get serve (mret issued) client (_stub_payment client) url w
        = (w', Ok (deliver (to_response refusal_text
             (Settled {| si_sub := sub; si_org := cp_org (vc_payload vc); si_credential := vc |} out) body)))
    ∧ spent_of w' sub = spent_of w sub + st_price_micro settings.
Proof.
  intros Hw Hr Hb Hwf. destruct (challenged w Hw Hr) as (w1 & t & Hch & Hw1 & Ht & Hsp & Hrv & Hn).
  destruct sub_key as [Hsk Hpk], sub_text as [Hne Hst].
  destruct (mint_verify_pop (W := PayWorld) sk key sub url (tokens (pw_drawn w)) issued Hpk Hne Hst Hwf) as (pop & Hpop & _).
  destruct (settled w1 pop (t + st_nonce_ttl_seconds settings * 1000000) (tokens (pw_drawn w)))
    as (w2 & Hset & _ & _ & Hspent); try done; [congruence|unfold spent_of in *; by rewrite Hsp|lia|].
  exists w2. split; [|rewrite Hspent; unfold spent_of; by rewrite Hsp].
  unfold get. erewrite (M_bind_run _ _ w w1); cycle 1.
  { unfold serve. cbn [read_payment_headers headers_lookup]. rewrite (M_bind_run _ _ _ _ _ Hch). reflexivity. }
  cbn [to_response]. rewrite deliver_status. cbn [negb Z.eqb Pos.eqb]. rewrite deliver_header. cbn [default].
  rewrite (M_bind_lift _ _ _ _ (deliver_json _ _ _)). rewrite (M_bind_lift _ _ _ (JDict (PaymentRequirements_dump req))) by reflexivity.
  rewrite (M_bind_lift _ _ _ req) by apply requirements_validate_dump.
  rewrite (M_bind_run _ _ w1 w1 issued) by reflexivity. rewrite (M_bind_lift _ _ _ pop) by exact Hpop.
  unfold serve. cbn [read_payment_headers headers_lookup]. by rewrite (M_bind_run _ _ _ _ _ Hset).
Qed.
End handshake.

(** ** Examples *)

#[local] Existing Instance ascii_unicode.
#[local] Existing Instance strict_pydantic.
#[local] Existing Instance toy_ed25519.
#[local] Existing Instance toy_jwt.
#[local] Existing Instance toy_jwt_laws.
#[local] Existing Instance toy_decode_laws.

(** No floats among the amounts. *)
#[local] Instance no_floats : PyFloat := {| float_to_int _ := Raise ValueError |}.

Definition pay_tokens (i : nat) : pystr := repeat 65 (S i).
#[local] Instance pay_tokens_inj : Inj (=) (=) pay_tokens.
Proof. intros i j Hij%(f_equal length). unfold pay_tokens in Hij. rewrite !repeat_length in Hij. lia. Qed.

Definition pay_settings : Settings := {|
  st_network_caip2 := str "algorand:test"; st_asset_id := 10458941; st_pay_to := Some (str "PAYEE");
  st_price_micro := 5000; st_budget_micro := 1000000; st_nonce_ttl_seconds := 300; st_pop_lifetime_seconds := 120 |}.
Definition pay_url : pystr := str "https://shop.example/data".
Definition pay_sub : pystr := cp_sub demo_payload.

(** The subject's key, and what the stub facilitator answers. *)
Definition pay_subject_key (_ : pystr) : result Ed25519KeyPair := Ok (demo_pair 78).
Definition pay_settle : pystr → PaymentRequirements → result SettleOutcome :=
  fake_settle {| ff_transaction := str "STUBTXID"; ff_success := true |}.
#[local] Instance pay_env : PaywallEnv PayWorld :=
  answering_env pay_subject_key (λ _, Ok demo_issuer_key) (λ _ _, Ok tt) (λ _, Ok tt).
#[local] Instance pay_facilitator : Facilitator PayWorld := answering_facilitator pay_settle.
#[local] Instance pay_laws : PaywallEnvLaws := answering_laws _ _ _ _ _.

Definition pay_req : PaymentRequirements := {|
  rq_scheme := str "exact"; rq_network := str "algorand:test"; rq_asset := str "10458941"; rq_amount := 5000;
  rq_pay_to := str "PAYEE"; rq_resource := pay_url; rq_max_timeout_seconds := 60 |}.
Definition pay_terms : PaidTerms := {|
  pt_network := str "algorand:test"; pt_asset := str "10458941"; pt_amount := 5000; pt_pay_to := str "PAYEE";
  pt_payer := JStr (str "BUYER") |}.
Definition pay_x : pystr := encode_x_payment pay_terms.
Definition pay_pop : pystr :=
  match mint_pop (demo_pair 78) pay_sub pay_url (pay_tokens 0) 1500 120 with Ok p => p | Raise _ => [] end.
Definition pay_out : SettleOutcome := {|
  so_success := true; so_transaction := Some (str "STUBTXID"); so_payer := JStr (str "BUYER");
  so_network := str "algorand:test"; so_error_reason := None |}.
Definition pay_identity : ShadowIdentity :=
  {| si_sub := pay_sub; si_org := str "acme.example"; si_credential := demo_verified |}.

#[local] Abbreviation pay_call pop x :=
  (@process _ _ _ _ _ PayWorld _ (nonces pay_tokens) (budget 12000) _ pay_settings None pay_url (Some demo_token) pop x).

Definition pay_w0 : PayWorld := {|
  pw_clock := 1500000000; pw_ticks := []; pw_drawn := 0; pw_nonces := ∅; pw_spent := ∅; pw_revoked := ∅ |}.
Definition pay_w1 : PayWorld := (pay_call None None pay_w0).1.
Definition pay_w2 : PayWorld := (pay_call (Some pay_pop) (Some pay_x) pay_w1).1.
Definition pay_w3 : PayWorld := (pay_call (Some pay_pop) (Some pay_x) pay_w2).1.

Lemma pay_run {A} (m : M PayWorld A) (w : PayWorld) (r : result A) : (m w).2 = r → m w = ((m w).1, r).
Proof. destruct (m w). by intros <-. Qed.

Lemma pay_challenged : pay_call None None pay_w0 = (pay_w1, Ok (Challenge pay_req (pay_tokens 0))).
Proof. unfold pay_w1. refine (pay_run (pay_call None None) pay_w0 _ _). vm_compute. reflexivity. Qed.

Lemma pay_settled : pay_call (Some pay_pop) (Some pay_x) pay_w1 = (pay_w2, Ok (Settled pay_identity pay_out)).
Proof. unfold pay_w2. refine (pay_run (pay_call (Some pay_pop) (Some pay_x)) pay_w1 _ _). vm_compute. reflexivity. Qed.

Lemma pay_again : pay_call (Some pay_pop) (Some pay_x) pay_w2 = (pay_w3, Ok (Refused 409 nonce_reused)).
Proof. unfold pay_w3. refine (pay_run (pay_call (Some pay_pop) (Some pay_x)) pay_w2 _ _). vm_compute. reflexivity. Qed.

Lemma pay_first : served pay_tokens 12000 pay_settings None pay_w0 [Ok (Challenge pay_req (pay_tokens 0))] pay_w1.
Proof. eapply served_request; [exact pay_challenged|constructor]. Qed.

Lemma settled_request_sound_witness :
  pay_call (Some pay_pop) (Some pay_x) pay_w1 = (pay_w2, Ok (Settled pay_identity pay_out))
  ∧ ∃ c p x, Some demo_token = Some c ∧ Some pay_pop = Some p ∧ Some pay_x = Some x
      ∧ settled_facts 12000 pay_settings None pay_url c p x pay_identity pay_out pay_w1 pay_w2.
Proof.
  split; [exact pay_settled|].
  exact (settled_request_sound pay_tokens 12000 pay_settings None pay_url (Some demo_token) (Some pay_pop) (Some pay_x)
           pay_identity pay_out pay_w1 pay_w2 pay_settled).
Defined.

Lemma nonce_single_use_witness :
  pay_call (Some pay_pop) (Some pay_x) pay_w2 = (pay_w3, Ok (Refused 409 nonce_reused))
  ∧ ∀ i o, Ok (Refused 409 nonce_reused) ≠ Ok (Settled i o).
Proof.
  split; [exact pay_again|].
  refine (nonce_single_use pay_tokens 12000 pay_settings None pay_w0 _ pay_w1 pay_url (Some demo_token) pay_pop pay_x
            pay_identity pay_out pay_w2 [] pay_w2 pay_url (Some demo_token) pay_pop pay_x pay_w3 _ (pay_tokens 0)
            eq_refl pay_first pay_settled _ pay_again _ _).
  - constructor.
  - vm_compute. reflexivity.
  - vm_compute. reflexivity.
Defined.

Lemma budget_never_exceeded_witness :
  spent_of pay_w2 pay_sub = 5000 ∧ budget_remaining 12000 pay_sub pay_w2 = (pay_w2, Ok 7000).
Proof.
  assert (Hs : served pay_tokens 12000 pay_settings None pay_w0
    [Ok (Challenge pay_req (pay_tokens 0)); Ok (Settled pay_identity pay_out)] pay_w2).
  { eapply served_request; [exact pay_challenged|]. eapply served_request; [exact pay_settled|constructor]. }
  destruct (budget_never_exceeded pay_tokens 12000 pay_settings None pay_w0 _ pay_w2 pay_sub ltac:(lia) eq_refl Hs)
    as (H1 & _ & H2).
  split; [exact H1|exact H2].
Defined.

(** A transport that hands the rendered response over. *)
Definition pay_deliver (r : Z * pydict * list (pystr * pystr)) : Response := {|
  status_code := r.1.1; header_get := headers_lookup r.2; text := []; content := []; json_body := Ok (JDict r.1.2) |}.

Lemma pay_deliver_header s b k v hs : header_get (pay_deliver (s, b, (k, v) :: hs)) k = Some v.
Proof. cbn. unfold headers_lookup. cbn. by rewrite bool_decide_eq_true_2. Qed.

(** A clock that advances by 0.1 s at each reading. *)
Definition pay_v0 : PayWorld := {|
  pw_clock := 1500000000; pw_ticks := [100000; 100000; 100000]%N; pw_drawn := 0; pw_nonces := ∅; pw_spent := ∅;
  pw_revoked := ∅ |}.

Definition pay_client : ShadowX402Client := {|
  xc_shadow_key := generate (78 : @ed_secret toy_ed25519); xc_shadow_sub := pay_sub; xc_credential := demo_token;
  xc_payer := str "BUYER" |}.

Lemma pay_credential_verifies now (w : PayWorld) : 1500000000 / 1000000 ≤ now ≤ 1500300000 / 1000000 →
  verify_credential now 60 (λ _, lift (Ok demo_issuer_key)) (λ _ _, lift (Ok tt)) demo_token w = (w, Ok demo_verified).
Proof.
  intros Hn. assert (now = 1500) as -> by (revert Hn; change (1500000000 / 1000000) with 1500;
    change (1500300000 / 1000000) with 1500; lia).
  vm_compute. reflexivity.
Qed.

Lemma handshake_settles_witness : ∃ w',
  get (serve pay_tokens 12000 pay_settings None pay_subject_key (λ _, Ok demo_issuer_key) (λ _ _, Ok tt) (λ _, Ok tt)
         pay_settle pay_deliver (λ _, []) None) (mret 1499) pay_client (_stub_payment pay_client) pay_url pay_v0
  = (w', Ok (pay_deliver (to_response (λ _, []) (Settled pay_identity pay_out) None)))
  ∧ spent_of w' pay_sub = 5000.
Proof.
  refine (handshake_settles pay_tokens 12000 pay_settings None pay_subject_key (λ _, Ok demo_issuer_key) (λ _ _, Ok tt)
    (λ _, Ok tt) pay_settle pay_deliver (λ _, []) None (λ _ _ _, eq_refl) pay_deliver_header (λ _ _ _, eq_refl)
    (78 : @ed_secret toy_ed25519) (demo_pair 78) demo_token (str "BUYER") pay_url demo_verified pay_req pay_out
    1499 1500000000 1500300000 _ pay_credential_verifies eq_refl _ _ _ _ _ _ _ _ pay_v0 _ _ _ _).
  - vm_compute. discriminate.
  - intros ts. discriminate.
  - split; reflexivity.
  - split; [vm_compute; discriminate|]. apply wf_str_ascii, forallb_Forall. vm_compute. reflexivity.
  - vm_compute. reflexivity.
  - split; [apply well_formed_dec; vm_compute; reflexivity|]. apply wf_str_ascii, forallb_Forall. vm_compute. reflexivity.
  - split; [|reflexivity]. vm_compute. reflexivity.
  - vm_compute. discriminate.
  - split; vm_compute; [discriminate|reflexivity].
  - split; vm_compute; discriminate.
  - intros Hx. set_solver.
  - vm_compute. discriminate.
  - apply well_formed_dec. vm_compute. reflexivity.
Defined.

Lemma x_payment_roundtrip_example : parse_x_payment (encode_x_payment pay_terms) = Ok pay_terms.
Proof.
  apply (x_payment_roundtrip pay_terms); try (apply wf_str_ascii, forallb_Forall; vm_compute; reflexivity);
    apply well_formed_dec; vm_compute; reflexivity.
Qed.

(** [reserve] only looks: two requests that interleave at the facilitator, each
    within the budget, together spend more than the cap. *)
Lemma interleaved_reservations_overspend :
  (_ ← budget_reserve 5000 pay_sub 5000; _ ← budget_reserve 5000 pay_sub 5000;
   _ ← budget_record pay_sub 5000; _ ← budget_record pay_sub 5000;
   read (λ w, 5000 <? spent_of w pay_sub)) pay_w0
  = (set_spent (<[pay_sub := 10000]> ∅) pay_w0, Ok true).
Proof. vm_compute. reflexivity. Qed.
