(* ===== verification/Mcp.v ===== *)
(** * The MCP tool models — [shadownet/mcp/tools.py], [notifications.py], [intents.py]

    The input and output models of the sidecar's tools and the models of its
    notifications: what [model_validate] accepts and what [model_dump(by_alias=True,
    exclude_none=True)] writes.  A model is an instance of [ToolModel]; that it
    reads back what it writes is the class [ToolModelLaws], against which the
    client of [McpClient] is proved. *)

From S2P Require Import Prelude PyStr Jcs Dicts Pydantic Credential Envelope A2A.

(** ** What the models share *)

(** Pydantic's lax conversion to [bool]. *)
Class PydanticBool : Type := {
  pyd_bool : json → option bool;
  (** A boolean is itself. *)
  pyd_bool_bool b : pyd_bool (JBool b) = Some b;
}.
Definition strict_bool : PydanticBool := {|
  pyd_bool v := match v with JBool b => Some b | _ => None end;
  pyd_bool_bool _ := eq_refl;
|}.

(** Field names as (alias, attribute). *)
Abbreviation spec := (list (pystr * pystr)).

(** The keys of [d] that fields take. *)
Definition taken_keys (s : spec) (d : pydict) : list pystr := map (λ an, taken an.1 an.2 d) s.

(** [extra="forbid"] *)
Definition forbid {A} (s : spec) (d : pydict) (r : result A) : result A :=
  Ok (λ a _, a) <*> r <*> (match extras (taken_keys s d) d with [] => Ok tt | _ => invalid end).

(** [exclude_none] *)
Definition dump_fields (l : list (pystr * option json)) : pydict := concat (map (λ kv, some_entry kv.1 kv.2) l).

Class ToolModel (A : Type) : Type := {
  tm_name : pystr;
  tm_fields : pydict → result A;
  tm_dump : A → pydict;
}.
Arguments tm_name A {_}.

(** A nested model, and a model on its own. *)
Definition v_model `{ToolModel A} (v : option json) : result A :=
  match v with Some (JDict d) => tm_fields d | _ => invalid end.
Definition tm_validate `{Pydantic} `{ToolModel A} (v : json) : result A :=
  match v with JDict d => model_validate (tm_name A) d (tm_fields d) | _ => invalid end.

(** [X = default] *)
Definition v_default {A} (a : A) (f : option json → result A) (v : option json) : result A :=
  match v with None => Ok a | Some v => f (Some v) end.

(** [Literal[...]] of strings, and [Literal[True]]. *)
Definition v_literal (words : list pystr) (v : option json) : result pystr :=
  s ← v_str v; if bool_decide (s ∈ words) then Ok s else invalid.
Definition v_true (v : option json) : result bool :=
  match v with Some (JBool true) => Ok true | _ => invalid end.

(** [Field(max_length=n)] *)
Definition v_max_length (n : Z) (v : option json) : result pystr :=
  s ← v_str v; if py_len s <=? n then Ok s else invalid.

(** [bool] and [int] *)
Definition v_bool `{PydanticBool} (v : option json) : result bool :=
  match v with Some v => of_option (ValidationError []) (pyd_bool v) | None => invalid end.
Definition v_int `{Pydantic} (v : option json) : result Z :=
  match v with Some v => of_option (ValidationError []) (pyd_int v) | None => invalid end.

(** [dict[str, tuple[str, ...]]] *)
Definition v_dict_strs (v : option json) : result (list (pystr * list pystr)) :=
  d ← v_dict v; mapM (λ kv, l ← v_strs (Some kv.2); Ok (kv.1, l)) d.

Definition j_strs (l : list pystr) : json := JList (map JStr l).
Definition j_models `{ToolModel A} (l : list A) : json := JList (map (λ a, JDict (tm_dump a)) l).
Definition v_models `{ToolModel A} (v : option json) : result (list A) := v_list (λ v, v_model (Some v)) v.

(** ** The models *)

Section models.
Context `{Pydantic} `{PydanticBool}.

(** Envelope [body] slot. *)
Record BodySlot := {
  bs_text : option pystr;
  bs_intent : option pystr;
  bs_data : option pydict;
  bs_extra : pydict;
}.
Definition BodySlot_spec : spec :=
  [(str "text", str "text"); (str "intent", str "intent"); (str "data", str "data")].
Definition BodySlot_fields (d : pydict) : result BodySlot :=
  Ok (λ text intent data, {| bs_text := text; bs_intent := intent; bs_data := data; bs_extra := extras (taken_keys BodySlot_spec d) d |})
    <*> v_optional v_str (dict_get (str "text") d)
    <*> v_optional v_str (dict_get (str "intent") d)
    <*> v_optional v_dict (dict_get (str "data") d).
Definition BodySlot_dump (m : BodySlot) : pydict :=
  dump_fields
    [(str "text", JStr <$> bs_text m);
     (str "intent", JStr <$> bs_intent m);
     (str "data", JDict <$> bs_data m)]
  ++ not_none (bs_extra m).
#[global] Instance BodySlot_model : ToolModel BodySlot :=
  {| tm_name := str "BodySlot"; tm_fields := BodySlot_fields; tm_dump := BodySlot_dump |}.

Record CredentialSummary := {
  cs_kind : pystr;
  cs_issuer : pystr;
  cs_org : pystr;
  cs_expires_at : pystr;
}.
Definition CredentialSummary_spec : spec :=
  [(str "kind", str "kind"); (str "issuer", str "issuer"); (str "org", str "org"); (str "expiresAt", str "expires_at")].
Definition CredentialSummary_fields (d : pydict) : result CredentialSummary :=
  forbid CredentialSummary_spec d
   (Ok (λ kind issuer org expires_at, {| cs_kind := kind; cs_issuer := issuer; cs_org := org; cs_expires_at := expires_at |})
    <*> v_default (str "org_affiliation") (v_literal [str "org_affiliation"]) (dict_get (str "kind") d)
    <*> v_str (dict_get (str "issuer") d)
    <*> v_str (dict_get (str "org") d)
    <*> v_str (get_alias (str "expiresAt") (str "expires_at") d)).
Definition CredentialSummary_dump (m : CredentialSummary) : pydict :=
  dump_fields
    [(str "kind", Some (JStr (cs_kind m)));
     (str "issuer", Some (JStr (cs_issuer m)));
     (str "org", Some (JStr (cs_org m)));
     (str "expiresAt", Some (JStr (cs_expires_at m)))].
#[global] Instance CredentialSummary_model : ToolModel CredentialSummary :=
  {| tm_name := str "CredentialSummary"; tm_fields := CredentialSummary_fields; tm_dump := CredentialSummary_dump |}.

(** Local-only metadata. *)
Record ContactProfile := {
  cp_notes : option pystr;
  cp_priority : option pystr;
  cp_tags : list pystr;
  cp_expires_at : option pystr;
}.
Definition ContactProfile_spec : spec :=
  [(str "notes", str "notes"); (str "priority", str "priority"); (str "tags", str "tags"); (str "expiresAt", str "expires_at")].
Definition ContactProfile_fields (d : pydict) : result ContactProfile :=
  forbid ContactProfile_spec d
   (Ok (λ notes priority tags expires_at, {| cp_notes := notes; cp_priority := priority; cp_tags := tags; cp_expires_at := expires_at |})
    <*> v_optional (v_max_length 4096) (dict_get (str "notes") d)
    <*> v_optional (v_literal [str "low"; str "normal"; str "high"]) (dict_get (str "priority") d)
    <*> v_strs (dict_get (str "tags") d)
    <*> v_optional v_str (get_alias (str "expiresAt") (str "expires_at") d)).
Definition ContactProfile_dump (m : ContactProfile) : pydict :=
  dump_fields
    [(str "notes", JStr <$> cp_notes m);
     (str "priority", JStr <$> cp_priority m);
     (str "tags", Some (j_strs (cp_tags m)));
     (str "expiresAt", JStr <$> cp_expires_at m)].
#[global] Instance ContactProfile_model : ToolModel ContactProfile :=
  {| tm_name := str "ContactProfile"; tm_fields := ContactProfile_fields; tm_dump := ContactProfile_dump |}.

Record ContactSummary := {
  cm_shadowname : pystr;
  cm_display_name : option pystr;
  cm_grants : list pystr;
  cm_last_seen : option pystr;
}.
Definition ContactSummary_spec : spec :=
  [(str "shadowname", str "shadowname"); (str "displayName", str "display_name"); (str "grants", str "grants"); (str "lastSeen", str "last_seen")].
Definition ContactSummary_fields (d : pydict) : result ContactSummary :=
  forbid ContactSummary_spec d
   (Ok (λ shadowname display_name grants last_seen, {| cm_shadowname := shadowname; cm_display_name := display_name; cm_grants := grants; cm_last_seen := last_seen |})
    <*> v_str (dict_get (str "shadowname") d)
    <*> v_optional v_str (get_alias (str "displayName") (str "display_name") d)
    <*> v_strs (dict_get (str "grants") d)
    <*> v_optional v_str (get_alias (str "lastSeen") (str "last_seen") d)).
Definition ContactSummary_dump (m : ContactSummary) : pydict :=
  dump_fields
    [(str "shadowname", Some (JStr (cm_shadowname m)));
     (str "displayName", JStr <$> cm_display_name m);
     (str "grants", Some (j_strs (cm_grants m)));
     (str "lastSeen", JStr <$> cm_last_seen m)].
#[global] Instance ContactSummary_model : ToolModel ContactSummary :=
  {| tm_name := str "ContactSummary"; tm_fields := ContactSummary_fields; tm_dump := ContactSummary_dump |}.

Record IdentityOutput := {
  io_shadowname : pystr;
  io_pk : pystr;
  io_credentials : list CredentialSummary;
}.
Definition IdentityOutput_spec : spec :=
  [(str "shadowname", str "shadowname"); (str "pk", str "pk"); (str "credentials", str "credentials")].
Definition IdentityOutput_fields (d : pydict) : result IdentityOutput :=
  forbid IdentityOutput_spec d
   (Ok (λ shadowname pk credentials, {| io_shadowname := shadowname; io_pk := pk; io_credentials := credentials |})
    <*> v_str (dict_get (str "shadowname") d)
    <*> v_str (dict_get (str "pk") d)
    <*> v_models (dict_get (str "credentials") d)).
Definition IdentityOutput_dump (m : IdentityOutput) : pydict :=
  dump_fields
    [(str "shadowname", Some (JStr (io_shadowname m)));
     (str "pk", Some (JStr (io_pk m)));
     (str "credentials", Some (j_models (io_credentials m)))].
#[global] Instance IdentityOutput_model : ToolModel IdentityOutput :=
  {| tm_name := str "IdentityOutput"; tm_fields := IdentityOutput_fields; tm_dump := IdentityOutput_dump |}.

Record ResolveInput := {
  ri_name : pystr;
}.
Definition ResolveInput_spec : spec :=
  [(str "name", str "name")].
Definition ResolveInput_fields (d : pydict) : result ResolveInput :=
  forbid ResolveInput_spec d
   (Ok (λ name, {| ri_name := name |})
    <*> v_str (dict_get (str "name") d)).
Definition ResolveInput_dump (m : ResolveInput) : pydict :=
  dump_fields
    [(str "name", Some (JStr (ri_name m)))].
#[global] Instance ResolveInput_model : ToolModel ResolveInput :=
  {| tm_name := str "ResolveInput"; tm_fields := ResolveInput_fields; tm_dump := ResolveInput_dump |}.

Record ResolveOutput := {
  ro_shadowname : pystr;
  ro_pk : pystr;
  ro_endpoint : pystr;
}.
Definition ResolveOutput_spec : spec :=
  [(str "shadowname", str "shadowname"); (str "pk", str "pk"); (str "endpoint", str "endpoint")].
Definition ResolveOutput_fields (d : pydict) : result ResolveOutput :=
  forbid ResolveOutput_spec d
   (Ok (λ shadowname pk endpoint, {| ro_shadowname := shadowname; ro_pk := pk; ro_endpoint := endpoint |})
    <*> v_str (dict_get (str "shadowname") d)
    <*> v_str (dict_get (str "pk") d)
    <*> v_str (dict_get (str "endpoint") d)).
Definition ResolveOutput_dump (m : ResolveOutput) : pydict :=
  dump_fields
    [(str "shadowname", Some (JStr (ro_shadowname m)));
     (str "pk", Some (JStr (ro_pk m)));
     (str "endpoint", Some (JStr (ro_endpoint m)))].
#[global] Instance ResolveOutput_model : ToolModel ResolveOutput :=
  {| tm_name := str "ResolveOutput"; tm_fields := ResolveOutput_fields; tm_dump := ResolveOutput_dump |}.

Record ContactsInput := {
  ci_query : option pystr;
}.
Definition ContactsInput_spec : spec :=
  [(str "query", str "query")].
Definition ContactsInput_fields (d : pydict) : result ContactsInput :=
  forbid ContactsInput_spec d
   (Ok (λ query, {| ci_query := query |})
    <*> v_optional v_str (dict_get (str "query") d)).
Definition ContactsInput_dump (m : ContactsInput) : pydict :=
  dump_fields
    [(str "query", JStr <$> ci_query m)].
#[global] Instance ContactsInput_model : ToolModel ContactsInput :=
  {| tm_name := str "ContactsInput"; tm_fields := ContactsInput_fields; tm_dump := ContactsInput_dump |}.

Record ContactsOutput := {
  co_contacts : list ContactSummary;
}.
Definition ContactsOutput_spec : spec :=
  [(str "contacts", str "contacts")].
Definition ContactsOutput_fields (d : pydict) : result ContactsOutput :=
  forbid ContactsOutput_spec d
   (Ok (λ contacts, {| co_contacts := contacts |})
    <*> v_models (dict_get (str "contacts") d)).
Definition ContactsOutput_dump (m : ContactsOutput) : pydict :=
  dump_fields
    [(str "contacts", Some (j_models (co_contacts m)))].
#[global] Instance ContactsOutput_model : ToolModel ContactsOutput :=
  {| tm_name := str "ContactsOutput"; tm_fields := ContactsOutput_fields; tm_dump := ContactsOutput_dump |}.

Record ContactDetailInput := {
  cdi_name : pystr;
}.
Definition ContactDetailInput_spec : spec :=
  [(str "name", str "name")].
Definition ContactDetailInput_fields (d : pydict) : result ContactDetailInput :=
  forbid ContactDetailInput_spec d
   (Ok (λ name, {| cdi_name := name |})
    <*> v_str (dict_get (str "name") d)).
Definition ContactDetailInput_dump (m : ContactDetailInput) : pydict :=
  dump_fields
    [(str "name", Some (JStr (cdi_name m)))].
#[global] Instance ContactDetailInput_model : ToolModel ContactDetailInput :=
  {| tm_name := str "ContactDetailInput"; tm_fields := ContactDetailInput_fields; tm_dump := ContactDetailInput_dump |}.

Record ContactDetailOutput := {
  cdo_shadowname : pystr;
  cdo_display_name : option pystr;
  cdo_pk : pystr;
  cdo_endpoint : pystr;
  cdo_grants : list pystr;
  cdo_credentials : list CredentialSummary;
  cdo_profile : option ContactProfile;
  cdo_added_at : pystr;
  cdo_last_seen : option pystr;
}.
Definition ContactDetailOutput_spec : spec :=
  [(str "shadowname", str "shadowname"); (str "displayName", str "display_name"); (str "pk", str "pk"); (str "endpoint", str "endpoint"); (str "grants", str "grants"); (str "credentials", str "credentials"); (str "profile", str "profile"); (str "addedAt", str "added_at"); (str "lastSeen", str "last_seen")].
Definition ContactDetailOutput_fields (d : pydict) : result ContactDetailOutput :=
  forbid ContactDetailOutput_spec d
   (Ok (λ shadowname display_name pk endpoint grants credentials profile added_at last_seen, {| cdo_shadowname := shadowname; cdo_display_name := display_name; cdo_pk := pk; cdo_endpoint := endpoint; cdo_grants := grants; cdo_credentials := credentials; cdo_profile := profile; cdo_added_at := added_at; cdo_last_seen := last_seen |})
    <*> v_str (dict_get (str "shadowname") d)
    <*> v_optional v_str (get_alias (str "displayName") (str "display_name") d)
    <*> v_str (dict_get (str "pk") d)
    <*> v_str (dict_get (str "endpoint") d)
    <*> v_strs (dict_get (str "grants") d)
    <*> v_models (dict_get (str "credentials") d)
    <*> v_optional v_model (dict_get (str "profile") d)
    <*> v_str (get_alias (str "addedAt") (str "added_at") d)
    <*> v_optional v_str (get_alias (str "lastSeen") (str "last_seen") d)).
Definition ContactDetailOutput_dump (m : ContactDetailOutput) : pydict :=
  dump_fields
    [(str "shadowname", Some (JStr (cdo_shadowname m)));
     (str "displayName", JStr <$> cdo_display_name m);
     (str "pk", Some (JStr (cdo_pk m)));
     (str "endpoint", Some (JStr (cdo_endpoint m)));
     (str "grants", Some (j_strs (cdo_grants m)));
     (str "credentials", Some (j_models (cdo_credentials m)));
     (str "profile", (λ m, JDict (tm_dump m)) <$> cdo_profile m);
     (str "addedAt", Some (JStr (cdo_added_at m)));
     (str "lastSeen", JStr <$> cdo_last_seen m)].
#[global] Instance ContactDetailOutput_model : ToolModel ContactDetailOutput :=
  {| tm_name := str "ContactDetailOutput"; tm_fields := ContactDetailOutput_fields; tm_dump := ContactDetailOutput_dump |}.

Record AddContactInput := {
  aci_name : pystr;
  aci_display_name : option pystr;
  aci_grants : list pystr;
  aci_profile : option ContactProfile;
}.
Definition AddContactInput_spec : spec :=
  [(str "name", str "name"); (str "displayName", str "display_name"); (str "grants", str "grants"); (str "profile", str "profile")].
Definition AddContactInput_fields (d : pydict) : result AddContactInput :=
  forbid AddContactInput_spec d
   (Ok (λ name display_name grants profile, {| aci_name := name; aci_display_name := display_name; aci_grants := grants; aci_profile := profile |})
    <*> v_str (dict_get (str "name") d)
    <*> v_optional v_str (get_alias (str "displayName") (str "display_name") d)
    <*> v_default [str "messaging"] v_strs (dict_get (str "grants") d)
    <*> v_optional v_model (dict_get (str "profile") d)).
Definition AddContactInput_dump (m : AddContactInput) : pydict :=
  dump_fields
    [(str "name", Some (JStr (aci_name m)));
     (str "displayName", JStr <$> aci_display_name m);
     (str "grants", Some (j_strs (aci_grants m)));
     (str "profile", (λ m, JDict (tm_dump m)) <$> aci_profile m)].
#[global] Instance AddContactInput_model : ToolModel AddContactInput :=
  {| tm_name := str "AddContactInput"; tm_fields := AddContactInput_fields; tm_dump := AddContactInput_dump |}.

Record AddContactOutput := {
  aco_shadowname : pystr;
  aco_trust_warning : option (list (pystr * list pystr));
}.
Definition AddContactOutput_spec : spec :=
  [(str "shadowname", str "shadowname"); (str "trustWarning", str "trust_warning")].
Definition AddContactOutput_fields (d : pydict) : result AddContactOutput :=
  forbid AddContactOutput_spec d
   (Ok (λ shadowname trust_warning, {| aco_shadowname := shadowname; aco_trust_warning := trust_warning |})
    <*> v_str (dict_get (str "shadowname") d)
    <*> v_optional v_dict_strs (get_alias (str "trustWarning") (str "trust_warning") d)).
Definition AddContactOutput_dump (m : AddContactOutput) : pydict :=
  dump_fields
    [(str "shadowname", Some (JStr (aco_shadowname m)));
     (str "trustWarning", (λ d, JDict (map (λ kv, (kv.1, j_strs kv.2)) d)) <$> aco_trust_warning m)].
#[global] Instance AddContactOutput_model : ToolModel AddContactOutput :=
  {| tm_name := str "AddContactOutput"; tm_fields := AddContactOutput_fields; tm_dump := AddContactOutput_dump |}.

Record GrantInput := {
  gi_name : pystr;
  gi_grant : pystr;
  gi_allowed : bool;
}.
Definition GrantInput_spec : spec :=
  [(str "name", str "name"); (str "grant", str "grant"); (str "allowed", str "allowed")].
Definition GrantInput_fields (d : pydict) : result GrantInput :=
  forbid GrantInput_spec d
   (Ok (λ name grant allowed, {| gi_name := name; gi_grant := grant; gi_allowed := allowed |})
    <*> v_str (dict_get (str "name") d)
    <*> v_str (dict_get (str "grant") d)
    <*> v_bool (dict_get (str "allowed") d)).
Definition GrantInput_dump (m : GrantInput) : pydict :=
  dump_fields
    [(str "name", Some (JStr (gi_name m)));
     (str "grant", Some (JStr (gi_grant m)));
     (str "allowed", Some (JBool (gi_allowed m)))].
#[global] Instance GrantInput_model : ToolModel GrantInput :=
  {| tm_name := str "GrantInput"; tm_fields := GrantInput_fields; tm_dump := GrantInput_dump |}.

Record GrantOutput := {
  go_ok : bool;
}.
Definition GrantOutput_spec : spec :=
  [(str "ok", str "ok")].
Definition GrantOutput_fields (d : pydict) : result GrantOutput :=
  forbid GrantOutput_spec d
   (Ok (λ ok, {| go_ok := ok |})
    <*> v_default true v_true (dict_get (str "ok") d)).
Definition GrantOutput_dump (m : GrantOutput) : pydict :=
  dump_fields
    [(str "ok", Some (JBool (go_ok m)))].
#[global] Instance GrantOutput_model : ToolModel GrantOutput :=
  {| tm_name := str "GrantOutput"; tm_fields := GrantOutput_fields; tm_dump := GrantOutput_dump |}.

Record SetContactProfileInput := {
  spi_name : pystr;
  spi_profile : ContactProfile;
}.
Definition SetContactProfileInput_spec : spec :=
  [(str "name", str "name"); (str "profile", str "profile")].
Definition SetContactProfileInput_fields (d : pydict) : result SetContactProfileInput :=
  forbid SetContactProfileInput_spec d
   (Ok (λ name profile, {| spi_name := name; spi_profile := profile |})
    <*> v_str (dict_get (str "name") d)
    <*> v_model (dict_get (str "profile") d)).
Definition SetContactProfileInput_dump (m : SetContactProfileInput) : pydict :=
  dump_fields
    [(str "name", Some (JStr (spi_name m)));
     (str "profile", Some (JDict (tm_dump (spi_profile m))))].
#[global] Instance SetContactProfileInput_model : ToolModel SetContactProfileInput :=
  {| tm_name := str "SetContactProfileInput"; tm_fields := SetContactProfileInput_fields; tm_dump := SetContactProfileInput_dump |}.

Record SetContactProfileOutput := {
  spo_ok : bool;
}.
Definition SetContactProfileOutput_spec : spec :=
  [(str "ok", str "ok")].
Definition SetContactProfileOutput_fields (d : pydict) : result SetContactProfileOutput :=
  forbid SetContactProfileOutput_spec d
   (Ok (λ ok, {| spo_ok := ok |})
    <*> v_default true v_true (dict_get (str "ok") d)).
Definition SetContactProfileOutput_dump (m : SetContactProfileOutput) : pydict :=
  dump_fields
    [(str "ok", Some (JBool (spo_ok m)))].
#[global] Instance SetContactProfileOutput_model : ToolModel SetContactProfileOutput :=
  {| tm_name := str "SetContactProfileOutput"; tm_fields := SetContactProfileOutput_fields; tm_dump := SetContactProfileOutput_dump |}.

Record SendInput := {
  si_to : pystr;
  si_body : BodySlot;
  si_context_id : option pystr;
}.
Definition SendInput_spec : spec :=
  [(str "to", str "to"); (str "body", str "body"); (str "contextId", str "context_id")].
Definition SendInput_fields (d : pydict) : result SendInput :=
  forbid SendInput_spec d
   (Ok (λ to body context_id, {| si_to := to; si_body := body; si_context_id := context_id |})
    <*> v_str (dict_get (str "to") d)
    <*> v_model (dict_get (str "body") d)
    <*> v_optional v_str (get_alias (str "contextId") (str "context_id") d)).
Definition SendInput_dump (m : SendInput) : pydict :=
  dump_fields
    [(str "to", Some (JStr (si_to m)));
     (str "body", Some (JDict (tm_dump (si_body m))));
     (str "contextId", JStr <$> si_context_id m)].
#[global] Instance SendInput_model : ToolModel SendInput :=
  {| tm_name := str "SendInput"; tm_fields := SendInput_fields; tm_dump := SendInput_dump |}.

Record SendOutput := {
  so_message_id : pystr;
  so_context_id : pystr;
  so_status : pystr;
  so_error : option pystr;
}.
Definition SendOutput_spec : spec :=
  [(str "messageId", str "message_id"); (str "contextId", str "context_id"); (str "status", str "status"); (str "error", str "error")].
Definition SendOutput_fields (d : pydict) : result SendOutput :=
  forbid SendOutput_spec d
   (Ok (λ message_id context_id status error, {| so_message_id := message_id; so_context_id := context_id; so_status := status; so_error := error |})
    <*> v_str (get_alias (str "messageId") (str "message_id") d)
    <*> v_str (get_alias (str "contextId") (str "context_id") d)
    <*> v_literal [str "accepted"; str "rejected"] (dict_get (str "status") d)
    <*> v_optional v_str (dict_get (str "error") d)).
Definition SendOutput_dump (m : SendOutput) : pydict :=
  dump_fields
    [(str "messageId", Some (JStr (so_message_id m)));
     (str "contextId", Some (JStr (so_context_id m)));
     (str "status", Some (JStr (so_status m)));
     (str "error", JStr <$> so_error m)].
#[global] Instance SendOutput_model : ToolModel SendOutput :=
  {| tm_name := str "SendOutput"; tm_fields := SendOutput_fields; tm_dump := SendOutput_dump |}.

Record RespondInput := {
  rsi_context_id : pystr;
  rsi_body : BodySlot;
}.
Definition RespondInput_spec : spec :=
  [(str "contextId", str "context_id"); (str "body", str "body")].
Definition RespondInput_fields (d : pydict) : result RespondInput :=
  forbid RespondInput_spec d
   (Ok (λ context_id body, {| rsi_context_id := context_id; rsi_body := body |})
    <*> v_str (get_alias (str "contextId") (str "context_id") d)
    <*> v_model (dict_get (str "body") d)).
Definition RespondInput_dump (m : RespondInput) : pydict :=
  dump_fields
    [(str "contextId", Some (JStr (rsi_context_id m)));
     (str "body", Some (JDict (tm_dump (rsi_body m))))].
#[global] Instance RespondInput_model : ToolModel RespondInput :=
  {| tm_name := str "RespondInput"; tm_fields := RespondInput_fields; tm_dump := RespondInput_dump |}.

Record RespondOutput := {
  rso_message_id : pystr;
  rso_status : pystr;
  rso_error : option pystr;
}.
Definition RespondOutput_spec : spec :=
  [(str "messageId", str "message_id"); (str "status", str "status"); (str "error", str "error")].
Definition RespondOutput_fields (d : pydict) : result RespondOutput :=
  forbid RespondOutput_spec d
   (Ok (λ message_id status error, {| rso_message_id := message_id; rso_status := status; rso_error := error |})
    <*> v_str (get_alias (str "messageId") (str "message_id") d)
    <*> v_literal [str "accepted"; str "rejected"] (dict_get (str "status") d)
    <*> v_optional v_str (dict_get (str "error") d)).
Definition RespondOutput_dump (m : RespondOutput) : pydict :=
  dump_fields
    [(str "messageId", Some (JStr (rso_message_id m)));
     (str "status", Some (JStr (rso_status m)));
     (str "error", JStr <$> rso_error m)].
#[global] Instance RespondOutput_model : ToolModel RespondOutput :=
  {| tm_name := str "RespondOutput"; tm_fields := RespondOutput_fields; tm_dump := RespondOutput_dump |}.

Record InboxInput := {
  ii_since : option pystr;
  ii_contact : option pystr;
  ii_intent : option pystr;
  ii_include_review : bool;
  ii_limit : Z;
}.
Definition InboxInput_spec : spec :=
  [(str "since", str "since"); (str "contact", str "contact"); (str "intent", str "intent"); (str "includeReview", str "include_review"); (str "limit", str "limit")].
Definition InboxInput_fields (d : pydict) : result InboxInput :=
  forbid InboxInput_spec d
   (Ok (λ since contact intent include_review limit, {| ii_since := since; ii_contact := contact; ii_intent := intent; ii_include_review := include_review; ii_limit := limit |})
    <*> v_optional v_str (dict_get (str "since") d)
    <*> v_optional v_str (dict_get (str "contact") d)
    <*> v_optional v_str (dict_get (str "intent") d)
    <*> v_default false v_bool (get_alias (str "includeReview") (str "include_review") d)
    <*> v_default 50 v_int (dict_get (str "limit") d)).
Definition InboxInput_dump (m : InboxInput) : pydict :=
  dump_fields
    [(str "since", JStr <$> ii_since m);
     (str "contact", JStr <$> ii_contact m);
     (str "intent", JStr <$> ii_intent m);
     (str "includeReview", Some (JBool (ii_include_review m)));
     (str "limit", Some (JInt (ii_limit m)))].
#[global] Instance InboxInput_model : ToolModel InboxInput :=
  {| tm_name := str "InboxInput"; tm_fields := InboxInput_fields; tm_dump := InboxInput_dump |}.

(** [InboxInput()] *)
Definition InboxInput_default : InboxInput :=
  {| ii_since := None; ii_contact := None; ii_intent := None; ii_include_review := false; ii_limit := 50 |}.

Record InboxItem := {
  it_message_id : pystr;
  it_context_id : pystr;
  it_sender : pystr;
  it_received_at : pystr;
  it_status : pystr;
  it_body : BodySlot;
  it_extra : pydict;
}.
Definition InboxItem_spec : spec :=
  [(str "messageId", str "message_id"); (str "contextId", str "context_id"); (str "from", str "sender"); (str "receivedAt", str "received_at"); (str "status", str "status"); (str "body", str "body")].
Definition InboxItem_fields (d : pydict) : result InboxItem :=
  Ok (λ message_id context_id sender received_at status body, {| it_message_id := message_id; it_context_id := context_id; it_sender := sender; it_received_at := received_at; it_status := status; it_body := body; it_extra := extras (taken_keys InboxItem_spec d) d |})
    <*> v_str (get_alias (str "messageId") (str "message_id") d)
    <*> v_str (get_alias (str "contextId") (str "context_id") d)
    <*> v_str (get_alias (str "from") (str "sender") d)
    <*> v_str (get_alias (str "receivedAt") (str "received_at") d)
    <*> v_literal [str "inbox"; str "stranger_review"] (dict_get (str "status") d)
    <*> v_model (dict_get (str "body") d).
Definition InboxItem_dump (m : InboxItem) : pydict :=
  dump_fields
    [(str "messageId", Some (JStr (it_message_id m)));
     (str "contextId", Some (JStr (it_context_id m)));
     (str "from", Some (JStr (it_sender m)));
     (str "receivedAt", Some (JStr (it_received_at m)));
     (str "status", Some (JStr (it_status m)));
     (str "body", Some (JDict (tm_dump (it_body m))))]
  ++ not_none (it_extra m).
#[global] Instance InboxItem_model : ToolModel InboxItem :=
  {| tm_name := str "InboxItem"; tm_fields := InboxItem_fields; tm_dump := InboxItem_dump |}.

Record InboxOutput := {
  ino_items : list InboxItem;
  ino_next_since : option pystr;
}.
Definition InboxOutput_spec : spec :=
  [(str "items", str "items"); (str "nextSince", str "next_since")].
Definition InboxOutput_fields (d : pydict) : result InboxOutput :=
  forbid InboxOutput_spec d
   (Ok (λ items next_since, {| ino_items := items; ino_next_since := next_since |})
    <*> v_models (dict_get (str "items") d)
    <*> v_optional v_str (get_alias (str "nextSince") (str "next_since") d)).
Definition InboxOutput_dump (m : InboxOutput) : pydict :=
  dump_fields
    [(str "items", Some (j_models (ino_items m)));
     (str "nextSince", JStr <$> ino_next_since m)].
#[global] Instance InboxOutput_model : ToolModel InboxOutput :=
  {| tm_name := str "InboxOutput"; tm_fields := InboxOutput_fields; tm_dump := InboxOutput_dump |}.

Record InboxWaitInput := {
  iwi_timeout_seconds : option Z;
  iwi_last_event_id : option pystr;
}.
Definition InboxWaitInput_spec : spec :=
  [(str "timeout_seconds", str "timeout_seconds"); (str "last_event_id", str "last_event_id")].
Definition InboxWaitInput_fields (d : pydict) : result InboxWaitInput :=
  forbid InboxWaitInput_spec d
   (Ok (λ timeout_seconds last_event_id, {| iwi_timeout_seconds := timeout_seconds; iwi_last_event_id := last_event_id |})
    <*> v_optional v_int (dict_get (str "timeout_seconds") d)
    <*> v_optional v_str (dict_get (str "last_event_id") d)).
Definition InboxWaitInput_dump (m : InboxWaitInput) : pydict :=
  dump_fields
    [(str "timeout_seconds", JInt <$> iwi_timeout_seconds m);
     (str "last_event_id", JStr <$> iwi_last_event_id m)].
#[global] Instance InboxWaitInput_model : ToolModel InboxWaitInput :=
  {| tm_name := str "InboxWaitInput"; tm_fields := InboxWaitInput_fields; tm_dump := InboxWaitInput_dump |}.

Record InboxWaitOutput := {
  iwo_events : list pydict;
  iwo_next_event_id : option pystr;
  iwo_extra : pydict;
}.
Definition InboxWaitOutput_spec : spec :=
  [(str "events", str "events"); (str "next_event_id", str "next_event_id")].
Definition InboxWaitOutput_fields (d : pydict) : result InboxWaitOutput :=
  Ok (λ events next_event_id, {| iwo_events := events; iwo_next_event_id := next_event_id; iwo_extra := extras (taken_keys InboxWaitOutput_spec d) d |})
    <*> v_list (λ v, v_dict (Some v)) (dict_get (str "events") d)
    <*> v_optional v_str (dict_get (str "next_event_id") d).
Definition InboxWaitOutput_dump (m : InboxWaitOutput) : pydict :=
  dump_fields
    [(str "events", Some (JList (map JDict (iwo_events m))));
     (str "next_event_id", JStr <$> iwo_next_event_id m)]
  ++ not_none (iwo_extra m).
#[global] Instance InboxWaitOutput_model : ToolModel InboxWaitOutput :=
  {| tm_name := str "InboxWaitOutput"; tm_fields := InboxWaitOutput_fields; tm_dump := InboxWaitOutput_dump |}.

(** The notifications. *)
Record InboxMessageEvent := {
  ime_event_id : pystr;
  ime_message_id : pystr;
  ime_context_id : pystr;
  ime_sender : pystr;
  ime_intent : option pystr;
  ime_status : pystr;
  ime_extra : pydict;
}.
Definition InboxMessageEvent_spec : spec :=
  [(str "eventId", str "event_id"); (str "messageId", str "message_id"); (str "contextId", str "context_id"); (str "from", str "sender"); (str "intent", str "intent"); (str "status", str "status")].
Definition InboxMessageEvent_fields (d : pydict) : result InboxMessageEvent :=
  Ok (λ event_id message_id context_id sender intent status, {| ime_event_id := event_id; ime_message_id := message_id; ime_context_id := context_id; ime_sender := sender; ime_intent := intent; ime_status := status; ime_extra := extras (taken_keys InboxMessageEvent_spec d) d |})
    <*> v_str (get_alias (str "eventId") (str "event_id") d)
    <*> v_str (get_alias (str "messageId") (str "message_id") d)
    <*> v_str (get_alias (str "contextId") (str "context_id") d)
    <*> v_str (get_alias (str "from") (str "sender") d)
    <*> v_optional v_str (dict_get (str "intent") d)
    <*> v_str (dict_get (str "status") d).
Definition InboxMessageEvent_dump (m : InboxMessageEvent) : pydict :=
  dump_fields
    [(str "eventId", Some (JStr (ime_event_id m)));
     (str "messageId", Some (JStr (ime_message_id m)));
     (str "contextId", Some (JStr (ime_context_id m)));
     (str "from", Some (JStr (ime_sender m)));
     (str "intent", JStr <$> ime_intent m);
     (str "status", Some (JStr (ime_status m)))]
  ++ not_none (ime_extra m).
#[global] Instance InboxMessageEvent_model : ToolModel InboxMessageEvent :=
  {| tm_name := str "InboxMessageEvent"; tm_fields := InboxMessageEvent_fields; tm_dump := InboxMessageEvent_dump |}.

Record TaskUpdateEvent := {
  tue_event_id : pystr;
  tue_context_id : pystr;
  tue_task_id : pystr;
  tue_status : pystr;
  tue_extra : pydict;
}.
Definition TaskUpdateEvent_spec : spec :=
  [(str "eventId", str "event_id"); (str "contextId", str "context_id"); (str "taskId", str "task_id"); (str "status", str "status")].
Definition TaskUpdateEvent_fields (d : pydict) : result TaskUpdateEvent :=
  Ok (λ event_id context_id task_id status, {| tue_event_id := event_id; tue_context_id := context_id; tue_task_id := task_id; tue_status := status; tue_extra := extras (taken_keys TaskUpdateEvent_spec d) d |})
    <*> v_str (get_alias (str "eventId") (str "event_id") d)
    <*> v_str (get_alias (str "contextId") (str "context_id") d)
    <*> v_str (get_alias (str "taskId") (str "task_id") d)
    <*> v_str (dict_get (str "status") d).
Definition TaskUpdateEvent_dump (m : TaskUpdateEvent) : pydict :=
  dump_fields
    [(str "eventId", Some (JStr (tue_event_id m)));
     (str "contextId", Some (JStr (tue_context_id m)));
     (str "taskId", Some (JStr (tue_task_id m)));
     (str "status", Some (JStr (tue_status m)))]
  ++ not_none (tue_extra m).
#[global] Instance TaskUpdateEvent_model : ToolModel TaskUpdateEvent :=
  {| tm_name := str "TaskUpdateEvent"; tm_fields := TaskUpdateEvent_fields; tm_dump := TaskUpdateEvent_dump |}.

Record InboxWaitEvent := {
  iwe_event_id : pystr;
  iwe_event : pystr;
  iwe_occurred_at : Z;
  iwe_data : pydict;
  iwe_extra : pydict;
}.
Definition InboxWaitEvent_spec : spec :=
  [(str "eventId", str "event_id"); (str "event", str "event"); (str "occurredAt", str "occurred_at"); (str "data", str "data")].
Definition InboxWaitEvent_fields (d : pydict) : result InboxWaitEvent :=
  Ok (λ event_id event occurred_at data, {| iwe_event_id := event_id; iwe_event := event; iwe_occurred_at := occurred_at; iwe_data := data; iwe_extra := extras (taken_keys InboxWaitEvent_spec d) d |})
    <*> v_str (get_alias (str "eventId") (str "event_id") d)
    <*> v_str (dict_get (str "event") d)
    <*> v_int (get_alias (str "occurredAt") (str "occurred_at") d)
    <*> v_dict (dict_get (str "data") d).
Definition InboxWaitEvent_dump (m : InboxWaitEvent) : pydict :=
  dump_fields
    [(str "eventId", Some (JStr (iwe_event_id m)));
     (str "event", Some (JStr (iwe_event m)));
     (str "occurredAt", Some (JInt (iwe_occurred_at m)));
     (str "data", Some (JDict (iwe_data m)))]
  ++ not_none (iwe_extra m).
#[global] Instance InboxWaitEvent_model : ToolModel InboxWaitEvent :=
  {| tm_name := str "InboxWaitEvent"; tm_fields := InboxWaitEvent_fields; tm_dump := InboxWaitEvent_dump |}.

End models.

(** ** Reading back what was written *)

(** The value [dump_fields] writes under a key. *)
Fixpoint field_get (k : pystr) (l : list (pystr * option json)) : option json :=
  match l with
  | [] => None
  | (k', v) :: l => if bool_decide (k = k') then v else field_get k l
  end.

Lemma field_get_here k v l : field_get k ((k, v) :: l) = v.
Proof. cbn. by rewrite bool_decide_true. Qed.

Lemma field_get_next k k' v l : bool_decide (k = k') = false → field_get k ((k', v) :: l) = field_get k l.
Proof. cbn. by intros ->. Qed.

Lemma dump_fields_cons k v l : dump_fields ((k, v) :: l) = some_entry k v ++ dump_fields l.
Proof. done. Qed.

Lemma dump_fields_keys l : keys (dump_fields l) ⊆ map fst l.
Proof.
  induction l as [|[k v] l IH]; [done|]. rewrite dump_fields_cons. unfold keys. rewrite map_app. cbn [map fst].
  destruct v; cbn [some_entry map fst app]; set_solver.
Qed.

Lemma dict_get_dump k l e :
  NoDup (map fst l) →
  dict_get k (dump_fields l ++ e) = match field_get k l with Some v => Some v | None => dict_get k e end.
Proof.
  induction l as [|[k' v] l IH]; [done|]. cbn [map fst]. intros [Hk Hl]%NoDup_cons.
  rewrite dump_fields_cons, <-app_assoc. cbn [field_get]. case_bool_decide as E.
  - subst k'. destruct v as [v|]; cbn; [by rewrite bool_decide_true|].
    rewrite dict_get_app. destruct (dict_get k (dump_fields l)) eqn:Hg; [|done].
    exfalso. apply Hk, dump_fields_keys. destruct (decide (k ∈ keys (dump_fields l))) as [|Hn]; [done|].
    apply dict_get_none in Hn. congruence.
  - destruct v as [v|]; cbn; [rewrite bool_decide_false by done|]; by apply IH.
Qed.

(** Names no field answers to. *)
Definition foreign (s : spec) (d : pydict) : Prop := Forall (λ k, (k ∉ map fst s) ∧ (k ∉ map snd s)) (keys d).

Lemma foreign_get s k d : foreign s d → k ∈ map fst s ∨ k ∈ map snd s → dict_get k d = None.
Proof.
  intros Hd Hk. apply dict_get_none. intros Hin. unfold foreign in Hd. rewrite Forall_forall in Hd.
  destruct (Hd k Hin). naive_solver.
Qed.

Lemma foreign_nil s : foreign s [].
Proof. by constructor. Qed.

Lemma taken_written s l e k : map fst l = map fst s → k ∈ keys (dump_fields l) → k ∈ taken_keys s (dump_fields l ++ e).
Proof.
  intros El Hk. pose proof (dump_fields_keys l k Hk) as Hs. rewrite El in Hs.
  apply list_elem_of_fmap in Hs as ([a n] & -> & Hs). apply list_elem_of_fmap. exists (a, n). split; [|done].
  cbn in *. unfold taken. rewrite dict_get_app. destruct (dict_get a (dump_fields l)) eqn:Hg; [done|].
  apply dict_get_none in Hg. done.
Qed.

Lemma taken_named s d k : k ∈ taken_keys s d → k ∈ map fst s ∨ k ∈ map snd s.
Proof.
  intros ([a n] & -> & Hs)%list_elem_of_fmap. cbn. unfold taken.
  case_match; [left|right]; apply list_elem_of_fmap; by exists (a, n).
Qed.

Lemma extras_dumped s l e :
  map fst l = map fst s → foreign s e → extras (taken_keys s (dump_fields l ++ e)) (dump_fields l ++ e) = e.
Proof.
  intros El He. rewrite extras_app, extras_all by (apply Forall_forall; intros k Hk; by apply taken_written).
  cbn [app]. apply extras_none.
  unfold foreign in He. eapply Forall_impl; [exact He|]. cbn. intros k [H1 H2] [?|?]%taken_named; done.
Qed.

Lemma forbid_dump {A} s l (r : result A) : map fst l = map fst s → forbid s (dump_fields l) r = r.
Proof.
  intros El. unfold forbid. pose proof (extras_dumped s l [] El (foreign_nil s)) as Hx. rewrite app_nil_r in Hx.
  rewrite Hx. by destruct r.
Qed.

Lemma dict_get_field k l : NoDup (map fst l) → dict_get k (dump_fields l) = field_get k l.
Proof. intros Hl. rewrite <-(app_nil_r (dump_fields l)), dict_get_dump by done. by destruct (field_get k l). Qed.

Lemma dict_get_extra s k l e :
  NoDup (map fst l) → foreign s e → k ∈ map fst s → dict_get k (dump_fields l ++ e) = field_get k l.
Proof.
  intros Hl He Hk. rewrite dict_get_dump by done. rewrite (foreign_get s) by auto. by destruct (field_get k l).
Qed.

Lemma get_alias_field a n l : NoDup (map fst l) → n ∉ map fst l → get_alias a n (dump_fields l) = field_get a l.
Proof.
  intros Hl Hn. unfold get_alias. rewrite !dict_get_field by done. destruct (field_get a l); [done|].
  rewrite <-dict_get_field by done. apply dict_get_none. intros Hin. by apply Hn, dump_fields_keys.
Qed.

Lemma get_alias_extra s a n l e :
  NoDup (map fst l) → foreign s e → (a, n) ∈ s → n ∉ map fst l → get_alias a n (dump_fields l ++ e) = field_get a l.
Proof.
  intros Hl He Hs Hn. unfold get_alias.
  assert (a ∈ map fst s) by (apply list_elem_of_fmap; by exists (a, n)).
  assert (n ∈ map snd s) by (apply list_elem_of_fmap; by exists (a, n)).
  rewrite (dict_get_extra s) by done. destruct (field_get a l); [done|].
  rewrite dict_get_dump by done. rewrite (foreign_get s n e) by auto.
  destruct (field_get n l) eqn:Hg; [|done]. exfalso. apply Hn, dump_fields_keys.
  rewrite <-dict_get_field in Hg by done. destruct (decide (n ∈ keys (dump_fields l))) as [|Hni]; [done|].
  apply dict_get_none in Hni. congruence.
Qed.

(** ** The laws *)

Class ToolModelLaws A `{ToolModel A} : Type := {
  (** The instances of a model [model_validate] can give. *)
  tm_wf : A → Prop;
  tm_read a : tm_wf a → tm_fields (tm_dump a) = Ok a;
  tm_errors d : only_invalid (tm_fields (A := A) d);
}.

Lemma v_model_read `{ToolModelLaws A} (a : A) : tm_wf a → v_model (Some (JDict (tm_dump a))) = Ok a.
Proof. apply tm_read. Qed.

Lemma v_optional_read {A} (f : option json → result A) (g : A → json) (o : option A) :
  (∀ a, o = Some a → f (Some (g a)) = Ok a ∧ g a ≠ JNull) → v_optional f (g <$> o) = Ok o.
Proof.
  destruct o as [a|]; intros Hf; [|done]. destruct (Hf a eq_refl) as [Ha Hn]. cbn.
  unfold v_optional. destruct (g a); try done; by rewrite Ha.
Qed.

Lemma v_optional_str o : v_optional v_str (JStr <$> o) = Ok o.
Proof. by apply v_optional_read. Qed.

Lemma v_optional_dict o : v_optional v_dict (JDict <$> o) = Ok o.
Proof. by apply v_optional_read. Qed.

Lemma v_optional_int `{Pydantic} o : v_optional v_int (JInt <$> o) = Ok o.
Proof. apply v_optional_read. intros z _. cbn. by rewrite pyd_int_int. Qed.

Lemma v_optional_model `{ToolModelLaws A} (o : option A) :
  (∀ a, o = Some a → tm_wf a) → v_optional v_model ((λ m, JDict (tm_dump m)) <$> o) = Ok o.
Proof. intros Ho. apply (v_optional_read _ (λ m, JDict (tm_dump m))). intros a Ha. split; [|done]. by apply tm_read, Ho. Qed.

Lemma v_models_read `{ToolModelLaws A} (l : list A) : Forall tm_wf l → v_models (Some (j_models l)) = Ok l.
Proof.
  intros Hl. unfold v_models, j_models. cbn [v_list]. apply mapM_ok. rewrite Forall2_fmap_l.
  apply Forall2_same_length_lookup_2; [done|]. intros i a b Ha Hb. assert (a = b) as <- by congruence.
  apply v_model_read. by eapply Forall_lookup_1.
Qed.

Lemma v_dicts_read (l : list pydict) : v_list (λ v, v_dict (Some v)) (Some (JList (map JDict l))) = Ok l.
Proof. cbn. induction l as [|d l IH]; [done|]. cbn. by rewrite IH. Qed.

Lemma v_literal_read words s : s ∈ words → v_literal words (Some (JStr s)) = Ok s.
Proof. intros Hs. cbn. by rewrite bool_decide_true. Qed.

Lemma v_optional_literal words o :
  (∀ s, o = Some s → s ∈ words) → v_optional (v_literal words) (JStr <$> o) = Ok o.
Proof. intros Ho. apply v_optional_read. intros s Hs. split; [|done]. by apply v_literal_read, Ho. Qed.

Lemma v_optional_max_length n o :
  (∀ s, o = Some s → py_len s ≤ n) → v_optional (v_max_length n) (JStr <$> o) = Ok o.
Proof. intros Ho. apply v_optional_read. intros s Hs. split; [|done]. cbn. by rewrite (proj2 (Z.leb_le _ _) (Ho s Hs)). Qed.

Lemma v_strs_read l : v_strs (Some (j_strs l)) = Ok l.
Proof. apply v_strs_map. Qed.

Lemma v_dict_strs_read d : v_dict_strs (Some (JDict (map (λ kv, (kv.1, j_strs kv.2)) d))) = Ok d.
Proof.
  unfold v_dict_strs. cbn [v_dict mbind result_bind]. induction d as [|[k l] d IH]; [done|]. cbn [map mapM fst snd].
  rewrite v_strs_read. cbn [mbind result_bind]. by rewrite IH.
Qed.

Lemma v_optional_dict_strs o :
  v_optional v_dict_strs ((λ d, JDict (map (λ kv, (kv.1, j_strs kv.2)) d)) <$> o) = Ok o.
Proof. apply (v_optional_read _ (λ d, JDict _)). intros d _. split; [apply v_dict_strs_read|done]. Qed.

Section only_invalid_fields.
Context `{Pydantic} `{PydanticBool}.

Lemma only_invalid_literal words v : only_invalid (v_literal words v).
Proof. apply only_invalid_bind; [auto with shadownet|]. intros s. case_bool_decide; auto with shadownet. Qed.

Lemma only_invalid_max_length n v : only_invalid (v_max_length n v).
Proof. apply only_invalid_bind; [auto with shadownet|]. intros s. case_match; auto with shadownet. Qed.

Lemma only_invalid_default {A} (a : A) f v : (∀ v, only_invalid (f v)) → only_invalid (v_default a f v).
Proof. intros Hf. destruct v; cbn; auto with shadownet. Qed.

Lemma only_invalid_of_option {A} (o : option A) : only_invalid (of_option (ValidationError []) o).
Proof. destruct o; [done|]. by intros e [= <-]. Qed.

Lemma only_invalid_bool v : only_invalid (v_bool v).
Proof. destruct v; [apply only_invalid_of_option|auto with shadownet]. Qed.

Lemma only_invalid_int v : only_invalid (v_int v).
Proof. destruct v; [apply only_invalid_of_option|auto with shadownet]. Qed.

Lemma only_invalid_true v : only_invalid (v_true v).
Proof. destruct v as [[| [] | | | | |]|]; cbn; auto with shadownet. Qed.

Lemma only_invalid_dict_strs v : only_invalid (v_dict_strs v).
Proof.
  apply only_invalid_bind; [auto with shadownet|]. intros d. apply only_invalid_mapM. intros kv. auto with shadownet.
Qed.

Lemma only_invalid_vlist {A} (f : json → result A) v : (∀ v, only_invalid (f v)) → only_invalid (v_list f v).
Proof. intros Hf. destruct v as [[]|]; cbn; auto with shadownet. Qed.

Lemma only_invalid_vmodel `{ToolModelLaws A} v : only_invalid (v_model (A := A) v).
Proof. destruct v as [[]|]; cbn; auto with shadownet. apply tm_errors. Qed.

Lemma only_invalid_models `{ToolModelLaws A} v : only_invalid (v_models (A := A) v).
Proof. apply only_invalid_vlist. intros ?. apply only_invalid_vmodel. Qed.

Lemma only_invalid_forbid {A} s d (r : result A) : only_invalid r → only_invalid (forbid s d r).
Proof. intros Hr. unfold forbid. case_match; auto with shadownet. Qed.
End only_invalid_fields.

#[export] Hint Resolve only_invalid_literal only_invalid_max_length only_invalid_default only_invalid_bool
  only_invalid_int only_invalid_true only_invalid_dict_strs only_invalid_vlist only_invalid_vmodel
  only_invalid_models only_invalid_forbid : shadownet.

(** Decides a closed side condition. *)
Ltac by_decision := apply (bool_decide_unpack _); vm_compute; exact I.

Ltac read_field :=
  repeat first [rewrite field_get_here | rewrite field_get_next by reflexivity].

Ltac read_fields :=
  repeat first
    [ rewrite get_alias_field by by_decision | rewrite dict_get_field by by_decision ];
  read_field.

Ltac read_values :=
  cbn [v_default]; rewrite ?v_optional_str, ?v_optional_dict, ?v_optional_int, ?v_optional_dict_strs, ?v_strs_read, ?v_dicts_read;
  repeat first
    [ rewrite v_model_read by tauto | rewrite v_models_read by tauto
    | rewrite v_optional_model by tauto | rewrite v_literal_read by tauto
    | rewrite v_optional_literal by tauto | rewrite v_optional_max_length by tauto ];
  cbn [v_str v_dict v_default v_int v_bool v_true of_option]; rewrite ?pyd_int_int, ?pyd_bool_bool;
  match goal with m : _ |- _ = Ok ?m => destruct m end; cbn in *; subst; reflexivity.

Ltac read_extra s :=
  match goal with Hn : not_none ?e = ?e |- _ => rewrite Hn end;
  rewrite (extras_dumped s) by done;
  repeat first
    [ rewrite (get_alias_extra s) by first [done | by_decision]
    | rewrite (dict_get_extra s) by first [done | by_decision] ];
  read_field.

(** Extra values a model keeps: under names of their own and not [None]. *)
Definition extra_wf (s : spec) (e : pydict) : Prop := foreign s e ∧ not_none e = e.

(** The laws of a model that forbids or allows extra values. *)
Tactic Notation "forbidding_model" reference(model) reference(fields) reference(dump) reference(wf) :=
  intros m; unfold tm_fields, tm_dump, model, fields, dump;
  lazymatch goal with
  | |- only_invalid _ => eauto 20 with shadownet typeclass_instances
  | |- _ =>
      let Hwf := fresh in intros Hwf; unfold wf in Hwf; rewrite forbid_dump by done; read_fields; read_values
  end.

Tactic Notation "allowing_model" constr(s) reference(model) reference(fields) reference(dump) reference(wf) :=
  intros m; unfold tm_fields, tm_dump, model, fields, dump;
  lazymatch goal with
  | |- only_invalid _ => eauto 20 with shadownet typeclass_instances
  | |- _ =>
      let Hwf := fresh in intros Hwf; unfold wf, extra_wf in Hwf; destruct_and? Hwf; read_extra s; read_values
  end.

Section laws.
Context `{Pydantic} `{PydanticBool}.

Definition BodySlot_wf (m : BodySlot) : Prop := extra_wf BodySlot_spec (bs_extra m).
#[global] Instance BodySlot_laws : ToolModelLaws BodySlot.
Proof. refine {| tm_wf := BodySlot_wf |}; allowing_model BodySlot_spec BodySlot_model BodySlot_fields BodySlot_dump BodySlot_wf. Defined.

Definition CredentialSummary_wf (m : CredentialSummary) : Prop := cs_kind m ∈ [str "org_affiliation"].
#[global] Instance CredentialSummary_laws : ToolModelLaws CredentialSummary.
Proof. refine {| tm_wf := CredentialSummary_wf |}; forbidding_model CredentialSummary_model CredentialSummary_fields CredentialSummary_dump CredentialSummary_wf. Defined.

Definition ContactProfile_wf (m : ContactProfile) : Prop := (∀ s, cp_notes m = Some s → py_len s ≤ 4096) ∧ (∀ s, cp_priority m = Some s → s ∈ [str "low"; str "normal"; str "high"]).
#[global] Instance ContactProfile_laws : ToolModelLaws ContactProfile.
Proof. refine {| tm_wf := ContactProfile_wf |}; forbidding_model ContactProfile_model ContactProfile_fields ContactProfile_dump ContactProfile_wf. Defined.

Definition ContactSummary_wf (m : ContactSummary) : Prop := True.
#[global] Instance ContactSummary_laws : ToolModelLaws ContactSummary.
Proof. refine {| tm_wf := ContactSummary_wf |}; forbidding_model ContactSummary_model ContactSummary_fields ContactSummary_dump ContactSummary_wf. Defined.

Definition IdentityOutput_wf (m : IdentityOutput) : Prop := Forall tm_wf (io_credentials m).
#[global] Instance IdentityOutput_laws : ToolModelLaws IdentityOutput.
Proof. refine {| tm_wf := IdentityOutput_wf |}; forbidding_model IdentityOutput_model IdentityOutput_fields IdentityOutput_dump IdentityOutput_wf. Defined.

Definition ResolveInput_wf (m : ResolveInput) : Prop := True.
#[global] Instance ResolveInput_laws : ToolModelLaws ResolveInput.
Proof. refine {| tm_wf := ResolveInput_wf |}; forbidding_model ResolveInput_model ResolveInput_fields ResolveInput_dump ResolveInput_wf. Defined.

Definition ResolveOutput_wf (m : ResolveOutput) : Prop := True.
#[global] Instance ResolveOutput_laws : ToolModelLaws ResolveOutput.
Proof. refine {| tm_wf := ResolveOutput_wf |}; forbidding_model ResolveOutput_model ResolveOutput_fields ResolveOutput_dump ResolveOutput_wf. Defined.

Definition ContactsInput_wf (m : ContactsInput) : Prop := True.
#[global] Instance ContactsInput_laws : ToolModelLaws ContactsInput.
Proof. refine {| tm_wf := ContactsInput_wf |}; forbidding_model ContactsInput_model ContactsInput_fields ContactsInput_dump ContactsInput_wf. Defined.

Definition ContactsOutput_wf (m : ContactsOutput) : Prop := Forall tm_wf (co_contacts m).
#[global] Instance ContactsOutput_laws : ToolModelLaws ContactsOutput.
Proof. refine {| tm_wf := ContactsOutput_wf |}; forbidding_model ContactsOutput_model ContactsOutput_fields ContactsOutput_dump ContactsOutput_wf. Defined.

Definition ContactDetailInput_wf (m : ContactDetailInput) : Prop := True.
#[global] Instance ContactDetailInput_laws : ToolModelLaws ContactDetailInput.
Proof. refine {| tm_wf := ContactDetailInput_wf |}; forbidding_model ContactDetailInput_model ContactDetailInput_fields ContactDetailInput_dump ContactDetailInput_wf. Defined.

Definition ContactDetailOutput_wf (m : ContactDetailOutput) : Prop := Forall tm_wf (cdo_credentials m) ∧ (∀ p, cdo_profile m = Some p → tm_wf p).
#[global] Instance ContactDetailOutput_laws : ToolModelLaws ContactDetailOutput.
Proof. refine {| tm_wf := ContactDetailOutput_wf |}; forbidding_model ContactDetailOutput_model ContactDetailOutput_fields ContactDetailOutput_dump ContactDetailOutput_wf. Defined.

Definition AddContactInput_wf (m : AddContactInput) : Prop := (∀ p, aci_profile m = Some p → tm_wf p).
#[global] Instance AddContactInput_laws : ToolModelLaws AddContactInput.
Proof. refine {| tm_wf := AddContactInput_wf |}; forbidding_model AddContactInput_model AddContactInput_fields AddContactInput_dump AddContactInput_wf. Defined.

Definition AddContactOutput_wf (m : AddContactOutput) : Prop := True.
#[global] Instance AddContactOutput_laws : ToolModelLaws AddContactOutput.
Proof. refine {| tm_wf := AddContactOutput_wf |}; forbidding_model AddContactOutput_model AddContactOutput_fields AddContactOutput_dump AddContactOutput_wf. Defined.

Definition GrantInput_wf (m : GrantInput) : Prop := True.
#[global] Instance GrantInput_laws : ToolModelLaws GrantInput.
Proof. refine {| tm_wf := GrantInput_wf |}; forbidding_model GrantInput_model GrantInput_fields GrantInput_dump GrantInput_wf. Defined.

Definition GrantOutput_wf (m : GrantOutput) : Prop := go_ok m = true.
#[global] Instance GrantOutput_laws : ToolModelLaws GrantOutput.
Proof. refine {| tm_wf := GrantOutput_wf |}; forbidding_model GrantOutput_model GrantOutput_fields GrantOutput_dump GrantOutput_wf. Defined.

Definition SetContactProfileInput_wf (m : SetContactProfileInput) : Prop := tm_wf (spi_profile m).
#[global] Instance SetContactProfileInput_laws : ToolModelLaws SetContactProfileInput.
Proof. refine {| tm_wf := SetContactProfileInput_wf |}; forbidding_model SetContactProfileInput_model SetContactProfileInput_fields SetContactProfileInput_dump SetContactProfileInput_wf. Defined.

Definition SetContactProfileOutput_wf (m : SetContactProfileOutput) : Prop := spo_ok m = true.
#[global] Instance SetContactProfileOutput_laws : ToolModelLaws SetContactProfileOutput.
Proof. refine {| tm_wf := SetContactProfileOutput_wf |}; forbidding_model SetContactProfileOutput_model SetContactProfileOutput_fields SetContactProfileOutput_dump SetContactProfileOutput_wf. Defined.

Definition SendInput_wf (m : SendInput) : Prop := tm_wf (si_body m).
#[global] Instance SendInput_laws : ToolModelLaws SendInput.
Proof. refine {| tm_wf := SendInput_wf |}; forbidding_model SendInput_model SendInput_fields SendInput_dump SendInput_wf. Defined.

Definition SendOutput_wf (m : SendOutput) : Prop := so_status m ∈ [str "accepted"; str "rejected"].
#[global] Instance SendOutput_laws : ToolModelLaws SendOutput.
Proof. refine {| tm_wf := SendOutput_wf |}; forbidding_model SendOutput_model SendOutput_fields SendOutput_dump SendOutput_wf. Defined.

Definition RespondInput_wf (m : RespondInput) : Prop := tm_wf (rsi_body m).
#[global] Instance RespondInput_laws : ToolModelLaws RespondInput.
Proof. refine {| tm_wf := RespondInput_wf |}; forbidding_model RespondInput_model RespondInput_fields RespondInput_dump RespondInput_wf. Defined.

Definition RespondOutput_wf (m : RespondOutput) : Prop := rso_status m ∈ [str "accepted"; str "rejected"].
#[global] Instance RespondOutput_laws : ToolModelLaws RespondOutput.
Proof. refine {| tm_wf := RespondOutput_wf |}; forbidding_model RespondOutput_model RespondOutput_fields RespondOutput_dump RespondOutput_wf. Defined.

Definition InboxInput_wf (m : InboxInput) : Prop := True.
#[global] Instance InboxInput_laws : ToolModelLaws InboxInput.
Proof. refine {| tm_wf := InboxInput_wf |}; forbidding_model InboxInput_model InboxInput_fields InboxInput_dump InboxInput_wf. Defined.

Definition InboxItem_wf (m : InboxItem) : Prop := it_status m ∈ [str "inbox"; str "stranger_review"] ∧ tm_wf (it_body m) ∧ extra_wf InboxItem_spec (it_extra m).
#[global] Instance InboxItem_laws : ToolModelLaws InboxItem.
Proof. refine {| tm_wf := InboxItem_wf |}; allowing_model InboxItem_spec InboxItem_model InboxItem_fields InboxItem_dump InboxItem_wf. Defined.

Definition InboxOutput_wf (m : InboxOutput) : Prop := Forall tm_wf (ino_items m).
#[global] Instance InboxOutput_laws : ToolModelLaws InboxOutput.
Proof. refine {| tm_wf := InboxOutput_wf |}; forbidding_model InboxOutput_model InboxOutput_fields InboxOutput_dump InboxOutput_wf. Defined.

Definition InboxWaitInput_wf (m : InboxWaitInput) : Prop := True.
#[global] Instance InboxWaitInput_laws : ToolModelLaws InboxWaitInput.
Proof. refine {| tm_wf := InboxWaitInput_wf |}; forbidding_model InboxWaitInput_model InboxWaitInput_fields InboxWaitInput_dump InboxWaitInput_wf. Defined.

Definition InboxWaitOutput_wf (m : InboxWaitOutput) : Prop := extra_wf InboxWaitOutput_spec (iwo_extra m).
#[global] Instance InboxWaitOutput_laws : ToolModelLaws InboxWaitOutput.
Proof. refine {| tm_wf := InboxWaitOutput_wf |}; allowing_model InboxWaitOutput_spec InboxWaitOutput_model InboxWaitOutput_fields InboxWaitOutput_dump InboxWaitOutput_wf. Defined.

Definition InboxMessageEvent_wf (m : InboxMessageEvent) : Prop := extra_wf InboxMessageEvent_spec (ime_extra m).
#[global] Instance InboxMessageEvent_laws : ToolModelLaws InboxMessageEvent.
Proof. refine {| tm_wf := InboxMessageEvent_wf |}; allowing_model InboxMessageEvent_spec InboxMessageEvent_model InboxMessageEvent_fields InboxMessageEvent_dump InboxMessageEvent_wf. Defined.

Definition TaskUpdateEvent_wf (m : TaskUpdateEvent) : Prop := extra_wf TaskUpdateEvent_spec (tue_extra m).
#[global] Instance TaskUpdateEvent_laws : ToolModelLaws TaskUpdateEvent.
Proof. refine {| tm_wf := TaskUpdateEvent_wf |}; allowing_model TaskUpdateEvent_spec TaskUpdateEvent_model TaskUpdateEvent_fields TaskUpdateEvent_dump TaskUpdateEvent_wf. Defined.

Definition InboxWaitEvent_wf (m : InboxWaitEvent) : Prop := extra_wf InboxWaitEvent_spec (iwe_extra m).
#[global] Instance InboxWaitEvent_laws : ToolModelLaws InboxWaitEvent.
Proof. refine {| tm_wf := InboxWaitEvent_wf |}; allowing_model InboxWaitEvent_spec InboxWaitEvent_model InboxWaitEvent_fields InboxWaitEvent_dump InboxWaitEvent_wf. Defined.

End laws.
