(* ===== verification/McpClient.v ===== *)
(** * The MCP client — [shadownet/mcp/client.py]

    [ShadownetMCPClient]: the typed calls of the sidecar's tools.  The session
    of the [mcp] package is the parameter [call_tool]. *)

From S2P Require Import Prelude PyStr Jcs Dicts PyRepr Pydantic Mcp.

(** What the client reads of an [mcp] [CallToolResult]: of the content blocks
    their [text], where they have one. *)
Record CallToolResult := {
  isError : bool;
  structuredContent : option pydict;
  content_texts : list (option pystr);
}.

Definition _describe_error (result : CallToolResult) : pystr :=
  match content_texts result with
  | Some (c :: text) :: _ => c :: text
  | _ => str "tool call failed (no further detail)"
  end.

Section client.
Context `{PyUnicode} `{Pydantic} `{PydanticBool} {W : Type}.
Context (call_tool : pystr → pydict → M W CallToolResult).

(** The result of a call, as the model [T]. *)
Definition read_result {T} `{ToolModel T} (name : pystr) (result : CallToolResult) : Prelude.result T :=
  _ ← raise_if (isError result) (ToolError (_describe_error result));
  structured ← of_option (ToolError (str "tool " ++ repr_str name ++ str " returned no structuredContent"))
                 (structuredContent result);
  rethrow is_ValidationError
    (λ exc, ToolError (str "tool " ++ repr_str name ++ str " returned malformed result: " ++ exn_text exc))
    (tm_validate (JDict structured)).

Definition _call {T} `{ToolModel T} (name : pystr) (payload : pydict) : M W T :=
  result ← call_tool name payload;
  lift (read_result name result).

Definition identity : M W IdentityOutput := _call (str "identity") [].
Definition resolve (arg : ResolveInput) : M W ResolveOutput := _call (str "resolve") (tm_dump arg).
Definition contacts (arg : option ContactsInput) : M W ContactsOutput :=
  _call (str "contacts") (tm_dump (default {| ci_query := None |} arg)).
Definition contact_detail (arg : ContactDetailInput) : M W ContactDetailOutput :=
  _call (str "contact_detail") (tm_dump arg).
Definition add_contact (arg : AddContactInput) : M W AddContactOutput := _call (str "add_contact") (tm_dump arg).
Definition grant (arg : GrantInput) : M W GrantOutput := _call (str "grant") (tm_dump arg).
Definition set_contact_profile (arg : SetContactProfileInput) : M W SetContactProfileOutput :=
  _call (str "set_contact_profile") (tm_dump arg).
Definition send (arg : SendInput) : M W SendOutput := _call (str "send") (tm_dump arg).
Definition respond (arg : RespondInput) : M W RespondOutput := _call (str "respond") (tm_dump arg).

Definition inbox (arg : option InboxInput) : M W InboxOutput :=
  _call (str "inbox") (tm_dump (default InboxInput_default arg)).
Definition inbox_wait (arg : option InboxWaitInput) : M W InboxWaitOutput :=
  _call (str "inbox_wait") (tm_dump (default {| iwi_timeout_seconds := None; iwi_last_event_id := None |} arg)).
End client.

(** ** Properties *)

(** A sidecar that serves a tool: it reads the arguments with the input model,
    runs the tool and writes the answer with the output model. *)
Definition serves `{Pydantic} {W A B} `{ToolModel A} `{ToolModel B} (call_tool : pystr → pydict → M W CallToolResult)
    (name : pystr) (tool : A → W → W * B) : Prop :=
  ∀ args (a : A) w, tm_validate (JDict args) = Ok a →
    call_tool name args w =
      ((tool a w).1, Ok {| isError := false; structuredContent := Some (tm_dump (tool a w).2); content_texts := [] |}).

(** The sidecar's tools, as the client's users see them. *)
Record Sidecar (W : Type) := {
  sc_identity : W → W * IdentityOutput;
  sc_resolve : ResolveInput → W → W * ResolveOutput;
  sc_contacts : ContactsInput → W → W * ContactsOutput;
  sc_contact_detail : ContactDetailInput → W → W * ContactDetailOutput;
  sc_add_contact : AddContactInput → W → W * AddContactOutput;
  sc_grant : GrantInput → W → W * GrantOutput;
  sc_set_contact_profile : SetContactProfileInput → W → W * SetContactProfileOutput;
  sc_send : SendInput → W → W * SendOutput;
  sc_respond : RespondInput → W → W * RespondOutput;
  sc_inbox : InboxInput → W → W * InboxOutput;
  sc_inbox_wait : InboxWaitInput → W → W * InboxWaitOutput;
}.
Arguments sc_identity {W} _ _.
Arguments sc_resolve {W} _ _ _.
Arguments sc_contacts {W} _ _ _.
Arguments sc_contact_detail {W} _ _ _.
Arguments sc_add_contact {W} _ _ _.
Arguments sc_grant {W} _ _ _.
Arguments sc_set_contact_profile {W} _ _ _.
Arguments sc_send {W} _ _ _.
Arguments sc_respond {W} _ _ _.
Arguments sc_inbox {W} _ _ _.
Arguments sc_inbox_wait {W} _ _ _.

Class Serves `{Pydantic} `{PydanticBool} {W} (call_tool : pystr → pydict → M W CallToolResult) (sc : Sidecar W) : Prop := {
  sv_identity args w :
    call_tool (str "identity") args w =
      ((sc_identity sc w).1,
       Ok {| isError := false; structuredContent := Some (tm_dump (sc_identity sc w).2); content_texts := [] |});
  sv_resolve : serves call_tool (str "resolve") (sc_resolve sc);
  sv_contacts : serves call_tool (str "contacts") (sc_contacts sc);
  sv_contact_detail : serves call_tool (str "contact_detail") (sc_contact_detail sc);
  sv_add_contact : serves call_tool (str "add_contact") (sc_add_contact sc);
  sv_grant : serves call_tool (str "grant") (sc_grant sc);
  sv_set_contact_profile : serves call_tool (str "set_contact_profile") (sc_set_contact_profile sc);
  sv_send : serves call_tool (str "send") (sc_send sc);
  sv_respond : serves call_tool (str "respond") (sc_respond sc);
  sv_inbox : serves call_tool (str "inbox") (sc_inbox sc);
  sv_inbox_wait : serves call_tool (str "inbox_wait") (sc_inbox_wait sc);
}.

Section client_properties.
Context `{PyUnicode} `{Pydantic} `{PydanticBool} {W : Type}.
Context (call_tool : pystr → pydict → M W CallToolResult).

Lemma tm_validate_dump `{ToolModelLaws A} (a : A) : tm_wf a → tm_validate (JDict (tm_dump a)) = Ok a.
Proof. intros Ha. unfold tm_validate, model_validate. by rewrite tm_read. Qed.

Lemma call_answered `{ToolModelLaws B} name payload w w' (b : B) :
  call_tool name payload w =
    (w', Ok {| isError := false; structuredContent := Some (tm_dump b); content_texts := [] |}) →
  tm_wf b → _call call_tool name payload w = (w', Ok b).
Proof.
  intros Hc Hb. unfold _call. rewrite (M_bind_run _ _ _ _ _ Hc). unfold lift, read_result.
  cbn [isError structuredContent raise_if of_option mbind result_bind]. by rewrite tm_validate_dump.
Qed.

(** [x] is the answer [r], where the model can carry it. *)
Definition answers `{ToolModelLaws B} (x : W * result B) (r : W * B) : Prop := tm_wf r.2 → x = (r.1, Ok r.2).

Lemma call_served `{ToolModelLaws A, ToolModelLaws B} name (tool : A → W → W * B) a w :
  serves call_tool name tool → tm_wf a → answers (_call call_tool name (tm_dump a) w) (tool a w).
Proof. intros Hs Ha Hb. apply call_answered; [|done]. by apply Hs, tm_validate_dump. Qed.

(** C33: the client refines the typed interface of a sidecar that uses the same
    models: each method runs its tool once, on the arguments of the call, and
    returns the tool's answer; methods without argument use the defaults. *)
Theorem client_refines_sidecar (sc : Sidecar W) :
  Serves call_tool sc →
  ∀ w,
  answers (identity call_tool w) (sc_identity sc w)
  ∧ (∀ a, tm_wf a → answers (resolve call_tool a w) (sc_resolve sc a w))
  ∧ (∀ a, tm_wf a → answers (contacts call_tool (Some a) w) (sc_contacts sc a w))
  ∧ (∀ a, tm_wf a → answers (contact_detail call_tool a w) (sc_contact_detail sc a w))
  ∧ (∀ a, tm_wf a → answers (add_contact call_tool a w) (sc_add_contact sc a w))
  ∧ (∀ a, tm_wf a → answers (grant call_tool a w) (sc_grant sc a w))
  ∧ (∀ a, tm_wf a → answers (set_contact_profile call_tool a w) (sc_set_contact_profile sc a w))
  ∧ (∀ a, tm_wf a → answers (send call_tool a w) (sc_send sc a w))
  ∧ (∀ a, tm_wf a → answers (respond call_tool a w) (sc_respond sc a w))
  ∧ (∀ a, tm_wf a → answers (inbox call_tool (Some a) w) (sc_inbox sc a w))
  ∧ (∀ a, tm_wf a → answers (inbox_wait call_tool (Some a) w) (sc_inbox_wait sc a w))
  ∧ answers (inbox call_tool None w) (sc_inbox sc InboxInput_default w).
Proof.
  intros Hs w. split_and!.
  1: intros Hb; apply call_answered; [apply sv_identity|done].
  all: intros; apply call_served; [apply Hs|done].
Qed.

(** Whatever the sidecar answers, a call raises [ToolError] or what the session
    raised. *)
Lemma call_errors `{ToolModelLaws T} name payload w w' e :
  _call (T := T) call_tool name payload w = (w', Raise e) →
  call_tool name payload w = (w', Raise e) ∨ ∃ msg, e = ToolError msg.
Proof.
  unfold _call, mbind, M_bind. destruct (call_tool name payload w) as [w1 [r|e1]]; [|intros [= <- <-]; by left].
  intros [= <- Hr]. right. unfold read_result, raise_if in Hr. destruct (isError r); cbn [mbind result_bind] in Hr; [res_inv; eauto|].
  destruct (structuredContent r) as [d|]; cbn [of_option mbind result_bind] in Hr; [|res_inv; eauto].
  assert (only_invalid (tm_validate (A := T) (JDict d))) as Hv by (apply only_invalid_model, tm_errors).
  destruct (tm_validate (A := T) (JDict d)) as [t|e1]; cbn [rethrow] in Hr; [done|].
  rewrite (Hv e1 eq_refl) in Hr. res_inv. eauto.
Qed.
End client_properties.

(** ** Examples *)

#[local] Existing Instance ascii_unicode.
#[local] Existing Instance strict_pydantic.
#[local] Existing Instance strict_bool.

(** A session with a sidecar. *)
Definition answer {W B} `{ToolModel B} (r : W * B) : W * result CallToolResult :=
  (r.1, Ok {| isError := false; structuredContent := Some (tm_dump r.2); content_texts := [] |}).

Definition serve {W A B} `{ToolModel A} `{ToolModel B} (tool : A → W → W * B) (args : pydict) : M W CallToolResult := λ w,
  match tm_validate (JDict args) with
  | Ok a => answer (tool a w)
  | Raise _ => (w, Ok {| isError := true; structuredContent := None; content_texts := [Some (str "bad arguments")] |})
  end.

Definition session {W} (sc : Sidecar W) (name : pystr) (args : pydict) : M W CallToolResult :=
  if bool_decide (name = str "identity") then λ w, answer (sc_identity sc w)
  else if bool_decide (name = str "resolve") then serve (sc_resolve sc) args
  else if bool_decide (name = str "contacts") then serve (sc_contacts sc) args
  else if bool_decide (name = str "contact_detail") then serve (sc_contact_detail sc) args
  else if bool_decide (name = str "add_contact") then serve (sc_add_contact sc) args
  else if bool_decide (name = str "grant") then serve (sc_grant sc) args
  else if bool_decide (name = str "set_contact_profile") then serve (sc_set_contact_profile sc) args
  else if bool_decide (name = str "send") then serve (sc_send sc) args
  else if bool_decide (name = str "respond") then serve (sc_respond sc) args
  else if bool_decide (name = str "inbox") then serve (sc_inbox sc) args
  else if bool_decide (name = str "inbox_wait") then serve (sc_inbox_wait sc) args
  else λ w, (w, Ok {| isError := true; structuredContent := None; content_texts := [] |}).

Lemma session_serves {W} (sc : Sidecar W) : Serves (session sc) sc.
Proof.
  split; [done|..]; intros args a w Ha; unfold session; cbv [bool_decide]; vm_compute (decide _); cbv iota;
    unfold serve; by rewrite Ha.
Qed.

(** A sidecar that keeps what is sent. *)
Definition demo_sidecar : Sidecar (list SendInput) := {|
  sc_identity w := (w, {| io_shadowname := str "alice@example.org"; io_pk := str "pk"; io_credentials := [] |});
  sc_resolve a w := (w, {| ro_shadowname := ri_name a; ro_pk := str "pk"; ro_endpoint := str "https://example.org" |});
  sc_contacts _ w := (w, {| co_contacts := [] |});
  sc_contact_detail a w :=
    (w, {| cdo_shadowname := cdi_name a; cdo_display_name := None; cdo_pk := str "pk";
           cdo_endpoint := str "https://example.org"; cdo_grants := []; cdo_credentials := [];
           cdo_profile := None; cdo_added_at := str "2025-01-01"; cdo_last_seen := None |});
  sc_add_contact a w := (w, {| aco_shadowname := aci_name a; aco_trust_warning := None |});
  sc_grant _ w := (w, {| go_ok := true |});
  sc_set_contact_profile _ w := (w, {| spo_ok := true |});
  sc_send a w :=
    (w ++ [a], {| so_message_id := str "m1"; so_context_id := str "c1"; so_status := str "accepted"; so_error := None |});
  sc_respond _ w := (w, {| rso_message_id := str "m2"; rso_status := str "accepted"; rso_error := None |});
  sc_inbox _ w := (w, {| ino_items := []; ino_next_since := None |});
  sc_inbox_wait _ w := (w, {| iwo_events := []; iwo_next_event_id := Some (str "e1"); iwo_extra := [] |});
|}.

Definition demo_send : SendInput := {|
  si_to := str "bob@example.org"; si_context_id := Some (str "c1");
  si_body := {| bs_text := Some (str "hi"); bs_intent := None; bs_data := None; bs_extra := [] |} |}.

Lemma client_refines_sidecar_witness :
  Serves (session demo_sidecar) demo_sidecar
  ∧ ∃ o, send (session demo_sidecar) demo_send [] = ([demo_send], Ok o).
Proof.
  split; [apply session_serves|]. eexists.
  apply (client_refines_sidecar (session demo_sidecar) demo_sidecar (session_serves demo_sidecar) []).
  - split; [by constructor|done].
  - left.
Defined.
