(* ===== verification/Inbox.v ===== *)
(** * The long-poll loop over [inbox_wait]

    The loop both plugins run: ask for the events after the last one seen, keep
    the cursor, handle the events; on an error wait and ask again.  [polls n] is
    the loop [while True] cut after [n] rounds.  What the sidecar promises is the
    class [InboxFeed]; against it the loop handles every event exactly once, in
    order. *)

From S2P Require Import Prelude PyStr Jcs Dicts Pydantic Mcp.

Section poll.
Context {W : Type} (inbox_wait : InboxWaitInput → M W InboxWaitOutput) (sleep : Z → M W unit).
Context (handle : pydict → M W unit) (timeout_seconds : Z).

Fixpoint for_events (events : list pydict) : M W unit :=
  match events with
  | [] => mret tt
  | event :: events => _ ← handle event; for_events events
  end.

(** [next_event_id or last_event_id] *)
Definition advance (next last : option pystr) : option pystr :=
  match next with Some (c :: id) => Some (c :: id) | _ => last end.

Definition poll (last_event_id : option pystr) : M W (option pystr) := λ w,
  match inbox_wait {| iwi_timeout_seconds := Some timeout_seconds; iwi_last_event_id := last_event_id |} w with
  | (w, Raise exc) => if is_Exception exc then (_ ← sleep 5; mret last_event_id) w else (w, Raise exc)
  | (w, Ok result) =>
      (_ ← for_events (iwo_events result); mret (advance (iwo_next_event_id result) last_event_id)) w
  end.

Fixpoint polls (rounds : nat) (last_event_id : option pystr) : M W (option pystr) :=
  match rounds with
  | O => mret last_event_id
  | S rounds => last ← poll last_event_id; polls rounds last
  end.
End poll.

(** ** The sidecar's promise *)

(** A log of events with their ids. *)
Abbreviation event_log := (list (pystr * pydict)).

(** [c] is the cursor after the first [n] events. *)
Definition cursor_at (log : event_log) (n : nat) (c : option pystr) : Prop :=
  match n with
  | O => c = None
  | S m => ∃ id ev, log !! m = Some (id, ev) ∧ id ≠ [] ∧ c = Some id
  end.

(** The sidecar keeps its events in a log that only grows.  A call returns the
    next events after the cursor with the id of the last of them; it returns no
    event only when there is none.  A call may fail, [failures] bounds how
    often. *)
Class InboxFeed {W : Type} (inbox_wait : InboxWaitInput → M W InboxWaitOutput)
    (log : W → event_log) (failures : W → nat) : Prop := {
  feed_grows a w w' r : inbox_wait a w = (w', r) → log w `prefix_of` log w';
  feed_failures a w w' r : inbox_wait a w = (w', r) → (failures w' ≤ failures w)%nat;
  feed_raises a w w' e :
    inbox_wait a w = (w', Raise e) → is_Exception e = true → (failures w' < failures w)%nat;
  feed_events a w w' out n :
    inbox_wait a w = (w', Ok out) → cursor_at (log w) n (iwi_last_event_id a) →
    ∃ k, (n + k ≤ length (log w'))%nat
      ∧ iwo_events out = map snd (take k (drop n (log w')))
      ∧ (k = O → iwo_next_event_id out = None ∧ n = length (log w'))
      ∧ (k ≠ O → cursor_at (log w') (n + k) (iwo_next_event_id out));
}.

(** A handler that appends [note event] to what [seen] shows, for the events in
    [good]. *)
Class Notes {W X : Type} (handle : pydict → M W unit) (log : W → event_log) (failures : W → nat)
    (seen : W → list X) (good : pydict → Prop) (note : pydict → list X) : Prop := {
  notes_log ev w w' r : handle ev w = (w', r) → log w' = log w ∧ failures w' = failures w;
  notes_seen ev w w' r : good ev → handle ev w = (w', r) → r = Ok tt ∧ seen w' = seen w ++ note ev;
}.

Section exactly_once.
Context {W X : Type} (inbox_wait : InboxWaitInput → M W InboxWaitOutput) (sleep : Z → M W unit).
Context (handle : pydict → M W unit) (timeout : Z).
Context (log : W → event_log) (failures : W → nat) (seen : W → list X).
Context (good : pydict → Prop) (note : pydict → list X).
Context `{!InboxFeed inbox_wait log failures, !Notes handle log failures seen good note}.
Context (Hwait : ∀ a w w' r, inbox_wait a w = (w', r) → seen w' = seen w).
Context (Hsleep : ∀ w, ∃ w', sleep 5 w = (w', Ok tt) ∧ log w' = log w ∧ failures w' = failures w ∧ seen w' = seen w).

(** The events up to position [n] were noted, [old] was there before. *)
Definition noted (old : list X) (n : nat) (w : W) : Prop :=
  (n ≤ length (log w))%nat ∧ seen w = old ++ concat (map (λ e, note e.2) (take n (log w))).

Lemma for_events_notes evs w w' r :
  Forall good evs → for_events handle evs w = (w', r) →
  r = Ok tt ∧ log w' = log w ∧ failures w' = failures w ∧ seen w' = seen w ++ concat (map note evs).
Proof.
  intros Hg. revert w. induction Hg as [|ev evs Hev _ IH]; intros w; cbn [for_events].
  - intros [= <- <-]. cbn. by rewrite app_nil_r.
  - unfold mbind, M_bind. destruct (handle ev w) as [w1 r1] eqn:E. pose proof (notes_log _ _ _ _ E) as [Hl Hf].
    destruct (notes_seen _ _ _ _ Hev E) as [-> Hs]. intros H'. apply IH in H' as (-> & -> & -> & Hs').
    rewrite Hs', Hs, <-app_assoc. done.
Qed.

Lemma cursor_grows l l' n c : cursor_at l n c → l `prefix_of` l' → cursor_at l' n c.
Proof.
  destruct n as [|m]; cbn; [done|]. intros (id & ev & Hm & Hid & ->) Hp. exists id, ev. split_and!; try done.
  by eapply prefix_lookup_Some.
Qed.

Lemma cursor_len l n c : cursor_at l n c → (n ≤ length l)%nat.
Proof. destruct n as [|m]; [lia|]. intros (id & ev & Hm & _). apply lookup_lt_Some in Hm. lia. Qed.

Lemma advance_cursor l n c last : cursor_at l n c → n ≠ O → advance c last = c.
Proof. destruct n; [done|]. intros (id & ev & _ & Hid & ->) _. by destruct id. Qed.

Lemma for_events_log evs w w' r :
  for_events handle evs w = (w', r) → log w' = log w ∧ failures w' = failures w.
Proof.
  revert w. induction evs as [|ev evs IH]; intros w; cbn [for_events]; [by intros [= <- <-]|].
  unfold mbind, M_bind. destruct (handle ev w) as [w1 [[]|e]] eqn:E; destruct (notes_log _ _ _ _ E) as [Hl Hf].
  - intros [-> ->]%IH. by rewrite Hl, Hf.
  - by intros [= <- <-].
Qed.

Lemma poll_log last w w' r :
  poll inbox_wait sleep handle timeout last w = (w', r) →
  log w `prefix_of` log w' ∧ (failures w' ≤ failures w)%nat.
Proof.
  unfold poll. destruct (inbox_wait _ w) as [w1 [out|e]] eqn:E;
    pose proof (feed_grows _ _ _ _ E) as Hp; pose proof (feed_failures _ _ _ _ E) as Hf.
  - unfold mbind, M_bind. destruct (for_events _ _ _) as [w2 r2] eqn:E2.
    destruct (for_events_log _ _ _ _ E2) as [Hl Hf2].
    intros Hr. assert (w' = w2) as -> by (destruct r2; by injection Hr). rewrite Hl, Hf2. done.
  - destruct (is_Exception e); [|by intros [= <- <-]].
    destruct (Hsleep w1) as (w2 & Hw2 & Hl & Hf2 & _). rewrite (M_bind_run _ _ _ _ _ Hw2). intros [= <- <-].
    by rewrite Hl, Hf2.
Qed.

Lemma polls_log rounds last w w' r :
  polls inbox_wait sleep handle timeout rounds last w = (w', r) → log w `prefix_of` log w'.
Proof.
  revert last w. induction rounds as [|rounds IH]; intros last w; cbn [polls]; [by intros [= <- <-]|].
  unfold mbind, M_bind. destruct (poll _ _ _ _ _ w) as [w1 [last1|e]] eqn:E; apply poll_log in E as [Hp _].
  - intros Hr%IH. by transitivity (log w1).
  - by intros [= <- <-].
Qed.

(** One round. *)
Lemma poll_notes old n last w w' r :
  Forall (λ e, good e.2) (log w') → cursor_at (log w) n last → noted old n w →
  poll inbox_wait sleep handle timeout last w = (w', r) →
  ∃ n', (n ≤ n')%nat ∧ noted old n' w'
    ∧ (∀ last', r = Ok last' → cursor_at (log w') n' last' ∧
         ((failures w' < failures w)%nat ∨ (n < n')%nat ∨ n = length (log w')))
    ∧ (∀ e, r = Raise e → is_Exception e = false).
Proof.
  intros Hgood Hc [Hn Hs]. unfold poll. set (a := {| iwi_timeout_seconds := _; iwi_last_event_id := _ |}).
  destruct (inbox_wait a w) as [w1 x] eqn:E.
  pose proof (feed_grows _ _ _ _ E) as Hp. pose proof (feed_failures _ _ _ _ E) as Hf. pose proof (Hwait _ _ _ _ E) as Hs1.
  assert (noted old n w1) as Hn1.
  { destruct Hp as [t Ht]. split; [rewrite Ht, length_app; lia|]. rewrite Hs1, Hs, Ht. by rewrite take_app_le by lia. }
  destruct x as [out|e].
  - destruct (feed_events (log := log) (failures := failures) a w w1 out n E Hc) as (k & Hk & Hev & H0 & Hk0).
    unfold mbind, M_bind. destruct (for_events handle (iwo_events out) w1) as [w2 r2] eqn:E2.
    destruct (for_events_log _ _ _ _ E2) as [Hl Hf2]. intros Hr.
    assert (w' = w2) as -> by (destruct r2; by injection Hr). rewrite Hl in Hgood.
    apply for_events_notes in E2 as (-> & _ & _ & Hs2); [|rewrite Hev; by apply Forall_map, Forall_take, Forall_drop].
    injection Hr as <-. exists (n + k)%nat. split_and!; [lia| | |done].
    + split; [by rewrite Hl|]. destruct Hn1 as [_ Hn1]. rewrite Hs2, Hn1, Hev, Hl, <-app_assoc. f_equal.
      by rewrite <-take_take_drop, map_app, concat_app, map_map.
    + intros last' [= <-]. rewrite Hl. destruct (decide (k = O)) as [->|Hk'].
      * destruct (H0 eq_refl) as [-> Hlen]. rewrite Nat.add_0_r. split; [by eapply cursor_grows|auto].
      * pose proof (Hk0 Hk') as Hcur. rewrite (advance_cursor (log w1) (n + k)) by (done || lia). split; [done|lia].
  - destruct (is_Exception e) eqn:Ee.
    + destruct (Hsleep w1) as (w2 & Hw2 & Hl & Hf2 & Hs2). rewrite (M_bind_run _ _ _ _ _ Hw2). intros [= <- <-].
      exists n. destruct Hn1. split_and!; [lia|by split; rewrite ?Hs2, Hl| |done].
      intros last' [= <-]. rewrite Hl, Hf2. split; [by eapply cursor_grows|]. left. by eapply feed_raises.
    + intros [= <- <-]. exists n. split_and!; [lia|done|done|by intros ? [= <-]].
Qed.

(** Any number of rounds: what was seen is the notes of a prefix of the log,
    each event once; rounds enough for the first [len] events and for the
    failures there may be note all of these. *)
Lemma polls_notes rounds old n last w w' r len :
  Forall (λ e, good e.2) (log w') → cursor_at (log w) n last → noted old n w →
  polls inbox_wait sleep handle timeout rounds last w = (w', r) →
  ∃ n', noted old n' w' ∧ (n ≤ n')%nat
    ∧ (is_ok r = true → (len ≤ length (log w))%nat → (len + failures w ≤ rounds + n)%nat → (len ≤ n')%nat)
    ∧ (∀ e, r = Raise e → is_Exception e = false).
Proof.
  intros Hgood. revert n last w. induction rounds as [|rounds IH]; intros n last w Hc Hn; cbn [polls].
  - intros [= <- <-]. exists n. split_and!; [done|lia|lia|done].
  - unfold mbind, M_bind. destruct (poll inbox_wait sleep handle timeout last w) as [w1 r1] eqn:E. intros H'.
    assert (log w1 `prefix_of` log w') as Hp'.
    { destruct r1; [by eapply polls_log|by injection H' as <- _]. }
    assert (Forall (λ e, good e.2) (log w1)) as Hg1 by (destruct Hp' as [t Ht]; rewrite Ht in Hgood; by apply Forall_app in Hgood as [? _]).
    destruct (poll_notes old n last w w1 r1 Hg1 Hc Hn E) as (n1 & Hle & Hn1 & Hok & Hra).
    apply poll_log in E as [Hp%prefix_length Hf].
    destruct r1 as [last1|e]; [|injection H' as <- <-; exists n1; split_and!; [done|lia|done|by intros ? [= <-]; apply Hra]].
    destruct (Hok last1 eq_refl) as [Hc1 Hprog]. destruct (IH n1 last1 w1 Hc1 Hn1 H') as (n' & Hn' & Hle' & Hlive & Hra').
    exists n'. split_and!; [done|lia| |done]. intros Hr Hlen Hrounds. destruct (decide (len ≤ n1)%nat); [lia|].
    apply Hlive; [done|lia|]. lia.
Qed.
End exactly_once.

(** ** A sidecar that keeps the promise

    Its events are numbered; the next calls may fail. *)

Definition numbered (w : list pydict * nat) : event_log := imap (λ i ev, ([Z.of_nat i], ev)) w.1.

Definition position (c : option pystr) : nat :=
  match c with Some (i :: _) => S (Z.to_nat i) | _ => O end.

Definition numbered_wait (a : InboxWaitInput) : M (list pydict * nat) InboxWaitOutput := λ '(events, failures),
  match failures with
  | S failures => ((events, failures), Raise HTTPError)
  | O =>
      let pending := drop (position (iwi_last_event_id a)) events in
      ((events, O),
       Ok {| iwo_events := pending;
             iwo_next_event_id := match pending with [] => None | _ => Some [Z.of_nat (length events - 1)] end;
             iwo_extra := [] |})
  end.

Lemma numbered_lookup w i : numbered w !! i = (λ ev, ([Z.of_nat i], ev)) <$> w.1 !! i.
Proof. unfold numbered. by rewrite list_lookup_imap. Qed.

Lemma numbered_snd w : map snd (numbered w) = w.1.
Proof.
  apply list_eq. intros i. rewrite list_lookup_fmap, numbered_lookup. by destruct (w.1 !! i).
Qed.

Lemma numbered_length w : length (numbered w) = length w.1.
Proof. apply length_imap. Qed.

Lemma cursor_position w n c : cursor_at (numbered w) n c → position c = n.
Proof.
  destruct n as [|m]; cbn; [by intros ->|]. intros (id & ev & Hm & _ & ->). rewrite numbered_lookup in Hm.
  destruct (w.1 !! m); [|done]. injection Hm as <- _. cbn. lia.
Qed.

Lemma numbered_feed : InboxFeed numbered_wait numbered snd.
Proof.
  split.
  - intros a [events [|f]] w' r; by intros [= <- <-].
  - intros a [events [|f]] w' r; intros [= <- <-]; cbn; lia.
  - intros a [events [|f]] w' e; [by intros [=]|]. intros [= <- _] _. cbn. lia.
  - intros a [events [|f]] w' out n; [|by intros [=]]. intros [= <- <-] Hc. rewrite (cursor_position _ _ _ Hc).
    assert (n ≤ length events)%nat as Hn.
    { apply cursor_len in Hc. by rewrite numbered_length in Hc. }
    exists (length events - n)%nat. rewrite numbered_length. cbn [fst iwo_events iwo_next_event_id].
    split_and!; [lia| | |].
    + rewrite take_ge by (rewrite length_drop, numbered_length; cbn; lia).
      by rewrite <-skipn_map, numbered_snd.
    + intros Hk. rewrite drop_ge by lia. split; [done|lia].
    + intros Hk. destruct (drop n events) eqn:E.
      { apply (f_equal length) in E. rewrite length_drop in E. cbn in E. lia. }
      replace (n + (length events - n))%nat with (S (length events - 1)) by lia.
      destruct (lookup_lt_is_Some_2 events (length events - 1)) as [ev Hev]; [lia|].
      exists [Z.of_nat (length events - 1)], ev. rewrite numbered_lookup. cbn [fst]. by rewrite Hev.
Qed.
