(* ===== verification/Monitor.v ===== *)
(** * The inbound monitor — [claude-code/monitors/inbound.py]

    The process that shows inbound messages to the host session: its
    configuration from the environment, the long-poll loop, one line of JSON on
    standard output per message, and the desktop notification.  The environment,
    the keyring, the platform and the MCP session are parameters; what was
    written and which commands were run is the world [Mon]. *)

From S2P Require Import Prelude PyStr PyInt Jcs Dicts PyJson PyRepr Pydantic A2A Url Onboarding Payment Mcp Inbox.

(** ** Text *)

(** [v or d] *)
Definition py_or (v : option json) (d : json) : json :=
  match v with Some v => if truthy v then v else d | None => d end.

(** [s.replace(c, w)] for one character [c]. *)
Definition replace_char (c : Z) (w : pystr) (s : pystr) : pystr := concat (map (λ x, if x =? c then w else [x]) s).

Definition _escape_for_applescript (s : pystr) : pystr := replace_char 34 [92; 34] (replace_char 92 [92; 92] s).
Definition _escape_for_powershell (s : pystr) : pystr := replace_char 34 [96; 34] (replace_char 96 [96; 96] s).

(** [text[: limit - 1] + "…"]; of the other types [len] and the slice raise,
    or short containers come back as they are. *)
Definition _truncate (text : json) (limit : Z) : result json :=
  match text with
  | JStr s => Ok (JStr (if py_len s <=? limit then s else take (Z.to_nat (limit - 1)) s ++ [0x2026]))
  | JList l => if py_len l <=? limit then Ok text else Raise TypeError
  | JDict d => if py_len d <=? limit then Ok text else Raise KeyError
  | _ => Raise TypeError
  end.

(** ** The world *)

Record Mon (S : Type) := {
  mn_stdout : list pystr;
  mn_commands : list (list pystr);
  mn_side : S;
}.
Arguments mn_stdout {S} _.
Arguments mn_commands {S} _.
Arguments mn_side {S} _.

Section monitor.
Context `{PyUnicode} `{PyNfkc} {S : Type}.
(** [os.environ.get], [sys.platform], [shutil.which(c) is not None]. *)
Context (environ : pystr → option pystr) (platform : pystr) (which : pystr → bool).
(** [keyring.get_password], where the package is installed. *)
Context (keyring : option (pystr → pystr → result (option pystr))).
(** The session's [identity] and [inbox_wait]. *)
Context (identity : M S unit) (inbox_wait : InboxWaitInput → M S InboxWaitOutput).

Definition on_side {A} (m : M S A) : M (Mon S) A := λ w,
  let '(s, r) := m (mn_side w) in
  ({| mn_stdout := mn_stdout w; mn_commands := mn_commands w; mn_side := s |}, r).

(** [print(line, flush=True)] to a UTF-8 stream. *)
Definition print (line : pystr) : M (Mon S) unit := λ w,
  match encode_utf8 line with
  | Ok _ => ({| mn_stdout := mn_stdout w ++ [line]; mn_commands := mn_commands w; mn_side := mn_side w |}, Ok tt)
  | Raise e => (w, Raise e)
  end.

(** [subprocess.run]; its failures are caught by the only caller. *)
Definition _run (cmd : list pystr) : M (Mon S) unit := λ w,
  ({| mn_stdout := mn_stdout w; mn_commands := mn_commands w ++ [cmd]; mn_side := mn_side w |}, Ok tt).

(** ** Configuration *)

Definition _KEYRING_SERVICE : pystr := str "shadownet-claude-code-plugin".

Fixpoint _env_first (names : list pystr) (default : pystr) : pystr :=
  match names with
  | [] => default
  | name :: names =>
      match environ name with
      | Some (c :: value) => c :: value
      | _ => _env_first names default
      end
  end.

Definition _cached_access_token (handoff_code : pystr) : option pystr :=
  match keyring with
  | None => None
  | Some get_password =>
      match get_password _KEYRING_SERVICE handoff_code with
      | Ok token => token
      | Raise _ => None
      end
  end.

Definition resolve_token : result (pystr * pystr) :=
  match _env_first [str "CLAUDE_PLUGIN_OPTION_CONNECT_URL"; str "SHADOWNET_CONNECT_URL"] [] with
  | [] => Ok (_env_first [str "SHADOWNET_MCP_ENDPOINT"] [], _env_first [str "SHADOWNET_TOKEN"] [])
  | connect_url =>
      parsed ← parse_connect_uri connect_url;
      token ← (if is_inline parsed
               then of_option (OtherException (str "AssertionError")) (cu_access_token parsed)
               else
                 code ← of_option (OtherException (str "AssertionError")) (cu_handoff_code parsed);
                 match _cached_access_token code with
                 | None | Some [] => Raise RuntimeError
                 | Some cached => Ok cached
                 end);
      Ok (cu_mcp_endpoint parsed, token)
  end.

Definition _resolve_endpoint_and_token : result (pystr * pystr * Z * bool) :=
  '(mcp_endpoint, token) ← resolve_token;
  _ ← raise_if (bool_decide (token = [])) RuntimeError;
  _ ← raise_if (bool_decide (mcp_endpoint = [])) RuntimeError;
  timeout ← rethrow is_ValueError (λ _, RuntimeError) (py_int (_env_first [str "SHADOWNET_LONG_POLL_TIMEOUT"] (str "30")));
  let os_notif := bool_decide (_env_first [str "SHADOWNET_OS_NOTIFICATIONS"] (str "1") = str "1") in
  Ok (mcp_endpoint, token, Z.max 1 timeout, os_notif).

Definition _FALSY_OVERRIDES : list pystr := [str "0"; str "false"; str "no"; str "off"].

Definition _inbound_enabled : bool :=
  forallb (λ var, negb (bool_decide (py_lower (strip (default [] (environ var))) ∈ _FALSY_OVERRIDES)))
    [str "CLAUDE_PLUGIN_OPTION_INBOUND_ENABLED"; str "SHADOWNET_INBOUND"].

(** ** Notifications *)

Definition notification_line (event_id sender summary : json) : pystr :=
  json_dumps_plain
    (JDict [(str "type", JStr (str "shadownet.inbox.message")); (str "event_id", event_id);
            (str "from", sender); (str "summary", summary)]).

Definition _emit_claude_notification (event_id sender body : json) : M (Mon S) unit :=
  summary ← lift (_truncate body 200);
  print (notification_line event_id sender summary).

(** The command of the platform; a summary that is no string makes the code
    raise inside the [try]. *)
Definition notify_command (title : pystr) (summary : json) : option (list pystr) :=
  if bool_decide (platform = str "darwin") && which (str "osascript") then
    match summary with
    | JStr s => Some [str "osascript"; str "-e";
                      str "display notification " ++ [34] ++ _escape_for_applescript s ++ [34; 32]
                      ++ str "with title " ++ [34] ++ _escape_for_applescript title ++ [34]]
    | _ => None
    end
  else if startswith (str "linux") platform && which (str "notify-send") then
    match summary with JStr s => Some [str "notify-send"; title; s] | _ => None end
  else if bool_decide (platform = str "win32") && which (str "powershell") then
    match summary with
    | JStr s => Some [str "powershell"; str "-NoProfile"; str "-Command";
                      str "[Windows.UI.Notifications.ToastNotificationManager,Windows.UI.Notifications,"
                      ++ str "ContentType=WindowsRuntime] > $null; "
                      ++ str "$title = " ++ [34] ++ _escape_for_powershell title ++ [34] ++ str "; "
                      ++ str "$body = " ++ [34] ++ _escape_for_powershell s ++ [34] ++ str "; "
                      ++ str "Write-Host " ++ [34] ++ str "$title : $body" ++ [34]]
    | _ => None
    end
  else None.

Definition _fire_os_notification (sender body : json) : M (Mon S) unit :=
  let title := str "Shadownet " ++ [0x2014] ++ str " message from " ++ py_str sender in
  summary ← lift (_truncate body 200);
  match notify_command title summary with
  | Some cmd => _run cmd
  | None => mret tt
  end.

(** The body of the loop over [result.events]. *)
Definition monitor_event (os_notif : bool) (event : pydict) : M (Mon S) unit :=
  if negb (get_is_str (str "event") (str "inbox.message") event) then mret tt
  else
    match or_dict (dict_get (str "data") event) with
    | JDict data =>
        let sender := py_or (dict_get (str "from") data) (JStr (str "unknown")) in
        let summary := py_or (dict_get (str "intent") data) (JStr (str "(new message)")) in
        let event_id := py_or (dict_get (str "eventId") event) (py_or (dict_get (str "event_id") event) (JStr [])) in
        _ ← _emit_claude_notification event_id sender summary;
        if os_notif then _fire_os_notification sender summary else mret tt
    | _ => lift (Raise AttributeError)
    end.

(** [asyncio.sleep]: other tasks and the clock are not part of this world. *)
Definition sleep (_ : Z) : M (Mon S) unit := mret tt.

Definition _run_monitor (rounds : nat) (timeout : Z) (os_notif : bool) : M (Mon S) (option pystr) :=
  _ ← on_side identity;
  polls (λ a, on_side (inbox_wait a)) sleep (monitor_event os_notif) timeout rounds None.

(** The process has ended with a code, or runs after [rounds] rounds. *)
Definition main (rounds : nat) : M (Mon S) (Z + option pystr) :=
  if negb _inbound_enabled then mret (inl 0)
  else
    match _resolve_endpoint_and_token with
    | Ok (_, _, timeout, os_notif) => last ← _run_monitor rounds timeout os_notif; mret (inr last)
    | Raise RuntimeError | Raise ConnectURIError => mret (inl 1)
    | Raise e => lift (Raise e)
    end.
End monitor.

(** ** Lemmas *)

Lemma hex_digit_printable d : 0 ≤ d < 16 → 32 ≤ hex_digit d ≤ 126.
Proof. intros Hd. unfold hex_digit. case_match; bool_prop; lia. Qed.

Lemma ascii_escape_printable c : c < 32 ∨ c = 34 ∨ c = 92 → Forall (λ x, 32 ≤ x ≤ 126) (ascii_escape c).
Proof.
  intros Hc. unfold ascii_escape, hex4. repeat case_match; bool_prop; try (repeat constructor; lia).
  all: repeat constructor; try lia; apply hex_digit_printable, Z.mod_pos_bound; lia.
Qed.

Lemma plain_string_Forall (P : Z → Prop) s :
  (∀ c, 32 ≤ c ≤ 126 → P c) → Forall (λ c, 32 ≤ c → P c) s → Forall P (plain_string s).
Proof.
  intros HP Hs. unfold plain_string. repeat apply Forall_app_2; [by constructor; [apply HP; lia|]| |by constructor; [apply HP; lia|]].
  apply Forall_concat, Forall_map. eapply Forall_impl; [exact Hs|]. intros c Hc. unfold plain_escape. case_match eqn:E.
  - eapply Forall_impl; [|exact HP]. apply ascii_escape_printable. rewrite !orb_true_iff in E. bool_prop. lia.
  - bool_prop. constructor; [apply Hc; lia|done].
Qed.

(** A notification of strings is one line, and it can be written where the
    strings can. *)
Lemma notification_line_Forall (P : Z → Prop) id sender summary :
  (∀ c, 32 ≤ c ≤ 126 → P c) → Forall (λ c, 32 ≤ c → P c) (id ++ sender ++ summary) →
  Forall P (notification_line (JStr id) (JStr sender) (JStr summary)).
Proof.
  intros HP. rewrite !Forall_app. intros (Hid & Hsender & Hsummary).
  assert (∀ a : String.string, forallb (λ c, (32 <=? c) && (c <=? 126)) (str a) = true → Forall P (str a)) as Hstr.
  { intros a Ha. apply forallb_Forall in Ha. eapply Forall_impl; [exact Ha|]. intros c Hc. cbn beta in Hc. bool_prop. apply HP. lia. }
  assert (∀ a : String.string, forallb (λ c, (32 <=? c) && (c <=? 126)) (str a) = true → Forall P (plain_string (str a))) as Hpl.
  { intros a Ha. apply plain_string_Forall; [done|]. eapply Forall_impl; [by apply Hstr|]. done. }
  assert (∀ c, 32 ≤ c ≤ 126 → Forall P [c]) as H1 by (intros c Hc; constructor; auto).
  unfold notification_line. cbn [json_dumps_plain map join_with fst snd].
  rewrite !Forall_app. split_and!;
    first [by apply Hpl | by apply Hstr | by apply plain_string_Forall | apply H1; lia].
Qed.

(** ** What a message is shown as *)

Definition is_message (event : pydict) : bool := get_is_str (str "event") (str "inbox.message") event.

(** The id, sender and summary shown for an event, with the code's defaults. *)
Definition shown (event : pydict) : option (json * json * json) :=
  match or_dict (dict_get (str "data") event) with
  | JDict data =>
      Some (py_or (dict_get (str "eventId") event) (py_or (dict_get (str "event_id") event) (JStr [])),
            py_or (dict_get (str "from") data) (JStr (str "unknown")),
            py_or (dict_get (str "intent") data) (JStr (str "(new message)")))
  | _ => None
  end.

(** The events of RFC 0002: the fields shown are strings that UTF-8 can write. *)
Definition typed_event (event : pydict) : Prop :=
  is_message event = true →
  ∃ id sender summary, shown event = Some (JStr id, JStr sender, JStr summary)
    ∧ existsb is_surrogate (id ++ sender ++ summary) = false.

(** At most 200 characters, the last an ellipsis when something was cut. *)
Definition shorten (s : pystr) : pystr := if py_len s <=? 200 then s else take 199 s ++ [0x2026].

Definition lines_of (event : pydict) : list pystr :=
  if is_message event then
    match shown event with
    | Some (id, sender, JStr summary) => [notification_line id sender (JStr (shorten summary))]
    | _ => []
    end
  else [].

Lemma truncate_shorten s : _truncate (JStr s) 200 = Ok (JStr (shorten s)).
Proof. done. Qed.

Lemma shorten_length s : py_len (shorten s) ≤ 200.
Proof.
  unfold shorten, py_len. case_match; bool_prop; [lia|]. rewrite length_app, length_take. cbn [length]. lia.
Qed.

Lemma shorten_Forall (P : Z → Prop) s : P 0x2026 → Forall P s → Forall P (shorten s).
Proof.
  intros Hp Hs. unfold shorten. case_match; [done|]. apply Forall_app_2; [by apply Forall_take|by constructor].
Qed.

Lemma typed_lines event :
  typed_event event → Forall (λ l, Forall (λ c, 32 ≤ c) l ∧ existsb is_surrogate l = false) (lines_of event).
Proof.
  intros Ht. unfold lines_of. destruct (is_message event) eqn:E; [|done].
  destruct (Ht E) as (id & sender & summary & -> & Hs). constructor; [|done]. split.
  - apply notification_line_Forall; [lia|]. by apply Forall_true.
  - apply existsb_false_Forall in Hs. rewrite !Forall_app in Hs. destruct Hs as (H1 & H2 & H3).
    apply existsb_false_Forall, notification_line_Forall.
    + intros c Hc. unfold is_surrogate. apply andb_false_iff. rewrite !Z.leb_gt. lia.
    + rewrite !Forall_app. split_and!; [| |apply shorten_Forall; [done|]]; eapply Forall_impl; done.
Qed.

Section monitor_properties.
Context `{PyUnicode} `{PyNfkc} {S : Type}.
Context (platform : pystr) (which : pystr → bool) (os_notif : bool).
Context (inbox_wait : InboxWaitInput → M S InboxWaitOutput) (log : S → event_log) (failures : S → nat).

Abbreviation handle := (monitor_event (S := S) platform which os_notif).

(** Neither lines nor commands touch the session. *)
Definition same_side : relation (Mon S) := λ w w', mn_side w' = mn_side w.
#[local] Instance same_side_preorder : PreOrder same_side.
Proof. split; [done|]. unfold same_side. intros ???; congruence. Qed.

Lemma print_side line : keeps same_side (print (S := S) line).
Proof. intros w w' r. unfold print. case_match; by intros [= <- <-]. Qed.
Lemma run_side cmd : keeps same_side (_run (S := S) cmd).
Proof. by intros w w' r [= <- <-]. Qed.
#[local] Hint Resolve print_side run_side : shadownet.

Lemma monitor_event_side event : keeps same_side (handle event).
Proof.
  unfold monitor_event, _emit_claude_notification, _fire_os_notification. keep.
Qed.

(** A typed event is shown as its lines, and nothing is raised. *)
Lemma monitor_event_shows event w w' r :
  typed_event event → handle event w = (w', r) → r = Ok tt ∧ mn_stdout w' = mn_stdout w ++ lines_of event.
Proof.
  intros Ht. pose proof (typed_lines event Ht) as Hl. unfold monitor_event. fold (is_message event).
  unfold lines_of in *. destruct (is_message event) eqn:E; cbn [negb];
    [|intros [= <- <-]; by rewrite app_nil_r].
  destruct (Ht E) as (id & sender & summary & Hs & _). rewrite Hs in Hl |- *. unfold shown in Hs.
  destruct (or_dict _) as [| | | | | |data]; try done. injection Hs as -> -> ->.
  apply Forall_cons in Hl as [[_ Hl] _]. unfold _emit_claude_notification, _fire_os_notification. rewrite truncate_shorten.
  rewrite (M_bind_run _ _ w {| mn_stdout := mn_stdout w ++ [notification_line (JStr id) (JStr sender) (JStr (shorten summary))];
                               mn_commands := mn_commands w; mn_side := mn_side w |} tt).
  - destruct os_notif; [|by intros [= <- <-]]. rewrite (M_bind_lift _ _ _ _ eq_refl).
    destruct (notify_command _ _ _ _); cbv [_run mret M_ret]; by intros [= <- <-].
  - rewrite (M_bind_lift _ _ _ _ eq_refl). unfold print, encode_utf8. by rewrite Hl.
Qed.

Lemma feed_on_side :
  InboxFeed inbox_wait log failures →
  InboxFeed (λ a, on_side (inbox_wait a)) (λ w, log (mn_side w)) (λ w, failures (mn_side w)).
Proof.
  intros HF. split; unfold on_side; intros a w w' r; destruct (inbox_wait a (mn_side w)) as [s x] eqn:E.
  - intros [= <- <-]. by eapply feed_grows.
  - intros [= <- <-]. by eapply feed_failures.
  - intros [= <- ->]. by eapply feed_raises.
  - intros n [= <- ->]. by apply (feed_events (InboxFeed := HF) a).
Qed.

Lemma monitor_event_notes :
  Notes handle (λ w, log (mn_side w)) (λ w, failures (mn_side w)) mn_stdout typed_event lines_of.
Proof.
  split.
  - intros ev w w' r E. pose proof (monitor_event_side ev w w' r E) as Hs. unfold same_side in Hs. by rewrite Hs.
  - apply monitor_event_shows.
Qed.

Lemma on_side_stdout a w w' r : on_side (inbox_wait a) w = (w', r) → mn_stdout w' = mn_stdout w.
Proof. unfold on_side. case_match. by intros [= <- <-]. Qed.

Lemma sleep_quiet (w : Mon S) :
  ∃ w', sleep 5 w = (w', Ok tt) ∧ log (mn_side w') = log (mn_side w)
        ∧ failures (mn_side w') = failures (mn_side w) ∧ mn_stdout w' = mn_stdout w.
Proof. by exists w. Qed.

(** C32: the monitor shows every message once.  For a sidecar whose events are typed
    (the fields are absent or of their documented types) and whose identity call
    answers: after any number of rounds,
    whatever calls failed in between, standard output has one line of JSON for
    each message of a prefix of the sidecar's log, in order, and nothing else;
    no sender or intent adds a line or control characters of its own; rounds
    enough for the events there were and for the failing calls show all of these
    events.  Only a cancellation ends the loop. *)
Theorem monitor_shows_messages_once (identity : M S unit) (rounds : nat) (timeout : Z) (w w' : Mon S) r :
  InboxFeed inbox_wait log failures →
  (∀ s, ∃ s', identity s = (s', Ok tt) ∧ log s' = log s ∧ failures s' = failures s) →
  Forall (λ e, typed_event e.2) (log (mn_side w')) →
  _run_monitor platform which identity inbox_wait rounds timeout os_notif w = (w', r) →
  ∃ n,
    mn_stdout w' = mn_stdout w ++ concat (map (λ e, lines_of e.2) (take n (log (mn_side w'))))
    ∧ Forall (λ l, Forall (λ c, 32 ≤ c) l) (concat (map (λ e, lines_of e.2) (take n (log (mn_side w')))))
    ∧ (is_ok r = true → (length (log (mn_side w)) + failures (mn_side w) ≤ rounds)%nat →
       (length (log (mn_side w)) ≤ n)%nat)
    ∧ (∀ e, r = Raise e → is_Exception e = false).
Proof.
  intros HF Hid Hgood. pose proof feed_on_side HF as HF'. pose proof monitor_event_notes as HN.
  destruct (Hid (mn_side w)) as (s1 & Hs1 & Hl1 & Hf1). unfold _run_monitor.
  rewrite (M_bind_run _ _ w {| mn_stdout := mn_stdout w; mn_commands := mn_commands w; mn_side := s1 |} tt)
    by (unfold on_side; by rewrite Hs1).
  intros Hp. set (w1 := {| mn_stdout := _; mn_commands := _; mn_side := _ |}) in Hp.
  destruct (polls_notes (λ a, on_side (inbox_wait a)) sleep handle timeout (λ w, log (mn_side w))
              (λ w, failures (mn_side w)) mn_stdout typed_event lines_of on_side_stdout sleep_quiet
              rounds (mn_stdout w) O None w1 w' r (length (log (mn_side w))) Hgood eq_refl)
    as (n' & [_ Hn] & _ & Hlive & Hra); [|exact Hp|].
  { split; [lia|]. cbn. by rewrite app_nil_r. }
  exists n'. change (mn_side w1) with s1 in Hlive. rewrite Hl1, Hf1 in Hlive. split_and!; [exact Hn| |intros Hr Hle; apply Hlive; [done|lia|lia]|done].
  apply Forall_concat, Forall_map, Forall_take. eapply Forall_impl; [exact Hgood|]. intros e He.
  eapply Forall_impl; [by apply typed_lines|]. by intros l [? _].
Qed.
End monitor_properties.

(** ** Configuration *)

Lemma env_first_nonempty environ names default : default ≠ [] → _env_first environ names default ≠ [].
Proof. intros Hd. induction names as [|n names IH]; cbn; [done|]. by destruct (environ n) as [[]|]. Qed.

(** What the monitor starts with: an endpoint and a token, and a timeout of at
    least a second; with a connect URL, the endpoint is one it may name. *)
Lemma resolved_configuration `{PyUnicode} `{PyNfkc} environ keyring mcp_endpoint token timeout os_notif :
  _resolve_endpoint_and_token environ keyring = Ok (mcp_endpoint, token, timeout, os_notif) →
  mcp_endpoint ≠ [] ∧ token ≠ [] ∧ 1 ≤ timeout
  ∧ (_env_first environ [str "CLAUDE_PLUGIN_OPTION_CONNECT_URL"; str "SHADOWNET_CONNECT_URL"] [] ≠ [] →
     endpoint_allowed mcp_endpoint = true).
Proof.
  unfold _resolve_endpoint_and_token. intros Hr. apply bind_ok in Hr as ([e t] & Ht & Hr). res_inv.
  match goal with H : (_, _, _, _) = _ |- _ => injection H as <- <- <- <- end. bool_prop. split_and!; [done|done|lia|].
  unfold resolve_token in Ht. destruct (_env_first environ _ _) as [|c url]; [done|]. intros _. res_inv.
  match goal with H : (_, _) = _ |- _ => injection H as <- <- end. by eapply connect_uri_endpoint.
Qed.

(** ** Examples *)

#[local] Existing Instance ascii_unicode.

Definition demo_message (id sender intent : String.string) : pydict :=
  [(str "event", JStr (str "inbox.message")); (str "eventId", JStr (str id));
   (str "data", JDict [(str "from", JStr (str sender)); (str "intent", JStr (str intent))])].
Arguments demo_message (id sender intent)%_string_scope.
Definition demo_events : list pydict :=
  [demo_message "e1" "ann@acme.example" "hello"; [(str "event", JStr (str "task.update"))];
   demo_message "e2" "bob@acme.example" "lunch"].

Definition no_which (_ : pystr) : bool := false.
Definition demo_identity : M (list pydict * nat) unit := mret tt.
Definition demo_start : Mon (list pydict * nat) := {| mn_stdout := []; mn_commands := []; mn_side := (demo_events, 2%nat) |}.
Definition demo_end : Mon (list pydict * nat) :=
  {| mn_stdout := concat (map lines_of demo_events); mn_commands := []; mn_side := (demo_events, 0%nat) |}.

Lemma demo_run : _run_monitor (str "linux") no_which demo_identity numbered_wait 5 30 true demo_start = (demo_end, Ok (Some [2])).
Proof. vm_compute. reflexivity. Qed.

(** Two calls fail, five rounds show both messages. *)
Lemma monitor_shows_messages_once_witness :
  ∃ n, mn_stdout demo_end = concat (map (λ e, lines_of e.2) (take n (numbered (mn_side demo_end)))) ∧ (3 ≤ n)%nat.
Proof.
  destruct (monitor_shows_messages_once (str "linux") no_which true numbered_wait numbered snd demo_identity 5 30
              demo_start demo_end (Ok (Some [2])) numbered_feed) as (n & Hn & _ & Hlive & _).
  - intros s. exists s. done.
  - repeat constructor; intros Hm; try (vm_compute in Hm; discriminate Hm);
      eexists _, _, _; (split; [reflexivity|vm_compute; reflexivity]).
  - exact demo_run.
  - exists n. split; [exact Hn|]. apply Hlive; [reflexivity|vm_compute; lia].
Defined.

(** An intent that is no string, or data that is no object, ends the monitor:
    the loop over the events is outside the [try]. *)
Lemma untyped_event_ends_monitor :
  let w := {| mn_stdout := []; mn_commands := [];
              mn_side := ([[(str "event", JStr (str "inbox.message")); (str "data", JDict [(str "intent", JInt 7)])]], 0%nat) |} in
  snd (_run_monitor (str "linux") no_which demo_identity numbered_wait 1 30 true w) = Raise TypeError.
Proof. vm_compute. reflexivity. Qed.

(** PowerShell expands [$(...)] inside double quotes, and the escape leaves it:
    the text of the message reaches the command as it is. *)
Lemma powershell_text_expanded :
  let w := {| mn_stdout := []; mn_commands := []; mn_side := tt |} in
  let w' := fst (_fire_os_notification (str "win32") (λ _, true) (JStr (str "eve")) (JStr (str "$(calc.exe)")) w) in
  existsb (existsb (contains (str "$body = " ++ [34] ++ str "$(calc.exe)" ++ [34]))) (mn_commands w') = true.
Proof. vm_compute. reflexivity. Qed.
