(* ===== verification/HermesText.v ===== *)
(** * The texts of the Hermes adapter — [shadownet_hermes_plugin/_adapter.py]

    What the adapter tells the agent about an event: the intents of the
    coordination flow, task updates, plain messages.  Values come from decoded
    JSON and are formatted as Python formats them. *)

From S2P Require Import Prelude PyStr Jcs Dicts PyJson PyRepr Payment Monitor.

Definition COORDINATE_V1_URI : pystr := str "urn:shadownet:intent:coordinate_v1".
Definition PROPOSE_PLAN_V1_URI : pystr := str "urn:shadownet:intent:propose_plan_v1".
Definition CONFIRM_PLAN_V1_URI : pystr := str "urn:shadownet:intent:confirm_plan_v1".
Definition ACCEPT_PLAN_V1_URI : pystr := str "urn:shadownet:intent:accept_plan_v1".

(** The characters the literals below cannot hold. *)
Abbreviation DQ := 34.
Abbreviation NL := 10.
Abbreviation EM := 0x2014.
Abbreviation ARROW := 0x2192.

(** [json.dumps(v, indent=2)]: each item on a line of its own, indented by its
    depth. *)
Definition newline (depth : nat) : pystr := NL :: repeat 32 (2 * depth).
Fixpoint json_dumps_indent (depth : nat) (v : json) : pystr :=
  match v with
  | JNull => str "null"
  | JBool true => str "true"
  | JBool false => str "false"
  | JInt z => dec z
  | JFloat f => dumps_float f
  | JStr s => dumps_string s
  | JList [] => str "[]"
  | JList l =>
      [91] ++ newline (S depth) ++ join_with ([44] ++ newline (S depth)) (map (json_dumps_indent (S depth)) l)
      ++ newline depth ++ [93]
  | JDict [] => str "{}"
  | JDict d =>
      [123] ++ newline (S depth)
      ++ join_with ([44] ++ newline (S depth))
           (map (λ kv, dumps_string kv.1 ++ str ": " ++ json_dumps_indent (S depth) kv.2) d)
      ++ newline depth ++ [125]
  end.

(** [datetime.fromisoformat(raw).strftime("%A, %B %-d at %-I:%M %p")], [None]
    where it raises [ValueError]: the calendar and the locale of the host. *)
Class PyDatetime : Type := { friendly_datetime : pystr → option pystr }.

Section texts.
Context `{PyUnicode} `{PyDatetime}.

Definition _format_when (raw : json) : json :=
  if truthy raw then
    match raw with
    | JStr s => match friendly_datetime s with Some t => JStr t | None => raw end
    | _ => raw
    end
  else JStr [].

(** [x.get(k)] used with [or]. *)
Definition get_or (k : pystr) (d : pydict) (v : json) : json := py_or (dict_get k d) v.

(** [body_data] is always a dictionary of JSON values here, so [fallback] is
    never used. *)
Definition _summarize_plan (body_data : pydict) : pystr :=
  let activity := get_or (str "activity") body_data (JStr []) in
  let when_raw := get_or (str "when") body_data (JStr []) in
  let when := if truthy when_raw then _format_when when_raw else JStr [] in
  let where_label :=
    match get_or (str "where") body_data (JDict []) with
    | JDict place =>
        get_or (str "name") place (get_or (str "address") place (get_or (str "city") place (JStr [])))
    | _ => JStr []
    end in
  let parts := (if truthy activity then [py_str activity] else [])
               ++ (if truthy where_label then [str "at " ++ py_str where_label] else [])
               ++ (if truthy when then [str "on " ++ py_str when] else []) in
  match parts with
  | [] => take 300 (json_dumps_compact (JDict body_data))
  | _ => join_with [32] parts
  end.

Definition coordinate_text (sender_name context_id message_id body_text details_line : pystr) (activity : json) : pystr :=
  str "[SHADOWNET COORDINATION REQUEST from " ++ sender_name ++ str "]" ++ [NL] ++ str "context_id: "
  ++ context_id ++ [NL] ++ str "message_id: " ++ message_id ++ [NL] ++ str "Activity: " ++ py_str activity
  ++ details_line ++ [NL] ++ str "Message: " ++ body_text ++ [NL; NL] ++ str "INSTRUCTIONS: " ++ sender_name
  ++ str " wants to coordinate " ++ [DQ] ++ py_str activity ++ [DQ]
  ++ str ". You MUST propose a concrete plan IMMEDIATELY and AUTONOMOUSLY " ++ [EM]
  ++ str " do NOT ask your user for input." ++ [NL; NL]
  ++ str "1. Check your user's calendar/availability if you have access. If not, assume they are free." ++ [NL]
  ++ str "2. Determine your user's city from memory/profile." ++ [NL]
  ++ str "3. Search the web for a real, specific venue that fits the activity (e.g. a popular cafe for coffee, a well-reviewed restaurant for dinner). Never use "
  ++ [DQ] ++ str "TBD" ++ [DQ] ++ str " or placeholders." ++ [NL]
  ++ str "4. Interpret the timing from the details (e.g. " ++ [DQ] ++ str "Sunday morning" ++ [DQ] ++ str " "
  ++ [ARROW] ++ str " next Sunday 10:00 AM). Pick a concrete ISO datetime." ++ [NL; NL]
  ++ str "Then call mcp_shadownet_respond with:" ++ [NL] ++ str "  contextId=" ++ [DQ] ++ context_id ++ [DQ; NL]
  ++ str "  body={" ++ [NL] ++ str "    " ++ [DQ] ++ str "text" ++ [DQ] ++ str ": " ++ [DQ]
  ++ str "<activity> at <venue> on <date/time>" ++ [DQ] ++ str "," ++ [NL] ++ str "    " ++ [DQ] ++ str "intent"
  ++ [DQ] ++ str ": " ++ [DQ] ++ str "urn:shadownet:intent:propose_plan_v1" ++ [DQ] ++ str "," ++ [NL]
  ++ str "    " ++ [DQ] ++ str "data" ++ [DQ] ++ str ": {" ++ [NL] ++ str "      " ++ [DQ] ++ str "activity"
  ++ [DQ] ++ str ": " ++ [DQ] ++ py_str activity ++ [DQ] ++ str "," ++ [NL] ++ str "      " ++ [DQ]
  ++ str "when" ++ [DQ] ++ str ": " ++ [DQ] ++ str "<ISO datetime you chose>" ++ [DQ] ++ str "," ++ [NL]
  ++ str "      " ++ [DQ] ++ str "where" ++ [DQ] ++ str ": {" ++ [DQ] ++ str "name" ++ [DQ] ++ str ": " ++ [DQ]
  ++ str "<real venue>" ++ [DQ] ++ str ", " ++ [DQ] ++ str "city" ++ [DQ] ++ str ": " ++ [DQ] ++ str "<city>"
  ++ [DQ] ++ str "}," ++ [NL] ++ str "      " ++ [DQ] ++ str "participants" ++ [DQ] ++ str ": []" ++ [NL]
  ++ str "    }" ++ [NL] ++ str "  }" ++ [NL; NL] ++ str "After calling respond, say only: " ++ [DQ]
  ++ str "Replying to " ++ sender_name ++ str "'s agent." ++ [DQ; NL] ++ str "Do not reveal proposal details "
  ++ [EM] ++ str " this step is autonomous. Do not call respond more than once.".

Definition propose_text (sender_name context_id message_id plan_summary plan_json : pystr) : pystr :=
  str "[SHADOWNET PLAN PROPOSED by " ++ sender_name ++ str "]" ++ [NL] ++ str "context_id: " ++ context_id
  ++ [NL] ++ str "message_id: " ++ message_id ++ [NL] ++ str "Plan: " ++ plan_summary ++ [NL]
  ++ str "PlanObject:" ++ [NL] ++ plan_json ++ [NL; NL] ++ str "INSTRUCTIONS: " ++ sender_name
  ++ str " proposed a plan. Present it to the user in a friendly, natural way and ask them to confirm. Use "
  ++ [DQ] ++ sender_name ++ [DQ]
  ++ str " when referring to the contact. Never show raw identifiers, ISO timestamps, or JSON to the user."
  ++ [NL] ++ str "When they say yes/confirm/ok, call mcp_shadownet_send with:" ++ [NL] ++ str "  to=" ++ [DQ]
  ++ sender_name ++ [DQ; NL] ++ str "  contextId=" ++ [DQ] ++ context_id ++ [DQ; NL] ++ str "  body={" ++ [NL]
  ++ str "    " ++ [DQ] ++ str "text" ++ [DQ] ++ str ": " ++ [DQ] ++ str "Confirmed." ++ [DQ] ++ str "," ++ [NL]
  ++ str "    " ++ [DQ] ++ str "intent" ++ [DQ] ++ str ": " ++ [DQ]
  ++ str "urn:shadownet:intent:confirm_plan_v1" ++ [DQ] ++ str "," ++ [NL] ++ str "    " ++ [DQ] ++ str "data"
  ++ [DQ] ++ str ": " ++ plan_json ++ [NL] ++ str "  }" ++ [NL] ++ str "After sending, tell the user: " ++ [DQ]
  ++ str "Sent confirmation to " ++ sender_name ++ str " " ++ [EM] ++ str " waiting for them to accept." ++ [DQ]
  ++ str " Do NOT say the plan is confirmed or finalized yet." ++ [NL]
  ++ str "If they decline, just say you'll let " ++ sender_name ++ str " know.".

Definition confirm_text (sender_name context_id message_id plan_summary : pystr) (activity : json) : pystr :=
  str "[SHADOWNET PLAN from " ++ sender_name ++ str "]" ++ [NL] ++ str "context_id: " ++ context_id ++ [NL]
  ++ str "message_id: " ++ message_id ++ [NL] ++ str "Plan: " ++ plan_summary ++ [NL; NL]
  ++ str "INSTRUCTIONS: " ++ sender_name
  ++ str " wants to meet up with your user. Your agent already proposed a plan and " ++ sender_name
  ++ str " agreed. Present this to your user as: " ++ [DQ] ++ sender_name ++ str " wants to "
  ++ py_str (py_or (Some activity) (JStr (str "meet up"))) ++ str " with you " ++ [EM]
  ++ str " <plan details in natural language>. Would you like to accept?" ++ [DQ; NL]
  ++ str "Give the user full context " ++ [EM]
  ++ str " they have NOT seen this plan before. Never show raw identifiers, ISO timestamps, or JSON." ++ [NL]
  ++ str "Do NOT call respond yet " ++ [EM] ++ str " wait for the user to say yes." ++ [NL]
  ++ str "When the user confirms, call mcp_shadownet_respond with:" ++ [NL] ++ str "  contextId=" ++ [DQ]
  ++ context_id ++ [DQ; NL] ++ str "  body={" ++ [NL] ++ str "    " ++ [DQ] ++ str "text" ++ [DQ] ++ str ": "
  ++ [DQ] ++ str "Accepted." ++ [DQ] ++ str "," ++ [NL] ++ str "    " ++ [DQ] ++ str "intent" ++ [DQ]
  ++ str ": " ++ [DQ] ++ str "urn:shadownet:intent:accept_plan_v1" ++ [DQ] ++ str "," ++ [NL] ++ str "    "
  ++ [DQ] ++ str "data" ++ [DQ] ++ str ": {" ++ [DQ] ++ str "acceptsMessageId" ++ [DQ] ++ str ": " ++ [DQ]
  ++ message_id ++ [DQ] ++ str "}" ++ [NL] ++ str "  }" ++ [NL] ++ str "If they decline, just say you'll let "
  ++ sender_name ++ str " know.".

Definition accept_text (sender_name context_id message_id : pystr) : pystr :=
  str "[SHADOWNET PLAN ACCEPTED by " ++ sender_name ++ str "]" ++ [NL] ++ str "context_id: " ++ context_id
  ++ [NL] ++ str "message_id: " ++ message_id ++ [NL] ++ str "The plan is fully confirmed by both sides."
  ++ [NL; NL] ++ str "INSTRUCTIONS: Tell your user the plan is confirmed " ++ [EM] ++ str " " ++ sender_name
  ++ str " accepted. Be brief and celebratory. Never show raw identifiers or ISO timestamps. No tool calls needed.".

Definition other_text (sender_name context_id body_text : pystr) : pystr :=
  str "[SHADOWNET message from " ++ sender_name ++ str "]" ++ [NL] ++ str "context_id: " ++ context_id ++ [NL]
  ++ body_text.

Definition _build_coordination_inject (sender_name context_id message_id intent : json) (body_text : pystr)
    (body_data : pydict) : pystr :=
  let sender_name := py_str sender_name in
  let context_id := py_str context_id in
  let message_id := py_str message_id in
  if json_is_str COORDINATE_V1_URI intent then
    let activity := default (JStr []) (dict_get (str "activity") body_data) in
    let details := default (JStr []) (dict_get (str "details") body_data) in
    let details_line := if truthy details then [NL] ++ str "Details: " ++ py_str details else [] in
    coordinate_text sender_name context_id message_id body_text details_line activity
  else if json_is_str PROPOSE_PLAN_V1_URI intent then
    propose_text sender_name context_id message_id (_summarize_plan body_data) (json_dumps_indent 0 (JDict body_data))
  else if json_is_str CONFIRM_PLAN_V1_URI intent then
    let activity := default (JStr []) (dict_get (str "activity") body_data) in
    confirm_text sender_name context_id message_id (_summarize_plan body_data) activity
  else if json_is_str ACCEPT_PLAN_V1_URI intent then accept_text sender_name context_id message_id
  else other_text sender_name context_id body_text.

Definition _build_task_update_inject (context_id task_id status : json) : pystr :=
  str "[SHADOWNET TASK UPDATE]" ++ [NL] ++ str "context_id: " ++ py_str context_id ++ [NL] ++ str "task_id: "
  ++ py_str task_id ++ [NL] ++ str "status: " ++ py_str status ++ [NL; NL]
  ++ str "INSTRUCTIONS: A task's state changed. If this is the first time the user is hearing about this status (or it's a terminal state like 'completed', 'failed', or 'canceled'), tell them concisely. Otherwise stay silent "
  ++ [EM]
  ++ str " no tool calls, no acknowledgement. Reference the context_id above if the user asks for more detail.".

(** The text of [_inject_free_form] and of [_surface_inbound_message]. *)
Definition free_form_text (sender context_id message_id : json) (body_text : pystr) : pystr :=
  str "[SHADOWNET MESSAGE from " ++ py_str sender ++ str "]" ++ [NL] ++ str "context_id: " ++ py_str context_id
  ++ [NL] ++ str "message_id: " ++ py_str message_id ++ [NL] ++ body_text ++ [NL; NL]
  ++ str "INSTRUCTIONS: Surface this message to the user. If they want to reply, use mcp_shadownet_respond with the context_id above.".

Definition surface_text (sender context_id message_id : json) (body_text : pystr) : pystr :=
  str "[SHADOWNET MESSAGE from " ++ py_str sender ++ str "]" ++ [NL] ++ str "context_id: " ++ py_str context_id
  ++ [NL] ++ str "message_id: " ++ py_str message_id ++ [NL; NL] ++ body_text.
End texts.
