(* ===== verification/Hermes.v ===== *)
(** * The Hermes platform adapter — [shadownet_hermes_plugin/_adapter.py]

    [ShadownetAdapter]: sending with a cooldown per contact, the inbox loop, the
    routing of events into chat sessions with de-duplication, and the
    configuration.  The MCP session and the Hermes gateway are parameters over a
    state [S]; the world [Adapter] holds the adapter's attributes, the clock, and
    the trace of what passed the two limiters and what was handed to sessions.

    Between reading a timestamp and writing it the code does not suspend, so the
    operations below are the stretches that run without interruption; what comes
    after a suspension (the call of the sidecar, the session's handler) does not
    look at the timestamps. *)

From Stdlib Require Import QArith Lqa.
From S2P Require Import Prelude PyStr PyInt Jcs Dicts Pydantic A2A Url Onboarding Payment Mcp Inbox Monitor HermesText.

(** ** State *)

(** A dictionary of timestamps, with the trace of what was let through. *)
Record Limiter := {
  lm_timestamps : gmap pystr Q;
  lm_passed : list (Q * pystr);
}.

(** A [MessageEvent] handed to the session of a platform. *)
Record Injected := {
  inj_platform : pystr;
  inj_chat_id : json;
  inj_user_name : json;
  inj_text : pystr;
  inj_internal : bool;
  inj_raw_message : pydict;
  inj_auto_skill : option pystr;
}.

Record Adapter (S : Type) := {
  ad_time : Q;
  (** The seconds before each of the next readings of the clock. *)
  ad_ticks : list (N * positive);
  ad_send : Limiter;
  ad_notify : Limiter;
  ad_handled : list Injected;
  ad_side : S;
}.
Arguments ad_time {S} _.
Arguments ad_ticks {S} _.
Arguments ad_send {S} _.
Arguments ad_notify {S} _.
Arguments ad_handled {S} _.
Arguments ad_side {S} _.

(** Which of the two dictionaries. *)
Inductive which_limiter := SendTimestamps | NotifyTimestamps.

Definition limiter {S} (x : which_limiter) (w : Adapter S) : Limiter :=
  match x with SendTimestamps => ad_send w | NotifyTimestamps => ad_notify w end.

Definition set_limiter {S} (x : which_limiter) (l : Limiter) (w : Adapter S) : Adapter S := {|
  ad_time := ad_time w; ad_ticks := ad_ticks w;
  ad_send := match x with SendTimestamps => l | NotifyTimestamps => ad_send w end;
  ad_notify := match x with SendTimestamps => ad_notify w | NotifyTimestamps => l end;
  ad_handled := ad_handled w; ad_side := ad_side w |}.

(** [time.time()] *)
Definition time_time {S} : M (Adapter S) Q := λ w,
  match ad_ticks w with
  | [] => (w, Ok (ad_time w))
  | (n, d) :: ticks =>
      let now := (ad_time w + (Z.of_N n # d))%Q in
      ({| ad_time := now; ad_ticks := ticks; ad_send := ad_send w; ad_notify := ad_notify w;
          ad_handled := ad_handled w; ad_side := ad_side w |}, Ok now)
  end.

(** ** The limiters *)

Definition Qlt_bool (a b : Q) : bool := negb (Qle_bool b a).

Definition update {S} (x : which_limiter) (f : Limiter → Limiter) : M (Adapter S) unit :=
  λ w, (set_limiter x (f (limiter x w)) w, Ok tt).

(** [_evict_stale_timestamps(timestamps, max_age)] *)
Definition _evict_stale_timestamps {S} (x : which_limiter) (max_age : Z) : M (Adapter S) unit :=
  now ← time_time;
  update x (λ l, {| lm_timestamps := filter (λ kv : pystr * Q, Qlt_bool (inject_Z max_age) (now - kv.2) = false) (lm_timestamps l);
                    lm_passed := lm_passed l |}).

(** [timestamps[key] = now] *)
Definition stamp {S} (x : which_limiter) (key : pystr) (now : Q) : M (Adapter S) unit :=
  update x (λ l, {| lm_timestamps := <[key := now]> (lm_timestamps l); lm_passed := lm_passed l ++ [(now, key)] |}).

(** [timestamps.get(key, 0.0)] *)
Definition last_stamp {S} (x : which_limiter) (key : pystr) : M (Adapter S) Q := λ w,
  (w, Ok (default 0%Q (lm_timestamps (limiter x w) !! key))).

(** The steps [send], [_inject_coordination_event] and [_inject_task_update]
    share: true when [key] may pass, which is then written down. *)
Definition admit_key {S} (x : which_limiter) (key : pystr) (cooldown : result Z) : M (Adapter S) bool :=
  now ← time_time;
  last ← last_stamp x key;
  cooldown ← lift cooldown;
  if Qlt_bool (now - last) (inject_Z cooldown) then mret false
  else
    _ ← stamp x key now;
    _ ← _evict_stale_timestamps x (cooldown * 2);
    mret true.

Section adapter.
Context `{PyUnicode} `{PyDatetime} {S : Type}.
Context (environ : pystr → option pystr).
(** The calls of the MCP client. *)
Context (client_send : SendInput → M S SendOutput) (client_inbox : InboxInput → M S InboxOutput).
Context (client_inbox_wait : InboxWaitInput → M S InboxWaitOutput).
(** The gateway runner, where there is one: whether a platform has an adapter;
    [Platform(name)] raises for unknown names.  [handle_message] of the session
    a message goes to. *)
Context (gateway : option (pystr → result bool)) (handle_message : Injected → M S unit).

Definition at_side {A} (m : M S A) : M (Adapter S) A := λ w,
  let '(s, r) := m (ad_side w) in
  ({| ad_time := ad_time w; ad_ticks := ad_ticks w; ad_send := ad_send w; ad_notify := ad_notify w;
      ad_handled := ad_handled w; ad_side := s |}, r).

Definition send_cooldown : result Z := py_int (default (str "120") (environ (str "SHADOWNET_SEND_COOLDOWN_SECONDS"))).
Definition notify_cooldown : result Z := py_int (default (str "60") (environ (str "SHADOWNET_NOTIFY_COOLDOWN_SECONDS"))).

(** A suppressed message is reported as sent. *)
Definition send (chat_id content : pystr) : M (Adapter S) bool :=
  cooldown ← lift send_cooldown;
  admitted ← admit_key SendTimestamps chat_id (Ok cooldown);
  if (admitted : bool) then
    _ ← at_side (client_send {| si_to := chat_id; si_context_id := None;
                                si_body := {| bs_text := Some content; bs_intent := None; bs_data := None; bs_extra := [] |} |});
    mret true
  else mret true.

(** ** Injection *)

(** [try: await adapter.handle_message(event) except Exception: log] *)
Definition hand_over (ev : Injected) : M (Adapter S) unit := λ w,
  let w := {| ad_time := ad_time w; ad_ticks := ad_ticks w; ad_send := ad_send w; ad_notify := ad_notify w;
              ad_handled := ad_handled w ++ [ev]; ad_side := ad_side w |} in
  match at_side (handle_message ev) w with
  | (w, Raise e) => if is_Exception e then (w, Ok tt) else (w, Raise e)
  | (w, Ok tt) => (w, Ok tt)
  end.

Definition _resolve_notify_target (notify_target : pystr) : result (option (pystr * pystr)) :=
  if negb (has_char 58 notify_target) then Ok None
  else
    let '(platform_name, chat_id) := partition_char 58 notify_target in
    match gateway with
    | None => Ok None
    | Some adapters =>
        found ← adapters platform_name;
        Ok (if (found : bool) then Some (platform_name, chat_id) else None)
    end.

(** The event the three bridges build, for the session of [target]. *)
Definition bridge (target : option (pystr * pystr)) (text : pystr) (raw : pydict) (skill : option pystr) : M (Adapter S) unit :=
  match target with
  | None => mret tt
  | Some (platform, chat_id) =>
      hand_over {| inj_platform := platform; inj_chat_id := JStr chat_id; inj_user_name := JStr (str "shadownet");
                   inj_text := text; inj_internal := true; inj_raw_message := raw; inj_auto_skill := skill |}
  end.

Definition coordination_key (sender intent context_id : json) : pystr :=
  py_str sender ++ [58] ++ py_str intent ++ [58] ++ py_str context_id.

Definition _inject_coordination_event (sender sender_name context_id message_id intent : json) (body_text : pystr)
    (body_data : pydict) (notify_target : pystr) : M (Adapter S) unit :=
  if bool_decide (notify_target = []) then mret tt
  else
    admitted ← admit_key NotifyTimestamps (coordination_key sender intent context_id) notify_cooldown;
    if negb admitted then mret tt
    else
      target ← lift (_resolve_notify_target notify_target);
      bridge target (_build_coordination_inject sender_name context_id message_id intent body_text body_data)
        [(str "intent", intent); (str "context_id", context_id); (str "message_id", message_id)]
        (Some (str "shadownet-coordinate")).

Definition _inject_free_form (sender context_id message_id : json) (body_text notify_target : pystr) : M (Adapter S) unit :=
  target ← lift (_resolve_notify_target notify_target);
  bridge target (free_form_text sender context_id message_id body_text)
    [(str "context_id", context_id); (str "message_id", message_id)] (Some (str "shadownet-inbox")).

Definition _surface_inbound_message (sender sender_name context_id message_id : json) (body_text : pystr)
    (event_id : json) : M (Adapter S) unit :=
  hand_over {| inj_platform := str "shadownet"; inj_chat_id := sender; inj_user_name := py_or (Some sender_name) sender;
               inj_text := surface_text sender context_id message_id body_text; inj_internal := false;
               inj_raw_message := [(str "event_id", event_id); (str "context_id", context_id); (str "message_id", message_id)];
               inj_auto_skill := Some (str "shadownet-inbox") |}.

Definition task_key (context_id status : json) : pystr :=
  str "task.update:" ++ py_str context_id ++ [58] ++ py_str status.

Definition _inject_task_update (data : pydict) (notify_target : pystr) : M (Adapter S) unit :=
  let context_id := get_or (str "contextId") data (JStr []) in
  let task_id := get_or (str "taskId") data (JStr []) in
  let status := get_or (str "status") data (JStr (str "unknown")) in
  if negb (truthy context_id) then mret tt
  else if bool_decide (notify_target = []) then mret tt
  else
    admitted ← admit_key NotifyTimestamps (task_key context_id status) notify_cooldown;
    if negb admitted then mret tt
    else
      target ← lift (_resolve_notify_target notify_target);
      bridge target (_build_task_update_inject context_id task_id status)
        [(str "context_id", context_id); (str "task_id", task_id); (str "status", status);
         (str "event_type", JStr (str "task.update"))] None.

(** ** Events *)

Definition _fetch_inbox_item (message_id : json) : M (Adapter S) (option InboxItem) := λ w,
  if negb (truthy message_id) then (w, Ok None)
  else
    match at_side (client_inbox InboxInput_default) w with
    | (w, Raise e) => if is_Exception e then (w, Ok None) else (w, Raise e)
    | (w, Ok result) => (w, Ok (List.find (λ item, json_is_str (it_message_id item) message_id) (ino_items result)))
    end.

(** [intent in {...}]: lists and dictionaries cannot be hashed. *)
Definition is_coordination (intent : json) : result bool :=
  match intent with
  | JStr s => Ok (bool_decide (s ∈ [COORDINATE_V1_URI; PROPOSE_PLAN_V1_URI; CONFIRM_PLAN_V1_URI; ACCEPT_PLAN_V1_URI]))
  | JList _ | JDict _ => Raise TypeError
  | _ => Ok false
  end.

Definition _on_message (event data : pydict) (notify_target : pystr) : M (Adapter S) unit :=
  let event_id := get_or (str "eventId") event (get_or (str "event_id") event (JStr [])) in
  let sender := get_or (str "from") data (JStr []) in
  let sender_name := get_or (str "fromName") data sender in
  let context_id := get_or (str "contextId") data (JStr []) in
  let message_id := get_or (str "messageId") data (JStr []) in
  let intent := get_or (str "intent") data (JStr []) in
  inbox_item ← _fetch_inbox_item message_id;
  let body := it_body <$> inbox_item in
  let body_text := default [] (b ← body; bs_text b) in
  let body_data := default [] (b ← body; bs_data b) in
  coordination ← lift (is_coordination intent);
  if (coordination : bool) then
    _inject_coordination_event sender sender_name context_id message_id intent body_text body_data notify_target
  else if bool_decide (body_text = []) then mret tt
  else if bool_decide (notify_target = []) then
    _surface_inbound_message sender sender_name context_id message_id body_text event_id
  else _inject_free_form sender_name context_id message_id body_text notify_target.

Definition _on_event (event : pydict) : M (Adapter S) unit :=
  let notify_target := default [] (environ (str "SHADOWNET_NOTIFY_CHAT")) in
  let task_update := get_is_str (str "event") (str "task.update") event in
  if negb (task_update || get_is_str (str "event") (str "inbox.message") event) then mret tt
  else
    match or_dict (dict_get (str "data") event) with
    | JDict data => if task_update then _inject_task_update data notify_target else _on_message event data notify_target
    | _ => lift (Raise AttributeError)
    end.

(** [try: await self._on_event(event) except Exception: log] *)
Definition dispatch (event : pydict) : M (Adapter S) unit := λ w,
  match _on_event event w with
  | (w, Raise e) => if is_Exception e then (w, Ok tt) else (w, Raise e)
  | ok => ok
  end.

Definition _inbox_loop (rounds : nat) (long_poll_timeout : Z) : M (Adapter S) (option pystr) :=
  polls (λ a, at_side (client_inbox_wait a)) (λ _, mret tt) dispatch long_poll_timeout rounds None.
End adapter.

(** ** Configuration *)

Section config.
Context `{PyUnicode} `{PyNfkc} `{PyFloat}.
Context (environ : pystr → option pystr).

Definition DEFAULT_SIDECAR_BASE_URL : pystr := str "https://app.sh4dow.org".

(** [extras.get(k) or os.environ.get(var) or d] *)
Definition setting (extras : pydict) (k var : pystr) (d : json) : json :=
  py_or (dict_get k extras) (py_or (JStr <$> environ var) d).

Definition is_int_error (e : exn) : bool := is_ValueError e || bool_decide (e = TypeError).

Definition _resolve_config (extras : pydict) : result (json * json * Z) :=
  let connect_uri := setting extras (str "connect_url") (str "SHADOWNET_CONNECT_URL") JNull in
  '(mcp_endpoint, token) ←
    (if truthy connect_uri then
       match connect_uri with
       | JStr uri =>
           parsed ← parse_connect_uri uri;
           _ ← raise_if (negb (is_inline parsed)) RuntimeError;
           token ← of_option (OtherException (str "AssertionError")) (cu_access_token parsed);
           Ok (JStr (cu_mcp_endpoint parsed), JStr token)
       | _ => Raise AttributeError
       end
     else
       Ok (setting extras (str "mcp_endpoint") (str "SHADOWNET_MCP_ENDPOINT") (JStr DEFAULT_SIDECAR_BASE_URL),
           setting extras (str "token") (str "SHADOWNET_TOKEN") (JStr [])));
  _ ← raise_if (negb (truthy token)) RuntimeError;
  _ ← raise_if (negb (truthy mcp_endpoint)) RuntimeError;
  timeout ← rethrow is_int_error (λ _, RuntimeError)
    (py_int_of (setting extras (str "long_poll_timeout_seconds") (str "SHADOWNET_LONG_POLL_TIMEOUT_SECONDS") (JStr (str "30"))));
  Ok (mcp_endpoint, token, Z.max 1 timeout).

Definition env_set (var : pystr) : bool := negb (bool_decide (default [] (environ var) = [])).

Definition check_shadownet_requirements : bool :=
  env_set (str "SHADOWNET_CONNECT_URL") || (env_set (str "SHADOWNET_TOKEN") && env_set (str "SHADOWNET_MCP_ENDPOINT")).

Definition env_enablement : option pydict :=
  if env_set (str "SHADOWNET_CONNECT_URL") || env_set (str "SHADOWNET_TOKEN") || env_set (str "SHADOWNET_MCP_ENDPOINT")
  then Some [] else None.
End config.

(** ** The limiters keep their distance *)

(** Whatever passed under one key passed at least [c] seconds apart. *)
Definition spaced (c : Z) (passed : list (Q * pystr)) : Prop :=
  ∀ i j s t key, (i < j)%nat → passed !! i = Some (s, key) → passed !! j = Some (t, key) → (inject_Z c <= t - s)%Q.

(** What holds of a limiter at time [now]: no stamp lies ahead; what passed is
    still covered by a stamp or is [c] seconds old. *)
Record limiter_ok (c : Z) (now : Q) (l : Limiter) : Prop := {
  lo_stamps key v : lm_timestamps l !! key = Some v → (v <= now)%Q;
  lo_covered s key : (s, key) ∈ lm_passed l →
    (s <= now)%Q ∧ ((∃ v, lm_timestamps l !! key = Some v ∧ (s <= v)%Q) ∨ (inject_Z c <= now - s)%Q);
  lo_spaced : spaced c (lm_passed l);
}.

Lemma Qlt_bool_iff a b : Qlt_bool a b = true ↔ (a < b)%Q.
Proof. unfold Qlt_bool. rewrite negb_true_iff, <-not_true_iff_false, Qle_bool_iff. split; [apply Qnot_le_lt|apply Qlt_not_le]. Qed.

Lemma Qlt_bool_false a b : Qlt_bool a b = false ↔ (b <= a)%Q.
Proof. unfold Qlt_bool. rewrite negb_false_iff. apply Qle_bool_iff. Qed.

Lemma limiter_later c t t' l : (t <= t')%Q → limiter_ok c t l → limiter_ok c t' l.
Proof.
  intros Ht [H1 H2 H3]. split; [|..|done].
  - intros key v Hv. specialize (H1 key v Hv). lra.
  - intros s key Hs. destruct (H2 s key Hs) as [Hle [?|?]]; (split; [lra|]); [by left|right; lra].
Qed.

Lemma spaced_snoc c passed t key :
  spaced c passed → (∀ s, (s, key) ∈ passed → (inject_Z c <= t - s)%Q) → spaced c (passed ++ [(t, key)]).
Proof.
  intros Hs Hk i j s t' key' Hij Hi Hj. apply lookup_app_Some in Hj as [Hj|[Hlen Hj]].
  - pose proof (lookup_lt_Some _ _ _ Hj). rewrite lookup_app_l in Hi by lia. exact (Hs i j s t' key' Hij Hi Hj).
  - apply list_lookup_singleton_Some in Hj as [Hj [= <- <-]]. rewrite lookup_app_l in Hi by lia.
    apply Hk. by eapply list_elem_of_lookup_2.
Qed.

Lemma limiter_stamp c now key l :
  limiter_ok c now l → (inject_Z c <= now - default 0%Q (lm_timestamps l !! key))%Q →
  limiter_ok c now {| lm_timestamps := <[key := now]> (lm_timestamps l); lm_passed := lm_passed l ++ [(now, key)] |}.
Proof.
  intros [H1 H2 H3] Hlast. split; cbn [lm_timestamps lm_passed].
  - intros k v [[<- <-]|[_ Hv]]%lookup_insert_Some; [lra|by eapply H1].
  - intros s k [Hs|Hs%list_elem_of_singleton]%elem_of_app.
    + destruct (H2 s k Hs) as [Hle Hc]. split; [done|]. destruct (decide (k = key)) as [->|Hk].
      * left. exists now. by rewrite lookup_insert_eq.
      * rewrite lookup_insert_ne by done. done.
    + injection Hs as -> ->. split; [lra|]. left. exists now. rewrite lookup_insert_eq. split; [done|lra].
  - apply spaced_snoc; [done|]. intros s Hs. destruct (H2 s key Hs) as [_ [(v & Hv & Hsv)|Hc]]; [|done].
    rewrite Hv in Hlast. cbn in Hlast. lra.
Qed.

Lemma limiter_evict c now l :
  limiter_ok c now l →
  limiter_ok c now {| lm_timestamps := filter (λ kv : pystr * Q, Qlt_bool (inject_Z (c * 2)) (now - kv.2) = false) (lm_timestamps l);
                      lm_passed := lm_passed l |}.
Proof.
  intros [H1 H2 H3]. split; cbn [lm_timestamps lm_passed]; [| |done].
  - intros k v [Hv _]%map_lookup_filter_Some. by eapply H1.
  - intros s k Hs. destruct (H2 s k Hs) as [Hle Hc]. split; [done|]. destruct Hc as [(v & Hv & Hsv)|Hc]; [|by right].
    destruct (Qlt_bool (inject_Z (c * 2)) (now - v)) eqn:E.
    + right. apply Qlt_bool_iff in E. rewrite inject_Z_mult in E. change (inject_Z 2) with 2%Q in E.
      destruct (Qlt_le_dec (inject_Z c) 0); lra.
    + left. exists v. split; [by apply map_lookup_filter_Some|done].
Qed.

Section adapter_properties.
Context `{PyUnicode} `{PyDatetime} {S : Type}.
Context (environ : pystr → option pystr).
Context (client_send : SendInput → M S SendOutput) (client_inbox : InboxInput → M S InboxOutput).
Context (gateway : option (pystr → result bool)) (handle_message : Injected → M S unit).

Definition seconds (r : result Z) : Z := match r with Ok c => c | Raise _ => 0 end.
Definition cooldown_of (x : which_limiter) : Z :=
  seconds match x with SendTimestamps => send_cooldown environ | NotifyTimestamps => notify_cooldown environ end.

Definition adapter_ok (w : Adapter S) : Prop := ∀ x, limiter_ok (cooldown_of x) (ad_time w) (limiter x w).

(** Every operation keeps the limiters, and time does not run backwards. *)
Definition onward : relation (Adapter S) := λ w w', (ad_time w <= ad_time w')%Q ∧ (adapter_ok w → adapter_ok w').
#[local] Instance onward_preorder : PreOrder onward.
Proof. split; [intros w; split; [lra|done]|]. intros w1 w2 w3 [? ?] [? ?]. split; [lra|auto]. Qed.

Lemma time_time_onward : keeps onward (time_time (S := S)).
Proof.
  intros w w' r. unfold time_time. destruct (ad_ticks w) as [|[n d] ticks]; intros [= <- <-]; [reflexivity|].
  assert (0 <= Z.of_N n # d)%Q as Hn by (unfold Qle; cbn; lia).
  split; cbn [ad_time]; [lra|]. intros Hok x. eapply limiter_later; [|exact (Hok x)]. cbn [ad_time]. lra.
Qed.

Lemma time_time_now w w' (r : result Q) : time_time w = (w', r) → r = Ok (ad_time (S := S) w') ∧ ∀ x, limiter x w' = limiter x w.
Proof. unfold time_time. destruct (ad_ticks w) as [|[n d] ticks]; intros [= <- <-]; by split; [|intros []]. Qed.

Lemma set_limiter_ok x l (w : Adapter S) :
  adapter_ok w → limiter_ok (cooldown_of x) (ad_time w) l → adapter_ok (set_limiter x l w).
Proof. intros Hw Hl y. pose proof (Hw y). by destruct x, y. Qed.

Lemma evict_onward x w w' r :
  _evict_stale_timestamps (S := S) x (cooldown_of x * 2) w = (w', r) → onward w w'.
Proof.
  unfold _evict_stale_timestamps, mbind, M_bind. destruct (time_time w) as [w1 r1] eqn:E.
  pose proof (time_time_onward _ _ _ E) as H1. apply time_time_now in E as [-> _]. unfold update.
  intros [= <- <-]. transitivity w1; [done|]. split; [cbn; lra|]. intros Hok. apply set_limiter_ok; [done|].
  apply limiter_evict, Hok.
Qed.

Lemma admit_key_onward x key cooldown :
  (∀ c, cooldown = Ok c → c = cooldown_of x) → keeps onward (admit_key (S := S) x key cooldown).
Proof.
  intros Hc w w' r. unfold admit_key, mbind, M_bind. destruct (time_time w) as [w1 r1] eqn:E.
  pose proof (time_time_onward _ _ _ E) as H1. apply time_time_now in E as [-> _]. unfold last_stamp, lift.
  destruct cooldown as [c|e]; [|by intros [= <- <-]]. rewrite (Hc c eq_refl).
  destruct (Qlt_bool _ _) eqn:Elt; [by intros [= <- <-]|]. apply Qlt_bool_false in Elt. unfold stamp, update.
  set (w2 := set_limiter _ _ w1). assert (onward w1 w2) as H2.
  { split; [cbn; lra|]. intros Hok. apply set_limiter_ok; [done|]. by apply limiter_stamp. }
  destruct (_evict_stale_timestamps _ _ w2) as [w3 r3] eqn:E3. apply evict_onward in E3.
  intros Hr. assert (w' = w3) as -> by (destruct r3; by injection Hr). by transitivity w1; [|transitivity w2].
Qed.

Lemma at_side_onward {A} (m : M S A) : keeps onward (at_side m).
Proof. intros w w' r. unfold at_side. case_match. intros [= <- <-]. split; [cbn; lra|]. intros Hok x. by pose proof (Hok x); destruct x. Qed.

Lemma hand_over_onward ev : keeps onward (hand_over handle_message ev).
Proof.
  intros w w' r. unfold hand_over. set (w1 := {| ad_time := _; ad_ticks := _; ad_send := _; ad_notify := _; ad_handled := _; ad_side := _ |}).
  assert (onward w w1) as H1 by (split; [cbn; lra|]; intros Hok x; by pose proof (Hok x); destruct x).
  destruct (at_side _ w1) as [w2 [[]|e]] eqn:E; apply at_side_onward in E; [|destruct (is_Exception e)];
    intros [= <- <-]; by transitivity w1.
Qed.

Lemma fetch_onward message_id : keeps onward (_fetch_inbox_item client_inbox message_id).
Proof.
  intros w w' r. unfold _fetch_inbox_item. destruct (negb _); [by intros [= <- <-]|].
  destruct (at_side _ w) as [w1 [out|e]] eqn:E; apply at_side_onward in E; [|destruct (is_Exception e)];
    by intros [= <- <-].
Qed.

Lemma notify_onward key : keeps onward (admit_key (S := S) NotifyTimestamps key (notify_cooldown environ)).
Proof. apply admit_key_onward. unfold cooldown_of. by intros c ->. Qed.
#[local] Hint Resolve at_side_onward hand_over_onward fetch_onward notify_onward : shadownet.

Lemma send_onward chat_id content : keeps onward (send environ client_send chat_id content).
Proof.
  unfold send. destruct (send_cooldown environ) as [c|e] eqn:Ec; [|by intros w w' r [= <- <-]].
  assert (keeps onward (admit_key (S := S) SendTimestamps chat_id (Ok c))) as Ha.
  { apply admit_key_onward. unfold cooldown_of. rewrite Ec. by intros ? [= <-]. }
  intros w w' r. rewrite (M_bind_lift _ _ _ c eq_refl). revert w w' r.
  apply (keeps_bind onward); [done|]. intros [|]; keep.
Qed.

Lemma on_event_onward event : keeps onward (_on_event environ client_inbox gateway handle_message event).
Proof.
  unfold _on_event, _on_message, _inject_task_update, _inject_coordination_event, _inject_free_form,
    _surface_inbound_message, bridge. keep.
Qed.

(** *** What one operation does *)

Lemma admit_key_outcome x key cooldown (w w' : Adapter S) r :
  admit_key x key cooldown w = (w', r) →
  ad_handled w' = ad_handled w ∧ ad_side w' = ad_side w
  ∧ (∀ y, y ≠ x → lm_passed (limiter y w') = lm_passed (limiter y w))
  ∧ match r with
    | Ok true => ∃ now, lm_passed (limiter x w') = lm_passed (limiter x w) ++ [(now, key)]
    | _ => lm_passed (limiter x w') = lm_passed (limiter x w)
    end.
Proof.
  unfold admit_key, _evict_stale_timestamps, mbind, M_bind, last_stamp, lift, stamp, update, time_time.
  destruct (ad_ticks w) as [|[n d] ticks]; (destruct cooldown as [c|e]; [|intros [= <- <-]; by destruct x]);
    (destruct (Qlt_bool _ _); [by intros [= <- <-]; destruct x|]); cbn [ad_ticks set_limiter].
  - destruct (ad_ticks w) as [|[]]; intros [= <- <-]; destruct x; cbn; split_and!; try done; try (by intros []); eauto.
  - destruct ticks as [|[]]; intros [= <- <-]; destruct x; cbn; split_and!; try done; try (by intros []); eauto.
Qed.

Lemma send_outcome chat_id content w w' r :
  send environ client_send chat_id content w = (w', r) →
  (lm_passed (ad_send w') = lm_passed (ad_send w) ∧ ad_side w' = ad_side w)
  ∨ ∃ now, lm_passed (ad_send w') = lm_passed (ad_send w) ++ [(now, chat_id)]
      ∧ ad_side w' = (client_send {| si_to := chat_id; si_context_id := None;
                                     si_body := {| bs_text := Some content; bs_intent := None; bs_data := None;
                                                   bs_extra := [] |} |} (ad_side w)).1.
Proof.
  unfold send. destruct (send_cooldown environ) as [c|e]; [|intros [= <- <-]; by left].
  rewrite (M_bind_lift _ _ _ c eq_refl). unfold mbind at 1, M_bind at 1.
  destruct (admit_key _ _ _ w) as [w1 r1] eqn:E. apply admit_key_outcome in E as (_ & Hs & _ & Hp). cbn [limiter] in Hp.
  destruct r1 as [[|]|e]; [|intros [= <- <-]; by left..]. destruct Hp as [now Hp]. unfold mbind, M_bind, at_side.
  rewrite Hs. destruct (client_send _ (ad_side w)) as [s1 r2]. intros Hr. right. exists now.
  destruct r2; injection Hr as <- <-; done.
Qed.

Lemma hand_over_outcome ev w w' r :
  hand_over handle_message ev w = (w', r) →
  ad_handled w' = ad_handled w ++ [ev] ∧ ∀ x, limiter x w' = limiter x w.
Proof.
  unfold hand_over, at_side. cbn [ad_side]. destruct (handle_message ev (ad_side w)) as [s1 [[]|e]];
    [|destruct (is_Exception e)]; intros [= <- <-]; split; try done; by intros [].
Qed.

Lemma bridge_outcome target text raw skill w w' r :
  bridge handle_message target text raw skill w = (w', r) →
  (ad_handled w' = ad_handled w ∨ ∃ ev, ad_handled w' = ad_handled w ++ [ev] ∧ inj_auto_skill ev = skill)
  ∧ ∀ x, limiter x w' = limiter x w.
Proof.
  unfold bridge. destruct target as [[p c]|]; [|intros [= <- <-]; auto].
  intros [Hh Hl]%hand_over_outcome. split; [|done]. right. by eexists.
Qed.

(** An event goes to at most one session, as a plain message or with a key that
    passed for it. *)
Definition handed_once (key : pystr) (w w' : Adapter S) : Prop :=
  ad_handled w' = ad_handled w
  ∨ ∃ ev, ad_handled w' = ad_handled w ++ [ev]
      ∧ (inj_auto_skill ev = Some (str "shadownet-inbox")
         ∨ ∃ now, lm_passed (ad_notify w') = lm_passed (ad_notify w) ++ [(now, key)]).

Lemma bridge_free target text raw key w w' r :
  bridge handle_message target text raw (Some (str "shadownet-inbox")) w = (w', r) → handed_once key w w'.
Proof. intros [[Hh|(ev & Hh & Hs)] _]%bridge_outcome; [by left|]. right. exists ev. auto. Qed.

Lemma admitted_bridge key target text raw skill w w' r :
  (admitted ← admit_key NotifyTimestamps key (notify_cooldown environ);
   if negb admitted then mret tt
   else target ← lift target; bridge handle_message target text raw skill) w = (w', r) →
  handed_once key w w'.
Proof.
  unfold mbind at 1, M_bind at 1. destruct (admit_key _ _ _ w) as [w1 r1] eqn:E.
  apply admit_key_outcome in E as (Hh & _ & _ & Hp). cbn [limiter] in Hp.
  destruct r1 as [[|]|e]; [|intros [= <- <-]; by left..]. destruct Hp as [now Hp]. cbn [negb].
  unfold mbind, M_bind, lift. destruct target as [t|e]; [|intros [= <- <-]; by left].
  intros [[Hh2|(ev & Hh2 & _)] Hl]%bridge_outcome; [left; congruence|]. right. exists ev. split; [congruence|].
  right. exists now. specialize (Hl NotifyTimestamps). cbn in Hl. by rewrite Hl.
Qed.

(** The key of an event. *)
Definition event_data (event : pydict) : pydict :=
  match or_dict (dict_get (str "data") event) with JDict data => data | _ => [] end.
Definition event_key (event : pydict) : pystr :=
  let data := event_data event in
  if get_is_str (str "event") (str "task.update") event
  then task_key (get_or (str "contextId") data (JStr [])) (get_or (str "status") data (JStr (str "unknown")))
  else coordination_key (get_or (str "from") data (JStr [])) (get_or (str "intent") data (JStr []))
         (get_or (str "contextId") data (JStr [])).

Lemma fetch_outcome message_id w w' r :
  _fetch_inbox_item client_inbox message_id w = (w', r) →
  ad_handled w' = ad_handled w ∧ ∀ x, limiter x w' = limiter x w.
Proof.
  unfold _fetch_inbox_item, at_side. destruct (negb _); [by intros [= <- <-]|].
  destruct (client_inbox _ _) as [s1 [o|e]]; [|destruct (is_Exception e)]; intros [= <- <-]; split; try done; by intros [].
Qed.

Lemma on_message_outcome event data target w w' r :
  get_is_str (str "event") (str "task.update") event = false →
  event_data event = data →
  _on_message environ client_inbox gateway handle_message event data target w = (w', r) →
  handed_once (event_key event) w w'.
Proof.
  intros Ht <-. unfold event_key. rewrite Ht. unfold _on_message. unfold mbind at 1, M_bind at 1.
  destruct (_fetch_inbox_item _ _ w) as [w1 r1] eqn:E. apply fetch_outcome in E as [Hh Hl].
  destruct r1 as [item|e]; [|intros [= <- <-]; by left].
  assert (∀ key w2, handed_once key w1 w2 → handed_once key w w2) as Hback.
  { intros key w2. unfold handed_once. specialize (Hl NotifyTimestamps). cbn in Hl. by rewrite Hh, Hl. }
  unfold mbind at 1, M_bind at 1, lift at 1. destruct (is_coordination _) as [[|]|e]; [| |intros [= <- <-]; by left].
  - unfold _inject_coordination_event. case_bool_decide; [intros [= <- <-]; by left|]. intros Hr. by eapply Hback, admitted_bridge.
  - case_bool_decide; [intros [= <- <-]; by left|]. case_bool_decide.
    + intros [Hh2 _]%hand_over_outcome. apply Hback. right. eexists. split; [exact Hh2|]. by left.
    + unfold _inject_free_form, mbind, M_bind, lift. destruct (_resolve_notify_target _ _); [|intros [= <- <-]; by left].
      intros Hr. by eapply Hback, bridge_free.
Qed.

Lemma dispatch_outcome event w w' r :
  dispatch environ client_inbox gateway handle_message event w = (w', r) →
  handed_once (event_key event) w w'.
Proof.
  assert (∀ w1 r1, _on_event environ client_inbox gateway handle_message event w = (w1, r1) →
            handed_once (event_key event) w w1) as Hev.
  { intros w1 r1. unfold _on_event. destruct (get_is_str _ (str "task.update") event) eqn:Et; cbn [orb].
    - cbn [negb]. destruct (or_dict _) as [| | | | | |data] eqn:Ed; try (intros [= <- <-]; by left).
      intros Hr. unfold event_key, event_data. rewrite Et, Ed. revert Hr. unfold _inject_task_update.
      case_match; [intros [= <- <-]; by left|]. case_bool_decide; [intros [= <- <-]; by left|]. apply admitted_bridge.
    - destruct (get_is_str _ (str "inbox.message") event); cbn [negb]; [|intros [= <- <-]; by left].
      destruct (or_dict _) as [| | | | | |data] eqn:Ed; try (intros [= <- <-]; by left).
      intros Hr. eapply on_message_outcome; [done| |exact Hr]. unfold event_data. by rewrite Ed. }
  unfold dispatch. destruct (_on_event _ _ _ _ _ w) as [w1 [[]|e]] eqn:E; [|destruct (is_Exception e)];
    intros [= <- <-]; by eapply Hev.
Qed.

Lemma dispatch_onward event : keeps onward (dispatch environ client_inbox gateway handle_message event).
Proof.
  intros w w' r. unfold dispatch. destruct (_on_event _ _ _ _ _ w) as [w1 [[]|e]] eqn:E; apply on_event_onward in E;
    [|destruct (is_Exception e)]; by intros [= <- <-].
Qed.

(** *** Runs of the adapter *)

(** The agent sends, the inbox loop dispatches an event, or the world outside
    moves on. *)
Inductive adapter_step : relation (Adapter S) :=
  | step_send chat_id content w w' r : send environ client_send chat_id content w = (w', r) → adapter_step w w'
  | step_event event w w' r :
      dispatch environ client_inbox gateway handle_message event w = (w', r) → adapter_step w w'
  | step_outside w s ticks :
      adapter_step w {| ad_time := ad_time w; ad_ticks := ticks; ad_send := ad_send w; ad_notify := ad_notify w;
                        ad_handled := ad_handled w; ad_side := s |}.

(** [__init__] *)
Definition fresh_limiter : Limiter := {| lm_timestamps := ∅; lm_passed := [] |}.
Definition fresh (time : Q) (s : S) : Adapter S := {|
  ad_time := time; ad_ticks := []; ad_send := fresh_limiter; ad_notify := fresh_limiter; ad_handled := []; ad_side := s |}.

Lemma fresh_ok time s : adapter_ok (fresh time s).
Proof.
  intros x. assert (limiter x (fresh time s) = fresh_limiter) as -> by (by destruct x). split; cbn.
  - intros key v [=].
  - intros t key Ht. inversion Ht.
  - intros i j t u key _ [=].
Qed.

Lemma reached_ok time s w : rtc adapter_step (fresh time s) w → adapter_ok w.
Proof.
  intros Hr. apply (rtc_ind_r (λ w, adapter_ok w) (fresh time s)) in Hr; [done|apply fresh_ok|].
  intros w1 w2 _ Hstep Hok. destruct Hstep as [? ? ? ? ? E|? ? ? ? E|? ? ?].
  - apply send_onward in E as [_ E]. by apply E.
  - apply dispatch_onward in E as [_ E]. by apply E.
  - intros x. pose proof (Hok x). by destruct x.
Qed.

(** C29: loop prevention: in every run of the adapter the messages handed to the
    sidecar for one contact are the cooldown apart, although old timestamps are
    evicted; a call of [send] either hands over exactly its message and is
    written down, or is suppressed and reaches nobody. *)
Theorem send_cooldown_respected (time : Q) (s : S) (w : Adapter S) (c : Z) :
  rtc adapter_step (fresh time s) w → send_cooldown environ = Ok c →
  spaced c (lm_passed (ad_send w))
  ∧ ∀ chat_id content w' r, send environ client_send chat_id content w = (w', r) →
      (lm_passed (ad_send w') = lm_passed (ad_send w) ∧ ad_side w' = ad_side w)
      ∨ ∃ now, lm_passed (ad_send w') = lm_passed (ad_send w) ++ [(now, chat_id)]
          ∧ ad_side w' = (client_send {| si_to := chat_id; si_context_id := None;
                                         si_body := {| bs_text := Some content; bs_intent := None; bs_data := None;
                                                       bs_extra := [] |} |} (ad_side w)).1.
Proof.
  intros Hr Hc. split.
  - pose proof (lo_spaced _ _ _ (reached_ok _ _ _ Hr SendTimestamps)) as Hs. unfold cooldown_of in Hs. by rewrite Hc in Hs.
  - intros chat_id content w' r. apply send_outcome.
Qed.

(** C30: notifications are de-duplicated: in every run the coordination events
    and task updates let through under one key (sender, intent and context; or
    context and status) are the cooldown apart, and dispatching an event hands
    at most one message to a session, either a plain message or one whose key
    passed just then. *)
Theorem notifications_deduplicated (time : Q) (s : S) (w : Adapter S) (c : Z) :
  rtc adapter_step (fresh time s) w → notify_cooldown environ = Ok c →
  spaced c (lm_passed (ad_notify w))
  ∧ ∀ event w' r, dispatch environ client_inbox gateway handle_message event w = (w', r) →
      handed_once (event_key event) w w'.
Proof.
  intros Hr Hc. split.
  - pose proof (lo_spaced _ _ _ (reached_ok _ _ _ Hr NotifyTimestamps)) as Hs. unfold cooldown_of in Hs. by rewrite Hc in Hs.
  - intros event w' r. apply dispatch_outcome.
Qed.
End adapter_properties.

(** ** Plain messages *)

Section routing.
Context `{PyUnicode} `{PyDatetime} {S : Type}.
Context (environ : pystr → option pystr) (client_inbox : InboxInput → M S InboxOutput).
Context (gateway : option (pystr → result bool)) (handle_message : Injected → M S unit).

(** Without a bridge, a message with a text and no coordination intent is handed
    to the session of its sender, with its text, whatever the session does. *)
Lemma plain_message_surfaces event data sender message_id item text (w : Adapter S) s1 out :
  default [] (environ (str "SHADOWNET_NOTIFY_CHAT")) = [] →
  get_is_str (str "event") (str "inbox.message") event = true →
  dict_get (str "data") event = Some (JDict data) →
  get_str (str "from") data = Some sender → sender ≠ [] →
  get_str (str "messageId") data = Some message_id → message_id ≠ [] →
  is_coordination (get_or (str "intent") data (JStr [])) = Ok false →
  client_inbox InboxInput_default (ad_side w) = (s1, Ok out) →
  List.find (λ i, json_is_str (it_message_id i) (JStr message_id)) (ino_items out) = Some item →
  bs_text (it_body item) = Some text → text ≠ [] →
  ∃ w' r ev, _on_event environ client_inbox gateway handle_message event w = (w', r)
    ∧ ad_handled w' = ad_handled w ++ [ev] ∧ inj_chat_id ev = JStr sender
    ∧ inj_text ev = surface_text (JStr sender) (get_or (str "contextId") data (JStr [])) (JStr message_id) text.
Proof.
  intros Hn He Hd Hs Hs0 Hm Hm0 Hi Hc Hf Ht Ht0.
  assert (get_is_str (str "event") (str "task.update") event = false) as Htask.
  { unfold get_is_str, json_is_str in *. destruct (dict_get (str "event") event) as [[]|]; try done. bool_prop. by subst. }
  unfold _on_event. rewrite Htask, He, Hd, Hn. cbn [orb negb or_dict]. unfold or_dict. cbn [truthy].
  assert (∀ k v, get_str k data = Some v → v ≠ [] → ∀ d, get_or k data d = JStr v) as Hget.
  { intros k v Hk Hv d. unfold get_or, py_or, get_str in *. destruct (dict_get k data) as [[]|]; try done.
    injection Hk as ->. cbn [truthy]. by rewrite bool_decide_false. }
  assert (data ≠ []) as Hdata by (intros ->; done).
  destruct data as [|kv data']; [done|]. set (data := kv :: data') in *.
  unfold _on_message. rewrite (Hget _ _ Hs Hs0), (Hget _ _ Hm Hm0).
  unfold _fetch_inbox_item, at_side. cbn [truthy]. rewrite (bool_decide_false (message_id = [])) by done. cbn [negb].
  unfold mbind at 1, M_bind at 1. rewrite Hc, Hf. rewrite (M_bind_lift _ _ _ _ Hi). cbn [fmap option_fmap option_map mbind option_bind].
  rewrite Ht. cbn [default]. rewrite bool_decide_false by done. rewrite bool_decide_true by done.
  unfold _surface_inbound_message. destruct (hand_over _ _ _) as [w' r] eqn:E.
  pose proof (hand_over_outcome _ _ _ _ _ E) as [Hh _]. exists w', r. eexists. split_and!; [done|exact Hh|done|done].
Qed.
End routing.

(** ** Examples *)

#[local] Existing Instance ascii_unicode.

Definition no_environ (_ : pystr) : option pystr := None.
Definition no_datetime : PyDatetime := {| friendly_datetime _ := None |}.
#[local] Existing Instance no_datetime.

(** A sidecar that keeps what it gets, and one that is down. *)
Definition demo_client_send (a : SendInput) : M (list SendInput) SendOutput := λ s,
  (s ++ [a], Ok {| so_message_id := str "m"; so_context_id := str "c"; so_status := str "accepted"; so_error := None |}).
Definition failing_send (a : SendInput) : M (list SendInput) SendOutput := λ s, (s, Raise (ToolError [])).
Definition no_inbox (_ : InboxInput) : M (list SendInput) InboxOutput := mret {| ino_items := []; ino_next_since := None |}.
Definition demo_gateway : option (pystr → result bool) := Some (λ _, Ok true).
Definition demo_handle (_ : Injected) : M (list SendInput) unit := mret tt.

Definition with_ticks (ticks : list (N * positive)) (w : Adapter (list SendInput)) : Adapter (list SendInput) :=
  {| ad_time := ad_time w; ad_ticks := ticks; ad_send := ad_send w; ad_notify := ad_notify w;
     ad_handled := ad_handled w; ad_side := ad_side w |}.

Definition demo_send_step (w : Adapter (list SendInput)) : Adapter (list SendInput) :=
  fst (send no_environ demo_client_send (str "bob") (str "hi") w).

(** Three sends: the second comes ten seconds after the first, the third two
    minutes after. *)
Definition demo_first : Adapter (list SendInput) := demo_send_step (fresh 100000%Q []).
Definition demo_second : Adapter (list SendInput) := demo_send_step (with_ticks [(10%N, 1%positive)] demo_first).
Definition demo_third : Adapter (list SendInput) := demo_send_step (with_ticks [(110%N, 1%positive)] demo_second).

Abbreviation demo_step :=
  (adapter_step (S := list SendInput) no_environ demo_client_send no_inbox demo_gateway demo_handle).

Lemma demo_sends_reached : rtc demo_step (fresh 100000%Q []) demo_third.
Proof.
  assert (∀ w, demo_step w (demo_send_step w)) as Hs.
  { intros w. eapply (step_send _ _ _ _ _ (str "bob") (str "hi")). apply surjective_pairing. }
  assert (∀ w ticks, demo_step w (with_ticks ticks w)) as Ht by (intros w ticks; apply step_outside).
  apply (rtc_l _ _ demo_first); [apply Hs|]. eapply rtc_l; [apply Ht|]. apply (rtc_l _ _ demo_second); [apply Hs|].
  eapply rtc_l; [apply Ht|]. apply (rtc_l _ _ demo_third); [apply Hs|]. reflexivity.
Qed.

(** The first and the third message go out. *)
Lemma send_cooldown_respected_witness :
  length (ad_side demo_third) = 2%nat ∧ send_cooldown no_environ = Ok 120 ∧ spaced 120 (lm_passed (ad_send demo_third)).
Proof.
  split; [vm_compute; reflexivity|]. split; [vm_compute; reflexivity|].
  apply (send_cooldown_respected no_environ demo_client_send no_inbox demo_gateway demo_handle _ [] demo_third 120
           demo_sends_reached). vm_compute. reflexivity.
Defined.

(** A coordination request twice, five seconds apart, bridged to a chat. *)
Definition bridged (var : pystr) : option pystr :=
  if bool_decide (var = str "SHADOWNET_NOTIFY_CHAT") then Some (str "telegram:42") else None.
Definition demo_request : pydict :=
  [(str "event", JStr (str "inbox.message"));
   (str "data", JDict [(str "from", JStr (str "bob")); (str "contextId", JStr (str "c1")); (str "messageId", JStr (str "m1"));
                       (str "intent", JStr COORDINATE_V1_URI)])].
Definition demo_event_step (w : Adapter (list SendInput)) : Adapter (list SendInput) :=
  fst (dispatch bridged no_inbox demo_gateway demo_handle demo_request w).
Definition demo_notified : Adapter (list SendInput) :=
  demo_event_step (with_ticks [(5%N, 1%positive)] (demo_event_step (fresh 100000%Q []))).

Lemma demo_notified_reached :
  rtc (adapter_step bridged demo_client_send no_inbox demo_gateway demo_handle) (fresh 100000%Q []) demo_notified.
Proof.
  apply (rtc_l _ _ (demo_event_step (fresh 100000%Q []))).
  { eapply (step_event _ _ _ _ _ demo_request). apply surjective_pairing. }
  apply (rtc_l _ _ (with_ticks [(5%N, 1%positive)] (demo_event_step (fresh 100000%Q [])))); [apply step_outside|].
  apply (rtc_l _ _ demo_notified); [|reflexivity].
  eapply (step_event _ _ _ _ _ demo_request). apply surjective_pairing.
Qed.

(** One of the two reaches the chat. *)
Lemma notifications_deduplicated_witness :
  length (ad_handled demo_notified) = 1%nat ∧ notify_cooldown bridged = Ok 60 ∧ spaced 60 (lm_passed (ad_notify demo_notified)).
Proof.
  split; [vm_compute; reflexivity|]. split; [vm_compute; reflexivity|].
  apply (notifications_deduplicated bridged demo_client_send no_inbox demo_gateway demo_handle _ [] demo_notified 60
           demo_notified_reached). vm_compute. reflexivity.
Defined.

(** The timestamp is written before the message is sent: after a call that
    failed, the retry is suppressed and reported as sent. *)
Lemma failed_send_suppresses_retry :
  let w := fst (send no_environ failing_send (str "bob") (str "hi") (fresh 100000%Q [])) in
  snd (send no_environ failing_send (str "bob") (str "hi") (fresh 100000%Q [])) = Raise (ToolError [])
  ∧ snd (send no_environ demo_client_send (str "bob") (str "hi") w) = Ok true
  ∧ ad_side (fst (send no_environ demo_client_send (str "bob") (str "hi") w)) = [].
Proof. vm_compute. split_and!; reflexivity. Qed.

(** The text for a coordination request tells the agent to act without its
    user. *)
Lemma coordination_text_is_autonomous :
  existsb (λ ev, contains (str "do NOT ask your user for input") (inj_text ev)) (ad_handled demo_notified) = true.
Proof. vm_compute. reflexivity. Qed.
