(* ===== verification/HermesLifecycle.v ===== *)
(** * Connecting and disconnecting the Hermes adapter — [_adapter.py], [shadownet/mcp/client.py]

    [ShadownetMCPClient.connect] opens a transport and a session on it; the
    adapter keeps the client on an exit stack, starts the inbox task, and closes
    both when it disconnects.  What the [mcp] package promises of its context
    managers is the class [McpLaws]; against it the adapter accounts for
    everything it opened. *)

From S2P Require Import Prelude PyStr Jcs Dicts Pydantic Mcp.

(** ** Context managers *)

Section managers.
Context {W : Type}.

(** [async with]: leaving by an exception runs the exit, whose own exception
    replaces the first one. *)
Definition on_raise {A} (exit : M W unit) (m : M W A) : M W A := λ w,
  match m w with
  | (w, Ok a) => (w, Ok a)
  | (w, Raise e) => match exit w with (w, Ok _) => (w, Raise e) | (w, Raise e') => (w, Raise e') end
  end.

(** [m], then [exit] in any case. *)
Definition finally (m exit : M W unit) : M W unit := λ w,
  match m w with
  | (w, Ok _) => exit w
  | (w, Raise e) => match exit w with (w, Ok _) => (w, Raise e) | (w, Raise e') => (w, Raise e') end
  end.
End managers.

(** ** The [mcp] package *)

(** The context managers [streamablehttp_client] and [ClientSession] and the calls
    on a session; each open one has a handle. *)
Class McpSdk (S : Type) := {
  open_http : pystr → pystr → M S nat;
  close_http : nat → M S unit;
  open_session : nat → M S nat;
  close_session : nat → M S unit;
  initialize : nat → M S unit;
  call_identity : nat → M S IdentityOutput;
  handles : S → gset nat;
}.

(** Entering gives a new handle or fails and leaves nothing open; leaving closes,
    even when it raises; calls neither open nor close. *)
Class McpLaws (S : Type) `{McpSdk S} : Prop := {
  open_http_new e a w w' r : open_http e a w = (w', r) →
    match r with Ok h => (h ∉ handles w) ∧ handles w' = {[h]} ∪ handles w | Raise _ => handles w' = handles w end;
  close_http_closes h w w' r : close_http h w = (w', r) → handles w' = handles w ∖ {[h]};
  open_session_new p w w' r : open_session p w = (w', r) →
    match r with Ok h => (h ∉ handles w) ∧ handles w' = {[h]} ∪ handles w | Raise _ => handles w' = handles w end;
  close_session_closes h w w' r : close_session h w = (w', r) → handles w' = handles w ∖ {[h]};
  initialize_same h w w' r : initialize h w = (w', r) → handles w' = handles w;
  call_identity_same h w w' r : call_identity h w = (w', r) → handles w' = handles w;
}.

(** ** [ShadownetMCPClient.connect] *)

Record Client := { cl_http : nat; cl_session : nat }.

Section client.
Context {S : Type} `{McpSdk S}.

(** Entering the context manager, and leaving it. *)
Definition connect_client (endpoint access_token : pystr) : M S Client :=
  http ← open_http endpoint (str "Bearer " ++ access_token);
  on_raise (close_http http)
    (session ← open_session http;
     on_raise (close_session session)
       (_ ← initialize session; mret {| cl_http := http; cl_session := session |})).

Definition close_client (c : Client) : M S unit := finally (close_session (cl_session c)) (close_http (cl_http c)).

(** [AsyncExitStack.aclose]: the last one entered is left first; the rest is left
    even if that raises. *)
Fixpoint aclose (stack : list Client) : M S unit :=
  match stack with
  | [] => mret tt
  | c :: stack => finally (close_client c) (aclose stack)
  end.
End client.

(** ** The adapter *)

(** The attributes that connecting sets; [None] before.  [_gateway], which it sets
    as well, is the parameter [gateway] of the operations in [Hermes]. *)
Record Life (S : Type) := {
  lf_stack : option (list Client);
  lf_client : option Client;
  lf_shadowname : option pystr;
  lf_task : option nat;
  (** The tasks that are not done, and the next one. *)
  lf_running : gset nat;
  lf_next : nat;
  lf_side : S;
}.
Arguments lf_stack {S}.
Arguments lf_client {S}.
Arguments lf_shadowname {S}.
Arguments lf_task {S}.
Arguments lf_running {S}.
Arguments lf_next {S}.
Arguments lf_side {S}.

Section life.
Context {S : Type} `{McpSdk S}.
(** [self._mcp_endpoint], [self._token]; [_mark_connected] and [_mark_disconnected]
    of the base class; what awaiting a cancelled inbox task raises. *)
Context (mcp_endpoint token : pystr) (mark_connected mark_disconnected : M S unit) (await_task : nat → M S unit).

Definition side {A} (m : M S A) : M (Life S) A := λ l,
  let '(s, r) := m (lf_side l) in
  ({| lf_stack := lf_stack l; lf_client := lf_client l; lf_shadowname := lf_shadowname l; lf_task := lf_task l;
      lf_running := lf_running l; lf_next := lf_next l; lf_side := s |}, r).

Definition set_stack (stack : list Client) : M (Life S) unit := λ l,
  ({| lf_stack := Some stack; lf_client := lf_client l; lf_shadowname := lf_shadowname l; lf_task := lf_task l;
      lf_running := lf_running l; lf_next := lf_next l; lf_side := lf_side l |}, Ok tt).

(** [await self._stack.enter_async_context(...)], on the stack just made. *)
Definition set_client (c : Client) : M (Life S) unit := λ l,
  ({| lf_stack := Some [c]; lf_client := Some c; lf_shadowname := lf_shadowname l; lf_task := lf_task l;
      lf_running := lf_running l; lf_next := lf_next l; lf_side := lf_side l |}, Ok tt).
Definition set_shadowname (n : pystr) : M (Life S) unit := λ l,
  ({| lf_stack := lf_stack l; lf_client := lf_client l; lf_shadowname := Some n; lf_task := lf_task l;
      lf_running := lf_running l; lf_next := lf_next l; lf_side := lf_side l |}, Ok tt).

(** [asyncio.create_task(self._inbox_loop())] *)
Definition start_task : M (Life S) unit := λ l,
  ({| lf_stack := lf_stack l; lf_client := lf_client l; lf_shadowname := lf_shadowname l; lf_task := Some (lf_next l);
      lf_running := {[lf_next l]} ∪ lf_running l; lf_next := Datatypes.S (lf_next l); lf_side := lf_side l |}, Ok tt).
Definition end_task (k : nat) : M (Life S) unit := λ l,
  ({| lf_stack := lf_stack l; lf_client := lf_client l; lf_shadowname := lf_shadowname l; lf_task := lf_task l;
      lf_running := lf_running l ∖ {[k]}; lf_next := lf_next l; lf_side := lf_side l |}, Ok tt).

(** [await self._stack.aclose()]: the stack is empty afterwards. *)
Definition close_stack : M (Life S) unit := λ l,
  match lf_stack l with
  | None => (l, Ok tt)
  | Some stack => (_ ← set_stack []; side (aclose stack)) l
  end.

Definition open_and_start : M (Life S) unit :=
  client ← side (connect_client mcp_endpoint token);
  _ ← set_client client;
  identity ← side (call_identity (cl_session client));
  _ ← set_shadowname (io_shadowname identity);
  _ ← start_task;
  side mark_connected.

Definition connect : M (Life S) bool := λ l,
  match (_ ← set_stack []; open_and_start) l with
  | (l, Ok _) => (l, Ok true)
  | (l, Raise e) =>
      if is_Exception e then match close_stack l with (l, Ok _) => (l, Raise e) | (l, Raise e') => (l, Raise e') end
      else (l, Raise e)
  end.

(** Cancelling the inbox task and waiting for its end. *)
Definition is_CancelledError (e : exn) : bool := bool_decide (e = CancelledError).
Definition stop_task : M (Life S) unit := λ l,
  match lf_task l with
  | None => (l, Ok tt)
  | Some k =>
      if bool_decide (k ∈ lf_running l) then
        match (_ ← end_task k; side (await_task k)) l with
        | (l, Raise e) => if is_CancelledError e || is_Exception e then (l, Ok tt) else (l, Raise e)
        | r => r
        end
      else (l, Ok tt)
  end.

Definition disconnect : M (Life S) unit :=
  _ ← stop_task;
  _ ← close_stack;
  side mark_disconnected.
End life.

(** [get_chat_info] *)
Definition get_chat_info (chat_id : pystr) : pydict := [(str "id", JStr chat_id); (str "platform", JStr (str "shadownet"))].

(** ** What is open *)

Definition client_handles (c : Client) : gset nat := {[cl_http c; cl_session c]}.
Definition stack_handles (stack : option (list Client)) : gset nat := ⋃ (client_handles <$> default [] stack).

Section client_laws.
Context {S : Type} `{McpLaws S}.

Lemma close_client_closes c w w' r : close_client c w = (w', r) → handles w' = handles w ∖ client_handles c.
Proof.
  unfold close_client, finally, client_handles. destruct (close_session _ w) as [w1 r1] eqn:E1. apply close_session_closes in E1.
  destruct (close_http _ w1) as [w2 r2] eqn:E2. apply close_http_closes in E2.
  destruct r1, r2; intros [= <- <-]; rewrite E2, E1; set_solver.
Qed.

Lemma aclose_closes stack w w' r : aclose stack w = (w', r) → handles w' = handles w ∖ stack_handles (Some stack).
Proof.
  revert w w' r. induction stack as [|c stack IH]; intros w w' r; cbn [aclose].
  - intros [= <- <-]. unfold stack_handles. set_solver.
  - unfold finally. destruct (close_client c w) as [w1 r1] eqn:E1. apply close_client_closes in E1.
    destruct (aclose stack w1) as [w2 r2] eqn:E2. apply IH in E2.
    destruct r1, r2; intros [= <- <-]; rewrite E2, E1; unfold stack_handles; cbn; set_solver.
Qed.

Lemma closed_again (h : nat) (X : gset nat) : h ∉ X → ({[h]} ∪ X) ∖ {[h]} = X.
Proof. set_solver. Qed.

(** Opening a client opens two handles, or leaves nothing open. *)
Lemma connect_client_opens endpoint token w w' r :
  connect_client endpoint token w = (w', r) →
  match r with
  | Ok c => client_handles c ## handles w ∧ handles w' = client_handles c ∪ handles w
  | Raise _ => handles w' = handles w
  end.
Proof.
  unfold connect_client, mbind, M_bind. destruct (open_http _ _ w) as [w1 [h|e]] eqn:E1; apply open_http_new in E1; [|by intros [= <- <-]].
  destruct E1 as [Hh E1]. unfold on_raise.
  destruct (open_session h w1) as [w2 [s|e]] eqn:E2; apply open_session_new in E2.
  - destruct E2 as [Hs E2]. destruct (initialize s w2) as [w3 [[]|e]] eqn:E3; apply initialize_same in E3.
    + intros [= <- <-]. unfold client_handles. cbn. set_solver.
    + destruct (close_session s w3) as [w4 r4] eqn:E4. apply close_session_closes in E4.
      destruct (close_http h w4) as [w5 r5] eqn:E5.
      assert (handles w5 = handles w) as Hw5.
      { apply close_http_closes in E5. by rewrite E5, E4, E3, E2, closed_again, E1, closed_again. }
      destruct r4; rewrite E5; destruct r5; by intros [= <- <-].
  - destruct (close_http h w2) as [w3 r3] eqn:E3. apply close_http_closes in E3.
    destruct r3; intros [= <- <-]; by rewrite E3, E2, E1, closed_again.
Qed.
End client_laws.

Lemma one_client_size (stack : option (list Client)) :
  (length (default [] stack) ≤ 1)%nat → (size (stack_handles stack) ≤ 2)%nat.
Proof.
  unfold stack_handles. destruct (default [] stack) as [|c [|]]; cbn; [rewrite size_empty; lia| |lia]. intros _.
  rewrite union_empty_r_L. unfold client_handles. rewrite size_union_alt, size_singleton.
  pose proof (subseteq_size ({[cl_session c]} ∖ {[cl_http c]}) ({[cl_session c]} : gset nat)) as Hs.
  rewrite size_singleton in Hs. specialize (Hs ltac:(set_solver)). lia.
Qed.

(** ** Runs of the adapter *)

Section life_laws.
Context {S : Type} `{McpLaws S}.
Context (mcp_endpoint token : pystr) (mark_connected mark_disconnected : M S unit) (await_task : nat → M S unit).
(** The base class and the inbox task open and close nothing. *)
Context (Hmark : keeps (λ s s', handles s' = handles s) mark_connected).
Context (Hunmark : keeps (λ s s', handles s' = handles s) mark_disconnected).
Context (Hawait : ∀ k, keeps (λ s s', handles s' = handles s) (await_task k)).

Abbreviation connect := (connect mcp_endpoint token mark_connected).
Abbreviation disconnect := (disconnect mark_disconnected await_task).

(** Nothing is open and no inbox task runs. *)
Definition idle (l : Life S) : Prop := default [] (lf_stack l) = [] ∧ ∀ k, lf_task l = Some k → k ∉ lf_running l.

(** A host that connects an idle adapter only.  [connect] and [disconnect] await in
    between; a step is a whole call, so the host is taken not to start one while
    another is under way. *)
Inductive life_step : relation (Life S) :=
  | step_connect l l' r : idle l → connect l = (l', r) → life_step l l'
  | step_disconnect l l' r : disconnect l = (l', r) → life_step l l'
  | step_task_ends l l' k r : end_task k l = (l', r) → life_step l l'
  | step_calls {A} (m : M S A) l l' r : keeps (λ s s', handles s' = handles s) m → side m l = (l', r) → life_step l l'.

Context (B : gset nat).

(** The handles opened are those of the stack, and only the last task runs. *)
Record accounted (l : Life S) : Prop := {
  ac_apart : stack_handles (lf_stack l) ## B;
  ac_handles : handles (lf_side l) = B ∪ stack_handles (lf_stack l);
  ac_one : (length (default [] (lf_stack l)) ≤ 1)%nat;
  ac_task : ∀ k, k ∈ lf_running l → lf_task l = Some k;
}.

(** A call that opens and closes nothing. *)
Lemma side_accounted {A} (m : M S A) l l' r :
  keeps (λ s s', handles s' = handles s) m → side m l = (l', r) → accounted l →
  accounted l' ∧ lf_stack l' = lf_stack l ∧ lf_task l' = lf_task l ∧ lf_running l' = lf_running l.
Proof.
  intros Hm. unfold side. destruct (m (lf_side l)) as [s x] eqn:E. apply Hm in E. intros [= <- <-] [Ha Hh Ho Ht].
  split; [|done]. split; cbn; [done|by rewrite E|done|done].
Qed.

Lemma close_stack_accounted l l' r :
  close_stack l = (l', r) → accounted l →
  accounted l' ∧ default [] (lf_stack l') = [] ∧ handles (lf_side l') = B
  ∧ lf_task l' = lf_task l ∧ lf_running l' = lf_running l.
Proof.
  unfold close_stack. intros E [Ha Hh Ho Ht]. destruct (lf_stack l) as [stack|] eqn:Hs.
  - revert E. unfold mbind, M_bind, set_stack, side. cbn [lf_side]. destruct (aclose stack (lf_side l)) as [s x] eqn:Ec.
    apply aclose_closes in Ec. intros [= <- <-]. cbn.
    assert (handles s = B) as HB by (rewrite Ec, Hh; set_solver).
    split_and!; [|done..]. split; cbn; [set_solver|unfold stack_handles; cbn; rewrite HB; set_solver|lia|done].
  - injection E as <- <-. split_and!; [|by rewrite Hs|rewrite Hh; unfold stack_handles; cbn; set_solver|done..].
    split; rewrite ?Hs; done.
Qed.

(** Opening from an empty stack with no task running. *)
Lemma open_and_start_accounted l l' r :
  open_and_start mcp_endpoint token mark_connected l = (l', r) →
  default [] (lf_stack l) = [] → lf_running l = ∅ → accounted l → accounted l'.
Proof.
  unfold open_and_start. unfold mbind at 1, M_bind at 1. intros E Hs Hr Hl. pose proof Hl as [Ha Hh Ho Ht].
  assert (handles (lf_side l) = B) as HB by (rewrite Hh; unfold stack_handles; rewrite Hs; cbn; set_solver).
  unfold side at 1 in E. destruct (connect_client mcp_endpoint token (lf_side l)) as [s1 [c|e]] eqn:E1;
    apply connect_client_opens in E1.
  2: { injection E as <- <-. split; cbn; [done|by rewrite E1|done|done]. }
  destruct E1 as [Hc E1]. revert E. unfold mbind at 1, M_bind at 1. cbn [set_client].
  set (l1 := {| lf_stack := Some [c] |}). assert (accounted l1) as H1.
  { subst l1. split; cbn; unfold stack_handles; cbn; rewrite ?union_empty_r_L; [by rewrite HB in Hc|by rewrite E1, HB, union_comm_L|done|done]. }
  unfold mbind at 1, M_bind at 1. destruct (side (call_identity (cl_session c)) l1) as [l2 [id|e]] eqn:E2;
    apply side_accounted in E2 as (H2 & _ & _ & Hr2); try done; try (intros ? ? ?; apply call_identity_same).
  2: { by intros [= <- <-]. }
  unfold mbind, M_bind. cbn [set_shadowname start_task]. intros E. eapply side_accounted in E; [apply E|done|].
  destruct H2 as [A2 B2 C2 D2]. split; cbn; [done|done|done|]. intros k. rewrite Hr2. cbn. rewrite Hr. set_solver.
Qed.

Lemma idle_nothing_runs l : accounted l → idle l → lf_running l = ∅.
Proof. intros [_ _ _ Ht] [_ Hk]. apply set_eq. intros k. split; [|set_solver]. intros Hin. by destruct (Hk k (Ht k Hin)). Qed.

Lemma connect_accounted l l' r :
  connect l = (l', r) → idle l → accounted l →
  accounted l' ∧ ∀ e, r = Raise e → is_Exception e = true → handles (lf_side l') = B ∧ default [] (lf_stack l') = [].
Proof.
  intros E Hi Hl. pose proof (idle_nothing_runs l Hl Hi) as Hr. destruct Hi as [Hs _]. revert E.
  unfold HermesLifecycle.connect. unfold mbind, M_bind. cbn [set_stack]. set (l0 := {| lf_stack := Some [] |}).
  assert (accounted l0) as HL0.
  { destruct Hl as [Ha Hh Ho Ht]. unfold stack_handles in *. rewrite Hs in *. by split. }
  destruct (open_and_start _ _ _ l0) as [l1 [[]|e]] eqn:E1; apply open_and_start_accounted in E1; try done.
  - by intros [= <- <-].
  - destruct (is_Exception e) eqn:He.
    + destruct (close_stack l1) as [l2 r2] eqn:E2. apply close_stack_accounted in E2 as (H2 & Hs2 & HB & _); [|done].
      destruct r2; intros [= <- <-]; split; by eauto.
    + intros [= <- <-]. split; [done|]. intros e' [= <-]. by rewrite He.
Qed.

Lemma stop_task_accounted l l' r :
  stop_task await_task l = (l', r) → accounted l →
  accounted l' ∧ lf_running l' = ∅ ∧ ∀ e, r = Raise e → is_Exception e = false.
Proof.
  unfold stop_task. intros E Hl. pose proof Hl as [Ha Hh Ho Ht].
  assert (∀ k, lf_task l ≠ Some k ∨ k ∉ lf_running l → k ∉ lf_running l) as Hno by (intros k [Hk|Hk] Hin; [by apply Hk, Ht|done]).
  destruct (lf_task l) as [k|] eqn:Hk; [case_bool_decide as Hin|].
  2,3: injection E as <- <-; split_and!; [done| |done]; apply set_eq; intros j; split; [|set_solver]; intros Hj;
       specialize (Ht j Hj); naive_solver.
  revert E. unfold mbind, M_bind. cbn [end_task]. set (l0 := {| lf_stack := lf_stack l |}).
  assert (accounted l0 ∧ lf_running l0 = ∅) as [HL0 Hr0].
  { assert (lf_running l ∖ {[k]} = ∅) as Hempty.
    { apply set_eq. intros j. rewrite elem_of_difference, elem_of_singleton. split; [|set_solver]. intros [Hj Hne].
      specialize (Ht j Hj). congruence. }
    split; [|done]. split; cbn; [done..|]. rewrite Hempty. set_solver. }
  destruct (side (await_task k) l0) as [l1 [[]|e]] eqn:E1; apply side_accounted in E1 as (H1 & _ & _ & Hr1); try done.
  - intros [= <- <-]. split_and!; [done|congruence|done].
  - destruct (is_CancelledError e || is_Exception e) eqn:He; intros [= <- <-]; (split_and!; [done|congruence|]); [done|].
    intros e' [= <-]. by apply orb_false_iff in He as [_ ?].
Qed.

Lemma disconnect_accounted l l' r :
  disconnect l = (l', r) → accounted l →
  accounted l' ∧ lf_running l' = ∅
  ∧ ((∀ e, r = Raise e → is_Exception e = true) → handles (lf_side l') = B ∧ idle l').
Proof.
  unfold HermesLifecycle.disconnect. unfold mbind at 1, M_bind at 1. intros E Hl.
  destruct (stop_task await_task l) as [l1 [[]|e]] eqn:E1; apply stop_task_accounted in E1 as (H1 & Hr1 & He); try done.
  2: { injection E as <- <-. split_and!; [done..|]. intros Hx. specialize (Hx e eq_refl). by rewrite (He e eq_refl) in Hx. }
  revert E. unfold mbind, M_bind. destruct (close_stack l1) as [l2 [[]|e]] eqn:E2;
    apply close_stack_accounted in E2 as (H2 & Hs2 & HB & _ & Hr2); try done.
  - unfold side. destruct (mark_disconnected (lf_side l2)) as [s x] eqn:Em. apply Hunmark in Em. intros [= <- <-]. cbn.
    split_and!; [|congruence|].
    + destruct H2 as [A2 B2 C2 D2]. split; cbn; [done|by rewrite Em|done|done].
    + intros _. split; [by rewrite Em|]. split; [done|]. cbn. rewrite Hr2, Hr1. set_solver.
  - intros [= <- <-]. split_and!; [done|congruence|]. intros _. split; [done|]. split; [done|]. rewrite Hr2, Hr1. set_solver.
Qed.

Lemma life_step_accounted l l' : life_step l l' → accounted l → accounted l'.
Proof.
  destruct 1 as [l l' r Hi E|l l' r E|l l' k r E|A m l l' r Hm E]; intros Hl.
  - by eapply connect_accounted.
  - by eapply disconnect_accounted.
  - injection E as <- <-. destruct Hl as [Ha Hh Ho Ht]. split; cbn; [done..|]. set_solver.
  - by eapply side_accounted.
Qed.

(** C31: the adapter accounts for what it opens.  When the host connects it only
    while it is idle, one call after the other, then at any time what it has opened and not closed is at most
    one transport and one session, those of its exit stack, and no inbox task but
    the last one runs; disconnecting closes all of it and ends the task, and a
    connection attempt that fails with an ordinary exception leaves nothing open. *)
Theorem sessions_accounted l0 l :
  rtc life_step l0 l →
  lf_stack l0 = None → lf_running l0 = ∅ → handles (lf_side l0) = B →
  handles (lf_side l) = B ∪ stack_handles (lf_stack l) ∧ (size (stack_handles (lf_stack l)) ≤ 2)%nat
  ∧ (∀ k, k ∈ lf_running l → lf_task l = Some k)
  ∧ (∀ l' r, disconnect l = (l', r) → (∀ e, r = Raise e → is_Exception e = true) →
       handles (lf_side l') = B ∧ lf_running l' = ∅ ∧ idle l')
  ∧ (∀ l' e, idle l → connect l = (l', Raise e) → is_Exception e = true → handles (lf_side l') = B).
Proof.
  intros Hsteps Hs0 Hr0 HB. assert (accounted l) as Hl.
  { assert (accounted l0) as Hl0 by (split; rewrite ?Hs0, ?Hr0; cbn; unfold stack_handles; cbn; rewrite ?HB; [set_solver|set_solver|lia|set_solver]).
    clear -Hsteps Hl0 H H0 Hmark Hunmark Hawait. induction Hsteps as [|l0 l1 l Hstep _ IH]; [done|]. by eapply IH, life_step_accounted. }
  pose proof Hl as [Ha Hh Ho Ht]. split_and!; [done|by apply one_client_size|done|..].
  - intros l' r E He. destruct (disconnect_accounted l l' r E Hl) as (_ & Hr & Hx). destruct (Hx He). by split_and!.
  - intros l' e Hi E He. by eapply connect_accounted.
Qed.
End life_laws.

(** ** Examples *)

(** A sidecar that accepts every connection; with [refuses] it answers no
    [identity] call. *)
Definition toy_identity : IdentityOutput := {| io_shadowname := str "alice@sh4dow.org"; io_pk := []; io_credentials := [] |}.
Definition next_handle (w : gset nat) : nat := Datatypes.S (set_fold Nat.max O w).
Definition toy_open (w : gset nat) : gset nat * result nat := ({[next_handle w]} ∪ w, Ok (next_handle w)).
Definition toy_close (h : nat) (w : gset nat) : gset nat * result unit := (w ∖ {[h]}, Ok tt).
#[local] Instance toy_sdk (refuses : bool) : McpSdk (gset nat) := {|
  open_http _ _ := toy_open; close_http := toy_close; open_session _ := toy_open; close_session := toy_close;
  initialize _ := mret tt; call_identity _ := if refuses then lift (Raise (ToolError (str "refused"))) else mret toy_identity;
  handles w := w |}.

Lemma next_handle_new w : next_handle w ∉ w.
Proof.
  assert (∀ k, k ∈ w → (k ≤ set_fold Nat.max O w)%nat) as Hmax.
  { apply (set_fold_ind_L (λ m X, ∀ k, k ∈ X → (k ≤ m)%nat)); [set_solver|]. intros x X m _ IH k.
    rewrite elem_of_union, elem_of_singleton. intros [->|Hk]; [lia|]. specialize (IH k Hk). lia. }
  intros Hin%Hmax. unfold next_handle in Hin. lia.
Qed.

#[local] Instance toy_laws refuses : @McpLaws (gset nat) (toy_sdk refuses).
Proof.
  split; cbn; unfold toy_open, toy_close; intros.
  all: repeat match goal with E : (_, _) = (_, _) |- _ => injection E as <- <- end; try done.
  1,2: split; [apply next_handle_new|done].
  - by match goal with E : mret _ _ = _ |- _ => injection E as <- <- end.
  - destruct refuses; match goal with E : _ _ _ = _ |- _ => by injection E as <- <- end.
Qed.

Definition new_adapter : Life (gset nat) :=
  {| lf_stack := None; lf_client := None; lf_shadowname := None; lf_task := None; lf_running := ∅; lf_next := 0; lf_side := ∅ |}.

Definition toy_connect (refuses : bool) := @connect _ (toy_sdk refuses) (str "https://app.sh4dow.org/mcp") (str "t") (mret tt).
Definition toy_disconnect := @disconnect _ (toy_sdk false) (mret tt) (λ _, lift (Raise CancelledError)).

Lemma sessions_accounted_witness :
  let l := (toy_connect false new_adapter).1 in
  lf_side l = ∅ ∪ stack_handles (lf_stack l) ∧ lf_side (toy_disconnect l).1 = ∅.
Proof.
  intros l.
  destruct (@sessions_accounted _ (toy_sdk false) (toy_laws false) (str "https://app.sh4dow.org/mcp") (str "t") (mret tt) (mret tt)
    (λ _, lift (Raise CancelledError))) with (B := ∅ : gset nat) (l0 := new_adapter) (l := l) as (H1 & _ & _ & H2 & _).
  - apply keeps_ret. split; [by intros x|intros x y z Hxy Hyz; congruence].
  - apply keeps_ret. split; [by intros x|intros x y z Hxy Hyz; congruence].
  - intros k w w' r [= <- <-]. reflexivity.
  - apply rtc_once. eapply (step_connect _ _ _ _ _ _ _ (toy_connect false new_adapter).2);
      [split; [reflexivity|discriminate]|apply surjective_pairing].
  - reflexivity.
  - reflexivity.
  - reflexivity.
  - split; [exact H1|]. destruct (toy_disconnect l) as [l' r] eqn:E.
    apply (H2 l' r E). vm_compute in E. injection E as <- <-. discriminate.
Defined.

(** Connecting a second time replaces the exit stack: the first session stays open
    for good, and its inbox task runs on. *)
Lemma second_connect_leaks :
  let l1 := (toy_connect false new_adapter).1 in
  let l2 := (toy_connect false l1).1 in
  let l3 := (toy_disconnect l2).1 in
  lf_side l3 = stack_handles (lf_stack l1) ∧ lf_side l3 ≠ ∅ ∧ lf_running l3 = {[0%nat]}.
Proof. vm_compute. split_and!; [reflexivity|discriminate|reflexivity]. Qed.

(** A refused connection closes what it opened. *)
Lemma refused_connection_closes :
  toy_connect true new_adapter = ((toy_connect true new_adapter).1, Raise (ToolError (str "refused")))
  ∧ lf_side (toy_connect true new_adapter).1 = ∅ ∧ lf_running (toy_connect true new_adapter).1 = ∅.
Proof. vm_compute. split_and!; reflexivity. Qed.
