(* ===== verification/HermesConfig.v ===== *)
(** * The Hermes configuration files — [shadownet_hermes_plugin/_env.py], [_mcp_config.py]

    The [SHADOWNET_CONNECT_URL] line of [.env] and the [mcp_servers] and
    platform blocks of [config.yaml].  The two files are the world [Host]; the
    YAML package is the class [Yaml]. *)

From S2P Require Import Prelude PyStr Jcs Dicts PyJson Url Onboarding.

Record Host := {
  (** The contents, [None] where there is no such file. *)
  h_env : option pystr;
  h_config : option pystr;
  (** Whether opening for reading and for writing succeeds. *)
  h_readable : bool;
  h_writable : bool;
}.

Definition set_env (text : pystr) (h : Host) : Host :=
  {| h_env := Some text; h_config := h_config h; h_readable := h_readable h; h_writable := h_writable h |}.
Definition set_config (text : pystr) (h : Host) : Host :=
  {| h_env := h_env h; h_config := Some text; h_readable := h_readable h; h_writable := h_writable h |}.

(** ** [.env] *)

Definition _VAR : pystr := str "SHADOWNET_CONNECT_URL".

(** Iterating over a text file: lines with their newline. *)
Fixpoint file_lines (text : pystr) : list pystr :=
  match text with
  | [] => []
  | c :: text =>
      if c =? 10 then [c] :: file_lines text
      else match file_lines text with
           | [] => [[c]]
           | l :: ls => (c :: l) :: ls
           end
  end.

Definition _is_target_line (line : pystr) : bool :=
  let stripped := lstrip_by is_space line in
  if startswith [35] stripped then false
  else startswith (_VAR ++ [61]) stripped || startswith (str "export " ++ _VAR ++ [61]) stripped.

Definition quoted_by (q : Z) (s : pystr) : bool := startswith [q] s && endswith [q] s.

Definition _extract_value (line : pystr) : pystr :=
  let after := if has_char 61 line then (partition_char 61 line).2 else [] in
  let after := rstrip_char 10 (strip after) in
  if quoted_by 34 after || quoted_by 39 after then removelast (tail after) else after.

Definition read_connect_url_from_env (h : Host) : option pystr :=
  match h_env h with
  | None => None
  | Some text =>
      if h_readable h then
        match List.find _is_target_line (file_lines text) with
        | Some line => match _extract_value line with [] => None | v => Some v end
        | None => None
        end
      else None
  end.

Definition strip_connect_url_from_env (h : Host) : Host * bool :=
  match h_env h with
  | None => (h, false)
  | Some text =>
      if h_readable h then
        let lines := file_lines text in
        let kept := List.filter (λ line, negb (_is_target_line line)) lines in
        if (length kept =? length lines)%nat then (h, false)
        else if h_writable h then (set_env (concat kept) h, true)
        else (h, false)
      else (h, false)
  end.

(** ** [config.yaml] *)

(** [yaml.safe_load] and [yaml.safe_dump(..., sort_keys=False)] on the values
    JSON has, where the package is installed. *)
Class Yaml : Type := {
  yaml_installed : bool;
  yaml_load : pystr → result json;
  yaml_dump : pydict → pystr;
  (** What was dumped is read back. *)
  yaml_load_dump d : well_formed (JDict d) → yaml_load (yaml_dump d) = Ok (JDict d);
}.

(** [v == z] for an integer; a boolean is one, a float may equal one. *)
Definition eq_int (v : json) (z : Z) : bool :=
  match v with
  | JInt y => y =? z
  | JBool b => Z.b2z b =? z
  | JFloat f => bool_decide (float_repr f = dec z ++ str ".0") || ((z =? 0) && bool_decide (float_repr f = str "-0.0"))
  | _ => false
  end.

(** [v == wanted] for the values the plugin writes, which are made of strings,
    integers, booleans and dictionaries; dictionaries are compared without
    order. *)
Fixpoint py_eq (v wanted : json) : bool :=
  match wanted with
  | JBool b => eq_int v (Z.b2z b)
  | JInt z => eq_int v z
  | JStr s => json_is_str s v
  | JDict d =>
      match v with
      | JDict e =>
          (length e =? length d)%nat
          && forallb (λ kv, match dict_get kv.1 e with Some v => py_eq v kv.2 | None => false end) d
      | _ => false
      end
  | _ => false
  end.

(** [d.setdefault(k, {})], with the value. *)
Definition setdefault (k : pystr) (d : pydict) : json := default (JDict []) (dict_get k d).

Definition dict_del (k : pystr) (d : pydict) : pydict := dict_filter (λ k', negb (bool_decide (k' = k))) d.

Section config.
Context `{PyUnicode} `{PyNfkc} `{Yaml}.
Context (environ : pystr → option pystr).

Definition _load_config (h : Host) : option pydict :=
  if yaml_installed then
    match h_config h with
    | None => Some []
    | Some text =>
        if h_readable h then
          match yaml_load text with
          | Ok v => if truthy v then match v with JDict cfg => Some cfg | _ => None end else Some []
          | Raise _ => None
          end
        else None
    end
  else None.

Definition _write_config (cfg : pydict) (h : Host) : Host * bool :=
  if h_writable h then (set_config (yaml_dump cfg) h, true) else (h, false).

(** The endpoint and token of the environment's connect URL, when it has the
    inline form. *)
Definition inline_target : option (pystr * pystr) :=
  match strip (default [] (environ _VAR)) with
  | [] => None
  | connect_uri =>
      match parse_connect_uri connect_uri with
      | Ok parsed =>
          if is_inline parsed then
            match cu_mcp_endpoint parsed, cu_access_token parsed with
            | [], _ | _, None | _, Some [] => None
            | endpoint, Some token => Some (endpoint, token)
            end
          else None
      | Raise _ => None
      end
  end.

Definition desired (endpoint token : pystr) : json :=
  JDict [(str "url", JStr endpoint);
         (str "headers", JDict [(str "Authorization", JStr (str "Bearer " ++ token))]);
         (str "timeout", JInt 120); (str "connect_timeout", JInt 60)].

Definition ensure_mcp_server_in_config (h : Host) : Host :=
  match inline_target with
  | None => h
  | Some (endpoint, token) =>
      match _load_config h with
      | None => h
      | Some cfg =>
          match setdefault (str "mcp_servers") cfg with
          | JDict mcp_servers =>
              let wanted := desired endpoint token in
              if py_eq (default JNull (dict_get (str "shadownet") mcp_servers)) wanted then h
              else fst (_write_config (dict_set (str "mcp_servers") (JDict (dict_set (str "shadownet") wanted mcp_servers)) cfg) h)
          | _ => h
          end
      end
  end.

Definition remove_mcp_server_from_config (h : Host) : Host * bool :=
  match _load_config h with
  | None => (h, false)
  | Some cfg =>
      match dict_get (str "mcp_servers") cfg with
      | Some (JDict mcp_servers) =>
          if bool_decide (dict_get (str "shadownet") mcp_servers = None) then (h, false)
          else
            match dict_del (str "shadownet") mcp_servers with
            | [] => _write_config (dict_del (str "mcp_servers") cfg) h
            | rest => _write_config (dict_set (str "mcp_servers") (JDict rest) cfg) h
            end
      | _ => (h, false)
      end
  end.

Definition read_mcp_server_config (h : Host) : option pydict :=
  match _load_config h with
  | None => None
  | Some cfg =>
      match dict_get (str "mcp_servers") cfg with
      | Some (JDict mcp_servers) => get_dict (str "shadownet") mcp_servers
      | _ => None
      end
  end.

Definition set_platform_enabled (name : pystr) (enabled : bool) (h : Host) : Host * bool :=
  match _load_config h with
  | None => (h, false)
  | Some cfg =>
      match setdefault (str "gateway") cfg with
      | JDict gateway =>
          match setdefault (str "platforms") gateway with
          | JDict platforms =>
              match setdefault name platforms with
              | JDict platform =>
                  if py_eq (default JNull (dict_get (str "enabled") platform)) (JBool enabled) then (h, false)
                  else
                    let platforms := dict_set name (JDict (dict_set (str "enabled") (JBool enabled) platform)) platforms in
                    let gateway := dict_set (str "platforms") (JDict platforms) gateway in
                    _write_config (dict_set (str "gateway") (JDict gateway) cfg) h
              | _ => (h, false)
              end
          | _ => (h, false)
          end
      | _ => (h, false)
      end
  end.
End config.

(** ** The environment file *)

(** Lines of a file: complete ones, and perhaps a last one without newline. *)
Inductive lines_wf : list pystr → Prop :=
  | lines_nil : lines_wf []
  | lines_last l : l ≠ [] → 10 ∉ l → lines_wf [l]
  | lines_cons l ls : 10 ∉ l → lines_wf ls → lines_wf ((l ++ [10]) :: ls).

Lemma file_lines_wf text : lines_wf (file_lines text).
Proof.
  induction text as [|c text IH]; cbn; [constructor|]. case_match; bool_prop.
  - subst. apply (lines_cons []); [set_solver|done].
  - inversion IH as [E|l Hl Hn E|l ls Hn Hls E].
    + apply lines_last; [done|set_solver].
    + apply lines_last; [done|set_solver].
    + apply (lines_cons (c :: l)); [set_solver|done].
Qed.

Lemma lines_wf_filter p ls : lines_wf ls → lines_wf (List.filter p ls).
Proof.
  induction 1 as [|l Hl Hn|l ls Hn Hls IH]; cbn; [constructor| |]; destruct (p _); try done; by constructor.
Qed.

Lemma file_lines_last l : l ≠ [] → 10 ∉ l → file_lines l = [l].
Proof.
  induction l as [|c l IH]; [done|]. intros _ Hn. cbn. rewrite (proj2 (Z.eqb_neq c 10)) by set_solver.
  destruct l as [|d l]; [done|]. rewrite IH by set_solver. done.
Qed.

Lemma file_lines_complete l text : 10 ∉ l → file_lines (l ++ 10 :: text) = (l ++ [10]) :: file_lines text.
Proof.
  induction l as [|c l IH]; [done|]. intros Hn. cbn. rewrite (proj2 (Z.eqb_neq c 10)) by set_solver.
  by rewrite IH by set_solver.
Qed.

Lemma file_lines_concat ls : lines_wf ls → file_lines (concat ls) = ls.
Proof.
  induction 1 as [|l Hl Hn|l ls Hn Hls IH]; cbn; [done| |].
  - by rewrite app_nil_r, file_lines_last.
  - rewrite <-app_assoc. cbn. by rewrite file_lines_complete, IH.
Qed.

Lemma find_filter_none {A} (p : A → bool) l : List.find p (List.filter (λ x, negb (p x)) l) = None.
Proof. induction l as [|x l IH]; [done|]. cbn. destruct (p x) eqn:E; cbn; [done|]. by rewrite E. Qed.

(** After a successful strip the URL is gone, and the other lines are as they
    were. *)
Lemma strip_removes_url h h' :
  strip_connect_url_from_env h = (h', true) →
  read_connect_url_from_env h' = None
  ∧ ∃ text text', h_env h = Some text ∧ h_env h' = Some text'
      ∧ file_lines text' = List.filter (λ line, negb (_is_target_line line)) (file_lines text).
Proof.
  unfold strip_connect_url_from_env, read_connect_url_from_env. destruct (h_env h) as [text|]; [|done].
  destruct (h_readable h) eqn:Er; [|done]. case_match; [done|]. destruct (h_writable h); [|done]. intros [= <-].
  cbn [h_env set_env h_readable]. rewrite Er.
  rewrite file_lines_concat by (apply lines_wf_filter, file_lines_wf). rewrite find_filter_none.
  split; [done|]. eexists _, _. split_and!; [done|done|]. apply file_lines_concat, lines_wf_filter, file_lines_wf.
Qed.

(** ** The configuration file *)

Section config_properties.
Context `{PyUnicode} `{PyNfkc} `{Yaml}.
Context (environ : pystr → option pystr).

Lemma load_written cfg h :
  yaml_installed = true → h_readable h = true → well_formed (JDict cfg) →
  _load_config (set_config (yaml_dump cfg) h) = Some cfg.
Proof.
  intros Hi Hr Hcfg. unfold _load_config. rewrite Hi. cbn [set_config h_config h_readable]. rewrite Hr, yaml_load_dump by done.
  by destruct cfg.
Qed.

Lemma dict_get_set_ne k k' v d : k ≠ k' → dict_get k (dict_set k' v d) = dict_get k d.
Proof. intros Hk. rewrite dict_get_set. by rewrite bool_decide_false. Qed.
Lemma dict_get_set_eq k v d : dict_get k (dict_set k v d) = Some v.
Proof. rewrite dict_get_set. by rewrite bool_decide_true. Qed.

Lemma desired_refl endpoint token : py_eq (desired endpoint token) (desired endpoint token) = true.
Proof.
  assert (∀ s, json_is_str s (JStr s) = true) as Hs by (intros s; by apply bool_decide_eq_true).
  unfold desired. generalize (str "Bearer " ++ token). intros bearer.
  repeat (cbn [py_eq forallb length dict_get fst snd eq_int];
    repeat match goal with
    | |- context [bool_decide (str ?a = str ?b)] =>
        let x := eval vm_compute in (bool_decide (str a = str b)) in
        replace (bool_decide (str a = str b)) with x by (vm_compute; reflexivity)
    end).
  by rewrite !Hs.
Qed.

Lemma desired_wf endpoint token : wf_str endpoint → wf_str token → well_formed (desired endpoint token).
Proof.
  intros He Ht. assert (wf_str (str "Bearer " ++ token)) as Hb.
  { destruct (wf_str_ascii (str "Bearer ")) as [Ha1 Ha2]; [by apply forallb_Forall|]. destruct Ht as [Ht1 Ht2]. split; [by apply Forall_app_2|].
    by rewrite existsb_app, Ha2, Ht2. }
  unfold desired. wf_dict. wf_dict.
Qed.

Lemma dict_get_del k k' d : dict_get k (dict_del k' d) = if bool_decide (k = k') then None else dict_get k d.
Proof. unfold dict_del. rewrite dict_get_filter. by repeat case_bool_decide. Qed.

Section entry.
Context (h : Host) (cfg servers : pydict) (endpoint token : pystr).
Context (Hinstalled : yaml_installed = true) (Hreadable : h_readable h = true) (Hwritable : h_writable h = true).
Context (Htarget : inline_target environ = Some (endpoint, token)) (Hload : _load_config h = Some cfg).
Context (Hservers : setdefault (str "mcp_servers") cfg = JDict servers).
Context (Hcfg : well_formed (JDict cfg)) (Hendpoint : wf_str endpoint) (Htoken : wf_str token).

Lemma servers_wf : well_formed (JDict servers).
Proof.
  unfold setdefault in Hservers. destruct (dict_get (str "mcp_servers") cfg) as [m|] eqn:E; cbn in Hservers.
  - subst m. by eapply well_formed_get.
  - injection Hservers as <-. done.
Qed.

(** The configuration after the entry was ensured. *)
Lemma ensured :
  let h' := ensure_mcp_server_in_config environ h in
  h_readable h' = true ∧ h_writable h' = true
  ∧ ∃ cfg' servers' entry,
      _load_config h' = Some cfg' ∧ well_formed (JDict cfg') ∧ dict_get (str "mcp_servers") cfg' = Some (JDict servers')
      ∧ dict_get (str "shadownet") servers' = Some (JDict entry) ∧ py_eq (JDict entry) (desired endpoint token) = true
      ∧ (∀ k, k ≠ str "mcp_servers" → dict_get k cfg' = dict_get k cfg)
      ∧ (∀ k, k ≠ str "shadownet" → dict_get k servers' = dict_get k servers).
Proof.
  unfold ensure_mcp_server_in_config. rewrite Htarget, Hload, Hservers. destruct (py_eq _ _) eqn:Heq.
  - split_and!; [done|done|]. destruct (dict_get (str "shadownet") servers) as [v|] eqn:Hv; [|done]. cbn [default] in Heq.
    assert (∃ entry, v = JDict entry) as [entry ->] by (destruct v; try discriminate Heq; by eexists).
    exists cfg, servers, entry. split_and!; try done. unfold setdefault in Hservers.
    destruct (dict_get (str "mcp_servers") cfg) as [m|]; cbn in Hservers; [congruence|]. injection Hservers as <-. discriminate Hv.
  - unfold _write_config. rewrite Hwritable. cbn [fst set_config h_readable h_writable]. split_and!; [done|done|].
    assert (well_formed (JDict (dict_set (str "mcp_servers") (JDict (dict_set (str "shadownet") (desired endpoint token) servers)) cfg))) as Hwf.
    { apply well_formed_set; [done|wf_lit|]. apply well_formed_set; [apply servers_wf|wf_lit|by apply desired_wf]. }
    eexists _, _, _. split_and!.
    + by apply load_written.
    + done.
    + apply dict_get_set_eq.
    + apply dict_get_set_eq.
    + apply desired_refl.
    + intros k Hk. by apply dict_get_set_ne.
    + intros k Hk. by apply dict_get_set_ne.
Qed.
End entry.

Lemma removed h cfg servers v :
  yaml_installed = true → h_readable h = true → h_writable h = true → _load_config h = Some cfg →
  well_formed (JDict cfg) → dict_get (str "mcp_servers") cfg = Some (JDict servers) → dict_get (str "shadownet") servers = Some v →
  read_mcp_server_config (fst (remove_mcp_server_from_config h)) = None.
Proof.
  intros Hi Hr Hw Hl Hwf Hm Hs. unfold remove_mcp_server_from_config. rewrite Hl, Hm, Hs. rewrite bool_decide_false by done.
  assert (dict_get (str "shadownet") (dict_del (str "shadownet") servers) = None) as Hd
    by (rewrite dict_get_del; by rewrite bool_decide_true).
  assert (well_formed (JDict (dict_del (str "shadownet") servers))) as Hdel by (by eapply well_formed_filter, well_formed_get).
  unfold _write_config. rewrite Hw. destruct (dict_del (str "shadownet") servers) as [|kv rest]; cbn [fst];
    unfold read_mcp_server_config; rewrite load_written by first [done | by apply well_formed_filter | apply well_formed_set; [done|wf_lit|done]].
  - by rewrite dict_get_del, bool_decide_true.
  - rewrite dict_get_set_eq. unfold get_dict. by rewrite Hd.
Qed.

(** C34: the plugin's server entry: with an inline connect URL and a readable,
    writable configuration whose [mcp_servers] is a mapping or absent, writing
    the entry makes reading give exactly the endpoint and the token, keeps every
    other server and every other block, and doing it again changes nothing;
    removing it afterwards leaves none. *)
Theorem mcp_server_entry_roundtrip (h : Host) cfg servers endpoint token :
  yaml_installed = true → h_readable h = true → h_writable h = true →
  inline_target environ = Some (endpoint, token) → _load_config h = Some cfg →
  setdefault (str "mcp_servers") cfg = JDict servers →
  well_formed (JDict cfg) → wf_str endpoint → wf_str token →
  let h' := ensure_mcp_server_in_config environ h in
  (∃ entry, read_mcp_server_config h' = Some entry ∧ py_eq (JDict entry) (desired endpoint token) = true)
  ∧ ensure_mcp_server_in_config environ h' = h'
  ∧ (∃ cfg' servers', _load_config h' = Some cfg' ∧ dict_get (str "mcp_servers") cfg' = Some (JDict servers')
      ∧ (∀ k, k ≠ str "mcp_servers" → dict_get k cfg' = dict_get k cfg)
      ∧ (∀ k, k ≠ str "shadownet" → dict_get k servers' = dict_get k servers))
  ∧ read_mcp_server_config (fst (remove_mcp_server_from_config h')) = None.
Proof.
  intros Hi Hr Hw Ht Hl Hs Hwf Hwe Hwt.
  destruct (ensured h cfg servers endpoint token) as (Hr' & Hw' & cfg' & servers' & entry & Hl' & Hwf' & Hm & He & Heq & Hc & Hk);
    try done.
  set (h' := ensure_mcp_server_in_config environ h) in *. cbn zeta. split_and!.
  - exists entry. unfold read_mcp_server_config, get_dict. by rewrite Hl', Hm, He.
  - unfold ensure_mcp_server_in_config, setdefault. rewrite Ht, Hl', Hm. cbn [from_option id]. rewrite He.
    cbn [from_option id]. by rewrite Heq.
  - by exists cfg', servers'.
  - by eapply removed.
Qed.
End config_properties.

(** ** Examples *)

#[local] Existing Instance ascii_unicode.
#[local] Existing Instance no_nfkc.

(** JSON is a part of YAML. *)
#[local] Instance json_yaml : Yaml := {|
  yaml_installed := true; yaml_load := json_loads; yaml_dump d := json_dumps (JDict d);
  yaml_load_dump d Hd := proj1 (json_dumps_loads (JDict d) (proj1 Hd) (proj2 Hd)) |}.

Definition demo_environ (var : pystr) : option pystr :=
  if bool_decide (var = _VAR) then Some (str " shadow://connect?mcp=https://sidecar.example/mcp&token=t0ken ") else None.
Definition demo_config : pydict :=
  [(str "model", JStr (str "m")); (str "mcp_servers", JDict [(str "other", JDict [(str "url", JStr (str "https://o.example"))])])].
Definition demo_host : Host :=
  {| h_env := None; h_config := Some (json_dumps (JDict demo_config)); h_readable := true; h_writable := true |}.

Lemma mcp_server_entry_roundtrip_witness :
  let h' := ensure_mcp_server_in_config demo_environ demo_host in
  (∃ entry, read_mcp_server_config h' = Some entry
     ∧ py_eq (JDict entry) (desired (str "https://sidecar.example/mcp") (str "t0ken")) = true)
  ∧ h' ≠ demo_host ∧ ensure_mcp_server_in_config demo_environ h' = h'.
Proof.
  destruct (mcp_server_entry_roundtrip demo_environ demo_host demo_config
              [(str "other", JDict [(str "url", JStr (str "https://o.example"))])]
              (str "https://sidecar.example/mcp") (str "t0ken")) as (Hread & Hagain & _);
    try (vm_compute; reflexivity); try (apply wf_str_ascii, forallb_Forall; vm_compute; reflexivity).
  - split; vm_compute; reflexivity.
  - split; [exact Hread|]. split; [|exact Hagain]. intros Heq. apply (f_equal h_config) in Heq. vm_compute in Heq. discriminate Heq.
Defined.

(** A line that was commented out stays, and a value loses its quotes. *)
Lemma env_examples :
  let env := [35] ++ _VAR ++ str "=old" ++ [10] ++ str "A=1" ++ [10] ++ str "export " ++ _VAR ++ str "='u'" ++ [10] in
  let h := {| h_env := Some env; h_config := None; h_readable := true; h_writable := true |} in
  read_connect_url_from_env h = Some (str "u")
  ∧ h_env (fst (strip_connect_url_from_env h)) = Some ([35] ++ _VAR ++ str "=old" ++ [10] ++ str "A=1" ++ [10]).
Proof. vm_compute. split; reflexivity. Qed.

(** An [mcp_servers] key without a value is kept, and no entry is written. *)
Lemma empty_block_blocks_entry :
  let h := {| h_env := None; h_config := Some (json_dumps (JDict [(str "mcp_servers", JNull)])); h_readable := true; h_writable := true |} in
  ensure_mcp_server_in_config demo_environ h = h ∧ read_mcp_server_config h = None.
Proof. vm_compute. split; reflexivity. Qed.
