(* ===== verification/HermesHooks.v ===== *)
(** * The Hermes hooks — [shadownet_hermes_plugin/_hooks.py]

    The session hooks: the number of waiting messages is fetched when a session
    starts and told once, with the first turn.  The module's dictionary is the
    field [hk_pending] of the world; the MCP session is a parameter. *)

From S2P Require Import Prelude Radix PyStr Jcs Dicts Url Onboarding Mcp HermesText HermesConfig.

Record Hooks (S : Type) := {
  hk_pending : gmap pystr Z;
  hk_side : S;
}.
Arguments hk_pending {S} _.
Arguments hk_side {S} _.

Definition _SUPPRESSED_PLATFORMS : list pystr := [str "shadownet"].

Definition _COORDINATION_TRIGGERS : list pystr :=
  [str "plan a"; str "set up a"; str "schedule a"; str "schedule lunch"; str "coordinate with";
   str "meet up with"; str "meeting with"; str "coffee with"; str "dinner with"; str "lunch with";
   str "call with"; str "grab coffee"; str "grab lunch"; str "grab dinner"; str "plan something";
   str "plan an event"; str "hang out with"].

Definition pending_text (count : Z) : pystr :=
  let plural := if count =? 1 then str "message" else str "messages" in
  str "[shadownet] You have " ++ dec count ++ str " pending shadownet " ++ plural
  ++ str ". Use mcp_shadownet_inbox_wait to triage when the user has a moment.".

Definition coordination_hint : pystr :=
  str "[shadownet-coordinate] The user wants to coordinate with a contact. You MUST follow the shadownet-coordinate skill protocol:"
  ++ [NL] ++ str "1. Look up the contact: mcp_shadownet_contacts" ++ [NL]
  ++ str "2. Send with the EXACT intent URI:" ++ [NL] ++ str "   mcp_shadownet_send(to=" ++ [DQ] ++ str "<name>"
  ++ [DQ] ++ str ", body={" ++ [NL] ++ str "     " ++ [DQ] ++ str "text" ++ [DQ] ++ str ": " ++ [DQ]
  ++ str "Let's coordinate <activity> " ++ [EM] ++ str " <details>" ++ [DQ] ++ str "," ++ [NL] ++ str "     "
  ++ [DQ] ++ str "intent" ++ [DQ] ++ str ": " ++ [DQ] ++ str "urn:shadownet:intent:coordinate_v1" ++ [DQ]
  ++ str "," ++ [NL] ++ str "     " ++ [DQ] ++ str "data" ++ [DQ] ++ str ": {" ++ [DQ] ++ str "activity" ++ [DQ]
  ++ str ": " ++ [DQ] ++ str "<activity>" ++ [DQ] ++ str ", " ++ [DQ] ++ str "details" ++ [DQ] ++ str ": "
  ++ [DQ] ++ str "<details>" ++ [DQ] ++ str "}" ++ [NL] ++ str "   })" ++ [NL]
  ++ str "3. Tell the user you sent the request and end your turn." ++ [NL]
  ++ str "Do NOT invent intent values. Do NOT set up cron jobs. Do NOT use body.message " ++ [EM]
  ++ str " use body.text.".

Section hooks.
Context `{PyUnicode} `{PyNfkc} {S : Type}.
Context (environ : pystr → option pystr).
(** [inbox] of a client connected to an endpoint with a token. *)
Context (inbox : pystr → pystr → InboxInput → M S InboxOutput).

Definition _looks_like_coordination (msg : pystr) : bool :=
  existsb (λ trigger, contains trigger (py_lower msg)) _COORDINATION_TRIGGERS.

Definition _resolve_mcp_target : option (pystr * pystr) := inline_target environ.

Definition _fetch_inbox_count_async (endpoint token : pystr) : M S Z := λ s,
  match inbox endpoint token InboxInput_default s with
  | (s, Ok result) => (s, Ok (py_len (ino_items result)))
  | (s, Raise e) => if is_Exception e then (s, Ok 0) else (s, Raise e)
  end.

Definition _fetch_pending_inbox_count : M S Z :=
  match _resolve_mcp_target with
  | None => mret 0
  | Some (endpoint, token) => _fetch_inbox_count_async endpoint token
  end.

Definition on_session_start_callback (session_id platform : pystr) : M (Hooks S) unit := λ w,
  if bool_decide (platform ∈ _SUPPRESSED_PLATFORMS) then (w, Ok tt)
  else if bool_decide (session_id = []) then (w, Ok tt)
  else
    match _fetch_pending_inbox_count (hk_side w) with
    | (s, Ok count) =>
        ({| hk_pending := if 0 <? count then <[session_id := count]> (hk_pending w) else hk_pending w; hk_side := s |}, Ok tt)
    | (s, Raise e) => ({| hk_pending := hk_pending w; hk_side := s |}, Raise e)
    end.

(** The text of [{"context": ...}], or [None]. *)
Definition pre_llm_call_callback (session_id user_message : pystr) (is_first_turn : bool) (platform : pystr)
    : M (Hooks S) (option pystr) := λ w,
  if bool_decide (platform ∈ _SUPPRESSED_PLATFORMS) then (w, Ok None)
  else
    let count := if is_first_turn then default 0 (hk_pending w !! session_id) else 0 in
    let pending := if is_first_turn then delete session_id (hk_pending w) else hk_pending w in
    let parts := (if 0 <? count then [pending_text count] else [])
                 ++ (if _looks_like_coordination user_message then [coordination_hint] else []) in
    ({| hk_pending := pending; hk_side := hk_side w |},
     Ok match parts with [] => None | _ => Some (join_with [10; 10] parts) end).

Definition on_session_end_callback (session_id : pystr) : M (Hooks S) unit := λ w,
  ({| hk_pending := delete session_id (hk_pending w); hk_side := hk_side w |}, Ok tt).
End hooks.

(** ** Told once *)

Section hooks_properties.
Context `{PyUnicode} `{PyNfkc} {S : Type}.
Context (environ : pystr → option pystr) (inbox : pystr → pystr → InboxInput → M S InboxOutput).

(** What happens to a session; [true] when its waiting messages were told. *)
Inductive hook_step : pystr → Hooks S → bool → Hooks S → Prop :=
  | hook_start sid platform w w' r :
      on_session_start_callback environ inbox sid platform w = (w', r) → hook_step sid w false w'
  | hook_turn sid msg first platform w w' r :
      pre_llm_call_callback sid msg first platform w = (w', r) →
      hook_step sid w
        (negb (bool_decide (platform ∈ _SUPPRESSED_PLATFORMS)) && first
         && (0 <? default 0 (hk_pending w !! sid))) w'
  | hook_end sid w w' r : on_session_end_callback sid w = (w', r) → hook_step sid w false w'.

(** A count is told only while it waits, and then it is gone; other sessions are
    not touched. *)
Lemma hook_step_tells sid w told w' :
  hook_step sid w told w' →
  (told = true → hk_pending w' !! sid = None ∧ is_Some (hk_pending w !! sid))
  ∧ ∀ other, other ≠ sid → hk_pending w' !! other = hk_pending w !! other.
Proof.
  destruct 1 as [sid platform w w' r E|sid msg first platform w w' r E|sid w w' r E].
  - split; [done|]. intros other Ho. unfold on_session_start_callback in E. repeat case_bool_decide; [by simplify_eq..|].
    destruct (_fetch_pending_inbox_count _ _ _) as [s [count|e]]; injection E as <- _; [|done]. cbn.
    case_match; [|done]. by rewrite lookup_insert_ne.
  - unfold pre_llm_call_callback in E. case_bool_decide; injection E as <- _; [done|]. cbn [hk_pending]. split.
    + rewrite !andb_true_iff. intros [[_ ->] Hc]. rewrite lookup_delete_eq. split; [done|].
      destruct (hk_pending w !! sid); [done|discriminate Hc].
    + intros other Ho. destruct first; [by rewrite lookup_delete_ne|done].
  - injection E as <- _. split; [done|]. intros other Ho. cbn. by rewrite lookup_delete_ne.
Qed.
End hooks_properties.
