(* ===== verification/Proxy.v ===== *)
(** * The stdio proxy — [claude-code/bin/mcp-shadownet-proxy.py]

    How the proxy gets its endpoint and token: inline from the connect URL, from
    the keyring, or by redeeming the handoff code, once.  The two streams it then
    relays are in [Bridge]. *)

From S2P Require Import Prelude PyStr Jcs Dicts Http Pydantic Url Onboarding.

Record ProxyWorld (S : Type) := {
  (** The passwords of the service, by handoff code. *)
  px_keyring : gmap pystr pystr;
  px_side : S;
}.
Arguments px_keyring {S} _.
Arguments px_side {S} _.

(** [HandoffError] and its subclasses. *)
Definition is_HandoffError (e : exn) : bool :=
  match e with
  | HandoffError | HandoffUnknownError | HandoffExpiredError | HandoffRateLimitedError => true
  | _ => false
  end.

Section proxy.
Context `{PyUnicode} `{PyNfkc} `{Pydantic} {S : Type}.
Context (environ : pystr → option pystr) (keyring_works : bool).
Context (http_post : pystr → json → list (pystr * pystr) → M S Response).

Definition _cached_access_token (handoff_code : pystr) : M (ProxyWorld S) (option pystr) := λ w,
  (w, Ok (if keyring_works then px_keyring w !! handoff_code else None)).

Definition _cache_access_token (handoff_code token : pystr) : M (ProxyWorld S) unit := λ w,
  ({| px_keyring := if keyring_works then <[handoff_code := token]> (px_keyring w) else px_keyring w;
      px_side := px_side w |}, Ok tt).

(** [aredeem_handoff] with the client's answer. *)
Definition redeem (mcp_origin code : pystr) : M (ProxyWorld S) HandoffResponse := λ w,
  match _handoff_url mcp_origin code with
  | Raise e => (w, Raise e)
  | Ok url =>
      let '(s, answer) := http_post url (JDict []) [(str "Content-Type", str "application/json")] (px_side w) in
      ({| px_keyring := px_keyring w; px_side := s |}, aredeem_handoff (λ _ _ _, answer) mcp_origin code)
  end.

Definition _resolve_endpoint_and_token (connect_url : pystr) : M (ProxyWorld S) (pystr * pystr) :=
  parsed ← lift (parse_connect_uri connect_url);
  match cu_access_token parsed with
  | Some token => mret (cu_mcp_endpoint parsed, token)
  | None =>
      code ← lift (of_option (OtherException (str "AssertionError")) (cu_handoff_code parsed));
      cached ← _cached_access_token code;
      match cached with
      | Some (c :: token) => mret (cu_mcp_endpoint parsed, c :: token)
      | _ =>
          response ← redeem (cu_mcp_endpoint parsed) code;
          _ ← _cache_access_token code (hr_access_token response);
          mret (cu_mcp_endpoint parsed, hr_access_token response)
      end
  end.

(** The exit code, or the endpoint and token that are bridged. *)
Definition _run : M (ProxyWorld S) (Z + pystr * pystr) := λ w,
  let url := match strip (default [] (environ (str "CLAUDE_PLUGIN_OPTION_CONNECT_URL"))) with
             | [] => strip (default [] (environ (str "SHADOWNET_CONNECT_URL")))
             | url => url
             end in
  match url with
  | [] => (w, Ok (inl 1))
  | url =>
      match _resolve_endpoint_and_token url w with
      | (w, Ok target) => (w, Ok (inr target))
      | (w, Raise e) =>
          if bool_decide (e = ConnectURIError) then (w, Ok (inl 2))
          else if is_HandoffError e then (w, Ok (inl 3))
          else (w, Raise e)
      end
  end.
End proxy.

(** ** Properties *)

Section proxy_properties.
Context `{PyUnicode} `{PyNfkc} `{Pydantic} {S : Type}.
Context (http_post : pystr → json → list (pystr * pystr) → M S Response).

Lemma redeemed_kept endpoint code w w' target :
  (response ← redeem http_post endpoint code;
   _ ← _cache_access_token true code (hr_access_token response);
   mret (endpoint, hr_access_token response)) w = (w', Ok target) →
  px_keyring w' !! code = Some target.2 ∧ target.1 = endpoint.
Proof.
  intros (resp & w1 & _ & Hk)%M_bind_ok. unfold _cache_access_token, mbind, M_bind, mret, M_ret in Hk.
  injection Hk as <- <-. cbn. by rewrite lookup_insert_eq.
Qed.

(** A single-use code is redeemed once: after a start that got a token, every
    later start gets the same one and sends nothing. *)
Lemma handoff_redeemed_once url w w' endpoint token :
  _resolve_endpoint_and_token true http_post url w = (w', Ok (endpoint, token)) → token ≠ [] →
  _resolve_endpoint_and_token true http_post url w' = (w', Ok (endpoint, token)).
Proof.
  intros Hr Ht. unfold _resolve_endpoint_and_token in *. apply M_bind_ok in Hr as (parsed & w1 & Hp & Hr).
  apply lift_ok in Hp as [-> Hp]. rewrite (M_bind_lift _ _ _ _ Hp).
  destruct (cu_access_token parsed) as [inline|]; [by injection Hr as <- <- <-|].
  apply M_bind_ok in Hr as (code & w1 & Hc & Hr). apply lift_ok in Hc as [-> Hc]. rewrite (M_bind_lift _ _ _ _ Hc).
  unfold _cached_access_token in *. unfold mbind at 1, M_bind at 1 in Hr. unfold mbind at 1, M_bind at 1.
  destruct (px_keyring w !! code) as [[|c t]|] eqn:Ek; [|injection Hr as <- <- <-; by rewrite Ek|];
    apply redeemed_kept in Hr as [Hk He]; cbn in Hk, He; subst endpoint; rewrite Hk; by destruct token.
Qed.
End proxy_properties.

(** ** Examples *)

#[local] Existing Instance ascii_unicode.
#[local] Existing Instance no_nfkc.
#[local] Existing Instance strict_pydantic.

(** A client that records where it posts. *)
Definition recording_post (url : pystr) (_ : json) (_ : list (pystr * pystr)) : M (list pystr) Response := λ s,
  (s ++ [url], Raise HTTPError).

(** The proxy gives the whole MCP endpoint where [aredeem_handoff] expects its
    origin, so the code is posted below the endpoint's path. *)
Lemma redeems_below_endpoint_path :
  let w := {| px_keyring := ∅; px_side := [] |} in
  px_side (fst (_resolve_endpoint_and_token true recording_post demo_uri w))
  = [str "https://sidecar.example/mcp/.well-known/shadownet/onboard/handoff/abcdefgh01234567"].
Proof. vm_compute. reflexivity. Qed.
