(* ===== verification/Bridge.v ===== *)
(** * Bridging the two streams — [claude-code/bin/mcp-shadownet-proxy.py]

    [_pump] forwards the messages of one stream to another, and [_run] gathers
    two of them, one per direction, after it has its endpoint and token.  A pump
    is at the [async for], at the [send], or has returned; the steps of the two
    pumps and of the peers interleave in any order.  A stream gives what arrived,
    in order, and ends when its peer closed it and nothing is left; a broken
    connection makes its receives or sends raise. *)

From stdpp Require Import relations.
From S2P Require Import Prelude.

Section bridge.
Context {Msg : Type}.

(** Where a pump is suspended. *)
Inductive pump_at : Type :=
  | AtReceive
  | AtSend (msg : Msg)
  | Returned.

Inductive source_state : Type := Open | Closed | Broken.

(** One direction: the pump, what its source holds, and the trace of what came
    in and what went out. *)
Record Direction := {
  dir_pump : pump_at;
  dir_queue : list Msg;
  dir_source : source_state;
  (** Whether the connection behind the destination still works. *)
  dir_dest_ok : bool;
  dir_arrived : list Msg;
  dir_sent : list Msg;
}.

Definition idle : Direction :=
  {| dir_pump := AtReceive; dir_queue := []; dir_source := Open; dir_dest_ok := true; dir_arrived := []; dir_sent := [] |}.

Definition set_pump (p : pump_at) (d : Direction) : Direction :=
  {| dir_pump := p; dir_queue := dir_queue d; dir_source := dir_source d; dir_dest_ok := dir_dest_ok d; dir_arrived := dir_arrived d; dir_sent := dir_sent d |}.
Definition set_queue (q : list Msg) (d : Direction) : Direction :=
  {| dir_pump := dir_pump d; dir_queue := q; dir_source := dir_source d; dir_dest_ok := dir_dest_ok d; dir_arrived := dir_arrived d; dir_sent := dir_sent d |}.
Definition set_sent (l : list Msg) (d : Direction) : Direction :=
  {| dir_pump := dir_pump d; dir_queue := dir_queue d; dir_source := dir_source d; dir_dest_ok := dir_dest_ok d; dir_arrived := dir_arrived d; dir_sent := l |}.

(** [_pump(source, dest, label)]: every exception of a receive or a send is
    logged, and the pump returns. *)
Inductive _pump : relation Direction :=
  | pump_receives d msg queue :
      dir_pump d = AtReceive → dir_queue d = msg :: queue → _pump d (set_pump (AtSend msg) (set_queue queue d))
  | pump_source_ends d :
      dir_pump d = AtReceive → dir_queue d = [] → dir_source d = Closed → _pump d (set_pump Returned d)
  | pump_receive_fails d :
      dir_pump d = AtReceive → dir_source d = Broken → _pump d (set_pump Returned d)
  | pump_sends d msg :
      dir_pump d = AtSend msg → dir_dest_ok d = true → _pump d (set_pump AtReceive (set_sent (dir_sent d ++ [msg]) d))
  | pump_send_fails d msg :
      dir_pump d = AtSend msg → dir_dest_ok d = false → _pump d (set_pump Returned d).

Definition set_source (x : source_state) (d : Direction) : Direction :=
  {| dir_pump := dir_pump d; dir_queue := dir_queue d; dir_source := x; dir_dest_ok := dir_dest_ok d;
     dir_arrived := dir_arrived d; dir_sent := dir_sent d |}.

(** What the peers do: write, close, or lose the connection. *)
Inductive peer_step : relation Direction :=
  | peer_writes d msg :
      dir_source d = Open →
      peer_step d {| dir_pump := dir_pump d; dir_queue := dir_queue d ++ [msg]; dir_source := Open;
                     dir_dest_ok := dir_dest_ok d; dir_arrived := dir_arrived d ++ [msg]; dir_sent := dir_sent d |}
  | peer_closes d : dir_source d = Open → peer_step d (set_source Closed d)
  | peer_breaks d : dir_source d = Open → peer_step d (set_source Broken d)
  | dest_breaks d :
      peer_step d {| dir_pump := dir_pump d; dir_queue := dir_queue d; dir_source := dir_source d;
                     dir_dest_ok := false; dir_arrived := dir_arrived d; dir_sent := dir_sent d |}.

(** [asyncio.gather] of the two pumps: stdio to the sidecar, and back. *)
Record Bridge := { br_up : Direction; br_down : Direction }.

Definition bridge_start : Bridge := {| br_up := idle; br_down := idle |}.

Inductive on_either (R : relation Direction) : relation Bridge :=
  | on_up u u' d : R u u' → on_either R {| br_up := u; br_down := d |} {| br_up := u'; br_down := d |}
  | on_down u d d' : R d d' → on_either R {| br_up := u; br_down := d |} {| br_up := u; br_down := d' |}.

Definition pumps_step : relation Bridge := on_either _pump.
Definition peers_step : relation Bridge := on_either peer_step.
Definition bridge_step : relation Bridge := λ b b', pumps_step b b' ∨ peers_step b b'.

Definition returned (d : Direction) : bool := match dir_pump d with Returned => true | _ => false end.

(** [gather] returns when both have. *)
Definition gather_done (b : Bridge) : bool := returned (br_up b) && returned (br_down b).

(** ** Order and completeness *)

(** The message between receive and send. *)
Definition in_hand (d : Direction) : list Msg := match dir_pump d with AtSend msg => [msg] | _ => [] end.

(** Nothing is lost, doubled or reordered; a pump that returned sent an initial
    part of what arrived, and returned because a connection broke, or because
    its source was closed and all of it was sent. *)
Definition in_order (d : Direction) : Prop :=
  dir_sent d `prefix_of` dir_arrived d
  ∧ (returned d = false → dir_sent d ++ in_hand d ++ dir_queue d = dir_arrived d)
  ∧ (returned d = true →
     dir_source d = Broken ∨ dir_dest_ok d = false ∨ (dir_source d = Closed ∧ dir_sent d = dir_arrived d)).

Lemma idle_in_order : in_order idle.
Proof. done. Qed.

Lemma pump_in_order d d' : _pump d d' → in_order d → in_order d'.
Proof.
  unfold in_order, returned, in_hand.
  intros [c m q Hp Hq|c Hp Hq Hc|c Hp Hb|c m Hp _|c m Hp Hb]; cbn; rewrite Hp; intros (Hpre & Hall & _).
  - split_and!; [done| |done]. rewrite Hq in Hall. intros _. by apply Hall.
  - split_and!; [done|done|]. intros _. right. right. split; [done|].
    rewrite <-(Hall eq_refl), Hq. by rewrite app_nil_r.
  - split_and!; [done|done|by left].
  - rewrite <-(Hall eq_refl). split_and!; [rewrite app_assoc; by apply prefix_app_r| |done].
    intros _. by rewrite <-app_assoc.
  - split_and!; [done|done|]. intros _. right. by left.
Qed.

Lemma peer_in_order d d' : peer_step d d' → in_order d → in_order d'.
Proof.
  unfold in_order, returned, in_hand.
  intros [c m Ho|c Ho|c Ho|c]; cbn; intros (Hpre & Hall & Hend); try rewrite Ho in Hend; split_and!; try done.
  - by apply prefix_app_r.
  - intros Hr. rewrite <-(Hall Hr), <-!app_assoc. done.
  - intros Hr. destruct (Hend Hr) as [?|[?|[? _]]]; [done|by right; left|done].
  - intros Hr. destruct (Hend Hr) as [?|[?|[? _]]]; [done|by right; left|done].
  - intros _. by left.
  - intros _. right. by left.
Qed.

Lemma either_in_order R b b' :
  (∀ d d', R d d' → in_order d → in_order d') → on_either R b b' →
  in_order (br_up b) ∧ in_order (br_down b) → in_order (br_up b') ∧ in_order (br_down b').
Proof. intros HR [u u' d Hs|u d d' Hs] [Hu Hd]; cbn in *; split; eauto. Qed.

Lemma reachable_in_order b :
  rtc bridge_step bridge_start b → in_order (br_up b) ∧ in_order (br_down b).
Proof.
  assert (in_order (br_up bridge_start) ∧ in_order (br_down bridge_start)) as H0 by (split; apply idle_in_order).
  intros Hb. revert H0. induction Hb as [x|x y z Hs _ IH]; [done|]. intros Hx. apply IH.
  destruct Hs as [Hs|Hs].
  - by apply (either_in_order _ _ _ pump_in_order Hs).
  - by apply (either_in_order _ _ _ peer_in_order Hs).
Qed.

(** ** The end of the bridge *)

(** What a pump has still to do. *)
Definition work (d : Direction) : nat :=
  match dir_pump d with
  | AtReceive => S (2 * length (dir_queue d))
  | AtSend _ => S (S (2 * length (dir_queue d)))
  | Returned => 0
  end.

Lemma pump_works d d' : _pump d d' → (work d' < work d)%nat.
Proof.
  unfold work. intros [c m q Hp Hq|c Hp _ _|c Hp _|c m Hp _|c m Hp _]; cbn; rewrite Hp; try rewrite Hq; cbn; lia.
Qed.

(** Left alone by the peers, the pumps come to rest. *)
Lemma pumps_rest n b b' :
  nsteps pumps_step n b b' → (n + work (br_up b') + work (br_down b') ≤ work (br_up b) + work (br_down b))%nat.
Proof.
  induction 1 as [b'|n b1 b2 b3 Hs _ IH]; [lia|].
  destruct Hs as [u u' d Hs|u d d' Hs]; apply pump_works in Hs; cbn in *; lia.
Qed.

(** A pump without more to wait for moves until it has returned. *)
Lemma pump_moves d : dir_source d ≠ Open → returned d = false → ∃ d', _pump d d'.
Proof.
  unfold returned. intros Ho Hr. destruct (dir_pump d) as [|m|] eqn:Hp; [| |done].
  - destruct (dir_queue d) as [|m q] eqn:Hq; [|eexists; by eapply pump_receives].
    destruct (dir_source d) eqn:Hs; [done| |]; eexists; [by apply pump_source_ends|by apply pump_receive_fails].
  - destruct (dir_dest_ok d) eqn:Hd; eexists; [by eapply pump_sends|by eapply pump_send_fails].
Qed.

Lemma resting_done b :
  dir_source (br_up b) ≠ Open → dir_source (br_down b) ≠ Open → (∀ b', ¬ pumps_step b b') → gather_done b = true.
Proof.
  destruct b as [u d]. cbn. intros Hu Hd Hrest. unfold gather_done. cbn. apply andb_true_iff. split.
  - destruct (returned u) eqn:E; [done|]. destruct (pump_moves u Hu E) as [u' Hs]. by destruct (Hrest _ (on_up _ _ _ d Hs)).
  - destruct (returned d) eqn:E; [done|]. destruct (pump_moves d Hd E) as [d' Hs]. by destruct (Hrest _ (on_down _ u _ _ Hs)).
Qed.


(** The comment in [_run] says that the proxy ends when either side closes.
    After Claude Code closed its end and that pump returned, the other pump keeps
    [gather] waiting: neither can move until the sidecar sends or closes. *)
Definition stdin_closed : Bridge := {| br_up := set_pump Returned (set_source Closed idle); br_down := idle |}.

Lemma one_side_closed_keeps_waiting :
  rtc bridge_step bridge_start stdin_closed ∧ gather_done stdin_closed = false
  ∧ ∀ b, ¬ pumps_step stdin_closed b.
Proof.
  split_and!; [|done|].
  - eapply rtc_l; [right; by apply on_up, peer_closes|]. eapply rtc_l; [left; by apply on_up, pump_source_ends|]. apply rtc_refl.
  - intros b Hs. inversion Hs as [u u' d Hu|u d d' Hd]; subst; [inversion Hu|inversion Hd]; done.
Qed.
End bridge.
Arguments pump_at : clear implicits.
Arguments Direction : clear implicits.
Arguments Bridge : clear implicits.

(** ** Example *)

(** A request is relayed, Claude Code closes its end and that pump returns; the
    answer is on the way back. *)
Definition demo_bridge : Bridge pystr := {|
  br_up := {| dir_pump := Returned; dir_queue := []; dir_source := Closed; dir_dest_ok := true;
              dir_arrived := [str "tools/call"]; dir_sent := [str "tools/call"] |};
  br_down := {| dir_pump := AtSend (str "result"); dir_queue := []; dir_source := Open; dir_dest_ok := true;
                dir_arrived := [str "result"]; dir_sent := [] |} |}.

