(* ===== verification/Intents.v ===== *)
(** * The coordination payloads — [shadownet/mcp/intents.py]

    The models of [body.data] for the four coordination intents, and that a
    payload put into the body slot of a message is read back at the other end.
    The sidecar treats the slot as opaque, so the models are used by the hosts
    only. *)

From S2P Require Import Prelude PyStr Jcs Dicts Pydantic Credential Envelope A2A Mcp.

(** Pydantic's lax conversion to [float]. *)
Class PydanticFloat : Type := {
  pyd_float : json → option pyfloat;
  (** A float is itself. *)
  pyd_float_float f : pyd_float (JFloat f) = Some f;
}.

(** [tuple[str, ...]] without a default. *)
Definition v_required_strs (v : option json) : result (list pystr) :=
  match v with Some v => v_strs (Some v) | None => invalid end.

Lemma v_required_strs_read l : v_required_strs (Some (j_strs l)) = Ok l.
Proof. apply v_strs_read. Qed.
Lemma only_invalid_required_strs v : only_invalid (v_required_strs v).
Proof. destruct v; cbn [v_required_strs]; auto with shadownet. Qed.
#[export] Hint Resolve only_invalid_required_strs : shadownet.

Section intents.
Context `{PydanticFloat}.

Definition v_float (v : option json) : result pyfloat :=
  match v with Some v => of_option (ValidationError []) (pyd_float v) | None => invalid end.

Lemma only_invalid_float v : only_invalid (v_float v).
Proof. destruct v; [apply only_invalid_of_option|auto with shadownet]. Qed.
Hint Resolve only_invalid_float : shadownet.

Record GeoCoordinate := {
  geo_lat : pyfloat;
  geo_lon : pyfloat;
}.
Definition GeoCoordinate_spec : spec := [(str "lat", str "lat"); (str "lon", str "lon")].
Definition GeoCoordinate_fields (d : pydict) : result GeoCoordinate :=
  forbid GeoCoordinate_spec d
   (Ok (λ lat lon, {| geo_lat := lat; geo_lon := lon |})
    <*> v_float (dict_get (str "lat") d)
    <*> v_float (dict_get (str "lon") d)).
Definition GeoCoordinate_dump (m : GeoCoordinate) : pydict :=
  dump_fields
    [(str "lat", Some (JFloat (geo_lat m)));
     (str "lon", Some (JFloat (geo_lon m)))].
#[global] Instance GeoCoordinate_model : ToolModel GeoCoordinate :=
  {| tm_name := str "GeoCoordinate"; tm_fields := GeoCoordinate_fields; tm_dump := GeoCoordinate_dump |}.

(** All sub-fields are optional. *)
Record PlanWhere := {
  pw_city : option pystr;
  pw_type : option pystr;
  pw_address : option pystr;
  pw_name : option pystr;
  pw_geo : option GeoCoordinate;
}.
Definition PlanWhere_spec : spec :=
  [(str "city", str "city"); (str "type", str "type"); (str "address", str "address"); (str "name", str "name"); (str "geo", str "geo")].
Definition PlanWhere_fields (d : pydict) : result PlanWhere :=
  forbid PlanWhere_spec d
   (Ok (λ city type address name geo, {| pw_city := city; pw_type := type; pw_address := address; pw_name := name; pw_geo := geo |})
    <*> v_optional v_str (dict_get (str "city") d)
    <*> v_optional v_str (dict_get (str "type") d)
    <*> v_optional v_str (dict_get (str "address") d)
    <*> v_optional v_str (dict_get (str "name") d)
    <*> v_optional v_model (dict_get (str "geo") d)).
Definition PlanWhere_dump (m : PlanWhere) : pydict :=
  dump_fields
    [(str "city", JStr <$> pw_city m);
     (str "type", JStr <$> pw_type m);
     (str "address", JStr <$> pw_address m);
     (str "name", JStr <$> pw_name m);
     (str "geo", (λ m, JDict (tm_dump m)) <$> pw_geo m)].
#[global] Instance PlanWhere_model : ToolModel PlanWhere :=
  {| tm_name := str "PlanWhere"; tm_fields := PlanWhere_fields; tm_dump := PlanWhere_dump |}.

(** [PlanWhere()] *)
Definition PlanWhere_default : PlanWhere :=
  {| pw_city := None; pw_type := None; pw_address := None; pw_name := None; pw_geo := None |}.

Record PlanObject := {
  po_activity : pystr;
  po_when : pystr;
  po_where : PlanWhere;
  po_participants : list pystr;
  po_notes : option pystr;
}.
Definition PlanObject_spec : spec :=
  [(str "activity", str "activity"); (str "when", str "when"); (str "where", str "where"); (str "participants", str "participants"); (str "notes", str "notes")].
Definition PlanObject_fields (d : pydict) : result PlanObject :=
  forbid PlanObject_spec d
   (Ok (λ activity when where_ participants notes, {| po_activity := activity; po_when := when; po_where := where_; po_participants := participants; po_notes := notes |})
    <*> v_str (dict_get (str "activity") d)
    <*> v_str (dict_get (str "when") d)
    <*> v_default PlanWhere_default v_model (dict_get (str "where") d)
    <*> v_required_strs (dict_get (str "participants") d)
    <*> v_optional v_str (dict_get (str "notes") d)).
Definition PlanObject_dump (m : PlanObject) : pydict :=
  dump_fields
    [(str "activity", Some (JStr (po_activity m)));
     (str "when", Some (JStr (po_when m)));
     (str "where", Some (JDict (tm_dump (po_where m))));
     (str "participants", Some (j_strs (po_participants m)));
     (str "notes", JStr <$> po_notes m)].
#[global] Instance PlanObject_model : ToolModel PlanObject :=
  {| tm_name := str "PlanObject"; tm_fields := PlanObject_fields; tm_dump := PlanObject_dump |}.

Record CoordinateV1Data := {
  cd_activity : pystr;
  cd_details : option pystr;
}.
Definition CoordinateV1Data_spec : spec := [(str "activity", str "activity"); (str "details", str "details")].
Definition CoordinateV1Data_fields (d : pydict) : result CoordinateV1Data :=
  forbid CoordinateV1Data_spec d
   (Ok (λ activity details, {| cd_activity := activity; cd_details := details |})
    <*> v_str (dict_get (str "activity") d)
    <*> v_optional v_str (dict_get (str "details") d)).
Definition CoordinateV1Data_dump (m : CoordinateV1Data) : pydict :=
  dump_fields
    [(str "activity", Some (JStr (cd_activity m)));
     (str "details", JStr <$> cd_details m)].
#[global] Instance CoordinateV1Data_model : ToolModel CoordinateV1Data :=
  {| tm_name := str "CoordinateV1Data"; tm_fields := CoordinateV1Data_fields; tm_dump := CoordinateV1Data_dump |}.

(** The two subclasses of [PlanObject] add no field. *)
Record ProposePlanV1Data := { propose_plan : PlanObject }.
#[global] Instance ProposePlanV1Data_model : ToolModel ProposePlanV1Data :=
  {| tm_name := str "ProposePlanV1Data"; tm_fields d := Build_ProposePlanV1Data <$> PlanObject_fields d;
     tm_dump m := PlanObject_dump (propose_plan m) |}.
Record ConfirmPlanV1Data := { confirm_plan : PlanObject }.
#[global] Instance ConfirmPlanV1Data_model : ToolModel ConfirmPlanV1Data :=
  {| tm_name := str "ConfirmPlanV1Data"; tm_fields d := Build_ConfirmPlanV1Data <$> PlanObject_fields d;
     tm_dump m := PlanObject_dump (confirm_plan m) |}.

(** The alias is the only name: the model has no [populate_by_name]. *)
Record AcceptPlanV1Data := { ap_accepts_message_id : pystr }.
Definition AcceptPlanV1Data_spec : spec := [(str "acceptsMessageId", str "acceptsMessageId")].
Definition AcceptPlanV1Data_fields (d : pydict) : result AcceptPlanV1Data :=
  forbid AcceptPlanV1Data_spec d
   (Ok (λ accepts_message_id, {| ap_accepts_message_id := accepts_message_id |})
    <*> v_str (dict_get (str "acceptsMessageId") d)).
Definition AcceptPlanV1Data_dump (m : AcceptPlanV1Data) : pydict :=
  dump_fields [(str "acceptsMessageId", Some (JStr (ap_accepts_message_id m)))].
#[global] Instance AcceptPlanV1Data_model : ToolModel AcceptPlanV1Data :=
  {| tm_name := str "AcceptPlanV1Data"; tm_fields := AcceptPlanV1Data_fields; tm_dump := AcceptPlanV1Data_dump |}.

(** ** Every model reads back what it writes *)

Definition GeoCoordinate_wf (m : GeoCoordinate) : Prop := True.
#[global] Instance GeoCoordinate_laws : ToolModelLaws GeoCoordinate.
Proof.
  refine {| tm_wf := GeoCoordinate_wf |}; intros m; unfold tm_fields, tm_dump, GeoCoordinate_model, GeoCoordinate_fields, GeoCoordinate_dump.
  - intros _. rewrite forbid_dump by done. read_fields. cbn [v_float]. rewrite !pyd_float_float. by destruct m.
  - eauto 20 with shadownet.
Defined.

Definition PlanWhere_wf (m : PlanWhere) : Prop := ∀ g, pw_geo m = Some g → tm_wf g.
#[global] Instance PlanWhere_laws : ToolModelLaws PlanWhere.
Proof. refine {| tm_wf := PlanWhere_wf |}; forbidding_model PlanWhere_model PlanWhere_fields PlanWhere_dump PlanWhere_wf. Defined.

Lemma PlanWhere_all_wf m : PlanWhere_wf m.
Proof. by intros g _. Qed.

Definition PlanObject_wf (m : PlanObject) : Prop := tm_wf (po_where m).
#[global] Instance PlanObject_laws : ToolModelLaws PlanObject.
Proof.
  refine {| tm_wf := PlanObject_wf |}; intros m; unfold tm_fields, tm_dump, PlanObject_model, PlanObject_fields, PlanObject_dump.
  - intros Hwf. rewrite forbid_dump by done. read_fields. cbn [v_default]. rewrite v_model_read by exact Hwf.
    rewrite v_required_strs_read, v_optional_str. by destruct m.
  - eauto 20 with shadownet typeclass_instances.
Defined.

Definition CoordinateV1Data_wf (m : CoordinateV1Data) : Prop := True.
#[global] Instance CoordinateV1Data_laws : ToolModelLaws CoordinateV1Data.
Proof. refine {| tm_wf := CoordinateV1Data_wf |}; forbidding_model CoordinateV1Data_model CoordinateV1Data_fields CoordinateV1Data_dump CoordinateV1Data_wf. Defined.

Definition AcceptPlanV1Data_wf (m : AcceptPlanV1Data) : Prop := True.
#[global] Instance AcceptPlanV1Data_laws : ToolModelLaws AcceptPlanV1Data.
Proof. refine {| tm_wf := AcceptPlanV1Data_wf |}; forbidding_model AcceptPlanV1Data_model AcceptPlanV1Data_fields AcceptPlanV1Data_dump AcceptPlanV1Data_wf. Defined.

(** ** The flow *)

(** A payload in the body slot of a message comes out of the slot the receiver
    reads, whatever the text and the intent. *)
Lemma payload_travels {A} `{ToolModelLaws A} (payload : A) text intent :
  tm_wf payload →
  (slot ← BodySlot_fields (BodySlot_dump {| bs_text := text; bs_intent := intent; bs_data := Some (tm_dump payload); bs_extra := [] |});
   data ← of_option KeyError (bs_data slot); tm_fields data) = Ok payload.
Proof.
  intros Hp. set (m := Build_BodySlot _ _ _ _).
  pose proof (tm_read (A := BodySlot) m (conj (foreign_nil BodySlot_spec) eq_refl)) as Hm. cbn [tm_fields tm_dump BodySlot_model] in Hm. rewrite Hm.
  cbn. by apply tm_read.
Qed.

(** A proposal can be confirmed as it is: the initiator's model reads what the
    receiver's wrote, and gives the same plan. *)
Lemma proposal_confirms (p : PlanObject) :
  tm_fields (tm_dump {| propose_plan := p |}) = Ok {| confirm_plan := p |}.
Proof.
  cbn [tm_fields tm_dump ConfirmPlanV1Data_model ProposePlanV1Data_model propose_plan].
  pose proof (tm_read p (PlanWhere_all_wf _)) as Hp. cbn [tm_fields tm_dump PlanObject_model] in Hp. by rewrite Hp.
Qed.
End intents.
