(* ===== verification/Decimal.v ===== *)
(** * [decimal.Decimal]

    What the payment code uses of the [decimal] module, with its default context
    (28 digits, round half even, largest exponent 999999, invalid operations and
    overflow trapped): construction from a string, the comparison with zero, the
    product with an integer and [int()]. *)

From S2P Require Import Prelude Radix PyStr Jcs.

Inductive decimal : Type :=
  (** [(-1)^neg * coeff * 10^exp] *)
  | DFin (neg : bool) (coeff exp : Z)
  | DInf (neg : bool)
  | DNaN.

(** ** Construction *)

(** The decimal digits at the front, as values, and the rest. *)
Fixpoint num_prefix (s : pystr) : list Z * pystr :=
  match s with
  | c :: s' => if is_num c then let '(ds, r) := num_prefix s' in ((c - 48) :: ds, r) else ([], s)
  | [] => ([], [])
  end.

(** A sign, where there is one. *)
Definition take_sign (s : pystr) : bool * pystr :=
  match s with
  | c :: s' => if c =? 43 then (false, s') else if c =? 45 then (true, s') else (false, s)
  | [] => (false, [])
  end.

(** Nothing, or [e] with an integer. *)
Definition exponent_part (s : pystr) : option Z :=
  match s with
  | [] => Some 0
  | c :: s =>
      if (c =? 101) || (c =? 69) then
        let '(neg, s) := take_sign s in
        match num_prefix s with
        | (d :: ds, []) => Some (if neg : bool then - of_digits 10 (d :: ds) else of_digits 10 (d :: ds))
        | _ => None
        end
      else None
  end.

Definition MAX_EMAX : Z := 999999999999999999.
Definition MIN_ETINY : Z := -1999999999999999997.

Definition ndigits (coeff : Z) : Z := Z.max 1 (py_len (to_digits 10 coeff)).

Definition finite_part (neg : bool) (s : pystr) : option decimal :=
  let '(int_part, s) := num_prefix s in
  let '(frac_part, s) := match s with 46 :: s => num_prefix s | _ => ([], s) end in
  match int_part ++ frac_part with
  | [] => None
  | digits =>
      match exponent_part s with
      | None => None
      | Some e =>
          let coeff := of_digits 10 digits in
          let exp := e - py_len frac_part in
          if (MAX_EMAX <? exp + ndigits coeff - 1) || (exp <? MIN_ETINY) then None
          else Some (DFin neg coeff exp)
      end
  end.

Section decimal.
Context `{PyUnicode}.

(** White space around is dropped, underscores anywhere; a non-ASCII space or
    digit becomes the ASCII one. *)
Definition decimal_char (c : Z) : result Z :=
  if (0 <? c) && (c <? 128) then Ok c
  else if is_space c then Ok 32
  else d ← of_option InvalidOperation (py_decimal c); Ok (48 + d).

Definition numeric_as_ascii (s : pystr) : result pystr :=
  mapM decimal_char (List.filter (λ c, negb (c =? 95)) (strip s)).

(** [Decimal(s)] *)
Definition decimal_of_str (s : pystr) : result decimal :=
  text ← numeric_as_ascii s;
  let '(neg, body) := take_sign text in
  let word := map ascii_lower body in
  let nan w := startswith w word && forallb is_num (drop (length w) body) in
  if bool_decide (word = str "inf") || bool_decide (word = str "infinity") then Ok (DInf neg)
  else if nan (str "nan") || nan (str "snan") then Ok DNaN
  else of_option InvalidOperation (finite_part neg body).
End decimal.

(** ** Operations *)

(** [d <= 0]; ordering a NaN is an invalid operation. *)
Definition decimal_le_zero (d : decimal) : result bool :=
  match d with
  | DFin neg coeff _ => Ok (neg || (coeff =? 0))
  | DInf neg => Ok neg
  | DNaN => Raise InvalidOperation
  end.

(** Rounding a coefficient to 28 digits, half to even. *)
Definition round_prec (coeff exp : Z) : Z * Z :=
  let k := ndigits coeff - 28 in
  if k <=? 0 then (coeff, exp)
  else
    let q := coeff / 10 ^ k in
    let r := coeff mod 10 ^ k in
    let up := (10 ^ k <? 2 * r) || ((2 * r =? 10 ^ k) && Z.odd q) in
    (if up then q + 1 else q, exp + k).

(** [d * n] for a positive integer.  What is smaller than every normal number is
    left as it is: rounding it to a subnormal number or to zero does not change
    its integer part. *)
Definition decimal_mul_int (d : decimal) (n : Z) : result decimal :=
  match d with
  | DFin neg coeff exp =>
      let '(coeff, exp) := round_prec (coeff * n) exp in
      if negb (coeff =? 0) && (999999 <? exp + ndigits coeff - 1) then Raise DecimalOverflow
      else Ok (DFin neg coeff exp)
  | d => Ok d
  end.

(** [int(d)] *)
Definition decimal_int (d : decimal) : result Z :=
  match d with
  | DFin neg coeff exp =>
      let n := if 0 <=? exp then coeff * 10 ^ exp
               else if ndigits coeff + exp <=? 0 then 0
               else coeff / 10 ^ (- exp) in
      Ok (if neg : bool then - n else n)
  | DInf _ => Raise OverflowError
  | DNaN => Raise ValueError
  end.

(** ** Lemmas *)

Lemma num_prefix_digits ds s :
  Forall (λ c, is_num c = true) ds → stops s = true →
  num_prefix (ds ++ s) = (map (λ c, c - 48) ds, s).
Proof.
  intros Hd Hs. induction Hd as [|c ds Hc _ IH]; cbn.
  - destruct s as [|c s]; [done|]. cbn in Hs |- *. by rewrite (proj1 (negb_true_iff _) Hs).
  - by rewrite Hc, IH.
Qed.

Lemma of_digits_small ds n : is_digits 10 ds → py_len ds ≤ n → 0 ≤ of_digits 10 ds < 10 ^ n.
Proof.
  intros Hd Hn. split; [by apply of_digits_nonneg|].
  eapply Z.lt_le_trans; [by apply (of_digits_bound 10)|]. by apply Z.pow_le_mono_r.
Qed.

Lemma ndigits_le c n : 0 ≤ c < 10 ^ n → 1 ≤ n → ndigits c ≤ n.
Proof.
  intros Hc Hn. unfold ndigits. apply Z.max_lub; [done|].
  destruct (to_digits 10 c) as [|d ds] eqn:E; [unfold py_len; cbn; lia|].
  assert (10 ^ (py_len (d :: ds) - 1) ≤ c) as Hlow.
  { rewrite <-(of_to_digits 10 ltac:(lia) c) by lia. rewrite E.
    apply no_lead_bound; [lia|done| |]; rewrite <-E; [apply to_digits_digits; lia|apply to_digits_no_lead; lia]. }
  destruct (Z.le_gt_cases (py_len (d :: ds)) n) as [|Hgt]; [done|]. exfalso.
  assert (10 ^ n ≤ 10 ^ (py_len (d :: ds) - 1)) by (apply Z.pow_le_mono_r; lia). lia.
Qed.

Lemma round_prec_small coeff exp : 0 ≤ coeff < 10 ^ 28 → round_prec coeff exp = (coeff, exp).
Proof.
  intros Hc. unfold round_prec. pose proof (ndigits_le coeff 28 Hc ltac:(lia)).
  by rewrite (proj2 (Z.leb_le _ _)) by lia.
Qed.

Lemma ndigits_gt c n : 0 ≤ n → 10 ^ n ≤ c → n < ndigits c.
Proof.
  intros Hn Hc. unfold ndigits.
  pose proof (of_digits_bound 10 ltac:(lia) _ (to_digits_digits 10 ltac:(lia) c)) as Hb.
  assert (0 < 10 ^ n) by (apply Z.pow_pos_nonneg; lia). rewrite of_to_digits in Hb by lia.
  destruct (Z.le_gt_cases (py_len (to_digits 10 c)) n) as [Hle|]; [|lia]. exfalso.
  assert (10 ^ py_len (to_digits 10 c) ≤ 10 ^ n) by (apply Z.pow_le_mono_r; lia). lia.
Qed.

Lemma ndigits_pos c : 1 ≤ ndigits c.
Proof. unfold ndigits. lia. Qed.

Lemma decimal_int_nonneg coeff exp n : 0 ≤ coeff → decimal_int (DFin false coeff exp) = Ok n → 0 ≤ n.
Proof.
  cbn. intros Hc [= <-]. repeat case_match; bool_prop; [apply Z.mul_nonneg_nonneg| |]; try lia.
  apply Z.div_pos; [lia|]. apply Z.pow_pos_nonneg; lia.
Qed.

(** An integer of at most eighteen digits is JSON that Python prints. *)
Lemma small_int_wf z : 0 ≤ z < 10 ^ 18 → well_formed (JInt z).
Proof.
  intros Hz. split; [done|]. cbn. unfold int_digits_ok. rewrite Z.abs_eq by lia.
  pose proof (ndigits_le z 18 Hz ltac:(lia)) as Hn. unfold ndigits in Hn. apply Z.leb_le. lia.
Qed.
