(* ===== verification/Avm.v ===== *)
(** * Algorand settlement — [shadownet_x402/avm.py]

    The mnemonic-backed wallet, the relay that simulates, submits and confirms a
    signed group, and [settle_usdc] over them.  The chain package ([algosdk]) and
    the payment package ([x402]) are outside the repository: they are the classes
    [AlgoSdk] and [X402Sdk].  The plugin's [_avm.py] holds the same signers with
    its own exception; the definitions take the exception as an argument
    ([HermesAvm]). *)

From S2P Require Import Prelude PyStr Base64 Jcs Dicts PyRepr Payment.

(** [base64.b64encode] and [base64.b64decode]: the standard alphabet; characters
    outside it are skipped. *)
Definition std_char (c : Z) : Z := if c =? 45 then 43 else if c =? 95 then 47 else c.
Definition b64encode (data : pybytes) : pystr := map std_char (urlsafe_b64encode data).
Definition b64decode (s : pystr) : result pybytes :=
  urlsafe_b64decode (List.filter (λ c, negb ((c =? 45) || (c =? 95))) s).

(** ** The packages *)

(** [algosdk]: keys from mnemonics, transactions as opaque objects, and a client
    of a node over its state [S]. *)
Class AlgoSdk (S : Type) : Type := {
  sdk_object : Type;
  to_private_key : pystr → result pystr;
  address_from_private_key : pystr → pystr;
  msgpack_decode : pystr → result sdk_object;
  msgpack_encode : sdk_object → pystr;
  txn_sign : sdk_object → pystr → result sdk_object;
  (** The calls of [AlgodClient("", url)]. *)
  simulate_raw_transactions : pystr → list sdk_object → M S json;
  send_transactions : pystr → list sdk_object → M S json;
  wait_for_confirmation : pystr → pystr → Z → M S unit;
}.

(** [x402.PaymentRequirements] as the code fills it; it is the only entry of
    [accepts], and the resource is [shadowpay://settle]. *)
Record Requirements := {
  xr_scheme : pystr;
  xr_network : pystr;
  xr_asset : pystr;
  xr_amount : pystr;
  xr_pay_to : pystr;
  xr_max_timeout_seconds : Z;
}.

(** ** Signers *)

Record ClientSigner := { cs_secret : pystr; cs_address : pystr }.

(** What the facilitator of [x402] is given. *)
Record FacilitatorSigner (S : Type) := {
  get_addresses : list pystr;
  sign_transaction : pybytes → pystr → pystr → M S pybytes;
  sign_group : list pybytes → pystr → list Z → pystr → M S (list pybytes);
  simulate_group : list pybytes → pystr → M S unit;
  send_group : list pybytes → pystr → M S pystr;
  confirm_transaction : pystr → pystr → Z → M S unit;
}.
Arguments get_addresses {S} _.
Arguments sign_transaction {S} _.
Arguments sign_group {S} _.
Arguments simulate_group {S} _.
Arguments send_group {S} _.
Arguments confirm_transaction {S} _.

(** [x402]: whether it can be imported, a client that builds the payload with a
    signer, and the in-process facilitator, which answers with an object whose
    attributes are read. *)
Class X402Sdk (S : Type) : Type := {
  x402_installed : bool;
  x402_payload : Type;
  create_payment_payload : ClientSigner → pystr → pystr → Requirements → M S x402_payload;
  facilitator_settle : FacilitatorSigner S → pystr → x402_payload → Requirements → M S pydict;
}.

Section signers.
Context {S : Type} `{PyUnicode} `{AlgoSdk S}.
(** The exception class the module raises, and [str(exc)]. *)
Context (settlement_error : pystr → exn) (exc_text : exn → pystr).

Definition bad_mnemonic (e : exn) : exn := settlement_error (str "invalid wallet mnemonic: " ++ exc_text e).

Definition wallet_secret (wallet_mnemonic : pystr) : result pystr :=
  rethrow is_Exception bad_mnemonic (to_private_key (strip wallet_mnemonic)).

Definition derive_address (wallet_mnemonic : pystr) : result pystr :=
  secret ← wallet_secret wallet_mnemonic; Ok (address_from_private_key secret).

(** [_ClientSigner.__init__] *)
Definition client_signer (wallet_mnemonic : pystr) : result ClientSigner :=
  secret ← wallet_secret wallet_mnemonic;
  Ok {| cs_secret := secret; cs_address := address_from_private_key secret |}.

Definition sign_raw (secret : pystr) (raw : pybytes) : result pybytes :=
  txn ← msgpack_decode (b64encode raw);
  signed ← txn_sign txn secret;
  b64decode (msgpack_encode signed).

(** [for index, raw in enumerate(unsigned_txns)] from [index] on. *)
Fixpoint sign_from (signer : ClientSigner) (indexes_to_sign : list Z) (index : Z) (unsigned : list pybytes)
    : result (list (option pybytes)) :=
  match unsigned with
  | [] => Ok []
  | raw :: unsigned =>
      signed ← (if bool_decide (index ∈ indexes_to_sign) then s ← sign_raw (cs_secret signer) raw; Ok (Some s) else Ok None);
      rest ← sign_from signer indexes_to_sign (index + 1) unsigned;
      Ok (signed :: rest)
  end.
Definition sign_transactions (signer : ClientSigner) (unsigned_txns : list pybytes) (indexes_to_sign : list Z)
    : result (list (option pybytes)) := sign_from signer indexes_to_sign 0 unsigned_txns.

(** [_RelayFacilitatorSigner] *)

Definition _decode (group_bytes : list pybytes) : result (list sdk_object) :=
  mapM (λ b, msgpack_decode (b64encode b)) group_bytes.

(** [result.get("txn-groups")] when a dictionary, then [groups[0].get(...)]. *)
Definition simulation_failure (r : json) : result (option pystr) :=
  let groups := match r with JDict d => default JNull (dict_get (str "txn-groups") d) | _ => JNull end in
  if truthy groups then
    first ← match groups with
            | JList (g :: _) => Ok g
            | JDict _ => Raise KeyError
            | JStr (c :: _) => Ok (JStr [c])
            | _ => Raise TypeError
            end;
    failure ← match first with
              | JDict g => Ok (default JNull (dict_get (str "failure-message") g))
              | _ => Raise AttributeError
              end;
    Ok (if truthy failure then Some (py_str failure) else None)
  else Ok None.

Definition relay_simulate_group (algod_url : pystr) (group_bytes : list pybytes) (network : pystr) : M S unit :=
  group ← lift (_decode group_bytes);
  r ← simulate_raw_transactions algod_url group;
  failure ← lift (simulation_failure r);
  match failure with
  | Some failure => lift (Raise (settlement_error (str "simulation failed: " ++ failure)))
  | None => mret tt
  end.

Definition relay_send_group (algod_url : pystr) (group_bytes : list pybytes) (network : pystr) : M S pystr :=
  group ← lift (_decode group_bytes);
  r ← send_transactions algod_url group;
  mret (py_str r).

(** The facilitator manages no fee-payer accounts. *)
Definition no_fee_payer {A} : M S A := lift (Raise (settlement_error (str "facilitator manages no fee-payer accounts"))).

Definition relay_signer (algod_url : pystr) : FacilitatorSigner S := {|
  get_addresses := [];
  sign_transaction _ _ _ := no_fee_payer;
  sign_group _ _ _ _ := no_fee_payer;
  simulate_group := relay_simulate_group algod_url;
  send_group := relay_send_group algod_url;
  confirm_transaction txid _ rounds := wait_for_confirmation algod_url txid rounds;
|}.

(** Building and settling the payment, which both modules do alike: the signer
    and what the facilitator answered. *)
Definition exact_requirements (network asset amount pay_to : pystr) : Requirements := {|
  xr_scheme := str "exact"; xr_network := network; xr_asset := asset; xr_amount := amount; xr_pay_to := pay_to;
  xr_max_timeout_seconds := 120 |}.

Definition pay_exact `{X402Sdk S} (wallet_mnemonic algod_url : pystr) (requirements : Requirements)
    : M S (ClientSigner * pydict) :=
  signer ← lift (client_signer wallet_mnemonic);
  payload ← rethrowM is_Exception (λ exc, settlement_error (str "failed to build payment: " ++ exc_text exc))
              (create_payment_payload signer (xr_network requirements) algod_url requirements);
  outcome ← facilitator_settle (relay_signer algod_url) (xr_network requirements) payload requirements;
  mret (signer, outcome).
End signers.

(** ** [settle_usdc] *)

Definition TESTNET_CAIP2 : pystr := str "algorand:SGO1GKSzyE7IEPItTxCByw9x8FmnrCDexi9/cOUJOiI=".
Definition TESTNET_USDC_ASSET_ID : Z := 10458941.
Definition DEFAULT_ALGOD_URL : pystr := str "https://testnet-api.algonode.cloud".

(** [getattr(outcome, name, d)] *)
Definition attr (outcome : pydict) (name : pystr) (d : json) : json := default d (dict_get name outcome).

(** [x or y] *)
Definition or_else (x y : json) : json := if truthy x then x else y.

(** [SettleOutcome] with the attributes as they come. *)
Record AvmOutcome := {
  ao_success : bool;
  ao_transaction : json;
  ao_payer : json;
  ao_network : pystr;
  ao_error_reason : json;
}.

Section settle.
Context {S : Type} `{PyUnicode} `{AlgoSdk S} `{X402Sdk S} (exc_text : exn → pystr).

Definition settle_usdc (wallet_mnemonic pay_to : pystr) (amount : Z) (network : pystr) (asset_id : Z) (algod_url : pystr)
    : M S AvmOutcome :=
  _ ← lift (raise_if (amount <=? 0) SettlementError);
  _ ← lift (raise_if (negb x402_installed) SettlementError);
  '(signer, outcome) ← pay_exact (λ _, SettlementError) exc_text wallet_mnemonic algod_url
                         (exact_requirements network (dec asset_id) (dec amount) pay_to);
  mret {| ao_success := truthy (attr outcome (str "success") (JBool false));
          ao_transaction := or_else (attr outcome (str "transaction") JNull) JNull;
          ao_payer := or_else (attr outcome (str "payer") JNull) (JStr (cs_address signer));
          ao_network := network;
          ao_error_reason := attr outcome (str "error_reason") JNull |}.
End settle.

(** ** Properties *)

Section signer_properties.
Context {S : Type} `{PyUnicode} `{AlgoSdk S}.
Context (settlement_error : pystr → exn) (exc_text : exn → pystr).

Lemma sign_from_spec signer indexes index unsigned signed :
  sign_from signer indexes index unsigned = Ok signed →
  length signed = length unsigned
  ∧ ∀ i raw, unsigned !! i = Some raw →
      if bool_decide (index + Z.of_nat i ∈ indexes)
      then ∃ s, signed !! i = Some (Some s) ∧ sign_raw (cs_secret signer) raw = Ok s
      else signed !! i = Some None.
Proof.
  revert index signed. induction unsigned as [|raw unsigned IH]; intros index signed; cbn [sign_from].
  - intros ?. res_inv. done.
  - intros (o & Ho & (rest & Hrest & Hs)%bind_ok)%bind_ok. res_inv. destruct (IH _ _ Hrest) as [Hlen Hall]. split; [cbn; by rewrite Hlen|].
    intros [|i] raw'; cbn.
    + intros [= <-]. rewrite Z.add_0_r. case_bool_decide; res_inv; [|done]. eauto.
    + intros Hi. replace (index + Z.of_nat (Datatypes.S i)) with (index + 1 + Z.of_nat i) by lia. by apply Hall.
Qed.

(** The client signs exactly the transactions it is asked to: the answer has one
    entry per transaction, a signed one at each of the indexes and none
    elsewhere. *)
Lemma signs_requested_only signer unsigned indexes signed :
  sign_transactions signer unsigned indexes = Ok signed →
  length signed = length unsigned
  ∧ ∀ i raw, unsigned !! i = Some raw →
      if bool_decide (Z.of_nat i ∈ indexes)
      then ∃ s, signed !! i = Some (Some s) ∧ sign_raw (cs_secret signer) raw = Ok s
      else signed !! i = Some None.
Proof. exact (sign_from_spec signer indexes 0 unsigned signed). Qed.

(** A group whose simulation reports a failure is refused with its message. *)
Lemma failing_simulation_refused url group network objects s s' g rest msg :
  _decode group = Ok objects →
  simulate_raw_transactions url objects s = (s', Ok (JDict [(str "txn-groups", JList (JDict g :: rest))])) →
  dict_get (str "failure-message") g = Some (JStr msg) → msg ≠ [] →
  relay_simulate_group settlement_error url group network s
  = (s', Raise (settlement_error (str "simulation failed: " ++ msg))).
Proof.
  intros Hd Hsim Hg Hm. unfold relay_simulate_group. rewrite (M_bind_lift _ _ _ _ Hd), (M_bind_run _ _ _ _ _ Hsim).
  assert (simulation_failure (JDict [(str "txn-groups", JList (JDict g :: rest))]) = Ok (Some msg)) as Hf.
  { unfold simulation_failure. change (dict_get (str "txn-groups") _) with (Some (JList (JDict g :: rest))).
    cbn [from_option id default truthy mbind result_bind]. rewrite Hg. cbn [from_option id default].
    destruct msg; done. }
  by rewrite (M_bind_lift _ _ _ _ Hf).
Qed.
End signer_properties.

(** Nothing is built, signed or sent for an amount that is not positive. *)
Lemma settle_needs_amount {S} `{PyUnicode} `{AlgoSdk S} `{X402Sdk S} exc_text mnemonic pay_to amount network asset url (s : S) :
  amount ≤ 0 → settle_usdc exc_text mnemonic pay_to amount network asset url s = (s, Raise SettlementError).
Proof. intros Ha. unfold settle_usdc. by rewrite (proj2 (Z.leb_le amount 0)). Qed.
