(* ===== verification/HermesPay.v ===== *)
(** * ShadowPay — [shadownet_hermes_plugin/_avm.py], [_shadowpay.py]

    The plugin's settlement of a USDC amount, and the payment command: a
    credential is minted and verified, then the same payment is tried three
    times, with the identity in order, revoked, and with another payee.  The
    chain and the payment package are the classes of [Avm]; the random keys and
    the clock are arguments. *)

From S2P Require Import Prelude Radix PyStr Base64 Multibase Identifiers Jcs Dicts PyRepr Crypto Provider Pydantic Credential.
From S2P Require Import Payment Decimal Avm.

(** ** [_avm.py] *)

Definition USDC_DECIMALS : Z := 6.
Definition TESTNET_USDC_ASA_ID : Z := 10458941.

Section to_atomic.
Context `{PyUnicode}.

Definition is_decimal_error (e : exn) : bool := bool_decide (e = InvalidOperation) || is_ValueError e.

Definition to_atomic (amount_usdc : pystr) : result Z :=
  value ← rethrow is_decimal_error (λ _, AvmSettlementError (str "invalid USDC amount: " ++ repr_str amount_usdc))
            (decimal_of_str amount_usdc);
  negative ← decimal_le_zero value;
  _ ← raise_if negative (AvmSettlementError (str "USDC amount must be positive: " ++ repr_str amount_usdc));
  product ← decimal_mul_int value (10 ^ USDC_DECIMALS);
  decimal_int product.
End to_atomic.

Section settle.
Context {S : Type} `{PyUnicode} `{AlgoSdk S} `{X402Sdk S} (exc_text : exn → pystr).

Definition payer_address (wallet_mnemonic : pystr) : result pystr :=
  derive_address AvmSettlementError exc_text wallet_mnemonic.

(** [x or d] for strings *)
Definition or_default (x : option pystr) (d : pystr) : pystr :=
  match x with None | Some [] => d | Some x => x end.

Definition settle_usdc (wallet_mnemonic pay_to amount_usdc : pystr) (network algod_url : option pystr) : M S pystr :=
  _ ← lift (raise_if (negb x402_installed)
              (AvmSettlementError (str "x402-avm and py-algorand-sdk are required for live settlement")));
  let net := or_default network TESTNET_CAIP2 in
  let url := or_default algod_url DEFAULT_ALGOD_URL in
  amount ← lift (to_atomic amount_usdc);
  '(_, outcome) ← pay_exact AvmSettlementError exc_text wallet_mnemonic url
                    (exact_requirements net (dec TESTNET_USDC_ASA_ID) (dec amount) pay_to);
  let reason := or_else (attr outcome (str "error_reason") JNull) (JStr (str "unknown")) in
  let message := attr outcome (str "error_message") JNull in
  let suffix := if truthy message then str " (" ++ py_str message ++ str ")" else [] in
  _ ← lift (raise_if (negb (truthy (attr outcome (str "success") (JBool false))))
              (AvmSettlementError (str "on-chain settlement refused: " ++ py_str reason ++ suffix)));
  let txid := py_str (or_else (attr outcome (str "transaction") (JStr [])) (JStr [])) in
  _ ← lift (raise_if (bool_decide (txid = [])) (AvmSettlementError (str "settlement returned no transaction id")));
  mret txid.
End settle.

(** ** [_shadowpay.py] *)

Definition _STUB_TXID : pystr := str "TESTNET-TXID-9F3A2C".
Definition _STUB_PAY_TO : pystr := str "ALICEALGOADDR".
Definition _TAMPERED_PAY_TO : pystr := str "TAMPEREDPAYTOADDR".
Definition _DEFAULT_AMOUNT : pystr := str "0.005".
Definition _LORA_TX_URL : pystr := str "https://lora.algokit.io/testnet/tx/".
Definition MNEMONIC_VAR : pystr := str "SHADOWNET_X402_WALLET_MNEMONIC".
Definition PAY_TO_VAR : pystr := str "SHADOWNET_X402_PAY_TO".
Definition _REQUIRED_ENV : list pystr := [MNEMONIC_VAR; PAY_TO_VAR].

(** [s.split()] *)
Fixpoint split_words (s : pystr) : list pystr :=
  match s with
  | [] => []
  | c :: s' =>
      if is_space c then split_words s'
      else
        let ws := split_words s' in
        match s' with
        | d :: _ => if is_space d then [c] :: ws else match ws with w :: ws => (c :: w) :: ws | [] => [[c]] end
        | [] => [[c]]
        end
  end.

Section shadowpay.
Context {S : Type} `{PyUnicode} `{Pydantic} `{PyJWT} `{AlgoSdk S} `{X402Sdk S} (exc_text : exn → pystr).
Context (environ : pystr → option pystr) (provider_lookup : pystr → M S ProviderRecord).
(** [int(time.time())] in a state. *)
Context (clock : S → Z).

Definition env_text (var : pystr) : pystr := strip (default [] (environ var)).

Definition _config_hint : option pystr :=
  match List.filter (λ name, bool_decide (default [] (environ name) = [])) _REQUIRED_ENV with
  | [] => None
  | missing => Some (
      str "Setup: running in demo mode (stub settlement). For a real Algorand TestNet "
      ++ str "USDC transfer, set in your Hermes env/config: " ++ join_with (str ", ") missing ++ str ". "
      ++ str "SHADOWNET_X402_WALLET_MNEMONIC = a funded 25-word TestNet account opted into "
      ++ str "USDC (ASA 10458941); SHADOWNET_X402_PAY_TO = the payee address (also opted in).")
  end.

Definition live : bool := negb (bool_decide (env_text MNEMONIC_VAR = [])) && negb (bool_decide (env_text PAY_TO_VAR = [])).
Definition agreed_pay_to : pystr := if live then env_text PAY_TO_VAR else _STUB_PAY_TO.
Definition algod_setting : option pystr :=
  match env_text (str "SHADOWNET_X402_ALGOD_URL") with [] => None | url => Some url end.

(** The payee and the amount of the command line. *)
Definition pay_args (raw_args : pystr) : pystr * pystr :=
  match split_words raw_args with
  | [] => (str "alice", or_default (environ (str "SHADOWNET_X402_AMOUNT")) _DEFAULT_AMOUNT)
  | [payee] => (payee, or_default (environ (str "SHADOWNET_X402_AMOUNT")) _DEFAULT_AMOUNT)
  | payee :: amount :: _ => (payee, amount)
  end.

(** [CredentialPayload(...)] validates its arguments. *)
Definition buyer_payload (buyer_sub : pystr) (now : Z) : result CredentialPayload :=
  CredentialPayload_validate
    [(str "iss", JStr (str "acme.example")); (str "sub", JStr buyer_sub); (str "kind", JStr (str "org_affiliation"));
     (str "org", JStr (str "acme.example")); (str "iat", JInt now); (str "exp", JInt (now + 3600));
     (str "rev", JDict [(str "epoch", JStr (str "2026q2")); (str "idx", JInt 0)])].

(** What the inner function [settle] answers. *)
Definition beat (credential issuer_pk buyer_sub amount : pystr) (revoked : gset pystr) (pay_to : pystr) : M S pystr := λ s,
  match verify_credential (clock s) 60 (λ _, mret issuer_pk) (default_issuer_authorization_check provider_lookup) credential s with
  | (s, Raise e) => if bool_decide (e = CredentialError) then (s, Ok (str "REFUSED (401): identity not verified")) else (s, Raise e)
  | (s, Ok _) =>
      if bool_decide (buyer_sub ∈ revoked) then (s, Ok (str "REFUSED (403): identity revoked"))
      else if negb (bool_decide (pay_to = agreed_pay_to)) then
        (s, Ok (str "REFUSED (402): payment does not match the agreed requirements"))
      else if negb live then (s, Ok (str "SETTLED: txid " ++ _STUB_TXID ++ str " (demo, stub settlement)"))
      else
        match settle_usdc exc_text (env_text MNEMONIC_VAR) agreed_pay_to amount None algod_setting s with
        | (s, Ok txid) => (s, Ok (str "SETTLED: " ++ txid ++ [10] ++ str "   " ++ _LORA_TX_URL ++ txid))
        | (s, Raise (AvmSettlementError msg)) => (s, Ok (str "REFUSED: on-chain settlement failed (" ++ msg ++ str ")"))
        | (s, Raise e) => (s, Raise e)
        end
  end.

Definition narrative (payee amount buyer_sub paid revoked tampered : pystr) : pystr :=
  join_with [10] (
    [str "ShadowPay - agent payments on Algorand, bound to identity."; [];
     str "1) Pay " ++ amount ++ str " USDC to " ++ payee ++ str " on "
       ++ (if live then str "Algorand TestNet" else str "Algorand TestNet (demo)") ++ str " -> " ++ paid;
     str "   Bound to " ++ take 16 buyer_sub ++ str "... (verified org_affiliation @ acme.example), "
       ++ str "not an anonymous wallet.";
     [];
     str "2) Revoke the agent, pay again -> " ++ revoked;
     str "   Wallet still funded. The identity is the kill switch.";
     [];
     str "3) Man-in-the-middle swaps the pay-to -> " ++ tampered;
     str "   The charge is bound to what was agreed.";
     [];
     str "Know Your Agent for x402."]
    ++ match _config_hint with Some hint => [[]; hint] | None => [] end).

(** [run(raw_args)], with the two generated keys. *)
Definition run (issuer buyer : Ed25519KeyPair) (raw_args : pystr) : M S pystr :=
  let '(payee, amount) := pay_args raw_args in
  issuer_pk ← lift (encode_public_key (public_bytes issuer));
  buyer_sub ← lift (encode_public_key (public_bytes buyer));
  now ← (λ s, (s, Ok (clock s)));
  payload ← lift (buyer_payload buyer_sub now);
  credential ← lift (mint_credential payload issuer);
  paid ← beat credential issuer_pk buyer_sub amount ∅ agreed_pay_to;
  revoked ← beat credential issuer_pk buyer_sub amount {[buyer_sub]} agreed_pay_to;
  tampered ← beat credential issuer_pk buyer_sub amount ({[buyer_sub]} ∖ {[buyer_sub]}) _TAMPERED_PAY_TO;
  mret (narrative payee amount buyer_sub paid revoked tampered).
End shadowpay.

(** ** Amounts *)

Section amounts.
Context `{PyUnicode}.

(** [n] millionths written as a decimal amount. *)
Definition usdc_text (n : Z) : pystr := dec_digits (n / 10 ^ 6) ++ [46] ++ map (Z.add 48) (fixed_digits 6 10 (n mod 10 ^ 6)).

Lemma usdc_text_chars n : Forall (λ c, is_num c = true ∨ c = 46) (usdc_text n).
Proof.
  unfold usdc_text. rewrite !Forall_app. split_and!.
  - eapply Forall_impl; [apply dec_digits_num|]. auto.
  - by repeat constructor; right.
  - apply Forall_map. eapply Forall_impl; [apply (fixed_digits_digits 10); lia|]. intros d Hd. left.
    cbn in *. unfold is_num. lia.
Qed.

Lemma plain_numeric s : Forall (λ c, is_num c = true ∨ c = 46) s → numeric_as_ascii s = Ok s.
Proof.
  intros Hs.
  assert (Forall (λ c, is_space c = false ∧ c ≠ 95 ∧ 0 < c < 128) s) as Hc.
  { eapply Forall_impl; [exact Hs|]. cbn. intros c [Hc| ->]; [|done]. unfold is_num, is_space in *. lia. }
  unfold numeric_as_ascii. assert (strip s = s) as ->.
  { apply strip_id; intros c s' ->; [inversion Hc|apply Forall_app in Hc as [_ Hc]; inversion Hc]; naive_solver. }
  assert (List.filter (λ c, negb (c =? 95)) s = s) as ->.
  { clear Hs. induction Hc as [|c s [_ [Hc _]] _ IH]; [done|]. cbn. by rewrite (proj2 (Z.eqb_neq _ _) Hc), IH. }
  apply mapM_ok. apply Forall_Forall2_diag. eapply Forall_impl; [exact Hc|]. cbn. intros c (_ & _ & Hr).
  unfold decimal_char. by rewrite (proj2 (Z.ltb_lt _ _)), (proj2 (Z.ltb_lt _ _)) by lia.
Qed.
Lemma usdc_text_head n : 0 ≤ n → ∃ c s, usdc_text n = c :: s ∧ is_num c = true.
Proof.
  intros Hn. unfold usdc_text. pose proof (dec_digits_ne (n / 10 ^ 6) ltac:(apply Z.div_pos; lia)) as Hne.
  pose proof (dec_digits_num (n / 10 ^ 6)) as Hd. destruct (dec_digits (n / 10 ^ 6)) as [|c t]; [done|].
  inversion Hd; subst. cbn. eauto.
Qed.

Lemma usdc_text_finite n : 0 ≤ n < 10 ^ 22 → finite_part false (usdc_text n) = Some (DFin false n (-6)).
Proof.
  intros Hn. unfold finite_part, usdc_text.
  rewrite num_prefix_digits by (done || apply dec_digits_num). cbn [app].
  set (frac := fixed_digits 6 10 (n mod 10 ^ 6)).
  assert (num_prefix (map (Z.add 48) frac) = (frac, [])) as ->.
  { rewrite <-(app_nil_r (map _ frac)), num_prefix_digits; [|apply Forall_map|done].
    - f_equal. rewrite map_map. rewrite <-(map_id frac) at 2. apply map_ext. intros d. lia.
    - eapply Forall_impl; [apply (fixed_digits_digits 10); lia|]. cbn. intros d Hd. unfold is_num. lia. }
  assert (of_digits 10 (map (λ c, c - 48) (dec_digits (n / 10 ^ 6)) ++ frac) = n) as Hval.
  { rewrite of_digits_app by lia. rewrite dec_digits_value by (apply Z.div_pos; lia).
    unfold frac, py_len. rewrite length_fixed_digits, of_fixed_digits by (lia || apply Z.mod_pos_bound; lia).
    change (10 ^ Z.of_nat 6) with (10 ^ 6). pose proof (Z.div_mod n (10 ^ 6)). lia. }
  case_match eqn:Hds.
  { apply app_eq_nil in Hds as [Hds _]. apply map_eq_nil in Hds. exfalso. revert Hds. apply dec_digits_ne, Z.div_pos; lia. }
  rewrite <-Hds in *. rewrite Hval. cbn [exponent_part]. unfold frac, py_len. rewrite length_fixed_digits.
  pose proof (ndigits_le n 22 ltac:(lia) ltac:(lia)). pose proof (ndigits_pos n).
  unfold MAX_EMAX, MIN_ETINY. rewrite (proj2 (Z.ltb_ge _ _)) by lia. cbn [orb]. by rewrite (proj2 (Z.ltb_ge _ _)) by lia.
Qed.

Lemma decimal_of_usdc_text n : 0 ≤ n < 10 ^ 22 → decimal_of_str (usdc_text n) = Ok (DFin false n (-6)).
Proof.
  intros Hn. unfold decimal_of_str. rewrite plain_numeric by apply usdc_text_chars. cbn [mbind result_bind].
  pose proof (usdc_text_finite n Hn) as Hf. destruct (usdc_text_head n ltac:(lia)) as (c & t & E & Hc). rewrite E in *.
  assert (take_sign (c :: t) = (false, c :: t)) as ->.
  { unfold take_sign, is_num in *. by rewrite (proj2 (Z.eqb_neq c 43)), (proj2 (Z.eqb_neq c 45)) by lia. }
  assert (ascii_lower c = c ∧ c ≠ 105 ∧ c ≠ 110 ∧ c ≠ 115) as (Hl & Hi & Hnn & Hs).
  { unfold ascii_lower, is_num, is_upper in *. split_and!; try lia. case_match; lia. }
  cbn [map]. rewrite Hl. rewrite !bool_decide_eq_false_2 by (vm_compute (str _); congruence). cbn [orb].
  assert (∀ d w, c ≠ d → startswith (d :: w) (c :: map ascii_lower t) = false) as Hw.
  { intros d w Hd. cbn. by rewrite (proj2 (Z.eqb_neq d c)). }
  change (str "nan") with (110 :: str "an"). change (str "snan") with (115 :: str "nan").
  rewrite !Hw by done. cbn [andb orb]. by rewrite Hf.
Qed.

(** Amounts written with six decimals are settled exactly. *)
Lemma to_atomic_exact n : 0 < n < 10 ^ 22 → to_atomic (usdc_text n) = Ok n.
Proof.
  intros Hn. unfold to_atomic. rewrite decimal_of_usdc_text by lia. cbn [rethrow mbind result_bind decimal_le_zero orb].
  rewrite (proj2 (Z.eqb_neq n 0)) by lia. cbn [raise_if mbind result_bind]. unfold decimal_mul_int, USDC_DECIMALS.
  rewrite round_prec_small by (split; [lia|]; change (10 ^ 28) with (10 ^ 22 * 10 ^ 6); lia).
  pose proof (ndigits_le (n * 10 ^ 6) 28 ltac:(change (10 ^ 28) with (10 ^ 22 * 10 ^ 6); lia) ltac:(lia)).
  rewrite (proj2 (Z.ltb_ge 999999 _)) by lia. rewrite andb_false_r. cbn [mbind result_bind decimal_int].
  rewrite (proj2 (Z.leb_gt 0 (-6))) by lia.
  pose proof (ndigits_gt (n * 10 ^ 6) 6 ltac:(lia) ltac:(lia)). rewrite (proj2 (Z.leb_gt _ 0)) by lia.
  f_equal. change (- -6) with 6. by apply Z.div_mul.
Qed.
End amounts.

(** ** The three beats *)

(** The requests that were handed to the facilitator, in order: a trace over the
    state.  Building a payload asks for nothing, and [settle] is one request,
    whatever comes of it. *)
Class SettlementLog (S : Type) `{X402Sdk S} : Type := {
  settlements : S → list Requirements;
  payload_builds signer network url req s s' r :
    create_payment_payload signer network url req s = (s', r) → settlements s' = settlements s;
  settle_recorded relay network payload req s s' r :
    facilitator_settle relay network payload req s = (s', r) → settlements s' = settlements s ++ [req];
}.

Section beats.
Context {S : Type} `{PyUnicode} `{Pydantic} `{PyJWTLaws} `{AlgoSdk S} `{X402Sdk S} (exc_text : exn → pystr).
Context (environ : pystr → option pystr) (provider_lookup : pystr → M S ProviderRecord) (clock : S → Z).

Definition buyer_credential (buyer_sub : pystr) (now : Z) : CredentialPayload := {|
  cp_iss := str "acme.example"; cp_sub := buyer_sub; cp_kind := ORG_AFFILIATION; cp_org := str "acme.example";
  cp_iat := now; cp_exp := now + 3600; cp_rev := {| epoch := str "2026q2"; idx := 0 |}; cp_extra := [] |}.

Lemma acme_canonical : canonicalize_issuer_or_org_identifier (str "acme.example") = Ok (str "acme.example").
Proof.
  unfold canonicalize_issuer_or_org_identifier, _validate_domain.
  replace (rstrip_char 46 (strip (str "acme.example"))) with (str "acme.example") by (vm_compute; reflexivity).
  rewrite py_lower_ascii by (apply forallb_Forall; vm_compute; reflexivity). vm_compute. reflexivity.
Qed.

Lemma buyer_canonical sk buyer_sub now :
  encode_public_key (ed_public sk) = Ok buyer_sub → 0 ≤ now < 10 ^ 17 → payload_canonical (buyer_credential buyer_sub now).
Proof.
  intros Hsub Hnow. destruct (ed_public_bytes sk) as [Hl Hb].
  destruct (encode_public_key_roundtrip (ed_public sk) Hb Hl) as (v & Hv & _ & _ & _ & Hc & _).
  assert (v = buyer_sub) as -> by congruence. pose proof (key_wf_str _ _ Hb Hsub) as Hwf.
  unfold payload_canonical. cbn. split_and!; try done; try apply acme_canonical; try lia.
  wf_dict; try apply small_int_wf; try lia.
Qed.

Section verified.
Context (issuer buyer : ed_secret) (buyer_sub : pystr) (T : Z).
Context (Hsub : encode_public_key (ed_public buyer) = Ok buyer_sub) (HT : 0 ≤ T < 10 ^ 17).
Context (Hclock : ∀ s, T ≤ clock s ≤ T + 3600).

Lemma buyer_payload_ok : buyer_payload buyer_sub T = Ok (buyer_credential buyer_sub T).
Proof. exact (validate_dump _ (buyer_canonical _ _ _ Hsub HT)). Qed.

Lemma buyer_verifies :
  ∃ token k, mint_credential (buyer_credential buyer_sub T) (generate issuer) = Ok token
    ∧ encode_public_key (ed_public issuer) = Ok k
    ∧ ∀ s : S, ∃ vc, verify_credential (clock s) 60 (λ _, mret k) (default_issuer_authorization_check provider_lookup) token s
                = (s, Ok vc).
Proof.
  destruct (minted_credential_verifies (W := S) (buyer_credential buyer_sub T) issuer) as (token & k & Hm & Hk & Hv);
    [by eapply buyer_canonical|cbn; lia|].
  exists token, k. split_and!; [done|done|]. intros s. eexists.
  apply (Hv (clock s) 60 (λ _, mret k) (default_issuer_authorization_check provider_lookup) s s s); [|done|].
  - cbn. specialize (Hclock s). lia.
  - unfold default_issuer_authorization_check. cbn [cp_iss cp_org buyer_credential]. by rewrite bool_decide_true.
Qed.
End verified.

(** ** The settlement *)

Context {log : SettlementLog S}.

(** The one request for [atomic] millionths. *)
Definition usdc_request (atomic : Z) : Requirements := {|
  xr_scheme := str "exact"; xr_network := str "algorand:SGO1GKSzyE7IEPItTxCByw9x8FmnrCDexi9/cOUJOiI=";
  xr_asset := str "10458941"; xr_amount := dec atomic; xr_pay_to := env_text environ PAY_TO_VAR; xr_max_timeout_seconds := 120 |}.

(** What may keep a payment from being handed to the facilitator. *)
Definition cannot_pay (amount : pystr) (s s' : S) : Prop :=
  x402_installed = false ∨ (∃ e, to_atomic amount = Raise e)
  ∨ (∃ e, to_private_key (strip (env_text environ MNEMONIC_VAR)) = Raise e)
  ∨ ∃ atomic signer network url e, to_atomic amount = Ok atomic
      ∧ create_payment_payload signer network url (usdc_request atomic) s = (s', Raise e).

(** What the facilitator answered. *)
Definition facilitated (req : Requirements) (s' : S) (answer : result pydict) : Prop :=
  ∃ relay network payload s1, facilitator_settle relay network payload req s1 = (s', answer).

Definition confirmed (answer : result pydict) (txid : pystr) : Prop :=
  ∃ outcome, answer = Ok outcome ∧ truthy (attr outcome (str "success") (JBool false)) = true
    ∧ txid ≠ [] ∧ txid = py_str (or_else (attr outcome (str "transaction") (JStr [])) (JStr [])).

Lemma pay_exact_log mnemonic url req (s s' : S) r :
  pay_exact AvmSettlementError exc_text mnemonic url req s = (s', r) →
  (settlements s' = settlements s ∧ (∃ e, r = Raise e)
   ∧ ((∃ e, to_private_key (strip mnemonic) = Raise e)
      ∨ ∃ signer network url' e, create_payment_payload signer network url' req s = (s', Raise e)))
  ∨ ∃ answer, settlements s' = settlements s ++ [req] ∧ facilitated req s' answer
      ∧ match answer with Ok o => ∃ signer, r = Ok (signer, o) | Raise e => r = Raise e end.
Proof.
  unfold pay_exact, client_signer, wallet_secret.
  destruct (to_private_key (strip mnemonic)) as [secret|e] eqn:Ek.
  2: { cbn [rethrow]. intros Hp. left. split_and!; [by destruct (is_Exception e); injection Hp as <- _| |eauto].
       destruct (is_Exception e); injection Hp as _ <-; eauto. }
  set (signer := {| cs_secret := secret; cs_address := address_from_private_key secret |}).
  rewrite (M_bind_lift _ _ _ signer) by done. unfold mbind at 1, M_bind at 1.
  destruct (create_payment_payload signer (xr_network req) url req s) as [s1 [payload|e]] eqn:Ec.
  - unfold rethrowM at 1. rewrite Ec. apply payload_builds in Ec. intros Hp. right. revert Hp.
    unfold mbind, M_bind.
    destruct (facilitator_settle (relay_signer AvmSettlementError url) (xr_network req) payload req s1) as [s2 answer] eqn:Ef.
    pose proof (settle_recorded _ _ _ _ _ _ _ Ef) as El. intros Hp. exists answer. rewrite <-Ec. cbn [rethrow] in Hp. rewrite Ef in Hp.
    destruct answer as [o|e]; injection Hp as <- <-; split_and!; eauto; by eexists _, _, _, _.
  - unfold rethrowM at 1. rewrite Ec. cbn [rethrow]. intros Hp. pose proof (payload_builds _ _ _ _ _ _ _ Ec) as El. left.
    destruct (is_Exception e); injection Hp as <- <-; split_and!; eauto 10.
Qed.

(** At most one request reaches the facilitator, and a transaction id comes from it. *)
Definition settled_once (amount : pystr) (s s' : S) (r : result pystr) : Prop :=
  (settlements s' = settlements s ∧ cannot_pay amount s s' ∧ ∃ e, r = Raise e)
  ∨ ∃ atomic answer, to_atomic amount = Ok atomic ∧ settlements s' = settlements s ++ [usdc_request atomic]
      ∧ facilitated (usdc_request atomic) s' answer ∧ ∀ txid, r = Ok txid → confirmed answer txid.

Lemma settle_usdc_once amount (s s' : S) r :
  settle_usdc exc_text (env_text environ MNEMONIC_VAR) (env_text environ PAY_TO_VAR) amount None (algod_setting environ) s = (s', r) →
  settled_once amount s s' r.
Proof.
  unfold settle_usdc, settled_once, cannot_pay. destruct x402_installed; cbn [negb raise_if].
  2: { intros [= <- <-]. left. split_and!; eauto. }
  rewrite (M_bind_lift _ _ _ tt) by done. destruct (to_atomic amount) as [atomic|e] eqn:Ea.
  2: { intros [= <- <-]. left. split_and!; eauto. }
  rewrite (M_bind_lift _ _ _ atomic) by done. cbn [or_default].
  change (exact_requirements TESTNET_CAIP2 (dec TESTNET_USDC_ASA_ID) (dec atomic) (env_text environ PAY_TO_VAR))
    with (usdc_request atomic).
  unfold mbind at 1, M_bind at 1. destruct (pay_exact _ _ _ _ _ s) as [s1 rp] eqn:Ep.
  apply pay_exact_log in Ep as [(Hl & [e ->] & Hwhy)|(answer & Hl & Hf & Hr)].
  - intros [= <- <-]. left. split_and!; [done| |eauto]. right. right.
    destruct Hwhy as [?|(sg & nw & u & e' & Hc)]; [by left|right; by exists atomic, sg, nw, u, e'].
  - intros Hrun. right. exists atomic, answer. destruct answer as [o|e]; [|subst rp; injection Hrun as <- <-; by split_and!].
    destruct Hr as [signer ->]. unfold mbind, M_bind, lift, mret, M_ret in Hrun.
    destruct (truthy (attr o (str "success") (JBool false))) eqn:Esuc; cbn [negb raise_if] in Hrun;
      [|injection Hrun as <- <-; by split_and!].
    case_bool_decide as Etx; cbn [raise_if] in Hrun; injection Hrun as <- <-; split_and!; try done.
    intros txid [= <-]. by exists o.
Qed.

(** What the first beat does to the chain, and the text it gives. *)
Definition paid_text (r : result pystr) : result pystr :=
  match r with
  | Ok txid => Ok (str "SETTLED: " ++ txid ++ [10] ++ str "   " ++ str "https://lora.algokit.io/testnet/tx/" ++ txid)
  | Raise (AvmSettlementError msg) => Ok (str "REFUSED: on-chain settlement failed (" ++ msg ++ str ")")
  | Raise e => Raise e
  end.
Definition first_payment (amount : pystr) (s s' : S) (paid : result pystr) : Prop :=
  if live environ then ∃ r, settled_once amount s s' r ∧ paid = paid_text r
  else s' = s ∧ paid = Ok (str "SETTLED: txid TESTNET-TXID-9F3A2C (demo, stub settlement)").

(** The first beat, for a credential that verifies. *)
Lemma first_beat_pays token k buyer_sub amount (s : S) :
  (∃ vc, verify_credential (clock s) 60 (λ _, mret k) (default_issuer_authorization_check provider_lookup) token s = (s, Ok vc)) →
  ∃ s' paid, beat exc_text environ provider_lookup clock token k buyer_sub amount ∅ (agreed_pay_to environ) s = (s', paid)
    ∧ first_payment amount s s' paid.
Proof.
  intros [vc Hv]. unfold beat, first_payment. rewrite Hv, bool_decide_false, bool_decide_true by set_solver. cbn [negb].
  unfold agreed_pay_to. destruct (live environ); cbn [negb]; [|by eexists _, _].
  destruct (settle_usdc _ _ _ _ _ _ s) as [s1 r] eqn:Es. pose proof (settle_usdc_once _ _ _ _ Es) as Hs.
  exists s1, (paid_text r). split; [|by exists r]. destruct r as [txid|[]]; reflexivity.
Qed.

End beats.

(** ** Examples *)

#[local] Existing Instance ascii_unicode.
#[local] Existing Instance strict_pydantic.
#[local] Existing Instance toy_ed25519.
#[local] Existing Instance toy_jwt.
#[local] Existing Instance toy_jwt_laws.

(** A chain that keeps what was paid. *)
#[local] Instance toy_algo : AlgoSdk (list Requirements) := {|
  sdk_object := pystr; to_private_key m := if bool_decide (m = []) then Raise ValueError else Ok m;
  address_from_private_key m := str "ADDR" ++ m; msgpack_decode := Ok; msgpack_encode x := x; txn_sign x _ := Ok x;
  simulate_raw_transactions _ _ := mret (JDict []); send_transactions _ _ := mret (JStr (str "TX1"));
  wait_for_confirmation _ _ _ := mret tt |}.
#[local] Instance toy_x402 : X402Sdk (list Requirements) := {|
  x402_installed := true; x402_payload := unit; create_payment_payload _ _ _ _ := mret tt;
  facilitator_settle _ _ _ r := λ s, (s ++ [r], Ok [(str "success", JBool true); (str "transaction", JStr (str "TX1"))]) |}.

#[local] Instance toy_log : SettlementLog (list Requirements).
Proof. exists id; [by intros ??????? [= <- _]|by intros ??????? [= <- _]]. Defined.

Definition demo_pay_environ (var : pystr) : option pystr :=
  if bool_decide (var = MNEMONIC_VAR) then Some (str "some words")
  else if bool_decide (var = PAY_TO_VAR) then Some (str " PAYEE ") else None.

Definition demo_pay_run (raw_args : pystr) : list Requirements * result pystr :=
  run (λ _, []) demo_pay_environ (λ _, lift (Raise DNSException)) (λ _, 1000)
    (generate (7 : @ed_secret toy_ed25519)) (generate (8 : @ed_secret toy_ed25519)) raw_args [].


(** Amounts as people write them. *)
Lemma to_atomic_examples :
  to_atomic (str "0.005") = Ok 5000 ∧ to_atomic (str " 1_0.5 ") = Ok 10500000 ∧ to_atomic (str "1e-3") = Ok 1000
  ∧ is_ok (to_atomic (str "-1")) = false ∧ is_ok (to_atomic (str "five")) = false.
Proof. vm_compute. repeat split. Qed.

(** The amount is tested before it is cut to whole units: less than a millionth
    passes as positive and becomes a payment of zero. *)
Lemma tiny_amount_becomes_zero : to_atomic (str "0.0000009") = Ok 0.
Proof. vm_compute. reflexivity. Qed.

(** The comparison and [int()] are outside the [try], so these leave as they
    are, where [settle_usdc] documents [SettlementError]. *)
Lemma special_amounts_escape :
  to_atomic (str "NaN") = Raise InvalidOperation ∧ to_atomic (str "Infinity") = Raise OverflowError
  ∧ to_atomic (str "1e1000000") = Raise DecimalOverflow.
Proof. vm_compute. repeat split. Qed.
