(* ===== verification/FileSystem.v ===== *)
(** * Files

    A file system as the programs of this repository use it: a map from paths to
    nodes with a permission per path; a path is the tuple of its parts, as
    [pathlib] gives it; [..] and links are not resolved.  Reading, writing,
    [mkdir], [iterdir], [shutil.copy2] and [shutil.rmtree], each failing with
    [OSError] where the call does. *)

From S2P Require Import Prelude PyStr.

Abbreviation path := (list pystr).

Inductive node : Type :=
  | File (content : pybytes)
  | Dir.

#[global] Instance node_eq_dec : EqDecision node.
Proof. solve_decision. Defined.

Record Fs := {
  fs_nodes : gmap path node;
  (** Whether the process may create, change or remove this entry. *)
  fs_writable : path → bool;
}.

Definition with_nodes (f : gmap path node → gmap path node) (w : Fs) : Fs :=
  {| fs_nodes := f (fs_nodes w); fs_writable := fs_writable w |}.

(** ** [pathlib] and [shutil] *)

(** [Path(s)]: the anchor and the components. *)
Definition path_of (s : pystr) : path :=
  (if startswith [47] s then [[47]] else []) ++ List.filter (λ c, negb (bool_decide (c = [] ∨ c = [46]))) (split_on 47 s).

(** [str(path)] *)
Definition path_text (p : path) : pystr :=
  match p with
  | [] => [46]
  | [47] :: rest => 47 :: join_with [47] rest
  | p => join_with [47] p
  end.

Definition is_file (w : Fs) (p : path) : bool := match fs_nodes w !! p with Some (File _) => true | _ => false end.
Definition is_dir (w : Fs) (p : path) : bool := bool_decide (fs_nodes w !! p = Some Dir).

(** [p.name] of a path with a name. *)
Definition path_name (p : path) : pystr := List.last p [].

(** The children of [p], from [iterdir]. *)
Definition is_child (p q : path) : bool := bool_decide (q ≠ [] ∧ removelast q = p).
Definition iterdir (w : Fs) (p : path) : list path := List.filter (is_child p) (map fst (map_to_list (fs_nodes w))).

Definition mkdir (p : path) : M Fs unit := λ w,
  match fs_nodes w !! p with
  | Some Dir => (w, Ok tt)
  | Some (File _) => (w, Raise OSError)
  | None => if fs_writable w p then (with_nodes (insert p Dir) w, Ok tt) else (w, Raise OSError)
  end.

Fixpoint for_each {A} (f : A → M Fs unit) (l : list A) : M Fs unit :=
  match l with
  | [] => mret tt
  | a :: l => _ ← f a; for_each f l
  end.

(** [p.mkdir(parents=True, exist_ok=True)]: the missing ancestors first. *)
Definition mkdir_parents (p : path) : M Fs unit := for_each mkdir (map (λ n, take n p) (seq 1 (length p))).

Definition read_bytes (w : Fs) (p : path) : result pybytes :=
  match fs_nodes w !! p with Some (File content) => Ok content | _ => Raise OSError end.

(** Writing a file: in a directory, not over one. *)
Definition write_file (p : path) (content : pybytes) : M Fs unit := λ w,
  if is_dir w (removelast p) && negb (is_dir w p) && fs_writable w p
  then (with_nodes (insert p (File content)) w, Ok tt)
  else (w, Raise OSError).

(** [shutil.copy2]: into a directory when the destination is one; a file is not
    copied onto itself ([SameFileError] is an [OSError]). *)
Definition copy2 (src dst : path) : M Fs unit := λ w,
  let dst := if is_dir w dst then dst ++ [path_name src] else dst in
  if bool_decide (src = dst) then (w, Raise OSError)
  else match fs_nodes w !! src with
       | Some (File content) => write_file dst content w
       | _ => (w, Raise OSError)
       end.

(** [shutil.rmtree(p, ignore_errors=True)]: what can be removed goes; a directory
    goes with everything in it. *)
Definition below (p q : path) : bool := bool_decide (p `prefix_of` q).
Definition removable (w : Fs) (q : path) : bool :=
  forallb (λ r, negb (below q r) || fs_writable w r) (map fst (map_to_list (fs_nodes w))).
Definition rmtree (p : path) (w : Fs) : Fs :=
  with_nodes (filter (λ qn, negb (below p qn.1 && removable w qn.1) = true)) w.

(** ** Making directories *)

Section making.
Context (W : path → bool) (HW : ∀ p, W p = true).

(** No file stands where a directory has to be. *)
Definition clear_way (w : Fs) (p : path) : Prop := ∀ q c, q ≠ [] → q `prefix_of` p → fs_nodes w !! q ≠ Some (File c).

(** The directories down to [p] are there, and nothing else changed. *)
Record made (p : path) (w w' : Fs) : Prop := {
  made_writable : fs_writable w' = fs_writable w;
  made_dirs : ∀ q, q ≠ [] → q `prefix_of` p → fs_nodes w' !! q = Some Dir;
  made_rest : ∀ q, ¬ q `prefix_of` p → fs_nodes w' !! q = fs_nodes w !! q;
}.

Lemma mkdir_makes p w :
  fs_writable w = W → (∀ c, fs_nodes w !! p ≠ Some (File c)) →
  ∃ w', mkdir p w = (w', Ok tt) ∧ fs_writable w' = W ∧ fs_nodes w' = <[p := Dir]> (fs_nodes w).
Proof.
  intros Hw Hf. unfold mkdir. destruct (fs_nodes w !! p) as [[c|]|] eqn:E; [by destruct (Hf c)|exists w|].
  - split_and!; [done|done|]. by rewrite insert_id.
  - rewrite Hw, HW. by eexists.
Qed.

Lemma mkdirs_make ps w :
  fs_writable w = W → (∀ p c, p ∈ ps → fs_nodes w !! p ≠ Some (File c)) →
  ∃ w', for_each mkdir ps w = (w', Ok tt) ∧ fs_writable w' = W
    ∧ ∀ q, fs_nodes w' !! q = if bool_decide (q ∈ ps) then Some Dir else fs_nodes w !! q.
Proof.
  revert w. induction ps as [|p ps IH]; intros w Hw Hf; cbn [for_each]; [by exists w|].
  destruct (mkdir_makes p w Hw) as (w1 & E1 & Hw1 & Hn1); [intros c; apply Hf; set_solver|].
  rewrite (M_bind_run _ _ _ _ _ E1). destruct (IH w1 Hw1) as (w2 & E2 & Hw2 & Hn2).
  { intros q c Hq. rewrite Hn1. destruct (decide (p = q)) as [<-|]; [by rewrite lookup_insert_eq|].
    rewrite lookup_insert_ne by done. apply Hf. set_solver. }
  exists w2. split_and!; [done|done|]. intros q. rewrite Hn2, Hn1. repeat case_bool_decide; try set_solver.
  - assert (p = q) as <- by set_solver. by rewrite lookup_insert_eq.
  - apply lookup_insert_ne. set_solver.
Qed.

Lemma elem_of_prefixes (q p : path) : q ∈ map (λ n, take n p) (seq 1 (length p)) ↔ q ≠ [] ∧ q `prefix_of` p.
Proof.
  rewrite list_elem_of_fmap. split.
  - intros (n & -> & Hn%elem_of_seq). split; [|eexists; symmetry; apply take_drop].
    destruct n as [|n]; [lia|]. destruct p; [cbn in Hn; lia|done].
  - intros [Hne [k ->]]. exists (length q). rewrite take_app_length. split; [done|]. apply elem_of_seq.
    rewrite length_app. destruct q; [done|]. cbn. lia.
Qed.

Lemma mkdir_parents_makes p w :
  fs_writable w = W → clear_way w p → ∃ w', mkdir_parents p w = (w', Ok tt) ∧ made p w w'.
Proof.
  intros Hw Hc. destruct (mkdirs_make (map (λ n, take n p) (seq 1 (length p))) w Hw) as (w' & E & Hw' & Hn).
  { intros q c [Hne Hq]%elem_of_prefixes. by apply Hc. }
  exists w'. split; [done|]. split; [congruence|..]; intros q.
  - intros Hq Hp. rewrite Hn. by rewrite bool_decide_true by by apply elem_of_prefixes.
  - intros Hp. rewrite Hn. rewrite bool_decide_false; [done|]. by intros [_ ?]%elem_of_prefixes.
Qed.
End making.

Lemma clear_way_check w p :
  forallb (λ n, match fs_nodes w !! take n p with Some (File _) => false | _ => true end) (seq 1 (length p)) = true →
  clear_way w p.
Proof.
  intros Hall q c Hq Hp. assert (q ∈ map (λ n, take n p) (seq 1 (length p))) as Hin by by apply elem_of_prefixes.
  apply list_elem_of_fmap in Hin as (n & -> & Hn). apply forallb_Forall in Hall. rewrite Forall_forall in Hall.
  specialize (Hall n Hn). by destruct (fs_nodes w !! take n p) as [[]|].
Qed.

Lemma app_one_inj {A} (p q : list A) a b : p ++ [a] = q ++ [b] → p = q ∧ a = b.
Proof. apply app_inj_tail. Qed.

Lemma snoc_not_prefix {A} (p : list A) a : ¬ p ++ [a] `prefix_of` p.
Proof. intros Hp%prefix_length. rewrite length_app in Hp. cbn in Hp. lia. Qed.

Lemma snoc_prefix_inv {A} (p q : list A) a b : p ++ [a] `prefix_of` q ++ [b] → p ++ [a] `prefix_of` q ∨ (p = q ∧ a = b).
Proof.
  intros [k Hk]. destruct k as [|x k] using rev_ind.
  - right. rewrite app_nil_r in Hk. apply app_inj_tail in Hk as [-> ->]. done.
  - left. rewrite app_assoc in Hk. apply app_inj_tail in Hk as [-> _]. by apply prefix_app_r.
Qed.

(** ** Listing and removing *)

Lemma iterdir_child w p q : q ∈ iterdir w p → ∃ n, q = p ++ [n] ∧ is_Some (fs_nodes w !! q).
Proof.
  unfold iterdir. rewrite list_elem_of_In, filter_In, <-list_elem_of_In. intros [Hin Hc]. unfold is_child in Hc. bool_prop.
  destruct Hc as [Hne Hr]. apply list_elem_of_fmap in Hin as ([q' n] & -> & Hin%elem_of_map_to_list). cbn in *.
  exists (List.last q' []). split; [|by rewrite Hin]. rewrite <-Hr. by apply app_removelast_last.
Qed.

Lemma iterdir_elem w p n : is_Some (fs_nodes w !! (p ++ [n])) → p ++ [n] ∈ iterdir w p.
Proof.
  intros [x Hx]. unfold iterdir. rewrite list_elem_of_In, filter_In, <-list_elem_of_In. split.
  - apply list_elem_of_fmap. exists (p ++ [n], x). split; [done|]. by apply elem_of_map_to_list.
  - unfold is_child. apply bool_decide_eq_true. rewrite removelast_last. split; [by destruct p|done].
Qed.

Lemma for_each_total {A} (f : A → M Fs unit) l w :
  (∀ a w, ∃ w', f a w = (w', Ok tt)) → ∃ w', for_each f l w = (w', Ok tt).
Proof.
  intros Hf. revert w. induction l as [|a l IH]; intros w; cbn [for_each]; [by eexists|].
  destruct (Hf a w) as [w1 E]. rewrite (M_bind_run _ _ _ _ _ E). apply IH.
Qed.

Lemma rmtree_lookup p q w :
  (∀ r, fs_writable w r = true) → fs_nodes (rmtree p w) !! q = if below p q then None else fs_nodes w !! q.
Proof.
  intros Hw. cbn. assert (∀ r, removable w r = true) as Hr.
  { intros r. apply forallb_Forall, Forall_forall. intros x _. by rewrite Hw, orb_true_r. }
  destruct (below p q) eqn:E; apply option_eq; intros n; rewrite map_lookup_filter_Some; cbn; rewrite E, ?Hr; naive_solver.
Qed.
