(* ===== verification/HermesSkills.v ===== *)
(** * Skills of the Hermes plugin — [shadownet_hermes_plugin/_skills.py]

    Where the skill files are found, their registration with the host, and their
    copy into the categorized layout of the data directory, over the files of
    [FileSystem]. *)

From S2P Require Import Prelude PyStr FileSystem.

(** ** The skills *)

Definition SHADOWNET_CATEGORY : pystr := str "shadownet".
Definition DESCRIPTION_HEAD : pystr := str "Identity-anchored agent-to-agent messaging via the Shadownet protocol.".
Definition SHADOWNET_CATEGORY_DESCRIPTION : pystr :=
  DESCRIPTION_HEAD ++ [10]
  ++ str "Open an MCP session to the configured sidecar and use these skills to" ++ [10]
  ++ str "verify identity, reach out to contacts, triage the inbox, and run the" ++ [10]
  ++ str "two-sided coordination flow." ++ [10].

Definition SKILL_NAMES : list pystr :=
  [str "shadownet-setup"; str "shadownet-reach-out"; str "shadownet-inbox"; str "shadownet-coordinate"; str "shadownet-pay"].

Definition SKILL_MD : pystr := str "SKILL.md".

Section skills.
Context (environ : pystr → option pystr).
(** [Path.home()], the directory above the package, and [sys.prefix]. *)
Context (home package_parent prefix : path).

Definition hermes_data_dir (w : Fs) : path :=
  match environ (str "HERMES_DATA_DIR") with
  | None | Some [] => if is_dir w (path_of (str "/opt/data")) then path_of (str "/opt/data") else home ++ [str ".hermes"]
  | Some env => path_of env
  end.

Definition category_root (w : Fs) : path := hermes_data_dir w ++ [str "skills"; SHADOWNET_CATEGORY].

Definition skill_root_candidates (w : Fs) : list path :=
  [category_root w;
   package_parent ++ [str "skills"];
   prefix ++ [str "share"; str "hermes-plugins"; str "shadownet"; str "skills"]].

Definition complete_root (w : Fs) (root : path) : bool := forallb (λ name, is_file w (root ++ [name; SKILL_MD])) SKILL_NAMES.

(** A dictionary from skill names to files, in order. *)
Definition skill_files (root : path) : list (pystr * path) := map (λ name, (name, root ++ [name; SKILL_MD])) SKILL_NAMES.

Definition skill_paths (w : Fs) : list (pystr * path) :=
  skill_files (default (category_root w) (List.find (complete_root w) (skill_root_candidates w))).

(** [register_skills(ctx)]: the calls of [ctx.register_skill], and the count. *)
Definition register_skills (w : Fs) : list (pystr * path) :=
  let resolved := skill_paths w in
  if forallb (λ np, is_file w np.2) resolved then resolved else [].

(** [try: ... except OSError: log] *)
Definition catch_OSError (m : M Fs unit) : M Fs unit := λ w,
  match m w with
  | (w, Raise OSError) => (w, Ok tt)
  | r => r
  end.

Definition category_text : pystr :=
  str "---" ++ [10] ++ str "description: " ++ DESCRIPTION_HEAD ++ [10] ++ str "---" ++ [10; 10]
  ++ str "# Shadownet" ++ [10; 10] ++ SHADOWNET_CATEGORY_DESCRIPTION.

Definition prepare_category (root : path) : M Fs unit :=
  _ ← mkdir_parents root; write_file (root ++ [str "DESCRIPTION.md"]) category_text.

(** The files of a directory. *)
Definition copy_file (dst_dir src_file : path) : M Fs unit := λ w,
  if is_file w src_file then copy2 src_file (dst_dir ++ [path_name src_file]) w else (w, Ok tt).
Definition copy_files (src_dir dst_dir : path) : M Fs unit := λ w,
  for_each (copy_file dst_dir) (iterdir w src_dir) w.

(** One skill: every file beside its [SKILL.md]. *)
Definition materialize_skill (root : path) (skill : pystr * path) : M Fs unit := λ w,
  let '(name, src_skill_md) := skill in
  if negb (is_file w src_skill_md) then (w, Ok tt)
  else
    let dst_dir := root ++ [name] in
    catch_OSError (_ ← mkdir_parents dst_dir; copy_files (removelast src_skill_md) dst_dir) w.

(** The directories of earlier deploys. *)
Definition drop_child (keep : list pystr) (w : Fs) (child : path) : Fs :=
  if is_dir w child && negb (bool_decide (path_name child ∈ keep)) then rmtree child w else w.
Definition drop_stale (root : path) (keep : list pystr) (w : Fs) : Fs := foldl (drop_child keep) w (iterdir w root).

Definition materialize_skills_into_data_dir (paths : list (pystr * path)) : M Fs unit := λ w,
  let root := category_root w in
  match prepare_category root w with
  | (w, Raise OSError) => (w, Ok tt)
  | (w, Raise e) => (w, Raise e)
  | (w, Ok _) =>
      match for_each (materialize_skill root) paths w with
      | (w, Ok _) => (drop_stale root (map fst paths) w, Ok tt)
      | (w, Raise e) => (w, Raise e)
      end
  end.

Definition count_materialized_skills (w : Fs) : Z :=
  let root := category_root w in
  if is_dir w root then py_len (List.filter (λ name, is_file w (root ++ [name; SKILL_MD])) SKILL_NAMES) else 0.
End skills.

(** ** Nothing else is touched *)

(** Whatever lies outside [root] is as it was, except that missing directories
    above it may have been made. *)
Definition only_below (root : path) : relation Fs := λ w w',
  fs_writable w' = fs_writable w
  ∧ ∀ p, ¬ root `prefix_of` p →
      fs_nodes w' !! p = fs_nodes w !! p ∨ (p `prefix_of` root ∧ fs_nodes w !! p = None ∧ fs_nodes w' !! p = Some Dir).

#[global] Instance only_below_preorder root : PreOrder (only_below root).
Proof.
  split; [by intros w; split; [done|left]|]. intros w1 w2 w3 [Hw H12] [Hw' H23]. split; [congruence|].
  intros p Hp. destruct (H12 p Hp) as [E|(? & ? & E)], (H23 p Hp) as [E'|(? & E1 & ?)]; rewrite ?E, ?E' in *; auto; congruence.
Qed.

Lemma insert_below root p n w : root `prefix_of` p → only_below root w (with_nodes (insert p n) w).
Proof. intros Hp. split; [done|]. intros q Hq. left. apply lookup_insert_ne. by intros <-. Qed.

Lemma mkdir_below root p : root `prefix_of` p ∨ p `prefix_of` root → keeps (only_below root) (mkdir p).
Proof.
  intros Hp w w' r. unfold mkdir. destruct (fs_nodes w !! p) as [[]|] eqn:E; [by intros [= <- <-]..|].
  destruct (fs_writable w p); intros [= <- <-]; [|done]. destruct (decide (root `prefix_of` p)); [by apply insert_below|].
  destruct Hp as [|Hp]; [done|]. split; [done|]. intros q Hq. cbn. destruct (decide (p = q)) as [<-|].
  - right. by rewrite lookup_insert_eq.
  - left. by apply lookup_insert_ne.
Qed.

Lemma for_each_keeps {A} R `{!PreOrder R} (f : A → M Fs unit) l :
  (∀ a, a ∈ l → keeps R (f a)) → keeps R (for_each f l).
Proof.
  induction l as [|a l IH]; intros Hf; cbn [for_each]; [apply keeps_ret, _|].
  apply keeps_bind; [done|apply Hf; set_solver|]. intros _. apply IH. intros b Hb. apply Hf. set_solver.
Qed.

Lemma mkdir_parents_below root p :
  root `prefix_of` p → keeps (only_below root) (mkdir_parents p).
Proof.
  intros Hp. apply for_each_keeps; [apply _|]. intros q (n & -> & _)%list_elem_of_fmap. apply mkdir_below.
  destruct (prefix_weak_total root (take n p) p) as [|]; auto. eexists. symmetry. apply take_drop.
Qed.

Lemma write_file_below root p c : root `prefix_of` p → keeps (only_below root) (write_file p c).
Proof. intros Hp w w' r. unfold write_file. case_match; intros [= <- <-]; [by apply insert_below|done]. Qed.

Lemma copy2_below root src dst : root `prefix_of` dst → keeps (only_below root) (copy2 src dst).
Proof.
  intros Hp w w' r. unfold copy2.
  assert (root `prefix_of` (if is_dir w dst then dst ++ [path_name src] else dst)) as Hd
    by (case_match; [by apply prefix_app_r|done]).
  case_bool_decide; [by intros [= <- <-]|]. destruct (fs_nodes w !! src) as [[c|]|]; try by intros [= <- <-].
  by apply write_file_below.
Qed.

Lemma catch_keeps R m : keeps R m → keeps R (catch_OSError m).
Proof.
  intros Hm w w' r. unfold catch_OSError. destruct (m w) as [w1 r1] eqn:E. apply Hm in E.
  destruct r1 as [?|[]]; intros [= <- <-]; done.
Qed.

Lemma materialize_skill_below root skill : keeps (only_below root) (materialize_skill root skill).
Proof.
  intros w w' r. unfold materialize_skill. destruct skill as [name src]. case_match; [by intros [= <- <-]|].
  assert (root `prefix_of` root ++ [name]) as Hr by by apply prefix_app_r.
  apply catch_keeps, keeps_bind; [apply _|by apply mkdir_parents_below|]. intros _ w1 w2 r2. unfold copy_files.
  apply for_each_keeps; [apply _|]. intros q _ w3 w4 r4. unfold copy_file. case_match; [|by intros [= <- <-]].
  apply copy2_below. by apply prefix_app_r.
Qed.

Lemma rmtree_below root p w : root `prefix_of` p → only_below root w (rmtree p w).
Proof.
  intros Hp. split; [done|]. intros q Hq. left. cbn. apply option_eq. intros n. rewrite map_lookup_filter_Some. cbn.
  unfold below at 1. rewrite bool_decide_false; [naive_solver|]. intros Hpq. apply Hq. by transitivity p.
Qed.

Lemma drop_stale_below root keep w : only_below root w (drop_stale root keep w).
Proof.
  unfold drop_stale. assert (Forall (λ c, root `prefix_of` c) (iterdir w root)) as HF.
  { apply Forall_forall. intros c (n & -> & _)%iterdir_child. by apply prefix_app_r. }
  revert HF. generalize (iterdir w root) as l. intros l. revert w.
  induction l as [|c l IH]; intros w HF; cbn; [done|]. inversion HF; subst.
  etrans; [|by apply IH]. unfold drop_child. case_match; [by apply rmtree_below|done].
Qed.

Lemma materialize_only_below environ home paths w w' r :
  materialize_skills_into_data_dir environ home paths w = (w', r) → only_below (category_root environ home w) w w'.
Proof.
  unfold materialize_skills_into_data_dir. set (root := category_root environ home w).
  assert (keeps (only_below root) (prepare_category root)) as Hp.
  { apply keeps_bind; [apply _|by apply mkdir_parents_below|]. intros _. apply write_file_below. by apply prefix_app_r. }
  destruct (prepare_category root w) as [w1 [[]|e]] eqn:E; apply Hp in E; [|destruct e; by intros [= <- <-]].
  destruct (for_each _ paths w1) as [w2 r2] eqn:E2.
  apply (for_each_keeps (only_below root)) in E2; [|intros a _; apply materialize_skill_below].
  destruct r2 as [[]|e]; intros [= <- <-]; [|by etrans]. etrans; [exact E|]. etrans; [exact E2|]. apply drop_stale_below.
Qed.

(** Whatever goes wrong with the files is logged: the operation never raises. *)
Definition only_OSError {A} (m : M Fs A) : Prop := ∀ w w' e, m w = (w', Raise e) → e = OSError.

Lemma OSError_bind {A B} (m : M Fs A) (k : A → M Fs B) :
  only_OSError m → (∀ a, only_OSError (k a)) → only_OSError (m ≫= k).
Proof.
  intros Hm Hk w w' e. unfold mbind, M_bind. destruct (m w) as [w1 [a|e1]] eqn:E; [apply Hk|].
  intros [= <- <-]. by eapply Hm.
Qed.

Lemma OSError_for_each {A} (f : A → M Fs unit) l : (∀ a, only_OSError (f a)) → only_OSError (for_each f l).
Proof.
  intros Hf. induction l as [|a l IH]; cbn [for_each]; [by intros w w' e|]. by apply OSError_bind.
Qed.

Lemma OSError_write_file p c : only_OSError (write_file p c).
Proof. intros w w' e. unfold write_file. case_match; by intros [= <- <-]. Qed.

Lemma OSError_mkdir_parents p : only_OSError (mkdir_parents p).
Proof.
  apply OSError_for_each. intros q w w' e. unfold mkdir. repeat case_match; by intros [= <- <-].
Qed.

Lemma OSError_copy_files src dst : only_OSError (copy_files src dst).
Proof.
  intros w w' e. apply OSError_for_each. intros q w1 w1' e1. unfold copy_file, copy2. repeat (case_match; try by intros [= <- <-]);
    apply OSError_write_file.
Qed.

Lemma materialize_skill_total root skill w : ∃ w', materialize_skill root skill w = (w', Ok tt).
Proof.
  unfold materialize_skill. destruct skill as [name src]. case_match; [by eexists|]. unfold catch_OSError.
  match goal with |- context [match ?m w with _ => _ end] => assert (only_OSError m) as Hm; [|destruct (m w) as [w1 [[]|e]] eqn:E] end.
  - apply OSError_bind; [apply OSError_mkdir_parents|]. intros _. apply OSError_copy_files.
  - by eexists.
  - rewrite (Hm _ _ _ E). by eexists.
Qed.

Lemma materialize_total environ home paths w : ∃ w', materialize_skills_into_data_dir environ home paths w = (w', Ok tt).
Proof.
  unfold materialize_skills_into_data_dir. set (root := category_root environ home w).
  assert (only_OSError (prepare_category root)) as Hp by (apply OSError_bind; [apply OSError_mkdir_parents|]; intros _; apply OSError_write_file).
  destruct (prepare_category root w) as [w1 [[]|e]] eqn:E; [|rewrite (Hp _ _ _ E); by eexists].
  destruct (for_each_total (materialize_skill root) paths w1 (materialize_skill_total root)) as [w2 ->]. by eexists.
Qed.

(** ** A complete source is installed completely *)

Section install.
Context (W : path → bool) (HW : ∀ p, W p = true).

(** [w'] has the files of [src] in [dst], and the rest of [w] below other paths. *)
Record installed (src dst : path) (w w' : Fs) : Prop := {
  inst_writable : fs_writable w' = fs_writable w;
  inst_files : ∀ n c, fs_nodes w !! (src ++ [n]) = Some (File c) → fs_nodes w' !! (dst ++ [n]) = Some (File c);
  inst_dirs : ∀ q, q ≠ [] → q `prefix_of` dst → fs_nodes w' !! q = Some Dir;
  inst_rest : ∀ q, ¬ q `prefix_of` dst → (∀ n, q ≠ dst ++ [n]) → fs_nodes w' !! q = fs_nodes w !! q;
}.

Section copying.
Context (src dst : path) (Hdst : dst ≠ []) (Hapart : src ≠ dst) (Hsrc : ∀ n, ¬ src ++ [n] `prefix_of` dst).

Lemma copy_step w n c :
  fs_writable w = W → fs_nodes w !! dst = Some Dir → fs_nodes w !! (src ++ [n]) = Some (File c) →
  fs_nodes w !! (dst ++ [n]) ≠ Some Dir →
  copy2 (src ++ [n]) (dst ++ [n]) w = (with_nodes (insert (dst ++ [n]) (File c)) w, Ok tt).
Proof.
  intros Hw Hd Hs Hf.
  assert (is_dir w (dst ++ [n]) = false) as Hnd by by apply bool_decide_eq_false.
  assert (is_dir w dst = true) as Hid by by apply bool_decide_eq_true.
  unfold copy2. rewrite Hnd. cbv zeta. rewrite bool_decide_false by (by intros [? _]%app_one_inj). rewrite Hs.
  unfold write_file. by rewrite removelast_last, Hid, Hnd, Hw, HW.
Qed.

Lemma copy_loop ns w :
  fs_writable w = W → fs_nodes w !! dst = Some Dir →
  (∀ n c, fs_nodes w !! (src ++ [n]) = Some (File c) → fs_nodes w !! (dst ++ [n]) ≠ Some Dir) →
  ∃ w', for_each (copy_file dst) (map (λ n, src ++ [n]) ns) w = (w', Ok tt)
    ∧ fs_writable w' = W
    ∧ ∀ q, fs_nodes w' !! q
        = match List.find (λ n, bool_decide (q = dst ++ [n]) && is_file w (src ++ [n])) ns with
          | Some n => fs_nodes w !! (src ++ [n])
          | None => fs_nodes w !! q
          end.
Proof.
  revert w. induction ns as [|n ns IH]; intros w Hw Hd Hok; cbn [map for_each]; [by exists w|].
  destruct (fs_nodes w !! (src ++ [n])) as [[c|]|] eqn:E.
  - assert (∀ m, dst ++ [n] ≠ src ++ [m]) as Hne by (by intros m [? _]%app_one_inj).
    assert (copy_file dst (src ++ [n]) w = (with_nodes (insert (dst ++ [n]) (File c)) w, Ok tt)) as Hcopy.
    { unfold copy_file, is_file, path_name. rewrite E, last_last. apply copy_step; eauto. }
    rewrite (M_bind_run _ _ _ _ _ Hcopy).
    destruct (IH (with_nodes (insert (dst ++ [n]) (File c)) w)) as (w' & E' & Hw' & Hn'); [done|..]; cbn [with_nodes fs_nodes].
    + rewrite lookup_insert_ne; [done|]. intros Hx. apply (f_equal length) in Hx. rewrite length_app in Hx. cbn in Hx. lia.
    + intros m d. rewrite lookup_insert_ne by done. intros Hm. destruct (decide (m = n)) as [->|].
      * by rewrite lookup_insert_eq.
      * rewrite lookup_insert_ne by (by intros [_ ?]%app_one_inj). by eapply Hok.
    + exists w'. split_and!; [done|done|]. intros q. rewrite Hn'. cbn [List.find with_nodes fs_nodes].
      assert (∀ m, is_file (with_nodes (insert (dst ++ [n]) (File c)) w) (src ++ [m]) = is_file w (src ++ [m])) as Hif.
      { intros m. unfold is_file. cbn. by rewrite lookup_insert_ne. }
      unfold is_file at 2. rewrite E. destruct (decide (q = dst ++ [n])) as [->|Hq].
      * rewrite (bool_decide_true (_ = dst ++ [n])) by done. cbn [andb]. rewrite E. case_match eqn:Hfind; [|by rewrite lookup_insert_eq].
        apply find_some in Hfind as [_ Hfind]. bool_prop. apply app_one_inj in H as [_ <-].
        by rewrite lookup_insert_ne.
      * rewrite (bool_decide_false (q = dst ++ [n])) by done. cbn [andb].
        assert (List.find (λ m, bool_decide (q = dst ++ [m]) && is_file (with_nodes (insert (dst ++ [n]) (File c)) w) (src ++ [m])) ns
              = List.find (λ m, bool_decide (q = dst ++ [m]) && is_file w (src ++ [m])) ns) as ->.
        { clear -Hif. induction ns as [|m ns IH]; cbn; [done|]. by rewrite Hif, IH. }
        case_match; rewrite lookup_insert_ne by done; done.
  - assert (copy_file dst (src ++ [n]) w = (w, Ok tt)) as Hskip by (unfold copy_file, is_file; by rewrite E).
    rewrite (M_bind_run _ _ _ _ _ Hskip). destruct (IH w Hw Hd Hok) as (w' & E' & Hw' & Hn'). exists w'.
    split_and!; [done|done|]. intros q. rewrite Hn'. cbn [List.find]. unfold is_file at 2. by rewrite E, andb_false_r.
  - assert (copy_file dst (src ++ [n]) w = (w, Ok tt)) as Hskip by (unfold copy_file, is_file; by rewrite E).
    rewrite (M_bind_run _ _ _ _ _ Hskip). destruct (IH w Hw Hd Hok) as (w' & E' & Hw' & Hn'). exists w'.
    split_and!; [done|done|]. intros q. rewrite Hn'. cbn [List.find]. unfold is_file at 2. by rewrite E, andb_false_r.
Qed.

Lemma iterdir_names w : iterdir w src = map (λ n, src ++ [n]) (map path_name (iterdir w src)).
Proof.
  rewrite map_map. rewrite <-(map_id (iterdir w src)) at 1. apply map_ext_in. intros q Hq%list_elem_of_In.
  apply iterdir_child in Hq as (n & -> & _). unfold path_name. by rewrite last_last.
Qed.

Lemma copy_files_installs w :
  fs_writable w = W → (∀ q, q ≠ [] → q `prefix_of` dst → fs_nodes w !! q = Some Dir) →
  (∀ n c, fs_nodes w !! (src ++ [n]) = Some (File c) → fs_nodes w !! (dst ++ [n]) ≠ Some Dir) →
  ∃ w', copy_files src dst w = (w', Ok tt) ∧ installed src dst w w'.
Proof.
  intros Hw Hd Hok. unfold copy_files. set (ns := map path_name (iterdir w src)).
  destruct (copy_loop ns w Hw (Hd dst Hdst (reflexivity _)) Hok) as (w' & E & Hw' & Hn). exists w'.
  split; [rewrite iterdir_names; exact E|]. split; [congruence|..].
  - intros n c Hc. rewrite Hn. case_match eqn:Hf.
    + apply find_some in Hf as [_ Hf]. bool_prop. by apply app_one_inj in H as [_ <-].
    + exfalso. assert (src ++ [n] ∈ iterdir w src) as Hin by by apply iterdir_elem.
      eapply find_none in Hf; [|apply list_elem_of_In, list_elem_of_fmap; exists (src ++ [n]); split; [reflexivity|exact Hin]].
      unfold path_name, is_file in Hf. rewrite last_last, Hc, bool_decide_true in Hf by done. done.
  - intros q Hq Hp. rewrite Hn. case_match eqn:Hf; [|by apply Hd]. apply find_some in Hf as [_ Hf]. bool_prop. subst q.
    by apply snoc_not_prefix in Hp.
  - intros q _ Hq. rewrite Hn. case_match eqn:Hf; [|done]. apply find_some in Hf as [_ Hf]. bool_prop. subst q. naive_solver.
Qed.
End copying.

Lemma materialize_skill_installs root name src w :
  fs_writable w = W → src ≠ root ++ [name] → (∀ n, ¬ src ++ [n] `prefix_of` root ++ [name]) →
  is_file w (src ++ [SKILL_MD]) = true → clear_way w (root ++ [name]) →
  (∀ n c, fs_nodes w !! (src ++ [n]) = Some (File c) → fs_nodes w !! (root ++ [name; n]) ≠ Some Dir) →
  ∃ w', materialize_skill root (name, src ++ [SKILL_MD]) w = (w', Ok tt) ∧ installed src (root ++ [name]) w w'.
Proof.
  intros Hw Hne Hapart Hskill Hclear Hok. unfold materialize_skill. rewrite Hskill, removelast_last. cbn [negb].
  destruct (mkdir_parents_makes W HW (root ++ [name]) w Hw Hclear) as (w1 & E1 & [Hw1 Hd1 Hr1]).
  assert (∀ n, fs_nodes w1 !! (src ++ [n]) = fs_nodes w !! (src ++ [n])) as Hsrc by (intros n; by apply Hr1).
  assert (∀ n, fs_nodes w1 !! ((root ++ [name]) ++ [n]) = fs_nodes w !! (root ++ [name; n])) as Hdst.
  { intros n. rewrite Hr1 by apply snoc_not_prefix. by rewrite <-app_assoc. }
  destruct (copy_files_installs src (root ++ [name])) with (w := w1) as (w2 & E2 & [Hw2 Hf2 Hd2 Hr2]).
  { by destruct root. } { done. } { congruence. } { done. }
  { intros n c. rewrite Hsrc, Hdst. apply Hok. }
  exists w2. unfold catch_OSError. rewrite (M_bind_run _ _ _ _ _ E1), E2. split; [done|]. split.
  - congruence.
  - intros n c Hc. apply Hf2. by rewrite Hsrc.
  - exact Hd2.
  - intros q Hq Hq'. rewrite Hr2 by done. by apply Hr1.
Qed.

Section skills.
Context (src root : path) (Hsr : ¬ src `prefix_of` root) (Hrs : ¬ root `prefix_of` src).

(** What the source holds and the way to the destination, for the skills [ns]. *)
Record ready (ns : list pystr) (w : Fs) : Prop := {
  rd_writable : fs_writable w = W;
  rd_skill : ∀ name, name ∈ ns → is_file w (src ++ [name; SKILL_MD]) = true;
  rd_clear : ∀ name, name ∈ ns → clear_way w (root ++ [name]);
  rd_dest : ∀ name n c, name ∈ ns → fs_nodes w !! (src ++ [name; n]) = Some (File c) → fs_nodes w !! (root ++ [name; n]) ≠ Some Dir;
}.

(** The skills [ns] are in place. *)
Record placed (ns : list pystr) (w w' : Fs) : Prop := {
  pl_writable : fs_writable w' = fs_writable w;
  pl_files : ∀ name n c, name ∈ ns → fs_nodes w !! (src ++ [name; n]) = Some (File c) →
    fs_nodes w' !! (root ++ [name; n]) = Some (File c);
  pl_dirs : ∀ q, q ≠ [] → q `prefix_of` root → fs_nodes w !! q = Some Dir → fs_nodes w' !! q = Some Dir;
  pl_rest : ∀ q, ¬ q `prefix_of` root → (∀ name, name ∈ ns → ¬ root ++ [name] `prefix_of` q) → fs_nodes w' !! q = fs_nodes w !! q;
}.

Lemma src_not_above name n q : ¬ (src ++ [name]) ++ [n] `prefix_of` root ++ [q].
Proof.
  intros Hp. apply Hsr. destruct (prefix_weak_total src root (root ++ [q])) as [|Hr]; [|by apply prefix_app_r|done|].
  - etrans; [|exact Hp]. rewrite <-app_assoc. by apply prefix_app_r.
  - by destruct Hrs.
Qed.

Lemma src_apart name n p : root `prefix_of` p → src ++ [name; n] ≠ p.
Proof.
  intros Hp <-. destruct (prefix_weak_total root src (src ++ [name; n])) as [|]; [done|by apply prefix_app_r|done|done].
Qed.

Lemma installed_ready name ns w w' :
  name ∉ ns → installed (src ++ [name]) (root ++ [name]) w w' → ready (name :: ns) w → ready ns w'.
Proof.
  intros Hn [Hw Hf Hd Hr] [Rw Rs Rc Rd].
  assert (∀ nm x, fs_nodes w' !! (src ++ [nm; x]) = fs_nodes w !! (src ++ [nm; x])) as Hsrc.
  { intros nm x. apply Hr; [|intros y; apply src_apart; rewrite <-app_assoc; by apply prefix_app_r].
    pose proof (src_not_above nm x name) as Hx. by rewrite <-app_assoc in Hx. }
  assert (∀ nm k, nm ∈ ns → fs_nodes w' !! (root ++ nm :: k) = fs_nodes w !! (root ++ nm :: k)) as Hdst.
  { intros nm k Hin. apply Hr.
    - intros Hp%prefix_app_inv. apply prefix_cons_inv_1 in Hp. by subst.
    - intros x. rewrite <-app_assoc. intros Heq%app_inv_head. injection Heq as -> _. done. }
  split.
  - congruence.
  - intros nm Hin. unfold is_file. rewrite Hsrc. apply Rs. set_solver.
  - intros nm Hin q c Hq Hp. destruct (decide (q `prefix_of` root)) as [Hqr|Hqr].
    + rewrite Hd; [done|done|]. by apply prefix_app_r.
    + assert (q = root ++ [nm]) as ->.
      { destruct q as [|x q _] using rev_ind; [done|]. apply snoc_prefix_inv in Hp as [|[-> ->]]; done. }
      rewrite Hdst by done. apply (Rc nm); [set_solver|by destruct root|done].
  - intros nm n c Hin. rewrite Hsrc, Hdst by done. apply Rd. set_solver.
Qed.

Lemma skills_place ns w :
  NoDup ns → ready ns w →
  ∃ w', for_each (materialize_skill root) (map (λ name, (name, src ++ [name; SKILL_MD])) ns) w = (w', Ok tt) ∧ placed ns w w'.
Proof.
  revert w. induction ns as [|name ns IH]; intros w Hnd Hready; cbn [map for_each].
  - exists w. split; [done|]. split; set_solver.
  - inversion Hnd as [|?? Hn Hns]; subst.
    assert (∀ k, src ++ name :: k = (src ++ [name]) ++ k) as Hassoc by (intros k; by rewrite <-app_assoc).
    destruct (materialize_skill_installs root name (src ++ [name]) w) as (w1 & E1 & Hi).
    { apply Hready. } { intros [-> _]%app_one_inj. by apply Hrs. } { intros n. apply src_not_above. }
    { rewrite <-Hassoc. apply (rd_skill _ _ Hready). set_solver. } { apply (rd_clear _ _ Hready). set_solver. }
    { intros n c. rewrite <-Hassoc. apply (rd_dest _ _ Hready). set_solver. }
    rewrite <-Hassoc in E1. rewrite (M_bind_run _ _ _ _ _ E1).
    destruct (IH w1 Hns (installed_ready _ _ _ _ Hn Hi Hready)) as (w2 & E2 & [Pw Pf Pd Pr]).
    destruct Hi as [Hw Hf Hd Hr]. exists w2. split; [done|]. split.
    + congruence.
    + intros nm n c [->|Hin]%elem_of_cons Hc.
      * rewrite Pr; [|intros Hp; apply prefix_length in Hp; rewrite length_app in Hp; cbn in Hp; lia|].
        { replace (root ++ [name; n]) with ((root ++ [name]) ++ [n]) by (by rewrite <-app_assoc). apply Hf. by rewrite <-app_assoc. }
        intros nm Hin Hp%prefix_app_inv. apply prefix_cons_inv_1 in Hp. by subst.
      * apply Pf; [done|]. rewrite Hr; [done|..].
        { pose proof (src_not_above nm n name) as Hx. by rewrite <-app_assoc in Hx. }
        intros x. apply src_apart. rewrite <-app_assoc. by apply prefix_app_r.
    + intros q Hq Hp _. apply Pd; [done|done|]. apply Hd; [done|]. by apply prefix_app_r.
    + intros q Hq Hall. rewrite Pr; [|done|intros nm Hin; apply Hall; set_solver]. apply Hr.
      * destruct q as [|x q _] using rev_ind; [intros _; by apply Hq, prefix_nil|].
        intros [|[-> ->]]%snoc_prefix_inv; [done|]. apply (Hall name); [set_solver|done].
      * intros n ->. apply (Hall name); [set_solver|]. by apply prefix_app_r.
Qed.

(** After the category directory was prepared the skills can be placed. *)
Lemma category_prepared ns w :
  root ≠ [] → str "DESCRIPTION.md" ∉ ns → clear_way w root → fs_nodes w !! (root ++ [str "DESCRIPTION.md"]) ≠ Some Dir →
  ready ns w →
  ∃ w', prepare_category root w = (w', Ok tt) ∧ ready ns w'
    ∧ ∀ nm n, fs_nodes w' !! (src ++ [nm; n]) = fs_nodes w !! (src ++ [nm; n]).
Proof.
  intros Hroot Hnd Hclear Hdesc [Rw Rs Rc Rd].
  destruct (mkdir_parents_makes W HW root w Rw Hclear) as (w1 & E1 & [Hw1 Hd1 Hr1]).
  set (w2 := with_nodes (insert (root ++ [str "DESCRIPTION.md"]) (File category_text)) w1). exists w2.
  assert (∀ q, ¬ q `prefix_of` root → q ≠ root ++ [str "DESCRIPTION.md"] → fs_nodes w2 !! q = fs_nodes w !! q) as H2.
  { intros q Hq Hne. cbn. rewrite lookup_insert_ne by done. by apply Hr1. }
  assert (∀ nm n, fs_nodes w2 !! (src ++ [nm; n]) = fs_nodes w !! (src ++ [nm; n])) as Hsrc2.
  { intros nm n. apply H2; [|apply src_apart; by apply prefix_app_r].
    intros Hp. apply Hsr. etrans; [|exact Hp]. by apply prefix_app_r. }
  assert (∀ nm k, nm ∈ ns → fs_nodes w2 !! (root ++ nm :: k) = fs_nodes w !! (root ++ nm :: k)) as Hdst2.
  { intros nm k Hin. apply H2.
    - intros Hp%prefix_length. rewrite length_app in Hp. cbn in Hp. lia.
    - intros Heq%app_inv_head. injection Heq as -> _. done. }
  split_and!; [| |exact Hsrc2].
  - unfold prepare_category. rewrite (M_bind_run _ _ _ _ _ E1). unfold write_file.
    assert (is_dir w1 root = true) as Hdir by (apply bool_decide_eq_true; by apply Hd1).
    assert (is_dir w1 (root ++ [str "DESCRIPTION.md"]) = false) as Hfile
      by (apply bool_decide_eq_false; rewrite Hr1; [done|apply snoc_not_prefix]).
    by rewrite removelast_last, Hdir, Hfile, Hw1, Rw, HW.
  - split.
    + cbn. congruence.
    + intros name Hin. unfold is_file. rewrite Hsrc2. by apply Rs.
    + intros name Hin q c Hq Hp. destruct (decide (q `prefix_of` root)) as [Hqr|Hqr].
      * cbn. rewrite lookup_insert_ne by (intros <-; by apply snoc_not_prefix in Hqr). by rewrite Hd1.
      * assert (q = root ++ [name]) as ->.
        { destruct q as [|x q _] using rev_ind; [done|]. apply snoc_prefix_inv in Hp as [|[-> ->]]; done. }
        rewrite Hdst2 by done. by apply (Rc name).
    + intros name n c Hin. rewrite Hsrc2, Hdst2 by done. by apply Rd.
Qed.
End skills.
End install.

(** ** Stale directories *)

Lemma drop_loop (root : path) (keep : list pystr) (cs : list path) (w : Fs) :
  (∀ r, fs_writable w r = true) → Forall (λ c, ∃ n, c = root ++ [n]) cs →
  let w' := foldl (drop_child keep) w cs in
  fs_writable w' = fs_writable w
  ∧ (∀ q, (∀ n, n ∉ keep → ¬ root ++ [n] `prefix_of` q) → fs_nodes w' !! q = fs_nodes w !! q)
  ∧ (∀ q, fs_nodes w' !! q = fs_nodes w !! q ∨ fs_nodes w' !! q = None)
  ∧ (∀ n, n ∉ keep → root ++ [n] ∈ cs → fs_nodes w' !! (root ++ [n]) ≠ Some Dir).
Proof.
  intros Hw Hcs. revert w Hw. induction Hcs as [|c cs [m ->] _ IH]; intros w Hw; cbn [foldl].
  - split_and!; try done; auto. set_solver.
  - assert (drop_child keep w (root ++ [m])
      = if is_dir w (root ++ [m]) && negb (bool_decide (m ∈ keep)) then rmtree (root ++ [m]) w else w) as ->
      by (unfold drop_child, path_name; by rewrite last_last).
    set (w1 := if is_dir w (root ++ [m]) && negb (bool_decide (m ∈ keep)) then rmtree (root ++ [m]) w else w).
    assert (fs_writable w1 = fs_writable w) as Hw1 by (unfold w1; by case_match).
    destruct (IH w1) as (Hk & Hkeep & Hshrink & Hgone); [by rewrite Hw1|].
    assert (∀ q, fs_nodes w1 !! q = fs_nodes w !! q ∨ (fs_nodes w1 !! q = None ∧ (m ∉ keep) ∧ (root ++ [m]) `prefix_of` q)) as H1.
    { intros q. unfold w1. case_match eqn:Hc; [|by left]. rewrite !rmtree_lookup by done. unfold below.
      bool_prop. case_bool_decide; [right; by split_and!|by left]. }
    split_and!.
    + congruence.
    + intros q Hq. rewrite Hkeep by done. destruct (H1 q) as [|(_ & Hm & Hp)]; [done|]. by destruct (Hq m).
    + intros q. destruct (Hshrink q) as [E|]; [rewrite E|by right]. destruct (H1 q) as [|[? _]]; auto.
    + intros n Hn [Heq|Hin]%elem_of_cons; [|by apply Hgone]. apply app_one_inj in Heq as [_ ->].
      destruct (Hshrink (root ++ [m])) as [E|E]; rewrite E; [|done]. unfold w1. destruct (is_dir w (root ++ [m])) eqn:Hd.
      * rewrite bool_decide_false by done. cbn [andb negb]. rewrite rmtree_lookup by done. unfold below.
        by rewrite bool_decide_true.
      * cbn [andb]. unfold is_dir in Hd. by bool_prop.
Qed.

(** ** The whole operation *)

Lemma skill_names_nodup : NoDup SKILL_NAMES.
Proof. apply (bool_decide_unpack _). vm_compute. exact I. Qed.

(** C39: materializing the skills: from a complete source outside the category
    directory, on a writable file system with nothing of the wrong kind in the
    way, every file of every skill arrives with its contents, directories of
    earlier deploys are gone, and nothing outside the category directory changes
    but missing directories above it. *)
Theorem skills_materialized environ home (w : Fs) (src : path) :
  let root := category_root environ home w in
  ¬ src `prefix_of` root → ¬ root `prefix_of` src →
  (∀ p, fs_writable w p = true) → complete_root w src = true →
  (∀ name, name ∈ SKILL_NAMES → clear_way w (root ++ [name])) →
  (∀ name n c, name ∈ SKILL_NAMES → fs_nodes w !! (src ++ [name; n]) = Some (File c) → fs_nodes w !! (root ++ [name; n]) ≠ Some Dir) →
  fs_nodes w !! (root ++ [str "DESCRIPTION.md"]) ≠ Some Dir →
  ∃ w', materialize_skills_into_data_dir environ home (skill_files src) w = (w', Ok tt)
    ∧ (∀ name n c, name ∈ SKILL_NAMES → fs_nodes w !! (src ++ [name; n]) = Some (File c) →
         fs_nodes w' !! (root ++ [name; n]) = Some (File c))
    ∧ complete_root w' root = true
    ∧ (∀ n, n ∉ SKILL_NAMES → fs_nodes w' !! (root ++ [n]) ≠ Some Dir)
    ∧ only_below root w w'.
Proof.
  intros root Hsr Hrs Hwr Hsrc Hclear Hdest Hdesc. apply forallb_Forall in Hsrc. rewrite Forall_forall in Hsrc.
  assert (root ≠ []) as Hroot by (unfold root, category_root; by destruct (hermes_data_dir environ home w)).
  destruct (category_prepared (fs_writable w) Hwr src root Hsr Hrs SKILL_NAMES w) as (w2 & E2 & Hready & Hsrc2); [done| | |done|done|].
  { apply (bool_decide_unpack _). vm_compute. exact I. }
  { intros q c Hq Hp. apply (Hclear (str "shadownet-setup")); [set_solver|done|by apply prefix_app_r]. }
  destruct (skills_place (fs_writable w) Hwr src root Hsr Hrs SKILL_NAMES w2 skill_names_nodup Hready) as (w3 & E3 & [Pw Pf Pd Pr]).
  set (w' := drop_stale root SKILL_NAMES w3).
  destruct (drop_loop root SKILL_NAMES (iterdir w3 root) w3) as (Dw & Dk & Ds & Dg).
  { intros r. rewrite Pw, (rd_writable _ _ _ _ _ Hready). apply Hwr. }
  { apply Forall_forall. intros c (n & -> & _)%iterdir_child. by eexists. }
  fold (drop_stale root SKILL_NAMES w3) w' in Dw, Dk, Ds, Dg.
  assert (materialize_skills_into_data_dir environ home (skill_files src) w = (w', Ok tt)) as Erun.
  { unfold materialize_skills_into_data_dir. fold root. rewrite E2. unfold skill_files. by rewrite E3, map_map, map_id. }
  assert (∀ name n c, name ∈ SKILL_NAMES → fs_nodes w !! (src ++ [name; n]) = Some (File c) →
            fs_nodes w' !! (root ++ [name; n]) = Some (File c)) as Hfiles.
  { intros name n c Hin Hc. rewrite Dk; [apply Pf; [done|by rewrite Hsrc2]|].
    intros x Hx Hp%prefix_app_inv. apply prefix_cons_inv_1 in Hp. by subst. }
  exists w'. split_and!; [done|done| | |by eapply materialize_only_below].
  - apply forallb_Forall, Forall_forall. intros name Hin. specialize (Hsrc name Hin). unfold is_file in *.
    destruct (fs_nodes w !! (src ++ [name; SKILL_MD])) as [[c|]|] eqn:Ec; try done. by rewrite (Hfiles name SKILL_MD c).
  - intros n Hn. destruct (decide (root ++ [n] ∈ iterdir w3 root)) as [|Hni]; [by apply Dg|].
    destruct (Ds (root ++ [n])) as [E|E]; rewrite E; [|done]. intros Hx. apply Hni, iterdir_elem. by rewrite Hx.
Qed.

(** The paths that are registered: all of the first complete root, if there is
    one. *)
Lemma skill_paths_complete environ home package_parent prefix w root :
  root ∈ skill_root_candidates environ home package_parent prefix w → complete_root w root = true →
  register_skills environ home package_parent prefix w = skill_paths environ home package_parent prefix w
  ∧ py_len (register_skills environ home package_parent prefix w) = 5.
Proof.
  intros Hin Hc. unfold register_skills, skill_paths.
  destruct (List.find _ _) as [best|] eqn:Hf.
  - apply find_some in Hf as [_ Hf]. cbn [default from_option id].
    assert (forallb (λ np, is_file w np.2) (skill_files best) = true) as ->; [|done].
    unfold complete_root, skill_files in *. apply forallb_Forall. apply Forall_map. by apply forallb_Forall in Hf.
  - exfalso. eapply find_none in Hf; [|by apply list_elem_of_In]. congruence.
Qed.

(** ** Examples *)

Definition demo_home : path := [[47]; str "home"; str "u"].
Definition demo_src : path := [[47]; str "usr"; str "skills"].
Definition demo_root : path := demo_home ++ [str ".hermes"; str "skills"; str "shadownet"].

(** The wheel's skills, and a directory of an earlier deploy. *)
Definition demo_fs : Fs := {|
  fs_nodes := <[[[47]] := Dir]> (<[demo_root ++ [str "old"] := Dir]>
    (list_to_map (map (λ name, (demo_src ++ [name; SKILL_MD], File name)) SKILL_NAMES)));
  fs_writable _ := true |}.

Lemma skills_materialized_witness :
  ∃ w', materialize_skills_into_data_dir (λ _, None) demo_home (skill_files demo_src) demo_fs = (w', Ok tt)
    ∧ complete_root w' demo_root = true ∧ fs_nodes w' !! (demo_root ++ [str "old"]) ≠ Some Dir.
Proof.
  assert (category_root (λ _, None) demo_home demo_fs = demo_root) as Hroot by (vm_compute; reflexivity).
  assert (map_Forall (λ q x, x = Dir → length q ≠ 8%nat) (fs_nodes demo_fs)) as Hdeep
    by (apply (bool_decide_unpack _); vm_compute; exact I).
  destruct (skills_materialized (λ _, None) demo_home demo_fs demo_src) as (w' & Hrun & _ & Hcomplete & Hgone & _); rewrite ?Hroot.
  - apply (bool_decide_unpack _). vm_compute. exact I.
  - apply (bool_decide_unpack _). vm_compute. exact I.
  - reflexivity.
  - vm_compute. reflexivity.
  - intros name Hin. apply clear_way_check. revert name Hin. apply Forall_forall, forallb_Forall. vm_compute. reflexivity.
  - intros name n c _ _ Hdir. by apply (Hdeep _ _ Hdir).
  - vm_compute. congruence.
  - rewrite Hroot in Hcomplete, Hgone. exists w'. split; [exact Hrun|]. split; [exact Hcomplete|].
    apply Hgone. apply (bool_decide_unpack _). vm_compute. exact I.
Defined.

(** The data directory is the first candidate, so from the second start on the
    skills are copied onto themselves: [copy2] refuses, the failure is logged for
    every skill, and the files of a newer wheel are never taken. *)
Lemma installed_skills_shadow_wheel :
  let installed name := (demo_root ++ [name; SKILL_MD], File (str "old text")) in
  let w := {| fs_nodes := <[demo_root := Dir]> (list_to_map (map installed SKILL_NAMES) ∪ fs_nodes demo_fs);
              fs_writable _ := true |} in
  let prefix := [[47]; str "usr"] in
  let w' := fst (materialize_skills_into_data_dir (λ _, None) demo_home
                   (skill_paths (λ _, None) demo_home prefix prefix w) w) in
  complete_root w (prefix ++ [str "skills"]) = true
  ∧ fs_nodes w' !! (demo_root ++ [str "shadownet-pay"; SKILL_MD]) = Some (File (str "old text")).
Proof. vm_compute. split; reflexivity. Qed.
