(* ===== verification/HermesCli.v ===== *)
(** * The command line of the Hermes plugin — [shadownet_hermes_plugin/_cli.py]

    [hermes shadownet status | doctor | sync | logout] over the configuration
    files ([HermesConfig]) and the skills ([HermesSkills]).  The HTTP probe of
    [doctor] is a parameter. *)

From S2P Require Import Prelude PyStr Jcs Dicts PyRepr PyJson Url Onboarding Payment HermesText HermesConfig FileSystem HermesSkills.

(** The two sets of files the plugin works on. *)
Record Install := { in_host : Host; in_fs : Fs }.

Definition on_host {A} (f : Host → Host * A) : M Install A := λ w,
  let '(h, a) := f (in_host w) in ({| in_host := h; in_fs := in_fs w |}, Ok a).
Definition on_fs {A} (m : M Fs A) : M Install A := λ w,
  let '(fs, r) := m (in_fs w) in ({| in_host := in_host w; in_fs := fs |}, r).

(** The text of a report: its lines. *)
Definition report (lines : list pystr) : pystr := join_with [NL] lines.

Definition _format_connect_url (value : option pystr) : pystr :=
  match value with
  | None | Some [] => str "absent"
  | Some value => if py_len value <=? 32 then value else take 24 value ++ [0x2026]
  end.

Section cli.
Context `{PyUnicode} `{PyNfkc} `{Yaml}.
Context (environ : pystr → option pystr) (home package_parent prefix : path).
(** [httpx]: whether it can be imported, the status a GET is answered with, and
    ["{type(e).__name__}: {e}"]. *)
Context (httpx_installed : bool) (http_get : pystr → result Z) (exc_line : exn → pystr).

Definition runtime_url : option pystr := match strip (default [] (environ _VAR)) with [] => None | url => Some url end.

(** [if mcp:] *)
Definition mcp_entry (h : Host) : option pydict :=
  match read_mcp_server_config h with None | Some [] => None | Some entry => Some entry end.

Definition do_status (w : Install) : pystr :=
  let env_url := read_connect_url_from_env (in_host w) in
  let count := count_materialized_skills environ home (in_fs w) in
  report
    [str "shadownet plugin status:";
     str "  .env SHADOWNET_CONNECT_URL: " ++ _format_connect_url env_url;
     str "  runtime SHADOWNET_CONNECT_URL: " ++ _format_connect_url runtime_url;
     match mcp_entry (in_host w) with
     | Some entry => str "  config.yaml mcp_servers.shadownet: " ++ py_str (default (JStr (str "<missing>")) (dict_get (str "url") entry))
     | None => str "  config.yaml mcp_servers.shadownet: absent"
     end;
     str "  materialized skills: " ++ dec count ++ [47] ++ dec (py_len SKILL_NAMES) ++ str " under "
       ++ path_text (hermes_data_dir environ home (in_fs w))].

Definition _probe_mcp_endpoint (url : json) : bool * pystr :=
  if negb (truthy url) then (false, str "no URL configured")
  else if negb httpx_installed then (false, str "httpx not installed")
  else match http_get (py_str url) with
       | Raise e => (false, exc_line e)
       | Ok status => (status <? 500, str "HTTP " ++ dec status)
       end.

(** The checks as (label, passed, detail); [mcp['url']] raises where the entry
    has no URL. *)
Definition checks (w : Install) : result (list (pystr * bool * pystr)) :=
  let env_url := read_connect_url_from_env (in_host w) in
  let has_url := bool_decide (env_url ≠ None) || bool_decide (runtime_url ≠ None) in
  let mcp := read_mcp_server_config (in_host w) in
  let materialized := count_materialized_skills environ home (in_fs w) in
  let total := py_len SKILL_NAMES in
  config_detail ← match mcp_entry (in_host w) with
                  | Some entry => url ← of_option KeyError (dict_get (str "url") entry); Ok (str "url=" ++ py_str url)
                  | None => Ok (str "absent " ++ [EM] ++ str " run `hermes shadownet sync`")
                  end;
  Ok ([(str "SHADOWNET_CONNECT_URL set", has_url,
        if has_url then str "found in .env or runtime env" else str "missing " ++ [EM] ++ str " paste your connect URL");
       (str "config.yaml mcp_servers.shadownet present", bool_decide (mcp ≠ None), config_detail)]
      ++ match mcp_entry (in_host w) with
         | Some entry =>
             if has_url then
               let '(reachable, why) := _probe_mcp_endpoint (default (JStr []) (dict_get (str "url") entry)) in
               [(str "MCP endpoint reachable", reachable, why)]
             else []
         | None => []
         end
      ++ [(str "skills materialized", materialized =? total, dec materialized ++ [47] ++ dec total ++ str " present")]).

Definition do_doctor (w : Install) : result pystr :=
  results ← checks w;
  let overall := forallb (λ r, r.1.2) results in
  Ok (report
    ([str "shadownet plugin doctor:"]
     ++ map (λ r : pystr * bool * pystr, let '(label, ok, detail) := r in
               str "  [" ++ (if ok then str "OK  " else str "FAIL") ++ str "] " ++ label ++ [32; EM; 32] ++ detail) results
     ++ [str "  ----"; str "  overall: " ++ if overall then str "OK" else str "FAIL"])).

Definition do_sync : M Install pystr :=
  _ ← on_host (λ h, (ensure_mcp_server_in_config environ h, tt));
  _ ← on_fs (λ fs, materialize_skills_into_data_dir environ home (skill_paths environ home package_parent prefix fs) fs);
  mret (str "shadownet plugin sync complete. Restart Hermes for the agent's tool registry to pick up any changes.").

Definition already_disconnected : pystr :=
  str "shadownet plugin: already disconnected (nothing to remove). To reconnect: paste your shadownet://connect?... "
  ++ str "URL into ~/.hermes/.env and run `hermes shadownet sync`.".

Definition do_logout : M Install pystr :=
  removed_mcp ← on_host remove_mcp_server_from_config;
  cleared_env ← on_host strip_connect_url_from_env;
  let actions := (if (removed_mcp : bool) then [str "removed config.yaml mcp_servers.shadownet"] else [])
                 ++ (if (cleared_env : bool) then [str "cleared SHADOWNET_CONNECT_URL from .env"] else []) in
  match actions with
  | [] => mret already_disconnected
  | actions =>
      disabled ← on_host (set_platform_enabled (str "shadownet") false);
      let actions := actions ++ (if (disabled : bool) then [str "set gateway.platforms.shadownet.enabled=false"] else []) in
      mret (str "Disconnected from shadownet:" ++ [NL] ++ str "  - "
            ++ join_with ([NL] ++ str "  - ") actions
            ++ [NL] ++ str "Restart Hermes (docker compose restart hermes) for changes to take effect." ++ [NL]
            ++ str "To reconnect: paste your shadownet://connect?... URL into ~/.hermes/.env, "
            ++ str "run `hermes shadownet sync`, and restart.")
  end.

(** What [handle] prints for the parsed subcommand. *)
Definition handle (cmd : option pystr) : M Install pystr :=
  let is_cmd c := bool_decide (cmd = Some c) in
  if is_cmd (str "status") then λ w, (w, Ok (do_status w))
  else if is_cmd (str "doctor") then λ w, (w, do_doctor w)
  else if is_cmd (str "sync") then do_sync
  else if is_cmd (str "logout") then do_logout
  else mret (str "Usage: hermes shadownet {status|doctor|sync|logout}").
End cli.

(** ** Logging out *)

Section logout.
Context `{PyUnicode} `{PyNfkc} `{Yaml}.

(** The configuration can be read and has no entry of the plugin. *)
Record no_entry (h : Host) : Prop := {
  ne_readable : h_readable h = true;
  ne_writable : h_writable h = true;
  ne_config : ∃ cfg, _load_config h = Some cfg ∧ well_formed (JDict cfg)
    ∧ ∀ servers, dict_get (str "mcp_servers") cfg = Some (JDict servers) → dict_get (str "shadownet") servers = None;
}.

Lemma no_entry_read h : no_entry h → read_mcp_server_config h = None ∧ remove_mcp_server_from_config h = (h, false).
Proof.
  intros [_ _ (cfg & Hl & _ & Hn)]. unfold read_mcp_server_config, remove_mcp_server_from_config, get_dict. rewrite Hl.
  destruct (dict_get (str "mcp_servers") cfg) as [[]|]; try done. rewrite (Hn d eq_refl). done.
Qed.

Lemma remove_clears h h' b cfg :
  yaml_installed = true → h_readable h = true → h_writable h = true → _load_config h = Some cfg → well_formed (JDict cfg) →
  remove_mcp_server_from_config h = (h', b) → no_entry h' ∧ h_env h' = h_env h.
Proof.
  intros Hi Hr Hw Hl Hwf. unfold remove_mcp_server_from_config. rewrite Hl.
  destruct (dict_get (str "mcp_servers") cfg) as [[| | | | | |servers]|] eqn:Hm;
    try (intros [= <- <-]; split; [split; [done|done|]; exists cfg; split_and!; [done|done|congruence]|done]).
  case_bool_decide as Hs.
  { intros [= <- <-]. split; [|done]. split; [done|done|]. exists cfg. split_and!; [done|done|]. intros s. congruence. }
  assert (well_formed (JDict (dict_del (str "shadownet") servers))) as Hdel by (by eapply well_formed_filter, well_formed_get).
  assert (dict_get (str "shadownet") (dict_del (str "shadownet") servers) = None) as Hgone
    by (rewrite dict_get_del; by rewrite bool_decide_true).
  unfold _write_config. rewrite Hw. destruct (dict_del (str "shadownet") servers) as [|kv rest] eqn:Hd; intros [= <- <-]; (split; [|done]);
    (split; [done|done|]); eexists; (split_and!; [apply load_written; [done|done|]|..]).
  - by apply well_formed_filter.
  - by apply well_formed_filter.
  - intros s. rewrite dict_get_del. by rewrite bool_decide_true.
  - apply well_formed_set; [done|wf_lit|done].
  - apply well_formed_set; [done|wf_lit|done].
  - intros s. rewrite dict_get_set_eq. intros [= <-]. exact Hgone.
Qed.

Lemma strip_clears h h' b :
  no_entry h → strip_connect_url_from_env h = (h', b) →
  no_entry h' ∧ read_connect_url_from_env h' = None ∧ strip_connect_url_from_env h' = (h', false).
Proof.
  intros Hne. unfold strip_connect_url_from_env, read_connect_url_from_env. pose proof (ne_readable _ Hne) as Hr.
  pose proof (ne_writable _ Hne) as Hw. destruct (h_env h) as [text|] eqn:He; [|intros [= <- <-]; by rewrite He].
  rewrite Hr. case_match eqn:Hlen.
  - intros [= <- <-]. rewrite He, Hr, Hlen. split_and!; [done| |done].
    case_match eqn:Hf; [|done]. exfalso. apply find_some in Hf as [Hin Ht].
    apply Nat.eqb_eq in Hlen. revert Hlen Hin Ht. generalize (file_lines text) as ls. clear.
    induction ls as [|ln ls IH]; [done|]. cbn. intros Hlen Hin Ht.
    pose proof (filter_length_le (λ line, negb (_is_target_line line)) ls) as Hle.
    destruct (_is_target_line ln) eqn:El; cbn in Hlen; [lia|]. destruct Hin as [->|Hin]; [congruence|].
    apply IH; [lia|done|done].
  - rewrite Hw. intros [= <- <-]. cbn [set_env h_env h_readable]. rewrite Hr.
    assert (∀ ls, List.filter (λ line, negb (_is_target_line line)) (List.filter (λ line, negb (_is_target_line line)) ls)
                  = List.filter (λ line, negb (_is_target_line line)) ls) as Hidem.
    { clear. induction ls as [|l ls IH]; [done|]. cbn. destruct (_is_target_line l) eqn:E; cbn; [done|]. by rewrite E, IH. }
    rewrite file_lines_concat by (apply lines_wf_filter, file_lines_wf). rewrite find_filter_none, Hidem, Nat.eqb_refl.
    split_and!; [|done|done]. destruct Hne as [_ _ (cfg & Hl & ?)]. split; [done|done|]. by exists cfg.
Qed.

Lemma platform_keeps_no_entry name enabled h h' b :
  yaml_installed = true → wf_str name → no_entry h → set_platform_enabled name enabled h = (h', b) →
  no_entry h' ∧ h_env h' = h_env h.
Proof.
  intros Hi Hname Hne. destruct Hne as [Hr Hw (cfg & Hl & Hwf & Hn)]. unfold set_platform_enabled. rewrite Hl.
  assert (no_entry h ∧ h_env h = h_env h) as Hsame by (split; [split; [done|done|by exists cfg]|done]).
  assert (∀ k d e, well_formed (JDict d) → setdefault k d = JDict e → well_formed (JDict e)) as Hsd.
  { intros k d e Hd. unfold setdefault. destruct (dict_get k d) as [m|] eqn:Em; cbn.
    - intros ->. by eapply well_formed_get.
    - intros [= <-]. done. }
  destruct (setdefault (str "gateway") cfg) as [| | | | | |gateway] eqn:Hg; try by intros [= <- <-].
  destruct (setdefault (str "platforms") gateway) as [| | | | | |platforms] eqn:Hp; try by intros [= <- <-].
  destruct (setdefault name platforms) as [| | | | | |platform] eqn:Hq; try by intros [= <- <-].
  case_match; [by intros [= <- <-]|]. unfold _write_config. rewrite Hw. intros [= <- <-]. split; [|done].
  split; [done|done|].
  assert (well_formed (JDict (dict_set (str "enabled") (JBool enabled) platform))) as Hplat
    by (apply well_formed_set; [eauto|wf_lit|done]).
  eexists. split_and!; [apply load_written; [done|done|]|..];
    [apply well_formed_set; [done|wf_lit|]; apply well_formed_set; [eauto|wf_lit|]; apply well_formed_set; eauto..|].
  intros servers. rewrite dict_get_set_ne by done. apply Hn.
Qed.

(** Logging out removes what connects the install: from a configuration that
    can be read and written, afterwards no connect URL is in the environment file
    and no server entry in the configuration, and a second logout finds nothing
    and changes nothing. *)
Lemma logout_disconnects (w : Install) cfg :
  yaml_installed = true → h_readable (in_host w) = true → h_writable (in_host w) = true →
  _load_config (in_host w) = Some cfg → well_formed (JDict cfg) →
  ∃ w' text, do_logout w = (w', Ok text)
    ∧ read_connect_url_from_env (in_host w') = None ∧ read_mcp_server_config (in_host w') = None
    ∧ in_fs w' = in_fs w
    ∧ do_logout w' = (w', Ok already_disconnected).
Proof.
  intros Hi Hr Hw Hl Hwf. destruct (remove_mcp_server_from_config (in_host w)) as [h1 b1] eqn:E1.
  destruct (remove_clears _ _ _ _ Hi Hr Hw Hl Hwf E1) as [Hn1 _].
  destruct (strip_connect_url_from_env h1) as [h2 b2] eqn:E2. destruct (strip_clears _ _ _ Hn1 E2) as (Hn2 & Hread & Hagain).
  assert (∀ h, no_entry h → strip_connect_url_from_env h = (h, false) →
            do_logout {| in_host := h; in_fs := in_fs w |} = ({| in_host := h; in_fs := in_fs w |}, Ok already_disconnected)) as Hdone.
  { intros h Hn Hs. unfold do_logout, on_host, mbind, M_bind. cbn [in_host in_fs].
    rewrite (proj2 (no_entry_read _ Hn)). cbn [in_host in_fs]. rewrite Hs. done. }
  destruct (b1 || b2) eqn:Hb.
  - destruct (set_platform_enabled (str "shadownet") false h2) as [h3 b3] eqn:E3.
    destruct (platform_keeps_no_entry (str "shadownet") false h2 h3 b3 Hi) as [Hn3 He3]; [wf_lit|done|done|].
    assert (h_readable h3 = h_readable h2) as Hr3 by (by rewrite (ne_readable _ Hn3), (ne_readable _ Hn2)).
    assert (∃ text, do_logout w = ({| in_host := h3; in_fs := in_fs w |}, Ok text)) as [text Hrun].
    { unfold do_logout, on_host, mbind, M_bind. rewrite E1. cbn [in_host in_fs]. rewrite E2.
      destruct b1, b2; try discriminate; cbn [app in_host in_fs]; rewrite E3; by eexists. }
    exists {| in_host := h3; in_fs := in_fs w |}, text. split_and!.
    + exact Hrun.
    + revert Hread. unfold read_connect_url_from_env. cbn [in_host]. by rewrite He3, Hr3.
    + apply (no_entry_read _ Hn3).
    + done.
    + apply Hdone; [done|]. revert Hagain. unfold strip_connect_url_from_env. rewrite He3, Hr3, (ne_writable _ Hn2), (ne_writable _ Hn3).
      destruct (h_env h2); [|done]. destruct (h_readable h2); [|done]. by case_match.
  - apply orb_false_iff in Hb as [-> ->]. exists {| in_host := h2; in_fs := in_fs w |}. eexists. split_and!.
    + unfold do_logout, on_host, mbind, M_bind. rewrite E1. cbn [in_host in_fs]. rewrite E2. reflexivity.
    + done.
    + apply (no_entry_read _ Hn2).
    + done.
    + by apply Hdone.
Qed.
End logout.

(** ** Examples *)

#[local] Existing Instance ascii_unicode.
#[local] Existing Instance no_nfkc.
#[local] Existing Instance json_yaml.

Definition connected_config : pydict :=
  [(str "mcp_servers", JDict [(str "shadownet", JDict [(str "url", JStr (str "https://sidecar.example/mcp"))])])].
Definition connected : Install := {|
  in_host := {| h_env := Some (_VAR ++ str "=shadow://connect" ++ [10] ++ str "A=1");
                h_config := Some (json_dumps (JDict connected_config)); h_readable := true; h_writable := true |};
  in_fs := {| fs_nodes := ∅; fs_writable _ := true |} |}.

Lemma logout_disconnects_example :
  read_connect_url_from_env (in_host connected) = Some (str "shadow://connect")
  ∧ is_Some (read_mcp_server_config (in_host connected))
  ∧ ∃ w' text, do_logout connected = (w', Ok text)
      ∧ read_connect_url_from_env (in_host w') = None ∧ read_mcp_server_config (in_host w') = None.
Proof.
  split; [vm_compute; reflexivity|]. split; [vm_compute; by eexists|].
  destruct (logout_disconnects connected connected_config) as (w' & text & Hrun & He & Hm & _);
    [vm_compute; reflexivity..|split; vm_compute; reflexivity|].
  exists w', text. split; [exact Hrun|]. split; [exact He|exact Hm].
Qed.

(** [doctor] asks for [mcp['url']] where [status] asks with a default: an entry
    without URL, which the command is there to diagnose, ends it with
    [KeyError]. *)
Lemma doctor_needs_url :
  let h := {| h_env := None; h_config := Some (json_dumps (JDict
                [(str "mcp_servers", JDict [(str "shadownet", JDict [(str "timeout", JInt 120)])])]));
              h_readable := true; h_writable := true |} in
  let w := {| in_host := h; in_fs := in_fs connected |} in
  do_doctor (λ _, None) [] true (λ _, Ok 200) (λ _, []) w = Raise KeyError
  ∧ contains (str "mcp_servers.shadownet: <missing>") (do_status (λ _, None) [] w) = true.
Proof. vm_compute. split; reflexivity. Qed.
