(* ===== verification/HermesPlugin.v ===== *)
(** * The entry point of the Hermes plugin — [shadownet_hermes_plugin/__init__.py], [_commands.py]

    Registration of skills, platform, hooks, slash commands, the payment tool and
    the command line with a Hermes runtime, and the handlers that are registered.
    The runtime is the record [Ctx] of what [ctx] offers, over a state [S]; a
    handler is the data its closure holds, [run_command] calls it. *)

From S2P Require Import Prelude PyStr Base64 Identifiers Jcs Dicts PyRepr Crypto Provider Pydantic Url Onboarding Payment Avm.
From S2P Require Import HermesText HermesConfig FileSystem HermesSkills HermesCli HermesPay.

(** ** The runtime *)

(** Keyword arguments; functions are given by their names. *)
Abbreviation kwargs := (list (pystr * pystr)).

(** How [ctx.register_platform] answers: the text of a [TypeError] is looked
    at. *)
Inductive registration : Type :=
  | Registered
  | RaisedTypeError (msg : pystr)
  | RaisedOther (e : exn).

(** What the closures of [_commands.py] hold. *)
Inductive handler : Type :=
  | SkillHandler (skill_name : pystr)
  | PayHandler
  | StatusHandler
  | LogoutHandler.

Record Ctx (S : Type) := {
  register_skill : pystr → path → M S unit;
  register_platform : kwargs → S → S * registration;
  (** Absent in older runtimes. *)
  register_hook : option (pystr → pystr → M S unit);
  register_command : option (pystr → handler → pystr → M S unit);
  register_tool : option (M S unit);
  register_cli_command : option (M S unit);
  dispatch_tool : pystr → pydict → M S json;
}.
Arguments register_skill {S} _.
Arguments register_platform {S} _.
Arguments register_hook {S} _.
Arguments register_command {S} _.
Arguments register_tool {S} _.
Arguments register_cli_command {S} _.
Arguments dispatch_tool {S} _.

Record Plugin (S : Type) := { pl_install : Install; pl_side : S }.
Arguments pl_install {S} _.
Arguments pl_side {S} _.

Definition on_install {S A} (m : M Install A) : M (Plugin S) A := λ w,
  let '(i, r) := m (pl_install w) in ({| pl_install := i; pl_side := pl_side w |}, r).
Definition on_side {S A} (m : M S A) : M (Plugin S) A := λ w,
  let '(s, r) := m (pl_side w) in ({| pl_install := pl_install w; pl_side := s |}, r).

(** ** [_commands.py] *)

Definition slash_command_specs : list (pystr * handler * pystr) :=
  [(str "shadownet-setup", SkillHandler (str "shadownet-setup"), str "Initialize or verify the shadownet connection");
   (str "shadownet-inbox", SkillHandler (str "shadownet-inbox"), str "Triage pending shadownet messages");
   (str "shadownet-reach-out", SkillHandler (str "shadownet-reach-out"), str "Send a message to a shadownet contact");
   (str "shadownet-coordinate", SkillHandler (str "shadownet-coordinate"), str "Run a two-sided shadownet coordination plan");
   (str "shadownet-pay", PayHandler, str "ShadowPay: pay a shadow over x402 on Algorand (identity-bound)");
   (str "shadownet-status", StatusHandler, str "Show shadownet connection status");
   (str "shadownet-logout", LogoutHandler, str "Disconnect this Hermes from shadownet")].

Section commands.
Context {S : Type} `{PyUnicode} `{PyNfkc} `{Yaml} `{Pydantic} `{PyJWT} `{AlgoSdk S} `{X402Sdk S}.
Context (environ : pystr → option pystr) (home : path) (exc_text : exn → pystr).
Context (provider_lookup : pystr → M S ProviderRecord) (clock : S → Z).
(** The next two keys [Ed25519KeyPair.generate()] gives. *)
Context (next_keys : S → ed_secret * ed_secret).
Context (ctx : Ctx S).

Definition run_shadowpay (raw_args : pystr) : M S pystr := λ s,
  let '(issuer, buyer) := next_keys s in
  run exc_text environ provider_lookup clock (generate issuer) (generate buyer) raw_args s.

(** [try: m except Exception as e: return f(e)] *)
Definition or_text (f : pystr → pystr) (m : M S pystr) : M S pystr := λ s,
  match m s with
  | (s, Ok text) => (s, Ok text)
  | (s, Raise e) => if is_Exception e then (s, Ok (f (exc_text e))) else (s, Raise e)
  end.

Definition skill_handler (skill_name : pystr) : M S pystr :=
  or_text (λ e, str "[shadownet] could not load skill `" ++ skill_name ++ str "`: " ++ e)
    (result ← dispatch_tool ctx (str "skill_view") [(str "name", JStr (str "shadownet:" ++ skill_name))];
     mret (match result with
           | JNull => str "[shadownet] skill `" ++ skill_name ++ str "` returned no content"
           | result => py_str result
           end)).

Definition _run_shadowpay (raw_args : pystr) : M S pystr :=
  or_text (λ e, str "[shadownet] ShadowPay failed: " ++ e) (run_shadowpay raw_args).

(** Calling a registered handler. *)
Definition run_command (h : handler) (raw_args : pystr) : M (Plugin S) pystr :=
  match h with
  | SkillHandler skill_name => on_side (skill_handler skill_name)
  | PayHandler => on_side (_run_shadowpay raw_args)
  | StatusHandler => on_install (λ w, (w, Ok (do_status environ home w)))
  | LogoutHandler => on_install do_logout
  end.

(** [ctx.register_command] with every spec in turn, and the count. *)
Fixpoint register_specs (register : pystr → handler → pystr → M S unit) (specs : list (pystr * handler * pystr)) : M S unit :=
  match specs with
  | [] => mret tt
  | (name, h, description) :: specs => _ ← register name h description; register_specs register specs
  end.
Definition register_slash_commands (register : pystr → handler → pystr → M S unit) : M S Z :=
  _ ← register_specs register slash_command_specs; mret (py_len slash_command_specs).

(** The tool: [str(args.get(k) or "")] twice, then one command line. *)
Definition tool_text (args : pydict) (k : pystr) : pystr := py_str (or_else (default JNull (dict_get k args)) (JStr [])).
Definition tool_line (args : pydict) : pystr := strip (tool_text args (str "to") ++ [32] ++ tool_text args (str "amount")).
Definition _shadownet_pay_handler (args : pydict) : M S pystr := run_shadowpay (tool_line args).
End commands.

(** ** [__init__.py] *)

Definition _PLATFORM_HINT : pystr :=
  str "Shadownet is connected. Use mcp_shadownet_contacts to list contacts, "
  ++ str "mcp_shadownet_send to send messages (with body.text, body.intent, "
  ++ str "body.data), mcp_shadownet_respond to reply in a thread (by contextId), "
  ++ str "and mcp_shadownet_inbox / mcp_shadownet_inbox_wait for inbox triage. "
  ++ str "IMPORTANT: When the user asks to plan a meeting, coordinate, schedule, "
  ++ str "or meet up with a contact, ALWAYS load the 'shadownet-coordinate' skill "
  ++ str "first " ++ [EM] ++ str " it contains the exact intent URIs and data shapes required. "
  ++ str "Do NOT invent your own intent values or body formats.".

Definition platform_kwargs : kwargs :=
  [(str "name", str "shadownet"); (str "label", str "Shadownet"); (str "adapter_factory", str "adapter_class");
   (str "check_fn", str "check_shadownet_requirements"); (str "env_enablement_fn", str "env_enablement");
   (str "platform_hint", _PLATFORM_HINT); (str "allowed_users_env", str "SHADOWNET_ALLOWED_USERS");
   (str "allow_all_env", str "SHADOWNET_ALLOW_ALL_USERS")].

Definition required : list pystr := [str "name"; str "label"; str "adapter_factory"; str "check_fn"].

Section register.
Context {S : Type} (ctx : Ctx S).

(** The first optional argument whose quoted name is in the message. *)
Definition offending (kw : kwargs) (msg : pystr) : option (pystr * pystr) :=
  List.find (λ k, negb (bool_decide (k.1 ∈ required)) && contains ([39] ++ k.1 ++ [39]) msg) kw.

(** The [while True] loop, [None] where the fuel ran out; the arguments that
    were accepted. *)
Fixpoint compat_loop (fuel : nat) (attempt_kwargs : kwargs) (s : S) : S * option (result kwargs) :=
  match fuel with
  | O => (s, None)
  | Datatypes.S fuel =>
      match register_platform ctx attempt_kwargs s with
      | (s, Registered) => (s, Some (Ok attempt_kwargs))
      | (s, RaisedOther e) => (s, Some (Raise e))
      | (s, RaisedTypeError msg) =>
          match offending attempt_kwargs msg with
          | None => (s, Some (Raise TypeError))
          | Some dropped => compat_loop fuel (List.filter (λ k, negb (bool_decide (k.1 = dropped.1))) attempt_kwargs) s
          end
      end
  end.

(** Every retry drops an argument, so one attempt more than there are arguments
    is enough ([compat_fuel_enough]). *)
Definition _register_platform_compat (kw : kwargs) : M S kwargs := λ s,
  match compat_loop (Datatypes.S (length kw)) kw s with
  | (s, Some r) => (s, r)
  | (s, None) => (s, Raise RuntimeError)
  end.

(** [try: m except Exception: log] *)
Definition safely {A} (a : A) (m : M S A) : M S A := λ s,
  match m s with
  | (s, Raise e) => if is_Exception e then (s, Ok a) else (s, Raise e)
  | r => r
  end.

Definition _safe_register_hook (name callback : pystr) : M S unit :=
  match register_hook ctx with None => mret tt | Some register => safely tt (register name callback) end.
Definition _safe_register_slash_commands : M S Z :=
  match register_command ctx with None => mret 0 | Some register => safely 0 (register_slash_commands register) end.
Definition _safe_register_tools : M S unit :=
  match register_tool ctx with None => mret tt | Some register => safely tt register end.
Definition _safe_register_cli_command : M S unit :=
  match register_cli_command ctx with None => mret tt | Some register => safely tt register end.

Fixpoint register_each (skills : list (pystr * path)) : M S unit :=
  match skills with
  | [] => mret tt
  | (name, p) :: skills => _ ← register_skill ctx name p; register_each skills
  end.

Section entry.
Context `{PyUnicode} `{PyNfkc} `{Yaml}.
Context (environ : pystr → option pystr) (home package_parent prefix : path) (hermes_types : bool).

Definition register : M (Plugin S) unit :=
  skills ← (λ w, (w, Ok (register_skills environ home package_parent prefix (in_fs (pl_install w)))));
  _ ← on_side (register_each skills);
  _ ← (match skills with
       | [] => mret tt
       | _ => on_install (on_fs (λ fs, materialize_skills_into_data_dir environ home
                                         (skill_paths environ home package_parent prefix fs) fs))
       end);
  _ ← on_install (on_host (λ h, (ensure_mcp_server_in_config environ h, tt)));
  _ ← lift (raise_if (negb hermes_types) RuntimeError);
  _ ← on_side (_register_platform_compat platform_kwargs);
  _ ← on_side (_safe_register_hook (str "on_session_start") (str "on_session_start_callback"));
  _ ← on_side (_safe_register_hook (str "pre_llm_call") (str "pre_llm_call_callback"));
  _ ← on_side (_safe_register_hook (str "on_session_end") (str "on_session_end_callback"));
  _ ← on_side _safe_register_slash_commands;
  _ ← on_side _safe_register_tools;
  on_side _safe_register_cli_command.
End entry.
End register.

(** ** A slash command always answers *)

Lemma or_text_answers {S} exc_text f (m : M S pystr) s s' e : or_text exc_text f m s = (s', Raise e) → is_Exception e = false.
Proof. unfold or_text. destruct (m s) as [s1 [t|e1]]; [done|]. destruct (is_Exception e1) eqn:E; by intros [= <- <-]. Qed.

Lemma do_logout_answers `{PyUnicode} `{PyNfkc} `{Yaml} w : ∃ w' text, do_logout w = (w', Ok text).
Proof.
  unfold do_logout, on_host, mbind, M_bind. destruct (remove_mcp_server_from_config _) as [h1 b1]. cbn [in_host in_fs].
  destruct (strip_connect_url_from_env h1) as [h2 b2]. cbn [in_host in_fs].
  destruct ((if b1 then _ else []) ++ (if b2 then _ else [])); [by eexists _, _|].
  cbn [in_host in_fs]. destruct (set_platform_enabled (str "shadownet") false h2) as [h3 b3]. by eexists _, _.
Qed.

(** No handler lets an exception through but the cancellation of its task: a
    failing skill, runtime or settlement becomes the answer. *)
Lemma slash_command_answers {S} `{PyUnicode} `{PyNfkc} `{Yaml} `{Pydantic} `{PyJWT} `{AlgoSdk S} `{X402Sdk S}
    environ home exc_text lookup clock keys ctx h raw_args (w w' : Plugin S) e :
  run_command environ home exc_text lookup clock keys ctx h raw_args w = (w', Raise e) → is_Exception e = false.
Proof.
  destruct h; cbn [run_command]; unfold on_side, on_install.
  - destruct (skill_handler _ _ _ _) as [s r] eqn:E. intros [= <- ->]. by eapply or_text_answers.
  - destruct (_run_shadowpay _ _ _ _ _ _ _) as [s r] eqn:E. intros [= <- ->]. by eapply or_text_answers.
  - done.
  - destruct (do_logout_answers (pl_install w)) as (i & text & ->). done.
Qed.

(** ** The platform is registered on older runtimes *)

Section compat.
Context {S : Type} (ctx : Ctx S).

Definition without (k : pystr) (kw : kwargs) : kwargs := List.filter (λ k', negb (bool_decide (k'.1 = k))) kw.

Lemma offending_spec kw msg k :
  offending kw msg = Some k → k ∈ kw ∧ (k.1 ∉ required) ∧ contains ([39] ++ k.1 ++ [39]) msg = true.
Proof. unfold offending. intros [Hin Hk]%find_some. bool_prop. by rewrite list_elem_of_In. Qed.

Lemma without_shorter k kw : k ∈ kw → (length (without k.1 kw) < length kw)%nat.
Proof.
  induction kw as [|x kw IH]; [set_solver|]. intros [->|Hin]%elem_of_cons; cbn.
  - rewrite bool_decide_true by done. cbn. pose proof (filter_length_le (λ k', negb (bool_decide (k'.1 = x.1))) kw). lia.
  - apply IH in Hin. unfold without in Hin. case_bool_decide; cbn; lia.
Qed.

(** The loop ends: with one unit of fuel per argument and one more it answers,
    and more fuel changes nothing. *)
Lemma compat_fuel_enough fuel kw s :
  (length kw < fuel)%nat →
  compat_loop ctx fuel kw s = compat_loop ctx (Datatypes.S (length kw)) kw s ∧ is_Some (compat_loop ctx fuel kw s).2.
Proof.
  revert kw s. induction fuel as [fuel IH] using lt_wf_ind. intros kw s Hf. destruct fuel as [|fuel]; [lia|].
  cbn [compat_loop]. destruct (register_platform ctx kw s) as [s1 [|msg|e]]; [by split; [|eexists]| |by split; [|eexists]].
  destruct (offending kw msg) as [k|] eqn:Ho; [|by split; [|eexists]].
  apply offending_spec in Ho as (Hin & _). pose proof (without_shorter k kw Hin) as Hlt. fold (without k.1 kw).
  destruct (IH fuel ltac:(lia) (without k.1 kw) s1 ltac:(lia)) as [E HS].
  destruct (decide (fuel = length kw)) as [->|]; [by split|].
  destruct (IH (length kw) ltac:(lia) (without k.1 kw) s1 ltac:(lia)) as [E' _]. split; [congruence|done].
Qed.

(** Whatever the runtime answers, the accepted arguments are among the given
    ones, with all the required ones. *)
Lemma compat_keeps_required fuel kw s s' kw' :
  compat_loop ctx fuel kw s = (s', Some (Ok kw')) →
  kw' ⊆ kw ∧ ∀ k, k ∈ kw → k.1 ∈ required → k ∈ kw'.
Proof.
  revert kw s. induction fuel as [|fuel IH]; intros kw s; cbn [compat_loop]; [done|].
  destruct (register_platform ctx kw s) as [s1 [|msg|e]]; [by intros [= <- <-]| |done].
  destruct (offending kw msg) as [k|] eqn:Ho; [|done]. apply offending_spec in Ho as (_ & Hr & _). intros [Hsub Hreq]%IH.
  assert (∀ x, x ∈ List.filter (λ k', negb (bool_decide (k'.1 = k.1))) kw ↔ x ∈ kw ∧ x.1 ≠ k.1) as Hf.
  { intros x. rewrite !list_elem_of_In, filter_In, negb_true_iff, bool_decide_eq_false. done. }
  split; [intros x Hx%Hsub; by apply Hf in Hx as [? _]|]. intros x Hx Hxr. apply Hreq; [|done]. apply Hf. split; [done|].
  intros E. rewrite E in Hxr. done.
Qed.

Context (supported : pystr → bool).

(** A runtime that knows the [supported] ones of the arguments [all]: given some
    of them, it names one that it does not know in its [TypeError], in quotes, and
    no argument that it knows. *)
Definition old_runtime (all : kwargs) : Prop := ∀ kw s, kw ⊆ all →
  if forallb (λ k, supported k.1) kw then ∃ s', register_platform ctx kw s = (s', Registered)
  else ∃ s' msg, register_platform ctx kw s = (s', RaisedTypeError msg)
       ∧ (∃ k, k ∈ kw ∧ contains ([39] ++ k.1 ++ [39]) msg = true)
       ∧ ∀ k, k ∈ kw → contains ([39] ++ k.1 ++ [39]) msg = true → supported k.1 = false.

Lemma filter_without kw k : supported k = false → List.filter (λ x, supported x.1) (without k kw) = List.filter (λ x, supported x.1) kw.
Proof.
  intros Hk. unfold without. induction kw as [|x kw IH]; [done|]. cbn. case_bool_decide as E; cbn; [by rewrite E, Hk|].
  destruct (supported x.1); [by rewrite IH|done].
Qed.

Lemma filter_all kw : forallb (λ k, supported k.1) kw = true → List.filter (λ x : pystr * pystr, supported x.1) kw = kw.
Proof. induction kw as [|x kw IH]; [done|]. cbn. intros [-> Hx]%andb_true_iff. by rewrite IH. Qed.

Lemma compat_registers fuel all kw s :
  old_runtime all → Forall (λ k, supported k = true) required → kw ⊆ all → (length kw < fuel)%nat →
  ∃ s', compat_loop ctx fuel kw s = (s', Some (Ok (List.filter (λ x, supported x.1) kw))).
Proof.
  intros Hold Hreq. revert kw s. induction fuel as [|fuel IH]; intros kw s Hsub Hlen; [lia|]. cbn [compat_loop].
  specialize (Hold kw s Hsub). destruct (forallb _ kw) eqn:Hall.
  - destruct Hold as [s' ->]. exists s'. by rewrite filter_all.
  - destruct Hold as (s1 & msg & -> & (k0 & Hk0 & Hc0) & Honly).
    assert (∀ k, k ∈ kw → contains ([39] ++ k.1 ++ [39]) msg = true → k.1 ∉ required) as Hopt.
    { intros k Hin Hc Hr. rewrite Forall_forall in Hreq. specialize (Hreq _ Hr). specialize (Honly _ Hin Hc). congruence. }
    destruct (offending kw msg) as [k|] eqn:Ho.
    + apply offending_spec in Ho as (Hin & _ & Hc). pose proof (without_shorter _ _ Hin).
      destruct (IH (without k.1 kw) s1) as [s' E]; [|lia|].
      { intros x Hx. apply Hsub. unfold without in Hx. rewrite list_elem_of_In, filter_In, <-list_elem_of_In in Hx. by destruct Hx. }
      exists s'. unfold without in E at 1. rewrite E.
      by rewrite filter_without by by apply Honly.
    + exfalso. unfold offending in Ho. eapply find_none in Ho; [|by apply list_elem_of_In].
      rewrite Hc0, bool_decide_false in Ho by by apply Hopt. done.
Qed.
End compat.

Section load.
Context {S : Type} `{PyUnicode} `{PyNfkc} `{Yaml} (ctx : Ctx S).
Context (environ : pystr → option pystr) (home package_parent prefix : path).

(** A step that always succeeds. *)
Definition total {A} (m : M S A) : Prop := ∀ s, ∃ s' a, m s = (s', Ok a).

Lemma safely_total {A} (a : A) m : (∀ s s' e, m s = (s', Raise e) → is_Exception e = true) → total (safely a m).
Proof.
  intros Hm s. unfold safely. destruct (m s) as [s' [b|e]] eqn:E; [by eexists _, _|]. rewrite (Hm _ _ _ E). by eexists _, _.
Qed.

(** Nothing a runtime's optional surface raises is a cancellation. *)
Definition plain_errors {A} (m : M S A) : Prop := ∀ s s' e, m s = (s', Raise e) → is_Exception e = true.

Record well_behaved : Prop := {
  wb_skill name p : total (register_skill ctx name p);
  wb_hook r name cb : register_hook ctx = Some r → plain_errors (r name cb);
  wb_command r name h d : register_command ctx = Some r → plain_errors (r name h d);
  wb_tool r : register_tool ctx = Some r → plain_errors r;
  wb_cli r : register_cli_command ctx = Some r → plain_errors r;
}.

Lemma plain_bind {A B} (m : M S A) (k : A → M S B) : plain_errors m → (∀ a, plain_errors (k a)) → plain_errors (m ≫= k).
Proof.
  intros Hm Hk s s' e. unfold mbind, M_bind. destruct (m s) as [s1 [a|e1]] eqn:E; [apply Hk|].
  intros [= <- <-]. by eapply Hm.
Qed.

Lemma register_specs_plain r specs : (∀ n h d, plain_errors (r n h d)) → plain_errors (register_specs r specs).
Proof.
  intros Hr. induction specs as [|[[n h] d] specs IH]; cbn [register_specs]; [by intros s s' e|].
  apply plain_bind; [apply Hr|]. intros _. exact IH.
Qed.

Lemma register_each_total skills : (∀ n p, total (register_skill ctx n p)) → total (register_each ctx skills).
Proof.
  intros Hr. induction skills as [|[n p] skills IH]; intros s; cbn [register_each]; [by eexists _, _|].
  destruct (Hr n p s) as (s1 & u & E). rewrite (M_bind_run _ _ _ _ _ E). apply IH.
Qed.

Lemma hook_total n c : well_behaved → total (_safe_register_hook ctx n c).
Proof.
  intros Hwb. unfold _safe_register_hook. destruct (register_hook ctx) as [r|] eqn:E; [|by intros s; eexists _, _].
  apply safely_total. by apply (wb_hook Hwb).
Qed.

Lemma commands_total : well_behaved → total (_safe_register_slash_commands ctx).
Proof.
  intros Hwb. unfold _safe_register_slash_commands. destruct (register_command ctx) as [r|] eqn:E; [|by intros s; eexists _, _].
  apply safely_total. apply plain_bind; [|by intros a s s' e].
  apply register_specs_plain. intros n h d. by apply (wb_command Hwb).
Qed.

Lemma tools_total : well_behaved → total (_safe_register_tools ctx).
Proof.
  intros Hwb. unfold _safe_register_tools. destruct (register_tool ctx) as [r|] eqn:E; [|by intros s; eexists _, _].
  apply safely_total. by apply (wb_tool Hwb).
Qed.

Lemma cli_total : well_behaved → total (_safe_register_cli_command ctx).
Proof.
  intros Hwb. unfold _safe_register_cli_command. destruct (register_cli_command ctx) as [r|] eqn:E; [|by intros s; eexists _, _].
  apply safely_total. by apply (wb_cli Hwb).
Qed.

Lemma on_side_total {A} (m : M S A) w : total m → ∃ w' a, on_side m w = (w', Ok a).
Proof. intros Hm. unfold on_side. destruct (Hm (pl_side w)) as (s & a & ->). by eexists _, _. Qed.

(** Runs through the steps of [register]. *)
Ltac side_step :=
  match goal with
  | |- ∃ w', (on_side ?m ≫= _) ?w = _ =>
      let E := fresh in destruct (on_side_total m w) as (? & ? & E); [|rewrite (M_bind_run _ _ _ _ _ E)]
  end.

(** C40: the plugin loads on every runtime: where [register_platform] rejects
    unknown arguments one by one, the platform is registered with exactly the
    arguments the runtime supports, after at most one attempt more than there
    are arguments; and whatever the optional surfaces (hooks, slash commands,
    tool, command line) raise or lack, [register] returns. *)
Theorem plugin_loads (supported : pystr → bool) (w : Plugin S) :
  well_behaved → old_runtime ctx supported platform_kwargs → Forall (λ k, supported k = true) required →
  (∀ s, ∃ s', _register_platform_compat ctx platform_kwargs s = (s', Ok (List.filter (λ x, supported x.1) platform_kwargs)))
  ∧ ∃ w', register ctx environ home package_parent prefix true w = (w', Ok tt).
Proof.
  intros Hwb Hold Hreq.
  assert (∀ s, ∃ s', _register_platform_compat ctx platform_kwargs s = (s', Ok (List.filter (λ x, supported x.1) platform_kwargs))) as Hplat.
  { intros s. unfold _register_platform_compat.
    destruct (compat_registers ctx supported (Datatypes.S (length platform_kwargs)) _ platform_kwargs s Hold Hreq) as [s' ->]; [done|lia|].
    by eexists. }
  split; [exact Hplat|]. unfold register. rewrite (M_bind_run _ _ _ w _ eq_refl).
  side_step; [apply register_each_total, (wb_skill Hwb)|].
  set (sk := register_skills _ _ _ _ _). rename x into w1.
  match goal with |- ∃ w', (?m ≫= _) w1 = _ => assert (∃ w2, m w1 = (w2, Ok tt)) as [w2 Hw2] end.
  { destruct sk; [by eexists|]. unfold on_install, on_fs.
    destruct (materialize_total environ home (skill_paths environ home package_parent prefix (in_fs (pl_install w1))) (in_fs (pl_install w1))) as [fs ->].
    by eexists. }
  rewrite (M_bind_run _ _ _ _ _ Hw2).
  match goal with |- ∃ w', (?m ≫= _) w2 = _ => assert (∃ w3, m w2 = (w3, Ok tt)) as [w3 Hw3] by (by eexists) end.
  rewrite (M_bind_run _ _ _ _ _ Hw3), (M_bind_lift _ _ _ tt) by done.
  side_step; [intros s; destruct (Hplat s) as [s' E]; by eexists _, _|].
  do 3 (side_step; [by apply hook_total|]). side_step; [by apply commands_total|]. side_step; [by apply tools_total|].
  match goal with |- ∃ w', on_side ?m ?w = _ => destruct (on_side_total m w) as (w' & [] & E) end;
    [by apply cli_total|by exists w'].
Qed.
End load.

(** ** Examples *)

#[local] Existing Instance ascii_unicode.
#[local] Existing Instance no_nfkc.
#[local] Existing Instance json_yaml.

(** A runtime from before [platform_hint] and [env_enablement_fn], without hooks;
    it keeps the arguments it accepted, and its commands cannot be registered. *)
Definition old_supports (k : pystr) : bool := negb (bool_decide (k ∈ [str "platform_hint"; str "env_enablement_fn"])).
Definition old_ctx : Ctx (list kwargs) := {|
  register_skill _ _ := mret tt;
  register_platform kw s :=
    match List.find (λ k, negb (old_supports k.1)) kw with
    | None => (s ++ [kw], Registered)
    | Some k => (s, RaisedTypeError (str "PlatformEntry.__init__() got an unexpected keyword argument '" ++ k.1 ++ [39]))
    end;
  register_hook := None;
  register_command := Some (λ _ _ _, lift (Raise ValueError));
  register_tool := None; register_cli_command := None;
  dispatch_tool _ _ := mret JNull |}.

Lemma old_ctx_runtime : old_runtime old_ctx old_supports platform_kwargs.
Proof.
  assert (Forall (λ k, Forall (λ k', negb (old_supports k.1)
      && contains ([39] ++ k'.1 ++ [39]) (str "PlatformEntry.__init__() got an unexpected keyword argument '" ++ k.1 ++ [39])
      && old_supports k'.1 = false) platform_kwargs) platform_kwargs) as Hmsg.
  { apply (bool_decide_unpack _). vm_compute. exact I. }
  intros kw s Hsub. cbn [register_platform old_ctx]. destruct (List.find _ kw) as [k|] eqn:Hf.
  - apply find_some in Hf as [Hin Hk]. apply list_elem_of_In in Hin.
    assert (forallb (λ k, old_supports k.1) kw = false) as ->.
    { apply not_true_iff_false. rewrite forallb_Forall, Forall_forall. intros Hall. specialize (Hall k Hin). cbn in Hall.
      by rewrite Hall in Hk. }
    eexists _, _. split; [done|]. split.
    + exists k. split; [done|].
      pose proof (contains_app ([39] ++ k.1 ++ [39]) (str "PlatformEntry.__init__() got an unexpected keyword argument ") []) as Hc.
      rewrite app_nil_r in Hc. exact Hc.
    + intros k' Hin' Hc. rewrite Forall_forall in Hmsg. specialize (Hmsg k (Hsub _ Hin)). rewrite Forall_forall in Hmsg.
      specialize (Hmsg k' (Hsub _ Hin')). cbn beta in Hmsg. by rewrite Hk, Hc in Hmsg.
  - assert (forallb (λ k, old_supports k.1) kw = true) as ->; [|by eexists].
    apply forallb_Forall, Forall_forall. intros k Hin%list_elem_of_In. eapply find_none in Hf; [|done]. by apply negb_false_iff in Hf.
Qed.

Lemma plugin_loads_witness :
  ∃ w', register old_ctx (λ _, None) demo_home demo_src demo_src true {| pl_install := connected; pl_side := [] |} = (w', Ok tt)
    ∧ map (map fst) (pl_side w')
      = [[str "name"; str "label"; str "adapter_factory"; str "check_fn"; str "allowed_users_env"; str "allow_all_env"]].
Proof.
  destruct (plugin_loads old_ctx (λ _, None) demo_home demo_src demo_src old_supports {| pl_install := connected; pl_side := [] |})
    as [_ [w' Hrun]].
  - split; try done.
    + intros n p s. by exists s, tt.
    + intros r n h d [= <-] s s' e [= <- <-]. done.
  - exact old_ctx_runtime.
  - apply forallb_Forall. vm_compute. reflexivity.
  - exists w'. split; [exact Hrun|]. vm_compute in Hrun. injection Hrun as <-. vm_compute. reflexivity.
Defined.

(** A tool call with an amount and no payee: the line is stripped, so the amount
    is read as the payee and the default amount is paid. *)
Lemma tool_amount_becomes_payee :
  pay_args (λ _, None) (tool_line [(str "amount", JStr (str "5"))]) = (str "5", str "0.005").
Proof. vm_compute. reflexivity. Qed.
