(* ===== verification/ConfConfig.v ===== *)
(** * The configuration of the conformance runner — [shadownet_conformance/config.py], [cli.py]

    From the parsed arguments and the environment to a [Config], the arguments of
    the test run, and where the schemas are found.  [argparse] is not modelled:
    the parsed [Namespace] is the input.  The text of a number is turned into a
    [float] by the class [FloatText]. *)

From S2P Require Import Prelude PyStr Jcs Dicts FileSystem.

Inductive Role : Type := PROVIDER | ISSUER | SIDECAR.
#[global] Instance Role_eq_dec : EqDecision Role.
Proof. solve_decision. Defined.

Definition role_value (r : Role) : pystr :=
  match r with PROVIDER => str "provider" | ISSUER => str "issuer" | SIDECAR => str "sidecar" end.
Definition all_roles : list Role := [PROVIDER; ISSUER; SIDECAR].

(** [Role(value)] *)
Definition role_of (value : pystr) : result Role :=
  of_option ValueError (List.find (λ r, bool_decide (role_value r = value)) all_roles).

(** [dict[Role, str]], in order. *)
Abbreviation targets_of := (list (Role * pystr)).
Definition get_target (r : Role) (ts : targets_of) : option pystr :=
  snd <$> List.find (λ rt : Role * pystr, bool_decide (rt.1 = r)) ts.

(** [float(text)] *)
Class FloatText : Type := { py_float : pystr → result pyfloat }.

(** What [parse_args] gives; an absent option is [None], a number is parsed
    already. *)
Record Namespace := {
  ns_target : option (list pystr);
  ns_peer_target : option (list pystr);
  ns_specs_path : option pystr;
  ns_http_timeout : option pyfloat;
  ns_report_junit : option pystr;
  ns_report_json : option pystr;
  ns_gha_summary : option pystr;
  ns_include_draft : bool;
  ns_no_network : bool;
  ns_marker_expr : option pystr;
  ns_test_shadowname : option pystr;
}.

Record Config := {
  cf_targets : targets_of;
  cf_peer_targets : targets_of;
  cf_test_shadowname : option pystr;
  cf_specs_path : path;
  cf_http_timeout_seconds : pyfloat;
  cf_report_junit : option path;
  cf_report_json : option path;
  cf_gha_summary : option path;
  cf_include_draft : bool;
  cf_include_network : bool;
  cf_marker_expr : option pystr;
}.

(** [x or y] for optional strings: an empty one counts as absent. *)
Definition or_str (x y : option pystr) : option pystr := match x with None | Some [] => y | x => x end.
Definition nonempty (x : option pystr) : option pystr := or_str x None.

(** [except ConformanceError] *)
Definition is_ConformanceError (e : exn) : bool :=
  match e with ConformanceError | ConfigError | ManifestError | FixtureMissing => true | _ => false end.

Section config.
Context `{PyUnicode} `{FloatText} (environ : pystr → option pystr).
(** The directory of the package, and [10.0]. *)
Context (package : path) (default_timeout : pyfloat).

Definition ENV_PREFIX : pystr := str "SHADOWNET_CONFORMANCE_".

Definition _bundled_specs_root : path := package ++ [str "_specs"].
Definition DEFAULT_SPECS_PATH : path := package.

(** ["ROLE=URL"] items; the first ["="] separates. *)
Fixpoint parse_targets (out : targets_of) (items : list pystr) : result targets_of :=
  match items with
  | [] => Ok out
  | raw :: items =>
      if negb (has_char 61 raw) then Raise ConfigError
      else
        let '(role_str, url) := partition_char 61 raw in
        role ← rethrow is_ValueError (λ _, ConfigError) (role_of (py_lower (strip role_str)));
        _ ← raise_if (bool_decide (role ∈ map fst out)) ConfigError;
        parse_targets (out ++ [(role, strip url)]) items
  end.
Definition _parse_target_list (items : list pystr) : result targets_of := parse_targets [] items.

Definition _env_list (suffix : pystr) : list pystr :=
  List.filter (λ item, negb (bool_decide (item = []))) (map strip (split_on 44 (default [] (environ (ENV_PREFIX ++ suffix))))).

Definition _env_str (suffix : pystr) : option pystr := nonempty (environ (ENV_PREFIX ++ suffix)).

Definition _env_bool (suffix : pystr) (d : bool) : bool :=
  match environ (ENV_PREFIX ++ suffix) with
  | None => d
  | Some raw => bool_decide (py_lower (strip raw) ∈ [str "1"; str "true"; str "yes"; str "on"])
  end.

Definition _resolve_gha_summary (value : option pystr) : option path :=
  match value with
  | None => None
  | Some value =>
      if bool_decide (value = str "auto") then path_of <$> nonempty (environ (str "GITHUB_STEP_SUMMARY"))
      else Some (path_of value)
  end.

(** The validator of the two target fields. *)
Definition _no_blank_urls (value : targets_of) : result targets_of :=
  if existsb (λ rt, bool_decide (strip rt.2 = [])) value then Raise (ValidationError []) else Ok value.

(** [args.target or _env_list(...)] *)
Definition arg_list (x : option (list pystr)) (env : list pystr) : list pystr := match x with None | Some [] => env | Some l => l end.

Definition from_namespace (args : Namespace) : result Config :=
  targets ← _parse_target_list (arg_list (ns_target args) (_env_list (str "TARGET")));
  peer_targets ← _parse_target_list (arg_list (ns_peer_target args) (_env_list (str "PEER_TARGET")));
  timeout ← match ns_http_timeout args with
            | Some t => Ok t
            | None => match _env_str (str "HTTP_TIMEOUT") with Some text => py_float text | None => Ok default_timeout end
            end;
  targets ← _no_blank_urls targets;
  peer_targets ← _no_blank_urls peer_targets;
  Ok {| cf_targets := targets;
        cf_peer_targets := peer_targets;
        cf_test_shadowname := or_str (ns_test_shadowname args) (_env_str (str "TEST_SHADOWNAME"));
        cf_specs_path := match or_str (ns_specs_path args) (_env_str (str "SPECS_PATH")) with
                         | Some p => path_of p
                         | None => DEFAULT_SPECS_PATH
                         end;
        cf_http_timeout_seconds := timeout;
        cf_report_junit := path_of <$> nonempty (ns_report_junit args);
        cf_report_json := path_of <$> nonempty (ns_report_json args);
        cf_gha_summary := _resolve_gha_summary (or_str (ns_gha_summary args) (_env_str (str "GHA_SUMMARY")));
        cf_include_draft := ns_include_draft args || _env_bool (str "INCLUDE_DRAFT") false;
        cf_include_network := negb (ns_no_network args) && _env_bool (str "INCLUDE_NETWORK") true;
        cf_marker_expr := or_str (ns_marker_expr args) (_env_str (str "MARKER_EXPR")) |}.

Definition target (c : Config) (role : Role) : option pystr := get_target role (cf_targets c).
Definition peer_target (c : Config) (role : Role) : option pystr := get_target role (cf_peer_targets c).
Definition has_round_trip (c : Config) (role : Role) : bool :=
  bool_decide (role ∈ map fst (cf_targets c)) && bool_decide (role ∈ map fst (cf_peer_targets c)).

(** The directory that holds [credentials/], [messages/], ... *)
Definition resolve_schemas_root (w : Fs) (specs_path : path) : result path :=
  if is_dir w (specs_path ++ [str "schemas"]) then Ok (specs_path ++ [str "schemas"])
  else if is_dir w (specs_path ++ [str "_specs"]) then Ok (specs_path ++ [str "_specs"])
  else if bool_decide (specs_path = package) && is_dir w _bundled_specs_root then Ok _bundled_specs_root
  else if bool_decide (path_name specs_path = str "schemas") && is_dir w specs_path then Ok specs_path
  else if is_dir w (_bundled_specs_root ++ [str "credentials"]) then Ok _bundled_specs_root
  else Raise OSError.

(** ** [cli.py] *)

Definition tests_dir (w : Fs) : result path :=
  let candidate := removelast (removelast package) ++ [str "tests"] in
  if is_dir w candidate then Ok candidate else Raise ConformanceError.

Definition _build_pytest_args (config : Config) : M Fs (list pystr) := λ w,
  match tests_dir w with
  | Raise e => (w, Raise e)
  | Ok dir =>
      let marker := match nonempty (cf_marker_expr config) with Some m => [str "-m"; m] | None => [] end in
      match cf_report_junit config with
      | Some p => (_ ← mkdir_parents (removelast p); mret ([path_text dir] ++ [str "--junit-xml=" ++ path_text p] ++ marker)) w
      | None => (w, Ok ([path_text dir] ++ marker))
      end
  end.

(** [main], on the parsed arguments; [pytest.main] finds the configuration in the
    environment. *)
Definition main (pytest_main : Config → list pystr → M Fs Z) (args : Namespace) : M Fs Z :=
  match from_namespace args with
  | Raise e => lift (if is_ConformanceError e then Ok 2 else Raise e)
  | Ok config => pytest_args ← _build_pytest_args config; pytest_main config pytest_args
  end.
End config.

(** ** Properties *)

Section target_properties.
Context `{PyUnicode}.

(** An item as the option documents it. *)
Definition target_item (rt : Role * pystr) : pystr := role_value rt.1 ++ [61] ++ rt.2.

Lemma role_value_facts r :
  (61 ∉ role_value r) ∧ strip (role_value r) = role_value r ∧ py_lower (role_value r) = role_value r ∧ role_of (role_value r) = Ok r.
Proof.
  split_and!; [by destruct r; apply (bool_decide_unpack _); vm_compute|by destruct r; vm_compute| |by destruct r; vm_compute].
  rewrite py_lower_ascii by (destruct r; apply forallb_Forall; vm_compute; reflexivity). by destruct r; vm_compute.
Qed.

Lemma parse_targets_items out ts :
  NoDup (map fst (out ++ ts)) → Forall (λ rt, strip rt.2 = rt.2) ts →
  parse_targets out (map target_item ts) = Ok (out ++ ts).
Proof.
  revert out. induction ts as [|[r url] ts IH]; intros out Hnd Hst; cbn [map parse_targets]; [by rewrite app_nil_r|].
  inversion Hst as [|?? Hu Hts]; subst. cbn [snd] in Hu. destruct (role_value_facts r) as (Hf & Hs & Hl & Ho).
  unfold target_item. cbn [fst snd]. rewrite (proj2 (has_char_spec 61 _)) by set_solver. cbn [negb].
  assert (partition_char 61 (role_value r ++ [61] ++ url) = (role_value r, url)) as -> by by apply partition_free.
  rewrite Hs, Hl, Ho. cbn [rethrow mbind result_bind]. rewrite Hu.
  rewrite bool_decide_false; cbn [raise_if mbind result_bind].
  - rewrite IH; [by rewrite <-app_assoc|by rewrite <-app_assoc|done].
  - rewrite map_app in Hnd. cbn in Hnd. apply NoDup_app in Hnd as (_ & Hd & _). intros Hin. apply (Hd r Hin). set_solver.
Qed.

(** Targets written as [ROLE=URL] are read back, in order; a role given twice is
    refused. *)
Lemma target_list_roundtrip ts :
  NoDup (map fst ts) → Forall (λ rt, strip rt.2 = rt.2) ts → _parse_target_list (map target_item ts) = Ok ts.
Proof. intros Hnd Hst. by apply (parse_targets_items []). Qed.

Lemma parse_targets_sound out items ts :
  NoDup (map fst out) → parse_targets out items = Ok ts → NoDup (map fst ts) ∧ out `prefix_of` ts ∧ length ts = (length out + length items)%nat.
Proof.
  revert out. induction items as [|raw items IH]; intros out Hnd; cbn [parse_targets].
  - intros ?. res_inv. cbn. by rewrite Nat.add_0_r.
  - destruct (has_char 61 raw); [|done]. cbn [negb]. destruct (partition_char 61 raw) as [rs url]. intros Hp. res_inv. bool_prop.
    match goal with Hp : parse_targets _ _ = Ok _ |- _ => apply IH in Hp as (Hn & Hpre & Hlen) end.
    + split_and!; [done| |rewrite Hlen, length_app; cbn; lia]. etrans; [|exact Hpre]. by apply prefix_app_r.
    + rewrite map_app. apply NoDup_app. split_and!; [done|set_solver|]. cbn. apply NoDup_singleton.
Qed.

(** A parsed list has one URL per item and no role twice. *)
Lemma target_list_sound items ts : _parse_target_list items = Ok ts → NoDup (map fst ts) ∧ length ts = length items.
Proof. intros Hp. apply parse_targets_sound in Hp as (? & _ & ?); [done|]. constructor. Qed.
End target_properties.

(** ** Examples *)

#[local] Existing Instance ascii_unicode.

(** The help text's own example names roles that do not exist. *)
Lemma documented_example_refused :
  _parse_target_list [str "sca=https://sca.example"; str "sns=https://sns.example"] = Raise ConfigError
  ∧ _parse_target_list [str "Provider = https://p.example?a=b"; str "issuer=https://i.example"]
    = Ok [(PROVIDER, str "https://p.example?a=b"); (ISSUER, str "https://i.example")].
Proof. vm_compute. split; reflexivity. Qed.

Definition no_args : Namespace := {|
  ns_target := None; ns_peer_target := None; ns_specs_path := None; ns_http_timeout := None; ns_report_junit := None;
  ns_report_json := None; ns_gha_summary := None; ns_include_draft := false; ns_no_network := false;
  ns_marker_expr := None; ns_test_shadowname := None |}.
Definition ten : pyfloat := {| float_truthy := true; float_repr := str "10.0" |}.

(** Without the option there is no summary, in CI either. *)
Lemma summary_not_default `{FloatText} :
  let github v := if bool_decide (v = str "GITHUB_STEP_SUMMARY") then Some (str "/tmp/s.md") else None in
  (cf_gha_summary <$> from_namespace github [] ten no_args) = Ok None.
Proof. vm_compute. reflexivity. Qed.

(** A target without URL is found by the model's validator, whose error is no
    [ConformanceError], and missing tests are found outside of the [try]: [main]
    lets both through, where an unknown role ends with 2. *)
Definition one_target (t : pystr) : Namespace := {|
  ns_target := Some [t]; ns_peer_target := None; ns_specs_path := None; ns_http_timeout := None; ns_report_junit := None;
  ns_report_json := None; ns_gha_summary := None; ns_include_draft := false; ns_no_network := false;
  ns_marker_expr := None; ns_test_shadowname := None |}.
Lemma main_lets_through `{FloatText} pytest_main :
  let run args := (main (λ _, None) [] ten pytest_main args {| fs_nodes := ∅; fs_writable _ := true |}).2 in
  run (one_target (str "sca=https://sca.example")) = Ok 2
  ∧ run (one_target (str "provider=")) = Raise (ValidationError [])
  ∧ run no_args = Raise ConformanceError.
Proof. vm_compute. repeat split. Qed.
