(* ===== verification/ConfReport.v ===== *)
(** * Reports of the conformance runner — [shadownet_conformance/reporters/rfc_json.py],
    [reporters/gha_summary.py], [_markers.py]

    The pytest plugin that requires an [rfc] marker on every conformance test,
    records the outcome of every marked test, and writes the report keyed by RFC
    requirement and its markdown summary.  What pytest passes to the hooks are
    records of the attributes the hooks read. *)

From S2P Require Import Prelude PyStr Jcs Dicts PyRepr PyJson Payment HermesText FileSystem.

(** ** What pytest gives *)

(** A marker with its arguments. *)
Record Marker := { mk_args : list json; mk_kwargs : pydict }.

Record Item := {
  it_nodeid : pystr;
  (** [get_closest_marker("rfc")] *)
  it_rfc : option Marker;
}.

Inductive phase : Type := Setup | Call | Teardown.

Record TestReport := {
  tr_when : phase;
  tr_passed : bool;
  tr_skipped : bool;
  (** [str(longrepr)] *)
  tr_longrepr : option pystr;
  tr_duration : pyfloat;
}.

(** ** [rfc_json.py] *)

Definition RFC_REQUIRED_DIRS : list pystr :=
  [str "provider"; str "issuer"; str "sidecar"; str "envelope"; str "credential"; str "csr"; str "status";
   str "agentcard"; str "addressing"; str "onboarding"; str "e2e"; str "conformance"].

Record _Outcome := {
  oc_rfc : pystr;
  oc_section : pystr;
  oc_requirement : pystr;
  oc_nodeid : pystr;
  oc_outcome : pystr;
  oc_duration_seconds : pyfloat;
  oc_longrepr : option pystr;
}.

(** The dictionary under a key, made where it is missing. *)
Definition sub_dict (k : pystr) (d : pydict) : pydict := match dict_get k d with Some (JDict e) => e | _ => [] end.

(** [by_rfc[rfc][section][requirement] = outcome] *)
Definition record_outcome (by_rfc : pydict) (o : _Outcome) : pydict :=
  let sections := sub_dict (oc_rfc o) by_rfc in
  let reqs := sub_dict (oc_section o) sections in
  dict_set (oc_rfc o)
    (JDict (dict_set (oc_section o) (JDict (dict_set (oc_requirement o) (JStr (oc_outcome o)) reqs)) sections)) by_rfc.

Record Summary := { sm_passed : Z; sm_failed : Z; sm_skipped : Z; sm_total : Z }.

Definition count_outcome (s : Summary) (o : _Outcome) : Summary :=
  let one w := Z.b2z (bool_decide (oc_outcome o = w)) in
  (* an outcome spelled "total" would count twice *)
  {| sm_passed := sm_passed s + one (str "passed"); sm_failed := sm_failed s + one (str "failed");
     sm_skipped := sm_skipped s + one (str "skipped"); sm_total := sm_total s + 1 + one (str "total") |}.

Definition by_rfc_of (outcomes : list _Outcome) : pydict := foldl record_outcome [] outcomes.
Definition summary_of (outcomes : list _Outcome) : Summary :=
  foldl count_outcome {| sm_passed := 0; sm_failed := 0; sm_skipped := 0; sm_total := 0 |} outcomes.

Definition outcome_json (o : _Outcome) : json :=
  JDict [(str "rfc", JStr (oc_rfc o)); (str "section", JStr (oc_section o)); (str "requirement", JStr (oc_requirement o));
         (str "nodeid", JStr (oc_nodeid o)); (str "outcome", JStr (oc_outcome o));
         (str "duration_seconds", JFloat (oc_duration_seconds o));
         (str "longrepr", match oc_longrepr o with Some t => JStr t | None => JNull end)].

Definition to_json (tool_version : pystr) (outcomes : list _Outcome) : pydict :=
  let s := summary_of outcomes in
  [(str "version", JStr (str "0.1"));
   (str "tool_version", JStr tool_version);
   (str "summary", JDict [(str "passed", JInt (sm_passed s)); (str "failed", JInt (sm_failed s));
                          (str "skipped", JInt (sm_skipped s)); (str "total", JInt (sm_total s))]);
   (str "by_rfc", JDict (by_rfc_of outcomes));
   (str "tests", JList (map outcome_json outcomes))].

(** [nodeid.split("::", 1)[0]] *)
Fixpoint before_colons (s : pystr) : pystr :=
  match s with
  | [] => []
  | c :: s' => if startswith [58; 58] s then [] else c :: before_colons s'
  end.

Definition _is_in_required_dir (item : Item) : bool :=
  match path_of (before_colons (it_nodeid item)) with
  | top :: dir :: _ => bool_decide (top = str "tests") && bool_decide (dir ∈ RFC_REQUIRED_DIRS)
  | _ => false
  end.

(** [kwargs.get(k)], and whether it counts as given. *)
Definition given (m : Marker) (k : pystr) : bool := truthy (default JNull (dict_get k (mk_kwargs m))).

(** A marker with a number, a section and a requirement. *)
Definition complete_marker (item : Item) : bool :=
  match it_rfc item with
  | None => false
  | Some m => negb (bool_decide (mk_args m = [])) && given m (str "section") && given m (str "requirement")
  end.

Definition pytest_collection_modifyitems (items : list Item) : result unit :=
  raise_if (existsb (λ item, _is_in_required_dir item && negb (complete_marker item)) items) ConformanceError.

Definition outcome_word (r : TestReport) : pystr :=
  if tr_passed r then str "passed" else if tr_skipped r then str "skipped" else str "failed".

(** What the hook appends for one report. *)
Definition pytest_runtest_makereport `{PyUnicode} (item : Item) (r : TestReport) : list _Outcome :=
  match tr_when r, tr_skipped r with
  | Call, _ | Setup, true =>
      match it_rfc item with
      | Some {| mk_args := number :: _; mk_kwargs := kw |} =>
          match dict_get (str "section") kw, dict_get (str "requirement") kw with
          | Some section, Some requirement =>
              let outcome := outcome_word r in
              [{| oc_rfc := py_str number; oc_section := py_str section; oc_requirement := py_str requirement;
                  oc_nodeid := it_nodeid item; oc_outcome := outcome;
                  oc_duration_seconds := tr_duration r;
                  oc_longrepr := if bool_decide (outcome = str "failed") then tr_longrepr r else None |}]
          | _, _ => []
          end
      | _ => []
      end
  | _, _ => []
  end.

(** A session: every report of every item, in the order pytest makes them. *)
Definition session `{PyUnicode} (reports : list (Item * TestReport)) : list _Outcome :=
  concat (map (λ ir, pytest_runtest_makereport ir.1 ir.2) reports).

(** ** [_markers.py] *)

Definition MARKERS : list (pystr * pystr) :=
  [(str "rfc(number, *, section, requirement)",
    str "Tag a test with the RFC + section + requirement identifier it asserts. "
    ++ str "Required on every test under tests/{provider,issuer,sidecar,envelope,"
    ++ str "credential,csr,status,agentcard,addressing,onboarding,e2e,conformance}.");
   (str "class_(role)", str "Tag a test with the conformance class it exercises: 'provider', 'issuer', or 'sidecar'.");
   (str "draft", str "Test asserts behavior from an RFC marked Draft. Skipped unless --include-draft.");
   (str "should", str "Test asserts an RFC SHOULD (not MUST). Included by default; tallied separately.");
   (str "network", str "Test requires live network access to a configured target. "
    ++ str "Auto-skipped when the target is absent.");
   (str "round_trip(role)", str "Test runs only when both --target <role> and --peer-target <role> are configured.")].

(** The lines of the option [markers] after registration. *)
Definition register_markers (markers : list pystr) : list pystr :=
  markers ++ map (λ dd, dd.1 ++ str ": " ++ dd.2) MARKERS.

(** ** [gha_summary.py] *)

Definition sorted_keys (d : pydict) : list pystr := map snd (sort_keyed (map (λ k, (k, k)) (keys d))).

Definition _OUTCOME_GLYPH (outcome : pystr) : pystr :=
  if bool_decide (outcome = str "passed") then [0x2713]
  else if bool_decide (outcome = str "failed") then [0x2717]
  else if bool_decide (outcome = str "skipped") then [0x2014]
  else str "?".

Section summary.
Context `{PyUnicode}.

(** [summary.get(k, 0)] in the text. *)
Definition summary_text (summary : pydict) (k : pystr) : pystr := py_str (default (JInt 0) (dict_get k summary)).

Definition requirement_row (section requirement outcome : pystr) : pystr :=
  str "| " ++ section ++ str " | `" ++ requirement ++ str "` | " ++ _OUTCOME_GLYPH outcome ++ [32] ++ outcome ++ str " |".

Definition rfc_table (rfc : pystr) (sections : pydict) : list pystr :=
  [str "### RFC-" ++ rfc; []; str "| Section | Requirement | Result |"; str "| --- | --- | --- |"]
  ++ concat (map (λ section,
       let reqs := sub_dict section sections in
       map (λ requirement, requirement_row section requirement (default [] (get_str requirement reqs))) (sorted_keys reqs))
     (sorted_keys sections))
  ++ [[]].

Definition render_summary_markdown (report : pydict) : pystr :=
  let summary := sub_dict (str "summary") report in
  let by_rfc := sub_dict (str "by_rfc") report in
  join_with [10]
    ([str "## Shadownet conformance"; [];
      str "**Total " ++ summary_text summary (str "total") ++ str "** " ++ [0x2014]
        ++ str " passed " ++ summary_text summary (str "passed")
        ++ str ", failed " ++ summary_text summary (str "failed")
        ++ str ", skipped " ++ summary_text summary (str "skipped"); []]
     ++ concat (map (λ rfc, rfc_table rfc (sub_dict rfc by_rfc)) (sorted_keys by_rfc))).
End summary.

(** ** Writing *)

Section finish.
Context `{PyUnicode} (tool_version : pystr).

Definition config_path (cfg : pydict) (attr : pystr) : option path :=
  match get_str attr cfg with None | Some [] => None | Some raw => Some (path_of raw) end.

(** [open("a")]: what was there stays. *)
Definition append_file (p : path) (text : pybytes) : M Fs unit := λ w,
  let old := match fs_nodes w !! p with Some (File c) => c | _ => [] end in write_file p (old ++ text) w.

(** [pytest_sessionfinish] with the configuration handed over, as JSON. *)
Definition pytest_sessionfinish (cfg : pydict) (outcomes : list _Outcome) : M Fs unit :=
  _ ← match config_path cfg (str "report_json") with
      | None => mret tt
      | Some p =>
          _ ← mkdir_parents (removelast p);
          text ← lift (encode_utf8 (json_dumps_indent 0 (JDict (to_json tool_version outcomes)) ++ [10]));
          write_file p text
      end;
  match config_path cfg (str "gha_summary") with
  | None => mret tt
  | Some p =>
      text ← lift (encode_utf8 (render_summary_markdown (to_json tool_version outcomes) ++ [10]));
      append_file p text
  end.
End finish.

(** ** Properties *)

(** [by_rfc[rfc][section][requirement]], where present. *)
Definition verdict (by_rfc : pydict) (rfc section requirement : pystr) : option json :=
  dict_get requirement (sub_dict section (sub_dict rfc by_rfc)).

(** Whether an outcome is about a requirement. *)
Definition concerns (rfc section requirement : pystr) (o : _Outcome) : bool :=
  bool_decide (oc_rfc o = rfc ∧ oc_section o = section ∧ oc_requirement o = requirement).

Lemma sub_dict_set k k' d e : sub_dict k (dict_set k' (JDict e) d) = if bool_decide (k = k') then e else sub_dict k d.
Proof. unfold sub_dict. rewrite dict_get_set. by case_bool_decide. Qed.

Lemma verdict_record by_rfc o rfc section requirement :
  verdict (record_outcome by_rfc o) rfc section requirement
  = if concerns rfc section requirement o then Some (JStr (oc_outcome o)) else verdict by_rfc rfc section requirement.
Proof.
  unfold verdict, record_outcome, concerns. rewrite sub_dict_set. case_bool_decide as E1; [subst rfc; rewrite sub_dict_set|].
  - case_bool_decide as E2; [subst section; rewrite dict_get_set|].
    + repeat case_bool_decide; naive_solver.
    + case_bool_decide; naive_solver.
  - case_bool_decide; naive_solver.
Qed.

(** The last outcome that concerns a requirement decides its entry. *)
Lemma verdict_last outcomes rfc section requirement :
  verdict (by_rfc_of outcomes) rfc section requirement
  = (λ o, JStr (oc_outcome o)) <$> last (List.filter (concerns rfc section requirement) outcomes).
Proof.
  unfold by_rfc_of. induction outcomes as [|o outcomes IH] using rev_ind; [done|].
  rewrite foldl_app, List.filter_app. cbn [foldl List.filter]. rewrite verdict_record, IH.
  destruct (concerns rfc section requirement o); [by rewrite last_snoc|by rewrite app_nil_r].
Qed.

Definition words : list pystr := [str "passed"; str "failed"; str "skipped"].
Definition count_word (w : pystr) (outcomes : list _Outcome) : Z := py_len (List.filter (λ o, bool_decide (oc_outcome o = w)) outcomes).

Lemma count_word_snoc w outcomes o :
  count_word w (outcomes ++ [o]) = count_word w outcomes + Z.b2z (bool_decide (oc_outcome o = w)).
Proof.
  unfold count_word, py_len. rewrite List.filter_app, length_app. cbn. case_bool_decide; cbn; lia.
Qed.

Lemma summary_counts outcomes :
  Forall (λ o, oc_outcome o ∈ words) outcomes →
  summary_of outcomes = {| sm_passed := count_word (str "passed") outcomes; sm_failed := count_word (str "failed") outcomes;
                           sm_skipped := count_word (str "skipped") outcomes; sm_total := py_len outcomes |}
  ∧ sm_passed (summary_of outcomes) + sm_failed (summary_of outcomes) + sm_skipped (summary_of outcomes)
    = sm_total (summary_of outcomes).
Proof.
  unfold summary_of. induction outcomes as [|o outcomes IH] using rev_ind; [done|].
  rewrite Forall_app, Forall_singleton. intros [Hall Ho]. destruct (IH Hall) as [E Hsum]. rewrite foldl_app. cbn [foldl].
  rewrite E in *. unfold count_outcome. cbn [sm_passed sm_failed sm_skipped sm_total] in *. rewrite !count_word_snoc.
  assert (py_len (outcomes ++ [o]) = py_len outcomes + 1) as -> by (unfold py_len; rewrite length_app; cbn; lia).
  unfold words in Ho. rewrite !elem_of_cons, elem_of_nil in Ho.
  destruct Ho as [->|[->|[->|[]]]]; vm_compute (Z.b2z _); rewrite ?Z.add_0_r; split; [done|lia|done|lia|done|lia].
Qed.

Section session_properties.
Context `{PyUnicode}.

Lemma makereport_words item r : Forall (λ o, oc_outcome o ∈ words) (pytest_runtest_makereport item r).
Proof.
  assert (outcome_word r ∈ words) as Hw by (unfold outcome_word; destruct (tr_passed r), (tr_skipped r); unfold words; set_solver).
  unfold pytest_runtest_makereport. repeat case_match; first [by apply Forall_nil_2 | by apply Forall_singleton].
Qed.

Lemma session_words reports : Forall (λ o, oc_outcome o ∈ words) (session reports).
Proof.
  unfold session. apply Forall_concat, Forall_map, Forall_forall. intros ir _. apply makereport_words.
Qed.

(** The report adds up: after a session, whatever pytest reported, passed,
    failed and skipped sum to the total, which is the number of recorded tests;
    the number of failures is the number of recorded failing tests; and the entry
    of a requirement is the outcome of the last recorded test for it, so a
    requirement without a recorded test has none. *)
Lemma report_adds_up (reports : list (Item * TestReport)) :
  let outcomes := session reports in
  let s := summary_of outcomes in
  sm_passed s + sm_failed s + sm_skipped s = sm_total s ∧ sm_total s = py_len outcomes
  ∧ sm_failed s = py_len (List.filter (λ o, bool_decide (oc_outcome o = str "failed")) outcomes)
  ∧ ∀ rfc section requirement,
      verdict (by_rfc_of outcomes) rfc section requirement
      = (λ o, JStr (oc_outcome o)) <$> last (List.filter (concerns rfc section requirement) outcomes).
Proof.
  cbn zeta. destruct (summary_counts (session reports) (session_words reports)) as [E Hsum]. split_and!.
  - exact Hsum.
  - by rewrite E.
  - by rewrite E.
  - intros. apply verdict_last.
Qed.

Lemma given_present m k : given m k = true → ∃ v, dict_get k (mk_kwargs m) = Some v.
Proof. unfold given. destruct (dict_get k (mk_kwargs m)) as [v|]; [by exists v|done]. Qed.

(** Once collection has passed, every test in a conformance directory has a
    complete marker; then a call of such a test is recorded, once. *)
Lemma collected_tests_recorded items item r :
  pytest_collection_modifyitems items = Ok tt → item ∈ items → _is_in_required_dir item = true → tr_when r = Call →
  ∃ o, pytest_runtest_makereport item r = [o] ∧ oc_nodeid o = it_nodeid item ∧ oc_outcome o = outcome_word r.
Proof.
  unfold pytest_collection_modifyitems. intros Hc Hin Hdir Hwhen. res_inv.
  apply existsb_false_Forall in Hc. rewrite Forall_forall in Hc. specialize (Hc item Hin). cbn in Hc.
  rewrite Hdir in Hc. cbn in Hc. apply negb_false_iff in Hc. unfold complete_marker in Hc.
  unfold pytest_runtest_makereport. rewrite Hwhen. destruct (it_rfc item) as [[args kw]|]; [|done].
  apply andb_prop in Hc as [Hc Hreq%given_present]. apply andb_prop in Hc as [Hargs Hsec%given_present].
  destruct args as [|number args]; [done|]. destruct Hsec as [section Hs], Hreq as [requirement Hr].
  cbn [mk_kwargs] in Hs, Hr. rewrite Hs, Hr. by eexists.
Qed.
End session_properties.

(** ** Examples *)

#[local] Existing Instance ascii_unicode.

Definition demo_marker : Marker :=
  {| mk_args := [JStr (str "0001")]; mk_kwargs := [(str "section", JStr (str "8.6")); (str "requirement", JStr (str "replay"))] |}.
Definition demo_item (n : pystr) : Item := {| it_nodeid := str "tests/sidecar/test_replay.py::" ++ n; it_rfc := Some demo_marker |}.
Definition demo_report (when : phase) (passed : bool) : TestReport :=
  {| tr_when := when; tr_passed := passed; tr_skipped := false; tr_longrepr := Some (str "boom");
     tr_duration := {| float_truthy := true; float_repr := str "0.1" |} |}.

(** Two tests of one requirement, the first fails: the report keyed by
    requirement, and the table made from it, say that it passed. *)
Lemma later_pass_hides_failure :
  let outcomes := session [(demo_item (str "a"), demo_report Call false); (demo_item (str "b"), demo_report Call true)] in
  verdict (by_rfc_of outcomes) (str "0001") (str "8.6") (str "replay") = Some (JStr (str "passed"))
  ∧ sm_failed (summary_of outcomes) = 1
  ∧ contains ([0x2713] ++ str " passed") (render_summary_markdown (to_json [] outcomes)) = true
  ∧ contains ([0x2717] ++ str " failed") (render_summary_markdown (to_json [] outcomes)) = false.
Proof. vm_compute. repeat split. Qed.

(** A test whose fixture raises fails in its setup and is not in the report. *)
Lemma setup_failure_unrecorded : session [(demo_item (str "a"), demo_report Setup false)] = [].
Proof. reflexivity. Qed.
