(* ===== verification/ConfFixtures.v ===== *)
(** * Fixture files — [shadownet_conformance/fixtures.py], [regen/manifest.py]

    Seeds and the fixture manifest, read from TOML and validated, and the helpers
    through which tests load fixtures.  The TOML parser is the class [Toml]; the
    dates and times of TOML, which no fixture has, are not represented. *)

From S2P Require Import Prelude PyStr Base64 Jcs Dicts PyJson Pydantic Mcp FileSystem.

(** ** [bytes.fromhex], [bytes.hex], text files *)

(** The white space [bytes.fromhex] skips between two bytes. *)
Definition hex_space (c : Z) : bool := (c =? 32) || ((9 <=? c) && (c <=? 13)).

Definition cons_byte (b : Z) (r : result pybytes) : result pybytes := bs ← r; Ok (b :: bs).

(** [open] is the first digit of a byte whose second one is to come. *)
Fixpoint fromhex_loop (open : option Z) (s : pystr) : result pybytes :=
  match s, open with
  | [], None => Ok []
  | [], Some _ => Raise ValueError
  | c :: s, None =>
      if hex_space c then fromhex_loop None s
      else match hex_val c with Some hi => fromhex_loop (Some hi) s | None => Raise ValueError end
  | c :: s, Some hi =>
      match hex_val c with Some lo => cons_byte (16 * hi + lo) (fromhex_loop None s) | None => Raise ValueError end
  end.
Definition fromhex (s : pystr) : result pybytes := fromhex_loop None s.

Definition hex_byte (b : Z) : pystr := [hex_digit (b / 16); hex_digit (b mod 16)].
Definition to_hex (bs : pybytes) : pystr := concat (map hex_byte bs).

Definition decode_ascii (bs : pybytes) : result pystr :=
  if forallb is_ascii bs then Ok bs else Raise UnicodeDecodeError.

(** Universal newlines: what a text file reads as. *)
Fixpoint universal_newlines (s : pystr) : pystr :=
  match s with
  | [] => []
  | 13 :: 10 :: s => 10 :: universal_newlines s
  | 13 :: s => 10 :: universal_newlines s
  | c :: s => c :: universal_newlines s
  end.

(** [p.read_text(encoding="utf-8")] *)
Definition read_text (w : Fs) (p : path) : result pystr :=
  content ← read_bytes w p; text ← decode_utf8 content; Ok (universal_newlines text).

(** [p / s]: an absolute text replaces the path. *)
Definition path_join (p : path) (s : pystr) : path := if startswith [47] s then path_of s else p ++ path_of s.

(** [tomllib.loads] *)
Class Toml : Type := { toml_loads : pystr → result pydict }.

(** ** [regen/manifest.py] *)

Definition SEED_BYTES : Z := 32.

Definition _hex_is_32_bytes (value : pystr) : result pystr :=
  raw ← fromhex value;
  _ ← raise_if (negb (py_len raw =? SEED_BYTES)) ValueError;
  Ok (map ascii_lower value).

Record Seed := { seed_hex : pystr }.
Definition Seed_fields (v : json) : result Seed :=
  match v with
  | JDict d =>
      forbid [(str "hex", str "hex")] d (Ok (λ h, {| seed_hex := h |}) <*> v_after _hex_is_32_bytes (dict_get (str "hex") d))
  | _ => invalid
  end.
Definition to_bytes (s : Seed) : result pybytes := fromhex (seed_hex s).

(** [Literal[2]] *)
Definition v_version (v : option json) : result Z := match v with Some (JInt 2) => Ok 2 | _ => invalid end.

(** [dict[str, Seed]]: all entries are validated. *)
Fixpoint v_seeds (d : pydict) : result (list (pystr * Seed)) :=
  match d with
  | [] => Ok []
  | (name, v) :: d => Ok (λ s l, (name, s) :: l) <*> Seed_fields v <*> v_seeds d
  end.

Record SeedsFile := { sf_schema_version : Z; sf_seeds : list (pystr * Seed) }.
Definition SeedsFile_validate `{Pydantic} (d : pydict) : result SeedsFile :=
  model_validate (str "SeedsFile") d
    (forbid [(str "schema_version", str "schema_version"); (str "seeds", str "seeds")] d
      (Ok (λ v s, {| sf_schema_version := v; sf_seeds := s |})
       <*> v_version (dict_get (str "schema_version") d)
       <*> (seeds ← v_dict (dict_get (str "seeds") d); v_seeds seeds))).

Definition FixtureKind : list pystr :=
  [str "key"; str "credential"; str "csr"; str "envelope"; str "agentcard"; str "status_bitstring"].

Record FixtureEntry := {
  fe_id : pystr;
  fe_kind : pystr;
  fe_out : pystr;
  fe_spec : pydict;
}.
Definition FixtureEntry_fields (v : json) : result FixtureEntry :=
  match v with
  | JDict d =>
      forbid [(str "id", str "id"); (str "kind", str "kind"); (str "out", str "out"); (str "spec", str "spec")] d
        (Ok (λ i k o s, {| fe_id := i; fe_kind := k; fe_out := o; fe_spec := s |})
         <*> v_str (dict_get (str "id") d)
         <*> v_literal FixtureKind (dict_get (str "kind") d)
         <*> v_str (dict_get (str "out") d)
         <*> v_dict (dict_get (str "spec") d))
  | _ => invalid
  end.

Fixpoint v_entries (l : list json) : result (list FixtureEntry) :=
  match l with
  | [] => Ok []
  | v :: l => Ok cons <*> FixtureEntry_fields v <*> v_entries l
  end.

Record Manifest := { mf_schema_version : Z; mf_fixtures : list FixtureEntry }.

(** [Field(min_length=1)] *)
Definition v_fixtures (v : option json) : result (list FixtureEntry) :=
  match v with Some (JList (e :: l)) => v_entries (e :: l) | _ => invalid end.
Definition Manifest_validate `{Pydantic} (d : pydict) : result Manifest :=
  model_validate (str "Manifest") d
    (forbid [(str "schema_version", str "schema_version"); (str "fixtures", str "fixtures")] d
      (Ok (λ v l, {| mf_schema_version := v; mf_fixtures := l |})
       <*> v_version (dict_get (str "schema_version") d)
       <*> v_fixtures (dict_get (str "fixtures") d))).

Section manifest.
Context `{Pydantic} `{Toml}.

Definition is_TOMLDecodeError (e : exn) : bool := bool_decide (e = TOMLDecodeError).

Definition _read_toml (w : Fs) (p : path) : result pydict :=
  _ ← raise_if (negb (is_file w p)) ManifestError;
  rethrow is_TOMLDecodeError (λ _, ManifestError) (text ← read_text w p; toml_loads text).

Definition load_seeds (w : Fs) (p : path) : result (list (pystr * pybytes)) :=
  raw ← _read_toml w p;
  parsed ← SeedsFile_validate raw;
  mapM (λ ns, b ← to_bytes ns.2; Ok (ns.1, b)) (sf_seeds parsed).

Definition load_manifest (w : Fs) (p : path) : result Manifest :=
  raw ← _read_toml w p;
  Manifest_validate raw.
End manifest.

(** ** [fixtures.py] *)

Section fixtures.
(** [Path(__file__).resolve()], and what [@cache] holds of [fixtures_root]. *)
Context (here : path).

(** [here.parents[n]] *)
Fixpoint parents (n : nat) (p : path) : path := match n with O => removelast p | S n => parents n (removelast p) end.

(** A root that was found is remembered; a failure is not. *)
Definition fixtures_root (w : Fs) (cached : option path) : option path * result path :=
  match cached with
  | Some root => (Some root, Ok root)
  | None =>
      let candidate := parents 2 here ++ [str "fixtures"] in
      if is_dir w candidate then (Some candidate, Ok candidate) else (None, Raise FixtureMissing)
  end.

Definition _path (w : Fs) (cached : option path) (rel_path : pystr) : option path * result path :=
  let '(cached, root) := fixtures_root w cached in
  (cached, root ← root;
           let full := path_join root rel_path in
           _ ← raise_if (negb (is_file w full)) FixtureMissing;
           Ok full).
Definition fixture_path : Fs → option path → pystr → option path * result path := _path.

Definition _read_text (w : Fs) (cached : option path) (rel_path : pystr) : option path * result pystr :=
  let '(cached, full) := _path w cached rel_path in (cached, full ← full; read_text w full).
Definition load_bytes (w : Fs) (cached : option path) (rel_path : pystr) : option path * result pybytes :=
  let '(cached, full) := _path w cached rel_path in (cached, full ← full; read_bytes w full).
Definition load_jwt (w : Fs) (cached : option path) (rel_path : pystr) : option path * result pystr :=
  let '(cached, text) := _read_text w cached rel_path in (cached, text ← text; Ok (strip text)).
Definition load_json (w : Fs) (cached : option path) (rel_path : pystr) : option path * result json :=
  let '(cached, text) := _read_text w cached rel_path in (cached, text ← text; json_loads text).
End fixtures.

(** ** Properties *)

Lemma fromhex_to_hex bs : is_bytes bs → fromhex (to_hex bs) = Ok bs.
Proof.
  unfold fromhex, to_hex. induction 1 as [|b bs Hb _ IH]; [done|].
  cbn [map concat hex_byte app fromhex_loop].
  assert (0 ≤ b / 16 < 16 ∧ 0 ≤ b mod 16 < 16) as [Hhi Hlo]
    by (split; [split; [apply Z.div_pos|apply Z.div_lt_upper_bound]; lia|apply Z.mod_pos_bound; lia]).
  assert (hex_space (hex_digit (b / 16)) = false) as ->.
  { unfold hex_space, hex_digit. destruct (b / 16 <? 10) eqn:E; bool_prop; lia. }
  rewrite !hex_val_digit by done. rewrite IH. cbn. by rewrite <-Z.div_mod by lia.
Qed.

Lemma hex_val_bounds c d : hex_val c = Some d → 0 ≤ d < 16.
Proof. unfold hex_val, is_num. repeat case_match; intros [= <-]; bool_prop; lia. Qed.

Lemma fromhex_loop_bytes open s bs :
  match open with Some hi => 0 ≤ hi < 16 | None => True end → fromhex_loop open s = Ok bs → is_bytes bs.
Proof.
  revert open bs. induction s as [|c s IH]; intros open bs Ho E; cbn in E.
  { destruct open; res_inv. constructor. }
  destruct open as [hi|].
  - destruct (hex_val c) as [lo|] eqn:Ec; [|done]. apply hex_val_bounds in Ec. unfold cons_byte in E. res_inv.
    constructor; [lia|]. by apply (IH None).
  - destruct (hex_space c); [by apply (IH None)|]. destruct (hex_val c) as [hi|] eqn:Ec; [|done].
    apply hex_val_bounds in Ec. by apply (IH (Some hi)).
Qed.

Lemma lower_hex c : hex_space (ascii_lower c) = hex_space c ∧ hex_val (ascii_lower c) = hex_val c.
Proof.
  unfold ascii_lower, is_upper. destruct ((65 <=? c) && (c <=? 90)) eqn:E; [|done]. bool_prop.
  unfold hex_space, hex_val, is_num. split; repeat case_match; bool_prop; try lia; f_equal; lia.
Qed.

Lemma fromhex_loop_lower open s : fromhex_loop open (map ascii_lower s) = fromhex_loop open s.
Proof.
  revert open. induction s as [|c s IH]; intros [hi|]; cbn; try done; rewrite ?(proj1 (lower_hex c)), ?(proj2 (lower_hex c)), ?IH; [done|].
  destruct (hex_val c); [by rewrite IH|done].
Qed.

(** A seed that validates is 32 bytes, which [to_bytes] gives. *)
Lemma Seed_validated v s : Seed_fields v = Ok s → ∃ b, to_bytes s = Ok b ∧ is_bytes b ∧ py_len b = SEED_BYTES.
Proof.
  unfold Seed_fields, forbid. destruct v; try done. intros E. field_inv.
  match goal with Hv : v_after _ _ = Ok _ |- _ => apply v_after_ok in Hv as (t & _ & Ht) end.
  unfold _hex_is_32_bytes in Ht. res_inv. bool_prop. unfold to_bytes, fromhex in *. cbn [seed_hex].
  rewrite fromhex_loop_lower. eexists. split_and!; [done|by eapply (fromhex_loop_bytes None)|done].
Qed.

Lemma v_seeds_validated d l ns : v_seeds d = Ok l → ns ∈ l → ∃ v, Seed_fields v = Ok ns.2.
Proof.
  revert l. induction d as [|[name v] d IH]; intros l E Hin; cbn [v_seeds] in E; [res_inv; set_solver|].
  field_inv. apply elem_of_cons in Hin as [->|Hin]; [by exists v|by eapply IH].
Qed.

Lemma load_seeds_sound `{Pydantic} `{Toml} w p seeds :
  load_seeds w p = Ok seeds → Forall (λ ns, is_bytes ns.2 ∧ py_len ns.2 = SEED_BYTES) seeds.
Proof.
  unfold load_seeds, SeedsFile_validate, forbid. intros E. res_inv. field_inv. res_inv. cbn [sf_seeds] in *.
  match goal with Hm : mapM _ _ = Ok _ |- _ => apply mapM_ok in Hm end.
  eapply Forall2_Forall_r; [eassumption|]. apply Forall_forall. intros ns Hns b Hb. res_inv. cbn.
  match goal with Hs : v_seeds _ = Ok _ |- _ => destruct (v_seeds_validated _ _ _ Hs Hns) as [v Hv] end.
  apply Seed_validated in Hv as (b & Hb & Hbytes & Hlen). split; congruence.
Qed.
