(* ===== verification/ConfEmit.v ===== *)
(** * The fixture emitter — [shadownet_conformance/regen/py_emit/__main__.py]

    A process that reads a JSON specification, calls the signing primitives of the
    SDK and writes one fixture; every exception that is not a [KeyError] ends it
    with a traceback and exit code 1. *)

From S2P Require Import Prelude PyStr PyInt Base64 Multibase Identifiers Jcs Dicts PyJson PyRepr Crypto Provider Pydantic.
From S2P Require Import Credential Status Envelope AgentCard Csr Payment Mcp FileSystem ConfFixtures.

(** [sort_keys=True]: keys by code point, at every level. *)
Fixpoint sort_json (v : json) : json :=
  match v with
  | JList l => JList (map sort_json l)
  | JDict d => JDict (map snd (sort_keyed (map (λ kv, (kv.1, (kv.1, sort_json kv.2))) d)))
  | v => v
  end.
Definition _canonical_json (value : json) : pystr := json_dumps_compact (sort_json value).

(** Iterating over a decoded value. *)
Definition py_iter (v : json) : result (list json) :=
  match v with
  | JList l => Ok l
  | JStr s => Ok (map (λ c, JStr [c]) s)
  | JDict d => Ok (map JStr (keys d))
  | _ => Raise TypeError
  end.

(** [spec[k]] and [spec.get(k, d)] *)
Definition item (spec : pydict) (k : pystr) : result json := of_option KeyError (dict_get k spec).
Definition item_or (spec : pydict) (k : pystr) (d : json) : json := default d (dict_get k spec).

Section emit.
Context `{PyUnicode} `{PyFloat} `{Pydantic} `{PyJWT} `{Gzip}.

Definition _key_from_seed (seed_hex : json) : result Ed25519KeyPair :=
  match seed_hex with
  | JStr s => seed ← fromhex s; from_seed seed
  | _ => Raise TypeError
  end.

(** [keys[name]]: of a dictionary; a list or a string has no string index. *)
Definition _resolve_id (value : json) (keys : json) : result json :=
  match value with
  | JStr v =>
      if startswith (str "$pk:") v then
        match keys with
        | JDict d => of_option KeyError (dict_get (drop 4 v) d)
        | _ => Raise TypeError
        end
      else Ok (JStr v)
  | _ => Raise AttributeError
  end.

Definition encoded_keys_of (spec : pydict) : json := item_or spec (str "encoded_keys") (JDict []).
Definition id_of (spec : pydict) (k : pystr) : result json := v ← item spec k; _resolve_id v (encoded_keys_of spec).
Definition int_of (spec : pydict) (k : pystr) : result Z := item spec k ≫= py_int_of.
Definition str_of (spec : pydict) (k : pystr) : result pystr := v ← item spec k; Ok (py_str v).
Definition key_of (spec : pydict) (k : pystr) : result Ed25519KeyPair := item spec k ≫= _key_from_seed.

(** The text as ASCII (JSON is ASCII already) and a newline. *)
Definition ascii_line (text : pystr) : result pybytes := b ← encode_ascii text; Ok (b ++ [10]).
Definition json_line (v : json) : result pybytes := b ← encode_utf8 (_canonical_json v); Ok (b ++ [10]).

Definition emit_key (spec : pydict) : result pybytes :=
  kp ← key_of spec (str "seed_hex");
  public ← encode_public_key (public_bytes kp);
  private ← private_jwk kp;
  json_line (JDict [(str "public_key", JStr public); (str "public_jwk", JDict (public_jwk kp));
                    (str "private_jwk", JDict private)]).

(** [RevocationPointer(...)] is validated on its own. *)
Definition rev_json (epoch : pystr) (idx : Z) : json := JDict [(str "epoch", JStr epoch); (str "idx", JInt idx)].

Definition emit_credential (spec : pydict) : result pybytes :=
  issuer_key ← key_of spec (str "issuer_seed_hex");
  issuer ← id_of spec (str "issuer");
  sub ← id_of spec (str "sub");
  org ← id_of spec (str "org");
  iat ← int_of spec (str "iat");
  exp ← int_of spec (str "exp");
  epoch ← str_of spec (str "epoch");
  idx ← int_of spec (str "idx");
  _ ← validate_rev (Some (rev_json epoch idx));
  payload ← CredentialPayload_validate
    [(str "iss", issuer); (str "sub", sub); (str "kind", JStr ORG_AFFILIATION); (str "org", org);
     (str "iat", JInt iat); (str "exp", JInt exp); (str "rev", rev_json epoch idx)];
  jws ← mint_credential payload issuer_key;
  ascii_line jws.

Definition emit_csr (spec : pydict) : result pybytes :=
  subject_key ← key_of spec (str "subject_seed_hex");
  iss ← id_of spec (str "iss");
  aud ← id_of spec (str "aud");
  iat ← int_of spec (str "iat");
  exp ← int_of spec (str "exp");
  kind ← str_of spec (str "req_kind");
  org ← id_of spec (str "req_org");
  let req := JDict [(str "kind", JStr kind); (str "org", org)] in
  _ ← CsrRequest_validate (Some req);
  payload ← CsrPayload_validate
    [(str "iss", iss); (str "aud", aud); (str "iat", JInt iat); (str "exp", JInt exp); (str "req", req)];
  jws ← mint_csr payload subject_key;
  _ ← raise_if (negb (count_char 46 jws =? 2)) (OtherException (str "AssertionError"));
  ascii_line jws.

Definition emit_envelope (spec : pydict) : result pybytes :=
  sender_key ← key_of spec (str "sender_seed_hex");
  creds_jws ← py_iter (item_or spec (str "creds_jws") (JList []));
  sender ← id_of spec (str "from_id");
  recipient ← id_of spec (str "to_id");
  let given := item_or spec (str "msg_hash") JNull in
  let msg_hash := if truthy given then py_str given else str "sha256:placeholder" in
  iat ← int_of spec (str "iat");
  exp ← int_of spec (str "exp");
  text ← str_of spec (str "body_text");
  payload ← EnvelopePayload_validate
    [(str "v", JStr (str "0.2")); (str "sender", sender); (str "recipient", recipient); (str "msg_hash", JStr msg_hash);
     (str "iat", JInt iat); (str "exp", JInt exp); (str "body", JDict [(str "text", JStr text)]); (str "creds", JList creds_jws)];
  jws ← mint_envelope payload sender_key;
  ascii_line jws.

Definition emit_agentcard (spec : pydict) : result pybytes :=
  mode ← item spec (str "mode");
  card ←
    if json_is_str (str "shadowname") mode then
      name ← str_of spec (str "name");
      description ← str_of spec (str "description");
      version ← str_of spec (str "version");
      a2a_url ← str_of spec (str "a2a_url");
      subject ← key_of spec (str "subject_seed_hex");
      shadow_public_key ← encode_public_key (public_bytes subject);
      provider_key ← key_of spec (str "provider_seed_hex");
      provider_domain ← str_of spec (str "provider_domain");
      build_signed_agent_card name description version a2a_url shadow_public_key provider_key provider_domain None
    else if json_is_str (str "direct") mode then
      name ← str_of spec (str "name");
      description ← str_of spec (str "description");
      version ← str_of spec (str "version");
      a2a_url ← str_of spec (str "a2a_url");
      shadow_key ← key_of spec (str "subject_seed_hex");
      build_direct_signed_agent_card name description version a2a_url shadow_key None
    else Raise ValueError;
  json_line (JDict card).

Fixpoint revoke_each (sl : StatusList) (idxs : list json) : result StatusList :=
  match idxs with
  | [] => Ok sl
  | idx :: idxs => i ← py_int_of idx; sl ← with_revoked sl i; revoke_each sl idxs
  end.

Definition emit_status_bitstring (spec : pydict) : result pybytes :=
  size ← int_of spec (str "size_bits");
  revoked ← py_iter (item_or spec (str "revoked_idx") (JList []));
  sl ← revoke_each (empty size) revoked;
  ascii_line (encode_status_list sl).

(** The registered emitters. *)
Definition EMITTERS : list (pystr * (pydict → result pybytes)) :=
  [(str "key", emit_key); (str "credential", emit_credential); (str "csr", emit_csr); (str "envelope", emit_envelope);
   (str "agentcard", emit_agentcard); (str "status_bitstring", emit_status_bitstring)].

(** Indexing a decoded value that is no dictionary with a string. *)
Definition _dispatch (kind : pystr) (spec : json) : result pybytes :=
  match List.find (λ ke, bool_decide (ke.1 = kind)) EMITTERS with
  | None => Raise KeyError
  | Some (_, emitter) => match spec with JDict d => emitter d | _ => Raise TypeError end
  end.

(** The process [python -m shadownet_conformance.regen.py_emit *argv[1:]]: exit code and standard output. *)
Definition py_emit (argv : list pystr) (stdin : pystr) : Z * pybytes :=
  match argv with
  | [_; kind] =>
      match spec ← json_loads stdin; Ok (_dispatch kind spec) with
      | Raise _ => (1, [])
      | Ok (Ok out) => (0, out)
      | Ok (Raise KeyError) => (2, [])
      | Ok (Raise _) => (1, [])
      end
  | _ => (2, [])
  end.
End emit.

(** ** The emitted status list *)

Section status_fixture.
Context `{PyUnicode} `{PyFloat} `{Gzip}.

Lemma revoke_each_all sl idxs : revoke_each sl (map JInt idxs) = revoke_all sl idxs.
Proof. revert sl. induction idxs as [|i idxs IH]; intros sl; cbn; [done|]. destruct (with_revoked sl i); [apply IH|done]. Qed.

Lemma strip_b64u_line bs : is_bytes bs → bs ≠ [] → strip (_b64u bs ++ [10]) = strip (_b64u bs).
Proof.
  intros Hb Hne. pose proof (b64u_ne bs Hne Hb) as Hne'. pose proof (_b64u_url bs Hb) as Hu.
  destruct (_b64u bs) as [|c s]; [done|]. apply Forall_cons in Hu as [Hc _].
  assert (∀ t, lstrip_by is_space ((c :: s) ++ t) = (c :: s) ++ t) as Hl.
  { intros t. apply lstrip_by_id. intros c' s' [= <- _]. by apply url_char_not_space. }
  unfold strip. rewrite Hl. pose proof (Hl []) as Hl'. rewrite app_nil_r in Hl'. rewrite Hl'.
  unfold rstrip_by. by rewrite rev_app_distr.
Qed.

(** The emitted line is a list of which exactly the given indices are revoked. *)
Lemma emitted_status_decodes spec n idxs :
  dict_get (str "size_bits") spec = Some (JInt n) → dict_get (str "revoked_idx") spec = Some (JList (map JInt idxs)) →
  0 < n → Forall (λ i, 0 ≤ i < n) idxs →
  ∃ line l, emit_status_bitstring spec = Ok line ∧ decode_status_list line = Ok l
    ∧ ∀ j, 0 ≤ j < n → is_revoked l j = Ok (bool_decide (j ∈ idxs)).
Proof.
  intros Hsize Hidx Hn HF. destruct (revoked_list_reads n idxs Hn HF) as (sl & Hr & _ & l & Hd & Hrev).
  exists (encode_status_list sl ++ [10]), l. split_and!; [| |done].
  - unfold emit_status_bitstring, int_of, item, item_or. rewrite Hsize, Hidx. cbn [of_option default py_iter id mbind result_bind py_int_of].
    rewrite revoke_each_all, Hr. cbn [mbind result_bind]. unfold ascii_line, encode_ascii, encode_status_list in *.
    rewrite (proj2 (forallb_Forall _ _)); [done|]. apply _b64u_ascii. case_match; [apply os_byte_bytes|apply gzip_bytes].
  - rewrite <-Hd. unfold encode_status_list, decode_status_list. rewrite strip_b64u_line; [done| |].
    + case_match; [apply os_byte_bytes|apply gzip_bytes].
    + pose proof (gzip_header (bits sl)). intros E. apply (f_equal length) in E. revert E.
      unfold set_os_byte. case_match; rewrite ?length_insert; cbn; lia.
Qed.
End status_fixture.
