(* ===== verification/ConfRegen.v ===== *)
(** * Regenerating fixtures — [shadownet_conformance/regen/cli.py]

    [regen] emits every selected fixture and writes it; [regen --check] emits the
    same bytes and compares them with the files.  The two agree: what one wrote
    the other accepts, and what the other accepts the first would write again. *)

From S2P Require Import Prelude PyStr Base64 Multibase Identifiers Jcs Dicts PyJson PyRepr Crypto Provider Pydantic.
From S2P Require Import Credential Status Envelope AgentCard Csr Payment Mcp FileSystem HermesConfig ConfConfig ConfFixtures ConfEmit.

Definition is_CalledProcessError (e : exn) : bool := bool_decide (e = CalledProcessError).

(** [{name: 32-byte seed}] *)
Abbreviation seeds_of := (list (pystr * pybytes)).
Definition seed_named (seeds : seeds_of) (name : pystr) : option pybytes :=
  snd <$> List.find (λ ns, bool_decide (ns.1 = name)) seeds.

Section regen.
Context `{PyUnicode} `{PyFloat} `{Pydantic} `{PyJWT} `{Gzip} `{Toml}.
(** [REPO_ROOT], and [sys.executable -m shadownet_conformance.regen.py_emit] as [argv[0]]. *)
Context (REPO_ROOT : path) (argv0 : pystr).

Definition FIXTURES_ROOT : path := REPO_ROOT ++ [str "fixtures"].
Definition SEEDS_PATH : path := REPO_ROOT ++ [str "fixtures"; str "seeds.toml"].
Definition MANIFEST_PATH : path := REPO_ROOT ++ [str "fixtures"; str "_regen"; str "manifest.toml"].

(** What is dumped is ASCII: its bytes are its text. *)
Definition _run_py_emit (kind : pystr) (spec : pydict) : result pybytes :=
  stdin ← encode_utf8 (json_dumps (JDict spec));
  let '(returncode, stdout) := py_emit [argv0; kind] stdin in
  if returncode =? 0 then Ok stdout else Raise CalledProcessError.

Definition _select (manifest : Manifest) (only : option (list pystr)) : list FixtureEntry :=
  match only with
  | None | Some [] => mf_fixtures manifest
  | Some wanted => List.filter (λ e, bool_decide (fe_id e ∈ wanted)) (mf_fixtures manifest)
  end.

Definition _encoded_keys (seeds : seeds_of) : result pydict :=
  mapM (λ ns, kp ← from_seed ns.2; pk ← encode_public_key (public_bytes kp); Ok (ns.1, JStr pk)) seeds.

(** [spec[k + "_hex"] = seeds[spec.pop(k)].hex()], if [k] is there.  A list or a
    dictionary is no key; any other value that is no string is not found. *)
Definition resolve_seed (seeds : seeds_of) (k khex : pystr) (spec : pydict) : result pydict :=
  match dict_get k spec with
  | None => Ok spec
  | Some (JStr name) =>
      seed ← of_option KeyError (seed_named seeds name);
      Ok (dict_set khex (JStr (to_hex seed)) (dict_del k spec))
  | Some (JList _ | JDict _) => Raise TypeError
  | Some _ => Raise KeyError
  end.

(** The bytes of a referenced credential: emitted in this run, or on disk. *)
Definition cred_data (w : Fs) (written_fixtures : gmap pystr pybytes) (ref : json) : result pybytes :=
  match ref with
  | JStr ref =>
      match written_fixtures !! ref with
      | Some data => Ok data
      | None =>
          let disk := path_join FIXTURES_ROOT ref in
          _ ← raise_if (negb (is_file w disk)) ConformanceError;
          read_bytes w disk
      end
  | _ => Raise TypeError
  end.
Definition cred_jws (w : Fs) (written_fixtures : gmap pystr pybytes) (ref : json) : result json :=
  data ← cred_data w written_fixtures ref; text ← decode_ascii data; Ok (JStr (strip text)).

Definition resolve_seeds (seeds : seeds_of) (spec : pydict) : result pydict :=
  spec ← resolve_seed seeds (str "seed") (str "seed_hex") spec;
  spec ← resolve_seed seeds (str "issuer_seed") (str "issuer_seed_hex") spec;
  spec ← resolve_seed seeds (str "subject_seed") (str "subject_seed_hex") spec;
  spec ← resolve_seed seeds (str "provider_seed") (str "provider_seed_hex") spec;
  resolve_seed seeds (str "sender_seed") (str "sender_seed_hex") spec.

Definition resolve_creds (w : Fs) (written_fixtures : gmap pystr pybytes) (spec : pydict) : result pydict :=
  match dict_get (str "creds") spec with
  | None => Ok spec
  | Some creds =>
      refs ← py_iter creds;
      creds_jws ← mapM (cred_jws w written_fixtures) refs;
      Ok (dict_set (str "creds_jws") (JList creds_jws) (dict_del (str "creds") spec))
  end.

Definition _resolve_spec (w : Fs) (entry : FixtureEntry) (seeds : seeds_of) (encoded_keys : pydict)
    (written_fixtures : gmap pystr pybytes) : result pydict :=
  spec ← resolve_seeds seeds (fe_spec entry);
  spec ← resolve_creds w written_fixtures spec;
  Ok (dict_set (str "encoded_keys") (JDict encoded_keys) spec).

(** What the loop of [_cmd_regen] carries. *)
Record Progress := {
  written_fixtures : gmap pystr pybytes;
  drifted : list pystr;
  written : list pystr;
}.
Definition remember_fixture (out : pystr) (emitted : pybytes) (g : Progress) : Progress :=
  {| written_fixtures := <[out := emitted]> (written_fixtures g); drifted := drifted g; written := written g |}.
Definition note_drift (line : pystr) (g : Progress) : Progress :=
  {| written_fixtures := written_fixtures g; drifted := drifted g ++ [line]; written := written g |}.
Definition note_written (line : pystr) (g : Progress) : Progress :=
  {| written_fixtures := written_fixtures g; drifted := drifted g; written := written g ++ [line] |}.

(** [p.relative_to(root)] *)
Definition relative_to (p root : path) : result path :=
  if below root p then Ok (drop (length root) p) else Raise ValueError.

Definition out_path (entry : FixtureEntry) : path := path_join FIXTURES_ROOT (fe_out entry).

Definition emit_entry (seeds : seeds_of) (encoded_keys : pydict) (entry : FixtureEntry) (known : gmap pystr pybytes)
    : M Fs pybytes := λ w,
  (w, spec ← _resolve_spec w entry seeds encoded_keys known;
      rethrow is_CalledProcessError (λ _, ConformanceError) (_run_py_emit (fe_kind entry) spec)).

(** [--check]: the file against the bytes. *)
Definition check_entry (entry : FixtureEntry) (emitted : pybytes) (g : Progress) : M Fs Progress := λ w,
  let p := out_path entry in
  if negb (is_file w p) then
    (w, Ok (note_drift (fe_id entry ++ str ": committed fixture " ++ path_text p ++ str " missing") g))
  else
    match read_bytes w p with
    | Raise e => (w, Raise e)
    | Ok current =>
        let g := if bool_decide (current = emitted) then g
                 else note_drift (fe_id entry ++ str ": " ++ path_text p ++ str " has drifted (committed " ++ dec (py_len current)
                                  ++ str " bytes, regenerated " ++ dec (py_len emitted) ++ str " bytes)") g in
        (w, Ok (remember_fixture (fe_out entry) emitted g))
    end.

Definition write_entry (entry : FixtureEntry) (emitted : pybytes) (g : Progress) : M Fs Progress :=
  let p := out_path entry in
  _ ← mkdir_parents (removelast p);
  _ ← write_file p emitted;
  rel ← lift (relative_to p REPO_ROOT);
  mret (remember_fixture (fe_out entry) emitted (note_written (path_text rel) g)).

(** One round of the loop. *)
Definition regen_entry (check_only : bool) (seeds : seeds_of) (encoded_keys : pydict) (entry : FixtureEntry) (g : Progress)
    : M Fs Progress :=
  emitted ← emit_entry seeds encoded_keys entry (written_fixtures g);
  if check_only then check_entry entry emitted g else write_entry entry emitted g.

Fixpoint regen_loop (check_only : bool) (seeds : seeds_of) (encoded_keys : pydict) (targets : list FixtureEntry) (g : Progress)
    : M Fs Progress :=
  match targets with
  | [] => mret g
  | entry :: targets => g ← regen_entry check_only seeds encoded_keys entry g; regen_loop check_only seeds encoded_keys targets g
  end.

Definition no_progress : Progress := {| written_fixtures := ∅; drifted := []; written := [] |}.

(** Seeds, targets and keys, before the loop. *)
Definition regen_plan (only : option (list pystr)) (w : Fs) : result (seeds_of * pydict * list FixtureEntry) :=
  seeds ← load_seeds w SEEDS_PATH;
  manifest ← load_manifest w MANIFEST_PATH;
  let targets := _select manifest only in
  _ ← raise_if (bool_decide (targets = [])) ConformanceError;
  encoded_keys ← _encoded_keys seeds;
  Ok (seeds, encoded_keys, targets).

Definition _cmd_regen (check_only : bool) (only : option (list pystr)) : M Fs Z := λ w,
  match regen_plan only w with
  | Raise e => (w, Raise e)
  | Ok (seeds, encoded_keys, targets) =>
      (g ← regen_loop check_only seeds encoded_keys targets no_progress;
       _ ← lift (raise_if (negb (bool_decide (drifted g = []))) ConformanceError);
       mret 0) w
  end.

(** [main], after the arguments have been parsed. *)
Definition main (check_only : bool) (only : option (list pystr)) : M Fs Z := λ w,
  match _cmd_regen check_only only w with
  | (w, Ok code) => (w, Ok code)
  | (w, Raise e) => (w, if is_ConformanceError e then Ok 1 else Raise e)
  end.

(** ** Reading again *)

(** The credentials an entry refers to. *)
Definition cred_refs (entry : FixtureEntry) : list pystr :=
  match dict_get (str "creds") (fe_spec entry) with
  | Some creds => match py_iter creds with Ok refs => omap (λ v, match v with JStr s => Some s | _ => None end) refs | Raise _ => [] end
  | None => []
  end.

Lemma mapM_mono {A B} (f f' : A → result B) l bs :
  mapM f l = Ok bs → (∀ a b, a ∈ l → f a = Ok b → f' a = Ok b) → mapM f' l = Ok bs.
Proof.
  revert bs. induction l as [|a l IH]; intros bs E Hf; cbn in *; [done|]. res_inv.
  rewrite (Hf a x) by set_solver. cbn. rewrite (IH x0); [done|done|]. intros b c Hb. apply Hf. set_solver.
Qed.

Lemma resolve_seed_creds seeds k khex spec spec' :
  resolve_seed seeds k khex spec = Ok spec' → bool_decide (k = str "creds") = false → bool_decide (khex = str "creds") = false →
  dict_get (str "creds") spec' = dict_get (str "creds") spec.
Proof.
  unfold resolve_seed. intros E Hk Hh. bool_prop. destruct (dict_get k spec) as [[]|]; try done; res_inv; [|done].
  rewrite dict_get_set_ne by done. rewrite dict_get_del. by rewrite bool_decide_false by done.
Qed.

Lemma resolve_seeds_creds seeds spec spec' :
  resolve_seeds seeds spec = Ok spec' → dict_get (str "creds") spec' = dict_get (str "creds") spec.
Proof.
  unfold resolve_seeds. intros E. res_inv.
  repeat match goal with Hr : resolve_seed _ _ _ _ = Ok _ |- _ => apply resolve_seed_creds in Hr; [|reflexivity..] end. congruence.
Qed.

(** What an entry refers to on disk in [w] is there in [wf], too. *)
Definition refs_kept (known : gmap pystr pybytes) (entry : FixtureEntry) (w wf : Fs) : Prop :=
  ∀ ref c, ref ∈ cred_refs entry → known !! ref = None → fs_nodes w !! path_join FIXTURES_ROOT ref = Some (File c) →
    fs_nodes wf !! path_join FIXTURES_ROOT ref = Some (File c).

Lemma resolve_creds_stable known entry w wf spec spec' :
  refs_kept known entry w wf → dict_get (str "creds") spec = dict_get (str "creds") (fe_spec entry) →
  resolve_creds w known spec = Ok spec' → resolve_creds wf known spec = Ok spec'.
Proof.
  unfold resolve_creds, refs_kept, cred_refs. intros Hkept Hc. rewrite Hc.
  destruct (dict_get (str "creds") (fe_spec entry)) as [creds|]; [|done]. destruct (py_iter creds) as [refs|]; [|done].
  cbn [mbind result_bind]. intros E. res_inv. apply bind_ok. eexists. split; [|done]. eapply mapM_mono; [done|].
  intros ref jws Hin Hj. unfold cred_jws in *. apply bind_ok in Hj as (data & Hd & Hj). apply bind_ok. exists data. split; [|done].
  unfold cred_data in *. destruct ref as [| | | |ref| |]; try done. destruct (known !! ref) as [d|] eqn:Ek; [done|]. res_inv.
  unfold is_file, read_bytes in *. destruct (fs_nodes w !! path_join FIXTURES_ROOT ref) as [[c|]|] eqn:En; try done. res_inv.
  erewrite Hkept; [done| |done|done]. apply list_elem_of_omap. by exists (JStr ref).
Qed.

Lemma emit_entry_stable seeds keys entry known w wf emitted :
  refs_kept known entry w wf →
  emit_entry seeds keys entry known w = (w, Ok emitted) → emit_entry seeds keys entry known wf = (wf, Ok emitted).
Proof.
  unfold emit_entry, _resolve_spec. intros Hkept [= E]. f_equal. apply bind_ok in E as (spec & E & Hrun).
  apply bind_ok. exists spec. split; [|done]. apply bind_ok in E as (spec1 & E1 & E). apply bind_ok. exists spec1. split; [done|].
  apply bind_ok in E as (spec2 & E2 & E). apply bind_ok. exists spec2. split; [|done].
  eapply resolve_creds_stable; [done| |done]. by apply resolve_seeds_creds in E1.
Qed.

(** ** What a run writes *)

(** Every file but those at [ps] is as it was. *)
Definition files_kept (ps : list path) : relation Fs := λ w w',
  ∀ p c, (p ∉ ps) → fs_nodes w !! p = Some (File c) → fs_nodes w' !! p = Some (File c).

#[global] Instance files_kept_preorder ps : PreOrder (files_kept ps).
Proof. split; [by intros w p c|]. intros w1 w2 w3 H12 H23 p c Hp Hf. eauto. Qed.

Lemma files_kept_mono ps qs w w' : ps ⊆ qs → files_kept ps w w' → files_kept qs w w'.
Proof. intros Hs Hk p c Hp. apply Hk. set_solver. Qed.

Lemma mkdir_files_kept p : keeps (files_kept []) (mkdir p).
Proof.
  intros w w' r. unfold mkdir. destruct (fs_nodes w !! p) as [[]|] eqn:E; [by intros [= <- <-]..|].
  case_match; intros [= <- <-]; [|done]. intros q c _ Hq. cbn. rewrite lookup_insert_ne; [done|]. congruence.
Qed.

Lemma mkdir_parents_files_kept p : keeps (files_kept []) (mkdir_parents p).
Proof.
  unfold mkdir_parents. generalize (map (λ n, take n p) (seq 1 (length p))) as ps. intros ps.
  induction ps as [|q ps IH]; cbn [for_each]; [apply keeps_ret, _|].
  apply keeps_bind; [apply _|apply mkdir_files_kept|]. by intros _.
Qed.

Lemma write_entry_ok entry emitted g w w' g' :
  write_entry entry emitted g w = (w', Ok g') →
  files_kept [out_path entry] w w' ∧ fs_nodes w' !! out_path entry = Some (File emitted)
  ∧ written_fixtures g' = <[fe_out entry := emitted]> (written_fixtures g) ∧ drifted g' = drifted g.
Proof.
  unfold write_entry. intros E. apply M_bind_ok in E as (u & w1 & Hm%mkdir_parents_files_kept & E).
  apply M_bind_ok in E as (u' & w2 & Hwr & E). M_inv. unfold write_file in Hwr. case_match; [|done]. injection Hwr as <-.
  split_and!; [|apply lookup_insert_eq|done|done].
  intros p c Hp Hf. cbn. rewrite lookup_insert_ne by set_solver. apply Hm; [set_solver|done].
Qed.

Lemma regen_entry_written seeds keys entry g w w' g' :
  regen_entry false seeds keys entry g w = (w', Ok g') →
  ∃ emitted, emit_entry seeds keys entry (written_fixtures g) w = (w, Ok emitted) ∧ write_entry entry emitted g w = (w', Ok g').
Proof.
  unfold regen_entry. intros E. apply M_bind_ok in E as (emitted & w1 & E1 & E2). exists emitted.
  assert (w1 = w) as -> by (unfold emit_entry in E1; by injection E1). done.
Qed.

Lemma regen_loop_kept seeds keys targets g w w' g' :
  regen_loop false seeds keys targets g w = (w', Ok g') → files_kept (map out_path targets) w w' ∧ drifted g' = drifted g.
Proof.
  revert g w. induction targets as [|e targets IH]; intros g w E; cbn [regen_loop] in E; [by M_inv|].
  apply M_bind_ok in E as (g1 & w1 & E1 & [Hr Hd']%IH).
  apply regen_entry_written in E1 as (emitted & _ & (Hk & _ & _ & Hd)%write_entry_ok).
  split; [|congruence]. cbn. transitivity w1; [eapply files_kept_mono, Hk|eapply files_kept_mono, Hr]; set_solver.
Qed.

(** ** Writing, then checking *)

(** An entry refers to what is emitted before it, or to files no entry from here on writes. *)
Fixpoint declared_earlier (known : list pystr) (targets : list FixtureEntry) : bool :=
  match targets with
  | [] => true
  | e :: rest =>
      forallb (λ ref, bool_decide (ref ∈ known) || negb (bool_decide (path_join FIXTURES_ROOT ref ∈ map out_path targets))) (cred_refs e)
      && declared_earlier (fe_out e :: known) rest
  end.

Lemma check_entry_fresh entry emitted g w :
  fs_nodes w !! out_path entry = Some (File emitted) →
  check_entry entry emitted g w = (w, Ok (remember_fixture (fe_out entry) emitted g)).
Proof. intros E. unfold check_entry, is_file, read_bytes. rewrite E. cbn. by rewrite bool_decide_true. Qed.

Lemma written_checks seeds keys targets known g gc w w' g' wf :
  regen_loop false seeds keys targets g w = (w', Ok g') → files_kept [] w' wf →
  NoDup (map out_path targets) → declared_earlier known targets = true →
  (∀ ref, ref ∈ known → is_Some (written_fixtures g !! ref)) → written_fixtures gc = written_fixtures g →
  ∃ gc', regen_loop true seeds keys targets gc wf = (wf, Ok gc') ∧ drifted gc' = drifted gc.
Proof.
  revert known g gc w. induction targets as [|e targets IH]; intros known g gc w E Hf Hnd Hdec Hkn Hg; cbn [regen_loop] in *; [by exists gc|].
  apply M_bind_ok in E as (g1 & w1 & E1 & E2). cbn [declared_earlier] in Hdec. apply andb_prop in Hdec as [Hrefs Hdec].
  cbn [map] in Hnd. apply NoDup_cons in Hnd as [Hout Hnd].
  pose proof (regen_entry_written _ _ _ _ _ _ _ E1) as (emitted & Hem & Hw).
  destruct (write_entry_ok _ _ _ _ _ _ Hw) as (Hk1 & Hfile & Hwf & _).
  destruct (regen_loop_kept _ _ _ _ _ _ _ E2) as [Hk2 _].
  assert (emit_entry seeds keys e (written_fixtures gc) wf = (wf, Ok emitted)) as Hem'.
  { rewrite Hg. eapply emit_entry_stable; [|exact Hem]. intros ref c Href Hnone Hdisk.
    rewrite forallb_Forall, Forall_forall in Hrefs. specialize (Hrefs ref Href). apply orb_prop in Hrefs as [Hin|Hin]; bool_prop.
    - apply Hkn in Hin as [? ?]. congruence.
    - cbn [map] in Hin. apply Hf; [set_solver|]. apply Hk2; [set_solver|]. apply Hk1; [set_solver|done]. }
  assert (fs_nodes wf !! out_path e = Some (File emitted)) as Hin by (apply Hf; [set_solver|]; by apply Hk2).
  assert (regen_entry true seeds keys e gc wf = (wf, Ok (remember_fixture (fe_out e) emitted gc))) as Hc
    by (unfold regen_entry; rewrite (M_bind_run _ _ _ _ _ Hem'); by apply check_entry_fresh).
  rewrite (M_bind_run _ _ _ _ _ Hc). refine (IH (fe_out e :: known) g1 (remember_fixture (fe_out e) emitted gc) w1 E2 Hf Hnd Hdec _ _).
  - intros ref. rewrite Hwf, elem_of_cons. intros [->|Hin']; [rewrite lookup_insert_eq; by eexists|].
    destruct (decide (fe_out e = ref)) as [<-|]; [rewrite lookup_insert_eq; by eexists|]. rewrite lookup_insert_ne by done. by apply Hkn.
  - cbn. by rewrite Hwf, Hg.
Qed.

Lemma read_toml_stable w wf p d :
  _read_toml w p = Ok d → (∀ c, fs_nodes w !! p = Some (File c) → fs_nodes wf !! p = Some (File c)) → _read_toml wf p = Ok d.
Proof.
  unfold _read_toml, is_file, read_text, read_bytes. intros E Hk. destruct (fs_nodes w !! p) as [[c|]|]; try done.
  by rewrite (Hk c).
Qed.

Lemma plan_stable only w wf plan :
  regen_plan only w = Ok plan →
  (∀ p c, p = SEEDS_PATH ∨ p = MANIFEST_PATH → fs_nodes w !! p = Some (File c) → fs_nodes wf !! p = Some (File c)) →
  regen_plan only wf = Ok plan.
Proof.
  unfold regen_plan, load_seeds, load_manifest. intros E Hk.
  apply bind_ok in E as (seeds & Es & E). apply bind_ok in Es as (raw & Er & Es). apply bind_ok in E as (m & Em & E).
  apply bind_ok in Em as (raw' & Er' & Em).
  eapply read_toml_stable in Er; [|intros c; apply Hk; by left]. eapply read_toml_stable in Er'; [|intros c; apply Hk; by right].
  rewrite Er. cbn [mbind result_bind]. rewrite Es. cbn [mbind result_bind]. rewrite Er'. cbn [mbind result_bind]. by rewrite Em.
Qed.

(** What the manifest has to respect: no two fixtures share a file, none of them is
    the manifest or the seeds, and a fixture another refers to comes before it. *)
Definition orderly (targets : list FixtureEntry) : Prop :=
  NoDup (map out_path targets) ∧ (SEEDS_PATH ∉ map out_path targets) ∧ (MANIFEST_PATH ∉ map out_path targets)
  ∧ declared_earlier [] targets = true.

Lemma regen_then_check only w w' seeds keys targets :
  regen_plan only w = Ok (seeds, keys, targets) → orderly targets → _cmd_regen false only w = (w', Ok 0) →
  _cmd_regen true only w' = (w', Ok 0).
Proof.
  intros Hp (Hnd & Hs & Hm & Hd) E. unfold _cmd_regen in *. rewrite Hp in E.
  apply M_bind_ok in E as (g & w1 & E & E'). apply M_bind_ok in E' as (u & w2 & [-> _]%lift_ok & [-> _]%M_ret_ok).
  pose proof (regen_loop_kept _ _ _ _ _ _ _ E) as [Hkept _].
  erewrite plan_stable; [|exact Hp|by intros p c [->| ->]; apply Hkept].
  destruct (written_checks _ _ _ [] _ no_progress _ _ _ w1 E) as (gc & Ec & Hdr); [done|done|done|set_solver|done|].
  rewrite (M_bind_run _ _ _ _ _ Ec). by rewrite Hdr.
Qed.

(** ** Checking, then writing *)

(** The directories down to the file are there, and so is the permission. *)
Definition housed (w : Fs) (p : path) : bool :=
  is_dir w (removelast p) && forallb (λ n, is_dir w (take n (removelast p))) (seq 1 (length (removelast p))) && fs_writable w p.

Lemma app_eq_self {A} (l k : list A) : l ++ k = l → k = [].
Proof. intros Hl. apply (app_inv_head l). by rewrite app_nil_r. Qed.

Lemma check_entry_ok entry emitted g w w' g' :
  check_entry entry emitted g w = (w', Ok g') →
  w' = w ∧ drifted g `prefix_of` drifted g'
  ∧ (drifted g' = drifted g → fs_nodes w !! out_path entry = Some (File emitted) ∧ g' = remember_fixture (fe_out entry) emitted g).
Proof.
  unfold check_entry, is_file, read_bytes. intros E.
  destruct (fs_nodes w !! out_path entry) as [[c|]|]; cbn in E; injection E as <- <-; (split; [done|]).
  - case_bool_decide as Hc; [by subst|]. cbn. split; [by apply prefix_app_r|]. by intros Hl%app_eq_self.
  - cbn. split; [by apply prefix_app_r|]. by intros Hl%app_eq_self.
  - cbn. split; [by apply prefix_app_r|]. by intros Hl%app_eq_self.
Qed.

Lemma regen_entry_checked seeds keys entry g w w' g' :
  regen_entry true seeds keys entry g w = (w', Ok g') →
  ∃ emitted, emit_entry seeds keys entry (written_fixtures g) w = (w, Ok emitted) ∧ check_entry entry emitted g w = (w', Ok g').
Proof.
  unfold regen_entry. intros E. apply M_bind_ok in E as (emitted & w1 & E1 & E2). exists emitted.
  assert (w1 = w) as -> by (unfold emit_entry in E1; by injection E1). done.
Qed.

(** A check leaves everything alone and only ever adds drifts. *)
Lemma check_loop_reads seeds keys targets g w w' g' :
  regen_loop true seeds keys targets g w = (w', Ok g') → w' = w ∧ drifted g `prefix_of` drifted g'.
Proof.
  revert g. induction targets as [|e targets IH]; intros g E; cbn [regen_loop] in E; [by M_inv|].
  apply M_bind_ok in E as (g1 & w1 & E1 & E2). apply regen_entry_checked in E1 as (emitted & _ & (-> & Hp & _)%check_entry_ok).
  apply IH in E2 as [-> Hp']. split; [done|]. by transitivity (drifted g1).
Qed.

Lemma mkdirs_idle ps w : Forall (λ p, fs_nodes w !! p = Some Dir) ps → for_each mkdir ps w = (w, Ok tt).
Proof.
  induction 1 as [|p ps Hp _ IH]; cbn [for_each]; [done|]. rewrite (M_bind_run _ _ _ w tt); [done|].
  unfold mkdir. by rewrite Hp.
Qed.

(** Writing what is there changes nothing. *)
Lemma write_entry_idle entry emitted g w :
  fs_nodes w !! out_path entry = Some (File emitted) → housed w (out_path entry) = true →
  below REPO_ROOT (out_path entry) = true →
  ∃ g', write_entry entry emitted g w = (w, Ok g') ∧ written_fixtures g' = <[fe_out entry := emitted]> (written_fixtures g)
    ∧ drifted g' = drifted g.
Proof.
  unfold housed. intros Hf Hh Hb. apply andb_prop in Hh as [Hh Hw]. apply andb_prop in Hh as [Hd Hds].
  unfold write_entry. rewrite (M_bind_run _ _ _ w tt).
  2: { apply mkdirs_idle, Forall_fmap, Forall_forall. intros n Hn. rewrite forallb_forall in Hds.
       specialize (Hds n (proj1 (list_elem_of_In _ _) Hn)). unfold is_dir in Hds. by bool_prop. }
  rewrite (M_bind_run _ _ _ w tt).
  2: { unfold write_file. rewrite Hd, Hw. assert (is_dir w (out_path entry) = false) as ->.
       { unfold is_dir. rewrite Hf. by rewrite bool_decide_false. }
       cbn. unfold with_nodes. rewrite insert_id by done. by destruct w. }
  unfold relative_to. rewrite Hb. by eexists.
Qed.

Lemma checked_writes seeds keys targets g gw w w' g' :
  regen_loop true seeds keys targets g w = (w', Ok g') → drifted g' = [] → drifted gw = [] →
  Forall (λ e, housed w (out_path e) = true ∧ below REPO_ROOT (out_path e) = true) targets →
  written_fixtures gw = written_fixtures g →
  ∃ gw', regen_loop false seeds keys targets gw w = (w, Ok gw') ∧ drifted gw' = [].
Proof.
  revert g gw. induction targets as [|e targets IH]; intros g gw E Hd Hdw HF Hg; cbn [regen_loop] in *; [by exists gw|].
  apply M_bind_ok in E as (g1 & w1 & E1 & E2). apply regen_entry_checked in E1 as (emitted & Hem & Hc).
  destruct (check_entry_ok _ _ _ _ _ _ Hc) as (-> & Hp & Hsame). pose proof (check_loop_reads _ _ _ _ _ _ _ E2) as [-> Hp2].
  rewrite Hd in Hp2. apply prefix_nil_inv in Hp2. rewrite Hp2 in Hp. apply prefix_nil_inv in Hp.
  destruct Hsame as [Hfile ->]; [congruence|]. apply Forall_cons in HF as [[Hh Hb] HF].
  destruct (write_entry_idle e emitted gw w Hfile Hh Hb) as (gw1 & Hw & Hwf & Hwd).
  rewrite (M_bind_run _ _ _ w gw1) by (unfold regen_entry; by rewrite Hg, (M_bind_run _ _ _ _ _ Hem)).
  eapply IH; [exact E2|done|congruence|done|]. by rewrite Hwf, Hg.
Qed.

Lemma check_only_reads seeds keys targets g : keeps eq (regen_loop true seeds keys targets g).
Proof.
  revert g. induction targets as [|e targets IH]; intros g; cbn [regen_loop]; [apply keeps_ret, _|].
  apply keeps_bind; [apply _| |intros ?; apply IH].
  unfold regen_entry. apply keeps_bind; [apply _|by intros w w' r [= <- <-]|]. intros emitted w w' r. unfold check_entry.
  repeat case_match; by intros [= <- <-].
Qed.

Lemma check_main_reads only w w' r : main true only w = (w', r) → w' = w.
Proof.
  unfold main. destruct (_cmd_regen true only w) as [w1 r1] eqn:E. assert (w = w1) as <-.
  { revert E. unfold _cmd_regen. destruct (regen_plan only w) as [[[seeds keys] targets]|e]; [|by intros [= <- <-]].
    intros E. eapply (keeps_bind eq) in E; [done|apply check_only_reads|].
    intros g. apply keeps_bind; [apply _|apply keeps_lift, _|]. intros _. apply keeps_ret, _. }
  destruct r1; by intros [= <- _].
Qed.

Lemma main_ok check_only only w w' : main check_only only w = (w', Ok 0) ↔ _cmd_regen check_only only w = (w', Ok 0).
Proof.
  unfold main. destruct (_cmd_regen check_only only w) as [w1 [code|e]]; [naive_solver|].
  destruct (is_ConformanceError e); naive_solver.
Qed.

(** C36: [regen] and [regen --check] agree.  A check never changes a file, however
    it ends.  After a [regen] that ended with 0, a check of the same fixtures ends
    with 0, when the fixtures have files of their own and refer only to earlier
    ones.  And when a check ends with 0, a [regen] ends with 0 and leaves every
    file as it is, so nothing has drifted. *)
Theorem regen_check_agree (only : option (list pystr)) (w w' : Fs) (r : result Z) seeds keys targets :
  regen_plan only w = Ok (seeds, keys, targets) →
  (main true only w = (w', r) → w' = w)
  ∧ (orderly targets → main false only w = (w', Ok 0) → main true only w' = (w', Ok 0))
  ∧ (Forall (λ e, housed w (out_path e) = true ∧ below REPO_ROOT (out_path e) = true) targets →
     main true only w = (w, Ok 0) → main false only w = (w, Ok 0)).
Proof.
  intros Hp. split_and!.
  - apply check_main_reads.
  - rewrite !main_ok. by apply regen_then_check with (1 := Hp).
  - rewrite !main_ok. intros HF E. unfold _cmd_regen in *. rewrite Hp in *.
    apply M_bind_ok in E as (g & w1 & E & E'). apply M_bind_ok in E' as (u & w2 & [-> Hd]%lift_ok & [-> _]%M_ret_ok).
    res_inv. bool_prop. destruct (checked_writes _ _ _ _ no_progress _ _ _ E) as (gw & Ew & Hdw); [done..|].
    rewrite (M_bind_run _ _ _ _ _ Ew). by rewrite Hdw.
Qed.
End regen.

(** ** Examples *)

#[local] Existing Instance ascii_unicode.
#[local] Existing Instance strict_pydantic.
#[local] Existing Instance toy_ed25519.
#[local] Existing Instance toy_jwt.
#[local] Existing Instance toy_gzip.
#[local] Instance no_floats : PyFloat := {| float_to_int _ := Raise ValueError |}.

(** JSON in the place of TOML. *)
#[local] Instance json_toml : Toml :=
  {| toml_loads s := match json_loads s with Ok (JDict d) => Ok d | _ => Raise TOMLDecodeError end |}.

Definition demo_repo : path := [[47]; str "repo"].
Definition demo_seeds : pydict :=
  [(str "schema_version", JInt 2);
   (str "seeds", JDict [(str "alice", JDict [(str "hex", JStr (to_hex (repeat 1 32)))]);
                        (str "hub", JDict [(str "hex", JStr (to_hex (repeat 16 32)))])])].
Definition demo_entry (id kind out : pystr) (spec : pydict) : json :=
  JDict [(str "id", JStr id); (str "kind", JStr kind); (str "out", JStr out); (str "spec", JDict spec)].
Definition demo_fixtures : list json :=
  [demo_entry (str "key") (str "key") (str "keys/alice.json") [(str "seed", JStr (str "alice"))];
   demo_entry (str "cred") (str "credential") (str "credentials/alice.jwt")
     [(str "issuer_seed", JStr (str "hub")); (str "issuer", JStr (str "$pk:hub")); (str "sub", JStr (str "$pk:alice"));
      (str "org", JStr (str "$pk:hub")); (str "iat", JInt 1000); (str "exp", JInt 2000); (str "epoch", JStr (str "2026q2"));
      (str "idx", JInt 871)];
   demo_entry (str "env") (str "envelope") (str "envelopes/hello.jwt")
     [(str "sender_seed", JStr (str "alice")); (str "from_id", JStr (str "$pk:alice")); (str "to_id", JStr (str "$pk:hub"));
      (str "msg_hash", JStr (str "sha256:AAAAAAAAAAAAAAAAAAAAAAAAAAAAAAAAAAAAAAAAAAA")); (str "iat", JInt 1000);
      (str "exp", JInt 1100); (str "body_text", JStr (str "hello")); (str "creds", JList [JStr (str "credentials/alice.jwt")])]].
Definition demo_tree (manifest : list json) : Fs := {|
  fs_nodes := list_to_map
    [([[47]], Dir); (demo_repo, Dir); (demo_repo ++ [str "fixtures"], Dir); (demo_repo ++ [str "fixtures"; str "_regen"], Dir);
     (SEEDS_PATH demo_repo, File (json_dumps (JDict demo_seeds)));
     (MANIFEST_PATH demo_repo, File (json_dumps (JDict [(str "schema_version", JInt 2); (str "fixtures", JList manifest)])))];
  fs_writable _ := true |}.

Definition demo_world : Fs := demo_tree demo_fixtures.
Definition demo_plan := match regen_plan demo_repo None demo_world with Ok p => p | Raise _ => ([], [], []) end.
Definition demo_regenerated : Fs := (main demo_repo [] false None demo_world).1.

(** Regenerated from nothing, the demo passes the check and stays as it is. *)
Lemma regen_check_agree_witness :
  main demo_repo [] true None demo_regenerated = (demo_regenerated, Ok 0)
  ∧ main demo_repo [] false None demo_regenerated = (demo_regenerated, Ok 0).
Proof.
  assert (main demo_repo [] true None demo_regenerated = (demo_regenerated, Ok 0)) as Hc.
  { refine (proj1 (proj2 (regen_check_agree demo_repo [] None demo_world demo_regenerated (Ok 0)
                            demo_plan.1.1 demo_plan.1.2 demo_plan.2 _)) _ _).
    - vm_compute. reflexivity.
    - unfold orderly. split_and!; by apply (bool_decide_unpack _); vm_compute.
    - unfold demo_regenerated. destruct (main demo_repo [] false None demo_world) as [w' r] eqn:E.
      assert (r = Ok 0) as ->; [|reflexivity]. change r with (w', r).2. rewrite <-E. vm_compute. reflexivity. }
  split; [exact Hc|].
  refine (proj2 (proj2 (regen_check_agree demo_repo [] None demo_regenerated demo_regenerated (Ok 0)
                          demo_plan.1.1 demo_plan.1.2 demo_plan.2 _)) _ Hc).
  - vm_compute. reflexivity.
  - apply (bool_decide_unpack _). vm_compute. exact I.
Defined.

(** A file that differs is found: the check ends with 1. *)
Lemma changed_fixture_drifts :
  (main demo_repo [] true None (with_nodes (insert (demo_repo ++ [str "fixtures"; str "keys"; str "alice.json"]) (File [])) demo_regenerated)).2
  = Ok 1.
Proof. vm_compute. reflexivity. Qed.

(** A seed the manifest names and [seeds.toml] does not have, and a seed that is
    too short: neither is a [ConformanceError], both leave [main]. *)
Lemma malformed_inputs_escape :
  (main demo_repo [] false None
     (demo_tree [demo_entry (str "key") (str "key") (str "keys/eve.json") [(str "seed", JStr (str "eve"))]])).2 = Raise KeyError
  ∧ Seed_fields (JDict [(str "hex", JStr (str "0101"))]) = Raise (ValidationError [])
  ∧ is_ConformanceError (ValidationError []) = false.
Proof. vm_compute. repeat split. Qed.

(** A specification without a field of its kind ends like an unknown kind. *)
Lemma missing_field_is_unknown_kind :
  py_emit [[]; str "key"] (json_dumps (JDict [])) = (2, []) ∧ py_emit [[]; str "no such kind"] (json_dumps (JDict [])) = (2, []).
Proof. vm_compute. repeat split. Qed.
