(* ===== verification/SyncSkills.v ===== *)
(** * The skill trees of the repository — [integrations/scripts/sync_skills.py]

    The canonical skills are copied into the tree of every plugin; [--check]
    reports trees that differ and [--from-canonical] also removes skills that are
    no longer canonical.  After the latter the former is content. *)

From S2P Require Import Prelude PyStr Jcs FileSystem.

(** What a run of the script acts on: the files, and the lines it printed. *)
Record Shell := {
  sh_fs : Fs;
  sh_out : list pystr;
  sh_err : list pystr;
}.

Definition print_out (line : pystr) : M Shell unit := λ s,
  ({| sh_fs := sh_fs s; sh_out := sh_out s ++ [line]; sh_err := sh_err s |}, Ok tt).
Definition print_err (line : pystr) : M Shell unit := λ s,
  ({| sh_fs := sh_fs s; sh_out := sh_out s; sh_err := sh_err s ++ [line] |}, Ok tt).

(** An operation on the files, and a reading of them. *)
Definition on_fs {A} (m : M Fs A) : M Shell A := λ s,
  let '(w, r) := m (sh_fs s) in ({| sh_fs := w; sh_out := sh_out s; sh_err := sh_err s |}, r).
Definition reading {W A} (f : W → result A) : M W A := λ w, (w, f w).

(** ** [pathlib] and [shutil] *)

Definition path_exists (w : Fs) (p : path) : bool := bool_decide (is_Some (fs_nodes w !! p)).

(** [sorted(names)] and [sorted(p.iterdir())]: siblings are ordered by their names. *)
Definition sorted_names (names : list pystr) : list pystr := map snd (sort_keyed (map (λ n, (n, n)) names)).
Definition sorted_iterdir (w : Fs) (p : path) : result (list path) :=
  if is_dir w p then Ok (map snd (sort_keyed (map (λ e, (path_name e, e)) (iterdir w p)))) else Raise OSError.

(** [shutil.copyfile(src, dst)] *)
Definition copyfile (src dst : path) : M Fs unit := λ w,
  if bool_decide (src = dst) then (w, Raise OSError)
  else match read_bytes w src with
       | Ok content => write_file dst content w
       | Raise e => (w, Raise e)
       end.

Section sync_skills.
(** [INTEGRATIONS_ROOT].  A removal that meets an entry it may not remove stops
    there: what went before depends on the order the directory is read in. *)
Context (INTEGRATIONS_ROOT : path) (partly_removed : path → Fs → Fs).

(** [shutil.rmtree(p)] *)
Definition rmtree_or_raise (p : path) : M Fs unit := λ w,
  if negb (path_exists w p) then (w, Raise OSError)
  else if removable w p then (rmtree p w, Ok tt) else (partly_removed p w, Raise OSError).

Definition SKILL_FILE : pystr := str "SKILL.md".

Definition CANONICAL_DIR : path := INTEGRATIONS_ROOT ++ [str "skills"].
Definition PLUGIN_TARGETS : list path :=
  [INTEGRATIONS_ROOT ++ [str "plugins"; str "claude-code"; str "skills"];
   INTEGRATIONS_ROOT ++ [str "plugins"; str "hermes-agent"; str "skills"]].

(** A dictionary from skill names to files; the entries of a directory have
    different names. *)
Abbreviation skills := (list (pystr * path)).
Definition skill_at (name : pystr) (d : skills) : result path :=
  of_option KeyError (snd <$> List.find (λ np, bool_decide (np.1 = name)) d).

Definition skill_entry (w : Fs) (entry : path) : option (pystr * path) :=
  if negb (is_dir w entry) || startswith (str ".") (path_name entry) then None
  else
    let skill_md := entry ++ [SKILL_FILE] in
    if path_exists w skill_md then Some (path_name entry, skill_md) else None.

Definition _plugin_skills (target_dir : path) (w : Fs) : result skills :=
  if negb (path_exists w target_dir) then Ok []
  else entries ← sorted_iterdir w target_dir; Ok (omap (M := list) (skill_entry w) entries).

Definition _canonical_skills (w : Fs) : result skills :=
  if negb (path_exists w CANONICAL_DIR) then Ok []
  else entries ← sorted_iterdir w CANONICAL_DIR; Ok (omap (M := list) (skill_entry w) entries).

(** ** [--check] *)

Definition missing_message (target_dir : path) (name : pystr) : pystr :=
  str "  missing in " ++ path_text target_dir ++ str ": " ++ name ++ str "/".
Definition stale_message (target_dir : path) (name : pystr) : pystr :=
  str "  stale in " ++ path_text target_dir ++ str ": " ++ name ++ str "/ (no longer canonical)".
Definition drift_message (target_dir : path) (name : pystr) : pystr :=
  str "  drift in " ++ path_text target_dir ++ str ": " ++ name ++ str "/SKILL.md differs from canonical".

(** The skills that are in both trees. *)
Fixpoint drift_loop (w : Fs) (canonical plugin : skills) (target_dir : path) (names : list pystr) : result (list pystr) :=
  match names with
  | [] => Ok []
  | name :: names =>
      src ← skill_at name canonical;
      canonical_bytes ← read_bytes w src;
      dst ← skill_at name plugin;
      plugin_bytes ← read_bytes w dst;
      messages ← drift_loop w canonical plugin target_dir names;
      Ok ((if bool_decide (canonical_bytes = plugin_bytes) then [] else [drift_message target_dir name]) ++ messages)
  end.

Definition _check_drift (canonical : skills) (target_dir : path) (w : Fs) : result (list pystr) :=
  plugin ← _plugin_skills target_dir w;
  let canonical_names := map fst canonical in
  let plugin_names := map fst plugin in
  let missing := List.filter (λ n, negb (bool_decide (n ∈ plugin_names))) canonical_names in
  let extra := List.filter (λ n, negb (bool_decide (n ∈ canonical_names))) plugin_names in
  let both := List.filter (λ n, bool_decide (n ∈ plugin_names)) canonical_names in
  drift ← drift_loop w canonical plugin target_dir (sorted_names both);
  Ok (map (missing_message target_dir) (sorted_names missing) ++ map (stale_message target_dir) (sorted_names extra) ++ drift).

(** ** Copying *)

(** Whether the skill has to be copied; a file that is not there is not read. *)
Definition needs_copy (src dst : path) (w : Fs) : result bool :=
  if negb (path_exists w dst) then Ok true
  else
    old ← read_bytes w dst;
    new ← read_bytes w src;
    Ok (negb (bool_decide (old = new))).

Definition sync_skill (target_dir : path) (skill : pystr * path) : M Fs Z :=
  let '(name, src) := skill in
  let dst_dir := target_dir ++ [name] in
  _ ← mkdir_parents dst_dir;
  let dst := dst_dir ++ [SKILL_FILE] in
  copy ← reading (needs_copy src dst);
  if copy : bool then _ ← copyfile src dst; mret 1 else mret 0.

Definition drop_skill (canonical : skills) (target_dir : path) (name : pystr) : M Fs Z :=
  if bool_decide (name ∈ map fst canonical) then mret 0
  else _ ← rmtree_or_raise (target_dir ++ [name]); mret 1.

(** The changes of a loop, counted. *)
Fixpoint counting {A} (f : A → M Fs Z) (l : list A) (changes : Z) : M Fs Z :=
  match l with
  | [] => mret changes
  | a :: l => n ← f a; counting f l (changes + n)
  end.

Definition _sync (canonical : skills) (target_dir : path) (drop_stale : bool) : M Fs Z :=
  _ ← mkdir_parents target_dir;
  plugin ← reading (_plugin_skills target_dir);
  changes ← counting (sync_skill target_dir) canonical 0;
  if drop_stale then counting (drop_skill canonical target_dir) (map fst plugin) changes else mret changes.

(** ** [main] *)

Record Args := { arg_check : bool; arg_from_canonical : bool }.

Fixpoint all_drift (canonical : skills) (targets : list path) (w : Fs) : result (list pystr) :=
  match targets with
  | [] => Ok []
  | target :: targets =>
      messages ← _check_drift canonical target w;
      rest ← all_drift canonical targets w;
      Ok (messages ++ rest)
  end.

Fixpoint print_errs (lines : list pystr) : M Shell unit :=
  match lines with
  | [] => mret tt
  | line :: lines => _ ← print_err line; print_errs lines
  end.

Definition refresh_hint : pystr :=
  [10] ++ str "Run `python integrations/scripts/sync_skills.py` (or `make sync-skills`) to refresh plugin trees.".

Definition check_trees (canonical : skills) : M Shell Z :=
  all_messages ← on_fs (reading (all_drift canonical PLUGIN_TARGETS));
  match all_messages with
  | [] =>
      _ ← print_out (str "all skill trees in sync (" ++ dec (py_len canonical) ++ str " skills " ++ [215] ++ str " "
                     ++ dec (py_len PLUGIN_TARGETS) ++ str " plugins)");
      mret 0
  | _ =>
      _ ← print_err (str "Skill drift detected:");
      _ ← print_errs all_messages;
      _ ← print_err refresh_hint;
      mret 1
  end.

Fixpoint sync_trees (canonical : skills) (drop_stale : bool) (targets : list path) (total_changes : Z) : M Shell Z :=
  match targets with
  | [] => mret total_changes
  | target :: targets =>
      changed ← on_fs (_sync canonical target drop_stale);
      _ ← (if changed =? 0 then mret tt
           else print_out (str "  synced " ++ dec changed ++ str " change(s) into " ++ path_text target));
      sync_trees canonical drop_stale targets (total_changes + changed)
  end.

Definition main (args : Args) : M Shell Z :=
  canonical ← on_fs (reading _canonical_skills);
  match canonical with
  | [] => _ ← print_err (str "no skills found at " ++ path_text CANONICAL_DIR); mret 1
  | _ =>
      if arg_check args then check_trees canonical
      else
        total_changes ← sync_trees canonical (arg_from_canonical args) PLUGIN_TARGETS 0;
        _ ← (if total_changes =? 0
             then print_out (str "nothing to sync " ++ [8212] ++ str " all plugin trees already match canonical") else mret tt);
        mret 0
  end.
End sync_skills.

(** ** Listings *)

(** [d] has a skill [n]. *)
Definition has_skill (w : Fs) (d : path) (n : pystr) : Prop :=
  fs_nodes w !! (d ++ [n]) = Some Dir ∧ startswith (str ".") n = false ∧ is_Some (fs_nodes w !! (d ++ [n; SKILL_FILE])).

Definition skill_md (d : path) (n : pystr) : path := d ++ [n; SKILL_FILE].

(** What both listings compute. *)
Definition listed (w : Fs) (d : path) : list (pystr * path) :=
  omap (M := list) (skill_entry w) (map snd (sort_keyed (map (λ e, (path_name e, e)) (iterdir w d)))).

Lemma plugin_skills_listed w d : fs_nodes w !! d = Some Dir → _plugin_skills d w = Ok (listed w d).
Proof.
  intros Hd. unfold _plugin_skills, sorted_iterdir, path_exists, is_dir. rewrite Hd.
  by rewrite !bool_decide_true by by eexists.
Qed.

Lemma skill_entry_child w d n :
  skill_entry w (d ++ [n])
  = if bool_decide (has_skill w d n) then Some (n, skill_md d n) else None.
Proof.
  unfold skill_entry, path_name, is_dir, path_exists, has_skill, skill_md. rewrite last_last, <-app_assoc. cbn [app].
  repeat case_bool_decide; destruct (startswith (str ".") n); cbn [negb orb]; try done; naive_solver.
Qed.

Lemma listed_elem w d n p : (n, p) ∈ listed w d ↔ p = skill_md d n ∧ has_skill w d n.
Proof.
  unfold listed. rewrite list_elem_of_omap. setoid_rewrite list_elem_of_fmap. split.
  - intros (e & ([k e'] & -> & He) & Hs). rewrite sort_keyed_perm in He. apply list_elem_of_fmap in He as (e & [= -> ->] & He).
    apply iterdir_child in He as (m & -> & _). cbn in Hs. rewrite skill_entry_child in Hs.
    case_bool_decide; [|done]. by injection Hs as -> <-.
  - intros [-> Hs]. exists (d ++ [n]). split.
    + exists (n, d ++ [n]). split; [done|]. rewrite sort_keyed_perm. apply list_elem_of_fmap. exists (d ++ [n]).
      unfold path_name. rewrite last_last. split; [done|]. apply iterdir_elem. by destruct Hs as [-> _].
    + by rewrite skill_entry_child, bool_decide_true.
Qed.

Lemma listed_names w d n : n ∈ map fst (listed w d) ↔ has_skill w d n.
Proof.
  rewrite list_elem_of_fmap. split.
  - intros ([m p] & -> & [_ ?]%listed_elem). done.
  - intros Hn. exists (n, skill_md d n). split; [done|]. by apply listed_elem.
Qed.

Lemma listed_files w d : Forall (λ np, np.2 = skill_md d np.1) (listed w d).
Proof. apply Forall_forall. intros [n p] [? _]%listed_elem. done. Qed.

Lemma iterdir_nodup w d : NoDup (iterdir w d).
Proof. unfold iterdir. apply NoDup_ListNoDup, List.NoDup_filter, NoDup_ListNoDup, NoDup_fst_map_to_list. Qed.

(** Siblings have different names. *)
Lemma iterdir_names_nodup w d : NoDup (map fst (map (λ e, (path_name e, e)) (iterdir w d))).
Proof.
  rewrite map_map. cbn [fst]. apply NoDup_fmap_2_strong; [|apply iterdir_nodup].
  intros e1 e2 (n1 & -> & _)%iterdir_child (n2 & -> & _)%iterdir_child. unfold path_name. rewrite !last_last. by intros ->.
Qed.

Lemma listed_nodup w d : NoDup (map fst (listed w d)).
Proof.
  unfold listed. assert (Forall (λ e, ∃ n, e = d ++ [n]) (map snd (sort_keyed (map (λ e, (path_name e, e)) (iterdir w d)))) ∧
    NoDup (map snd (sort_keyed (map (λ e, (path_name e, e)) (iterdir w d))))) as [Hc Hd].
  { split.
    - rewrite sort_keyed_perm, map_map, map_id. apply Forall_forall. intros e (n & -> & _)%iterdir_child. by exists n.
    - rewrite sort_keyed_perm, map_map, map_id. apply iterdir_nodup. }
  revert Hc Hd. generalize (map snd (sort_keyed (map (λ e, (path_name e, e)) (iterdir w d)))) as l.
  induction l as [|e l IH]; cbn; intros Hc Hd; [constructor|]. inversion Hc as [|? ? [n ->] Hc']. inversion Hd; subst.
  rewrite skill_entry_child. case_bool_decide; [|by apply IH]. cbn. constructor; [|by apply IH].
  intros ([m p] & -> & (e & He & Hs)%list_elem_of_omap)%list_elem_of_fmap.
  rewrite Forall_forall in Hc'. destruct (Hc' e He) as [n' ->]. rewrite skill_entry_child in Hs. case_bool_decide; [|done].
  by injection Hs as -> <-.
Qed.

(** The listing depends on what is below the directory. *)
Definition same_below (d : path) (w w' : Fs) : Prop := ∀ n k, fs_nodes w' !! (d ++ n :: k) = fs_nodes w !! (d ++ n :: k).

Lemma iterdir_same d w w' : same_below d w w' → iterdir w' d ≡ₚ iterdir w d.
Proof.
  intros Hs. apply NoDup_Permutation; [apply iterdir_nodup..|]. intros e. split; intros (n & -> & Hn)%iterdir_child;
    apply iterdir_elem; [rewrite <-Hs|rewrite Hs]; done.
Qed.

Lemma listed_same d w w' : same_below d w w' → listed w' d = listed w d.
Proof.
  intros Hs. unfold listed.
  rewrite (sort_keyed_unique (map (λ e, (path_name e, e)) (iterdir w' d)) (map (λ e, (path_name e, e)) (iterdir w d)))
    by (try apply iterdir_names_nodup; by rewrite (iterdir_same d w w')).
  apply list_omap_ext, Forall2_same_length_lookup. split; [done|]. intros i e1 e2 H1 H2. rewrite H1 in H2. injection H2 as <-.
  apply list_elem_of_lookup_2 in H1. rewrite sort_keyed_perm, map_map, map_id in H1. apply iterdir_child in H1 as (n & -> & _).
  rewrite !skill_entry_child. unfold has_skill. by rewrite !Hs.
Qed.

(** ** Copying runs *)

Definition apart (p q : path) : Prop := ¬ p `prefix_of` q ∧ ¬ q `prefix_of` p.

Lemma below_apart p q k : apart p q → ¬ (p ++ k) `prefix_of` q ∧ (∀ j, p ++ k ≠ q ++ j).
Proof.
  intros [Hpq Hqp]. split.
  - intros Hp. apply Hpq. etrans; [|exact Hp]. by apply prefix_app_r.
  - intros j E. destruct (prefix_weak_total p q (p ++ k)) as [|]; [by apply prefix_app_r|rewrite E; by apply prefix_app_r|done..].
Qed.

Lemma below_apart_prefix p q k j : apart p q → ¬ (p ++ k) `prefix_of` (q ++ j).
Proof. intros Ha [i Hi]. rewrite <-app_assoc in Hi. symmetry in Hi. by apply (below_apart p q (k ++ i) Ha) in Hi. Qed.

Lemma deep_not_prefix (t : path) n x m : ¬ t ++ [n; x] `prefix_of` t ++ [m].
Proof. intros Hp%prefix_length. rewrite !length_app in Hp. cbn in Hp. lia. Qed.

Lemma md_inj t n m : skill_md t n = skill_md t m → n = m.
Proof. unfold skill_md. intros E%app_inv_head. by injection E. Qed.

Lemma prefix_child (q t : path) m : q `prefix_of` t ++ [m] → q `prefix_of` t ∨ q = t ++ [m].
Proof.
  destruct q as [|x q _] using rev_ind; [by left; apply prefix_nil|]. intros [|[-> ->]]%snoc_prefix_inv; auto.
Qed.

Section copying.
Context (c t : path) (Hapart : apart c t).

(** [w'] has the skills [names] of [c] in [t]; nothing else changed but for
    missing directories. *)
Record synced (names : list pystr) (w w' : Fs) : Prop := {
  sy_writable : fs_writable w' = fs_writable w;
  sy_dirs : ∀ n q, n ∈ names → q ≠ [] → q `prefix_of` t ++ [n] → fs_nodes w' !! q = Some Dir;
  sy_files : ∀ n b, n ∈ names → fs_nodes w !! skill_md c n = Some (File b) → fs_nodes w' !! skill_md t n = Some (File b);
  sy_rest : ∀ q, (∀ n, n ∈ names → ¬ q `prefix_of` t ++ [n] ∧ q ≠ skill_md t n) → fs_nodes w' !! q = fs_nodes w !! q;
}.

Record ready (names : list pystr) (w : Fs) : Prop := {
  re_writable : ∀ p, fs_writable w p = true;
  re_source : ∀ n, n ∈ names → ∃ b, fs_nodes w !! skill_md c n = Some (File b);
  re_clear : ∀ n, n ∈ names → clear_way w (t ++ [n]);
  re_dest : ∀ n, n ∈ names → fs_nodes w !! skill_md t n ≠ Some Dir;
}.

Lemma synced_source names n w w' : synced names w w' → fs_nodes w' !! skill_md c n = fs_nodes w !! skill_md c n.
Proof.
  intros [_ _ _ Hr]. apply Hr. intros m _. split; [by apply below_apart_prefix|by apply below_apart].
Qed.

(** One skill: the directories, and the file. *)
Lemma synced_one n b w w1 w' :
  fs_nodes w !! skill_md c n = Some (File b) → made (t ++ [n]) w w1 →
  fs_writable w' = fs_writable w1 → fs_nodes w' = <[skill_md t n := File b]> (fs_nodes w1) → synced [n] w w'.
Proof.
  intros Hb [Mw Md Mr] Hw' Hn'. split.
  - congruence.
  - intros m q ->%list_elem_of_singleton Hq Hp. rewrite Hn', lookup_insert_ne; [by apply Md|].
    intros <-. by apply deep_not_prefix in Hp.
  - intros m b' ->%list_elem_of_singleton. rewrite Hb. intros [= <-]. by rewrite Hn', lookup_insert_eq.
  - intros q Hq. destruct (Hq n) as [Hp Hne]; [set_solver|]. rewrite Hn', lookup_insert_ne by done. by apply Mr.
Qed.

Lemma copyfile_runs n b w :
  (∀ p, fs_writable w p = true) → fs_nodes w !! skill_md c n = Some (File b) →
  fs_nodes w !! (t ++ [n]) = Some Dir → fs_nodes w !! skill_md t n ≠ Some Dir →
  copyfile (skill_md c n) (skill_md t n) w = (with_nodes (insert (skill_md t n) (File b)) w, Ok tt).
Proof.
  intros Hw Hb Hdir Hd. unfold copyfile. rewrite bool_decide_false by by apply below_apart. unfold read_bytes. rewrite Hb.
  unfold write_file. assert (is_dir w (removelast (skill_md t n)) = true) as ->.
  { unfold skill_md. change [n; SKILL_FILE] with ([n] ++ [SKILL_FILE]). rewrite app_assoc, removelast_last.
    by apply bool_decide_eq_true. }
  assert (is_dir w (skill_md t n) = false) as -> by by apply bool_decide_eq_false. by rewrite Hw.
Qed.

(** The copy is needed unless the file is there with the same contents. *)
Lemma needs_copy_spec n b w :
  fs_nodes w !! skill_md c n = Some (File b) → fs_nodes w !! skill_md t n ≠ Some Dir →
  needs_copy (skill_md c n) (skill_md t n) w = Ok (negb (bool_decide (fs_nodes w !! skill_md t n = Some (File b)))).
Proof.
  intros Hb Hd. unfold needs_copy, path_exists, read_bytes. rewrite Hb. destruct (fs_nodes w !! skill_md t n) as [[old|]|]; [|done..].
  rewrite bool_decide_true by by eexists. cbn. f_equal. f_equal. apply bool_decide_ext. naive_solver.
Qed.

Lemma sync_skill_runs n w :
  ready [n] w → ∃ w' k, sync_skill t (n, skill_md c n) w = (w', Ok k) ∧ synced [n] w w'.
Proof.
  intros [Hw Hs Hc Hd]. destruct (Hs n) as [b Hb]; [set_solver|].
  destruct (mkdir_parents_makes (fs_writable w) Hw (t ++ [n]) w eq_refl) as (w1 & E1 & Hm); [apply Hc; set_solver|].
  pose proof Hm as [Mw Md Mr].
  assert (fs_nodes w1 !! skill_md c n = Some (File b)) as Hb1 by (rewrite Mr; [done|by apply below_apart_prefix]).
  assert (fs_nodes w1 !! skill_md t n ≠ Some Dir) as Ht1 by (rewrite Mr by apply deep_not_prefix; apply Hd; set_solver).
  unfold sync_skill. rewrite (M_bind_run _ _ _ _ _ E1). rewrite <-app_assoc. cbn [app]. fold (skill_md t n).
  rewrite (M_bind_run _ _ _ w1 _ (f_equal (pair w1) (needs_copy_spec n b w1 Hb1 Ht1))). case_bool_decide as Heq; cbn [negb].
  - eexists w1, 0. split; [done|]. eapply synced_one; [done..|]. by rewrite insert_id.
  - assert (fs_nodes w1 !! (t ++ [n]) = Some Dir) as Hdir by (apply Md; [by destruct t|done]).
    rewrite (M_bind_run _ _ _ _ _ (copyfile_runs n b w1 (eq_ind_r (λ W, ∀ p, W p = true) Hw Mw) Hb1 Hdir Ht1)).
    eexists _, 1. split; [done|]. by eapply synced_one.
Qed.

(** The next skills can still be copied. *)
Lemma synced_ready n names w w' : ready (n :: names) w → synced [n] w w' → ready names w'.
Proof.
  intros [Hw Hs Hc Hd] Hsy. pose proof Hsy as [Yw Yd Yf Yr]. split.
  - by rewrite Yw.
  - intros m Hm. rewrite (synced_source _ _ _ _ Hsy). apply Hs. set_solver.
  - intros m Hm q b Hq Hp. destruct (decide (q `prefix_of` t ++ [n])) as [Hpn|Hpn].
    + by rewrite (Yd n) by set_solver.
    + rewrite Yr; [by apply (Hc m); [set_solver|..]|]. intros ? ->%list_elem_of_singleton. split; [done|].
      intros ->. by apply deep_not_prefix in Hp.
  - intros m Hm. destruct (Hs n) as [b Hb]; [set_solver|]. destruct (decide (m = n)) as [->|Hne].
    + by rewrite (Yf n b) by set_solver.
    + rewrite Yr; [apply Hd; set_solver|]. intros ? ->%list_elem_of_singleton. split; [apply deep_not_prefix|].
      by intros ?%md_inj.
Qed.

Lemma synced_cons n names w w1 w' : ready (n :: names) w → synced [n] w w1 → synced names w1 w' → synced (n :: names) w w'.
Proof.
  intros [_ Hs _ _] H1 [Yw Yd Yf Yr]. pose proof H1 as [Xw Xd Xf Xr]. split.
  - congruence.
  - intros m q Hm Hq Hp.
    destruct (decide (Exists (λ k, q `prefix_of` t ++ [k]) names)) as [(k & Hk & Hpk)%Exists_exists|Hno]; [by apply (Yd k)|].
    rewrite Exists_exists in Hno.
    assert (m = n) as -> by (apply elem_of_cons in Hm as [|]; [done|exfalso; eauto]).
    rewrite Yr; [apply (Xd n); [set_solver|done..]|]. intros k Hk. split; [by intros ?; eauto|].
    intros ->. by apply deep_not_prefix in Hp.
  - intros m b Hm Hb. destruct (decide (m ∈ names)) as [Hin|Hin].
    + apply Yf; [done|]. by rewrite (synced_source _ _ _ _ H1).
    + assert (m = n) as -> by set_solver. rewrite Yr; [apply Xf; [set_solver|done]|]. intros k Hk.
      split; [apply deep_not_prefix|]. intros ->%md_inj. done.
  - intros q Hq. rewrite Yr by set_solver. apply Xr. set_solver.
Qed.

Lemma sync_loop names w changes :
  ready names w →
  ∃ w' k, counting (sync_skill t) (map (λ n, (n, skill_md c n)) names) changes w = (w', Ok k) ∧ synced names w w'.
Proof.
  revert w changes. induction names as [|n names IH]; intros w changes Hr; cbn [map counting].
  - eexists w, _. split; [done|]. split; try done; set_solver.
  - destruct (sync_skill_runs n w) as (w1 & k & E & Hsy).
    { destruct Hr as [Hw Hs Hc Hd]. split; [done|intros m ->%list_elem_of_singleton..]; [apply Hs|apply Hc|apply Hd]; set_solver. }
    rewrite (M_bind_run _ _ _ _ _ E). destruct (IH w1 (changes + k)) as (w2 & k2 & E2 & Hsy2); [by eapply synced_ready|].
    exists w2, k2. split; [done|]. by eapply synced_cons.
Qed.
End copying.

(** ** Removing stale skills *)

Section dropping.
Context (partly_removed : path → Fs → Fs) (canonical : list (pystr * path)) (t : path).

Definition stale (ps : list pystr) (n : pystr) : Prop := n ∈ ps ∧ n ∉ map fst canonical.

(** The trees of the stale skills are gone. *)
Record dropped (ps : list pystr) (w w' : Fs) : Prop := {
  dr_writable : fs_writable w' = fs_writable w;
  dr_gone : ∀ n k, stale ps n → fs_nodes w' !! (t ++ n :: k) = None;
  dr_rest : ∀ q, (∀ n, stale ps n → ¬ t ++ [n] `prefix_of` q) → fs_nodes w' !! q = fs_nodes w !! q;
}.

Lemma all_removable w p : (∀ q, fs_writable w q = true) → removable w p = true.
Proof. intros Hw. apply forallb_Forall, Forall_forall. intros x _. by rewrite Hw, orb_true_r. Qed.

Lemma drop_loop_runs ps w changes :
  (∀ q, fs_writable w q = true) → NoDup ps → (∀ n, stale ps n → is_Some (fs_nodes w !! (t ++ [n]))) →
  ∃ w' k, counting (drop_skill partly_removed canonical t) ps changes w = (w', Ok k) ∧ dropped ps w w'.
Proof.
  intros Hw Hd. revert w changes Hw. induction Hd as [|n ps Hn Hd IH]; intros w changes Hw Hex; cbn [counting].
  - eexists w, _. split; [done|]. split; [done| |done]. intros n k [Hin _]. by apply not_elem_of_nil in Hin.
  - destruct (decide (n ∈ map fst canonical)) as [Hc|Hc].
    + rewrite (M_bind_run _ _ _ w 0) by (unfold drop_skill; by rewrite bool_decide_true). destruct (IH w (changes + 0) Hw) as (w' & k & E & [Dw Dg Dr]).
      { intros m [Hm Hm']. apply Hex. split; [by right|done]. }
      exists w', k. split; [exact E|]. split; [done| |]; unfold stale in *.
      * intros m j [[->|Hm]%elem_of_cons Hm']; [done|]. by apply Dg.
      * intros q Hq. apply Dr. intros m [Hm Hm']. apply Hq. split; [by right|done].
    + assert (drop_skill partly_removed canonical t n w = (rmtree (t ++ [n]) w, Ok 1)) as E1.
      { unfold drop_skill. rewrite bool_decide_false by done. rewrite (M_bind_run _ _ _ (rmtree (t ++ [n]) w) tt); [done|].
        unfold rmtree_or_raise, path_exists. rewrite bool_decide_true by (apply Hex; split; [by left|done]).
        cbn [negb]. by rewrite all_removable. }
      rewrite (M_bind_run _ _ _ _ _ E1).
      assert (∀ m j, m ≠ n → fs_nodes (rmtree (t ++ [n]) w) !! (t ++ m :: j) = fs_nodes w !! (t ++ m :: j)) as Hother.
      { intros m j Hne. rewrite rmtree_lookup by done. unfold below. rewrite bool_decide_false; [done|].
        intros Hp%prefix_app_inv. apply prefix_cons_inv_1 in Hp. by subst. }
      destruct (IH (rmtree (t ++ [n]) w) (changes + 1)) as (w' & k & E & [Dw Dg Dr]); [done| |].
      { intros m [Hm Hm']. rewrite Hother by (intros ->; done). apply Hex. split; [by right|done]. }
      exists w', k. split; [exact E|].
      assert (∀ q, t ++ [n] `prefix_of` q → fs_nodes w' !! q = None) as Hgone.
      { intros q Hp. rewrite Dr.
        - rewrite rmtree_lookup by done. unfold below. by rewrite bool_decide_true.
        - intros m [Hm _] Hp'. destruct (prefix_weak_total _ _ _ Hp Hp') as [Hx|Hx]; apply prefix_app_inv, prefix_cons_inv_1 in Hx; by subst. }
      split; [done| |]; unfold stale in *.
      * intros m j [[->|Hm]%elem_of_cons Hm']; [|by apply Dg]. apply Hgone. change (n :: j) with ([n] ++ j). rewrite app_assoc. by apply prefix_app_r.
      * intros q Hq. rewrite Dr by (intros m [Hm Hm']; apply Hq; split; [by right|done]).
        rewrite rmtree_lookup by done. unfold below. rewrite bool_decide_false; [done|]. apply Hq. split; [by left|done].
Qed.
End dropping.

(** ** A tree after a sync *)

(** [t] has the skills [names] with the contents of [c], and no other skill. *)
Record clean (c t : path) (names : list pystr) (w : Fs) : Prop := {
  cl_dir : fs_nodes w !! t = Some Dir;
  cl_names : ∀ n, has_skill w t n ↔ n ∈ names;
  cl_files : ∀ n, n ∈ names → ∃ b, fs_nodes w !! skill_md c n = Some (File b) ∧ fs_nodes w !! skill_md t n = Some (File b);
}.

Lemma skill_at_file d n (l : list (pystr * path)) :
  Forall (λ np, np.2 = skill_md d np.1) l → n ∈ map fst l → skill_at n l = Ok (skill_md d n).
Proof.
  intros Hl Hin. unfold skill_at. destruct (List.find _ l) as [[m p]|] eqn:E.
  - apply find_some in E as [Hm Heq]. bool_prop. cbn in Heq. subst. rewrite Forall_forall in Hl. cbn.
    f_equal. apply (Hl (n, p)). by apply list_elem_of_In.
  - apply list_elem_of_fmap in Hin as (np & -> & Hin%list_elem_of_In). apply (find_none _ _ E) in Hin. by bool_prop.
Qed.

Lemma no_drift w c t (canonical plugin : list (pystr * path)) ns :
  Forall (λ np, np.2 = skill_md c np.1) canonical → Forall (λ np, np.2 = skill_md t np.1) plugin →
  Forall (λ n, n ∈ map fst canonical ∧ n ∈ map fst plugin
    ∧ ∃ b, fs_nodes w !! skill_md c n = Some (File b) ∧ fs_nodes w !! skill_md t n = Some (File b)) ns →
  drift_loop w canonical plugin t ns = Ok [].
Proof.
  intros Hc Hp. induction 1 as [|n ns (Hcn & Hpn & b & Hb & Hb') _ IH]; cbn [drift_loop]; [done|].
  assert (∀ p, fs_nodes w !! p = Some (File b) → read_bytes w p = Ok b) as Hread by (intros p Hf; unfold read_bytes; by rewrite Hf).
  rewrite (skill_at_file c n canonical Hc Hcn). cbn [mbind result_bind]. rewrite (Hread _ Hb). cbn [mbind result_bind].
  rewrite (skill_at_file t n plugin Hp Hpn). cbn [mbind result_bind]. rewrite (Hread _ Hb'). cbn [mbind result_bind].
  rewrite IH. cbn. by rewrite bool_decide_true.
Qed.

Lemma filter_none {A} (f : A → bool) l : Forall (λ a, f a = false) l → List.filter f l = [].
Proof. induction 1 as [|a l Ha _ IH]; cbn; [done|]. by rewrite Ha. Qed.

Lemma sorted_names_perm l : sorted_names l ≡ₚ l.
Proof. unfold sorted_names. by rewrite sort_keyed_perm, map_map, map_id. Qed.

Lemma clean_no_drift c t canonical w :
  Forall (λ np, np.2 = skill_md c np.1) canonical → clean c t (map fst canonical) w → _check_drift canonical t w = Ok [].
Proof.
  intros Hc [Cd Cn Cf]. unfold _check_drift. rewrite plugin_skills_listed by done. cbn [mbind result_bind].
  assert (∀ n, n ∈ map fst (listed w t) ↔ n ∈ map fst canonical) as Hsame by (intros n; by rewrite listed_names).
  rewrite (filter_none _ (map fst canonical)).
  2: { apply Forall_forall. intros n Hn. by rewrite bool_decide_true by by apply Hsame. }
  rewrite (filter_none _ (map fst (listed w t))).
  2: { apply Forall_forall. intros n Hn. by rewrite bool_decide_true by by apply Hsame. }
  rewrite (no_drift w c t); [done|done|apply listed_files|]. rewrite sorted_names_perm.
  apply Forall_forall. intros n Hn. apply list_elem_of_In, filter_In in Hn as [Hn%list_elem_of_In Hb].
  split_and!; [done|by apply Hsame|by apply Cf].
Qed.

Section target.
Context (partly_removed : path → Fs → Fs) (c t : path) (Hapart : apart c t) (Hne : t ≠ []) (names : list pystr).
Let canonical : list (pystr * path) := map (λ n, (n, skill_md c n)) names.

Lemma canonical_names : map fst canonical = names.
Proof. unfold canonical. by rewrite map_map, map_id. Qed.

(** The three steps of the operation. *)
Section steps.
Context (w w1 w2 w3 : Fs) (Hmade : made t w w1) (Hsynced : synced c t names w1 w2).

Lemma made_ready : ready c t names w → ready c t names w1.
Proof.
  destruct Hmade as [Mw Md Mr]. intros [Hw Hs Hc Hd].
  assert (∀ n k, fs_nodes w1 !! (t ++ n :: k) = fs_nodes w !! (t ++ n :: k)) as Hbelow.
  { intros n k. apply Mr. intros Hp%prefix_length. rewrite length_app in Hp. cbn in Hp. lia. }
  split; [by rewrite Mw|..]; intros n Hn; unfold skill_md in *.
  - rewrite Mr by by apply below_apart. by apply Hs.
  - intros q b Hq [Hp| ->]%prefix_child; [by rewrite Md|]. rewrite Hbelow. by apply (Hc n).
  - rewrite Hbelow. by apply Hd.
Qed.

(** Other entries of the target are left alone by the copies. *)
Lemma others_kept n k : n ∉ names → fs_nodes w2 !! (t ++ n :: k) = fs_nodes w1 !! (t ++ n :: k).
Proof.
  destruct Hsynced as [_ _ _ Yr]. intros Hn. apply Yr. intros m Hm. unfold skill_md. split; intros Hp.
  - apply prefix_app_inv, prefix_cons_inv_1 in Hp. by subst.
  - apply app_inv_head in Hp. injection Hp as -> _. done.
Qed.

Lemma others_there n : stale canonical (map fst (listed w1 t)) n → is_Some (fs_nodes w2 !! (t ++ [n])).
Proof.
  intros [Hn%listed_names Hn']. rewrite canonical_names in Hn'. rewrite others_kept by done. by destruct Hn as [-> _].
Qed.

Context (Hdropped : dropped canonical t (map fst (listed w1 t)) w2 w3).

(** Only the trees of other names are removed. *)
Lemma drop_keeps q : (∀ n, n ∉ names → ¬ t ++ [n] `prefix_of` q) → fs_nodes w3 !! q = fs_nodes w2 !! q.
Proof.
  destruct Hdropped as [_ _ Dr]. intros Hq. apply Dr. intros n [_ Hn]. rewrite canonical_names in Hn. by apply Hq.
Qed.

Lemma drop_keeps_skill n k : n ∈ names → fs_nodes w3 !! (t ++ n :: k) = fs_nodes w2 !! (t ++ n :: k).
Proof. intros Hn. apply drop_keeps. intros m Hm Hp%prefix_app_inv. apply prefix_cons_inv_1 in Hp. by subst. Qed.

Lemma target_frame q : apart q t → fs_nodes w3 !! q = fs_nodes w !! q.
Proof.
  destruct Hmade as [_ _ Mr], Hsynced as [_ _ _ Yr]. intros [Hqt Htq].
  rewrite drop_keeps by (intros n _ Hp; apply Htq; etrans; [|exact Hp]; by apply prefix_app_r).
  rewrite Yr; [by apply Mr|]. intros n Hn. split; [|intros ->; apply Htq; by apply prefix_app_r].
  intros [|E]%prefix_child; [done|]. apply Htq. rewrite E. by apply prefix_app_r.
Qed.

Lemma target_above q : q ≠ [] → q `prefix_of` t → fs_nodes w3 !! q = Some Dir.
Proof.
  destruct Hmade as [_ Md _], Hsynced as [_ Yd _ Yr]. intros Hq Hp.
  rewrite drop_keeps by (intros n _ Hp'; eapply snoc_not_prefix; by etrans).
  clear Hdropped. destruct names as [|n ns].
  - rewrite Yr; [by apply Md|]. set_solver.
  - apply (Yd n); [set_solver|done|]. by apply prefix_app_r.
Qed.

Lemma target_clean :
  ready c t names w1 → Forall (λ n, startswith (str ".") n = false) names → clean c t names w3.
Proof.
  intros [_ Hs _ _] Hdots. rewrite Forall_forall in Hdots. pose proof Hsynced as [_ Yd Yf _]. split.
  - by apply target_above.
  - intros n. unfold has_skill. split.
    + intros (Hdir & Hdot & Hmd). destruct (decide (n ∈ names)) as [|Hn]; [done|]. exfalso.
      destruct Hdropped as [_ Dg Dr]. destruct (decide (has_skill w1 t n)) as [Hh|Hh].
      * by rewrite Dg in Hdir by (split; [by apply listed_names|by rewrite canonical_names]).
      * assert (∀ k, fs_nodes w3 !! (t ++ n :: k) = fs_nodes w1 !! (t ++ n :: k)) as Hsame.
        { intros k. rewrite Dr; [by apply others_kept|]. intros m [Hm%listed_names _] Hp%prefix_app_inv.
          apply prefix_cons_inv_1 in Hp. by subst. }
        apply Hh. unfold has_skill. by rewrite <-!Hsame.
    + intros Hn. destruct (Hs n Hn) as [b Hb]. rewrite !drop_keeps_skill by done. fold (skill_md t n).
      split_and!; [apply (Yd n); [done|by destruct t|done]|by apply Hdots|]. by rewrite (Yf n b).
  - intros n Hn. destruct (Hs n Hn) as [b Hb]. exists b. split.
    + rewrite drop_keeps.
      * by rewrite (synced_source c t Hapart _ _ _ _ Hsynced).
      * intros m _ [j Hj]. rewrite <-app_assoc in Hj. by apply (below_apart c t [n; SKILL_FILE] Hapart) in Hj.
    + unfold skill_md. rewrite drop_keeps_skill by done. by apply Yf.
Qed.
End steps.

(** The operation on one target: it ends, the tree is clean, and only what is
    below the target changed, but for missing directories above it. *)
Lemma sync_target w :
  ready c t names w → clear_way w t → Forall (λ n, startswith (str ".") n = false) names →
  ∃ w' k, _sync partly_removed canonical t true w = (w', Ok k)
    ∧ fs_writable w' = fs_writable w ∧ clean c t names w'
    ∧ (∀ q, q ≠ [] → q `prefix_of` t → fs_nodes w' !! q = Some Dir)
    ∧ (∀ q, apart q t → fs_nodes w' !! q = fs_nodes w !! q).
Proof.
  intros Hr Hclear Hdots. pose proof (re_writable _ _ _ _ Hr) as Hw.
  destruct (mkdir_parents_makes (fs_writable w) Hw t w eq_refl Hclear) as (w1 & E1 & Hm).
  apply (made_ready w w1 Hm) in Hr. destruct (sync_loop c t Hapart names w1 0 Hr) as (w2 & k2 & E2 & Hsy).
  destruct (drop_loop_runs partly_removed canonical t (map fst (listed w1 t)) w2 k2) as (w3 & k3 & E3 & Hdr).
  { by rewrite (sy_writable _ _ _ _ _ Hsy), (made_writable _ _ _ Hm). }
  { apply listed_nodup. }
  { by apply others_there. }
  exists w3, k3. split_and!.
  - unfold _sync. rewrite (M_bind_run _ _ _ _ _ E1).
    rewrite (M_bind_run _ _ _ w1 _ (f_equal (pair w1) (plugin_skills_listed w1 t (made_dirs _ _ _ Hm t Hne (reflexivity t))))).
    by rewrite (M_bind_run _ _ _ _ _ E2).
  - by rewrite (dr_writable _ _ _ _ _ Hdr), (sy_writable _ _ _ _ _ Hsy), (made_writable _ _ _ Hm).
  - by eapply target_clean.
  - by eapply target_above.
  - by eapply target_frame.
Qed.
End target.

(** ** The whole script *)

Section script.
Context (R : path) (partly_removed : path → Fs → Fs).
Abbreviation C := (CANONICAL_DIR R).

Lemma apart_below (a b : path) : apart a b → apart (R ++ a) (R ++ b).
Proof. intros [Hab Hba]. split; by intros ?%prefix_app_inv. Qed.

Lemma targets_apart : Forall (apart C) (PLUGIN_TARGETS R) ∧ ∀ t1 t2, PLUGIN_TARGETS R = [t1; t2] → apart t1 t2.
Proof.
  assert (∀ a b, bool_decide (a `prefix_of` b) || bool_decide (b `prefix_of` a) = false → apart (R ++ a) (R ++ b)) as Hcheck.
  { intros a b Hb. apply orb_false_iff in Hb as [H1 H2]. bool_prop. by apply apart_below. }
  split.
  - repeat constructor; apply Hcheck; vm_compute; reflexivity.
  - intros t1 t2 [= <- <-]. apply Hcheck. vm_compute. reflexivity.
Qed.

(** There are canonical skills, they can be read, and nothing of the wrong kind
    stands where they go. *)
Record syncable (w : Fs) : Prop := {
  sb_writable : ∀ p, fs_writable w p = true;
  sb_dir : fs_nodes w !! C = Some Dir;
  sb_some : ∃ n, has_skill w C n;
  sb_source : ∀ n, has_skill w C n → ∃ b, fs_nodes w !! skill_md C n = Some (File b);
  sb_clear : ∀ t n, t ∈ PLUGIN_TARGETS R → has_skill w C n → clear_way w (t ++ [n]);
  sb_dest : ∀ t n, t ∈ PLUGIN_TARGETS R → has_skill w C n → fs_nodes w !! skill_md t n ≠ Some Dir;
}.

Lemma syncable_ready w t : syncable w → t ∈ PLUGIN_TARGETS R → ready C t (map fst (listed w C)) w ∧ clear_way w t.
Proof.
  intros [Hw _ [n Hn] Hs Hc Hd] Ht. split; [split; [done|..]; intros m Hm%listed_names; auto|].
  intros q b Hq Hp. apply (Hc t n); [done..|]. by apply prefix_app_r.
Qed.

(** What is apart from [t] did not change. *)
Definition frame (t : path) (w w' : Fs) : Prop := ∀ q, apart q t → fs_nodes w' !! q = fs_nodes w !! q.

Lemma frame_below t w w' : frame t w w' → ∀ p k, apart p t → fs_nodes w' !! (p ++ k) = fs_nodes w !! (p ++ k).
Proof.
  intros Hf p k Hp. apply Hf. split; [by apply below_apart|]. intros [j Hj]. by apply (below_apart p t k Hp) in Hj.
Qed.

(** A sync of one target leaves the other one ready. *)
Lemma next_ready c t t' names w w' :
  apart c t → apart t' t → fs_writable w' = fs_writable w →
  (∀ q, q ≠ [] → q `prefix_of` t → fs_nodes w' !! q = Some Dir) → frame t w w' →
  ready c t' names w → clear_way w t' → ready c t' names w' ∧ clear_way w' t'.
Proof.
  intros Hct Htt Hw Habove Hframe [Rw Rs Rc Rd] Hclear.
  pose proof (frame_below t w w' Hframe) as Hbelow.
  assert (∀ k, clear_way w (t' ++ k) → clear_way w' (t' ++ k)) as Hway.
  { intros k Hk q b Hq Hp. destruct (decide (q `prefix_of` t)) as [Hqt|Hqt]; [by rewrite Habove|].
    rewrite Hframe; [by apply Hk|]. split; [done|]. intros Htq. destruct Htt as [H1 H2].
    destruct (prefix_weak_total t t' (t' ++ k)); [by etrans|by apply prefix_app_r|done..]. }
  split; [split|].
  - by rewrite Hw.
  - intros n Hn. unfold skill_md. rewrite Hbelow by done. by apply Rs.
  - intros n Hn. by apply Hway, Rc.
  - intros n Hn. unfold skill_md. rewrite Hbelow by done. by apply Rd.
  - rewrite <-(app_nil_r t') in Hclear |- *. by apply Hway.
Qed.

Lemma clean_frame c t t' names w w' :
  apart c t' → apart t t' → frame t' w w' → clean c t names w → clean c t names w'.
Proof.
  intros Hct Htt Hframe [Cd Cn Cf].
  pose proof (frame_below t' w w' Hframe) as Hbelow.
  split.
  - by rewrite Hframe.
  - intros n. unfold has_skill. rewrite !Hbelow by done. apply Cn.
  - intros n Hn. unfold skill_md. rewrite !Hbelow by done. by apply Cf.
Qed.

Lemma apart_sym (p q : path) : apart p q → apart q p.
Proof. by intros [? ?]. Qed.

(** Both targets, over the files. *)
Lemma both_synced w t1 t2 :
  PLUGIN_TARGETS R = [t1; t2] → syncable w →
  let names := map fst (listed w C) in
  let canonical := map (λ n, (n, skill_md C n)) names in
  ∃ w1 k1 w2 k2, _sync partly_removed canonical t1 true w = (w1, Ok k1) ∧ _sync partly_removed canonical t2 true w1 = (w2, Ok k2)
    ∧ clean C t1 names w2 ∧ clean C t2 names w2 ∧ ∀ k, fs_nodes w2 !! (C ++ k) = fs_nodes w !! (C ++ k).
Proof.
  intros Ht Hsb names canonical. destruct targets_apart as [HC H12]. rewrite Ht in HC. specialize (H12 _ _ Ht).
  apply Forall_cons in HC as [HC1 [HC2 _]%Forall_cons].
  assert (∀ t, t ∈ [t1; t2] → ready C t names w ∧ clear_way w t ∧ t ≠ []) as Hready.
  { intros t Hin. rewrite <-Ht in Hin. destruct (syncable_ready w t Hsb Hin) as [? ?]. split_and!; [done..|].
    unfold PLUGIN_TARGETS in Hin. intros ->. rewrite !elem_of_cons in Hin. destruct Hin as [E|[E|E]]; [by destruct R..|].
    by apply not_elem_of_nil in E. }
  assert (Forall (λ n, startswith (str ".") n = false) names) as Hdots.
  { apply Forall_forall. intros n Hn%listed_names. by destruct Hn as (_ & ? & _). }
  destruct (Hready t1) as (R1 & W1 & N1); [set_solver|]. destruct (Hready t2) as (R2 & W2 & N2); [set_solver|].
  destruct (sync_target partly_removed C t1 HC1 N1 names w R1 W1 Hdots) as (w1 & k1 & E1 & Hw1 & Hclean1 & Ha1 & Hf1).
  destruct (next_ready C t1 t2 names w w1) as [R2' W2']; [done|by apply apart_sym|done..|].
  destruct (sync_target partly_removed C t2 HC2 N2 names w1 R2' W2' Hdots) as (w2 & k2 & E2 & Hw2 & Hclean2 & Ha2 & Hf2).
  exists w1, k1, w2, k2. split_and!; [done|done|by eapply clean_frame|done|]. intros k.
  rewrite (frame_below t2 w1 w2) by done. by apply (frame_below t1 w w1).
Qed.

Lemma canonical_skills_listed w :
  fs_nodes w !! C = Some Dir → _canonical_skills R w = Ok (map (λ n, (n, skill_md C n)) (map fst (listed w C))).
Proof.
  intros Hd. unfold _canonical_skills. fold (_plugin_skills C w). rewrite plugin_skills_listed by done. f_equal.
  rewrite map_map. pose proof (listed_files w C) as Hl. induction Hl as [|[n p] l Hp _ IH]; cbn in *; [done|]. by rewrite <-Hp, <-IH.
Qed.

Lemma on_fs_run {A} (m : M Fs A) (s : Shell) w r :
  m (sh_fs s) = (w, r) → on_fs m s = ({| sh_fs := w; sh_out := sh_out s; sh_err := sh_err s |}, r).
Proof. unfold on_fs. by intros ->. Qed.

Lemma some_skill w n : has_skill w C n → map (λ n, (n, skill_md C n)) (map fst (listed w C)) ≠ [].
Proof. intros Hn E. apply fmap_nil_inv in E. apply listed_names in Hn. rewrite E in Hn. by apply not_elem_of_nil in Hn. Qed.

Lemma sync_trees_step canonical drop t ts total (s : Shell) w k :
  _sync partly_removed canonical t drop (sh_fs s) = (w, Ok k) →
  ∃ s', sh_fs s' = w ∧ sync_trees partly_removed canonical drop (t :: ts) total s
    = sync_trees partly_removed canonical drop ts (total + k) s'.
Proof.
  intros E. cbn [sync_trees]. rewrite (M_bind_run _ _ _ _ _ (on_fs_run _ _ _ _ E)).
  destruct (k =? 0); eexists; (split; [|reflexivity]); reflexivity.
Qed.

Lemma main_syncs (s : Shell) t1 t2 n w1 k1 w2 k2 :
  let canonical := map (λ n, (n, skill_md C n)) (map fst (listed (sh_fs s) C)) in
  PLUGIN_TARGETS R = [t1; t2] → fs_nodes (sh_fs s) !! C = Some Dir → has_skill (sh_fs s) C n →
  _sync partly_removed canonical t1 true (sh_fs s) = (w1, Ok k1) → _sync partly_removed canonical t2 true w1 = (w2, Ok k2) →
  ∃ s', main R partly_removed {| arg_check := false; arg_from_canonical := true |} s = (s', Ok 0) ∧ sh_fs s' = w2.
Proof.
  intros canonical Ht Hd Hn E1 E2. unfold main.
  erewrite M_bind_run by (apply on_fs_run; unfold reading; by rewrite (canonical_skills_listed _ Hd)).
  fold canonical. pose proof (some_skill _ _ Hn : canonical ≠ []) as Hne. destruct canonical as [|c0 cs]; [done|].
  cbn [arg_check arg_from_canonical]. rewrite Ht.
  destruct (sync_trees_step (c0 :: cs) true t1 [t2] 0 {| sh_fs := sh_fs s; sh_out := sh_out s; sh_err := sh_err s |} w1 k1 E1)
    as (s1 & <- & H1).
  destruct (sync_trees_step (c0 :: cs) true t2 [] (0 + k1) s1 w2 k2 E2) as (s2 & <- & H2).
  rewrite (M_bind_run _ _ _ s2 (0 + k1 + k2)) by by rewrite H1, H2.
  destruct (0 + k1 + k2 =? 0); eexists; split; reflexivity.
Qed.

Lemma main_checks (s : Shell) from_canonical n :
  let names := map fst (listed (sh_fs s) C) in
  fs_nodes (sh_fs s) !! C = Some Dir → has_skill (sh_fs s) C n →
  (∀ t, t ∈ PLUGIN_TARGETS R → clean C t names (sh_fs s)) →
  ∃ s', main R partly_removed {| arg_check := true; arg_from_canonical := from_canonical |} s = (s', Ok 0) ∧ sh_fs s' = sh_fs s.
Proof.
  intros names Hd Hn Hclean. unfold main.
  erewrite M_bind_run by (apply on_fs_run; unfold reading; by rewrite (canonical_skills_listed _ Hd)).
  fold names. set (canonical := map (λ n, (n, skill_md C n)) names).
  assert (∀ ts, (∀ t, t ∈ ts → t ∈ PLUGIN_TARGETS R) → all_drift canonical ts (sh_fs s) = Ok []) as Hall.
  { induction ts as [|t ts IH]; intros Hts; cbn [all_drift]; [done|].
    rewrite (clean_no_drift C).
    - cbn [mbind result_bind]. rewrite IH by set_solver. done.
    - apply Forall_map, Forall_forall. done.
    - unfold canonical. rewrite map_map, map_id. apply Hclean, Hts. by left. }
  pose proof (some_skill _ _ Hn : canonical ≠ []) as Hne. destruct canonical as [|c0 cs]; [done|].
  cbn [arg_check]. unfold check_trees.
  erewrite M_bind_run by (apply on_fs_run; unfold reading; cbn [sh_fs]; by rewrite Hall).
  eexists. split; [reflexivity|done].
Qed.

(** C35: after [sync_skills.py --from-canonical] the check is content: on a
    writable file system, when there are canonical skills that can be read and
    nothing of the wrong kind stands where they go, the sync ends with status 0,
    the canonical tree is as it was, every plugin tree has every canonical skill
    with the same bytes and no other skill, and [--check] then ends with status 0
    and changes no file. *)
Theorem synced_trees_check (s : Shell) (from_canonical : bool) :
  syncable (sh_fs s) →
  ∃ s', main R partly_removed {| arg_check := false; arg_from_canonical := true |} s = (s', Ok 0)
    ∧ (∀ k, fs_nodes (sh_fs s') !! (C ++ k) = fs_nodes (sh_fs s) !! (C ++ k))
    ∧ (∀ t n, t ∈ PLUGIN_TARGETS R → has_skill (sh_fs s') t n ↔ has_skill (sh_fs s) C n)
    ∧ (∀ t n, t ∈ PLUGIN_TARGETS R → has_skill (sh_fs s) C n →
         fs_nodes (sh_fs s') !! skill_md t n = fs_nodes (sh_fs s) !! skill_md C n)
    ∧ ∃ s'', main R partly_removed {| arg_check := true; arg_from_canonical := from_canonical |} s' = (s'', Ok 0)
        ∧ sh_fs s'' = sh_fs s'.
Proof.
  intros Hsb. pose proof Hsb as [_ Hd [n Hn] Hsrc _ _]. destruct (PLUGIN_TARGETS R) as [|t1 [|t2 [|]]] eqn:Ht; try done.
  destruct (both_synced (sh_fs s) t1 t2 Ht Hsb) as (w1 & k1 & w2 & k2 & E1 & E2 & Hc1 & Hc2 & Hcan).
  destruct (main_syncs s t1 t2 n w1 k1 w2 k2 Ht Hd Hn E1 E2) as (s' & Hrun & <-). exists s'.
  assert (listed (sh_fs s') C = listed (sh_fs s) C) as Hlist by (apply listed_same; intros m k; apply Hcan).
  assert (∀ t, t ∈ [t1; t2] → clean C t (map fst (listed (sh_fs s) C)) (sh_fs s')) as Hclean by set_solver.
  split_and!; [done|done|..].
  - intros t m Ht'. rewrite (cl_names _ _ _ _ (Hclean t Ht')). apply listed_names.
  - intros t m Ht' Hm%listed_names. destruct (cl_files _ _ _ _ (Hclean t Ht') m Hm) as (b & Hb & ->).
    rewrite <-Hb. apply Hcan.
  - apply (main_checks s' from_canonical n); rewrite ?Hlist, ?Ht; [|by rewrite <-listed_names, Hlist, listed_names|done].
    rewrite <-(app_nil_r C) in Hd |- *. by rewrite Hcan.
Qed.
End script.

(** ** Examples *)

Definition demo_repo : path := [[47]; str "repo"; str "integrations"].
Definition nothing_removed (_ : path) (w : Fs) : Fs := w.

(** Two skills; a plugin still has a third one, and an old text of the first. *)
Definition demo_trees : Shell := {|
  sh_fs := {| fs_nodes := list_to_map [
      (CANONICAL_DIR demo_repo, Dir);
      (CANONICAL_DIR demo_repo ++ [str "inbox"], Dir); (CANONICAL_DIR demo_repo ++ [str "inbox"; SKILL_FILE], File (str "new"));
      (CANONICAL_DIR demo_repo ++ [str "setup"], Dir); (CANONICAL_DIR demo_repo ++ [str "setup"; SKILL_FILE], File (str "text"));
      (demo_repo ++ [str "plugins"; str "hermes-agent"; str "skills"], Dir);
      (demo_repo ++ [str "plugins"; str "hermes-agent"; str "skills"; str "inbox"], Dir);
      (demo_repo ++ [str "plugins"; str "hermes-agent"; str "skills"; str "inbox"; SKILL_FILE], File (str "old"));
      (demo_repo ++ [str "plugins"; str "hermes-agent"; str "skills"; str "gone"], Dir);
      (demo_repo ++ [str "plugins"; str "hermes-agent"; str "skills"; str "gone"; SKILL_FILE], File (str "text"))];
    fs_writable _ := true |};
  sh_out := []; sh_err := [] |}.

Lemma listed_two w d n1 n2 (P : pystr → Prop) :
  map fst (listed w d) = [n1; n2] → P n1 → P n2 → ∀ n, has_skill w d n → P n.
Proof. intros Hl H1 H2 n Hn%listed_names. rewrite Hl in Hn. set_solver. Qed.

Lemma demo_syncable : syncable demo_repo (sh_fs demo_trees).
Proof.
  assert (map fst (listed (sh_fs demo_trees) (CANONICAL_DIR demo_repo)) = [str "inbox"; str "setup"]) as Hl by (vm_compute; reflexivity).
  assert (∀ P : pystr → Prop, P (str "inbox") → P (str "setup") → ∀ n, has_skill (sh_fs demo_trees) (CANONICAL_DIR demo_repo) n → P n) as Hall
    by (intros P; exact (listed_two _ _ _ _ P Hl)).
  split.
  - intros p. reflexivity.
  - vm_compute. reflexivity.
  - exists (str "inbox"). apply listed_names. rewrite Hl. apply list_elem_of_here.
  - apply Hall; eexists; vm_compute; reflexivity.
  - intros t n Ht. revert n. apply Hall; apply clear_way_check; revert t Ht; apply Forall_forall, forallb_Forall;
      vm_compute; reflexivity.
  - assert (∀ n t, negb (is_dir (sh_fs demo_trees) (skill_md t n)) = true → fs_nodes (sh_fs demo_trees) !! skill_md t n ≠ Some Dir) as Hd
      by (intros n t Hd; unfold is_dir in Hd; by bool_prop).
    intros t n Ht. revert n. apply Hall; apply Hd; revert t Ht; apply Forall_forall, forallb_Forall; vm_compute; reflexivity.
Qed.

Lemma synced_trees_check_witness :
  ∃ s' s'', main demo_repo nothing_removed {| arg_check := false; arg_from_canonical := true |} demo_trees = (s', Ok 0)
    ∧ main demo_repo nothing_removed {| arg_check := true; arg_from_canonical := false |} s' = (s'', Ok 0).
Proof.
  destruct (synced_trees_check demo_repo nothing_removed demo_trees false demo_syncable) as (s' & E & _ & _ & _ & s'' & E' & _).
  exists s', s''. exact (conj E E').
Defined.

(** The check advises a plain sync; a plain sync keeps stale skills, says that
    nothing is left to do, and the check fails as before. *)
Lemma plain_sync_keeps_stale :
  let sync := main demo_repo nothing_removed {| arg_check := false; arg_from_canonical := false |} in
  let check := main demo_repo nothing_removed {| arg_check := true; arg_from_canonical := false |} in
  let '(s1, r1) := sync demo_trees in
  let '(s2, r2) := check s1 in
  let '(s3, r3) := sync s2 in
  let '(s4, r4) := check s3 in
  (r1, r2, r3, r4) = (Ok 0, Ok 1, Ok 0, Ok 1)
  ∧ last (sh_err s2) = Some refresh_hint
  ∧ last (sh_out s3) = Some (str "nothing to sync " ++ [8212] ++ str " all plugin trees already match canonical").
Proof. vm_compute. split_and!; reflexivity. Qed.
