(* ===== verification/Introduction.v ===== *)
(** * Introductions — [examples/birthday-credential-py/birthday_credential.py]

    A stranger who presents a credential of a trusted issuer is put up for
    review: the message path from both sides, over the in-memory stores, with
    providers and cards the receiver is given.  The end-to-end example of the
    repository is an instance. *)

From S2P Require Import Prelude PyStr Base64 Multibase Identifiers Jcs Dicts Http Sha256 Crypto Provider.
From S2P Require Import Pydantic Credential Status Trust Envelope A2A AgentCard Receiver Replay Stores Deployment Decimal.

Section introduction.
Context `{PyUnicode} `{Pydantic} `{PyJWT} `{!PyJWTLaws}.
Context {env : ReceiverEnv World} (Hclock : ∀ w, env_now w = time_time w).
Context (config : ReceiverConfig).

(** The credential, and how the receiver gets at the key of its issuer. *)
Context (p : CredentialPayload) (token k : pystr).
Context (Hverify : ∀ now leeway (resolver : pystr → M World pystr) authorize w w1 w2,
  cp_iat p - leeway ≤ now ≤ cp_exp p + leeway →
  resolver (cp_iss p) w = (w1, Ok k) → authorize (cp_iss p) (cp_org p) w1 = (w2, Ok tt) →
  verify_credential now leeway resolver authorize token w = (w2, Ok {| vc_payload := p; vc_issuer_key := k; vc_raw_jws := token |})).
Context (Hissuer : ∀ w : World, _resolve_issuer_key (cp_iss p) w = (w, Ok k)).
Context (Hauth : ∀ w : World, _check_issuer_authorized_for_org (cp_iss p) (cp_org p) w = (w, Ok tt)).
Context (Hvalid : ∀ c (w : World), env_revocation_check c w = (w, Ok tt)).

Let cred : VerifiedCredential := {| vc_payload := p; vc_issuer_key := k; vc_raw_jws := token |}.

Lemma presented_validates sender (w : World) :
  cp_iat p - cfg_leeway_seconds config ≤ w_time w → horizon w ≤ cp_exp p + cfg_leeway_seconds config →
  ∃ w', validate_cred config sender token w = (w', Ok cred) ∧ w_contacts w' = w_contacts w ∧ w_outbound w' = w_outbound w.
Proof.
  intros Hlo Hhi. unfold validate_cred.
  destruct (time_run w) as (w1 & E1 & Hle & Ew1). pose proof (time_horizon _ _ _ E1) as [_ Hh].
  assert (env_now w = (w1, Ok (w_time w1))) as En by by rewrite Hclock. rewrite (M_bind_run _ _ _ _ _ En).
  assert (∀ A (m : M World A) c f w0 w0' a, m w0 = (w0', Ok a) → rethrowM c f m w0 = (w0', Ok a)) as Hre
    by (intros; by apply rethrowM_ok).
  rewrite (M_bind_run _ _ _ w1 cred).
  2: { apply Hre, (Hverify _ _ _ _ w1 w1 w1); [lia|apply Hissuer|apply Hauth]. }
  rewrite (M_bind_run _ _ _ w1 tt) by apply Hre, Hvalid.
  destruct (time_run w1) as (w2 & E2 & _ & Ew2).
  assert (env_now w1 = (w2, Ok (w_time w2))) as En2 by by rewrite Hclock. rewrite (M_bind_run _ _ _ _ _ En2).
  eexists. split; [reflexivity|]. cbn. by rewrite Ew2, Ew1.
Qed.

(** A stranger's route: the policy is satisfied by the credential. *)
Lemma stranger_route sender rec ctx (w : World) :
  same_provider config rec = Ok false → (sender ∉ w_contacts w) →
  (∀ c, ctx = Some c → w_outbound w !! (c, sender) = None) →
  cp_kind p ∈ from_stranger (cfg_policy config) → trusted_by (cfg_trust_store config) cred →
  ∃ w', _classify config sender rec [cred] ctx w = (w', Ok (StrangerReview, false)).
Proof.
  intros Hsame Hcon Hout Hkind Htrust. unfold _classify. rewrite (M_bind_lift _ _ _ _ Hsame).
  rewrite (M_bind_run _ _ _ w false).
  2: { cbn. unfold InMemoryContactGraph.is_contact, mbind, M_bind, get_world, mret, M_ret. by rewrite bool_decide_eq_false_2. }
  destruct (recent_outbound config ctx sender w) as [w1 r] eqn:E.
  assert (r = Ok false) as ->.
  { revert E. unfold recent_outbound. destruct ctx as [[|c s]|]; try (by intros [= <- <-]). cbn [cg_has_recent_outbound in_memory_contacts].
    intros (_ & _ & ->)%has_recent_outbound_spec. by rewrite Hout. }
  rewrite (M_bind_run _ _ _ _ _ E). unfold required_kinds.
  destruct (from_stranger (cfg_policy config)) as [|r0 rs] eqn:Er; [by apply not_elem_of_nil in Hkind|].
  destruct (satisfies_policy_spec [cred] (cfg_trust_store config) (r0 :: rs)) as (b & Hs & Hb).
  rewrite (M_bind_lift _ _ _ _ Hs). assert (b = true) as ->; [|by exists w1].
  apply Hb. right. exists cred. split_and!; [set_solver|done|done].
Qed.

(** The message, and the key of its sender. *)
Context (sk : ed_secret) (fresh : pystr) (text ctx task : option pystr) (meta : option pydict) (mid : option pystr).
Context (template : EnvelopePayload) (h : pystr) (rec : option ProviderRecord).
Let m : A2AMessage := build_outbound_message fresh text ctx task meta mid.
Context (Hfresh : fresh ≠ []) (Hhash : compute_msg_hash (to_wire m) = Ok h) (Hcanonical : envelope_canonical (with_msg_hash template h)).
Context (Hrecipient : ep_recipient template = cfg_subject config) (Hcreds : ep_creds template = [token]).
Context (Hkey : ∀ w, resolve_sender (ep_sender template) w = (w, Ok (verifier sk, rec))).

(** The credential is valid for as long as the envelope. *)
Context (Hspan : cp_iat p ≤ ep_iat template ∧ ep_exp template ≤ cp_exp p).

Lemma introduction_reviewed (w : World) :
  in_lifetime config template w →
  (∀ e, w_entries w !! (ep_sender template, am_message_id m) = Some e → e ≤ w_time w) →
  same_provider config rec = Ok false → (ep_sender template ∉ w_contacts w) →
  (∀ c, ctx = Some c → w_outbound w !! (c, ep_sender template) = None) →
  cp_kind p ∈ from_stranger (cfg_policy config) → trusted_by (cfg_trust_store config) cred →
  ∃ built w', build_and_sign_message m template (generate sk) = Ok built
    ∧ receive config (request built) w
      = (w', Ok {| ad_route := StrangerReview; ad_sender := ep_sender template; ad_envelope := with_msg_hash template h;
                   ad_auto_added_contact := false |}).
Proof.
  intros Hin Hnew Hsame Hcon Hout Hkind Htrust.
  destruct (receive_checks Hclock config sk fresh text ctx task meta mid template h Hfresh Hhash Hcanonical Hrecipient rec Hkey)
    as (built & Hb & _ & Hrun). destruct (Hrun w Hin) as (wn & Hn & Hr).
  pose proof (time_time_spec _ _ _ Hn) as (_ & Hle & Ewn). apply time_horizon in Hn as [Hhn _].
  destruct (admitted_once config fresh text ctx task meta mid template rec wn) as (w2 & Hh2 & Ht2 & Hc2 & Ho2 & Hrest).
  { intros e He. rewrite Ewn in He. apply Hnew in He. fold m in He. lia. }
  destruct Hin as [Hlo Hhi]. destruct (presented_validates (ep_sender template) w2) as (w3 & Hval & Hc3 & Ho3); [lia..|].
  destruct (stranger_route (ep_sender template) rec ctx w3) as (w4 & Hroute); [done| | |done|done|].
  { by rewrite Hc3, Hc2, Ewn. }
  { intros c Hc. rewrite Ho3, Ho2, Ewn. by apply Hout. }
  exists built, w4. split; [done|]. rewrite Hr, Hrest.
  rewrite (M_bind_run _ _ _ w3 [cred]).
  2: { unfold _validate_creds. cbn [with_msg_hash ep_creds]. rewrite Hcreds. cbn [validate_creds_loop].
       by rewrite (M_bind_run _ _ _ _ _ Hval). }
  rewrite (M_bind_lift _ _ _ ctx) by done. by rewrite (M_bind_run _ _ _ _ _ Hroute).
Qed.
End introduction.

(** ** The example *)

Definition alice_name : pystr := str "alice@sh4dow.org".
Definition bob_name : pystr := str "bob@example.org".
Definition hub_domain : pystr := str "tiergarten-club.example".
Definition sh4dow_domain : pystr := str "sh4dow.org".
Definition a2a_url : pystr := str "https://shadow.sh4dow.org/v1/a2a/alice".
Definition dinner : pystr := str "Hi Bob, want to grab dinner Thursday?".
Definition context : pystr := str "01HZ7K2BV5R2K0DW3FCONTEXT0001".

Section birthday.
Context `{PyUnicode} `{Pydantic} `{PyJWT}.
(** The keys [Ed25519KeyPair.generate()] gave, and the id a new message gets. *)
Context (alice sh4dow hub : ed_secret) (fresh : pystr).

Definition key_text (sk : ed_secret) : pystr := match encode_public_key (ed_public sk) with Ok k => k | Raise _ => [] end.

Definition alice_card_body : result pydict :=
  build_signed_agent_card (str "Alice") (str "Alice's Shadow") (str "1.0.0") a2a_url (key_text alice) (generate sh4dow)
    sh4dow_domain None.

(** [CredentialPayload(...)] *)
Definition affiliation (now : Z) : result CredentialPayload :=
  CredentialPayload_validate
    [(str "iss", JStr hub_domain); (str "sub", JStr alice_name); (str "kind", JStr ORG_AFFILIATION); (str "org", JStr hub_domain);
     (str "iat", JInt now); (str "exp", JInt (now + 7 * 24 * 60 * 60));
     (str "rev", JDict [(str "epoch", JStr (str "2026q2")); (str "idx", JInt 42)])].

Definition outbound : A2AMessage := build_outbound_message fresh (Some dinner) (Some context) None None None.

(** [EnvelopePayload(...)] *)
Definition envelope_template (now : Z) (credential : pystr) : result EnvelopePayload :=
  EnvelopePayload_validate
    [(str "v", JStr (str "0.2")); (str "sender", JStr alice_name); (str "recipient", JStr bob_name);
     (str "msg_hash", JStr (str "sha256:placeholder")); (str "iat", JInt now); (str "exp", JInt (now + 60));
     (str "body", JDict [(str "text", JStr dinner)]); (str "creds", JList [JStr credential])].

Definition bob_config : ReceiverConfig := {|
  cfg_subject := bob_name;
  cfg_trust_store := {| ts_entries := [{| te_issuer := hub_domain; te_accept := [ORG_AFFILIATION] |}] |};
  cfg_policy := {| from_contact := []; from_stranger := [ORG_AFFILIATION] |};
  cfg_same_provider_org := false; cfg_auto_add_lookback_seconds := AUTO_ADD_LOOKBACK_DEFAULT; cfg_leeway_seconds := 60 |}.

Definition sh4dow_record : ProviderRecord := {|
  pr_domain := sh4dow_domain; pr_version := str "0.2"; pr_endpoint := str "https://shadow.sh4dow.org/v1";
  pr_provider_keys := [key_text sh4dow]; pr_is_issuer := false; pr_delegates := [] |}.
Definition hub_record : ProviderRecord := {|
  pr_domain := hub_domain; pr_version := str "0.2"; pr_endpoint := str "https://" ++ hub_domain ++ str "/v1";
  pr_provider_keys := [key_text hub]; pr_is_issuer := false; pr_delegates := [] |}.

Definition providers (domain : pystr) : option ProviderRecord :=
  if bool_decide (domain = sh4dow_domain) then Some sh4dow_record
  else if bool_decide (domain = hub_domain) then Some hub_record else None.
Definition lookup_provider (domain : pystr) : M World ProviderRecord := lift (of_option KeyError (providers domain)).

Definition fetch_card (card : pydict) (_shadowname : pystr) (_record : ProviderRecord) : M World FetchedAgentCard :=
  mret {| fc_shadowname := alice_name; fc_shadow_public_key := key_text alice; fc_endpoint_url := a2a_url;
          fc_cache_max_age := Some 3600; fc_etag := None; fc_raw := card |}.

Definition birthday_env (card : pydict) : ReceiverEnv World := {|
  env_provider_lookup := lookup_provider;
  env_fetch_agent_card := fetch_card card;
  env_revocation_check _ := mret tt;
  env_now := time_time |}.

(** [main], up to what it prints. *)
Definition birthday : M World AcceptedDecision :=
  card ← lift alice_card_body;
  now ← time_time;
  payload ← lift (affiliation now);
  credential ← lift (mint_credential payload (generate hub));
  template ← lift (envelope_template now credential);
  built ← lift (build_and_sign_message outbound template (generate alice));
  receive (ReceiverEnv0 := birthday_env card) bob_config (request built).
End birthday.

(** ** The example runs *)

Section names.
Context `{PyUnicode}.

(** Texts the canonical forms leave alone, whatever the Unicode tables. *)
Definition plain_domain (d : pystr) : bool :=
  forallb is_ascii d && bool_decide (map ascii_lower d = d) && bool_decide (rstrip_char 46 (strip d) = d)
  && negb (bool_decide (d = [])) && (py_len d <=? _DOMAIN_MAX_LEN) && forallb _DOMAIN_LABEL_RE (split_on 46 d).
Definition plain_local (l : pystr) : bool :=
  forallb is_ascii l && bool_decide (map ascii_lower l = l) && negb (has_char 64 l) && _SHADOWNAME_LOCAL_RE l.

Lemma partition_at (l d : pystr) : has_char 64 l = false → partition_char 64 (l ++ str "@" ++ d) = (l, d).
Proof.
  induction l as [|c l IH]; [done|]. cbn [has_char existsb]. intros Hc. apply orb_false_iff in Hc as [Hc Hl].
  cbn [app partition_char]. rewrite Z.eqb_sym, Hc. by rewrite IH.
Qed.

Lemma plain_lower s : forallb is_ascii s && bool_decide (map ascii_lower s = s) = true → py_lower s = s.
Proof. intros Hs. apply andb_prop in Hs as [Ha Hl]. bool_prop. rewrite py_lower_ascii; [done|]. by apply forallb_Forall. Qed.

Lemma plain_domain_valid d : plain_domain d = true → _validate_domain d = Ok d.
Proof.
  unfold plain_domain. intros Hd. repeat apply andb_prop in Hd as [Hd ?]. bool_prop. unfold _validate_domain.
  replace (rstrip_char 46 (strip d)) with d. rewrite plain_lower by (by rewrite Hd, bool_decide_true).
  rewrite bool_decide_eq_false_2 by done. rewrite (proj2 (Z.ltb_ge _ _)) by done.
  match goal with Hl : forallb _ _ = true |- _ => rewrite Hl end. done.
Qed.

Lemma plain_name_valid l d :
  plain_local l = true → plain_domain d = true →
  _validate_shadowname (l ++ str "@" ++ d) = Ok (l ++ str "@" ++ d) ∧ split_shadowname (l ++ str "@" ++ d) = Ok (l, d).
Proof.
  unfold plain_local. intros Hl Hd. repeat apply andb_prop in Hl as [Hl ?]. bool_prop.
  assert (partition_char 64 (l ++ str "@" ++ d) = (l, d)) as Hp by by apply partition_at.
  assert (_validate_shadowname (l ++ str "@" ++ d) = Ok (l ++ str "@" ++ d)) as Hv; [|split; [done|]].
  - unfold _validate_shadowname. rewrite Hp. assert (has_char 64 (l ++ str "@" ++ d) = true) as ->.
    { unfold has_char. rewrite existsb_app. cbn. by rewrite orb_true_r. }
    match goal with Hr : _SHADOWNAME_LOCAL_RE l = true |- _ => rewrite Hr end. cbn [negb raise_if mbind result_bind].
    rewrite plain_domain_valid by done. cbn [mbind result_bind].
    by rewrite plain_lower by (by rewrite Hl, bool_decide_true).
  - unfold split_shadowname. rewrite Hv. cbn [mbind result_bind]. by rewrite Hp.
Qed.

Lemma hub_canonical : canonicalize_issuer_or_org_identifier hub_domain = Ok hub_domain.
Proof. apply plain_domain_valid. vm_compute. reflexivity. Qed.

Lemma alice_valid : _validate_shadowname alice_name = Ok alice_name ∧ split_shadowname alice_name = Ok (str "alice", sh4dow_domain).
Proof. apply (plain_name_valid (str "alice") sh4dow_domain); vm_compute; reflexivity. Qed.
Lemma alice_canonical : canonicalize_identifier alice_name = Ok alice_name.
Proof. exact (proj1 alice_valid). Qed.
Lemma bob_canonical : canonicalize_identifier bob_name = Ok bob_name.
Proof. apply (plain_name_valid (str "bob") (str "example.org")); vm_compute; reflexivity. Qed.
End names.

(** Well-formedness of a value written out, down to its unknown parts. *)
Ltac wf_tree :=
  repeat first
    [ apply well_formed_dec; vm_compute; reflexivity
    | progress wf_dict
    | apply well_formed_list, Forall_cons; split
    | apply Forall_cons; split
    | apply Forall_nil; exact I
    | apply well_formed_str; assumption ].

Section run.
Context `{PyUnicode} `{Pydantic} `{PyJWT} `{!PyJWTLaws}.
Context (alice sh4dow hub : ed_secret) (fresh : pystr) (Hfresh : fresh ≠ []) (Hwf : wf_str fresh).

Lemma key_text_ok sk :
  encode_public_key (ed_public sk) = Ok (key_text sk) ∧ parse_public_key (key_text sk) = Ok (ed_public sk) ∧ wf_str (key_text sk).
Proof.
  destruct (encode_public_key_ok sk) as (k & Hk & Hp). unfold key_text. rewrite Hk. split_and!; [done|done|].
  eapply key_wf_str; [apply ed_public_bytes|exact Hk].
Qed.

(** The provider's signature of Alice's card verifies, which the example, where
    the card is handed to the receiver as fetched, does not go through. *)
Definition alice_fetched (card : pydict) : FetchedAgentCard := {|
  fc_shadowname := alice_name; fc_shadow_public_key := key_text alice; fc_endpoint_url := a2a_url;
  fc_cache_max_age := None; fc_etag := None; fc_raw := card |}.

Lemma card_built :
  ∃ card, alice_card_body alice sh4dow = Ok card
    ∧ verify_agent_card card (sh4dow_record sh4dow) alice_name = Ok (alice_fetched card).
Proof.
  unfold alice_card_body, build_signed_agent_card. destruct (key_text_ok alice) as (_ & Hp & Hk).
  destruct (key_text_ok sh4dow) as (Hs & _ & _).
  set (body := build_unsigned_agent_card_body (str "Alice") (str "Alice's Shadow") (str "1.0.0") a2a_url
    (key_text alice) (str "HTTP+JSON") (str "1.0") None).
  edestruct (sign_card_verifies body sh4dow None (Some sh4dow_domain) (str "shadownet@" ++ sh4dow_domain))
    as (card & sigs & payload & Hc & Hsigs & Hpay & Hver & Hg);
    [|done|done|wf_lit|exact Hs|right; split; [done|by eexists]|].
  { unfold body, build_unsigned_agent_card_body. cbn [default dict_update foldl]. wf_tree. }
  exists card. split; [exact Hc|]. unfold alice_fetched. eapply (verify_built_card card body); try done.
  - apply Hver. cbn. apply list_elem_of_singleton. reflexivity.
  - exact (proj1 alice_valid).
  - by rewrite Hp.
Qed.

(** The credential the hub issues. *)
Definition alice_affiliation (now : Z) : CredentialPayload := {|
  cp_iss := hub_domain; cp_sub := alice_name; cp_kind := ORG_AFFILIATION; cp_org := hub_domain;
  cp_iat := now; cp_exp := now + 604800; cp_rev := {| epoch := str "2026q2"; idx := 42 |}; cp_extra := [] |}.

Lemma affiliation_canonical now : 0 ≤ now < 10 ^ 17 → payload_canonical (alice_affiliation now).
Proof.
  intros Hnow. unfold payload_canonical. cbn [alice_affiliation cp_iss cp_sub cp_org cp_kind cp_iat cp_exp cp_rev epoch idx].
  split_and!; try done; try apply hub_canonical; try apply alice_canonical; try lia.
  wf_tree; cbn [alice_affiliation cp_iat cp_exp]; apply small_int_wf; lia.
Qed.

Lemma affiliation_ok now : 0 ≤ now < 10 ^ 17 → affiliation now = Ok (alice_affiliation now).
Proof. intros Hnow. exact (validate_dump _ (affiliation_canonical now Hnow)). Qed.

(** The message hash exists and fits into an envelope. *)
Lemma outbound_hashed : ∃ h, compute_msg_hash (to_wire (outbound fresh)) = Ok h ∧ msg_hash_pattern h = true ∧ wf_str h.
Proof.
  unfold compute_msg_hash.
  assert (canonical_input (to_wire (outbound fresh)) = Ok [
    (str "messageId", JStr fresh); (str "role", JStr (str "ROLE_USER")); (str "parts", JList [JDict [(str "text", JStr dinner)]]);
    (str "contextId", JStr context); (str "metadata", JDict [])]) as -> by reflexivity.
  cbn [mbind result_bind].
  match goal with |- context [canonicalize ?v] => assert (well_formed v) as Hv; [wf_tree|] end.
  apply canonicalize_spec in Hv as [_ Hv]. destruct (canonicalize _) as [bytes|]; [|done]. cbn [mbind result_bind].
  eexists. split; [reflexivity|]. pose proof (_b64u_url _ (sha256_bytes bytes)) as Hu. split.
  - unfold msg_hash_pattern. assert (startswith (str "sha256:") (str "sha256:" ++ _b64u (sha256 bytes)) = true) as -> by reflexivity.
    change (drop 7 (str "sha256:" ++ _b64u (sha256 bytes))) with (_b64u (sha256 bytes)).
    rewrite (proj2 (forallb_Forall _ _) Hu), bool_decide_eq_false_2; [done|].
    apply b64u_ne; [|apply sha256_bytes]. intros E. pose proof (sha256_length bytes) as Hl. by rewrite E in Hl.
  - apply wf_str_ascii, Forall_app. split; [apply forallb_Forall; reflexivity|apply _b64u_ascii, sha256_bytes].
Qed.

(** The envelope Alice signs. *)
Definition alice_envelope (now : Z) (hash credential : pystr) : EnvelopePayload := {|
  ep_v := str "0.2"; ep_sender := alice_name; ep_recipient := bob_name; ep_iat := now; ep_exp := now + 60; ep_msg_hash := hash;
  ep_body := {| eb_text := Some dinner; eb_intent := None; eb_data := None; eb_extra := [] |};
  ep_creds := [credential]; ep_extra := [] |}.

Lemma alice_envelope_canonical now hash credential :
  0 ≤ now < 10 ^ 17 → msg_hash_pattern hash = true → wf_str hash → wf_str credential →
  envelope_canonical (alice_envelope now hash credential).
Proof.
  intros Hnow Hpat Hh Hc. unfold envelope_canonical.
  cbn [alice_envelope ep_v ep_sender ep_recipient ep_iat ep_exp ep_msg_hash ep_body ep_extra].
  split_and!; try done; try apply alice_canonical; try apply bob_canonical; try lia; [by left|].
  wf_tree; cbn [alice_envelope ep_iat ep_exp]; apply small_int_wf; lia.
Qed.

Lemma template_ok now credential :
  0 ≤ now < 10 ^ 17 → envelope_template now credential = Ok (alice_envelope now (str "sha256:placeholder") credential).
Proof.
  intros Hnow. unfold envelope_template, EnvelopePayload_validate, model_validate. apply rethrow_ok.
  assert (∀ s t : pystr, canonicalize_identifier s = Ok t → v_after canonicalize_identifier (Some (JStr s)) = Ok t) as Hafter
    by (intros u t Hu; apply v_after_ok; by exists u).
  match goal with |- (_ <*> v_pattern _ ?v <*> v_after _ ?a <*> v_after _ ?b <*> v_nat ?i <*> v_nat ?e <*> v_pattern _ ?h <*> ?body <*> ?c) = _ =>
    change v with (Some (JStr (str "0.2"))); change a with (Some (JStr alice_name)); change b with (Some (JStr bob_name));
    change i with (Some (JInt now)); change e with (Some (JInt (now + 60)));
    change h with (Some (JStr (str "sha256:placeholder")));
    change body with (Ok {| eb_text := Some dinner; eb_intent := None; eb_data := None; eb_extra := [] |});
    change c with (Ok [credential]) end.
  rewrite (Hafter _ _ alice_canonical), (Hafter _ _ bob_canonical), !v_nat_int by lia. reflexivity.
Qed.

Section received.
Context (card : pydict).
#[local] Instance given_env : ReceiverEnv World := birthday_env alice sh4dow hub card.

Lemma alice_resolved (w : World) : resolve_sender alice_name w = (w, Ok (verifier alice, Some (sh4dow_record sh4dow))).
Proof.
  destruct (key_text_ok alice) as (_ & Hp & _). unfold resolve_sender.
  assert (is_public_key_identifier alice_name = false) as -> by reflexivity.
  rewrite (M_bind_run _ _ _ w (sh4dow_record sh4dow)).
  2: { apply rethrowM_ok. rewrite (M_bind_lift _ _ _ _ (proj2 alice_valid)). reflexivity. }
  erewrite (M_bind_run _ _ _ w); [|by apply rethrowM_ok]. cbn [fc_shadow_public_key].
  rewrite (M_bind_lift _ _ _ _ Hp). by rewrite (M_bind_lift _ _ _ _ (from_public_bytes_public alice)).
Qed.

Lemma hub_resolved (w : World) : _resolve_issuer_key hub_domain w = (w, Ok (key_text hub)).
Proof.
  unfold _resolve_issuer_key. assert (is_public_key_identifier hub_domain = false) as -> by reflexivity.
  by rewrite (M_bind_run _ _ _ w (hub_record hub)) by (by apply rethrowM_ok).
Qed.

Lemma hub_authorized (w : World) : _check_issuer_authorized_for_org hub_domain hub_domain w = (w, Ok tt).
Proof. reflexivity. Qed.
End received.

(** The credential outlives the envelope. *)
Lemma week_spans now :
  cp_iat (alice_affiliation now) ≤ now ∧ now + 60 ≤ cp_exp (alice_affiliation now).
Proof. cbn. lia. Qed.

(** New stores; the credential cache is only written. *)
Definition new_stores (w : World) : Prop := w_entries w = ∅ ∧ w_contacts w = ∅ ∧ w_outbound w = ∅.

(** What stands behind the decision: the envelope is signed by Alice and hashes the
    message, and it brought one credential, which verified under the hub's record
    and is why the policy lets the stranger through. *)
Definition vouched (card : pydict) (d : AcceptedDecision) (req : json) : Prop :=
  (∃ jws message, extract_envelope_jws req = Ok (jws, message) ∧ jws_signed_by (ed_public alice) jws
     ∧ compute_msg_hash message = Ok (ep_msg_hash (ad_envelope d)))
  ∧ ∃ token c, ep_creds (ad_envelope d) = [token]
      ∧ checked_now (ReceiverEnv0 := birthday_env alice sh4dow hub card) bob_config token c
      ∧ cp_kind (vc_payload c) = ORG_AFFILIATION ∧ trusted_by (cfg_trust_store bob_config) c.

Lemma review_vouched card req (w w' : World) d token :
  receive (ReceiverEnv0 := birthday_env alice sh4dow hub card) bob_config req w = (w', Ok d) →
  ad_sender d = alice_name → ad_route d = StrangerReview → ep_creds (ad_envelope d) = [token] → vouched card d req.
Proof.
  intros Hrun Hs Hroute Hcr.
  apply receive_ok in Hrun as (jws & message & header & claims & key & rec & w1 & now & w2 & mid & w3 & w4 & creds & w5 & ctx
    & Hext & Hpre & Hadr & Hres & Hnow & Henv & Hhash & Hmid & Hseen & Hrem & Hcreds & Hctx & Hcl).
  rewrite Hs, alice_resolved in Hres. injection Hres as _ <- _.
  apply verify_envelope_ok in Henv as (_ & _ & _ & _ & _ & _ & _ & _ & _ & _ & _ & Hsig).
  apply validate_creds_ok in Hcreds. unfold presented in Hcreds. rewrite Hcr in Hcreds.
  apply Forall2_cons_inv_l in Hcreds as (c & cs & Hc & Hnil%Forall2_nil_inv_l & ->). subst cs.
  apply classify_ok in Hcl. rewrite Hroute in Hcl. cbn [route_reason] in Hcl.
  destruct Hcl as (_ & _ & c' & ->%list_elem_of_singleton & Ht & Hkind%list_elem_of_singleton).
  split; [by exists jws, message|]. by exists token, c.
Qed.

(** C6: the end-to-end example works: whatever keys are generated and whatever id
    the message gets, if the run takes no longer than two minutes, the lifetime of
    the envelope and the leeway of the receiver, then the card is signed, so that it
    verifies against the provider's record as Alice's key and endpoint, the
    credential is issued, the message built, and Bob's receiver, having checked
    Alice's signature, the hash and the hub's credential, puts the message of the
    stranger up for review, with her text and without making her a contact.  The
    example hands the receiver the card as already fetched and a revocation check
    that passes everything; those two are not exercised by its run. *)
Theorem birthday_stranger_review (w : World) :
  new_stores w → 0 ≤ w_time w → horizon w ≤ w_time w + 120 → horizon w < 10 ^ 17 →
  ∃ w0 w' d card req, birthday alice sh4dow hub fresh w = (w', Ok d)
    ∧ receive (ReceiverEnv0 := birthday_env alice sh4dow hub card) bob_config req w0 = (w', Ok d)
    ∧ ad_route d = StrangerReview ∧ ad_sender d = alice_name ∧ ad_auto_added_contact d = false
    ∧ eb_text (ep_body (ad_envelope d)) = Some dinner
    ∧ alice_card_body alice sh4dow = Ok card
    ∧ verify_agent_card card (sh4dow_record sh4dow) alice_name = Ok (alice_fetched card)
    ∧ vouched card d req.
Proof.
  intros (He & Hc & Ho) Hpos Hshort Hbig. destruct card_built as (card & Hcard & Hfetch). unfold birthday.
  rewrite (M_bind_lift _ _ _ _ Hcard). destruct (time_run w) as (wn & Hn & Hle & Ewn).
  pose proof (time_horizon _ _ _ Hn) as [Hh Hlast]. rewrite (M_bind_run _ _ _ _ _ Hn). set (now := w_time wn) in *.
  assert (0 ≤ now < 10 ^ 17) as Hnow by lia.
  rewrite (M_bind_lift _ _ _ _ (affiliation_ok now Hnow)). pose proof (affiliation_canonical now Hnow) as Hpay.
  destruct (minted_credential_verifies (W := World) (alice_affiliation now) hub Hpay) as (token & k & Hm & Hk & Hv); [cbn; lia|].
  rewrite (proj1 (key_text_ok hub)) in Hk. injection Hk as <-. rewrite (M_bind_lift _ _ _ _ Hm).
  rewrite (M_bind_lift _ _ _ _ (template_ok now token Hnow)). destruct outbound_hashed as (h & Hhash & Hpat & Hwh).
  pose proof (wf_str_ascii _ (minted_ascii _ _ _ Hpay Hm)) as Hwt.
  destruct (introduction_reviewed (env := birthday_env alice sh4dow hub card) (λ _, eq_refl) bob_config (alice_affiliation now)
    token (key_text hub) Hv (hub_resolved card) (hub_authorized card) (λ _ _, eq_refl) alice fresh (Some dinner) (Some context)
    None None None (alice_envelope now (str "sha256:placeholder") token) h (Some (sh4dow_record sh4dow)) Hfresh Hhash
    (alice_envelope_canonical now h token Hnow Hpat Hwh Hwt) eq_refl eq_refl (alice_resolved card) (week_spans now) wn)
    as (built & w' & Hb & Hr).
  - unfold in_lifetime. cbn. lia.
  - intros e. rewrite Ewn. cbn [set_time w_entries]. by rewrite He, lookup_empty.
  - reflexivity.
  - rewrite Ewn. cbn [set_time w_contacts]. rewrite Hc. set_solver.
  - intros c _. rewrite Ewn. cbn [set_time w_outbound]. by rewrite Ho, lookup_empty.
  - apply list_elem_of_singleton. reflexivity.
  - exists hub_domain, {| te_issuer := hub_domain; te_accept := [ORG_AFFILIATION] |}. split_and!; [apply hub_canonical|set_solver..].
  - eexists wn, w', _, card, (request built). rewrite (M_bind_lift _ _ _ _ Hb).
    split_and!; [exact Hr|exact Hr|reflexivity..|exact Hcard|exact Hfetch|by eapply review_vouched].
Qed.
End run.

(** ** A run of the example *)

#[local] Existing Instance ascii_unicode.
#[local] Existing Instance strict_pydantic.
#[local] Existing Instance toy_jwt.
#[local] Existing Instance toy_jwt_laws.

(** Two seconds pass between the first two readings of the clock. *)
Definition evening : World :=
  {| w_time := 1777000000; w_ticks := [0%N; 2%N]; w_entries := ∅; w_contacts := ∅; w_outbound := ∅; w_by_sender := ∅ |}.

Lemma birthday_stranger_review_witness :
  ∃ w' d, birthday (5 : @ed_secret toy_ed25519) (6 : @ed_secret toy_ed25519) (7 : @ed_secret toy_ed25519) (str "m1") evening = (w', Ok d)
    ∧ ad_route d = StrangerReview.
Proof.
  destruct (birthday_stranger_review (5 : @ed_secret toy_ed25519) (6 : @ed_secret toy_ed25519) (7 : @ed_secret toy_ed25519)
    (str "m1")) with (w := evening) as (w0 & w' & d & card & req & Hrun & _ & Hroute & _).
  - discriminate.
  - wf_lit.
  - split_and!; reflexivity.
  - vm_compute. discriminate.
  - vm_compute. discriminate.
  - vm_compute. reflexivity.
  - exists w', d. exact (conj Hrun Hroute).
Defined.
