(* ===== verification/ShadowPayDemo.v ===== *)
(** * The payment demo — [shadownet-x402/demo.py]

    A verified identity pays, is revoked and refused, is restored, and a payment
    to another payee is refused: the whole paywall from the buyer's side, over the
    in-memory stores and the stub facilitator.  The demo's assertions hold for
    every key, every nonce and every clock that does not run for more than a
    minute. *)

From S2P Require Import Prelude PyStr Base64 Identifiers Jcs Dicts PyJson PyRepr JsonBytes Http Crypto Provider Pydantic Credential.
From S2P Require Import Status Trust Payment Paywall PaywallProps PaywallHandshake Decimal Avm HermesPay.

Definition RESOURCE : pystr := str "https://alice.sh4dow.org/pay".
Definition AssertionError : exn := OtherException (str "AssertionError").

Section demo.
Context `{PyUnicode} `{PyFloat} `{Pydantic} `{PyJWT}.
(** [secrets.token_urlsafe]; provider records from DNS; the settings that come
    from the environment; the keys generated. *)
Context (tokens : nat → pystr) (lookup : pystr → result ProviderRecord) (nonce_ttl pop_lifetime budget_micro : Z).
Context (issuer bob : ed_secret).

(** [CredentialPayload(...)] *)
Definition bob_payload (bob_sub : pystr) (now : Z) : result CredentialPayload :=
  CredentialPayload_validate
    [(str "iss", JStr (str "acme.example")); (str "sub", JStr bob_sub); (str "kind", JStr (str "org_affiliation"));
     (str "org", JStr (str "acme.example")); (str "iat", JInt now); (str "exp", JInt (now + 3600));
     (str "rev", JDict [(str "epoch", JStr (str "2026q2")); (str "idx", JInt 0)])].

(** [Settings(...)] *)
Definition demo_settings : Settings := {|
  st_network_caip2 := str "algorand:testnet"; st_asset_id := 10458941; st_pay_to := Some (str "ALICEALGOADDR");
  st_price_micro := 5000; st_budget_micro := budget_micro; st_nonce_ttl_seconds := nonce_ttl;
  st_pop_lifetime_seconds := pop_lifetime |}.

Definition demo_cap : Z := 1000000.
Definition demo_facilitator : FakeFacilitator := {| ff_transaction := str "TESTNET-TXID-9F3A2C"; ff_success := true |}.

(** The defaults of [Paywall] for what the demo does not pass. *)
Definition default_authorized (issuer org : pystr) : result unit :=
  (default_issuer_authorization_check (λ d, lift (lookup d)) issuer org tt).2.

Definition demo_process (issuer_pk : pystr) (credential pop x_payment : option pystr) : M PayWorld PaywallResult :=
  @process _ _ _ _ _ PayWorld
    (answering_env default_resolve_subject_key (λ _, Ok issuer_pk) default_authorized (λ _, Ok tt))
    (in_memory_nonces tokens) (in_memory_budget demo_cap) (answering_facilitator (fake_settle demo_facilitator))
    demo_settings None RESOURCE credential pop x_payment.

Definition demo_terms (bob_sub : pystr) (req : PaymentRequirements) (tamper : bool) : PaidTerms := {|
  pt_network := rq_network req; pt_asset := rq_asset req; pt_amount := rq_amount req;
  pt_pay_to := if tamper then str "ATTACKERADDR" else rq_pay_to req; pt_payer := JStr bob_sub |}.

(** [pay(tamper)]; a settlement without a payment has no [nonce]. *)
Definition pay (issuer_pk bob_sub bob_cred : pystr) (tamper : bool) : M PayWorld PaywallResult :=
  challenge ← demo_process issuer_pk (Some bob_cred) None None;
  match challenge with
  | Refused _ _ => mret challenge
  | Settled _ _ => lift (Raise AttributeError)
  | Challenge req nonce =>
      issued ← pay_time;
      pop ← lift (mint_pop (generate bob) bob_sub RESOURCE nonce issued DEFAULT_POP_LIFETIME_SECONDS);
      demo_process issuer_pk (Some bob_cred) (Some pop) (Some (encode_x_payment (demo_terms bob_sub req tamper)))
  end.

Definition assert_settled (r : PaywallResult) : result SettleOutcome :=
  match r with Settled _ outcome => Ok outcome | _ => Raise AssertionError end.
Definition assert_refused (r : PaywallResult) : result (Z * refusal) :=
  match r with Refused status reason => Ok (status, reason) | _ => Raise AssertionError end.

(** [main], with what it prints of the three results. *)
Definition shadowpay_demo : M PayWorld (SettleOutcome * (Z * refusal) * (Z * refusal)) :=
  issuer_pk ← lift (encode_public_key (ed_public issuer));
  bob_sub ← lift (encode_public_key (ed_public bob));
  now ← pay_time;
  payload ← lift (bob_payload bob_sub now);
  bob_cred ← lift (mint_credential payload (generate issuer));
  result ← pay issuer_pk bob_sub bob_cred false;
  paid ← lift (assert_settled result);
  _ ← budget_revoke bob_sub;
  result ← pay issuer_pk bob_sub bob_cred false;
  revoked ← lift (assert_refused result);
  _ ← budget_restore bob_sub;
  result ← pay issuer_pk bob_sub bob_cred true;
  tampered ← lift (assert_refused result);
  mret (paid, revoked, tampered).
End demo.

(** ** The demo runs *)

(** What the stub facilitator answers. *)
Definition stub_outcome (payer : pystr) : SettleOutcome := {|
  so_success := true; so_transaction := Some (str "TESTNET-TXID-9F3A2C"); so_payer := JStr payer;
  so_network := str "algorand:testnet"; so_error_reason := None |}.

Section run.
Context `{PyUnicode} `{PyFloat} `{Pydantic} `{PyJWT} `{!PyJWTLaws} `{!PyJWTDecodeLaws}.
Context (tokens : nat → pystr) (lookup : pystr → result ProviderRecord) (nonce_ttl pop_lifetime budget_micro : Z).
Context (issuer bob : ed_secret) (Htokens : ∀ i, wf_str (tokens i)) (Httl : 60 ≤ nonce_ttl).
Context (issuer_pk bob_sub : pystr) (Hsub : encode_public_key (ed_public bob) = Ok bob_sub).

Let settings := demo_settings nonce_ttl pop_lifetime budget_micro.
Let req : PaymentRequirements := {|
  rq_scheme := str "exact"; rq_network := str "algorand:testnet"; rq_asset := str "10458941"; rq_amount := 5000;
  rq_pay_to := str "ALICEALGOADDR"; rq_resource := RESOURCE; rq_max_timeout_seconds := 60 |}.
Let out : SettleOutcome := stub_outcome bob_sub.

Lemma bob_sub_text : bob_sub ≠ [] ∧ wf_str bob_sub.
Proof.
  destruct (ed_public_bytes bob) as [Hl Hb]. split; [|by eapply key_wf_str].
  destruct (encode_public_key_roundtrip (ed_public bob) Hb Hl) as (v & Hv & Hp & _). assert (v = bob_sub) as -> by congruence.
  intros ->. vm_compute in Hp. discriminate.
Qed.

(** The quote, and that it can be written and settled. *)
Lemma demo_quote : build_payment_requirements settings RESOURCE = Ok req.
Proof. reflexivity. Qed.

Lemma demo_terms_wf tamper : well_formed (x_payment_payload (demo_terms bob_sub req tamper)).
Proof.
  destruct bob_sub_text as [_ Hs]. apply payment_payload_wf; try wf_lit.
  - destruct tamper; wf_lit.
  - apply well_formed_dec. vm_compute. reflexivity.
  - by apply well_formed_str.
Qed.

Lemma demo_settles :
  fake_settle demo_facilitator (encode_x_payment (demo_terms bob_sub req false)) req = Ok out ∧ so_success out = true.
Proof.
  split; [|done]. unfold fake_settle. cbn [demo_facilitator ff_success negb].
  rewrite parse_encode_payment by apply demo_terms_wf. reflexivity.
Qed.

Lemma bob_key : default_resolve_subject_key bob_sub = Ok {| public_bytes := ed_public bob; _private := None |}.
Proof.
  destruct (ed_public_bytes bob) as [Hl Hb].
  destruct (encode_public_key_roundtrip (ed_public bob) Hb Hl) as (v & Hv & Hp & Hi & _). assert (v = bob_sub) as -> by congruence.
  unfold default_resolve_subject_key. rewrite Hi. cbn [negb raise_if mbind result_bind]. rewrite Hp. cbn [mbind result_bind].
  by rewrite from_public_bytes_public.
Qed.

(** Payments while the clock shows a time between [lo] and [hi]. *)
Context (cred : pystr) (vc : VerifiedCredential) (lo hi : Z).
Context (Hcred : cred ≠ []) (Hvc : cp_sub (vc_payload vc) = bob_sub) (Hminute : hi ≤ lo + 60000000) (Hbig : 0 ≤ lo ∧ hi < 10 ^ 22).
Context (Hverifies : ∀ now (w : PayWorld), lo / 1000000 ≤ now ≤ hi / 1000000 →
  verify_credential now 60 (λ _, lift (Ok issuer_pk)) (λ i o, lift (default_authorized lookup i o)) cred w = (w, Ok vc)).

Let buys := pay tokens lookup nonce_ttl pop_lifetime budget_micro bob issuer_pk bob_sub cred.

Lemma seconds_span : hi / 1000000 ≤ lo / 1000000 + 60.
Proof. replace (lo / 1000000 + 60) with ((lo + 60 * 1000000) / 1000000) by (by rewrite Z.div_add). apply Z.div_le_mono; lia. Qed.

Lemma demo_pop nonce issued :
  wf_str nonce → lo / 1000000 ≤ issued ≤ hi / 1000000 →
  well_formed (JDict (pop_claims bob_sub RESOURCE nonce issued DEFAULT_POP_LIFETIME_SECONDS))
  ∧ ∃ pop, mint_pop (generate bob) bob_sub RESOURCE nonce issued DEFAULT_POP_LIFETIME_SECONDS = Ok pop.
Proof.
  intros Hn Hi. destruct bob_sub_text as [Hne Hs].
  assert (0 ≤ lo / 1000000) by (apply Z.div_pos; lia). assert (hi / 1000000 < 10 ^ 16) by (apply Z.div_lt_upper_bound; lia).
  assert (well_formed (JDict (pop_claims bob_sub RESOURCE nonce issued DEFAULT_POP_LIFETIME_SECONDS))) as Hwf.
  { unfold pop_claims, DEFAULT_POP_LIFETIME_SECONDS. wf_dict; try done; try apply small_int_wf; lia. }
  split; [done|].
  destruct (mint_verify_pop (W := PayWorld) bob (generate bob) bob_sub RESOURCE nonce issued eq_refl Hne Hs Hwf) as (pop & Hpop & _).
  by exists pop.
Qed.

(** Up to the payment: challenged, and the proof minted. *)
Lemma pay_reaches w tamper :
  within lo hi w → (bob_sub ∉ pw_revoked w) →
  ∃ w' pop nonce issued expiry,
    buys tamper w = demo_process tokens lookup nonce_ttl pop_lifetime budget_micro issuer_pk (Some cred) (Some pop)
                     (Some (encode_x_payment (demo_terms bob_sub req tamper))) w'
    ∧ within lo hi w' ∧ pw_spent w' = pw_spent w ∧ pw_revoked w' = pw_revoked w ∧ hi ≤ expiry
    ∧ pw_nonces w' !! nonce = Some (Some bob_sub, expiry) ∧ lo / 1000000 ≤ issued ≤ hi / 1000000 ∧ wf_str nonce
    ∧ mint_pop (generate bob) bob_sub RESOURCE nonce issued DEFAULT_POP_LIFETIME_SECONDS = Ok pop.
Proof.
  intros Hw Hr. pose proof demo_settles as Hset. rewrite <-Hvc in Hr.
  destruct (challenged tokens demo_cap settings None default_resolve_subject_key (λ _, Ok issuer_pk) (default_authorized lookup)
    (λ _, Ok tt) (fake_settle demo_facilitator) bob cred bob_sub RESOURCE vc req out lo hi Hcred Hverifies eq_refl demo_quote
    ltac:(rewrite Hvc; exact Hset) w Hw Hr) as (w1 & t & Hch & Hw1 & Ht & Hsp & Hrv & Hn).
  destruct (time_within _ _ _ Hw1) as (w2 & issued & Hi & Hw2 & (_ & _ & Hn2 & Hsp2 & Hrv2) & Hb).
  destruct (demo_pop (tokens (pw_drawn w)) issued (Htokens _) Hb) as (_ & pop & Hpop). rewrite Hvc in Hn.
  exists w2, pop, (tokens (pw_drawn w)), issued, (t + nonce_ttl * 1000000). split_and!; try done; try congruence; try lia; [|by rewrite Hn2].
  unfold buys, pay. unfold demo_process at 1. rewrite (M_bind_run _ _ _ _ _ Hch).
  rewrite (M_bind_run _ _ _ _ _ Hi). by rewrite (M_bind_lift _ _ _ _ Hpop).
Qed.

Section admission.
Context (w : PayWorld) (Hw : within lo hi w).

Lemma pay_settles :
  (bob_sub ∉ pw_revoked w) → spent_of w bob_sub + 5000 ≤ demo_cap →
  ∃ w' identity, buys false w = (w', Ok (Settled identity out)) ∧ within lo hi w' ∧ pw_revoked w' = pw_revoked w
    ∧ spent_of w' bob_sub = spent_of w bob_sub + 5000.
Proof.
  intros Hr Hb. destruct (pay_reaches w false Hw Hr) as (w1 & pop & nonce & issued & expiry & -> & Hw1 & Hsp & Hrv & Hexp & Hn & Hi & Hnw & Hpop).
  pose proof seconds_span as Hspan. pose proof demo_settles as Hset. destruct (demo_pop nonce issued Hnw Hi) as [Hwf _].
  pose proof bob_sub_text as Htext. pose proof bob_key as Hkey. rewrite <-Hvc in *.
  destruct (settled tokens demo_cap settings None default_resolve_subject_key (λ _, Ok issuer_pk) (default_authorized lookup)
    (λ _, Ok tt) (fake_settle demo_facilitator) bob {| public_bytes := ed_public bob; _private := None |} cred
    (cp_sub (vc_payload vc)) RESOURCE vc req out issued lo hi) with (w := w1) (pop := pop) (expiry := expiry) (nonce := nonce)
    as (w2 & Hrun & Hw2 & Hrv2 & Hsp2); try done.
  - split; [apply well_formed_dec; vm_compute; reflexivity|apply Htext].
  - unfold DEFAULT_POP_LIFETIME_SECONDS. lia.
  - by rewrite Hrv.
  - unfold spent_of in *. by rewrite Hsp.
  - eexists w2, _. split_and!; [exact Hrun|done|congruence|]. rewrite Hsp2. unfold spent_of. by rewrite Hsp.
Qed.

(** The kill switch: a revoked subject is not even challenged. *)
Lemma pay_revoked :
  bob_sub ∈ pw_revoked w →
  ∃ w', buys false w = (w', Ok (Refused 403 identity_revoked)) ∧ within lo hi w' ∧ pw_spent w' = pw_spent w
    ∧ pw_revoked w' = pw_revoked w.
Proof.
  intros Hr. pose proof demo_settles as Hset. rewrite <-Hvc in Hr.
  destruct (refused_challenge tokens demo_cap settings None default_resolve_subject_key (λ _, Ok issuer_pk) (default_authorized lookup)
    (λ _, Ok tt) (fake_settle demo_facilitator) bob cred bob_sub RESOURCE vc req out lo hi Hcred Hverifies
    ltac:(rewrite Hvc; exact Hset) w Hw Hr) as (w1 & Hch & Hrest).
  exists w1. split; [|done]. unfold buys, pay. unfold demo_process at 1. by rewrite (M_bind_run _ _ _ _ _ Hch).
Qed.

(** Agreed is paid: another payee is refused before the settlement. *)
Lemma pay_tampered :
  bob_sub ∉ pw_revoked w →
  ∃ w', buys true w = (w', Ok (Refused 402 terms_mismatch)) ∧ pw_spent w' = pw_spent w ∧ pw_revoked w' = pw_revoked w.
Proof.
  intros Hr. destruct (pay_reaches w true Hw Hr) as (w1 & pop & nonce & issued & expiry & -> & Hw1 & Hsp & Hrv & Hexp & Hn & Hi & Hnw & Hpop).
  pose proof seconds_span as Hspan. pose proof demo_settles as Hset. destruct (demo_pop nonce issued Hnw Hi) as [Hwf _].
  pose proof bob_sub_text as Htext. pose proof bob_key as Hkey.
  pose proof (parse_encode_payment _ (demo_terms_wf true)) as Hparse. rewrite <-Hvc in *.
  destruct (admitted tokens demo_cap settings None default_resolve_subject_key (λ _, Ok issuer_pk) (default_authorized lookup)
    (λ _, Ok tt) (fake_settle demo_facilitator) bob {| public_bytes := ed_public bob; _private := None |} cred
    (cp_sub (vc_payload vc)) RESOURCE vc req out issued lo hi) with (w := w1) (pop := pop) (expiry := expiry) (nonce := nonce)
    (x := encode_x_payment (demo_terms (cp_sub (vc_payload vc)) req true))
    as (w3 & Hrun & _ & Hsp3 & Hrv3); try done.
  - unfold DEFAULT_POP_LIFETIME_SECONDS. lia.
  - exists w3. split; [|split; congruence]. unfold demo_process. etrans; [exact Hrun|].
    apply (refused_payment demo_cap settings (fake_settle demo_facilitator) RESOURCE req demo_quote w3 _ _ _ Hparse). by vm_compute.
Qed.
End admission.
End run.

Section whole.
Context `{PyUnicode} `{PyFloat} `{Pydantic} `{PyJWT} `{!PyJWTLaws} `{!PyJWTDecodeLaws}.
Context (tokens : nat → pystr) (lookup : pystr → result ProviderRecord) (nonce_ttl pop_lifetime budget_micro : Z).
Context (issuer bob : ed_secret).

(** Bob's credential, for as long as the demo runs. *)
Lemma bob_credential_verifies bob_sub now lo hi :
  encode_public_key (ed_public bob) = Ok bob_sub → 0 ≤ now < 10 ^ 17 → hi ≤ lo + 60 → lo ≤ now ≤ hi →
  ∃ issuer_pk cred, encode_public_key (ed_public issuer) = Ok issuer_pk ∧ cred ≠ []
    ∧ bob_payload bob_sub now = Ok (buyer_credential bob_sub now)
    ∧ mint_credential (buyer_credential bob_sub now) (generate issuer) = Ok cred
    ∧ ∀ t (w : PayWorld), lo ≤ t ≤ hi →
        verify_credential t 60 (λ _, lift (Ok issuer_pk)) (λ i o, lift (default_authorized lookup i o)) cred w
        = (w, Ok {| vc_payload := buyer_credential bob_sub now; vc_issuer_key := issuer_pk; vc_raw_jws := cred |}).
Proof.
  intros Hsub Hnow Hspan Hin. pose proof (buyer_canonical bob bob_sub now Hsub Hnow) as Hpay.
  destruct (minted_credential_verifies (W := PayWorld) _ issuer Hpay) as (cred & issuer_pk & Hm & Hk & Hv); [cbn; lia|].
  exists issuer_pk, cred. split_and!; [done| |exact (validate_dump _ Hpay)|done|].
  - by eapply minted_nonempty.
  - intros t w Ht. apply (Hv t 60 _ _ w w w); [cbn; lia|done|].
    unfold default_authorized, default_issuer_authorization_check. cbn [cp_iss cp_org buyer_credential]. by rewrite bool_decide_true.
Qed.

(** C23: the payment demo does what it shows, whatever the keys and the nonces,
    when the run takes at most a minute and nonces live that long: the first
    payment settles and its price is all that is ever spent; after the identity
    was revoked the next one is refused with 403; after it was restored the
    payment with a swapped payee is refused with 402 before any settlement; no
    assertion of the demo fails. *)
Theorem payment_demo_holds (w : PayWorld) :
  (∀ i, wf_str (tokens i)) → 60 ≤ nonce_ttl →
  pw_spent w = ∅ → pw_revoked w = ∅ → 0 ≤ pw_clock w → pay_horizon w ≤ pw_clock w + 60000000 → pay_horizon w < 10 ^ 22 →
  ∃ w' bob_sub paid, encode_public_key (ed_public bob) = Ok bob_sub
    ∧ shadowpay_demo tokens lookup nonce_ttl pop_lifetime budget_micro issuer bob w
      = (w', Ok (paid, (403, identity_revoked), (402, terms_mismatch)))
    ∧ so_success paid = true ∧ so_transaction paid = Some (str "TESTNET-TXID-9F3A2C") ∧ so_payer paid = JStr bob_sub
    ∧ spent_of w' bob_sub = 5000 ∧ pw_revoked w' = ∅.
Proof.
  intros Htokens Httl Hsp Hrv Hpos Hminute Hbig. set (lo := pw_clock w). set (hi := pay_horizon w).
  assert (within lo hi w) as Hw by (unfold within, lo, hi; lia).
  destruct (encode_public_key_ok bob) as (bob_sub & Hsub & _).
  destruct (time_within _ _ _ Hw) as (w1 & now & Hnow & Hw1 & (_ & _ & _ & Hsp1 & Hrv1) & Hb).
  assert (0 ≤ now < 10 ^ 17) as Hn.
  { assert (0 ≤ lo / 1000000) by (apply Z.div_pos; lia). assert (hi / 1000000 < 10 ^ 16) by (apply Z.div_lt_upper_bound; lia). lia. }
  destruct (bob_credential_verifies bob_sub now (lo / 1000000) (hi / 1000000) Hsub Hn) as (issuer_pk & cred & Hpk & Hne & Hpay & Hmint & Hver);
    [by apply seconds_span|done|].
  assert (spent_of w1 bob_sub = 0) as Hzero by (unfold spent_of; by rewrite Hsp1, Hsp, lookup_empty).
  assert (bob_sub ∉ pw_revoked w1) as Hfree by (rewrite Hrv1, Hrv; set_solver).
  set (vc := {| vc_payload := buyer_credential bob_sub now; vc_issuer_key := issuer_pk; vc_raw_jws := cred |}) in *.
  destruct (pay_settles tokens lookup nonce_ttl pop_lifetime budget_micro bob Htokens Httl issuer_pk bob_sub Hsub cred vc lo hi
    Hne eq_refl Hminute (conj Hpos Hbig) Hver w1 Hw1 Hfree) as (w2 & identity & Hpaid & Hw2 & Hrv2 & Hsp2);
    [unfold demo_cap; lia|].
  set (w3 := set_revoked ({[bob_sub]} ∪ pw_revoked w2) w2).
  destruct (pay_revoked tokens lookup nonce_ttl pop_lifetime budget_micro bob issuer_pk bob_sub Hsub cred vc lo hi
    Hne eq_refl Hver w3 Hw2) as (w4 & Hrefused & Hw4 & Hsp4 & Hrv4); [cbn; set_solver|].
  set (w5 := set_revoked (pw_revoked w4 ∖ {[bob_sub]}) w4).
  destruct (pay_tampered tokens lookup nonce_ttl pop_lifetime budget_micro bob Htokens Httl issuer_pk bob_sub Hsub cred vc lo hi
    Hne eq_refl Hminute (conj Hpos Hbig) Hver w5 Hw4) as (w6 & Htampered & Hsp6 & Hrv6); [cbn; set_solver|].
  exists w6, bob_sub, (stub_outcome bob_sub). split_and!; [exact Hsub| |reflexivity|reflexivity|reflexivity| |].
  - unfold shadowpay_demo. rewrite (M_bind_lift _ _ _ _ Hpk), (M_bind_lift _ _ _ _ Hsub), (M_bind_run _ _ _ _ _ Hnow).
    rewrite (M_bind_lift _ _ _ _ Hpay), (M_bind_lift _ _ _ _ Hmint), (M_bind_run _ _ _ _ _ Hpaid).
    rewrite (M_bind_lift _ _ _ (stub_outcome bob_sub)), (M_bind_run _ _ _ w3 tt) by reflexivity. rewrite (M_bind_run _ _ _ _ _ Hrefused).
    rewrite (M_bind_lift _ _ _ (403, identity_revoked)), (M_bind_run _ _ _ w5 tt) by reflexivity. rewrite (M_bind_run _ _ _ _ _ Htampered).
    by rewrite (M_bind_lift _ _ _ (402, terms_mismatch)).
  - unfold spent_of in *. rewrite Hsp6. cbn. rewrite Hsp4. cbn. rewrite Hsp2, Hzero. done.
  - rewrite Hrv6. cbn. rewrite Hrv4. cbn. rewrite Hrv2, Hrv1, Hrv. set_solver.
Qed.
End whole.

(** ** A run of the demo *)

#[local] Existing Instance ascii_unicode.
#[local] Existing Instance strict_pydantic.
#[local] Existing Instance toy_jwt.
#[local] Existing Instance toy_jwt_laws.
#[local] Existing Instance toy_decode_laws.
#[local] Existing Instance no_floats.

(** A clock that advances by a tenth of a second at each reading. *)
Definition demo_start : PayWorld := {|
  pw_clock := 1777000000000000; pw_ticks := [100000; 100000; 100000; 100000; 100000]%N; pw_drawn := 0; pw_nonces := ∅;
  pw_spent := ∅; pw_revoked := ∅ |}.

Lemma payment_demo_holds_witness :
  ∃ w' paid, shadowpay_demo pay_tokens (λ _, Raise DNSException) 300 120 1000000 (5 : @ed_secret toy_ed25519)
      (6 : @ed_secret toy_ed25519) demo_start = (w', Ok (paid, (403, identity_revoked), (402, terms_mismatch)))
    ∧ so_success paid = true ∧ pw_revoked w' = ∅.
Proof.
  destruct (payment_demo_holds pay_tokens (λ _, Raise DNSException) 300 120 1000000 (5 : @ed_secret toy_ed25519)
    (6 : @ed_secret toy_ed25519) demo_start) as (w' & sub & paid & _ & Hrun & Hok & _ & _ & _ & Hrv).
  - intros i. apply wf_str_ascii, Forall_forall. intros c Hc. unfold pay_tokens in Hc.
    apply list_elem_of_In, repeat_spec in Hc. rewrite Hc. reflexivity.
  - lia.
  - reflexivity.
  - reflexivity.
  - vm_compute. discriminate.
  - vm_compute. discriminate.
  - vm_compute. reflexivity.
  - exists w', paid. exact (conj Hrun (conj Hok Hrv)).
Defined.
